(* ===== verification/_CoqProject ===== *)
-Q . S2P
Prelude.v
GoText.v
GoTime.v
GoDuration.v
GoNet.v
GoFlag.v
Uuid.v
Sha256.v
Schema.v
Fixture.v
Access.v
Nodes.v
NodesSpec.v
NodesCorrect.v
NodesRetry.v
NodesPaging.v
Sync.v
Favorites.v
Limiter.v
Sharing.v
SharingCorrect.v
Uploads.v
UploadsStorage.v
UploadsCorrect.v
UploadLocks.v
Auth.v
AuthCorrect.v
Session.v
SessionCorrect.v
Maintenance.v
MaintenancePurge.v
MaintenanceCorrect.v
MaintenanceLimits.v
DeviceAuth.v
Provisioning.v
Recovery.v
IdentityCorrect.v
GoServeContent.v
HttpApi.v
HttpBodies.v
HttpAuth.v
HttpVault.v
HttpRoutes.v
HttpCorrect.v
HttpSafety.v
HttpSession.v
Migrations.v
MigrationsCorrect.v
FileSystem.v
FileSystemLemmas.v
GoPath.v
SqliteFile.v
GoMux.v
HttpMux.v
HttpMuxCorrect.v
HttpServer.v
ServerIdentity.v
Backup.v
BackupCorrect.v
BackupStages.v
BackupRoundtrip.v
BackupRestore.v
ServerIdentityCorrect.v
BackupRuns.v
Config.v
ConfigCorrect.v
SecureTransport.v
SecureTransportCorrect.v
Main.v
MainCorrect.v
MainIdentity.v
MainAccounts.v
MainRuns.v
ServerRun.v
HttpRuns.v
Typing.v
TypingOps.v
TypingRun.v
Downloads.v
TypingRuns.v
