(* ===== verification/Prelude.v ===== *)
(** * The HomeBox server, verified

    HomeBox is a family file server that keeps only ciphertext.  The program
    is the Go server under [src/internal] and [src/cmd/homebox]: an HTTP API
    over SQLite and a directory of encrypted blobs.  This library models it
    whole, package by package, and proves what makes it correct.  Its clients
    (Flutter and Kotlin) are other programs and are not modelled.

    ** The program and the files

    The files build in the order of [_CoqProject].  In each, an operation is a
    definition with the name of its Go function or method.

    - Go's libraries, as far as the server uses them: [GoText] (strings,
      strconv, base64), [GoTime] (time, RFC 3339), [GoDuration]
      (ParseDuration, with the binary floating point of its fractions),
      [GoNet] (ParseIP, JoinHostPort, SplitHostPort), [GoPath] (paths as
      texts and as lists of names), [GoFlag] (flag), [GoMux] (http.ServeMux),
      [GoServeContent] (http.ServeContent: conditions, ranges and the answers
      to them), [Uuid], [Sha256], [FileSystem] (os and path/filepath over
      whole trees).
    - The data: [Schema] has a record per row of a table, the tables as finite
      maps with their constraints and statements ([DB]), and [World], a
      database with the storage tree; [Fixture] a small concrete database.
      [Migrations] (database/migrations.go, database.go) has the thirteen
      migrations as statements and the runner that applies them.
      [SqliteFile] is the boundary to the driver: the data source name, the
      file it is for, and the journal and log that lie beside a database.
    - The services, each a set of operations on [DB] or [World]: [Access]
      (access), [Nodes] (nodes: the tree of files and folders), [Uploads] and
      [UploadLocks] (uploads), [Sharing] (sharing: folder keys and shares),
      [Sync] (sync: the change feed), [Favorites], [Auth], [Session],
      [Limiter] (auth: accounts, tokens, login backoff), [DeviceAuth]
      (deviceauth: signed statements), [Provisioning], [Recovery],
      [Maintenance] (maintenance: retention and garbage collection).
    - The HTTP API (httpapi): [HttpApi] the frame of every handler,
      [HttpBodies] the bodies, [HttpAuth] and [HttpVault] the handlers,
      [HttpRoutes] the routes, [HttpMux] the table of patterns and what a
      handler reads of a request; [HttpServer] (httpserver) the operational
      endpoints, the security headers and both multiplexers.
    - The process: [ServerIdentity] (serveridentity), [SecureTransport]
      (securetransport), [Backup] (backup), [Config] (config), [Main]
      (cmd/homebox: every command, and [serve] up to listening), [ServerRun]
      ([serve] while it runs, as a transition system).

    A service operation is a function in the state and error monad [M] below:
    it returns a value or an [error], and the state it leaves in either case.
    A transaction is [tx], which undoes its writes on an error.  A handler is
    a function in [HttpApi.H], which may answer at any point, as the Go code
    does; a command in [Main.C], which may exit at any point.  The services
    call one another as the code does: [Nodes], [Uploads] and [Sharing] ask
    [Access] for grants and key scopes, [Provisioning] and [Recovery] check
    statements with [DeviceAuth], the handlers call the services on one
    [HttpApi.Server] (the world, the limiters and the log), and [ServerRun]
    interleaves requests with maintenance passes on it.

    ** What is proved

    - The whole program ([ServerRun], [Typing], [TypingOps], [TypingRun]): a
      vault built from an empty one by account commands, maintenance passes
      and runs of the server, through every interleaving of requests, passes,
      failures and the shutdown, is well formed.  It is sound: a forest of
      same-account directories, an ascending feed that has reached every
      revision, and for every blob and received chunk its file with the
      recorded size and hash.  It is well typed: the CHECK, UNIQUE and
      REFERENCES constraints of the schema hold of all its tables.  And each
      file shows a version of its own.  So what may be read can be downloaded
      ([Downloads]): the whole content, or the part a resumed download asks
      for, byte for byte.
    - Who may do what ([HttpServer], [HttpCorrect], [HttpSafety]): every
      answer but the refusal of a range forbids caching; a request
      without a valid token changes nothing outside the three session
      endpoints; every other request acts as one service call by the account
      and device of its token; and a changed node is owned or shared for
      writing to that account.
    - The abstract specification of the node service ([NodesSpec]): every
      request refines a sequence of authorized single-row steps, each
      recorded in the feed; retries answer as the first time ([NodesRetry]);
      walking the pages of a listing gives the listing ([NodesPaging]).
    - Uploads ([UploadsStorage], [UploadsCorrect], [UploadLocks]): committed
      ciphertext is never lost or altered, completion publishes exactly the
      uploaded bytes, the keyed mutex excludes and drains.
    - Sessions ([SessionCorrect], [HttpSession]): logins, token rotation,
      reuse detection, revocation; [Limiter] for any interleaving of attempts.
    - Sharing, feed, identities, retention ([SharingCorrect], [Sync],
      [IdentityCorrect], [MaintenanceCorrect], [MaintenancePurge],
      [MaintenanceLimits]).
    - Disaster ([BackupRoundtrip], [BackupRestore], [ServerIdentityCorrect],
      [MigrationsCorrect]): a backup or restore happens wholly or not at all,
      what was saved is restored, both as long as no path has a question mark
      in it ([BackupRuns] shows what happens then, and what a journal beside a
      backup's database does); the identity key is written once, and every
      interrupted history of migrations ends in the same schema.
    - The edges ([HttpMuxCorrect], [ConfigCorrect], [MainCorrect],
      [MainIdentity], [MainAccounts], [SecureTransportCorrect]): every route
      is reached by its request line; durations are exact up to stated bounds,
      and within them the accepted configurations are those with which the
      listener, the services and the maintenance ticker work and the vault's
      fixed promises hold; the printed fingerprint pins the server, nothing but
      a fingerprint can be pinned, and a typed password opens the account it
      was typed for.

    Files ending in [Runs], and the ends of the others, hold concrete runs
    that the theorems are applied to.

    ** Fuel and bounds

    Recursion that is not structural has fuel, and running out is never a
    silent answer.  A climb through the parents has one step per row and
    [Err Diverges] beyond ([Access.ancestors]; complete on every forest, and
    the services keep the table one); the walk of [Nodes.forbidCycle] stops
    after ten thousand steps with an error because the code does; descents and
    the climb that skips rows already met have one step per row, proved
    enough.  Temporary names are tried ten thousand times, as Go does.
    Parsers have the length of their input.  Integers are [Z]; the places
    where 64 bits matter are written out: [wrap64] for products, the range of
    [ParseInt64], and the full table counter of the feed.

    ** What is assumed

    Code that is not the repository's is an interface, with what is relied on
    as laws: [UuidLib], [TimeParser] (times that are not in Go's own format),
    [Argon2], [Ed25519], [ECKeys], [X509], [Sqlite] (which file a data source
    name is for, and what reading a database does to its files) and
    [DatabaseFile] (the bytes of the server's own database, its log counted
    in), [ManifestJSON], [JsonBodies], [Yaml].  The clock, random bytes, new
    identifiers, the failures of opening a stored file and the order in which
    a map is walked are arguments.  SQLite is taken to execute the statements
    as [Schema] writes them, one transaction at a time.  Otherwise the file
    system does what it is asked or fails for the state it is in: full disks,
    permissions and lost writes are outside, symbolic links are not followed.

    ** What is not modelled

    Service calls run one after another: two requests interleave between
    calls, not inside one (the upload lock and the login limiter, which the
    code has for that, are proved for arbitrary interleavings).  A call that
    a cancelled context cuts short, a connection or a disk that fails while
    content is being sent, the timeouts of the listener, the TLS handshake, and
    the words of log lines and of most messages are left out. *)

(** ** What the shared prelude holds

    The result type of fallible Go code, the state monad in which the
    handlers are written, SQL transactions with rollback, the BINARY text
    order SQLite uses, 64-bit integer wrap-around, and the tactics and
    generic lemmas the component files share. *)

From stdpp Require Export base tactics option list gmap strings fin_maps
  numbers sorting.
From Stdlib Require Export Strings.Byte.

#[global] Set Default Goal Selector "!".

Declare Scope homebox_scope.
Delimit Scope homebox_scope with hb.

(** ** Errors

    Every package declares sentinel errors; [error] collects them so that a
    handler that calls into several packages has one error type, exactly as
    Go's [error] interface does.  [Internal] stands for every error that is
    no sentinel (driver errors, parse failures); [SqlUnique] and
    [SqlForeignKey] are the two constraint violations SQLite reports, which
    the code tells apart by their text; [Diverges] marks a query that never
    returns. *)

Inductive nodes_error : Type :=
| NodesErrNotFound
| NodesErrForbidden
| NodesErrRevisionConflict
| NodesErrInvalidParent.

Inductive uploads_error : Type :=
| UploadsErrNotFound
| UploadsErrForbidden
| UploadsErrInvalidState
| UploadsErrChunkConflict
| UploadsErrMissingChunks
| UploadsErrRevisionConflict
| UploadsErrTargetNodeMissing
| UploadsErrIDConflict
| UploadsErrTooManyUploads.

Inductive sharing_error : Type :=
| SharingErrNotFound
| SharingErrForbidden
| SharingErrAlreadyShared
| SharingErrTargetNotFound
| SharingErrKeyConflict.

Inductive auth_error : Type :=
| AuthErrInvalidCredentials
| AuthErrAccountDisabled
| AuthErrDeviceRevoked
| AuthErrDeviceConflict
| AuthErrTokenInvalid
| AuthErrNotFound
| AuthErrRateLimited.

Inductive provisioning_error : Type :=
| ProvisioningErrNotFound
| ProvisioningErrIdentityConflict.

Inductive recovery_error : Type :=
| RecoveryErrNotFound
| RecoveryErrIdentityConflict.

Inductive error : Type :=
| Validation (message : string)
| ENodes (e : nodes_error)
| EUploads (e : uploads_error)
| ESharing (e : sharing_error)
| EAuth (e : auth_error)
| EProvisioning (e : provisioning_error)
| ERecovery (e : recovery_error)
| SyncErrInvalidCursor
| FavoritesErrNotFound
| MaintenanceErrNotInTrash
| Internal (message : string)
| SqlUnique (columns : string)
| SqlForeignKey
| Diverges.

Inductive result (A : Type) : Type :=
| Ok (a : A)
| Err (e : error).
Arguments Ok {A} a.
Arguments Err {A} e.

#[global] Instance nodes_error_eq_dec : EqDecision nodes_error.
Proof. solve_decision. Defined.
#[global] Instance uploads_error_eq_dec : EqDecision uploads_error.
Proof. solve_decision. Defined.
#[global] Instance sharing_error_eq_dec : EqDecision sharing_error.
Proof. solve_decision. Defined.
#[global] Instance auth_error_eq_dec : EqDecision auth_error.
Proof. solve_decision. Defined.
#[global] Instance provisioning_error_eq_dec : EqDecision provisioning_error.
Proof. solve_decision. Defined.
#[global] Instance recovery_error_eq_dec : EqDecision recovery_error.
Proof. solve_decision. Defined.
#[global] Instance error_eq_dec : EqDecision error.
Proof. solve_decision. Defined.
#[global] Instance byte_eq_decision : EqDecision byte := Byte.byte_eq_dec.

(** The error type of a client mistake that is safe to show verbatim. *)
Definition NewValidation (message : string) : error := Validation message.

#[global] Instance result_ret : MRet result := fun _ a => Ok a.
#[global] Instance result_bind : MBind result := fun _ _ f r =>
  match r with Ok a => f a | Err e => Err e end.

Definition is_ok {A} (r : result A) : bool :=
  match r with Ok _ => true | Err _ => false end.

(** ** The state monad of the handlers

    [M St A] is a Go function that reads and writes the state [St] and either
    returns a value or an error.  An error leaves the state as it is at that
    point: only a transaction rolls back. *)

Definition M (St A : Type) : Type := St -> result A * St.

#[global] Instance M_ret {St} : MRet (M St) := fun _ a s => (Ok a, s).
#[global] Instance M_bind {St} : MBind (M St) := fun _ _ f m s =>
  match m s with (Ok a, s') => f a s' | (Err e, s') => (Err e, s') end.

Definition throw {St A} (e : error) : M St A := fun s => (Err e, s).
Definition throw_if {St} (b : bool) (e : error) : M St unit :=
  fun s => (if b then Err e else Ok tt, s).
Definition lift {St A} (r : result A) : M St A := fun s => (r, s).
(** A read-only query. *)
Definition query {St A} (q : St -> result A) : M St A := fun s => (q s, s).
(** A statement that always succeeds. *)
Definition modify {St} (f : St -> St) : M St unit := fun s => (Ok tt, f s).
(** A write statement that may violate a constraint. *)
Definition exec {St} (f : St -> result St) : M St unit :=
  fun s => match f s with Ok s' => (Ok tt, s') | Err e => (Err e, s) end.
(** [BeginTx .. Commit]: an error rolls every write of the body back. *)
Definition tx {St A} (m : M St A) : M St A := fun s =>
  match m s with (Ok a, s') => (Ok a, s') | (Err e, _) => (Err e, s) end.


(** Running [f] on every element in order, stopping at the first error. *)
Fixpoint mfor {St A} (f : nat -> A -> M St unit) (i : nat) (l : list A) : M St unit :=
  match l with
  | [] => mret tt
  | x :: l' => f i x ;; mfor f (S i) l'
  end.

Fixpoint mmap_list {St A B} (f : A -> M St B) (l : list A) : M St (list B) :=
  match l with
  | [] => mret []
  | x :: l' => y ← f x; ys ← mmap_list f l'; mret (y :: ys)
  end.

(** A loop that counts the iterations that report [true]. *)
Fixpoint mcount {St A} (f : A -> M St bool) (l : list A) : M St nat :=
  match l with
  | [] => mret 0
  | x :: rest => b ← f x; n ← mcount f rest; mret (if b : bool then S n else n)
  end.


(** Decoding every row of a result set. *)
Fixpoint rmap {A B} (f : A -> result B) (l : list A) : result (list B) :=
  match l with
  | [] => Ok []
  | x :: l' => y ← f x; ys ← rmap f l'; Ok (y :: ys)
  end.

(** ** Text comparison (SQLite's BINARY collation) and 64-bit integers *)

Definition text_lt (a b : string) : bool := String.ltb a b.
Definition text_le (a b : string) : bool := String.leb a b.

Definition max_int64 : Z := 9223372036854775807.
Definition min_int64 : Z := -9223372036854775808.
Definition wrap64 (z : Z) : Z :=
  (z + 9223372036854775808) mod 18446744073709551616 - 9223372036854775808.

Definition is_valid {A} (o : option A) : bool := match o with Some _ => true | None => false end.
Definition is_null {A} (o : option A) : bool := match o with Some _ => false | None => true end.

(** Number of rows of a table that satisfy a condition ([SELECT COUNT]). *)
Definition count_rows {K V} `{Countable K} (P : K -> V -> bool) (m : gmap K V) : nat :=
  length (List.filter (fun kv => P kv.1 kv.2) (map_to_list m)).
(** [SELECT EXISTS]. *)
Definition exists_row {K V} `{Countable K} (P : K -> V -> bool) (m : gmap K V) : bool :=
  List.existsb (fun kv => P kv.1 kv.2) (map_to_list m).
(** [SELECT * .. WHERE]. *)
Definition select_rows {K V} `{Countable K} (P : K -> V -> bool) (m : gmap K V) : list (K * V) :=
  List.filter (fun kv => P kv.1 kv.2) (map_to_list m).
(** [DELETE .. WHERE]. *)
Definition delete_rows {K V} `{Countable K} (P : K -> V -> bool) (m : gmap K V) : gmap K V :=
  filter (fun kv => P kv.1 kv.2 = false) m.
(** [UPDATE .. WHERE]. *)
Definition update_rows {K V} `{Countable K} (P : K -> V -> bool) (f : V -> V) (m : gmap K V) : gmap K V :=
  map_imap (fun k v => Some (if P k v then f v else v)) m.

(** [ORDER BY]: a stable insertion sort on a boolean order. *)
Section order_by.
Context {A : Type} (le : A -> A -> bool).

Fixpoint insert_by (x : A) (l : list A) : list A :=
  match l with
  | [] => [x]
  | y :: l' => if le x y then x :: l else y :: insert_by x l'
  end.
Definition order_by (l : list A) : list A := foldr insert_by [] l.

Lemma insert_by_perm x l : insert_by x l ≡ₚ x :: l.
Proof.
  induction l as [|y l IH]; simpl; [done|]. destruct (le x y); [done|].
  rewrite IH. apply Permutation_swap.
Qed.

Lemma order_by_perm l : order_by l ≡ₚ l.
Proof. induction l as [|x l IH]; simpl; [done|]. by rewrite insert_by_perm, IH. Qed.

Hypothesis le_total : forall x y, le x y = true \/ le y x = true.
Hypothesis le_trans : forall x y z, le x y = true -> le y z = true -> le x z = true.

Lemma insert_by_sorted x l : StronglySorted le l -> StronglySorted le (insert_by x l).
Proof.
  induction 1 as [|y l Hl IH Hy]; simpl; [by repeat constructor|].
  destruct (le x y) eqn:E.
  - constructor; [by constructor|]. constructor; [by rewrite E|].
    eapply Forall_impl; [exact Hy|]. intros z Hz. apply Is_true_true. apply Is_true_true in Hz. eauto.
  - constructor; [done|]. rewrite insert_by_perm. constructor; [|done].
    apply Is_true_true. destruct (le_total x y); congruence.
Qed.

Lemma order_by_sorted l : StronglySorted le (order_by l).
Proof. induction l; simpl; [constructor|by apply insert_by_sorted]. Qed.

Lemma insert_by_filter (P : A -> bool) x l : StronglySorted le l ->
  List.filter P (insert_by x l) = if P x then insert_by x (List.filter P l) else List.filter P l.
Proof.
  induction 1 as [|y l Hl IH Hy]; simpl; [by destruct (P x)|].
  destruct (le x y) eqn:E.
  - simpl. destruct (P x); [|done]. destruct (P y); simpl; [by rewrite E|].
    assert (Hx : Forall (fun z => le x z = true) (List.filter P l)).
    { apply Forall_forall. intros z Hz. apply list_elem_of_In, List.filter_In in Hz as [Hz _].
      rewrite Forall_forall in Hy. specialize (Hy z (proj2 (list_elem_of_In _ _) Hz)). apply Is_true_true in Hy. eauto. }
    destruct (List.filter P l) as [|z l']; simpl; [done|]. apply Forall_cons in Hx as [-> _]. done.
  - simpl. rewrite IH. destruct (P x), (P y); simpl; rewrite ?E; done.
Qed.

(** Filtering a sorted result is sorting the filtered rows. *)
Lemma order_by_filter (P : A -> bool) l : List.filter P (order_by l) = order_by (List.filter P l).
Proof.
  induction l as [|x l IH]; simpl; [done|]. rewrite insert_by_filter by apply order_by_sorted.
  rewrite IH. by destruct (P x).
Qed.
End order_by.

(** ** Lemmas: the monad *)

Section monad_lemmas.
Context {St : Type}.

Lemma bind_ok_inv {A B} (m : M St A) (f : A -> M St B) s b s' :
  (m ≫= f) s = (Ok b, s') -> exists a s1, m s = (Ok a, s1) /\ f a s1 = (Ok b, s').
Proof.
  unfold mbind, M_bind. destruct (m s) as [[a|e] s1]; [by eauto|done].
Qed.

Lemma bind_ok {A B} (m : M St A) (f : A -> M St B) s a s1 :
  m s = (Ok a, s1) -> (m ≫= f) s = f a s1.
Proof. unfold mbind, M_bind. by intros ->. Qed.

Lemma bind_err {A B} (m : M St A) (f : A -> M St B) s e s1 :
  m s = (Err e, s1) -> (m ≫= f) s = (Err e, s1).
Proof. unfold mbind, M_bind. by intros ->. Qed.

(** To run a computation on a concrete state, evaluate its answer only. *)
Lemma run_ok {A} (m : M St A) s : is_ok (m s).1 = true -> exists a, m s = (Ok a, (m s).2).
Proof. destruct (m s) as [[a|e] s']; [by exists a|done]. Qed.

Lemma ret_ok_inv {A} (a : A) (s : St) b s' :
  (mret a : M St A) s = (Ok b, s') -> a = b /\ s = s'.
Proof. by intros [= <- <-]. Qed.

Lemma throw_if_ok_inv b e (s : St) u s' :
  throw_if b e s = (Ok u, s') -> b = false /\ s' = s.
Proof. unfold throw_if. by destruct b; intros [= <- <-]. Qed.

Lemma throw_if_false b e (s : St) : b = false -> throw_if b e s = (Ok tt, s).
Proof. by intros ->. Qed.

Lemma throw_if_bind {A} b e (m : M St A) s : b = false -> (throw_if b e ;; m) s = m s.
Proof. by intros ->. Qed.

Lemma throw_if_true b e (s : St) : b = true -> throw_if b e s = (Err e, s).
Proof. by intros ->. Qed.

Lemma lift_ok_inv {A} (r : result A) (s : St) a s' :
  lift r s = (Ok a, s') -> r = Ok a /\ s' = s.
Proof. unfold lift. by intros [= -> <-]. Qed.

Lemma query_ok_inv {A} (q : St -> result A) s a s' :
  query q s = (Ok a, s') -> q s = Ok a /\ s' = s.
Proof. unfold query. by intros [= -> <-]. Qed.

Lemma modify_ok_inv (f : St -> St) s u s' : modify f s = (Ok u, s') -> s' = f s.
Proof. by intros [= <- <-]. Qed.

Lemma exec_ok_inv (f : St -> result St) s u s' :
  exec f s = (Ok u, s') -> f s = Ok s'.
Proof. unfold exec. by destruct (f s); intros [= <- <-]. Qed.

Lemma tx_ok_inv {A} (m : M St A) s a s' : tx m s = (Ok a, s') -> m s = (Ok a, s').
Proof. unfold tx. by destruct (m s) as [[?|?] ?]. Qed.

(** A failed transaction leaves the state as it was. *)
Lemma tx_err_inv {A} (m : M St A) s e s' : tx m s = (Err e, s') -> s' = s.
Proof. unfold tx. destruct (m s) as [[?|?] ?]; naive_solver. Qed.

(** A computation that writes nothing, whatever it returns. *)
Definition pure_m {A} (m : M St A) : Prop := forall s, (m s).2 = s.

Lemma pure_query {A} (q : St -> result A) : pure_m (query q).
Proof. done. Qed.
Lemma pure_lift {A} (r : result A) : pure_m (lift (St:=St) r).
Proof. done. Qed.
Lemma pure_throw_if b e : pure_m (throw_if (St:=St) b e).
Proof. done. Qed.
Lemma pure_ret {A} (a : A) : pure_m (mret a : M St A).
Proof. done. Qed.
Lemma pure_bind {A B} (m : M St A) (f : A -> M St B) :
  pure_m m -> (forall a, pure_m (f a)) -> pure_m (m ≫= f).
Proof.
  intros Hm Hf s. unfold mbind, M_bind. specialize (Hm s).
  destruct (m s) as [[a|e] s1]; simpl in *; subst; [apply Hf|done].
Qed.

(** A computation that leaves the state as it was when it fails: guards that
    write nothing, then one transaction. *)
Definition rolls_back {A} (m : M St A) : Prop := forall s, is_ok (m s).1 = false -> (m s).2 = s.

Lemma rolls_back_pure {A} (m : M St A) : pure_m m -> rolls_back m.
Proof. intros H s _. apply H. Qed.
Lemma rolls_back_tx {A} (m : M St A) : rolls_back (tx m).
Proof. intros s. unfold tx. by destruct (m s) as [[a|e] s']. Qed.
Lemma rolls_back_guard {A B} (m : M St A) (f : A -> M St B) :
  pure_m m -> (forall a, rolls_back (f a)) -> rolls_back (m ≫= f).
Proof.
  intros Hm Hf s. unfold mbind, M_bind. specialize (Hm s).
  destruct (m s) as [[a|e] s1]; simpl in *; subst; [apply Hf|done].
Qed.

(** After a transaction, a computation that writes nothing: an error of the
    whole leaves either the old state or the committed one. *)
Lemma tx_then_pure {A B} (m : M St A) (f : A -> M St B) s r s' :
  (forall a, pure_m (f a)) -> (tx m ≫= f) s = (r, s') ->
  s' = s \/ exists a, m s = (Ok a, s').
Proof.
  intros Hf. unfold mbind, M_bind, tx.
  destruct (m s) as [[a|e] s1] eqn:E; [|naive_solver].
  intros Hs. specialize (Hf a s1). rewrite Hs in Hf. simpl in Hf. subst. eauto.
Qed.
End monad_lemmas.

(** Every run of [m], failed or not, relates the state before to the state
    after by the preorder [R]. *)
Section stays.
Context {St : Type} (R : relation St) `{!PreOrder R}.

Definition stays {A} (m : M St A) : Prop := forall s, R s (m s).2.

Lemma stays_pure {A} (m : M St A) : pure_m m -> stays m.
Proof. intros Hm s. rewrite Hm. reflexivity. Qed.
Lemma stays_query {A} (q : St -> result A) : stays (query q).
Proof. by apply stays_pure, pure_query. Qed.
Lemma stays_lift {A} (r : result A) : stays (lift r).
Proof. by apply stays_pure, pure_lift. Qed.
Lemma stays_throw_if b e : stays (throw_if b e).
Proof. by apply stays_pure, pure_throw_if. Qed.
Lemma stays_throw {A} e : stays (throw e : M St A).
Proof. intros s. reflexivity. Qed.
Lemma stays_ret {A} (a : A) : stays (mret a).
Proof. intros s. reflexivity. Qed.
Lemma stays_modify f : (forall s, R s (f s)) -> stays (modify f).
Proof. done. Qed.
Lemma stays_exec f : (forall s s', f s = Ok s' -> R s s') -> stays (exec f).
Proof. intros H s. unfold exec. destruct (f s) eqn:E; simpl; [by apply H|reflexivity]. Qed.
Lemma stays_bind {A B} (m : M St A) (f : A -> M St B) : stays m -> (forall a, stays (f a)) -> stays (m ≫= f).
Proof.
  intros Hm Hf s. unfold mbind, M_bind. specialize (Hm s).
  destruct (m s) as [[a|e] s1]; simpl in *; [|done]. etrans; [done|apply Hf].
Qed.
Lemma stays_mcount {A} (f : A -> M St bool) l : (forall x, stays (f x)) -> stays (mcount f l).
Proof.
  intros Hf. induction l as [|x l IH]; simpl; [apply stays_ret|].
  apply stays_bind; [apply Hf|intros b]. apply stays_bind; [done|intros n]. apply stays_ret.
Qed.
Lemma stays_mfor {A} (f : nat -> A -> M St unit) i l : (forall j x, stays (f j x)) -> stays (mfor f i l).
Proof.
  intros Hf. revert i. induction l as [|x l IH]; intros i; simpl; [apply stays_ret|].
  apply stays_bind; [apply Hf|intros _; apply IH].
Qed.
Lemma stays_tx {A} (m : M St A) : stays m -> stays (tx m).
Proof. intros Hm s. specialize (Hm s). unfold tx. destruct (m s) as [[a|e] s1]; [done|reflexivity]. Qed.
End stays.

Lemma rbind_ok_inv {A B} (r : result A) (f : A -> result B) b :
  (r ≫= f) = Ok b -> exists a, r = Ok a /\ f a = Ok b.
Proof. destruct r; [by eauto|done]. Qed.

(** ** Tactics *)

(** [inv_ok H] walks through a handler that returned [Ok], guard by guard. *)
Ltac inv_ok_step H :=
  lazymatch type of H with
  | (mbind _ _) _ = (Ok _, _) =>
      let a := fresh "a" in let s1 := fresh "s" in let H1 := fresh "H" in
      apply bind_ok_inv in H as (a & s1 & H1 & H); inv_ok_step H1
  | (mbind _ _) = Ok _ =>
      let a := fresh "a" in let H1 := fresh "H" in
      apply rbind_ok_inv in H as (a & H1 & H); inv_ok_step H1
  | throw_if _ _ _ = (Ok _, _) => first [apply throw_if_ok_inv in H as [H ->] | apply throw_if_ok_inv in H as [H _]]
  | lift _ _ = (Ok _, _) => first [apply lift_ok_inv in H as [H ->] | apply lift_ok_inv in H as [H _]]
  | query _ _ = (Ok _, _) => first [apply query_ok_inv in H as [H ->] | apply query_ok_inv in H as [H _]]
  | modify _ _ = (Ok _, _) => apply modify_ok_inv in H as ->
  | exec _ _ = (Ok _, _) => apply exec_ok_inv in H
  | tx _ _ = (Ok _, _) => apply tx_ok_inv in H; inv_ok_step H
  | throw _ _ = (Ok _, _) => unfold throw in H; discriminate H
  | mret _ ?s = (Ok _, _) =>
      first [is_var s; apply ret_ok_inv in H as [H ->] | apply ret_ok_inv in H as [H <-] | apply ret_ok_inv in H as [H _]]
  | Err _ = Ok _ => discriminate H
  | Ok _ = Ok _ => injection H as H
  | mret _ = Ok _ => injection H as H
  | _ => idtac
  end.
Ltac inv_ok H := repeat (progress inv_ok_step H).

(** [go_cases H] splits the first [match] or [if] of a hypothesis. *)
Ltac go_cases H :=
  let E := fresh "E" in
  match type of H with
  | context [match ?x with _ => _ end] => destruct x eqn:E; try discriminate H
  end.

Ltac solve_stays :=
  repeat lazymatch goal with
  | |- stays _ (mbind _ _) => apply stays_bind; [exact _| |intros ?]
  | |- stays _ (query _) => apply stays_query; exact _
  | |- stays _ (lift _) => apply stays_lift; exact _
  | |- stays _ (throw_if _ _) => apply stays_throw_if; exact _
  | |- stays _ (throw _) => apply stays_throw; exact _
  | |- stays _ (mret _) => apply stays_ret; exact _
  | |- stays _ (tx _) => apply stays_tx; [exact _|]
  | |- stays _ (match _ with _ => _ end) => case_match
  end.

Ltac solve_pure :=
  repeat first
    [ apply pure_query | apply pure_lift | apply pure_throw_if | apply pure_ret
    | apply pure_bind; [|intros ?] | progress case_match | done ].

Ltac solve_rolls_back :=
  repeat first
    [ apply rolls_back_tx | apply rolls_back_guard; [solve [solve_pure]|intros ?] | apply rolls_back_pure; solve [solve_pure]
    | progress case_match ].

(** ** Lemmas: decoding and filtering result sets *)

Lemma rmap_take {A B} (f : A -> result B) n l s : rmap f l = Ok s -> rmap f (take n l) = Ok (take n s).
Proof.
  revert n s; induction l as [|x l IH]; intros n s H; simpl in H; inv_ok H.
  - subst. by destruct n.
  - subst. destruct n as [|n]; [done|]. simpl. rewrite H0. simpl.
    match goal with HR : rmap f l = Ok _ |- _ => by rewrite (IH n _ HR) end.
Qed.

Lemma rmap_length {A B} (f : A -> result B) l s : rmap f l = Ok s -> length s = length l.
Proof.
  revert s; induction l as [|x l IH]; intros s H; simpl in H; inv_ok H; subst; [done|]. simpl.
  match goal with HR : rmap f l = Ok _ |- _ => by rewrite (IH _ HR) end.
Qed.

Lemma rmap_app_inv {A B} (f : A -> result B) l1 l2 s :
  rmap f (l1 ++ l2) = Ok s -> exists s1 s2, rmap f l1 = Ok s1 /\ rmap f l2 = Ok s2 /\ s = (s1 ++ s2)%list.
Proof.
  revert s; induction l1 as [|x l1 IH]; intros s H; [by exists [], s|]. simpl in H. inv_ok H. subst.
  match goal with HR : rmap f (l1 ++ l2) = Ok _ |- _ => destruct (IH _ HR) as (s1 & s2 & E1 & E2 & ->) end.
  eexists (_ :: s1), s2. simpl. rewrite H0. simpl. by rewrite E1.
Qed.

Lemma rmap_app {A B} (f : A -> result B) l1 l2 s1 s2 :
  rmap f l1 = Ok s1 -> rmap f l2 = Ok s2 -> rmap f (l1 ++ l2) = Ok (s1 ++ s2)%list.
Proof.
  revert s1; induction l1 as [|x l1 IH]; intros s1 H1 H2; simpl in *; inv_ok H1; subst; [done|].
  rewrite H. simpl. match goal with HR : rmap f l1 = Ok _ |- _ => by rewrite (IH _ HR H2) end.
Qed.

Lemma StronglySorted_List_filter {A} (R : A -> A -> Prop) (P : A -> bool) l :
  StronglySorted R l -> StronglySorted R (List.filter P l).
Proof.
  induction 1 as [|x l Hl IH Hx]; simpl; [constructor|]. destruct (P x); [|done].
  constructor; [done|]. apply Forall_forall. intros y Hy. apply list_elem_of_In, List.filter_In in Hy as [Hy _].
  rewrite Forall_forall in Hx. by apply Hx, list_elem_of_In.
Qed.

Lemma filter_all {A} (P : A -> bool) l : Forall (fun x => P x = true) l -> List.filter P l = l.
Proof. induction 1 as [|x l Hx _ IH]; simpl; [done|]. by rewrite Hx, IH. Qed.

Lemma filter_none {A} (P : A -> bool) l : Forall (fun x => P x = false) l -> List.filter P l = [].
Proof. induction 1 as [|x l Hx _ IH]; simpl; [done|]. by rewrite Hx. Qed.

Lemma rmap_all_ok {A B} (f : A -> result B) l :
  Forall (fun x => is_ok (f x) = true) l -> exists s, rmap f l = Ok s.
Proof.
  induction 1 as [|x l Hx _ [s IH]]; [by exists []|]. simpl. destruct (f x) as [y|]; [|done].
  simpl. rewrite IH. simpl. eauto.
Qed.
