(* ===== verification/GoText.v ===== *)
(** * Go's [strconv], [strings] and [encoding/base64] as the server uses them

    Decimal printing and parsing of 64-bit integers, splitting at a
    separator, prefix and suffix tests, unpadded URL base64, and the
    lemmas about SQLite's text order that the time stamps rely on. *)

From S2P Require Import Prelude.
From Stdlib Require Import Ascii String.
Local Open Scope string_scope.
Local Open Scope Z_scope.
#[local] Ltac Zify.zify_post_hook ::= Z.div_mod_to_equations.
#[local] Arguments String.append !_ _ : simpl nomatch.

(** ** Decimal digits *)

Definition digit (z : Z) : ascii := ascii_of_N (Z.to_N (48 + z mod 10)).

Definition digit_val (c : ascii) : option Z :=
  let n := Z.of_N (N_of_ascii c) in
  if (48 <=? n) && (n <=? 57) then Some (n - 48) else None.

(** A hexadecimal digit of either case. *)
Definition hex_digit_val (c : ascii) : option Z :=
  let n := Z.of_N (N_of_ascii c) in
  if (48 <=? n) && (n <=? 57) then Some (n - 48)
  else if (97 <=? n) && (n <=? 102) then Some (n - 87)
  else if (65 <=? n) && (n <=? 70) then Some (n - 55) else None.

(** [digits n z]: exactly [n] decimal digits of [z], most significant first. *)
Fixpoint digits (n : nat) (z : Z) : string :=
  match n with
  | O => ""
  | S n' => digits n' (z / 10) ++ String (digit z) ""
  end.

(** [strconv.FormatInt(z, 10)]: [fuel] digits are enough below [10^fuel]. *)
Fixpoint format_uint (fuel : nat) (z : Z) (acc : string) : string :=
  match fuel with
  | O => acc
  | S f =>
      let acc' := String (digit z) acc in
      if z <? 10 then acc' else format_uint f (z / 10) acc'
  end.

Definition FormatInt (z : Z) : string :=
  if z <? 0 then String "-" (format_uint 20 (- z) "") else format_uint 20 z "".

(** The digits of a number, continuing from [acc]; [None] on any other byte. *)
Fixpoint parse_uint (s : string) (acc : Z) : option Z :=
  match s with
  | "" => Some acc
  | String c s' =>
      match digit_val c with
      | Some d => parse_uint s' (acc * 10 + d)
      | None => None
      end
  end.

(** [strconv.ParseInt(s, 10, 64)]: an optional sign and at least one digit;
    out-of-range values are an error. *)
Definition ParseInt64 (s : string) : result Z :=
  let finish (sign : Z) (t : string) :=
    if String.eqb t "" then Err (Internal "invalid syntax") else
    match parse_uint t 0 with
    | None => Err (Internal "invalid syntax")
    | Some n =>
        let v := sign * n in
        if (min_int64 <=? v) && (v <=? max_int64) then Ok v else Err (Internal "value out of range")
    end in
  match s with
  | String "-" t => finish (-1) t
  | String "+" t => finish 1 t
  | _ => finish 1 s
  end.

(** ** Package strings *)

(** [strings.Cut(s, sep)] for a one-byte separator. *)
Fixpoint Cut (s : string) (sep : ascii) : option (string * string) :=
  match s with
  | "" => None
  | String c s' =>
      if Ascii.eqb c sep then Some ("", s')
      else match Cut s' sep with Some (a, b) => Some (String c a, b) | None => None end
  end.

(** [strings.SplitN(s, sep, 2)]. *)
Definition SplitN2 (s : string) (sep : ascii) : list string :=
  match Cut s sep with Some (a, b) => [a; b] | None => [s] end.

(** [strings.Split(s, sep)]: the first field starts with [cur]. *)
Fixpoint Split_from (s : string) (sep : ascii) (cur : string) : list string :=
  match s with
  | "" => [cur]
  | String c s' =>
      if Ascii.eqb c sep then cur :: Split_from s' sep ""
      else Split_from s' sep (cur ++ String c "")
  end.
Definition Split (s : string) (sep : ascii) : list string := Split_from s sep "".

Fixpoint HasPrefix (s prefix : string) : bool :=
  match prefix, s with
  | "", _ => true
  | String p ps, String c cs => Ascii.eqb p c && HasPrefix cs ps
  | String _ _, "" => false
  end.
Fixpoint string_drop (n : nat) (s : string) : string :=
  match n, s with
  | O, _ => s
  | S n', String _ s' => string_drop n' s'
  | S _, "" => ""
  end.
Fixpoint string_take (n : nat) (s : string) : string :=
  match n, s with
  | S n', String c s' => String c (string_take n' s')
  | _, _ => ""
  end.
Definition HasSuffix (s suffix : string) : bool :=
  (String.length suffix <=? String.length s)%nat &&
  String.eqb (string_drop (String.length s - String.length suffix) s) suffix.
Definition TrimPrefix (s prefix : string) : string :=
  if HasPrefix s prefix then string_drop (String.length prefix) s else s.
Definition TrimSuffix (s suffix : string) : string :=
  if HasSuffix s suffix then string_take (String.length s - String.length suffix) s else s.
(** [strings.Count(s, c)] for a one-byte substring. *)
Fixpoint Count (s : string) (c : ascii) : nat :=
  match s with
  | "" => 0
  | String d s' => if Ascii.eqb d c then S (Count s' c) else Count s' c
  end%nat.

(** Every byte of [s] differs from [c]. *)
Fixpoint no_char (c : ascii) (s : string) : bool :=
  match s with "" => true | String d s' => negb (Ascii.eqb d c) && no_char c s' end.

(** Every byte of [s] passes [f]. *)
Fixpoint string_forall (f : ascii -> bool) (s : string) : bool :=
  match s with "" => true | String c s' => f c && string_forall f s' end.

(** ** [base64.RawURLEncoding] on the bytes of a string *)

Definition b64_char (v : Z) : ascii :=
  ascii_of_N (Z.to_N
    (if v <? 26 then 65 + v else if v <? 52 then 71 + v
     else if v <? 62 then v - 4 else if v =? 62 then 45 else 95)).

Definition b64_val (c : ascii) : option Z :=
  let n := Z.of_N (N_of_ascii c) in
  if (65 <=? n) && (n <=? 90) then Some (n - 65)
  else if (97 <=? n) && (n <=? 122) then Some (n - 71)
  else if (48 <=? n) && (n <=? 57) then Some (n + 4)
  else if n =? 45 then Some 62 else if n =? 95 then Some 63 else None.

Definition byte_val (c : ascii) : Z := Z.of_N (N_of_ascii c).
Definition byte_char (v : Z) : ascii := ascii_of_N (Z.to_N v).

Fixpoint b64_encode (s : string) : string :=
  match s with
  | String a (String b (String c s')) =>
      let x := byte_val a in let y := byte_val b in let z := byte_val c in
      String (b64_char (x / 4)) (String (b64_char (x mod 4 * 16 + y / 16))
        (String (b64_char (y mod 16 * 4 + z / 64)) (String (b64_char (z mod 64)) (b64_encode s'))))
  | String a (String b "") =>
      let x := byte_val a in let y := byte_val b in
      String (b64_char (x / 4)) (String (b64_char (x mod 4 * 16 + y / 16))
        (String (b64_char (y mod 16 * 4)) ""))
  | String a "" =>
      let x := byte_val a in
      String (b64_char (x / 4)) (String (b64_char (x mod 4 * 16)) "")
  | "" => ""
  end.

(** The decoder skips carriage returns and line feeds and, not being strict,
    ignores the unused low bits of the last character. *)
Fixpoint b64_strip (s : string) : string :=
  match s with
  | "" => ""
  | String c s' =>
      if Ascii.eqb c "013" || Ascii.eqb c "010" then b64_strip s' else String c (b64_strip s')
  end.

Fixpoint b64_decode_quads (s : string) : option string :=
  match s with
  | "" => Some ""
  | String _ "" => None
  | String a (String b "") =>
      match b64_val a, b64_val b with
      | Some x, Some y => Some (String (byte_char (x * 4 + y / 16)) "")
      | _, _ => None
      end
  | String a (String b (String c "")) =>
      match b64_val a, b64_val b, b64_val c with
      | Some x, Some y, Some z =>
          Some (String (byte_char (x * 4 + y / 16)) (String (byte_char (y mod 16 * 16 + z / 4)) ""))
      | _, _, _ => None
      end
  | String a (String b (String c (String d s'))) =>
      match b64_val a, b64_val b, b64_val c, b64_val d, b64_decode_quads s' with
      | Some x, Some y, Some z, Some w, Some rest =>
          Some (String (byte_char (x * 4 + y / 16)) (String (byte_char (y mod 16 * 16 + z / 4))
                  (String (byte_char (z mod 4 * 64 + w)) rest)))
      | _, _, _, _, _ => None
      end
  end.

Definition b64_decode (s : string) : option string := b64_decode_quads (b64_strip s).

(** ** Lemmas: decimal text *)

Lemma digit_val_digit z : digit_val (digit z) = Some (z mod 10).
Proof.
  unfold digit_val, digit.
  rewrite N_ascii_embedding by lia. rewrite Z2N.id by lia.
  destruct (48 <=? 48 + z mod 10) eqn:E1; [|lia].
  destruct (48 + z mod 10 <=? 57) eqn:E2; [|lia]. simpl. f_equal. lia.
Qed.

Lemma digit_eqb z c : digit_val c = None -> Ascii.eqb (digit z) c = false.
Proof.
  intros Hc. apply Ascii.eqb_neq. intros <-. by rewrite digit_val_digit in Hc.
Qed.

Lemma length_app_string (a b : string) : String.length (a ++ b) = (String.length a + String.length b)%nat.
Proof. induction a as [|c a IH]; [done|]. simpl. by rewrite IH. Qed.

Lemma string_app_assoc (a b c : string) : a ++ (b ++ c) = (a ++ b) ++ c.
Proof. induction a as [|d a IH]; [done|]. simpl. by rewrite IH. Qed.

Lemma string_forall_app f a b : string_forall f (a ++ b) = string_forall f a && string_forall f b.
Proof. induction a as [|c a IH]; [done|]. simpl. by rewrite IH, andb_assoc. Qed.

Lemma string_app_nil_r (a : string) : a ++ "" = a.
Proof. induction a as [|d a IH]; [done|]. simpl. by rewrite IH. Qed.

Lemma length_digits n z : String.length (digits n z) = n.
Proof.
  revert z; induction n as [|n IH]; intros z; [done|].
  simpl. rewrite length_app_string, IH. simpl. lia.
Qed.

Lemma parse_format_uint f z acc :
  0 <= z < 10 ^ Z.of_nat (S f) -> parse_uint (format_uint (S f) z acc) 0 = parse_uint acc z.
Proof.
  revert z acc; induction f as [|f IH]; intros z acc Hz; cbn [format_uint];
    destruct (z <? 10) eqn:E.
  - cbn [parse_uint]. rewrite digit_val_digit. f_equal. lia.
  - lia.
  - cbn [parse_uint]. rewrite digit_val_digit. f_equal. lia.
  - assert (Hp : 10 ^ Z.of_nat (S (S f)) = 10 * 10 ^ Z.of_nat (S f)).
    { rewrite (Nat2Z.inj_succ (S f)), Z.pow_succ_r by lia. lia. }
    change (parse_uint (format_uint (S f) (z / 10) (String (digit z) acc)) 0 = parse_uint acc z).
    rewrite IH.
    + cbn [parse_uint]. rewrite digit_val_digit. f_equal. lia.
    + split; [lia|]. apply Z.div_lt_upper_bound; lia.
Qed.

Lemma format_uint_head f z acc :
  exists c s, format_uint (S f) z acc = String c s /\ is_Some (digit_val c).
Proof.
  revert z acc; induction f as [|f IH]; intros z acc; cbn [format_uint];
    (destruct (z <? 10); [eexists _, _; split; [done|]; rewrite digit_val_digit; eauto|]).
  - eexists _, _; split; [done|]; rewrite digit_val_digit; eauto.
  - apply IH.
Qed.

Lemma no_char_app c a b : no_char c (a ++ b) = no_char c a && no_char c b.
Proof. induction a as [|d a IH]; [done|]. simpl. rewrite IH. by rewrite andb_assoc. Qed.

Lemma no_char_format_uint c f z acc :
  digit_val c = None -> no_char c acc = true -> no_char c (format_uint f z acc) = true.
Proof.
  intros Hc. revert z acc; induction f as [|f IH]; intros z acc Hacc; [done|].
  cbn [format_uint]. destruct (z <? 10); [|apply IH]; simpl; by rewrite (digit_eqb _ _ Hc), Hacc.
Qed.

#[local] Arguments format_uint : simpl never.

(** The decimal text of a number contains no separator. *)
Lemma no_char_FormatInt c z :
  digit_val c = None -> Ascii.eqb "-" c = false -> no_char c (FormatInt z) = true.
Proof.
  intros Hc Hm. unfold FormatInt. destruct (z <? 0); [|by apply no_char_format_uint].
  cbn [no_char]. rewrite Hm. cbn [negb andb]. by apply no_char_format_uint.
Qed.

Lemma ParseInt64_finish (t : string) :
  (exists c s, t = String c s /\ is_Some (digit_val c)) ->
  ParseInt64 t = match parse_uint t 0 with
                 | None => Err (Internal "invalid syntax")
                 | Some n => if (min_int64 <=? n) && (n <=? max_int64) then Ok n
                             else Err (Internal "value out of range") end.
Proof.
  intros (c & s & -> & [d Hd]). unfold ParseInt64.
  destruct c as [[] [] [] [] [] [] [] []]; try (vm_compute in Hd; discriminate Hd);
    cbv match beta; rewrite ?String.eqb_refl; cbn [String.eqb];
    destruct (parse_uint _ 0) as [n|]; [|done|..]; try done; by rewrite Z.mul_1_l.
Qed.

(** [ParseInt] reads back what [FormatInt] printed. *)
Lemma ParseInt64_FormatInt z : min_int64 <= z <= max_int64 -> ParseInt64 (FormatInt z) = Ok z.
Proof.
  intros Hz. unfold min_int64, max_int64 in *. unfold FormatInt.
  destruct (z <? 0) eqn:E.
  - unfold ParseInt64. destruct (format_uint_head 19 (- z) "") as (c & s & Heq & _).
    rewrite (parse_format_uint 19) by lia. rewrite Heq. simpl parse_uint.
    cbn [String.eqb]. unfold min_int64, max_int64.
    replace (-1 * - z) with z by lia.
    destruct (-9223372036854775808 <=? z) eqn:E1; [|lia].
    destruct (z <=? 9223372036854775807) eqn:E2; [done|lia].
  - rewrite ParseInt64_finish by apply format_uint_head.
    rewrite (parse_format_uint 19) by lia. simpl parse_uint. unfold min_int64, max_int64.
    destruct (-9223372036854775808 <=? z) eqn:E1; [|lia].
    destruct (z <=? 9223372036854775807) eqn:E2; [done|lia].
Qed.

(** ** Lemmas: splitting *)

Lemma Cut_app a b sep : no_char sep a = true -> Cut (a ++ String sep b) sep = Some (a, b).
Proof.
  induction a as [|c a IH]; simpl.
  - by rewrite Ascii.eqb_refl.
  - intros [H1 H2]%andb_prop. destruct (Ascii.eqb c sep); [done|]. by rewrite IH.
Qed.

Lemma Split_from_no_char s sep cur : no_char sep s = true -> Split_from s sep cur = [cur ++ s].
Proof.
  revert cur; induction s as [|c s IH]; intros cur; simpl.
  - by rewrite string_app_nil_r.
  - intros [H1 H2]%andb_prop. destruct (Ascii.eqb c sep); [done|].
    rewrite IH by done. by rewrite <- string_app_assoc.
Qed.

Lemma Split_from_app a b sep cur :
  no_char sep a = true -> Split_from (a ++ String sep b) sep cur = (cur ++ a) :: Split_from b sep "".
Proof.
  revert cur; induction a as [|c a IH]; intros cur; simpl.
  - intros _. by rewrite Ascii.eqb_refl, string_app_nil_r.
  - intros [H1 H2]%andb_prop. destruct (Ascii.eqb c sep); [done|].
    rewrite IH by done. by rewrite <- string_app_assoc.
Qed.

(** ** Lemmas: base64 *)

Lemma byte_val_char v : 0 <= v < 256 -> byte_val (byte_char v) = v.
Proof. intros H. unfold byte_val, byte_char. rewrite N_ascii_embedding by lia. lia. Qed.

Lemma byte_char_val c : byte_char (byte_val c) = c.
Proof. unfold byte_val, byte_char. rewrite N2Z.id. apply ascii_N_embedding. Qed.

Lemma byte_char_eq v c : v = byte_val c -> byte_char v = c.
Proof. intros ->. apply byte_char_val. Qed.

Lemma byte_val_bound c : 0 <= byte_val c < 256.
Proof. unfold byte_val. pose proof (N_ascii_bounded c). lia. Qed.

Lemma b64_char_code v :
  0 <= v < 64 ->
  byte_val (b64_char v) = if v <? 26 then 65 + v else if v <? 52 then 71 + v
     else if v <? 62 then v - 4 else if v =? 62 then 45 else 95.
Proof.
  intros H. unfold byte_val, b64_char. repeat case_match; rewrite N_ascii_embedding by lia; lia.
Qed.

Lemma b64_val_char v : 0 <= v < 64 -> b64_val (b64_char v) = Some v.
Proof.
  intros H. pose proof (b64_char_code v H) as E. unfold byte_val in E.
  unfold b64_val. rewrite E. clear E.
  repeat case_match; try lia; f_equal; lia.
Qed.

Lemma b64_char_not_newline v :
  0 <= v < 64 -> Ascii.eqb (b64_char v) "013" || Ascii.eqb (b64_char v) "010" = false.
Proof.
  intros H. pose proof (b64_char_code v H) as E.
  apply orb_false_iff; split; apply Ascii.eqb_neq; intros Heq; rewrite Heq in E;
    [change (byte_val "013") with 13 in E|change (byte_val "010") with 10 in E];
    repeat case_match; lia.
Qed.

Lemma b64_strip_char v s :
  0 <= v < 64 -> b64_strip (String (b64_char v) s) = String (b64_char v) (b64_strip s).
Proof. intros H. cbn [b64_strip]. by rewrite b64_char_not_newline. Qed.

Lemma string_ind3 (P : string -> Prop) :
  P "" -> (forall a, P (String a "")) -> (forall a b, P (String a (String b ""))) ->
  (forall a b c s, P s -> P (String a (String b (String c s)))) -> forall s, P s.
Proof.
  intros H0 H1 H2 H3.
  assert (forall s, P s /\ (forall a, P (String a s)) /\ (forall a b, P (String a (String b s)))) as H.
  { induction s as [|c s (IH0 & IH1 & IH2)]; [by auto|].
    split; [apply IH1|]. split; [intros a; apply IH2|]. intros a b. by apply H3. }
  intros s. apply H.
Qed.

Ltac b64_bounds :=
  repeat match goal with
  | a : ascii |- _ =>
      lazymatch goal with H : 0 <= byte_val a < 256 |- _ => fail | _ => pose proof (byte_val_bound a) end
  end.

(** Decoding inverts encoding for every byte string. *)
Lemma b64_decode_encode s : b64_decode (b64_encode s) = Some s.
Proof.
  unfold b64_decode. induction s as [|a|a b|a b c s IH] using string_ind3; [done|..];
    b64_bounds; cbn [b64_encode]; rewrite !b64_strip_char by lia; cbn [b64_decode_quads b64_strip];
    rewrite ?IH, !b64_val_char by lia;
    repeat f_equal; apply byte_char_eq; lia.
Qed.

(** ** Lemmas: text order *)

Lemma ascii_compare_refl c : Ascii.compare c c = Eq.
Proof. unfold Ascii.compare. apply N.compare_refl. Qed.

Lemma compare_refl s : String.compare s s = Eq.
Proof. induction s as [|c s IH]; [done|]. simpl. by rewrite ascii_compare_refl. Qed.

(** Texts with equally long prefixes compare prefix first. *)
Lemma compare_app p q s t :
  String.length p = String.length q ->
  String.compare (p ++ s) (q ++ t) =
  match String.compare p q with Eq => String.compare s t | c => c end.
Proof.
  revert q; induction p as [|c p IH]; intros [|d q] Hl; try done.
  simpl in *. destruct (Ascii.compare c d); [|done..]. apply IH. lia.
Qed.

Lemma digit_compare a b :
  Ascii.compare (digit a) (digit b) = (a mod 10 ?= b mod 10).
Proof.
  unfold Ascii.compare, digit. rewrite !N_ascii_embedding by lia.
  rewrite <- N2Z.inj_compare, !Z2N.id by lia.
  destruct (Z.compare_spec (a mod 10) (b mod 10)) as [E|E|E];
    [apply Z.compare_eq_iff|apply Z.compare_lt_iff|apply Z.compare_gt_iff]; lia.
Qed.

(** Fixed-width decimal text is ordered like the numbers. *)
Lemma compare_digits n a b :
  0 <= a < 10 ^ Z.of_nat n -> 0 <= b < 10 ^ Z.of_nat n ->
  String.compare (digits n a) (digits n b) = (a ?= b).
Proof.
  revert a b; induction n as [|n IH]; intros a b Ha Hb.
  - simpl in *. symmetry. apply Z.compare_eq_iff. lia.
  - rewrite Nat2Z.inj_succ, Z.pow_succ_r in Ha, Hb by lia.
    cbn [digits]. rewrite compare_app by (by rewrite !length_digits).
    rewrite IH by (split; [lia|apply Z.div_lt_upper_bound; lia]).
    destruct (Z.compare_spec (a / 10) (b / 10)) as [E|E|E].
    + simpl. rewrite digit_compare.
      destruct (Z.compare_spec (a mod 10) (b mod 10)) as [E2|E2|E2]; symmetry;
        [apply Z.compare_eq_iff|apply Z.compare_lt_iff|apply Z.compare_gt_iff]; lia.
    + symmetry. apply Z.compare_lt_iff. lia.
    + symmetry. apply Z.compare_gt_iff. lia.
Qed.

Lemma text_lt_compare a b : text_lt a b = true <-> String.compare a b = Lt.
Proof. unfold text_lt, String.ltb. by destruct (String.compare a b). Qed.

Lemma text_le_compare a b : text_le a b = true <-> String.compare a b <> Gt.
Proof. unfold text_le, String.leb. by destruct (String.compare a b). Qed.

Lemma text_le_negb_lt a b : text_le a b = negb (text_lt b a).
Proof.
  unfold text_le, text_lt, String.leb, String.ltb. rewrite (String.compare_antisym b a).
  by destruct (String.compare a b).
Qed.

Lemma text_le_refl a : text_le a a = true.
Proof. unfold text_le, String.leb. by rewrite compare_refl. Qed.

Lemma compare_lt_trans a b c :
  String.compare a b = Lt -> String.compare b c = Lt -> String.compare a c = Lt.
Proof.
  revert b c; induction a as [|x a IH]; intros [|y b] [|z c]; simpl; try done.
  unfold Ascii.compare.
  destruct (N.compare_spec (N_of_ascii x) (N_of_ascii y)) as [E1|E1|E1]; [|..|done];
  destruct (N.compare_spec (N_of_ascii y) (N_of_ascii z)) as [E2|E2|E2]; try done;
  destruct (N.compare_spec (N_of_ascii x) (N_of_ascii z)) as [E3|E3|E3]; try done; try lia.
  apply IH.
Qed.

Lemma text_le_lteq a b : text_le a b = true <-> text_lt a b = true \/ a = b.
Proof.
  rewrite text_le_compare, text_lt_compare. split.
  - intros H. destruct (String.compare a b) eqn:E; [right|left|]; try done.
    by apply String.compare_eq_iff.
  - intros [-> | ->]; [done|]. by rewrite compare_refl.
Qed.

Lemma text_le_trans a b c : text_le a b = true -> text_le b c = true -> text_le a c = true.
Proof.
  rewrite !text_le_lteq, !text_lt_compare.
  intros [H1| ->] [H2| ->]; eauto using compare_lt_trans.
Qed.

Lemma text_le_total a b : text_le a b = true \/ text_le b a = true.
Proof. apply String.leb_total. Qed.

Lemma text_le_antisym a b : text_le a b = true -> text_le b a = true -> a = b.
Proof. apply String.leb_antisym. Qed.

(** ** Prefixes and suffixes *)

Lemma HasPrefix_true s p : HasPrefix s p = true <-> exists t, s = p ++ t.
Proof.
  revert s; induction p as [|c p IH]; intros [|d s]; simpl.
  - split; [by exists ""|done].
  - split; [by exists (String d s)|done].
  - split; [done|by intros [t ?]].
  - rewrite andb_true_iff, IH. split.
    + intros [->%Ascii.eqb_eq [t ->]]. by exists t.
    + intros [t [= -> ->]]. rewrite Ascii.eqb_refl. split; [done|by exists t].
Qed.

Lemma string_drop_app s t : string_drop (String.length s) (s ++ t) = t.
Proof. induction s as [|c s IH]; [by destruct t|exact IH]. Qed.
Lemma string_take_app s t : string_take (String.length s) (s ++ t) = s.
Proof. induction s as [|c s IH]; [by destruct t|]. change (String c (string_take (String.length s) (s ++ t)) = String c s). by rewrite IH. Qed.
Lemma string_take_drop n s : s = string_take n s ++ string_drop n s.
Proof. revert s. induction n as [|n IH]; intros [|c s]; try done.
  change (String c s = String c (string_take n s ++ string_drop n s)). by rewrite <- IH.
Qed.
Lemma string_length_app s t : String.length (s ++ t) = (String.length s + String.length t)%nat.
Proof. induction s as [|c s IH]; [done|]. change (S (String.length (s ++ t)) = S (String.length s + String.length t)). by rewrite IH. Qed.

Lemma HasSuffix_app s p : HasSuffix (s ++ p) p = true.
Proof.
  unfold HasSuffix. rewrite string_length_app. rewrite (proj2 (Nat.leb_le _ _)) by lia.
  replace (_ - _)%nat with (String.length s) by lia. by rewrite string_drop_app, String.eqb_refl.
Qed.
Lemma TrimSuffix_app s p : TrimSuffix (s ++ p) p = s.
Proof.
  unfold TrimSuffix. rewrite HasSuffix_app, string_length_app. replace (_ - _)%nat with (String.length s) by lia.
  apply string_take_app.
Qed.
Lemma HasSuffix_split s p : HasSuffix s p = true -> exists t, s = t ++ p.
Proof.
  unfold HasSuffix. intros [_ He]%andb_prop. apply String.eqb_eq in He. exists (string_take (String.length s - String.length p) s).
  rewrite <- He at 2. apply string_take_drop.
Qed.
