(* ===== verification/GoTime.v ===== *)
(** * Go's [time] as the server uses it

    Instants are nanoseconds since the Unix epoch (UTC).  The database keeps
    them as RFC 3339 text with a trimmed fraction ([time.RFC3339Nano]) and
    SQLite compares that text bytewise, so both the printer and the parser
    are modelled, with the round trip and the exact relation between text
    order and time order. *)

From S2P Require Import Prelude GoText.
From Stdlib Require Import Ascii String.
Local Open Scope string_scope.
Local Open Scope Z_scope.
#[local] Ltac Zify.zify_post_hook ::= Z.div_mod_to_equations.
#[local] Arguments String.append !_ _ : simpl nomatch.

Definition Second : Z := 1000000000.
Definition Minute : Z := 60 * Second.
Definition Hour : Z := 60 * Minute.

(** [t.Sub(u)]: a 64-bit duration, saturating. *)
Definition Sub (t u : Z) : Z := Z.max min_int64 (Z.min max_int64 (t - u)).

(** ** The proleptic Gregorian calendar *)

(** Days from 1 January of year 1 to 1 January of year [y]. *)
Definition days_before_year (y : Z) : Z :=
  365 * (y - 1) + (y - 1) / 4 - (y - 1) / 100 + (y - 1) / 400.
Definition unix_epoch_days : Z := 719162.

Definition is_leap (y : Z) : bool :=
  (y mod 4 =? 0) && (negb (y mod 100 =? 0) || (y mod 400 =? 0)).
Definition leap_day (y : Z) : Z := if is_leap y then 1 else 0.

(** Year and zero-based day of year of a day counted from 1 January of year 1. *)
Definition year_day (d : Z) : Z * Z :=
  let n400 := d / 146097 in let r400 := d mod 146097 in
  let n100 := Z.min 3 (r400 / 36524) in let r100 := r400 - 36524 * n100 in
  let n4 := r100 / 1461 in let r4 := r100 mod 1461 in
  let n1 := Z.min 3 (r4 / 365) in
  (400 * n400 + 100 * n100 + 4 * n4 + n1 + 1, r4 - 365 * n1).

(** Days before month [m] in a year with [l] leap days. *)
Definition days_before_month (m l : Z) : Z :=
  if m <=? 1 then 0 else if m =? 2 then 31 else if m =? 3 then 59 + l else if m =? 4 then 90 + l
  else if m =? 5 then 120 + l else if m =? 6 then 151 + l else if m =? 7 then 181 + l
  else if m =? 8 then 212 + l else if m =? 9 then 243 + l else if m =? 10 then 273 + l
  else if m =? 11 then 304 + l else if m =? 12 then 334 + l else 365 + l.

Definition month_of (yday l : Z) : Z :=
  if yday <? 31 then 1 else if yday <? 59 + l then 2 else if yday <? 90 + l then 3
  else if yday <? 120 + l then 4 else if yday <? 151 + l then 5 else if yday <? 181 + l then 6
  else if yday <? 212 + l then 7 else if yday <? 243 + l then 8 else if yday <? 273 + l then 9
  else if yday <? 304 + l then 10 else if yday <? 334 + l then 11 else 12.

Record civil : Type := mkCivil {
  c_year : Z; c_month : Z; c_day : Z; c_hour : Z; c_min : Z; c_sec : Z; c_nano : Z
}.

Definition civil_of (t : Z) : civil :=
  let secs := t / Second in
  let days := secs / 86400 + unix_epoch_days in
  let sod := secs mod 86400 in
  let '(y, yd) := year_day days in
  let m := month_of yd (leap_day y) in
  mkCivil y m (yd - days_before_month m (leap_day y) + 1)
    (sod / 3600) (sod mod 3600 / 60) (sod mod 60) (t mod Second).

(** [time.Date(..., UTC)] for fields within their ranges. *)
Definition Date (c : civil) : Z :=
  ((days_before_year (c_year c) + days_before_month (c_month c) (leap_day (c_year c))
     + c_day c - 1 - unix_epoch_days) * 86400
   + c_hour c * 3600 + c_min c * 60 + c_sec c) * Second + c_nano c.

(** ** Formatting: [t.UTC().Format(time.RFC3339Nano)] *)

(** Fixed-width decimal, wider when the number needs it ([appendInt]). *)
Definition append_int (width : nat) (x : Z) : string :=
  if (0 <=? x) && (x <? 10 ^ Z.of_nat width) then digits width x else FormatInt x.

Fixpoint trim_zeros (s : string) : string :=
  match s with
  | "" => ""
  | String c s' =>
      match trim_zeros s' with
      | "" => if Ascii.eqb c "0" then "" else String c ""
      | t => String c t
      end
  end.

Definition format_frac (nano : Z) : string :=
  match trim_zeros (digits 9 nano) with "" => "" | f => String "." f end.

Definition format_civil (c : civil) : string :=
  append_int 4 (c_year c) ++ "-" ++ digits 2 (c_month c) ++ "-" ++ digits 2 (c_day c) ++ "T" ++
  digits 2 (c_hour c) ++ ":" ++ digits 2 (c_min c) ++ ":" ++ digits 2 (c_sec c) ++
  format_frac (c_nano c) ++ "Z".

Definition Format (t : Z) : string := format_civil (civil_of t).

(** ** Parsing: [time.Parse(time.RFC3339Nano, s)] *)

Definition parse_num2 (a b : ascii) (lo hi : Z) : option Z :=
  match digit_val a, digit_val b with
  | Some x, Some y => let v := 10 * x + y in if (lo <=? v) && (v <=? hi) then Some v else None
  | _, _ => None
  end.

Definition days_in (m y : Z) : Z := days_before_month (m + 1) (leap_day y) - days_before_month m (leap_day y).

(** The leading digits of a fraction, weighted from [w] down; digits past the
    ninth count for nothing.  Returns the value and the rest. *)
Fixpoint parse_frac (s : string) (w : Z) : Z * string :=
  match s with
  | String c s' =>
      match digit_val c with
      | Some d => let '(v, rest) := parse_frac s' (w / 10) in (d * w + v, rest)
      | None => (0, s)
      end
  | "" => (0, "")
  end.

Definition parse_nano (s : string) : Z * string :=
  match s with
  | String "." (String d rest) =>
      match digit_val d with Some _ => parse_frac (String d rest) 100000000 | None => (0, s) end
  | _ => (0, s)
  end.

(** The zone suffix, as an offset in seconds. *)
Definition parse_zone (s : string) : option Z :=
  match s with
  | "Z" => Some 0
  | String sign (String a (String b (String ":" (String c (String d ""))))) =>
      match parse_num2 a b 0 24, parse_num2 c d 0 60 with
      | Some h, Some m =>
          if Ascii.eqb sign "+" then Some (h * 3600 + m * 60)
          else if Ascii.eqb sign "-" then Some (- (h * 3600 + m * 60)) else None
      | _, _ => None
      end
  | _ => None
  end.

(** The strict RFC 3339 reader that [time.Parse] tries first. *)
Definition parse_rfc3339 (s : string) : option Z :=
  match s with
  | String y1 (String y2 (String y3 (String y4 (String "-" (String m1 (String m2 (String "-"
      (String d1 (String d2 (String "T" (String h1 (String h2 (String ":" (String i1 (String i2
      (String ":" (String s1 (String s2 rest)))))))))))))))))) =>
      yh ← parse_num2 y1 y2 0 99; yl ← parse_num2 y3 y4 0 99;
      let y := yh * 100 + yl in
      mo ← parse_num2 m1 m2 1 12;
      dd ← parse_num2 d1 d2 1 (days_in mo y);
      hh ← parse_num2 h1 h2 0 23; mi ← parse_num2 i1 i2 0 59; ss ← parse_num2 s1 s2 0 59;
      let '(nano, zone) := parse_nano rest in
      off ← parse_zone zone;
      Some (Date (mkCivil y mo dd hh mi ss nano) - off * Second)
  | _ => None
  end.

(** [time.Parse] falls back to the general layout parser when the strict
    reader refuses; [lenient] stands for that parser. *)
Class TimeParser : Type := { lenient_parse : string -> option Z }.

Definition Parse `{TimeParser} (s : string) : result Z :=
  match parse_rfc3339 s with
  | Some t => Ok t
  | None => match lenient_parse s with Some t => Ok t | None => Err (Internal "parsing time") end
  end.

Definition Parse_opt `{TimeParser} (s : option string) : result (option Z) :=
  match s with None => Ok None | Some t => x ← Parse t; Ok (Some x) end.

(** ** Lemmas: the calendar *)

Lemma leap_day_01 y : leap_day y = 0 \/ leap_day y = 1.
Proof. unfold leap_day. destruct (is_leap y); auto. Qed.

Lemma days_before_year_split a b c e :
  0 <= b <= 3 -> 0 <= c <= 24 -> 0 <= e <= 3 ->
  days_before_year (400 * a + 100 * b + 4 * c + e + 1) = 146097 * a + 36524 * b + 1461 * c + 365 * e.
Proof. intros. unfold days_before_year. lia. Qed.

Lemma leap_day_split a b c e :
  0 <= b <= 3 -> 0 <= c <= 24 -> 0 <= e <= 3 ->
  leap_day (400 * a + 100 * b + 4 * c + e + 1) =
  if (e =? 3) && (negb (c =? 24) || (b =? 3)) then 1 else 0.
Proof.
  intros. unfold leap_day, is_leap.
  destruct (e =? 3) eqn:Ee, (c =? 24) eqn:Ec, (b =? 3) eqn:Eb; simpl;
    repeat (case_match; try lia).
Qed.

(** The year and day of year of a day number. *)
Lemma year_day_spec d :
  days_before_year (year_day d).1 + (year_day d).2 = d /\
  0 <= (year_day d).2 < 365 + leap_day (year_day d).1.
Proof.
  unfold year_day. cbn [fst snd].
  set (n400 := d / 146097). set (r400 := d mod 146097).
  assert (0 <= r400 < 146097) by (unfold r400; lia).
  assert (d = 146097 * n400 + r400) by (unfold n400, r400; lia).
  set (n100 := Z.min 3 (r400 / 36524)). set (r100 := r400 - 36524 * n100).
  assert (0 <= n100 <= 3) by (unfold n100; lia).
  assert (0 <= r100 < 36524 \/ (n100 = 3 /\ 0 <= r100 < 36525)) by (unfold r100, n100; lia).
  set (n4 := r100 / 1461). set (r4 := r100 mod 1461).
  assert (0 <= r4 < 1461 /\ r100 = 1461 * n4 + r4) by (unfold r4, n4; lia).
  assert (0 <= n4 <= 24) by lia.
  set (n1 := Z.min 3 (r4 / 365)).
  assert (0 <= n1 <= 3) by (unfold n1; lia).
  assert (0 <= r4 - 365 * n1 < 365 \/ (n1 = 3 /\ 0 <= r4 - 365 * n1 < 366)) by (unfold n1; lia).
  assert (r400 = 36524 * n100 + r100) by (unfold r100; lia).
  clearbody n400 r400 n100 r100 n4 r4 n1.
  rewrite days_before_year_split, leap_day_split by lia. split; [lia|].
  destruct (n1 =? 3) eqn:E1, (n4 =? 24) eqn:E4, (n100 =? 3) eqn:E100; cbn [negb andb orb]; lia.
Qed.

Lemma year_split y : exists a b c e,
  y = 400 * a + 100 * b + 4 * c + e + 1 /\ 0 <= b <= 3 /\ 0 <= c <= 24 /\ 0 <= e <= 3.
Proof.
  exists ((y - 1) / 400), ((y - 1) mod 400 / 100), ((y - 1) mod 400 mod 100 / 4), ((y - 1) mod 400 mod 100 mod 4).
  lia.
Qed.

Lemma days_before_year_step y : days_before_year (y + 1) = days_before_year y + 365 + leap_day y.
Proof.
  destruct (year_split y) as (a & b & c & e & -> & Hb & Hc & He).
  rewrite (days_before_year_split a b c e), leap_day_split by done.
  destruct (decide (e = 3)) as [->|He3].
  - destruct (decide (c = 24)) as [->|Hc24].
    + destruct (decide (b = 3)) as [->|Hb3].
      * replace (400 * a + 100 * 3 + 4 * 24 + 3 + 1 + 1) with (400 * (a + 1) + 100 * 0 + 4 * 0 + 0 + 1) by lia.
        rewrite days_before_year_split by lia. simpl. lia.
      * replace (400 * a + 100 * b + 4 * 24 + 3 + 1 + 1) with (400 * a + 100 * (b + 1) + 4 * 0 + 0 + 1) by lia.
        rewrite days_before_year_split by lia. repeat case_match; lia.
    + replace (400 * a + 100 * b + 4 * c + 3 + 1 + 1) with (400 * a + 100 * b + 4 * (c + 1) + 0 + 1) by lia.
      rewrite days_before_year_split by lia. repeat case_match; lia.
  - replace (400 * a + 100 * b + 4 * c + e + 1 + 1) with (400 * a + 100 * b + 4 * c + (e + 1) + 1) by lia.
    rewrite days_before_year_split by lia. repeat case_match; lia.
Qed.

Lemma days_before_year_mono x y : x <= y -> days_before_year x <= days_before_year y.
Proof. intros H. unfold days_before_year. lia. Qed.

Lemma days_before_year_lt x y : x < y -> days_before_year x + 365 + leap_day x <= days_before_year y.
Proof.
  intros H. rewrite <- days_before_year_step. apply days_before_year_mono. lia.
Qed.

(** Evaluates the month table at a literal month. *)
Ltac month_eval :=
  unfold days_before_month;
  repeat match goal with
  | |- context [if ?b then _ else _] =>
      let v := eval vm_compute in b in
      lazymatch v with true => change b with true | false => change b with false end; cbv iota
  end.

Lemma month_of_spec yd l :
  l = 0 \/ l = 1 -> 0 <= yd < 365 + l ->
  1 <= month_of yd l <= 12 /\
  days_before_month (month_of yd l) l <= yd < days_before_month (month_of yd l + 1) l.
Proof. intros Hl Hy. unfold month_of. repeat case_match; month_eval; lia. Qed.

Lemma month_of_mono a b l : a <= b -> month_of a l <= month_of b l.
Proof. intros H. unfold month_of. repeat case_match; lia. Qed.

Lemma civil_of_fields t :
  let c := civil_of t in let l := leap_day (c_year c) in
  1 <= c_month c <= 12 /\ 1 <= c_day c <= days_in (c_month c) (c_year c) /\
  0 <= c_hour c < 24 /\ 0 <= c_min c < 60 /\ 0 <= c_sec c < 60 /\ 0 <= c_nano c < Second.
Proof.
  unfold civil_of, days_in. set (days := t / Second / 86400 + unix_epoch_days).
  destruct (year_day days) as [y yd] eqn:E. pose proof (year_day_spec days) as [H1 H2].
  rewrite E in H1, H2. cbn [fst snd c_year c_month c_day c_hour c_min c_sec c_nano] in *.
  destruct (month_of_spec yd (leap_day y) (leap_day_01 y) H2) as [Hm Hd].
  unfold Second. repeat split; try lia.
Qed.

(** Reading the calendar fields back gives the instant. *)
Lemma Date_civil_of t : Date (civil_of t) = t.
Proof.
  unfold civil_of. set (days := t / Second / 86400 + unix_epoch_days).
  destruct (year_day days) as [y yd] eqn:E. pose proof (year_day_spec days) as [H1 _].
  rewrite E in H1. unfold Date. cbn [fst snd c_year c_month c_day c_hour c_min c_sec c_nano] in *.
  subst days. unfold Second, unix_epoch_days in *. lia.
Qed.

Definition min_text_time : Z := -62167219200 * Second.
Definition max_text_time : Z := 253402300800 * Second.

(** Instants whose year has four digits: years 0 to 9999. *)
Definition four_digit_year (t : Z) : Prop := min_text_time <= t < max_text_time.

Lemma four_digit_year_civil t : four_digit_year t -> 0 <= c_year (civil_of t) <= 9999.
Proof.
  unfold four_digit_year, min_text_time, max_text_time, civil_of.
  set (days := t / Second / 86400 + unix_epoch_days). intros Ht.
  destruct (year_day days) as [y yd] eqn:E. pose proof (year_day_spec days) as [H1 H2].
  rewrite E in H1, H2. cbn [fst snd c_year] in *.
  assert (-366 <= days < 3652059) by (unfold days, Second, unix_epoch_days in *; lia).
  pose proof (leap_day_01 y).
  split; apply Z.nlt_ge; intros Hy.
  - pose proof (days_before_year_lt y 0 Hy) as Hl. change (days_before_year 0) with (-366) in Hl. lia.
  - assert (10000 <= y) as Hy' by lia.
    pose proof (days_before_year_mono _ _ Hy') as Hl.
    change (days_before_year 10000) with 3652059 in Hl. lia.
Qed.

(** ** Lemmas: printing and reading back *)

Lemma parse_num2_digits z lo hi :
  lo <= z mod 100 <= hi -> parse_num2 (digit (z / 10)) (digit z) lo hi = Some (z mod 100).
Proof.
  intros H. unfold parse_num2. rewrite !digit_val_digit.
  replace (10 * ((z / 10) mod 10) + z mod 10) with (z mod 100) by lia.
  destruct (lo <=? z mod 100) eqn:E1; [|lia]. destruct (z mod 100 <=? hi) eqn:E2; [done|lia].
Qed.

Fixpoint all_digits (s : string) : bool :=
  match s with "" => true | String c s' => is_valid (digit_val c) && all_digits s' end.

Lemma all_digits_app a b : all_digits (a ++ b) = all_digits a && all_digits b.
Proof. induction a as [|c a IH]; [done|]. simpl. by rewrite IH, andb_assoc. Qed.

Lemma all_digits_digits n z : all_digits (digits n z) = true.
Proof.
  revert z; induction n as [|n IH]; intros z; [done|].
  cbn [digits]. rewrite all_digits_app, IH. simpl. by rewrite digit_val_digit.
Qed.

Lemma parse_frac_digits k z u s :
  parse_frac (digits k z ++ s) (10 ^ Z.of_nat k * u / 10) =
  ((z mod 10 ^ Z.of_nat k) * u + (parse_frac s (u / 10)).1, (parse_frac s (u / 10)).2).
Proof.
  revert z u s; induction k as [|k IH]; intros z u s.
  - simpl. rewrite Z.mul_1_l, Z.mod_1_r. destruct (parse_frac s (u / 10)); simpl. f_equal; lia.
  - cbn [digits]. rewrite <- string_app_assoc. simpl app.
    assert (Hp : 10 ^ Z.of_nat (S k) = 10 * 10 ^ Z.of_nat k).
    { rewrite Nat2Z.inj_succ, Z.pow_succ_r by lia. lia. }
    pose proof (Z.pow_pos_nonneg 10 (Z.of_nat k)).
    replace (10 ^ Z.of_nat (S k) * u / 10) with (10 ^ Z.of_nat k * (10 * u) / 10) by (f_equal; rewrite Hp; ring).
    change (String (digit z) "" ++ s) with (String (digit z) s).
    rewrite IH. cbn [parse_frac]. rewrite digit_val_digit.
    replace (10 * u / 10) with u by lia.
    destruct (parse_frac s (u / 10)) as [v rest]. cbn [fst snd]. f_equal.
    assert (z mod 10 ^ Z.of_nat (S k) = 10 * ((z / 10) mod 10 ^ Z.of_nat k) + z mod 10) as ->; [|lia].
    rewrite Hp. rewrite Z.rem_mul_r by lia. lia.
Qed.

Lemma parse_frac_Z w : parse_frac "Z" w = (0, "Z").
Proof. done. Qed.

Lemma parse_frac_trim s w :
  all_digits s = true -> parse_frac (trim_zeros s ++ "Z") w = parse_frac (s ++ "Z") w.
Proof.
  revert w; induction s as [|c s IH]; intros w; [done|].
  simpl. intros [Hc Hs]%andb_prop. specialize (IH (w / 10) Hs). rewrite <- IH.
  destruct (trim_zeros s) as [|c' s'] eqn:E.
  - destruct (Ascii.eqb c "0") eqn:E0.
    + apply Ascii.eqb_eq in E0 as ->. simpl. f_equal.
    + simpl. by destruct (digit_val c).
  - simpl. by destruct (digit_val c).
Qed.

Lemma all_digits_trim s : all_digits s = true -> all_digits (trim_zeros s) = true.
Proof.
  induction s as [|c s IH]; [done|]. simpl. intros [Hc Hs]%andb_prop. specialize (IH Hs).
  destruct (trim_zeros s) as [|c' s'].
  - destruct (Ascii.eqb c "0"); [done|]. simpl. by rewrite Hc.
  - simpl in *. by rewrite Hc.
Qed.

Lemma parse_nano_format n :
  0 <= n < Second -> parse_nano (format_frac n ++ "Z") = (n, "Z").
Proof.
  intros Hn. unfold Second in Hn.
  assert (Hv : parse_frac (trim_zeros (digits 9 n) ++ "Z") 100000000 = (n, "Z")).
  { rewrite parse_frac_trim by apply all_digits_digits.
    change 100000000 with (10 ^ Z.of_nat 9 * 1 / 10).
    rewrite parse_frac_digits, parse_frac_Z. cbn [fst snd]. f_equal.
    change (10 ^ Z.of_nat 9) with 1000000000. lia. }
  unfold format_frac.
  pose proof (all_digits_trim _ (all_digits_digits 9 n)) as Hd.
  destruct (trim_zeros (digits 9 n)) as [|c f]; [exact Hv|].
  cbn [String.append parse_nano all_digits] in *.
  destruct (digit_val c) eqn:E; [|done]. exact Hv.
Qed.

Lemma append_int_4 y : 0 <= y <= 9999 -> append_int 4 y = digits 4 y.
Proof.
  intros H. unfold append_int. change (10 ^ Z.of_nat 4) with 10000.
  destruct (0 <=? y) eqn:E1; [|lia]. by destruct (y <? 10000) eqn:E2; [|lia].
Qed.

Lemma parse_format_civil c :
  0 <= c_year c <= 9999 -> 1 <= c_month c <= 12 -> 1 <= c_day c <= days_in (c_month c) (c_year c) ->
  0 <= c_hour c < 24 -> 0 <= c_min c < 60 -> 0 <= c_sec c < 60 -> 0 <= c_nano c < Second ->
  parse_rfc3339 (format_civil c) = Some (Date c).
Proof.
  intros Hy Hm Hd Hh Hi Hs Hn. unfold format_civil. rewrite append_int_4 by done.
  assert (c_day c < 100).
  { pose proof (leap_day_01 (c_year c)). unfold days_in, days_before_month in Hd. repeat case_match; lia. }
  cbn [digits String.append parse_rfc3339].
  rewrite (parse_num2_digits (c_year c / 10 / 10)) by lia.
  rewrite (parse_num2_digits (c_year c)) by lia.
  unfold mbind, option_bind.
  replace ((c_year c / 10 / 10) mod 100 * 100 + c_year c mod 100) with (c_year c) by lia.
  rewrite (parse_num2_digits (c_month c)) by lia. rewrite (Z.mod_small (c_month c)) by lia.
  rewrite (parse_num2_digits (c_day c)) by (rewrite Z.mod_small by lia; lia).
  rewrite (parse_num2_digits (c_hour c)), (parse_num2_digits (c_min c)), (parse_num2_digits (c_sec c)) by lia.
  rewrite parse_nano_format by done. simpl. f_equal.
  rewrite !Z.mod_small by lia. destruct c; simpl. lia.
Qed.

(** Stored time stamps read back exactly, for years 0 to 9999. *)
Lemma parse_Format t : four_digit_year t -> parse_rfc3339 (Format t) = Some t.
Proof.
  intros Ht. unfold Format. pose proof (civil_of_fields t) as (H1 & H2 & H3 & H4 & H5 & H6).
  rewrite parse_format_civil by eauto using four_digit_year_civil. by rewrite Date_civil_of.
Qed.

Lemma Parse_Format `{TimeParser} t : four_digit_year t -> Parse (Format t) = Ok t.
Proof. intros Ht. unfold Parse. by rewrite parse_Format. Qed.

(** ** Lemmas: text order against time order *)

Definition lex (c d : comparison) : comparison := match c with Eq => d | _ => c end.

Definition civil_compare (a b : civil) : comparison :=
  lex (c_year a ?= c_year b) (lex (c_month a ?= c_month b) (lex (c_day a ?= c_day b)
  (lex (c_hour a ?= c_hour b) (lex (c_min a ?= c_min b) (c_sec a ?= c_sec b))))).

Definition civil_ok (c : civil) : Prop :=
  0 <= c_year c <= 9999 /\ 1 <= c_month c <= 12 /\ 1 <= c_day c <= days_in (c_month c) (c_year c) /\
  0 <= c_hour c < 24 /\ 0 <= c_min c < 60 /\ 0 <= c_sec c < 60 /\ 0 <= c_nano c < Second.

Lemma civil_of_ok t : four_digit_year t -> civil_ok (civil_of t).
Proof.
  intros H. pose proof (civil_of_fields t). pose proof (four_digit_year_civil t H). by split.
Qed.

Lemma compare_prefix_lex p q s t :
  String.length p = String.length q ->
  String.compare (p ++ s) (q ++ t) = lex (String.compare p q) (String.compare s t).
Proof. intros H. rewrite compare_app by done. by destruct (String.compare p q). Qed.

Lemma compare_same_prefix p s t : String.compare (p ++ s) (p ++ t) = String.compare s t.
Proof. rewrite compare_prefix_lex by done. by rewrite compare_refl. Qed.

Lemma days_in_le m y : days_in m y <= 31.
Proof.
  unfold days_in, days_before_month. pose proof (leap_day_01 y). repeat case_match; lia.
Qed.

(** Text order of two stamps: calendar fields first, fraction last. *)
Lemma compare_format_civil a b :
  civil_ok a -> civil_ok b ->
  String.compare (format_civil a) (format_civil b) =
  lex (civil_compare a b)
    (String.compare (format_frac (c_nano a) ++ "Z") (format_frac (c_nano b) ++ "Z")).
Proof.
  intros (? & ? & ? & ? & ? & ? & ?) (? & ? & ? & ? & ? & ? & ?).
  pose proof (days_in_le (c_month a) (c_year a)). pose proof (days_in_le (c_month b) (c_year b)).
  unfold format_civil, civil_compare. rewrite !append_int_4 by done.
  repeat (rewrite ?compare_same_prefix; rewrite compare_prefix_lex by (by rewrite !length_digits)).
  rewrite (compare_digits 4) by (change (10 ^ Z.of_nat 4) with 10000; lia).
  rewrite !(compare_digits 2) by (change (10 ^ Z.of_nat 2) with 100; lia).
  repeat (case_match; simpl; try done).
  all: by repeat (destruct (_ ?= _); simpl).
Qed.

Lemma days_before_month_mono a b l : l = 0 \/ l = 1 -> 1 <= a -> a <= b <= 12 -> days_before_month a l <= days_before_month b l.
Proof. intros. unfold days_before_month. repeat case_match; lia. Qed.

Lemma day_of_year_bound c :
  civil_ok c ->
  0 <= days_before_month (c_month c) (leap_day (c_year c)) + c_day c - 1 < 365 + leap_day (c_year c).
Proof.
  intros (? & ? & Hd & ?). pose proof (leap_day_01 (c_year c)).
  unfold days_in, days_before_month in *. repeat case_match; lia.
Qed.

Lemma civil_compare_lt a b : civil_ok a -> civil_ok b -> civil_compare a b = Lt -> Date a / Second < Date b / Second.
Proof.
  intros Ha Hb. pose proof (day_of_year_bound a Ha). pose proof (day_of_year_bound b Hb).
  destruct Ha as (? & ? & Hda & ? & ? & ? & ?), Hb as (? & ? & Hdb & ? & ? & ? & ?).
  assert (Hs : forall x y n m, 0 <= n < Second -> 0 <= m < Second -> x < y ->
    (x * Second + n) / Second < (y * Second + m) / Second).
  { intros x y n m ???. unfold Second in *. lia. }
  unfold civil_compare, Date. intros Hc. apply Hs; [done..|].
  destruct (Z.compare_spec (c_year a) (c_year b)) as [Ey|Ey|Ey]; simpl in Hc; [|..|done].
  2: { pose proof (days_before_year_lt _ _ Ey). lia. }
  rewrite Ey in *.
  destruct (Z.compare_spec (c_month a) (c_month b)) as [Em|Em|Em]; simpl in Hc; [|..|done].
  2: { pose proof (days_before_month_mono (c_month a + 1) (c_month b) (leap_day (c_year b)) (leap_day_01 _)).
       unfold days_in in Hda. lia. }
  rewrite Em in *.
  destruct (Z.compare_spec (c_day a) (c_day b)) as [Ed|Ed|Ed]; simpl in Hc; [|lia|done].
  destruct (Z.compare_spec (c_hour a) (c_hour b)) as [Eh|Eh|Eh]; simpl in Hc; [|lia|done].
  destruct (Z.compare_spec (c_min a) (c_min b)) as [Ei|Ei|Ei]; simpl in Hc; [|lia|done].
  change (c_sec a < c_sec b) in Hc. lia.
Qed.

Lemma civil_compare_antisym a b : civil_compare b a = CompOpp (civil_compare a b).
Proof.
  unfold civil_compare.
  rewrite (Z.compare_antisym (c_year a)), (Z.compare_antisym (c_month a)), (Z.compare_antisym (c_day a)),
    (Z.compare_antisym (c_hour a)), (Z.compare_antisym (c_min a)), (Z.compare_antisym (c_sec a)).
  by repeat (destruct (_ ?= _); simpl).
Qed.

(** An instant in an earlier whole second has the smaller text. *)
Lemma Format_lt t u :
  four_digit_year t -> four_digit_year u -> t / Second < u / Second ->
  text_lt (Format t) (Format u) = true.
Proof.
  intros Ht Hu Hlt. apply text_lt_compare. unfold Format.
  rewrite compare_format_civil by auto using civil_of_ok.
  destruct (civil_compare (civil_of t) (civil_of u)) eqn:E; simpl; [|done|]; exfalso.
  - assert (Date (civil_of t) / Second = Date (civil_of u) / Second) as Heq.
    { pose proof (civil_of_ok t Ht) as (? & ? & ? & ? & ? & ? & ?).
      pose proof (civil_of_ok u Hu) as (? & ? & ? & ? & ? & ? & ?).
      unfold civil_compare in E.
      destruct (Z.compare_spec (c_year (civil_of t)) (c_year (civil_of u))) as [Ey|?|?]; try done.
      destruct (Z.compare_spec (c_month (civil_of t)) (c_month (civil_of u))) as [Em|?|?]; try done.
      destruct (Z.compare_spec (c_day (civil_of t)) (c_day (civil_of u))) as [Ed|?|?]; try done.
      destruct (Z.compare_spec (c_hour (civil_of t)) (c_hour (civil_of u))) as [Eh|?|?]; try done.
      destruct (Z.compare_spec (c_min (civil_of t)) (c_min (civil_of u))) as [Ei|?|?]; try done.
      destruct (Z.compare_spec (c_sec (civil_of t)) (c_sec (civil_of u))) as [Es|?|?]; try done.
      unfold Date. rewrite Ey, Em, Ed, Eh, Ei, Es. unfold Second in *. lia. }
    rewrite !Date_civil_of in Heq. lia.
  - assert (civil_compare (civil_of u) (civil_of t) = Lt) as E' by (by rewrite civil_compare_antisym, E).
    apply civil_compare_lt in E'; [|by apply civil_of_ok..]. rewrite !Date_civil_of in E'. lia.
Qed.

(** Text comparison decides time order up to one second: a stamp whose text
    is not larger is never a full second later. *)
Lemma Format_le_bound t u :
  four_digit_year t -> four_digit_year u -> text_le (Format t) (Format u) = true ->
  t < u + Second.
Proof.
  intros Ht Hu Hle. rewrite text_le_negb_lt in Hle. apply Z.nle_gt. intros Hge.
  rewrite (Format_lt u t) in Hle; [done..|]. unfold Second in *. lia.
Qed.

(** A stamp at least a full second earlier has the smaller text. *)
Lemma Format_lt_second t u :
  four_digit_year t -> four_digit_year u -> t + Second <= u -> text_lt (Format t) (Format u) = true.
Proof. intros ???. apply Format_lt; [done..|]. unfold Second in *. lia. Qed.

(** Within one second the text order is not the time order: a whole second
    sorts after each of its fractions. *)
Lemma Format_not_monotone : exists t u, t < u /\ text_lt (Format u) (Format t) = true.
Proof. exists 0, 500000000. split; [lia|by vm_compute]. Qed.

Lemma Format_inj t u : four_digit_year t -> four_digit_year u -> Format t = Format u -> t = u.
Proof. intros Ht Hu E. apply (f_equal parse_rfc3339) in E. rewrite !parse_Format in E by done. by injection E. Qed.

(** ** Characters of a timestamp *)

Lemma no_char_all_digits c s : digit_val c = None -> all_digits s = true -> no_char c s = true.
Proof.
  intros Hc. induction s as [|d s IH]; [done|]. simpl. intros [Hd Hs]%andb_prop. rewrite IH by done.
  destruct (Ascii.eqb d c) eqn:E; [|done]. apply Ascii.eqb_eq in E as ->. by rewrite Hc in Hd.
Qed.

Lemma no_char_Format c t :
  four_digit_year t -> digit_val c = None -> no_char c "-T:.Z" = true -> no_char c (Format t) = true.
Proof.
  intros Ht Hc Hsep. unfold Format, format_civil.
  rewrite (append_int_4 _ (four_digit_year_civil _ Ht)). rewrite !no_char_app.
  rewrite !(no_char_all_digits c (digits _ _)) by auto using all_digits_digits.
  assert (Hf : no_char c (format_frac (c_nano (civil_of t))) = true).
  { unfold format_frac. pose proof (all_digits_trim _ (all_digits_digits 9 (c_nano (civil_of t)))) as Hd.
    destruct (trim_zeros _) as [|d s]; [done|].
    simpl in Hsep. cbn [no_char]. change (no_char c (String d s)) with (no_char c (String d s)).
    pose proof (no_char_all_digits c (String d s) Hc Hd) as Hn. cbn [no_char] in Hn.
    rewrite Hn. destruct (Ascii.eqb "." c) eqn:E; [|done]. apply Ascii.eqb_eq in E as <-. done. }
  rewrite Hf. cbn [no_char] in *. revert Hsep. clear.
  repeat match goal with |- context [Ascii.eqb ?a c] => destruct (Ascii.eqb a c) end; done.
Qed.
