(* ===== verification/GoDuration.v ===== *)
(** * Go's [time.ParseDuration]

    Durations in the configuration file are text such as [1h30m] or [1.5h].
    The parser works on unsigned 64-bit numbers with explicit overflow checks
    and computes fractions in binary64 floating point, here the executable
    specification floats of the Standard Library. *)

From S2P Require Import Prelude GoText GoTime.
From Stdlib Require Import Ascii String SpecFloat.
Local Open Scope string_scope.
Local Open Scope Z_scope.
#[local] Arguments String.append !_ _ : simpl nomatch.

Definition uint63 : Z := 9223372036854775808.   (* [1<<63] *)
Definition uint64_range : Z := 18446744073709551616.

(** ** Floating point *)

Definition prec64 : Z := 53.
Definition emax64 : Z := 1024.
(** [float64(n)]. *)
Definition float64 (n : Z) : spec_float := binary_normalize prec64 emax64 n 0 false.
Definition fmul (a b : spec_float) : spec_float := SFmul prec64 emax64 a b.
Definition fdiv (a b : spec_float) : spec_float := SFdiv prec64 emax64 a b.
(** [uint64(x)], for a value in range: the fraction is dropped. *)
Definition uint64_of (x : spec_float) : Z :=
  match x with
  | S754_finite s m e => if s then 0 else Z.shiftl (Zpos m) e
  | _ => 0
  end.

(** ** The pieces of a duration *)

(** Digits to [x] and the rest; [None] past [1<<63]. *)
Fixpoint leadingInt (x : Z) (s : string) : option (Z * string) :=
  match s with
  | "" => Some (x, "")
  | String c s' =>
      match digit_val c with
      | None => Some (x, s)
      | Some n =>
          if uint63 / 10 <? x then None
          else let x' := x * 10 + n in if uint63 <? x' then None else leadingInt x' s'
      end
  end.

(** Digits after the point, as [x / scale]; digits past the range are skipped. *)
Fixpoint leadingFraction (x : Z) (scale : spec_float) (overflow : bool) (s : string) : Z * spec_float * string :=
  match s with
  | "" => (x, scale, "")
  | String c s' =>
      match digit_val c with
      | None => (x, scale, s)
      | Some n =>
          if overflow then leadingFraction x scale true s'
          else if (uint63 - 1) / 10 <? x then leadingFraction x scale true s'
          else let y := x * 10 + n in
               if uint63 <? y then leadingFraction x scale true s'
               else leadingFraction y (fmul scale (float64 10)) false s'
      end
  end.

(** The unit's name ends at a digit or a point. *)
Definition unit_char (c : ascii) : bool := negb (Ascii.eqb c "." || is_valid (digit_val c)).
Fixpoint leadingUnit (s : string) : string * string :=
  match s with
  | String c s' => if unit_char c then let (u, r) := leadingUnit s' in (String c u, r) else ("", s)
  | "" => ("", "")
  end.

Definition unitMap (u : string) : option Z :=
  if String.eqb u "ns" then Some 1
  else if String.eqb u "us" || String.eqb u (String "194" (String "181" "s")) || String.eqb u (String "206" (String "188" "s"))
  then Some 1000
  else if String.eqb u "ms" then Some 1000000
  else if String.eqb u "s" then Some Second
  else if String.eqb u "m" then Some Minute
  else if String.eqb u "h" then Some Hour
  else None.

Definition invalid_duration : error := Internal "time: invalid duration".

(** One number with its unit, in nanoseconds. *)
Definition duration_part (s : string) : result (Z * string) :=
  match s with
  | String c _ =>
      if negb (Ascii.eqb c "." || is_valid (digit_val c)) then Err invalid_duration
      else match leadingInt 0 s with
           | None => Err invalid_duration
           | Some (v, s1) =>
               let pre := negb (String.eqb s1 s) in
               let '(f, scale, s2, post) :=
                 match s1 with
                 | String "." t => let '(f, scale, r) := leadingFraction 0 (float64 1) false t in (f, scale, r, negb (String.eqb r t))
                 | _ => (0, float64 1, s1, false)
                 end in
               if negb pre && negb post then Err invalid_duration
               else let (u, rest) := leadingUnit s2 in
                    if String.eqb u "" then Err (Internal "time: missing unit in duration")
                    else match unitMap u with
                         | None => Err (Internal "time: unknown unit in duration")
                         | Some unit =>
                             if uint63 / unit <? v then Err invalid_duration
                             else let v := v * unit in
                                  let v := if 0 <? f then v + uint64_of (fmul (float64 f) (fdiv (float64 unit) scale)) else v in
                                  if (0 <? f) && (uint63 <? v) then Err invalid_duration else Ok (v, rest)
                         end
           end
  | "" => Ok (0, "")
  end.

(** The sum of the parts, modulo [2^64]: two parts of [1<<63] give zero, which
    the check does not notice.  Every part consumes something. *)
Fixpoint duration_parts (fuel : nat) (d : Z) (s : string) : result Z :=
  match s, fuel with
  | "", _ => Ok d
  | _, O => Err Diverges
  | _, S fuel' =>
      p ← duration_part s;
      let d := (d + p.1) mod uint64_range in
      if uint63 <? d then Err invalid_duration else duration_parts fuel' d p.2
  end.

Definition ParseDuration (orig : string) : result Z :=
  let '(neg, s) := match orig with
                   | String c s' => if Ascii.eqb c "-" || Ascii.eqb c "+" then (Ascii.eqb c "-", s') else (false, orig)
                   | "" => (false, orig)
                   end in
  if String.eqb s "0" then Ok 0
  else if String.eqb s "" then Err invalid_duration
  else
    d ← duration_parts (String.length s) 0 s;
    if neg then Ok (- d)
    else if uint63 - 1 <? d then Err invalid_duration else Ok d.

Example duration_2m : ParseDuration "2m" = Ok (120 * Second).
Proof. vm_compute. reflexivity. Qed.
Example duration_mixed : ParseDuration "-1h1.5s250ms" = Ok (- (3601750 * 1000000)).
Proof. vm_compute. reflexivity. Qed.
Example duration_fraction : ParseDuration "0.1h" = Ok (360 * Second) /\ ParseDuration ".3333333333333333333h" = Ok 1200000000000.
Proof. vm_compute. done. Qed.
Example duration_limit : ParseDuration "9223372036854775807ns" = Ok max_int64 /\ ParseDuration "9223372036854775808ns" = Err invalid_duration
  /\ ParseDuration "-9223372036854775808ns" = Ok min_int64 /\ ParseDuration "2562048h" = Err invalid_duration.
Proof. vm_compute. done. Qed.
Example duration_bad : ParseDuration "15" = Err (Internal "time: missing unit in duration") /\ ParseDuration "1 h" = Err (Internal "time: unknown unit in duration")
  /\ ParseDuration "." = Err invalid_duration /\ ParseDuration "" = Err invalid_duration.
Proof. vm_compute. done. Qed.
Example duration_wraps : ParseDuration "9223372036854775808ns9223372036854775808ns" = Ok 0.
Proof. vm_compute. reflexivity. Qed.

(** ** Every text is parsed, into 64 bits *)

Lemma digit_val_range c n : digit_val c = Some n -> 0 <= n <= 9.
Proof. unfold digit_val. destruct (_ && _) eqn:E; [|done]. intros [= <-]. lia. Qed.

Lemma leadingInt_inv x s v r : 0 <= x <= uint63 -> leadingInt x s = Some (v, r) ->
  0 <= v <= uint63 /\ (String.length r <= String.length s)%nat.
Proof.
  revert x. induction s as [|c s IH]; intros x Hx; simpl; [intros [= <- <-]; done|].
  destruct (digit_val c) as [n|] eqn:Ed; [|intros [= <- <-]; done]. apply digit_val_range in Ed.
  destruct (uint63 / 10 <? x); [done|]. destruct (uint63 <? x * 10 + n) eqn:E; [done|].
  intros H. apply IH in H as [Hv Hr]; [split; [done|lia]|lia].
Qed.

Lemma leadingFraction_length x scale b s : (String.length (leadingFraction x scale b s).2 <= String.length s)%nat.
Proof.
  revert x scale b. induction s as [|c s IH]; intros x scale b; simpl; [done|].
  destruct (digit_val c) as [n|]; [|done].
  destruct b; [etrans; [apply IH|lia]|]. destruct (_ <? x); [etrans; [apply IH|lia]|].
  destruct (uint63 <? _); (etrans; [apply IH|lia]).
Qed.

Lemma leadingUnit_length s : String.length s = (String.length (leadingUnit s).1 + String.length (leadingUnit s).2)%nat.
Proof.
  induction s as [|c s IH]; [done|]. simpl. destruct (unit_char c); [|done]. destruct (leadingUnit s) as [u r]. simpl in *. lia.
Qed.

Lemma uint64_of_nonneg x : 0 <= uint64_of x.
Proof. unfold uint64_of. destruct x as [| | |[] m e]; try lia. apply Z.shiftl_nonneg. lia. Qed.

Lemma unitMap_range u k : unitMap u = Some k -> 0 < k <= Hour.
Proof. unfold unitMap, Hour, Minute, Second. repeat (case_match; [intros [= <-]; lia|]). done. Qed.

Lemma duration_part_inv s v r : s <> "" -> duration_part s = Ok (v, r) ->
  0 <= v <= uint63 /\ (String.length r < String.length s)%nat.
Proof.
  unfold duration_part. destruct s as [|c s']; [done|]. intros _. set (s := String c s').
  destruct (negb _); [done|]. destruct (leadingInt 0 s) as [[v0 s1]|] eqn:Ei; [|done].
  apply leadingInt_inv in Ei as [Hv0 Hs1]; [|unfold uint63; lia].
  set (frac := match s1 with String "." t => _ | _ => _ end).
  assert (Hf : (String.length frac.1.2 <= String.length s1)%nat).
  { unfold frac. repeat case_match; try (simpl; lia). match goal with H : leadingFraction ?x ?sc ?b ?t = _ |- _ =>
      pose proof (leadingFraction_length x sc b t) as Hl; rewrite H in Hl end. simpl in *. lia. }
  destruct frac as [[[f scale] s2] post]. destruct (negb _ && negb post); [done|].
  pose proof (leadingUnit_length s2) as Hu. destruct (leadingUnit s2) as [u rest]. simpl in *.
  destruct (String.eqb_spec u ""); [done|]. destruct (unitMap u) as [k|] eqn:Ek; [|done]. apply unitMap_range in Ek.
  assert (0 < String.length u)%nat by (destruct u; simpl; [done|lia]).
  destruct (uint63 / k <? v0) eqn:Eo; [done|]. assert (Hm : v0 * k <= uint63).
  { assert (v0 <= uint63 / k) by lia. pose proof (Z.mul_div_le uint63 k ltac:(lia)). nia. }
  set (w := fmul _ _). pose proof (uint64_of_nonneg w).
  destruct (0 <? f); simpl; [|intros [= <- <-]; split; [nia|lia]].
  destruct (uint63 <? v0 * k + uint64_of w) eqn:E; [done|]. intros [= <- <-]. split; [nia|lia].
Qed.

Lemma duration_part_converges s : duration_part s <> Err Diverges.
Proof.
  unfold duration_part. destruct s; [done|]. destruct (negb _); [done|]. destruct (leadingInt _ _) as [[v s1]|]; [|done].
  destruct (match s1 with String "." t => _ | _ => _ end) as [[[f scale] s2] post].
  destruct (negb _ && negb post); [done|]. destruct (leadingUnit s2) as [u rest]. destruct (String.eqb u ""); [done|].
  destruct (unitMap u); [|done]. destruct (_ <? v); [done|]. by destruct ((0 <? f) && _).
Qed.

Lemma duration_parts_total fuel d s : (String.length s <= fuel)%nat -> 0 <= d <= uint63 ->
  duration_parts fuel d s <> Err Diverges /\ forall r, duration_parts fuel d s = Ok r -> 0 <= r <= uint63.
Proof.
  revert d s. induction fuel as [|fuel IH]; intros d s Hl Hd.
  - destruct s; [|simpl in Hl; lia]. simpl. split; [done|]. by intros r [= <-].
  - destruct s as [|c s']; [simpl; split; [done|]; by intros r [= <-]|]. set (s := String c s') in *.
    change (duration_parts (S fuel) d s) with (p ← duration_part s;
      let d := (d + p.1) mod uint64_range in if uint63 <? d then Err invalid_duration else duration_parts fuel d p.2).
    pose proof (duration_part_converges s). destruct (duration_part s) as [[v r]|e] eqn:E; simpl; [|split; [congruence|done]].
    apply duration_part_inv in E as [Hv Hr]; [|done]. destruct (uint63 <? _) eqn:Eo; [done|].
    apply IH; [lia|]. pose proof (Z.mod_pos_bound (d + v) uint64_range ltac:(done)). lia.
Qed.

(** Parsing ends, whatever the text, and the result is a 64-bit duration. *)
Lemma ParseDuration_total s : ParseDuration s <> Err Diverges /\ forall d, ParseDuration s = Ok d -> min_int64 <= d <= max_int64.
Proof.
  unfold ParseDuration. destruct (match s with "" => _ | String c s' => _ end) as [neg t].
  destruct (String.eqb t "0"); [split; [done|]; by intros d [= <-]|]. destruct (String.eqb t ""); [done|].
  destruct (duration_parts_total (String.length t) 0 t) as [Hd Hr]; [done|done|].
  destruct (duration_parts (String.length t) 0 t) as [d|e]; simpl; [|split; [congruence|done]].
  specialize (Hr d eq_refl). unfold min_int64, max_int64, uint63 in *.
  destruct neg; [split; [done|]; intros r [= <-]; lia|]. destruct (_ <? d) eqn:E; [done|]. split; [done|]. intros r [= <-]. lia.
Qed.

(** ** Written durations are read back *)


(** A duration as people write it: whole numbers of units, as in [1h30m]. *)
Fixpoint written (l : list (Z * string)) : string :=
  match l with [] => "" | (n, u) :: l' => FormatInt n ++ u ++ written l' end.
Fixpoint total (l : list (Z * string)) : Z :=
  match l with [] => 0 | (n, u) :: l' => n * default 0 (unitMap u) + total l' end.
Definition part_ok (p : Z * string) : Prop := 0 <= p.1 <= max_int64 /\ is_Some (unitMap p.2).

Lemma leadingUnit_app u r : string_forall unit_char u = true -> leadingUnit (u ++ r) = (u ++ (leadingUnit r).1, (leadingUnit r).2).
Proof.
  induction u as [|c u IH]; simpl; [by destruct (leadingUnit r)|]. intros [Hc Hu]%andb_prop. by rewrite Hc, IH.
Qed.

Lemma unitMap_chars u k : unitMap u = Some k -> u <> "" /\ forall r, leadingUnit (u ++ r) = (u ++ (leadingUnit r).1, (leadingUnit r).2).
Proof.
  intros H. assert (Hin : u ∈ ["ns"; "us"; String "194" (String "181" "s"); String "206" (String "188" "s"); "ms"; "s"; "m"; "h"]).
  { unfold unitMap in H. rewrite !list_elem_of_In. simpl.
    destruct (String.eqb_spec u "ns"); [auto|]. destruct (String.eqb_spec u "us"); [auto|].
    destruct (String.eqb_spec u (String "194" (String "181" "s"))); [auto|].
    destruct (String.eqb_spec u (String "206" (String "188" "s"))); [auto|]. simpl in H.
    destruct (String.eqb_spec u "ms"); [auto 10|]. destruct (String.eqb_spec u "s"); [auto 10|].
    destruct (String.eqb_spec u "m"); [auto 10|]. destruct (String.eqb_spec u "h"); [auto 10|done]. }
  rewrite !elem_of_cons, elem_of_nil in Hin.
  assert (Hu : u <> "" /\ string_forall unit_char u = true)
    by (destruct Hin as [->|[->|[->|[->|[->|[->|[->|[->|[]]]]]]]]]; (split; [done|vm_compute; reflexivity])).
  split; [apply Hu|]. intros r. apply leadingUnit_app, Hu.
Qed.

Lemma parse_uint_le t x v : 0 <= x -> parse_uint t x = Some v -> x <= v.
Proof.
  revert x. induction t as [|c t IH]; intros x Hx; simpl; [intros [= <-]; lia|].
  destruct (digit_val c) as [n|] eqn:E; [|done]. apply digit_val_range in E. intros H%IH; lia.
Qed.

Definition starts_digit (s : string) : bool := match s with "" => false | String c _ => is_valid (digit_val c) end.

Lemma leadingInt_app t x v r : 0 <= x -> parse_uint t x = Some v -> v <= max_int64 -> starts_digit r = false ->
  leadingInt x (t ++ r) = Some (v, r).
Proof.
  intros Hx Ht Hv Hr. revert x Hx Ht. induction t as [|c t IH]; intros x Hx; simpl.
  - intros [= <-]. destruct r as [|c r]; [done|]. simpl in *. by destruct (digit_val c).
  - destruct (digit_val c) as [n|] eqn:E; [|done]. apply digit_val_range in E. intros Ht.
    pose proof (parse_uint_le t (x * 10 + n) v ltac:(lia) Ht) as Hle. unfold max_int64, uint63 in *.
    change (9223372036854775808 / 10) with 922337203685477580 in *. destruct (_ <? x) eqn:E1; [lia|]. destruct (_ <? x * 10 + n) eqn:E2; [lia|]. apply IH; [lia|done].
Qed.

Lemma FormatInt_parse n : 0 <= n <= max_int64 -> parse_uint (FormatInt n) 0 = Some n /\ starts_digit (FormatInt n) = true.
Proof.
  intros Hn. unfold FormatInt, max_int64 in *. destruct (n <? 0) eqn:E; [lia|].
  destruct (format_uint_head 19 n "") as (c & s & Heq & [d Hd]).
  split; [by rewrite (parse_format_uint 19) by lia|]. rewrite Heq. simpl. by rewrite Hd.
Qed.

Lemma starts_digit_app a b : starts_digit a = true -> starts_digit (a ++ b) = true.
Proof. by destruct a. Qed.

Lemma written_starts l : Forall part_ok l -> l <> [] -> starts_digit (written l) = true.
Proof. destruct l as [|[n u] l]; [done|]. intros [[Hn _] _]%Forall_cons _. simpl. by apply starts_digit_app, FormatInt_parse. Qed.

Lemma leadingUnit_written l : Forall part_ok l -> leadingUnit (written l) = ("", written l).
Proof.
  intros Hl. destruct l as [|p l]; [done|]. pose proof (written_starts (p :: l) Hl ltac:(done)) as Hs.
  destruct (written (p :: l)) as [|c s]; [done|]. simpl in *. unfold unit_char. by rewrite Hs, orb_true_r.
Qed.

Lemma HasPrefix_dot c s : c <> "."%char -> HasPrefix (String c s) "." = false.
Proof. intros H. change (Ascii.eqb "." c && HasPrefix s "" = false). apply not_eq_sym, Ascii.eqb_neq in H. by rewrite H. Qed.

Lemma unit_not_digit u k r : unitMap u = Some k -> starts_digit (u ++ r) = false /\ String.eqb (u ++ r) "" = false /\ HasPrefix (u ++ r) "." = false.
Proof.
  intros H. pose proof (unitMap_chars u k H) as [Hne Hl]. specialize (Hl ""). destruct u as [|c u]; [done|]. simpl in *.
  unfold unit_char in Hl. destruct (Ascii.eqb_spec c ".") as [->|Hc]; [done|]. simpl in Hl.
  destruct (is_valid (digit_val c)); [done|]. split; [done|]. split; [done|]. by apply HasPrefix_dot.
Qed.

Lemma string_app_neq (a b : string) : a <> "" -> b <> a ++ b.
Proof. intros Ha E. apply (f_equal String.length) in E. rewrite length_app_string in E. destruct a; [done|]. simpl in E. lia. Qed.

Lemma duration_part_written n u k r : 0 <= n -> unitMap u = Some k -> n * k <= max_int64 ->
  leadingUnit r = ("", r) -> duration_part (FormatInt n ++ u ++ r) = Ok (n * k, r).
Proof.
  intros Hn Hk Hm Hr. pose proof (unitMap_range u k Hk) as Hkr. assert (Hn' : 0 <= n <= max_int64) by nia.
  destruct (FormatInt_parse n Hn') as [Hp Hs]. destruct (unit_not_digit u k r Hk) as (Hd & Hne & Hdot).
  pose proof (leadingInt_app (FormatInt n) 0 n (u ++ r) ltac:(lia) Hp ltac:(lia) Hd) as Hi.
  pose proof (proj2 (unitMap_chars u k Hk) r) as Hu. rewrite Hr in Hu. simpl in Hu. rewrite string_app_nil_r in Hu.
  assert (Hneq : String.eqb (u ++ r) (FormatInt n ++ u ++ r) = false).
  { apply String.eqb_neq, string_app_neq. by intros E; rewrite E in Hs. }
  unfold duration_part. destruct (FormatInt n ++ u ++ r) as [|c s] eqn:Es; [by destruct (FormatInt n)|].
  assert (Hc : is_valid (digit_val c) = true).
  { apply (starts_digit_app _ (u ++ r)) in Hs. rewrite Es in Hs. exact Hs. }
  rewrite Hc, orb_true_r. simpl negb. cbv iota. rewrite Hi, Hneq. simpl negb.
  set (t := u ++ r) in *. destruct t as [|a t'] eqn:Et; [done|]. 
  assert (Ha : a <> "."%char) by (intros ->; by destruct t').
  assert (E : (match String a t' with
      | String "." t => let '(f, scale, r) := leadingFraction 0 (float64 1) false t in (f, scale, r, negb (String.eqb r t))
      | _ => (0, float64 1, String a t', false) end) = (0, float64 1, String a t', false)).
  { destruct a as [[] [] [] [] [] [] [] []]; try done. }
  rewrite E. simpl andb. cbv iota beta. rewrite Hu. pose proof (unitMap_chars u k Hk) as [Hune _].
  apply String.eqb_neq in Hune. rewrite Hune, Hk.
  destruct (uint63 / k <? n) eqn:Eo; [|done].
  assert (n <= uint63 / k); [|lia]. apply Z.div_le_lower_bound; unfold uint63, max_int64 in *; lia.
Qed.

Lemma total_nonneg l : Forall part_ok l -> 0 <= total l.
Proof.
  induction 1 as [|[n u] l [Hn [k Hk]] _ IH]; simpl in *; [lia|]. rewrite Hk. simpl. pose proof (unitMap_range u k Hk). nia.
Qed.

Lemma duration_parts_written fuel d l : Forall part_ok l -> 0 <= d -> d + total l <= max_int64 ->
  (String.length (written l) <= fuel)%nat -> duration_parts fuel d (written l) = Ok (d + total l).
Proof.
  intros Hl. revert fuel d. induction Hl as [|[n u] l [Hn [k Hk]] Hl IH]; intros fuel d Hd Ht Hf.
  - simpl. rewrite Z.add_0_r. by destruct fuel.
  - simpl in Hn, Hk. pose proof (unitMap_range u k Hk) as Hkr. pose proof (total_nonneg l Hl) as Hnn.
    simpl in Ht. rewrite Hk in Ht. simpl in Ht.
    assert (Hp : duration_part (written ((n, u) :: l)) = Ok (n * k, written l)).
    { simpl. apply duration_part_written; [lia|done|nia|by apply leadingUnit_written]. }
    assert (Hs : starts_digit (written ((n, u) :: l)) = true) by (apply written_starts; [|done]; constructor; [|done]; by split; [|exists k]).
    destruct fuel as [|fuel]; [destruct (written ((n, u) :: l)); [done|simpl in Hf; lia]|].
    assert (Hlen : (String.length (written l) < String.length (written ((n, u) :: l)))%nat).
    { apply duration_part_inv in Hp; [lia|]. by intros E; rewrite E in Hs. }
    assert (E : duration_parts (S fuel) d (written ((n, u) :: l)) = (p ← duration_part (written ((n, u) :: l));
      let d := (d + p.1) mod uint64_range in if uint63 <? d then Err invalid_duration else duration_parts fuel d p.2))
      by (destruct (written ((n, u) :: l)); done).
    rewrite E, Hp. simpl. rewrite Hk. simpl. unfold max_int64, uint63, uint64_range in *.
    rewrite Z.mod_small by nia. destruct (_ <? d + n * k) eqn:Eo; [nia|]. rewrite IH by (nia || lia). f_equal. lia.
Qed.

Lemma ParseDuration_written l : l <> [] -> Forall part_ok l -> total l <= max_int64 -> ParseDuration (written l) = Ok (total l).
Proof.
  intros Hne Hl Ht. pose proof (written_starts l Hl Hne) as Hs. pose proof (duration_parts_written (String.length (written l)) 0 l Hl ltac:(lia) Ht ltac:(lia)) as Hp.
  unfold ParseDuration. destruct (written l) as [|c s] eqn:E; [done|]. simpl in Hs.
  assert (Hc : Ascii.eqb c "-" || Ascii.eqb c "+" = false).
  { apply orb_false_iff. split; apply Ascii.eqb_neq; intros ->; done. }
  rewrite Hc. destruct (String.eqb_spec (String c s) "0") as [E0|_].
  - (* a number without a unit is not written *)
    exfalso. rewrite E0 in Hp. destruct l as [|[n u] l]; [done|]. simpl in E.
    apply Forall_cons in Hl as [[Hn [k Hk]] Hl]. simpl in Hn, Hk.
    pose proof (unitMap_chars u k Hk) as [Hu _]. assert (String.length (FormatInt n ++ u ++ written l) = 1%nat) as Hlen by (by rewrite E, E0).
    rewrite !length_app_string in Hlen. destruct (FormatInt_parse n Hn) as [_ Hd]. destruct (FormatInt n); [done|]. destruct u; [done|]. simpl in Hlen. lia.
  - destruct (String.eqb_spec (String c s) ""); [done|]. rewrite Hp, Z.add_0_l.
    change ((if uint63 - 1 <? total l then Err invalid_duration else Ok (total l)) = Ok (total l)).
    unfold uint63, max_int64 in *. destruct (_ <? total l) eqn:Eo; [lia|done].
Qed.
