(* ===== verification/GoNet.v ===== *)
(** * Go's [net.ParseIP] and [net.JoinHostPort]

    Which texts are IP addresses ([net/netip]'s parsers, without a zone), and
    joining a host with a port. *)

From S2P Require Import Prelude GoText.
From Stdlib Require Import Ascii String.
Local Open Scope string_scope.
Local Open Scope Z_scope.
#[local] Arguments String.append !_ _ : simpl nomatch.

(** ** IPv4: four decimal fields *)

(** [digLen] digits of the field were read, with value [val]; [pos] fields are
    complete. *)
Fixpoint parseIPv4Fields (s : string) (val : Z) (digLen pos : nat) : bool :=
  match s with
  | "" => (3 <=? pos)%nat && negb (Nat.eqb digLen 0)
  | String c s' =>
      match digit_val c with
      | Some n =>
          if Nat.eqb digLen 1 && (val =? 0) then false
          else let val' := val * 10 + n in
               if 255 <? val' then false else parseIPv4Fields s' val' (S digLen) pos
      | None =>
          if negb (Ascii.eqb c ".") then false
          else if Nat.eqb digLen 0 then false
          else if Nat.eqb pos 3 then false
          else parseIPv4Fields s' 0 0 (S pos)
      end
  end.

(** ** IPv6: hexadecimal groups *)

(** A group of at most four digits: how many, and the rest. *)
Fixpoint hex_group (off : nat) (s : string) : option (nat * string) :=
  match s with
  | "" => Some (off, "")
  | String c s' =>
      match hex_digit_val c with
      | Some _ => if (3 <? off)%nat then None else hex_group (S off) s'
      | None => Some (off, s)
      end
  end.

(** The bytes still to come and whether [::] was seen; the number of bytes
    read and the rest when the loop ends. *)
Fixpoint parse_groups (fuel : nat) (i : nat) (ellipsis : bool) (s : string) : option (nat * bool * string) :=
  match fuel with
  | O => Some (i, ellipsis, s)
  | S fuel' =>
      if (16 <=? i)%nat then Some (i, ellipsis, s)
      else match hex_group 0 s with
           | None => None
           | Some (off, rest) =>
               if Nat.eqb off 0 then None
               else if HasPrefix rest "." then
                 if negb ellipsis && negb (Nat.eqb i 12) then None
                 else if (16 <? i + 4)%nat then None
                 else if parseIPv4Fields s 0 0 0 then Some ((i + 4)%nat, ellipsis, "") else None
               else match rest with
                    | "" => Some ((i + 2)%nat, ellipsis, "")
                    | String c rest' =>
                        if negb (Ascii.eqb c ":") then None
                        else match rest' with
                             | "" => None
                             | String d rest'' =>
                                 if Ascii.eqb d ":" then
                                   if ellipsis then None
                                   else if String.eqb rest'' "" then Some ((i + 2)%nat, true, "")
                                   else parse_groups fuel' (i + 2) true rest''
                                 else parse_groups fuel' (i + 2) ellipsis rest'
                             end
                    end
           end
  end.

Definition parseIPv6 (s : string) : bool :=
  if negb (no_char "%" s) then false                 (* a zone *)
  else
    let '(ellipsis, t) := if HasPrefix s "::" then (true, string_drop 2 s) else (false, s) in
    if ellipsis && String.eqb t "" then true
    else match parse_groups 8 0 ellipsis t with
         | None => false
         | Some (i, ellipsis, rest) => String.eqb rest "" && if (i <? 16)%nat then ellipsis else negb ellipsis
         end.

(** [net.ParseIP(s) != nil]: the first of [.], [:] and [%] decides. *)
Fixpoint first_of (s : string) : option ascii :=
  match s with
  | "" => None
  | String c s' => if Ascii.eqb c "." || Ascii.eqb c ":" || Ascii.eqb c "%" then Some c else first_of s'
  end.
Definition ParseIP (s : string) : bool :=
  match first_of s with
  | Some c => if Ascii.eqb c "." then parseIPv4Fields s 0 0 0
              else if Ascii.eqb c ":" then parseIPv6 s else false
  | None => false
  end.

Example ipv4 : map ParseIP ["127.0.0.1"; "0.0.0.0"; "255.255.255.255"; "1.2.3"; "1.2.3.4.5"; "256.1.1.1"; "01.2.3.4"; "1..2.3"; ""; ".1.2.3"; "1.2.3."; "localhost"]
  = [true; true; true; false; false; false; false; false; false; false; false; false].
Proof. vm_compute. reflexivity. Qed.
Example ipv6 : map ParseIP ["::"; "::1"; "fe80::1"; "1:2:3:4:5:6:7:8"; "1:2:3:4:5:6:7::"; "::ffff:192.0.2.1"; "1:2:3:4:5:6:1.2.3.4"; "fe80::1%eth0"; "1:2:3:4:5:6:7:8:9"; "1::2::3"; ":1"; "1:"; "12345::"; "1:2:3:4:5:6:7:8::"; "::1.2.3"; "g::"; "1:2:3:4:5:6:7:1.2.3.4"]
  = [true; true; true; true; true; true; true; false; false; false; false; false; false; false; false; false; false].
Proof. vm_compute. reflexivity. Qed.

(** ** Joining *)

Definition JoinHostPort (host port : string) : string :=
  if negb (no_char ":" host) then ("[" ++ host ++ "]:" ++ port)%string else (host ++ ":" ++ port)%string.

(** ** Splitting *)

(** Before and after the last [c]. *)
Fixpoint CutLast (s : string) (c : ascii) : option (string * string) :=
  match s with
  | "" => None
  | String d s' =>
      match CutLast s' c with
      | Some (a, b) => Some (String d a, b)
      | None => if Ascii.eqb d c then Some ("", s') else None
      end
  end.
Definition has_char (c : ascii) (s : string) : bool := negb (no_char c s).

(** [net.SplitHostPort]: the host and the port; [None] is an error. *)
Definition SplitHostPort (s : string) : option (string * string) :=
  match CutLast s ":" with
  | None => None
  | Some (before, after) =>
      if HasPrefix s "[" then
        match Cut s "]" with
        | None => None
        | Some (a, rest) =>
            let host := TrimPrefix a "[" in
            if String.eqb rest (String ":" after) && negb (has_char "[" (TrimPrefix s "[")) && negb (has_char "]" rest)
            then Some (host, after) else None
        end
      else if has_char ":" before || has_char "[" s || has_char "]" s then None
      else Some (before, after)
  end.

(** ** What addresses are made of *)

Definition ip_char (c : ascii) : bool := is_valid (hex_digit_val c) || Ascii.eqb c "." || Ascii.eqb c ":".

Lemma digit_ip_char c n : digit_val c = Some n -> ip_char c = true.
Proof.
  unfold digit_val, ip_char, hex_digit_val. cbv zeta. destruct ((48 <=? Z.of_N (N_of_ascii c)) && _); [done|done].
Qed.


Lemma parseIPv4Fields_chars s val d pos : parseIPv4Fields s val d pos = true -> string_forall ip_char s = true.
Proof.
  revert val d pos. induction s as [|c s IH]; intros val d pos; simpl; [done|].
  destruct (digit_val c) as [n|] eqn:E.
  - rewrite (digit_ip_char _ _ E). destruct (_ && _); [done|]. destruct (_ <? _); [done|]. apply IH.
  - destruct (Ascii.eqb_spec c ".") as [->|]; simpl; [|done]. destruct (Nat.eqb d 0); [done|]. destruct (Nat.eqb pos 3); [done|]. apply IH.
Qed.

Lemma hex_group_chars off s off' r : hex_group off s = Some (off', r) -> string_forall ip_char r = true -> string_forall ip_char s = true.
Proof.
  revert off. induction s as [|c s IH]; intros off; simpl; [done|].
  destruct (hex_digit_val c) as [n|] eqn:E; [|intros [= _ <-]; done].
  destruct (3 <? off)%nat; [done|]. intros H Hr. assert (ip_char c = true) as -> by (unfold ip_char; by rewrite E). simpl. by eapply IH.
Qed.

Lemma parse_groups_chars fuel i e s i' e' : parse_groups fuel i e s = Some (i', e', "") -> string_forall ip_char s = true.
Proof.
  revert i e s. induction fuel as [|fuel IH]; intros i e s; cbn [parse_groups]; [by intros [= _ _ ->]|].
  destruct (16 <=? i)%nat; [by intros [= _ _ ->]|]. destruct (hex_group 0 s) as [[off rest]|] eqn:Eg; [|done].
  destruct (Nat.eqb off 0); [done|]. destruct (HasPrefix rest ".").
  - destruct (_ && _); [done|]. destruct (16 <? i + 4)%nat; [done|]. destruct (parseIPv4Fields s 0 0 0) eqn:E4; [|done].
    intros _. by eapply parseIPv4Fields_chars.
  - intros H. eapply hex_group_chars; [exact Eg|]. destruct rest as [|c rest']; [done|].
    destruct (Ascii.eqb_spec c ":") as [->|]; simpl in H; [|done]. destruct rest' as [|d rest'']; [done|].
    change (string_forall ip_char (String ":" (String d rest''))) with (string_forall ip_char (String d rest'')).
    destruct (Ascii.eqb_spec d ":") as [->|].
    + change (string_forall ip_char (String ":" rest'')) with (string_forall ip_char rest''). destruct e; [done|].
      destruct (String.eqb_spec rest'' "") as [->|]; [done|]. by eapply IH.
    + by eapply IH.
Qed.

(** An address has hexadecimal digits, points and colons only. *)
Lemma ParseIP_chars s : ParseIP s = true -> string_forall ip_char s = true.
Proof.
  unfold ParseIP. destruct (first_of s) as [c|]; [|done]. destruct (Ascii.eqb c "."); [apply parseIPv4Fields_chars|].
  destruct (Ascii.eqb c ":"); [|done]. unfold parseIPv6. destruct (negb _); [done|].
  destruct (HasPrefix s "::") eqn:Ep.
  - apply HasPrefix_true in Ep as [t ->]. change (string_drop 2 ("::" ++ t)) with t.
    change (string_forall ip_char ("::" ++ t)) with (string_forall ip_char t).
    destruct (String.eqb_spec t "") as [->|]; [done|]. cbv iota. simpl andb.
    destruct (parse_groups 8 0 true t) as [[[i e] r]|] eqn:Eg; [|done].
    destruct (String.eqb_spec r "") as [->|]; [|done]. intros _. by eapply parse_groups_chars.
  - simpl andb. cbv iota beta. destruct (parse_groups 8 0 false s) as [[[i e] r]|] eqn:Eg; [|done].
    destruct (String.eqb_spec r "") as [->|]; [|done]. intros _. by eapply parse_groups_chars.
Qed.

(** ** Splitting what was joined *)

Lemma no_char_forall P c s : string_forall P s = true -> P c = false -> no_char c s = true.
Proof.
  intros Hs Hc. induction s as [|d s IH]; [done|]. simpl in *. apply andb_prop in Hs as [Hd Hs]. rewrite (IH Hs), andb_true_r.
  destruct (Ascii.eqb_spec d c) as [->|]; [congruence|done].
Qed.

Lemma CutLast_None s c : no_char c s = true -> CutLast s c = None.
Proof. induction s as [|d s IH]; simpl; [done|]. intros [Hd Hs]%andb_prop. rewrite (IH Hs). by destruct (Ascii.eqb d c). Qed.

Lemma CutLast_app a b c : no_char c b = true -> CutLast (a ++ String c b) c = Some (a, b).
Proof.
  intros Hb. induction a as [|d a IH]; simpl; [by rewrite CutLast_None, Ascii.eqb_refl|]. by rewrite IH.
Qed.

Lemma TrimPrefix_app p s : TrimPrefix (p ++ s) p = s.
Proof.
  unfold TrimPrefix. assert (HasPrefix (p ++ s) p = true) as -> by (apply HasPrefix_true; by eexists).
  induction p as [|c p IH]; [done|]. exact IH.
Qed.

(** A host without brackets, and a port without a colon. *)
Lemma SplitHostPort_Join host port : no_char "[" host = true -> no_char "]" host = true ->
  no_char ":" port = true -> no_char "[" port = true -> no_char "]" port = true ->
  SplitHostPort (JoinHostPort host port) = Some (host, port).
Proof.
  intros H1 H2 P0 P1 P2. unfold JoinHostPort, SplitHostPort, has_char. destruct (no_char ":" host) eqn:E; simpl negb; cbv iota.
  - change (host ++ ":" ++ port) with (host ++ String ":" port). rewrite CutLast_app by done.
    assert (Hp : HasPrefix (host ++ String ":" port) "[" = false).
    { destruct host as [|c host]; [done|]. simpl in H1. apply andb_prop in H1 as [Hc _].
      change (Ascii.eqb "[" c && HasPrefix (host ++ String ":" port) "" = false). rewrite Ascii.eqb_sym. by destruct (Ascii.eqb c "["). }
    rewrite Hp, E, !no_char_app, H1, H2. simpl. by rewrite P1, P2.
  - change ("[" ++ host ++ "]:" ++ port) with ("[" ++ host ++ "]" ++ String ":" port).
    rewrite !string_app_assoc. rewrite CutLast_app by done. rewrite <- !string_app_assoc.
    assert (Hp : HasPrefix ("[" ++ host ++ "]" ++ String ":" port) "[" = true) by (apply HasPrefix_true; by eexists).
    rewrite Hp. change ("]" ++ String ":" port) with (String "]" (String ":" port)). rewrite string_app_assoc.
    rewrite Cut_app by (rewrite no_char_app, H2; done).
    rewrite (TrimPrefix_app "["), String.eqb_refl.
    change (TrimPrefix _ "[") with (TrimPrefix ("[" ++ host ++ String "]" (String ":" port)) "["). rewrite (TrimPrefix_app "[").
    rewrite no_char_app, H1. simpl. by rewrite P1, P2.
Qed.
