(* ===== verification/GoFlag.v ===== *)
(** * Go's [flag] and the number syntax its flags use

    [FlagSet.Parse] over string, integer and boolean flags, with
    [strconv.ParseBool] and [strconv.ParseInt] in base 0. *)

From S2P Require Import Prelude GoText GoTime.
From Stdlib Require Import Ascii String.
Local Open Scope string_scope.

(** ** strconv *)

Definition ParseBool (s : string) : option bool :=
  if existsb (String.eqb s) ["1"; "t"; "T"; "true"; "TRUE"; "True"] then Some true
  else if existsb (String.eqb s) ["0"; "f"; "F"; "false"; "FALSE"; "False"] then Some false
  else None.

(** [lower]: the character with the bit of lower case set. *)
Definition lower_bit (c : ascii) : ascii :=
  match c with Ascii b0 b1 b2 b3 b4 _ b6 b7 => Ascii b0 b1 b2 b3 b4 true b6 b7 end.

(** The digit of a character in bases up to 36. *)
Definition digit36 (c : ascii) : option Z :=
  match digit_val c with
  | Some d => Some d
  | None => let n := nat_of_ascii (lower_bit c) in
            if (97 <=? n)%nat && (n <=? 122)%nat then Some (Z.of_nat n - 87)%Z else None
  end.

(** The digits of a number, underscores skipped. *)
Fixpoint digits_value (base : Z) (s : string) (n : Z) : option Z :=
  match s with
  | "" => Some n
  | String c s' =>
      if Ascii.eqb c "_" then digits_value base s' n
      else d ← digit36 c; if (d <? base)%Z then digits_value base s' (n * base + d)%Z else None
  end.

(** The base a literal's prefix asks for and what follows it. *)
Definition base_prefix (s : string) : Z * string :=
  match s with
  | String "0" (String b rest) =>
      let marks x := Ascii.eqb (lower_bit b) x && negb (String.eqb rest "") in
      if marks "b"%char then (2%Z, rest) else if marks "o"%char then (8%Z, rest) else if marks "x"%char then (16%Z, rest)
      else (8%Z, String b rest)
  | String "0" "" => (8%Z, "")
  | _ => (10%Z, s)
  end.

(** [underscoreOK]: an underscore stands between digits, or after the prefix. *)
Inductive last_seen := Start | Digit | Underscore | Other.
Fixpoint underscores_ok (hex : bool) (i : last_seen) (s : string) : bool :=
  match s with
  | "" => match i with Underscore => false | _ => true end
  | String c s' =>
      if match digit36 c with Some d => (d <? if hex then 16 else 10)%Z | None => false end then underscores_ok hex Digit s'
      else if Ascii.eqb c "_" then match i with Digit => underscores_ok hex Underscore s' | _ => false end
      else match i with Underscore => false | _ => underscores_ok hex Other s' end
  end.
Definition underscoreOK (s : string) : bool :=
  match s with
  | String "0" (String b rest) =>
      if existsb (Ascii.eqb (lower_bit b)) ["b"; "o"; "x"]%char then underscores_ok (Ascii.eqb (lower_bit b) "x") Digit rest
      else underscores_ok false Start s
  | _ => underscores_ok false Start s
  end.

Definition ParseUint_base0 (s : string) : option Z :=
  if String.eqb s "" then None
  else
    let '(base, digits) := base_prefix s in
    n ← digits_value base digits 0%Z;
    if negb (no_char "_" s) && negb (underscoreOK s) then None else Some n.

(** [strconv.ParseInt(s, 0, 64)]. *)
Definition ParseInt_base0 (s : string) : option Z :=
  let '(neg, digits) := match s with
                        | String "-" s' => (true, s')
                        | String "+" s' => (false, s')
                        | _ => (false, s)
                        end in
  n ← ParseUint_base0 digits;
  let n := if neg : bool then (- n)%Z else n in
  if (n <? min_int64)%Z || (max_int64 <? n)%Z then None else Some n.

Example ParseInt_ex : map ParseInt_base0 ["8787"; "0x22_53"; "017"; "0o17"; "-0b101"; "0"; "1_000"; "_1"; "1__0"; "08"; ""; "+"; "9223372036854775808"; "0x"; "-9223372036854775808"]
  = [Some 8787; Some 8787; Some 15; Some 15; Some (-5); Some 0; Some 1000; None; None; None; None; None; None; None; Some (-9223372036854775808)]%Z.
Proof. vm_compute. reflexivity. Qed.

(** ** flag *)

Inductive flag_value : Type :=
| FString (v : string)
| FInt (v : Z)
| FBool (v : bool).

(** The flags a set defines, with their values. *)
Abbreviation FlagSet := (list (string * flag_value)).

(** [Value.Set]: the kind of a flag does not change. *)
Definition set_value (old : flag_value) (s : string) : option flag_value :=
  match old with
  | FString _ => Some (FString s)
  | FInt _ => FInt <$> ParseInt_base0 s
  | FBool _ => FBool <$> ParseBool s
  end.

Fixpoint lookup_flag (name : string) (fs : FlagSet) : option flag_value :=
  match fs with [] => None | (n, v) :: fs' => if String.eqb n name then Some v else lookup_flag name fs' end.
Definition set_flag (name : string) (v : flag_value) (fs : FlagSet) : FlagSet :=
  map (fun f => if String.eqb f.1 name then (f.1, v) else f) fs.

Inductive parsed : Type :=
| Parsed (fs : FlagSet) (args : list string)
| HelpWanted
| BadFlags.

(** The flag an argument names, without its minuses; [None] ends the flags. *)
Inductive flag_arg := NoFlag | Terminator | BadSyntax | Named (name : string) (value : option string).
Definition read_arg (s : string) : flag_arg :=
  match s with
  | String "-" (String c rest) =>
      if Ascii.eqb c "-" && String.eqb rest "" then Terminator
      else
        let name := if Ascii.eqb c "-" then rest else String c rest in
        match name with
        | "" => BadSyntax
        | String c0 name' =>
            if Ascii.eqb c0 "-" || Ascii.eqb c0 "=" then BadSyntax
            else match Cut name' "=" with
                 | Some (n, v) => Named (String c0 n) (Some v)
                 | None => Named name None
                 end
        end
  | _ => NoFlag
  end.

Fixpoint Parse (fs : FlagSet) (args : list string) : parsed :=
  match args with
  | [] => Parsed fs []
  | s :: rest =>
      match read_arg s with
      | NoFlag => Parsed fs args
      | Terminator => Parsed fs rest
      | BadSyntax => BadFlags
      | Named name value =>
          match lookup_flag name fs with
          | None => if String.eqb name "help" || String.eqb name "h" then HelpWanted else BadFlags
          | Some (FBool b) =>
              match set_value (FBool b) (default "true" value) with
              | Some v => Parse (set_flag name v fs) rest
              | None => BadFlags
              end
          | Some old =>
              match value, rest with
              | Some s', _ => match set_value old s' with Some v => Parse (set_flag name v fs) rest | None => BadFlags end
              | None, s' :: rest' => match set_value old s' with Some v => Parse (set_flag name v fs) rest' | None => BadFlags end
              | None, [] => BadFlags
              end
          end
      end
  end.

Definition string_flag (name : string) (fs : FlagSet) : string :=
  match lookup_flag name fs with Some (FString v) => v | _ => "" end.
Definition int_flag (name : string) (fs : FlagSet) : Z := match lookup_flag name fs with Some (FInt v) => v | _ => 0%Z end.
Definition bool_flag (name : string) (fs : FlagSet) : bool := match lookup_flag name fs with Some (FBool v) => v | _ => false end.

Definition example_flags : FlagSet := [("config", FString "config.yaml"); ("port", FInt 0); ("password-stdin", FBool false)].
Example Parse_ex :
  map (Parse example_flags)
    [["--config"; "a.yaml"; "x"]; ["-port=0x50"; "--password-stdin"; "--"; "-y"]; ["--password-stdin=maybe"]; ["--port"]; ["-h"]; ["-"; "--config"]; ["--user=a"]]
  = [Parsed [("config", FString "a.yaml"); ("port", FInt 0); ("password-stdin", FBool false)] ["x"];
     Parsed [("config", FString "config.yaml"); ("port", FInt 80); ("password-stdin", FBool true)] ["-y"];
     BadFlags; BadFlags; HelpWanted; Parsed example_flags ["-"; "--config"]; BadFlags].
Proof. vm_compute. reflexivity. Qed.
