(* ===== verification/Uuid.v ===== *)
(** * Package github.com/google/uuid, as an interface

    The identifiers of the server are parsed and printed by a third-party
    package.  [UuidLib] lists the functions the code calls; [UuidLaws] lists
    the documented behaviour the theorems rely on: printing gives the
    36-character lower-case hyphenated form, which parses back to the same
    value, and [Validate] accepts exactly what [Parse] accepts.
    [CanonicalUuid] is a concrete implementation (sixteen bytes, canonical
    spelling only), used to run the definitions on concrete inputs. *)

From S2P Require Import Prelude GoText.
From Stdlib Require Import Ascii String.
Local Open Scope string_scope.

(** Lower-case hexadecimal digits and the hyphen. *)
Definition uuid_char (c : ascii) : bool :=
  let n := N_of_ascii c in
  ((48 <=? n) && (n <=? 57) || (97 <=? n) && (n <=? 102) || (n =? 45))%N.

Fixpoint uuid_chars (s : string) : bool :=
  match s with "" => true | String c s' => uuid_char c && uuid_chars s' end.

Class UuidLib : Type := {
  uuid : Type;
  uuid_parse : string -> option uuid;
  uuid_string : uuid -> string;
  uuid_bytes : uuid -> list byte;
  uuid_validate : string -> bool;
}.

Class UuidLaws (U : UuidLib) : Prop := {
  uuid_parse_string : forall u : uuid, uuid_parse (uuid_string u) = Some u;
  uuid_validate_parse : forall s, uuid_validate s = is_valid (uuid_parse s);
  uuid_string_chars : forall u : uuid, uuid_chars (uuid_string u) = true;
  uuid_string_length : forall u : uuid, String.length (uuid_string u) = 36;
  uuid_bytes_length : forall u : uuid, List.length (uuid_bytes u) = 16;
  uuid_bytes_inj : forall u v : uuid, uuid_bytes u = uuid_bytes v -> u = v;
}.

Section uuid.
Context `{U : UuidLib}.

(** Accepts only the canonical spelling, so one opaque identifier is never
    stored under several equivalent forms. *)
Definition ValidUUID (v : string) : bool :=
  match uuid_parse v with
  | Some parsed => String.eqb (uuid_string parsed) v
  | None => false
  end.

Context {UL : UuidLaws U}.

Lemma ValidUUID_string v : ValidUUID v = true <-> exists u, v = uuid_string u.
Proof.
  unfold ValidUUID. split.
  - destruct (uuid_parse v) as [u|]; [|done]. intros <-%String.eqb_eq. by exists u.
  - intros [u ->]. by rewrite uuid_parse_string, String.eqb_refl.
Qed.

(** [ValidUUID] picks exactly one spelling of every identifier. *)
Lemma ValidUUID_unique v w u :
  ValidUUID v = true -> ValidUUID w = true -> uuid_parse v = Some u -> uuid_parse w = Some u -> v = w.
Proof.
  intros [x ->]%ValidUUID_string [y ->]%ValidUUID_string. rewrite !uuid_parse_string. congruence.
Qed.

Lemma ValidUUID_validate v : ValidUUID v = true -> uuid_validate v = true.
Proof. intros [u ->]%ValidUUID_string. by rewrite uuid_validate_parse, uuid_parse_string. Qed.

Lemma uuid_chars_no_char c s : uuid_char c = false -> uuid_chars s = true -> no_char c s = true.
Proof.
  intros Hc. induction s as [|d s IH]; [done|]. simpl. intros [Hd Hs]%andb_prop.
  rewrite IH by done. destruct (Ascii.eqb d c) eqn:E; [|done].
  apply Ascii.eqb_eq in E. congruence.
Qed.

(** A separator such as [:], [|] or [/] never occurs in an identifier. *)
Lemma ValidUUID_no_char c v : uuid_char c = false -> ValidUUID v = true -> no_char c v = true.
Proof.
  intros Hc [u ->]%ValidUUID_string. apply uuid_chars_no_char; [done|apply uuid_string_chars].
Qed.

Lemma ValidUUID_nonempty v : ValidUUID v = true -> v <> "".
Proof. intros [u ->]%ValidUUID_string E. pose proof (uuid_string_length u) as H. by rewrite E in H. Qed.
End uuid.

(** ** A concrete implementation *)

Definition hex_digit (n : N) : ascii := ascii_of_N (if n <? 10 then 48 + n else 87 + n)%N.
Definition hex_val (c : ascii) : option N :=
  let n := N_of_ascii c in
  if ((48 <=? n) && (n <=? 57))%N then Some (n - 48)%N
  else if ((97 <=? n) && (n <=? 102))%N then Some (n - 87)%N else None.
Definition hex_hi (b : byte) : ascii := hex_digit (Byte.to_N b / 16)%N.
Definition hex_lo (b : byte) : ascii := hex_digit (Byte.to_N b mod 16)%N.
Definition byte_of_hex (h l : ascii) : option byte :=
  x ← hex_val h; y ← hex_val l; Byte.of_N (16 * x + y)%N.

(** A hyphen precedes bytes 4, 6, 8 and 10. *)
Definition hyphen_before (k : nat) : bool :=
  ((k =? 4) || (k =? 6) || (k =? 8) || (k =? 10))%nat.

Fixpoint hex_encode (k : nat) (l : list byte) : string :=
  match l with
  | [] => ""
  | b :: l' =>
      let t := String (hex_hi b) (String (hex_lo b) (hex_encode (S k) l')) in
      if hyphen_before k then String "-" t else t
  end.

Fixpoint hex_decode (k : nat) (s : string) : option (list byte) :=
  match s with
  | String a (String b s2) =>
      if hyphen_before k then
        match s2 with
        | String c s3 =>
            if Ascii.eqb a "-" then x ← byte_of_hex b c; l ← hex_decode (S k) s3; Some (x :: l)
            else None
        | "" => None
        end
      else x ← byte_of_hex a b; l ← hex_decode (S k) s2; Some (x :: l)
  | String _ "" => None
  | "" => Some []
  end.

Lemma byte_of_hex_hi_lo b : byte_of_hex (hex_hi b) (hex_lo b) = Some b.
Proof. by destruct b. Qed.

Lemma uuid_char_hex b : uuid_char (hex_hi b) && uuid_char (hex_lo b) = true.
Proof. by destruct b. Qed.

Lemma hex_decode_encode k l : hex_decode k (hex_encode k l) = Some l.
Proof.
  revert k; induction l as [|b l IH]; intros k; [done|].
  cbn [hex_encode]. destruct (hyphen_before k) eqn:E; cbn [hex_decode]; rewrite E; simpl;
    by rewrite byte_of_hex_hi_lo, IH.
Qed.

Lemma hex_encode_chars k l : uuid_chars (hex_encode k l) = true.
Proof.
  revert k; induction l as [|b l IH]; intros k; [done|].
  pose proof (uuid_char_hex b) as [H1 H2]%andb_prop.
  cbn [hex_encode]. by case_match; cbn [uuid_chars]; rewrite H1, H2, IH.
Qed.

Definition uuid16 : Type := { l : list byte | bool_decide (List.length l = 16%nat) }.
Definition uuid16_parse (s : string) : option uuid16 :=
  match hex_decode 0 s with
  | Some l =>
      match decide (bool_decide (List.length l = 16%nat)) with
      | left H => Some (l ↾ H)
      | right _ => None
      end
  | None => None
  end.

#[global] Instance CanonicalUuid : UuidLib := {|
  uuid := uuid16;
  uuid_parse := uuid16_parse;
  uuid_string u := hex_encode 0 (`u);
  uuid_bytes u := `u;
  uuid_validate s := is_valid (uuid16_parse s);
|}.

#[global] Instance CanonicalUuidLaws : UuidLaws CanonicalUuid.
Proof.
  split; simpl.
  - intros [l H]. unfold uuid16_parse. simpl. rewrite hex_decode_encode.
    destruct (decide _) as [H'|H']; [|done]. f_equal. by apply (sig_eq_pi _).
  - done.
  - intros [l H]. apply hex_encode_chars.
  - intros [l H]. simpl. pose proof (bool_decide_unpack _ H) as Hl. clear H.
    do 16 (destruct l as [|? l]; [done|]). destruct l; [|done].
    cbn [hex_encode hyphen_before Nat.eqb orb String.length]. done.
  - intros [l H]. exact (bool_decide_unpack _ H).
  - intros [l H] [l' H'] E. by apply (sig_eq_pi _).
Qed.
