(* ===== verification/Sha256.v ===== *)
(** * SHA-256 and lower-case hexadecimal (Go's [crypto/sha256], [encoding/hex])

    The hash of FIPS 180-4 on byte lists, with 32-bit words as [Z] below
    [2^32].  The server stores the hashes of tokens and of ciphertext; the
    test vectors at the end are the standard's. *)

From S2P Require Import Prelude Uuid.
From Stdlib Require Import String.
Local Open Scope Z_scope.

Definition word_mask : Z := 4294967295.
Definition add32 (a b : Z) : Z := Z.land (a + b) word_mask.
Definition rotr (n x : Z) : Z := Z.lor (Z.shiftr x n) (Z.land (Z.shiftl x (32 - n)) word_mask).
Definition not32 (x : Z) : Z := Z.lxor x word_mask.
Definition xor3 (a b c : Z) : Z := Z.lxor a (Z.lxor b c).

Definition Ch (x y z : Z) : Z := Z.lxor (Z.land x y) (Z.land (not32 x) z).
Definition Maj (x y z : Z) : Z := xor3 (Z.land x y) (Z.land x z) (Z.land y z).
Definition Sigma0 (x : Z) : Z := xor3 (rotr 2 x) (rotr 13 x) (rotr 22 x).
Definition Sigma1 (x : Z) : Z := xor3 (rotr 6 x) (rotr 11 x) (rotr 25 x).
Definition sigma0 (x : Z) : Z := xor3 (rotr 7 x) (rotr 18 x) (Z.shiftr x 3).
Definition sigma1 (x : Z) : Z := xor3 (rotr 17 x) (rotr 19 x) (Z.shiftr x 10).

(** The constants of the standard: the first 32 bits of the fractional parts
    of the cube and square roots of the first primes. *)
Definition primes (bound : nat) : list Z :=
  List.filter (fun n => forallb (fun d => (d * d >? n) || negb (n mod d =? 0)) (seqZ 2 (n - 2))) (seqZ 2 (Z.of_nat bound)).

(** The largest [x] with [pow x <= n], found bit by bit from [2 ^ bits]. *)
Fixpoint integer_root (pow : Z -> Z) (n : Z) (bits : nat) (x : Z) : Z :=
  match bits with
  | O => x
  | S b => let y := x + 2 ^ Z.of_nat b in integer_root pow n b (if pow y <=? n then y else x)
  end.
Definition root_fraction (pow : Z -> Z) (p : Z) : Z := Z.land (integer_root pow (p * pow (2 ^ 32)) 40 0) word_mask.

Definition round_constants : list Z := Eval vm_compute in map (root_fraction (fun x => x * x * x)) (take 64 (primes 320)).
Definition initial_words : list Z := Eval vm_compute in map (root_fraction (fun x => x * x)) (take 8 (primes 20)).

Record state := MkState { h0 : Z; h1 : Z; h2 : Z; h3 : Z; h4 : Z; h5 : Z; h6 : Z; h7 : Z }.
Definition initial : state :=
  let w i := nth i initial_words 0 in MkState (w 0%nat) (w 1%nat) (w 2%nat) (w 3%nat) (w 4%nat) (w 5%nat) (w 6%nat) (w 7%nat).

(** The message schedule: [recent] holds the last sixteen words, newest first. *)
Fixpoint schedule (n : nat) (recent : list Z) : list Z :=
  match n with
  | O => []
  | S n' =>
      let w := add32 (add32 (sigma1 (nth 1 recent 0)) (nth 6 recent 0))
                     (add32 (sigma0 (nth 14 recent 0)) (nth 15 recent 0)) in
      w :: schedule n' (w :: recent)
  end.

Definition round (s : state) (kw : Z * Z) : state :=
  let t1 := add32 (add32 (h7 s) (Sigma1 (h4 s))) (add32 (Ch (h4 s) (h5 s) (h6 s)) (add32 kw.1 kw.2)) in
  let t2 := add32 (Sigma0 (h0 s)) (Maj (h0 s) (h1 s) (h2 s)) in
  MkState (add32 t1 t2) (h0 s) (h1 s) (h2 s) (add32 (h3 s) t1) (h4 s) (h5 s) (h6 s).

Definition add_state (a b : state) : state :=
  MkState (add32 (h0 a) (h0 b)) (add32 (h1 a) (h1 b)) (add32 (h2 a) (h2 b)) (add32 (h3 a) (h3 b))
    (add32 (h4 a) (h4 b)) (add32 (h5 a) (h5 b)) (add32 (h6 a) (h6 b)) (add32 (h7 a) (h7 b)).

Definition compress (s : state) (block : list Z) : state :=
  let w := (block ++ schedule 48 (rev block))%list in
  add_state s (foldl round s (zip round_constants w)).

Definition byte_Z (b : byte) : Z := Z.of_N (Byte.to_N b).
Definition Z_byte (z : Z) : byte := default x00 (Byte.of_N (Z.to_N (z mod 256))).

Definition word_bytes (w : Z) : list byte :=
  map (fun k => Z_byte (Z.shiftr w k)) [24; 16; 8; 0].

Fixpoint words (l : list byte) : list Z :=
  match l with
  | a :: b :: c :: d :: l' =>
      (byte_Z a * 16777216 + byte_Z b * 65536 + byte_Z c * 256 + byte_Z d) :: words l'
  | _ => []
  end.

(** One bit, zeros up to 56 modulo 64, and the length in bits. *)
Definition pad (m : list byte) : list byte :=
  let n := List.length m in
  let zeros := ((119 - n mod 64) mod 64)%nat in
  let bits := 8 * Z.of_nat n in
  (m ++ x80 :: repeat x00 zeros ++
   word_bytes (Z.land (Z.shiftr bits 32) word_mask) ++ word_bytes (Z.land bits word_mask))%list.

Fixpoint blocks (fuel : nat) (s : state) (ws : list Z) : state :=
  match fuel, ws with
  | O, _ | _, [] => s
  | S f, _ => blocks f (compress s (take 16 ws)) (drop 16 ws)
  end.

Definition Sum256 (m : list byte) : list byte :=
  let ws := words (pad m) in
  let s := blocks (List.length ws) initial ws in
  List.concat (map word_bytes [h0 s; h1 s; h2 s; h3 s; h4 s; h5 s; h6 s; h7 s]).

(** [hex.EncodeToString]. *)
Fixpoint hex_EncodeToString (l : list byte) : string :=
  match l with
  | [] => ""
  | b :: l' => String (hex_hi b) (String (hex_lo b) (hex_EncodeToString l'))
  end.

(** The bytes of a Go string. *)
Definition string_bytes (s : string) : list byte := list_byte_of_string s.

Lemma Sum256_length m : List.length (Sum256 m) = 32%nat.
Proof. reflexivity. Qed.

Lemma hex_EncodeToString_length l : String.length (hex_EncodeToString l) = (2 * List.length l)%nat.
Proof. induction l as [|b l IH]; simpl; lia. Qed.

Example Sum256_empty : hex_EncodeToString (Sum256 []) =
  "e3b0c44298fc1c149afbf4c8996fb92427ae41e4649b934ca495991b7852b855"%string.
Proof. vm_compute. reflexivity. Qed.

Example Sum256_abc : hex_EncodeToString (Sum256 (string_bytes "abc")) =
  "ba7816bf8f01cfea414140de5dae2223b00361a396177a9cb410ff61f20015ad"%string.
Proof. vm_compute. reflexivity. Qed.

(** Two blocks. *)
Example Sum256_two_blocks :
  hex_EncodeToString (Sum256 (string_bytes "abcdbcdecdefdefgefghfghighijhijkijkljklmklmnlmnomnopnopq")) =
  "248d6a61d20638b8e5c026930c3e6039a33ce45964ff2167f6ecedd419db06c1"%string.
Proof. vm_compute. reflexivity. Qed.

(** Proofs treat the hash as a black box. *)
#[global] Opaque Sum256.
