(* ===== verification/Schema.v ===== *)
(** * The SQLite schema: tables, constraints and statements

    Models [internal/database/migrations.go]: a record per table with its
    columns, the database as one record of tables keyed by their primary
    keys, and the [INSERT] and [DELETE] statements with the constraints
    SQLite enforces on them (CHECK, PRIMARY KEY/UNIQUE, then immediate
    foreign keys, which database.go's [dataSourceName] switches on).

    Timestamps are TEXT, as the code stores them; [sync_changes] is an
    AUTOINCREMENT table, so its counter never goes back.  The columns that
    no statement of the program writes are left out, as are the tables
    [sync_cursors] and [audit_events], which nothing uses. *)

From S2P Require Import Prelude.
Local Open Scope string_scope.

(** ** Rows *)

Record user_row := User {
  user_username : string;
  user_username_norm : string;
  user_password_hash : string;
  user_role : string;
  user_status : string;
  user_created_at : string;
  user_updated_at : string;
}.

Record device_row := Device {
  device_user_id : string;
  device_name : string;
  device_platform : string;
  device_e2ee_public_key : list byte;
  device_e2ee_key_version : Z;
  device_created_at : string;
  device_last_seen_at : string;
  device_revoked_at : option string;
  device_last_sync_at : option string;
}.

Record refresh_token_row := RefreshToken {
  rt_user_id : string;
  rt_device_id : string;
  rt_token_hash : list byte;
  rt_created_at : string;
  rt_expires_at : string;
  rt_revoked_at : option string;
  rt_rotated_to : option string;
}.

Record access_token_row := AccessToken {
  at_user_id : string;
  at_device_id : string;
  at_token_hash : list byte;
  at_created_at : string;
  at_expires_at : string;
}.

Record envelope_row := VaultEnvelope {
  env_vault_id : string;
  env_target_user_id : string;
  env_target_device_id : option string;
  env_key_version : Z;
  env_ciphertext : list byte;
  env_created_at : string;
  env_revoked_at : option string;
  env_signature_version : option Z;
  env_account_identity_public_key : option (list byte);
  env_device_key_signature : option (list byte);
}.

Record node_row := NodeRow {
  node_owner_id : string;
  node_parent_id : option string;
  node_type : string;
  node_metadata_ciphertext : list byte;
  node_metadata_key_version : Z;
  node_metadata_key_scope_id : option string;
  node_current_version_id : option string;
  node_revision : Z;
  node_created_at : string;
  node_updated_at : string;
  node_deleted_at : option string;
}.

Record blob_row := Blob {
  blob_ciphertext_size : Z;
  blob_storage_rel_path : string;
  blob_ciphertext_sha256 : string;
  blob_format_version : Z;
  blob_chunk_count : Z;
  blob_created_at : string;
}.

Record file_version_row := FileVersion {
  fv_node_id : string;
  fv_blob_id : string;
  fv_e2ee_header : list byte;
  fv_wrapped_file_key : list byte;
  fv_key_scope_id : string;
  fv_key_version : Z;
  fv_created_at : string;
  fv_created_by_device_id : string;
  fv_revision : Z;
}.

Record sync_row := SyncRow {
  sync_revision : Z;
  sync_user_scope_id : string;
  sync_node_id : string;
  sync_operation : string;
  sync_payload_ciphertext : list byte;
  sync_created_at : string;
}.

Record operation_row := Operation {
  op_user_id : string;
  op_device_id : string;
  op_operation_type : string;
  op_result_code : string;
  op_result_payload : string;
  op_created_at : string;
  op_expires_at : string;
}.

Record upload_session_row := UploadSession {
  us_user_id : string;
  us_device_id : string;
  us_target_node_id : option string;
  us_file_version_id : string;
  us_blob_id : string;
  us_expected_revision : option Z;
  us_chunk_size : Z;
  us_chunk_count : Z;
  us_max_ciphertext_size : Z;
  us_metadata_ciphertext : list byte;
  us_wrapped_file_key : list byte;
  us_e2ee_header : list byte;
  us_status : string;
  us_created_at : string;
  us_expires_at : string;
  us_completed_at : option string;
  us_metadata_key_version : Z;
}.

Record upload_chunk_row := UploadChunk {
  uc_ciphertext_size : Z;
  uc_ciphertext_sha256 : string;
  uc_temp_rel_path : string;
  uc_received_at : string;
}.

Record share_row := ShareRow {
  share_node_id : string;
  share_owner_user_id : string;
  share_target_user_id : string;
  share_permission : string;
  share_key_envelope : list byte;
  share_key_version : Z;
  share_created_at : string;
  share_created_by : string;
  share_revoked_at : option string;
}.

Record share_envelope_row := ShareEnvelope {
  se_share_id : string;
  se_target_device_id : string;
  se_key_version : Z;
  se_ciphertext : list byte;
  se_created_at : string;
  se_revoked_at : option string;
  se_owner_identity_public_key : option (list byte);
  se_owner_signature : option (list byte);
}.

Record recovery_bundle_row := RecoveryBundle {
  rb_bundle : list byte;
  rb_account_identity_public_key : list byte;
  rb_signature : list byte;
  rb_updated_at : string;
  rb_updated_by_device_id : string;
}.

Record folder_key_row := FolderKey {
  fk_owner_user_id : string;
  fk_owner_envelope : list byte;
  fk_created_at : string;
  fk_created_by_device_id : string;
}.

#[global] Instance node_row_eq_dec : EqDecision node_row.
Proof. solve_decision. Defined.
#[global] Instance file_version_row_eq_dec : EqDecision file_version_row.
Proof. solve_decision. Defined.
#[global] Instance share_row_eq_dec : EqDecision share_row.
Proof. solve_decision. Defined.
#[global] Instance upload_session_row_eq_dec : EqDecision upload_session_row.
Proof. solve_decision. Defined.
#[global] Instance blob_row_eq_dec : EqDecision blob_row.
Proof. solve_decision. Defined.

(** ** The database *)

Record DB := MkDB {
  users : gmap string user_row;
  devices : gmap string device_row;
  refresh_tokens : gmap string refresh_token_row;
  access_tokens : gmap string access_token_row;
  vault_key_envelopes : gmap string envelope_row;
  nodes : gmap string node_row;
  blobs : gmap string blob_row;
  file_versions : gmap string file_version_row;
  sync_changes : list sync_row;      (* ascending revision *)
  sync_sequence : Z;                 (* the AUTOINCREMENT counter *)
  processed_operations : gmap string operation_row;
  upload_sessions : gmap string upload_session_row;
  upload_chunks : gmap (string * Z) upload_chunk_row;
  shares : gmap string share_row;
  share_device_envelopes : gmap string share_envelope_row;
  favorites : gmap (string * string) string;
  gc_blob_candidates : gmap string string;
  gc_orphan_blob_files : gmap string string;
  recovery_bundles : gmap string recovery_bundle_row;
  folder_keys : gmap (string * Z) folder_key_row;
}.

Definition empty_db : DB :=
  MkDB ∅ ∅ ∅ ∅ ∅ ∅ ∅ ∅ [] 0 ∅ ∅ ∅ ∅ ∅ ∅ ∅ ∅ ∅ ∅.

(** Replacing one table. *)
Definition upd_users (f : _ -> _) (d : DB) : DB :=
    MkDB (f (users d)) (devices d) (refresh_tokens d) (access_tokens d) (vault_key_envelopes d)
    (nodes d) (blobs d) (file_versions d) (sync_changes d) (sync_sequence d) (processed_operations
    d) (upload_sessions d) (upload_chunks d) (shares d) (share_device_envelopes d) (favorites d)
    (gc_blob_candidates d) (gc_orphan_blob_files d) (recovery_bundles d) (folder_keys d).
Definition upd_devices (f : _ -> _) (d : DB) : DB :=
    MkDB (users d) (f (devices d)) (refresh_tokens d) (access_tokens d) (vault_key_envelopes d)
    (nodes d) (blobs d) (file_versions d) (sync_changes d) (sync_sequence d) (processed_operations
    d) (upload_sessions d) (upload_chunks d) (shares d) (share_device_envelopes d) (favorites d)
    (gc_blob_candidates d) (gc_orphan_blob_files d) (recovery_bundles d) (folder_keys d).
Definition upd_refresh_tokens (f : _ -> _) (d : DB) : DB :=
    MkDB (users d) (devices d) (f (refresh_tokens d)) (access_tokens d) (vault_key_envelopes d)
    (nodes d) (blobs d) (file_versions d) (sync_changes d) (sync_sequence d) (processed_operations
    d) (upload_sessions d) (upload_chunks d) (shares d) (share_device_envelopes d) (favorites d)
    (gc_blob_candidates d) (gc_orphan_blob_files d) (recovery_bundles d) (folder_keys d).
Definition upd_access_tokens (f : _ -> _) (d : DB) : DB :=
    MkDB (users d) (devices d) (refresh_tokens d) (f (access_tokens d)) (vault_key_envelopes d)
    (nodes d) (blobs d) (file_versions d) (sync_changes d) (sync_sequence d) (processed_operations
    d) (upload_sessions d) (upload_chunks d) (shares d) (share_device_envelopes d) (favorites d)
    (gc_blob_candidates d) (gc_orphan_blob_files d) (recovery_bundles d) (folder_keys d).
Definition upd_vault_key_envelopes (f : _ -> _) (d : DB) : DB :=
    MkDB (users d) (devices d) (refresh_tokens d) (access_tokens d) (f (vault_key_envelopes d))
    (nodes d) (blobs d) (file_versions d) (sync_changes d) (sync_sequence d) (processed_operations
    d) (upload_sessions d) (upload_chunks d) (shares d) (share_device_envelopes d) (favorites d)
    (gc_blob_candidates d) (gc_orphan_blob_files d) (recovery_bundles d) (folder_keys d).
Definition upd_nodes (f : _ -> _) (d : DB) : DB :=
    MkDB (users d) (devices d) (refresh_tokens d) (access_tokens d) (vault_key_envelopes d) (f
    (nodes d)) (blobs d) (file_versions d) (sync_changes d) (sync_sequence d) (processed_operations
    d) (upload_sessions d) (upload_chunks d) (shares d) (share_device_envelopes d) (favorites d)
    (gc_blob_candidates d) (gc_orphan_blob_files d) (recovery_bundles d) (folder_keys d).
Definition upd_blobs (f : _ -> _) (d : DB) : DB :=
    MkDB (users d) (devices d) (refresh_tokens d) (access_tokens d) (vault_key_envelopes d) (nodes
    d) (f (blobs d)) (file_versions d) (sync_changes d) (sync_sequence d) (processed_operations d)
    (upload_sessions d) (upload_chunks d) (shares d) (share_device_envelopes d) (favorites d)
    (gc_blob_candidates d) (gc_orphan_blob_files d) (recovery_bundles d) (folder_keys d).
Definition upd_file_versions (f : _ -> _) (d : DB) : DB :=
    MkDB (users d) (devices d) (refresh_tokens d) (access_tokens d) (vault_key_envelopes d) (nodes
    d) (blobs d) (f (file_versions d)) (sync_changes d) (sync_sequence d) (processed_operations d)
    (upload_sessions d) (upload_chunks d) (shares d) (share_device_envelopes d) (favorites d)
    (gc_blob_candidates d) (gc_orphan_blob_files d) (recovery_bundles d) (folder_keys d).
Definition upd_processed_operations (f : _ -> _) (d : DB) : DB :=
    MkDB (users d) (devices d) (refresh_tokens d) (access_tokens d) (vault_key_envelopes d) (nodes
    d) (blobs d) (file_versions d) (sync_changes d) (sync_sequence d) (f (processed_operations d))
    (upload_sessions d) (upload_chunks d) (shares d) (share_device_envelopes d) (favorites d)
    (gc_blob_candidates d) (gc_orphan_blob_files d) (recovery_bundles d) (folder_keys d).
Definition upd_upload_sessions (f : _ -> _) (d : DB) : DB :=
    MkDB (users d) (devices d) (refresh_tokens d) (access_tokens d) (vault_key_envelopes d) (nodes
    d) (blobs d) (file_versions d) (sync_changes d) (sync_sequence d) (processed_operations d) (f
    (upload_sessions d)) (upload_chunks d) (shares d) (share_device_envelopes d) (favorites d)
    (gc_blob_candidates d) (gc_orphan_blob_files d) (recovery_bundles d) (folder_keys d).
Definition upd_upload_chunks (f : _ -> _) (d : DB) : DB :=
    MkDB (users d) (devices d) (refresh_tokens d) (access_tokens d) (vault_key_envelopes d) (nodes
    d) (blobs d) (file_versions d) (sync_changes d) (sync_sequence d) (processed_operations d)
    (upload_sessions d) (f (upload_chunks d)) (shares d) (share_device_envelopes d) (favorites d)
    (gc_blob_candidates d) (gc_orphan_blob_files d) (recovery_bundles d) (folder_keys d).
Definition upd_shares (f : _ -> _) (d : DB) : DB :=
    MkDB (users d) (devices d) (refresh_tokens d) (access_tokens d) (vault_key_envelopes d) (nodes
    d) (blobs d) (file_versions d) (sync_changes d) (sync_sequence d) (processed_operations d)
    (upload_sessions d) (upload_chunks d) (f (shares d)) (share_device_envelopes d) (favorites d)
    (gc_blob_candidates d) (gc_orphan_blob_files d) (recovery_bundles d) (folder_keys d).
Definition upd_share_device_envelopes (f : _ -> _) (d : DB) : DB :=
    MkDB (users d) (devices d) (refresh_tokens d) (access_tokens d) (vault_key_envelopes d) (nodes
    d) (blobs d) (file_versions d) (sync_changes d) (sync_sequence d) (processed_operations d)
    (upload_sessions d) (upload_chunks d) (shares d) (f (share_device_envelopes d)) (favorites d)
    (gc_blob_candidates d) (gc_orphan_blob_files d) (recovery_bundles d) (folder_keys d).
Definition upd_favorites (f : _ -> _) (d : DB) : DB :=
    MkDB (users d) (devices d) (refresh_tokens d) (access_tokens d) (vault_key_envelopes d) (nodes
    d) (blobs d) (file_versions d) (sync_changes d) (sync_sequence d) (processed_operations d)
    (upload_sessions d) (upload_chunks d) (shares d) (share_device_envelopes d) (f (favorites d))
    (gc_blob_candidates d) (gc_orphan_blob_files d) (recovery_bundles d) (folder_keys d).
Definition upd_gc_blob_candidates (f : _ -> _) (d : DB) : DB :=
    MkDB (users d) (devices d) (refresh_tokens d) (access_tokens d) (vault_key_envelopes d) (nodes
    d) (blobs d) (file_versions d) (sync_changes d) (sync_sequence d) (processed_operations d)
    (upload_sessions d) (upload_chunks d) (shares d) (share_device_envelopes d) (favorites d) (f
    (gc_blob_candidates d)) (gc_orphan_blob_files d) (recovery_bundles d) (folder_keys d).
Definition upd_gc_orphan_blob_files (f : _ -> _) (d : DB) : DB :=
    MkDB (users d) (devices d) (refresh_tokens d) (access_tokens d) (vault_key_envelopes d) (nodes
    d) (blobs d) (file_versions d) (sync_changes d) (sync_sequence d) (processed_operations d)
    (upload_sessions d) (upload_chunks d) (shares d) (share_device_envelopes d) (favorites d)
    (gc_blob_candidates d) (f (gc_orphan_blob_files d)) (recovery_bundles d) (folder_keys d).
Definition upd_recovery_bundles (f : _ -> _) (d : DB) : DB :=
    MkDB (users d) (devices d) (refresh_tokens d) (access_tokens d) (vault_key_envelopes d) (nodes
    d) (blobs d) (file_versions d) (sync_changes d) (sync_sequence d) (processed_operations d)
    (upload_sessions d) (upload_chunks d) (shares d) (share_device_envelopes d) (favorites d)
    (gc_blob_candidates d) (gc_orphan_blob_files d) (f (recovery_bundles d)) (folder_keys d).
Definition upd_folder_keys (f : _ -> _) (d : DB) : DB :=
    MkDB (users d) (devices d) (refresh_tokens d) (access_tokens d) (vault_key_envelopes d) (nodes
    d) (blobs d) (file_versions d) (sync_changes d) (sync_sequence d) (processed_operations d)
    (upload_sessions d) (upload_chunks d) (shares d) (share_device_envelopes d) (favorites d)
    (gc_blob_candidates d) (gc_orphan_blob_files d) (recovery_bundles d) (f (folder_keys d)).

(** ** INSERT statements, with the constraints of the schema *)

Definition one_of (l : list string) (v : string) : bool := existsb (String.eqb v) l.
Definition CheckFailed (table : string) : error := Internal ("CHECK constraint failed: " ++ table).

(** CHECK, then PRIMARY KEY and UNIQUE, then foreign keys. *)
Definition constrained (check : bool) (table : string) (unique : bool) (cols : string)
    (fk : bool) (d : DB) : result DB :=
  if negb check then Err (CheckFailed table)
  else if negb unique then Err (SqlUnique cols)
  else if negb fk then Err SqlForeignKey
  else Ok d.

Definition has {K V} `{Countable K} (m : gmap K V) (k : K) : bool := is_valid (m !! k).
Definition fresh_key {K V} `{Countable K} (m : gmap K V) (k : K) : bool := negb (has m k).
Definition has_opt {V} (m : gmap string V) (k : option string) : bool :=
  match k with Some k => has m k | None => true end.

Definition insert_users (id : string) (r : user_row) (d : DB) : result DB :=
  constrained (one_of ["ADMIN"; "USER"] (user_role r) && one_of ["ACTIVE"; "DISABLED"] (user_status r)) "users"
    (fresh_key (users d) id &&
     negb (exists_row (fun _ u => String.eqb (user_username_norm u) (user_username_norm r)) (users d))) "users"
    true (upd_users <[id := r]> d).

Definition insert_devices (id : string) (r : device_row) (d : DB) : result DB :=
  constrained (one_of ["WINDOWS"; "ANDROID"; "OTHER"] (device_platform r)) "devices"
    (fresh_key (devices d) id) "devices.id"
    (has (users d) (device_user_id r)) (upd_devices <[id := r]> d).

Definition insert_refresh_tokens (id : string) (r : refresh_token_row) (d : DB) : result DB :=
  constrained true "refresh_tokens" (fresh_key (refresh_tokens d) id) "refresh_tokens.id"
    (has (users d) (rt_user_id r) && has (devices d) (rt_device_id r))
    (upd_refresh_tokens <[id := r]> d).

Definition insert_access_tokens (id : string) (r : access_token_row) (d : DB) : result DB :=
  constrained true "access_tokens"
    (fresh_key (access_tokens d) id &&
     negb (exists_row (fun _ t => bool_decide (at_token_hash t = at_token_hash r)) (access_tokens d))) "access_tokens"
    (has (users d) (at_user_id r) && has (devices d) (at_device_id r))
    (upd_access_tokens <[id := r]> d).

Definition insert_vault_key_envelopes (id : string) (r : envelope_row) (d : DB) : result DB :=
  constrained true "vault_key_envelopes" (fresh_key (vault_key_envelopes d) id) "vault_key_envelopes.id"
    (has (users d) (env_target_user_id r) && has_opt (devices d) (env_target_device_id r))
    (upd_vault_key_envelopes <[id := r]> d).

Definition insert_nodes (id : string) (r : node_row) (d : DB) : result DB :=
  constrained (one_of ["FILE"; "DIRECTORY"] (node_type r)) "nodes"
    (fresh_key (nodes d) id) "nodes.id"
    (has (users d) (node_owner_id r) &&
     (has_opt (nodes d) (node_parent_id r) || bool_decide (node_parent_id r = Some id)))
    (upd_nodes <[id := r]> d).

Definition insert_blobs (id : string) (r : blob_row) (d : DB) : result DB :=
  constrained true "blobs"
    (fresh_key (blobs d) id &&
     negb (exists_row (fun _ b => String.eqb (blob_storage_rel_path b) (blob_storage_rel_path r)) (blobs d))) "blobs"
    true (upd_blobs <[id := r]> d).

Definition insert_file_versions (id : string) (r : file_version_row) (d : DB) : result DB :=
  constrained true "file_versions" (fresh_key (file_versions d) id) "file_versions.id"
    (has (nodes d) (fv_node_id r) && has (blobs d) (fv_blob_id r) && has (devices d) (fv_created_by_device_id r))
    (upd_file_versions <[id := r]> d).

Definition insert_processed_operations (id : string) (r : operation_row) (d : DB) : result DB :=
  constrained true "processed_operations" (fresh_key (processed_operations d) id) "processed_operations.operation_id"
    (has (users d) (op_user_id r) && has (devices d) (op_device_id r))
    (upd_processed_operations <[id := r]> d).

Definition upload_statuses : list string := ["OPEN"; "COMMITTING"; "COMPLETED"; "ABORTED"; "EXPIRED"].

Definition insert_upload_sessions (id : string) (r : upload_session_row) (d : DB) : result DB :=
  constrained (one_of upload_statuses (us_status r)) "upload_sessions"
    (fresh_key (upload_sessions d) id) "upload_sessions.id"
    (has (users d) (us_user_id r) && has (devices d) (us_device_id r) && has_opt (nodes d) (us_target_node_id r))
    (upd_upload_sessions <[id := r]> d).

(** [ON CONFLICT(upload_id,chunk_no) DO NOTHING]. *)
Definition insert_upload_chunks (upload_id : string) (chunk_no : Z) (r : upload_chunk_row) (d : DB) : result DB :=
  if has (upload_chunks d) (upload_id, chunk_no) then Ok d
  else if negb (has (upload_sessions d) upload_id) then Err SqlForeignKey
  else Ok (upd_upload_chunks <[(upload_id, chunk_no) := r]> d).

Definition insert_shares (id : string) (r : share_row) (d : DB) : result DB :=
  constrained (one_of ["READ"; "READ_WRITE"] (share_permission r)) "shares"
    (fresh_key (shares d) id) "shares.id"
    (has (nodes d) (share_node_id r) && has (users d) (share_owner_user_id r) &&
     has (users d) (share_target_user_id r) && has (users d) (share_created_by r))
    (upd_shares <[id := r]> d).

(** [ON CONFLICT(share_id,target_device_id,key_version) DO NOTHING]. *)
Definition insert_share_device_envelopes (id : string) (r : share_envelope_row) (d : DB) : result DB :=
  if exists_row (fun _ e => String.eqb (se_share_id e) (se_share_id r) &&
                            String.eqb (se_target_device_id e) (se_target_device_id r) &&
                            (se_key_version e =? se_key_version r)%Z) (share_device_envelopes d)
  then Ok d
  else constrained true "share_device_envelopes" (fresh_key (share_device_envelopes d) id) "share_device_envelopes.id"
    (has (shares d) (se_share_id r) && has (devices d) (se_target_device_id r))
    (upd_share_device_envelopes <[id := r]> d).

(** [ON CONFLICT(user_id,node_id) DO NOTHING]. *)
Definition insert_favorites (user_id node_id created_at : string) (d : DB) : result DB :=
  if has (favorites d) (user_id, node_id) then Ok d
  else if negb (has (users d) user_id && has (nodes d) node_id) then Err SqlForeignKey
  else Ok (upd_favorites <[(user_id, node_id) := created_at]> d).

Definition insert_folder_keys (folder_id : string) (key_version : Z) (r : folder_key_row) (d : DB) : result DB :=
  constrained true "folder_keys" (fresh_key (folder_keys d) (folder_id, key_version)) "folder_keys"
    (has (users d) (fk_owner_user_id r) && has (devices d) (fk_created_by_device_id r))
    (upd_folder_keys <[(folder_id, key_version) := r]> d).

(** [ON CONFLICT(user_id) DO UPDATE]: the new row replaces the old one. *)
Definition upsert_recovery_bundles (user_id : string) (r : recovery_bundle_row) (d : DB) : result DB :=
  if negb (has (users d) user_id && has (devices d) (rb_updated_by_device_id r)) then Err SqlForeignKey
  else Ok (upd_recovery_bundles <[user_id := r]> d).

(** [AUTOINCREMENT]: one past the largest revision ever used; SQLITE_FULL
    once the counter is exhausted. *)
Definition append_change (scope node operation : string) (payload : list byte) (created_at : string) (d : DB) : DB :=
  let rev := (sync_sequence d + 1)%Z in
  MkDB (users d) (devices d) (refresh_tokens d) (access_tokens d) (vault_key_envelopes d) (nodes d)
    (blobs d) (file_versions d) (sync_changes d ++ [SyncRow rev scope node operation payload created_at]) rev
    (processed_operations d) (upload_sessions d) (upload_chunks d) (shares d) (share_device_envelopes d)
    (favorites d) (gc_blob_candidates d) (gc_orphan_blob_files d) (recovery_bundles d) (folder_keys d).

Definition insert_sync_changes (scope node operation : string) (payload : list byte) (created_at : string)
    (d : DB) : result (Z * DB) :=
  if (sync_sequence d =? max_int64)%Z then Err (Internal "database or disk is full")
  else Ok ((sync_sequence d + 1)%Z, append_change scope node operation payload created_at d).

(** ** UPDATE of one row by primary key *)

(** [UPDATE nodes SET .. WHERE id = ?], with the foreign key on [parent_id]. *)
Definition update_node (id : string) (f : node_row -> node_row) (d : DB) : result DB :=
  match nodes d !! id with
  | None => Ok d
  | Some r => if has_opt (nodes d) (node_parent_id (f r)) then Ok (upd_nodes <[id := f r]> d) else Err SqlForeignKey
  end.

(** The insertion into the feed, returning [last_insert_rowid()]. *)
Definition exec_sync (scope node operation : string) (payload : list byte) (created_at : string) : M DB Z :=
  fun d => match insert_sync_changes scope node operation payload created_at d with
           | Ok (rev, d') => (Ok rev, d')
           | Err e => (Err e, d)
           end.

(** ** DELETE statements a foreign key can refuse *)

(** [DELETE FROM nodes WHERE id IN (..)]: no row that stays may refer to a
    deleted node. *)
Definition delete_nodes (gone : string -> bool) (d : DB) : result DB :=
  let refers (o : option string) := match o with Some k => gone k && has (nodes d) k | None => false end in
  if exists_row (fun k r => negb (gone k) && refers (node_parent_id r)) (nodes d)
     || exists_row (fun _ r => refers (Some (fv_node_id r))) (file_versions d)
     || exists_row (fun _ r => refers (us_target_node_id r)) (upload_sessions d)
     || exists_row (fun _ r => refers (Some (share_node_id r))) (shares d)
     || exists_row (fun k _ => refers (Some k.2)) (favorites d)
  then Err SqlForeignKey
  else Ok (upd_nodes (delete_rows (fun k _ => gone k)) d).

Definition delete_upload_sessions (P : string -> upload_session_row -> bool) (d : DB) : result DB :=
  let gone k := match upload_sessions d !! k with Some r => P k r | None => false end in
  if exists_row (fun k _ => gone k.1) (upload_chunks d) then Err SqlForeignKey
  else Ok (upd_upload_sessions (delete_rows P) d).

Definition delete_shares (P : string -> share_row -> bool) (d : DB) : result DB :=
  let gone k := match shares d !! k with Some r => P k r | None => false end in
  if exists_row (fun _ e => gone (se_share_id e)) (share_device_envelopes d) then Err SqlForeignKey
  else Ok (upd_shares (delete_rows P) d).

Definition delete_blobs (P : string -> blob_row -> bool) (d : DB) : result DB :=
  let gone k := match blobs d !! k with Some r => P k r | None => false end in
  if exists_row (fun _ f => gone (fv_blob_id f)) (file_versions d)
     || exists_row (fun k _ => gone k) (gc_blob_candidates d) then Err SqlForeignKey
  else Ok (upd_blobs (delete_rows P) d).

(** ** The machine the services run on: the database and the storage tree *)

(** Paths are relative to the storage directory.  [dirs] holds the directories
    of open uploads; [blobs/] always exists. *)
Record World := MkWorld {
  db : DB;
  files : gmap string (list byte);
  dirs : gset string;
}.

Definition set_db (d : DB) (w : World) : World := MkWorld d (files w) (dirs w).
Definition set_files (f : gmap string (list byte) -> gmap string (list byte)) (w : World) : World :=
  MkWorld (db w) (f (files w)) (dirs w).
Definition set_dirs (f : gset string -> gset string) (w : World) : World :=
  MkWorld (db w) (files w) (f (dirs w)).

(** A computation on the database alone, run on the machine. *)
Definition on_db {A} (m : M DB A) : M World A := fun w =>
  match m (db w) with (r, d) => (r, set_db d w) end.

(** A transaction that also touches files: SQLite rolls the database back,
    the file system keeps what was done. *)
Definition tx_world {A} (m : M World A) : M World A := fun w =>
  match m w with
  | (Ok a, w') => (Ok a, w')
  | (Err e, w') => (Err e, set_db (db w) w')
  end.

(** ** Lemmas *)

Section table_lemmas.
Context {K V : Type} `{Countable K}.

Lemma exists_row_true (P : K -> V -> bool) (m : gmap K V) :
  exists_row P m = true <-> exists k v, m !! k = Some v /\ P k v = true.
Proof.
  unfold exists_row. rewrite List.existsb_exists. split.
  - intros ([k v] & Hin & HP). exists k, v. split; [|done].
    by apply elem_of_map_to_list, list_elem_of_In.
  - intros (k & v & Hk & HP). exists (k, v). split; [|done].
    by apply list_elem_of_In, elem_of_map_to_list.
Qed.

Lemma exists_row_false (P : K -> V -> bool) (m : gmap K V) :
  exists_row P m = false <-> forall k v, m !! k = Some v -> P k v = false.
Proof.
  rewrite <- not_true_iff_false, exists_row_true. split.
  - intros HN k v Hk. apply not_true_iff_false. intros HP. apply HN. eauto.
  - intros HF (k & v & Hk & HP). rewrite (HF _ _ Hk) in HP. done.
Qed.

Lemma count_rows_pos (P : K -> V -> bool) (m : gmap K V) : Nat.ltb 0 (count_rows P m) = exists_row P m.
Proof.
  unfold count_rows, exists_row. induction (map_to_list m) as [|kv l IH]; [done|]. simpl. by destruct (P kv.1 kv.2).
Qed.

(** A condition on the key alone. *)
Lemma exists_row_key (k0 : K) (b : bool) (eqb : K -> K -> bool) (m : gmap K V) :
  (forall k, eqb k k0 = true <-> k = k0) -> exists_row (fun k _ => eqb k k0 && b) m = has m k0 && b.
Proof.
  intros He. destruct (has m k0 && b) eqn:E.
  - apply andb_prop in E as [E ->]. unfold has in E. destruct (m !! k0) as [v|] eqn:Ev; [|done].
    apply exists_row_true. exists k0, v. split; [done|]. by rewrite (proj2 (He k0)).
  - apply exists_row_false. intros k v Hk. destruct (eqb k k0) eqn:Ek; [|done]. apply He in Ek as ->.
    unfold has in E. by rewrite Hk in E.
Qed.

Lemma lookup_delete_rows (P : K -> V -> bool) (m : gmap K V) k v :
  delete_rows P m !! k = Some v <-> m !! k = Some v /\ P k v = false.
Proof. unfold delete_rows. by rewrite map_lookup_filter_Some. Qed.

Lemma lookup_update_rows (P : K -> V -> bool) f (m : gmap K V) k :
  update_rows P f m !! k = (fun v => if P k v then f v else v) <$> m !! k.
Proof. unfold update_rows. rewrite map_lookup_imap. by destruct (m !! k). Qed.

Lemma elem_of_select_rows (P : K -> V -> bool) (m : gmap K V) k v :
  (k, v) ∈ select_rows P m <-> m !! k = Some v /\ P k v = true.
Proof.
  unfold select_rows. rewrite list_elem_of_In, List.filter_In, <- list_elem_of_In, elem_of_map_to_list. done.
Qed.

(** A row found by a condition no other row satisfies. *)
Lemma select_rows_first (P : K -> V -> bool) (m : gmap K V) k v :
  m !! k = Some v -> P k v = true -> (forall k' v', m !! k' = Some v' -> P k' v' = true -> k' = k) ->
  exists l, select_rows P m = (k, v) :: l.
Proof.
  intros Hk HP Hu. assert (H0 : (k, v) ∈ select_rows P m) by by apply elem_of_select_rows.
  destruct (select_rows P m) as [|[k' v'] l] eqn:E; [by apply not_elem_of_nil in H0|].
  assert (H1 : (k', v') ∈ select_rows P m) by (rewrite E; constructor).
  apply elem_of_select_rows in H1 as [Hk' HP']. pose proof (Hu _ _ Hk' HP') as ->. rewrite Hk in Hk'. injection Hk' as ->. by exists l.
Qed.

Lemma has_true (m : gmap K V) k : has m k = true <-> is_Some (m !! k).
Proof. unfold has. destruct (m !! k); simpl; [naive_solver|]. split; [done|by intros [? ?]]. Qed.

Lemma has_insert (m : gmap K V) k k' v : has m k' = true -> has (<[k := v]> m) k' = true.
Proof. rewrite !has_true, lookup_insert_is_Some. destruct (decide (k = k')); naive_solver. Qed.

Lemma count_rows_insert (P : K -> V -> bool) (m : gmap K V) k v :
  m !! k = None -> count_rows P (<[k := v]> m) = ((if P k v then 1 else 0) + count_rows P m)%nat.
Proof.
  intros Hk. unfold count_rows.
  assert (Hp : forall l l' : list (K * V), l ≡ₚ l' ->
    length (List.filter (fun kv => P kv.1 kv.2) l) = length (List.filter (fun kv => P kv.1 kv.2) l')).
  { induction 1; simpl; repeat case_match; simpl; congruence || lia. }
  rewrite (Hp _ _ (map_to_list_insert m k v Hk)). simpl. by destruct (P k v).
Qed.
End table_lemmas.

Lemma constrained_ok_inv check table unique cols fk d d' :
  constrained check table unique cols fk d = Ok d' -> check = true /\ unique = true /\ fk = true /\ d' = d.
Proof. unfold constrained. destruct check, unique, fk; naive_solver. Qed.

Lemma fresh_key_true {K V} `{Countable K} (m : gmap K V) k : fresh_key m k = true <-> m !! k = None.
Proof. unfold fresh_key, has. destruct (m !! k); naive_solver. Qed.

(** The revision a change gets is one past the counter. *)
Lemma exec_sync_ok_inv scope node operation payload at_ d rev d' :
  exec_sync scope node operation payload at_ d = (Ok rev, d') ->
  sync_sequence d <> max_int64 /\ rev = (sync_sequence d + 1)%Z /\
  d' = append_change scope node operation payload at_ d.
Proof.
  unfold exec_sync, insert_sync_changes. destruct (sync_sequence d =? max_int64)%Z eqn:E; [done|].
  intros [= <- <-]. by apply Z.eqb_neq in E.
Qed.

Lemma update_node_ok_inv id f d d' r :
  nodes d !! id = Some r -> update_node id f d = Ok d' ->
  has_opt (nodes d) (node_parent_id (f r)) = true /\ d' = upd_nodes <[id := f r]> d.
Proof. unfold update_node. intros ->. destruct (has_opt _ _) eqn:E; [|done]. by intros [= <-]. Qed.

Lemma tx_world_ok_inv {A} (m : M World A) w a w' :
  tx_world m w = (Ok a, w') -> m w = (Ok a, w').
Proof. unfold tx_world. by destruct (m w) as [[?|?] ?]. Qed.

(** A failed transaction leaves the database as it was. *)
Lemma tx_world_err_inv {A} (m : M World A) w e w' :
  tx_world m w = (Err e, w') -> db w' = db w.
Proof. unfold tx_world. destruct (m w) as [[?|?] ?]; naive_solver. Qed.

Lemma on_db_ok_inv {A} (m : M DB A) w a w' :
  on_db m w = (Ok a, w') -> exists d, m (db w) = (Ok a, d) /\ w' = set_db d w.
Proof. unfold on_db. destruct (m (db w)) as [r d]. intros [= -> <-]. eauto. Qed.
