(* ===== verification/Fixture.v ===== *)
(** * A small concrete database

    Two accounts with a device each, used by the files that run the services
    on concrete inputs.  [StrictTime] reads RFC 3339 timestamps only. *)

From S2P Require Import Prelude GoText GoTime Uuid Schema.
Local Open Scope string_scope.

#[global] Instance StrictTime : TimeParser := {| lenient_parse _ := None |}.

(** 1 January 2024, noon UTC. *)
Definition noon : Z := 1704110400 * Second.
(** A clock that advances one second per reading. *)
Definition ticking (start : Z) (i : nat) : Z := start + Z.of_nat i * Second.

Definition alice : string := "00000000-0000-4000-8000-0000000000a1".
Definition bob : string := "00000000-0000-4000-8000-0000000000b0".
Definition laptop : string := "00000000-0000-4000-8000-0000000000d1".
Definition phone : string := "00000000-0000-4000-8000-0000000000d2".
(** Identifiers for nodes, operations and the like. *)
Definition id1 : string := "00000000-0000-4000-8000-000000000001".
Definition id2 : string := "00000000-0000-4000-8000-000000000002".
Definition id3 : string := "00000000-0000-4000-8000-000000000003".
Definition id4 : string := "00000000-0000-4000-8000-000000000004".
Definition id5 : string := "00000000-0000-4000-8000-000000000005".
Definition op1 : string := "10000000-0000-4000-8000-000000000001".
Definition op2 : string := "10000000-0000-4000-8000-000000000002".
Definition op3 : string := "10000000-0000-4000-8000-000000000003".

Definition t0 : string := "2024-01-01T00:00:00Z".

Definition account (name : string) : user_row := User name name "hash" "USER" "ACTIVE" t0 t0.
Definition machine (user : string) : device_row := Device user "device" "OTHER" [x01] 1 t0 t0 None None.

(** A row of the node table. *)
Definition entry (owner : string) (parent : option string) (type : string) (revision : Z)
    (deleted : option string) : node_row :=
  NodeRow owner parent type [x01] 1 None None revision t0 t0 deleted.
Definition grant (node target permission : string) : share_row :=
  ShareRow node alice target permission [] 1 t0 alice None.

(** Alice's folder [id1] holds the folder [id2], which holds the file [id3];
    [id4] is a file of hers in Trash inside [id2]; [id1] is shared with Bob
    for writing. *)
Definition family_nodes : gmap string node_row :=
  <[id1 := entry alice None "DIRECTORY" 1 None]>
  (<[id2 := entry alice (Some id1) "DIRECTORY" 2 None]>
  (<[id3 := entry alice (Some id2) "FILE" 3 None]>
  (<[id4 := entry alice (Some id2) "FILE" 4 (Some t0)]> ∅))).

Definition two_accounts : DB :=
  upd_devices (fun _ => <[laptop := machine alice]> {[ phone := machine bob ]})
    (upd_users (fun _ => <[alice := account "alice"]> {[ bob := account "bob" ]}) empty_db).

Definition fam_feed (d : DB) : DB :=
  append_change alice id4 "DELETE" [] t0 (append_change alice id3 "CREATE" [] t0
    (append_change alice id2 "CREATE" [] t0 (append_change alice id1 "CREATE" [] t0 d))).

Definition family : DB :=
  fam_feed (upd_shares (fun _ => {[ op1 := grant id1 bob "READ_WRITE" ]})
    (upd_nodes (fun _ => family_nodes) two_accounts)).
