(* ===== verification/Access.v ===== *)
(** * Package internal/access: share grants and key scopes

    Models [internal/access/access.go].  A recursive CTE that climbs the
    [parent_id] links is [ancestors], with one step of fuel per row of the
    table; [ancestors_complete] shows that this is enough whenever the climb
    ends at all, and a climb that does not end (a cycle) is the error
    [Diverges].  A CTE that descends is [descend], a breadth-first search
    whose fuel [descend_spec] shows to be enough.  [forest] is the
    invariant of the node table that the services keep. *)

From S2P Require Import Prelude GoText GoTime Uuid Schema Fixture.
Local Open Scope string_scope.

Definition PermissionRead : string := "READ".
Definition PermissionReadWrite : string := "READ_WRITE".

(** ** The node tree *)

Abbreviation node_table := (gmap string node_row).

Definition IsDeleted (r : node_row) : bool := is_valid (node_deleted_at r).

(** [WITH RECURSIVE ancestors]: a node and the folders above it, nearest
    first; [None] when the fuel is spent before the climb ends. *)
Fixpoint ancestors (fuel : nat) (ns : node_table) (id : string) : option (list (string * node_row)) :=
  match ns !! id with
  | None => Some []
  | Some r =>
      match fuel with
      | O => None
      | S f =>
          match node_parent_id r with
          | None => Some [(id, r)]
          | Some p => cons (id, r) <$> ancestors f ns p
          end
      end
  end.

Definition ancestors_of (d : DB) (id : string) : result (list (string * node_row)) :=
  match ancestors (size (nodes d)) (nodes d) id with
  | Some l => Ok l
  | None => Err Diverges
  end.

(** The climb as a relation. *)
Inductive chain (ns : node_table) : string -> list (string * node_row) -> Prop :=
| chain_missing k : ns !! k = None -> chain ns k []
| chain_root k r : ns !! k = Some r -> node_parent_id r = None -> chain ns k [(k, r)]
| chain_up k r p l :
    ns !! k = Some r -> node_parent_id r = Some p -> chain ns p l -> chain ns k ((k, r) :: l).

Definition acyclic (ns : node_table) : Prop := forall k, exists l, chain ns k l.

(** Every parent is a directory of the same account. *)
Definition parents_ok (ns : node_table) : Prop := forall k r p,
  ns !! k = Some r -> node_parent_id r = Some p ->
  exists rp, ns !! p = Some rp /\ node_type rp = "DIRECTORY" /\ node_owner_id rp = node_owner_id r.

Definition forest (ns : node_table) : Prop := acyclic ns /\ parents_ok ns.

(** [WITH RECURSIVE subtree]: breadth first, every row once. *)
Fixpoint descend (kids : string -> list string) (fuel : nat) (seen queue : list string) : list string :=
  match fuel, queue with
  | O, _ | _, [] => seen
  | S f, x :: q =>
      let new := filter (fun y => y ∉ (seen ++ queue)%list) (kids x) in
      descend kids f (seen ++ [x])%list (q ++ new)%list
  end.

(** The rows directly below [x] that satisfy [P]. *)
Definition children (P : node_row -> bool) (ns : node_table) (x : string) : list string :=
  (select_rows (fun _ r => P r && bool_decide (node_parent_id r = Some x)) ns).*1.

Definition subtree (P : node_row -> bool) (ns : node_table) (id : string) : list string :=
  if has ns id then descend (children P ns) (size ns) [] [id] else [].

(** [k] lies in the subtree of [a]. *)
Definition parent_of (ns : node_table) (k p : string) : Prop :=
  exists r, ns !! k = Some r /\ node_parent_id r = Some p.
Definition below (ns : node_table) (k a : string) : Prop := rtc (parent_of ns) k a.

(** ** Grants *)

Record Grant := MkGrant { RootID : string; Permission : string }.
Definition CanWrite (g : Grant) : bool := String.eqb (Permission g) PermissionReadWrite.

(** The permission of an active share of [node] with [user]. *)
Definition active_permission (user node : string) (d : DB) : option string :=
  match select_rows (fun _ s => String.eqb (share_node_id s) node && String.eqb (share_target_user_id s) user
                                && is_null (share_revoked_at s)) (shares d) with
  | [] => None
  | (_, s) :: _ => Some (share_permission s)
  end.

(** The CTE [nearest]: [ORDER BY a.depth LIMIT 1]. *)
Fixpoint nearest (active : string -> option string) (depth : nat) (anc : list (string * node_row))
    : option (nat * Grant) :=
  match anc with
  | [] => None
  | (id, _) :: rest =>
      match active id with
      | Some p => Some (depth, MkGrant id p)
      | None => nearest active (S depth) rest
      end
  end.

Definition ShareGrant (userID nodeID : string) (d : DB) : result (option Grant) :=
  anc ← ancestors_of d nodeID;
  match nearest (fun id => active_permission userID id d) 0 anc with
  | None => Ok None
  | Some (depth, g) =>
      if existsb (fun a => IsDeleted a.2) (take (S depth) anc) then Ok None else Ok (Some g)
  end.

(** ** Folder keys *)

Definition has_folder_key (folder : string) (d : DB) : bool :=
  exists_row (fun k _ => String.eqb k.1 folder) (folder_keys d).

Definition NearestKeyedFolder (nodeID : string) (d : DB) : result string :=
  anc ← ancestors_of d nodeID;
  match List.filter (fun a => has_folder_key a.1 d) anc with
  | [] => Ok ""
  | a :: _ => Ok a.1
  end.

Definition SubtreeHasKeyedFolder (nodeID : string) (d : DB) : result bool :=
  Ok (existsb (fun k => has_folder_key k d) (subtree (fun _ => true) (nodes d) nodeID)).

Definition ErrNestedSharedFolder : error :=
  NewValidation "a shared folder cannot contain or be placed inside another shared folder".
Definition ErrStaleFolderKey : error :=
  NewValidation "this shared folder has a newer key that this device has not received yet; ask the folder's owner to open HomeBox, then try again".

(** [SELECT MAX(key_version)], 0 when the folder has no key of that owner. *)
Definition latest_key_version (folder owner : string) (d : DB) : Z :=
  foldr Z.max 0%Z (map (fun kv => kv.1.2)
    (select_rows (fun k r => String.eqb k.1 folder && String.eqb (fk_owner_user_id r) owner) (folder_keys d))).

Definition folder_key_exists (folder : string) (version : Z) (owner : string) (d : DB) : bool :=
  match folder_keys d !! (folder, version) with
  | Some r => String.eqb (fk_owner_user_id r) owner
  | None => false
  end.

Definition ValidateKeyScope `{U : UuidLib} (ownerID actorID writeRootID scopeID : string) (keyVersion : Z)
    (d : DB) : result unit :=
  if (keyVersion <? 1)%Z then Err (NewValidation "a key version is required")
  else if String.eqb scopeID ownerID then
    if negb (String.eqb actorID ownerID)
    then Err (NewValidation "shared content must be encrypted with the shared folder's key")
    else Ok tt
  else if negb (ValidUUID scopeID)
  then Err (NewValidation "key scope must be the owner's account or one of its shared folders")
  else if negb (String.eqb actorID ownerID) && negb (String.eqb scopeID writeRootID)
  then Err (NewValidation "shared content must be encrypted with the shared folder's key")
  else if negb (folder_key_exists scopeID keyVersion ownerID d)
  then Err (NewValidation "the declared folder key does not exist")
  else if negb (String.eqb actorID ownerID) && negb (keyVersion =? latest_key_version scopeID ownerID d)%Z
  then Err ErrStaleFolderKey
  else Ok tt.

(** NULL for the owner's personal Vault, the folder otherwise. *)
Definition StoredScope (scopeID ownerID : string) : option string :=
  if String.eqb scopeID "" || String.eqb scopeID ownerID then None else Some scopeID.

(** ** Lemmas: climbing *)

Lemma ancestors_chain f ns k l : ancestors f ns k = Some l -> chain ns k l.
Proof.
  revert k l; induction f as [|f IH]; intros k l; simpl; destruct (ns !! k) as [r|] eqn:E; try done.
  - intros [= <-]. by constructor.
  - destruct (node_parent_id r) as [p|] eqn:Ep.
    + destruct (ancestors f ns p) as [l'|] eqn:El; [|done]. intros [= <-]. econstructor; eauto.
    + intros [= <-]. by constructor.
  - intros [= <-]. by constructor.
Qed.

Lemma chain_ancestors ns k l : chain ns k l -> forall f, length l <= f -> ancestors f ns k = Some l.
Proof.
  induction 1 as [k Hk|k r Hk Hp|k r p l Hk Hp Hl IH]; intros [|f] Hf; simpl in *; rewrite Hk; try done; try lia.
  - by rewrite Hp.
  - rewrite Hp. by rewrite IH by lia.
Qed.

Lemma chain_det ns k l l' : chain ns k l -> chain ns k l' -> l = l'.
Proof.
  intros Hl Hl'. set (f := Nat.max (length l) (length l')).
  pose proof (chain_ancestors _ _ _ Hl f ltac:(lia)). pose proof (chain_ancestors _ _ _ Hl' f ltac:(lia)).
  congruence.
Qed.

Lemma chain_lookup ns k l a r : chain ns k l -> (a, r) ∈ l -> ns !! a = Some r.
Proof.
  induction 1 as [k Hk|k r' Hk Hp|k r' p l Hk Hp Hl IH]; rewrite ?elem_of_cons, ?elem_of_nil; naive_solver.
Qed.

(** The rest of a climb is the climb from there. *)
Lemma chain_suffix ns k l l1 a r l2 :
  chain ns k l -> l = (l1 ++ (a, r) :: l2)%list -> chain ns a ((a, r) :: l2).
Proof.
  intros Hc. revert l1. induction Hc as [k Hk|k r' Hk Hp|k r' p l Hk Hp Hl IH]; intros l1 E.
  - by destruct l1.
  - destruct l1 as [|? [|]]; simplify_eq/=. by constructor.
  - destruct l1 as [|x l1]; simplify_eq/=; [by econstructor|]. by eapply IH.
Qed.

Lemma chain_NoDup ns k l : chain ns k l -> NoDup l.*1.
Proof.
  induction 1 as [k Hk|k r Hk Hp|k r p l Hk Hp Hl IH]; simpl; [constructor|constructor; [set_solver|constructor]|].
  constructor; [|done]. intros Hin.
  apply list_elem_of_fmap in Hin as ([k' r'] & -> & Hin). simpl in *.
  assert (r' = r) as -> by (pose proof (chain_lookup _ _ _ _ _ Hl Hin); congruence).
  apply list_elem_of_split in Hin as (l1 & l2 & ->).
  pose proof (chain_suffix _ _ _ _ _ _ _ Hl eq_refl) as Hs.
  assert (Hb : chain ns k' ((k', r) :: l1 ++ (k', r) :: l2)) by (by econstructor).
  pose proof (chain_det _ _ _ _ Hs Hb) as E. apply (f_equal length) in E.
  simpl in E. rewrite length_app in E. simpl in E. lia.
Qed.

Lemma NoDup_keys_length (ns : node_table) (l : list string) :
  NoDup l -> (forall k, k ∈ l -> is_Some (ns !! k)) -> length l <= size ns.
Proof.
  intros Hnd Hin. rewrite <- size_dom. rewrite <- (size_list_to_set (C:=gset string) l Hnd).
  apply subseteq_size. intros k Hk. apply elem_of_list_to_set in Hk. by apply elem_of_dom, Hin.
Qed.

(** One step of fuel per row is enough for every climb that ends. *)
Lemma ancestors_complete ns k l : chain ns k l -> ancestors (size ns) ns k = Some l.
Proof.
  intros Hc. apply chain_ancestors; [done|].
  rewrite <- (length_fmap fst). apply NoDup_keys_length; [by eapply chain_NoDup|].
  intros a Ha. apply list_elem_of_fmap in Ha as ([a' r] & -> & Ha). simpl.
  exists r. by eapply chain_lookup.
Qed.

Lemma ancestors_of_chain d k l : ancestors_of d k = Ok l <-> chain (nodes d) k l.
Proof.
  unfold ancestors_of. split.
  - destruct (ancestors _ _ _) eqn:E; [|done]. intros [= ->]. by eapply ancestors_chain.
  - intros Hc. by rewrite (ancestors_complete _ _ _ Hc).
Qed.

(** [chain] lists exactly the nodes [k] lies below. *)
Lemma chain_below ns k l a : chain ns k l -> is_Some (ns !! a) -> (a ∈ l.*1 <-> below ns k a).
Proof.
  intros Hc Ha. split.
  - induction Hc as [k Hk|k r Hk Hp|k r p l Hk Hp Hl IH]; simpl; rewrite ?elem_of_cons; [set_solver| |].
    + intros [->|?]; [apply rtc_refl|set_solver].
    + intros [->|?]; [apply rtc_refl|]. apply rtc_l with p; [by exists r|by apply IH].
  - intros Hb. revert l Hc. induction Hb as [k|k p a (r & Hk & Hp) Hb IH]; intros l Hc.
    + inversion Hc as [? Hk|? ? ? ?|]; subst; simpl; [destruct Ha; congruence|set_solver..].
    + inversion Hc as [? Hk'|? ? Hk' ?|? ? ? ? Hk' Hp' Hc']; subst; try congruence.
      simplify_eq. simpl. apply elem_of_cons. right. by apply IH.
Qed.

Lemma below_trans ns a b c : below ns a b -> below ns b c -> below ns a c.
Proof. unfold below. intros H1 H2. by etrans. Qed.

(** The tables of parent links that agree along a climb give the same one. *)
Definition same_links (ns ns' : node_table) : Prop :=
  forall k, node_parent_id <$> ns !! k = node_parent_id <$> ns' !! k.

Lemma acyclic_same_links ns ns' : same_links ns ns' -> acyclic ns -> acyclic ns'.
Proof.
  intros Hs Hac k. destruct (Hac k) as [l Hc].
  induction Hc as [k Hk|k r Hk Hp|k r p l Hk Hp Hl [l' IH]]; specialize (Hs k); rewrite Hk in Hs; simpl in Hs.
  - exists []. constructor. by destruct (ns' !! k).
  - destruct (ns' !! k) as [r'|] eqn:E; [|done]. injection Hs as Hs.
    exists [(k, r')]. constructor; congruence.
  - destruct (ns' !! k) as [r'|] eqn:E; [|done]. injection Hs as Hs.
    exists ((k, r') :: l'). econstructor; eauto. congruence.
Qed.

(** ** Lemmas: the nearest share *)

Lemma nearest_spec active depth anc n g :
  nearest active depth anc = Some (n, g) <->
  exists l1 r l2, anc = (l1 ++ (RootID g, r) :: l2)%list /\ n = depth + length l1 /\
    active (RootID g) = Some (Permission g) /\ Forall (fun a => active a.1 = None) l1.
Proof.
  revert depth. induction anc as [|[k r] anc IH]; intros depth; simpl.
  { split; [done|]. intros ([|] & ? & ? & ? & _); done. }
  destruct (active k) as [p|] eqn:Ea.
  - split.
    + intros [= <- <-]. exists [], r, anc. simpl. split_and!; auto with lia.
    + intros ([|[k' r'] l1] & r1 & l2 & E & -> & Hg & Hl1); simplify_eq/=.
      * destruct g; simpl in *. repeat f_equal. lia.
      * apply Forall_cons in Hl1 as [? _]. simpl in *. congruence.
  - rewrite IH. split.
    + intros (l1 & r1 & l2 & -> & -> & Hg & Hl1). exists ((k, r) :: l1), r1, l2. simpl.
      split_and!; auto with lia.
    + intros ([|[k' r'] l1] & r1 & l2 & E & -> & Hg & Hl1); simplify_eq/=.
      apply Forall_cons in Hl1 as [_ ?]. exists l1, r1, l2. split_and!; auto with lia.
Qed.

Lemma existsb_deleted_false (l : list (string * node_row)) :
  existsb (fun a => IsDeleted a.2) l = false <-> Forall (fun a => IsDeleted a.2 = false) l.
Proof.
  induction l as [|a l IH]; simpl; [by split|]. rewrite orb_false_iff, IH, Forall_cons. done.
Qed.

(** The grant found: the nearest actively shared node of the climb, provided
    nothing from the node up to it is in Trash. *)
Lemma ShareGrant_some_iff user node d g :
  ShareGrant user node d = Ok (Some g) <->
  exists l1 r l2, chain (nodes d) node (l1 ++ (RootID g, r) :: l2) /\
    active_permission user (RootID g) d = Some (Permission g) /\
    Forall (fun a => active_permission user a.1 d = None) l1 /\
    Forall (fun a => IsDeleted a.2 = false) (l1 ++ [(RootID g, r)]).
Proof.
  unfold ShareGrant, mbind, result_bind. destruct (ancestors_of d node) as [anc|e] eqn:Ea.
  2: { split; [done|]. intros (l1 & r & l2 & Hc & _). apply ancestors_of_chain in Hc. congruence. }
  assert (Htake : forall l1 (x : string * node_row) l2, take (S (length l1)) (l1 ++ x :: l2)%list = (l1 ++ [x])%list).
  { intros l1 x l2. rewrite take_app_ge by lia. by replace (S (length l1) - length l1) with 1 by lia. }
  split.
  - destruct (nearest _ _ _) as [[n g']|] eqn:En; [|done].
    destruct (existsb _ _) eqn:Ex; [done|]. intros [= ->].
    apply nearest_spec in En as (l1 & r & l2 & -> & -> & Hg & Hl1). rewrite Nat.add_0_l, Htake in Ex.
    exists l1, r, l2. apply existsb_deleted_false in Ex. apply ancestors_of_chain in Ea. done.
  - intros (l1 & r & l2 & Hc & Hg & Hl1 & Hd). apply ancestors_of_chain in Hc.
    rewrite Ea in Hc. injection Hc as ->.
    erewrite (proj2 (nearest_spec _ _ _ _ _)) by (exists l1, r, l2; eauto).
    simpl plus. by rewrite Htake, (proj2 (existsb_deleted_false _) Hd).
Qed.

Lemma ShareGrant_total user node d : acyclic (nodes d) -> exists g, ShareGrant user node d = Ok g.
Proof.
  intros Hac. destruct (Hac node) as [l Hc%ancestors_of_chain].
  unfold ShareGrant, mbind, result_bind. rewrite Hc. repeat case_match; eauto.
Qed.

Lemma NearestKeyedFolder_total node d : acyclic (nodes d) -> exists f, NearestKeyedFolder node d = Ok f.
Proof.
  intros Hac. destruct (Hac node) as [l Hc%ancestors_of_chain].
  unfold NearestKeyedFolder, mbind, result_bind. rewrite Hc. repeat case_match; eauto.
Qed.

Lemma active_permission_some user node d p :
  active_permission user node d = Some p ->
  exists k s, shares d !! k = Some s /\ share_node_id s = node /\ share_target_user_id s = user /\
    share_revoked_at s = None /\ share_permission s = p.
Proof.
  unfold active_permission. destruct (select_rows _ _) as [|[k s] l] eqn:E; [done|]. intros [= <-].
  assert (Hin : (k, s) ∈ (k, s) :: l) by set_solver. rewrite <- E in Hin.
  apply elem_of_select_rows in Hin as [Hk HP]. exists k, s.
  apply andb_prop in HP as [[?%String.eqb_eq ?%String.eqb_eq]%andb_prop Hr].
  by destruct (share_revoked_at s).
Qed.

Lemma active_permission_none user node d :
  active_permission user node d = None <->
  forall k s, shares d !! k = Some s -> share_node_id s = node -> share_target_user_id s = user ->
    share_revoked_at s <> None.
Proof.
  unfold active_permission. destruct (select_rows _ _) as [|[k s] l] eqn:E; split; try done.
  - intros _ k s Hk Hn Hu Hr. assert (Hin : (k, s) ∈ @nil (string * share_row)).
    { rewrite <- E. apply elem_of_select_rows. split; [done|]. by rewrite Hn, Hu, Hr, !String.eqb_refl. }
    set_solver.
  - intros HN. assert (Hin : (k, s) ∈ (k, s) :: l) by set_solver. rewrite <- E in Hin.
    apply elem_of_select_rows in Hin as [Hk HP].
    apply andb_prop in HP as [[?%String.eqb_eq ?%String.eqb_eq]%andb_prop Hr].
    destruct (HN k s); [done..|]. by destruct (share_revoked_at s).
Qed.

(** ** Lemmas: descending *)

Section descend.
Context (kids : string -> list string) (u : gset string).
Hypothesis kids_nodup : forall x, NoDup (kids x).
Hypothesis kids_in : forall x y, y ∈ kids x -> y ∈ u.

Definition kid_of (x y : string) : Prop := y ∈ kids x.

Lemma nodup_bounded (l : list string) : NoDup l -> (forall y, y ∈ l -> y ∈ u) -> length l <= size u.
Proof.
  intros Hnd Hin. rewrite <- (size_list_to_set (C:=gset string) l Hnd).
  apply subseteq_size. intros y Hy. apply Hin. by apply elem_of_list_to_set in Hy.
Qed.

Lemma descend_inv fuel seen queue :
  NoDup (seen ++ queue) -> (forall y, y ∈ (seen ++ queue)%list -> y ∈ u) ->
  (forall x y, x ∈ seen -> y ∈ kids x -> y ∈ (seen ++ queue)%list) ->
  size u <= fuel + length seen ->
  let r := descend kids fuel seen queue in
  NoDup r /\ (forall y, y ∈ (seen ++ queue)%list -> y ∈ r) /\
  (forall x y, x ∈ r -> y ∈ kids x -> y ∈ r) /\
  (forall y, y ∈ r -> exists x, x ∈ (seen ++ queue)%list /\ rtc kid_of x y).
Proof.
  revert seen queue. induction fuel as [|fuel IH]; intros seen queue Hnd Hu Hk Hf.
  - assert (queue = []) as ->.
    { pose proof (nodup_bounded _ Hnd Hu) as Hl. rewrite length_app in Hl. apply nil_length_inv. lia. }
    simpl. rewrite app_nil_r in *. split_and!; try done. intros y Hy. exists y. split; [done|apply rtc_refl].
  - destruct queue as [|x q].
    { simpl. rewrite app_nil_r in *. split_and!; try done. intros y Hy. exists y. split; [done|apply rtc_refl]. }
    simpl. set (new := filter _ (kids x)).
    assert (Hnew : forall y, y ∈ new <-> y ∈ kids x /\ y ∉ (seen ++ x :: q)%list)
      by (intros y; unfold new; rewrite list_elem_of_filter; naive_solver).
    assert (E : ((seen ++ [x]) ++ q ++ new)%list = ((seen ++ x :: q) ++ new)%list) by (by rewrite <- !app_assoc).
    edestruct (IH (seen ++ [x])%list (q ++ new)%list) as (R1 & R2 & R3 & R4).
    + rewrite E. apply NoDup_app. split_and!; [done| |by apply NoDup_filter]. set_solver.
    + rewrite E. intros y [?|Hy]%elem_of_app; [by apply Hu|]. apply Hnew in Hy as [? _]. by eapply kids_in.
    + rewrite E. intros z y [Hz|Hz]%elem_of_app Hy; apply elem_of_app; [left; by eapply Hk|].
      apply list_elem_of_singleton in Hz as ->. destruct (decide (y ∈ (seen ++ x :: q)%list)); [by left|].
      right. by apply Hnew.
    + rewrite length_app. simpl. lia.
    + split_and!; [done| |done|].
      * intros y Hy. apply R2. rewrite E. apply elem_of_app. by left.
      * intros y Hy. destruct (R4 y Hy) as (z & Hz & Hr). rewrite E in Hz.
        apply elem_of_app in Hz as [Hz|Hz]; [by exists z|]. apply Hnew in Hz as [Hz _].
        exists x. split; [set_solver|]. by apply rtc_l with z.
Qed.

(** The search returns every node reachable from its start, once each: the
    fuel is never what stops it. *)
Lemma descend_spec fuel s :
  s ∈ u -> size u <= fuel -> let r := descend kids fuel [] [s] in
  NoDup r /\ forall y, y ∈ r <-> rtc kid_of s y.
Proof.
  intros Hs Hf. edestruct (descend_inv fuel [] [s]) as (R1 & R2 & R3 & R4).
  - apply NoDup_singleton.
  - intros y Hy. simpl in Hy. apply list_elem_of_singleton in Hy as ->. done.
  - set_solver.
  - simpl. lia.
  - split; [done|]. intros y. split.
    + intros Hy. destruct (R4 y Hy) as (x & Hx & Hr). simpl in Hx. by apply list_elem_of_singleton in Hx as ->.
    + intros Hr. assert (Hs' : s ∈ descend kids fuel [] [s]) by (apply R2; set_solver).
      revert R3 Hs'. generalize (descend kids fuel [] [s]) as r. clear -Hr. intros r R3. induction Hr as [|x y z Hxy Hyz IH]; [done|]. intros Hx. apply IH. by eapply R3.
Qed.
End descend.

Lemma elem_of_children P ns x y :
  y ∈ children P ns x <-> exists r, ns !! y = Some r /\ P r = true /\ node_parent_id r = Some x.
Proof.
  unfold children. rewrite list_elem_of_fmap. split.
  - intros ([y' r] & -> & [Hy HP]%elem_of_select_rows). exists r.
    apply andb_prop in HP as [? ?%bool_decide_eq_true]. done.
  - intros (r & Hy & HP & Hp). exists (y, r). split; [done|]. apply elem_of_select_rows.
    rewrite HP, Hp. by rewrite bool_decide_eq_true_2.
Qed.

Lemma NoDup_children P ns x : NoDup (children P ns x).
Proof.
  unfold children, select_rows. generalize (NoDup_fst_map_to_list ns).
  induction (map_to_list ns) as [|[k r] l IH]; simpl; [constructor|].
  rewrite NoDup_cons. intros [Hk Hl]. case_match; simpl; [|by apply IH].
  constructor; [|by apply IH]. intros Hin. apply Hk.
  apply list_elem_of_fmap in Hin as ([k' r'] & -> & Hin).
  apply list_elem_of_In, List.filter_In in Hin as [Hin%list_elem_of_In _].
  apply list_elem_of_fmap. by exists (k', r').
Qed.

(** The subtree CTE returns exactly the nodes below its start, once each. *)
Lemma subtree_spec P ns a :
  NoDup (subtree P ns a) /\
  forall k, k ∈ subtree P ns a <->
    is_Some (ns !! a) /\ rtc (fun x y => exists r, ns !! y = Some r /\ P r = true /\ node_parent_id r = Some x) a k.
Proof.
  unfold subtree. destruct (has ns a) eqn:Ea.
  - apply has_true in Ea.
    destruct (descend_spec (children P ns) (dom ns) (NoDup_children P ns)) with (fuel := size ns) (s := a)
      as [Hnd Hel].
    + intros x y (r & Hy & _)%elem_of_children. by apply elem_of_dom.
    + by apply elem_of_dom.
    + by rewrite size_dom.
    + split; [done|]. intros k. rewrite Hel. unfold kid_of. split.
      * intros Hr. split; [done|]. eapply rtc_congruence with (f := fun z => z) in Hr; [exact Hr|].
        intros x y. by rewrite elem_of_children.
      * intros [_ Hr]. eapply rtc_congruence with (f := fun z => z) in Hr; [exact Hr|].
        intros x y. by rewrite elem_of_children.
  - split; [constructor|]. intros k. split; [set_solver|]. intros [Ha _]. apply has_true in Ha. congruence.
Qed.

Lemma rtc_flip {A} (R Q : A -> A -> Prop) x y :
  (forall a b, R a b -> Q b a) -> rtc R x y -> rtc Q y x.
Proof.
  intros HRQ. induction 1 as [|x y z Hxy Hyz IH]; [apply rtc_refl|].
  eapply rtc_r; [exact IH|auto].
Qed.

Lemma elem_of_subtree_all ns a k :
  k ∈ subtree (fun _ => true) ns a <-> is_Some (ns !! a) /\ below ns k a.
Proof.
  rewrite (proj2 (subtree_spec _ ns a)). f_equiv. unfold below. split.
  - apply rtc_flip. intros x y (r & Hy & _ & Hp). by exists r.
  - apply rtc_flip. intros x y (r & Hy & Hp). by exists r.
Qed.

Lemma has_folder_key_true f d : has_folder_key f d = true <-> exists v r, folder_keys d !! (f, v) = Some r.
Proof.
  unfold has_folder_key. rewrite exists_row_true. split.
  - intros ([f' v] & r & Hk & E%String.eqb_eq). simpl in E. subst. eauto.
  - intros (v & r & Hk). exists (f, v), r. by rewrite String.eqb_refl.
Qed.

Lemma SubtreeHasKeyedFolder_true a d :
  SubtreeHasKeyedFolder a d = Ok true <->
  is_Some (nodes d !! a) /\ exists k, below (nodes d) k a /\ has_folder_key k d = true.
Proof.
  unfold SubtreeHasKeyedFolder. split.
  - intros [= H]. apply List.existsb_exists in H as (k & Hk%list_elem_of_In & HF).
    apply elem_of_subtree_all in Hk as [? ?]. eauto.
  - intros [Ha (k & Hk & HF)]. f_equal. apply List.existsb_exists. exists k. split; [|done].
    apply list_elem_of_In, elem_of_subtree_all. done.
Qed.

Lemma NearestKeyedFolder_empty k d :
  NearestKeyedFolder k d = Ok "" -> (forall v, folder_keys d !! ("", v) = None) ->
  forall a, is_Some (nodes d !! a) -> below (nodes d) k a -> has_folder_key a d = false.
Proof.
  unfold NearestKeyedFolder, mbind, result_bind. destruct (ancestors_of d k) as [l|] eqn:E; [|done].
  apply ancestors_of_chain in E. intros H Hnone a Ha Hb.
  apply (chain_below _ _ _ _ E Ha) in Hb. apply list_elem_of_fmap in Hb as ([a' r] & -> & Hin). simpl.
  apply not_true_iff_false. intros HF.
  assert (Hin' : (a', r) ∈ List.filter (fun a => has_folder_key a.1 d) l)
    by (by apply list_elem_of_In, List.filter_In; rewrite <- list_elem_of_In).
  destruct (List.filter _ _) as [|[b rb] l'] eqn:EF; [set_solver|]. injection H as ->.
  assert (Hb : ("", rb) ∈ List.filter (fun a => has_folder_key a.1 d) l) by (rewrite EF; set_solver).
  apply list_elem_of_In, List.filter_In in Hb as [_ Hb]. simpl in Hb.
  apply has_folder_key_true in Hb as (v & x & Hv). by rewrite Hnone in Hv.
Qed.

(** ** Lemmas: changing one row of a forest *)

Lemma forest_chain ns k l : forest ns -> is_Some (ns !! k) -> chain ns k l ->
  Forall (fun a => is_Some (ns !! a.1)) l /\ l <> [].
Proof.
  intros [_ Hpar] Hk Hc. induction Hc as [k Hn|k r Hr Hp|k r p l Hr Hp Hl IH].
  - destruct Hk. congruence.
  - split; [by constructor|done].
  - destruct (Hpar _ _ _ Hr Hp) as (rp & Hrp & _). destruct IH as [IH _]; [by exists rp|].
    split; [by constructor|done].
Qed.

(** A climb that avoids [k] does not see a change of row [k]. *)
Lemma chain_avoid ns k r' j l :
  forest ns -> is_Some (ns !! j) -> chain ns j l -> k ∉ l.*1 -> chain (<[k := r']> ns) j l.
Proof.
  intros Hf Hj Hc. induction Hc as [j Hn|j r Hr Hp|j r p l Hr Hp Hl IH]; simpl; rewrite ?not_elem_of_cons.
  - destruct Hj. congruence.
  - intros [Hne _]. constructor; [by rewrite lookup_insert_ne|done].
  - intros [Hne Hnl]. econstructor; [by rewrite lookup_insert_ne|done|]. apply IH; [|done].
    destruct (proj2 Hf _ _ _ Hr Hp) as (rp & Hrp & _). by exists rp.
Qed.

Lemma acyclic_insert ns k r' :
  acyclic ns -> (exists l, chain (<[k := r']> ns) k l) -> acyclic (<[k := r']> ns).
Proof.
  intros Hac [lk Hlk] j. destruct (Hac j) as [l Hc].
  induction Hc as [j Hn|j r Hr Hp|j r p l Hr Hp Hl [l' IH]]; destruct (decide (j = k)) as [->|Hne]; eauto.
  - exists []. constructor. by rewrite lookup_insert_ne.
  - exists [(j, r)]. constructor; [by rewrite lookup_insert_ne|done].
  - exists ((j, r) :: l'). econstructor; [by rewrite lookup_insert_ne|done|done].
Qed.

(** The parent of a node does not lie below it. *)
Lemma forest_parent_not_below ns k r p :
  forest ns -> ns !! k = Some r -> node_parent_id r = Some p -> ~ below ns p k.
Proof.
  intros [Hac _] Hr Hp Hb. destruct (Hac p) as [l Hc].
  apply (chain_below _ _ _ _ Hc) in Hb; [|by exists r].
  pose proof (chain_NoDup _ _ _ (chain_up _ _ _ _ _ Hr Hp Hc)) as Hnd. simpl in Hnd.
  apply NoDup_cons in Hnd as [Hnd _]. done.
Qed.

Definition link_ok (ns : node_table) (k : string) (r' : node_row) : Prop :=
  forall p, node_parent_id r' = Some p ->
    (exists r, ns !! k = Some r /\ node_parent_id r = Some p) \/
    (exists rp, ns !! p = Some rp /\ node_type rp = "DIRECTORY" /\ node_owner_id rp = node_owner_id r' /\
       ~ below ns p k).

Lemma forest_insert ns k r' :
  forest ns ->
  (forall r, ns !! k = Some r -> node_owner_id r' = node_owner_id r /\ node_type r' = node_type r) ->
  link_ok ns k r' -> forest (<[k := r']> ns).
Proof.
  intros Hf Hid Hlink. pose proof Hf as [Hac Hpar].
  assert (Hlink' : forall p, node_parent_id r' = Some p -> exists rp, ns !! p = Some rp /\
    node_type rp = "DIRECTORY" /\ node_owner_id rp = node_owner_id r' /\ ~ below ns p k).
  { intros p Hp. destruct (Hlink p Hp) as [(r & Hr & Hrp)|]; [|done].
    destruct (Hpar _ _ _ Hr Hrp) as (rp & ? & ? & ?). destruct (Hid _ Hr) as [Ho _].
    exists rp. split_and!; try congruence. by eapply forest_parent_not_below. }
  split.
  - apply acyclic_insert; [done|]. destruct (node_parent_id r') as [p|] eqn:Ep.
    + destruct (Hlink' p eq_refl) as (rp & Hp & _ & _ & Hnb). destruct (Hac p) as [l Hl].
      exists ((k, r') :: l). econstructor; [by rewrite lookup_insert_eq|done|].
      apply chain_avoid; [done|by exists rp|done|]. intros Hin. apply Hnb.
      destruct (ns !! k) as [r|] eqn:Ek; [by apply (chain_below _ _ _ _ Hl)|].
      apply list_elem_of_fmap in Hin as ([k' rk] & -> & Hin).
      pose proof (chain_lookup _ _ _ _ _ Hl Hin). simpl in *. congruence.
    + exists [(k, r')]. constructor; [by rewrite lookup_insert_eq|done].
  - intros j r p Hj Hp. destruct (decide (j = k)) as [->|Hjk].
    + rewrite lookup_insert_eq in Hj. injection Hj as <-.
      destruct (Hlink' p Hp) as (rp & Hrp & Hty & Ho & Hnb). exists rp.
      rewrite lookup_insert_ne; [done|]. intros <-. apply Hnb, rtc_refl.
    + rewrite lookup_insert_ne in Hj by done. destruct (Hpar _ _ _ Hj Hp) as (rp & Hrp & Hty & Ho).
      destruct (decide (p = k)) as [->|Hpk].
      * destruct (Hid _ Hrp) as [Ho' Hty']. exists r'. rewrite lookup_insert_eq. split_and!; congruence.
      * exists rp. by rewrite lookup_insert_ne.
Qed.

(** Ownership and existence along a path of a forest. *)
Lemma below_owner ns a b rb :
  parents_ok ns -> below ns a b -> ns !! b = Some rb ->
  exists ra, ns !! a = Some ra /\ node_owner_id ra = node_owner_id rb.
Proof.
  intros Hpar Hb Hrb. induction Hb as [b|a y b (r & Hr & Hp) _ IH]; [eauto|].
  destruct (IH Hrb) as (ry & Hry & Ho). destruct (Hpar _ _ _ Hr Hp) as (rp & Hrp & _ & Ho').
  exists r. split; [done|]. congruence.
Qed.

Lemma below_exists ns a b ra :
  parents_ok ns -> below ns a b -> ns !! a = Some ra ->
  exists rb, ns !! b = Some rb /\ node_owner_id rb = node_owner_id ra.
Proof.
  intros Hpar Hb. revert ra. induction Hb as [b|a y b (r & Hr & Hp) _ IH]; intros ra Ha; [eauto|].
  destruct (Hpar _ _ _ Hr Hp) as (rp & Hrp & _ & Ho). destruct (IH _ Hrp) as (rb & Hrb & Ho').
  exists rb. split; [done|]. congruence.
Qed.

(** A path of the table with row [k] replaced uses old links only, or goes
    through the new link of [k]. *)
Lemma below_insert ns k r' a b :
  below (<[k := r']> ns) a b ->
  below ns a b \/ (below ns a k /\ exists p, node_parent_id r' = Some p /\ below ns p b).
Proof.
  induction 1 as [b|a y b (r & Hr & Hp) _ IH]; [left; apply rtc_refl|].
  destruct (decide (a = k)) as [->|Hne].
  - rewrite lookup_insert_eq in Hr. injection Hr as <-. right. split; [apply rtc_refl|].
    destruct IH as [Hb|[_ (p & Hp' & Hb)]]; [eauto|]. exists p. done.
  - rewrite lookup_insert_ne in Hr by done.
    assert (Hay : parent_of ns a y) by (by exists r).
    destruct IH as [Hb|[Hb Hex]]; [left|right; split; [|done]]; by eapply rtc_l.
Qed.

(** A checker for concrete tables. *)
Definition forestb (ns : node_table) : bool :=
  forallb (fun kr => is_valid (ancestors (size ns) ns kr.1) &&
    match node_parent_id kr.2 with
    | None => true
    | Some p => match ns !! p with
                | Some rp => String.eqb (node_type rp) "DIRECTORY" && String.eqb (node_owner_id rp) (node_owner_id kr.2)
                | None => false
                end
    end) (map_to_list ns).

Lemma forestb_sound ns : forestb ns = true -> forest ns.
Proof.
  unfold forestb. rewrite forallb_forall. intros H.
  assert (H' : forall k r, ns !! k = Some r -> is_valid (ancestors (size ns) ns k) = true /\
    match node_parent_id r with
    | None => true
    | Some p => match ns !! p with
                | Some rp => String.eqb (node_type rp) "DIRECTORY" && String.eqb (node_owner_id rp) (node_owner_id r)
                | None => false
                end
    end = true).
  { intros k r Hk. apply andb_prop, (H (k, r)), list_elem_of_In. by apply elem_of_map_to_list. }
  split.
  - intros k. destruct (ns !! k) as [r|] eqn:Ek; [|by exists []; constructor].
    destruct (H' _ _ Ek) as [Ha _]. destruct (ancestors _ _ _) as [l|] eqn:E; [|done].
    exists l. by eapply ancestors_chain.
  - intros k r p Hk Hp. destruct (H' _ _ Hk) as [_ Ha]. rewrite Hp in Ha.
    destruct (ns !! p) as [rp|]; [|done]. apply andb_prop in Ha as [?%String.eqb_eq ?%String.eqb_eq]. eauto.
Qed.

(** ** Theorems *)

Lemma foldr_max_le (l : list Z) z : z ∈ l -> (z <= foldr Z.max 0 l)%Z.
Proof. induction l as [|x l IH]; simpl; rewrite ?elem_of_nil, ?elem_of_cons; [done|]. intros [->|?]; [lia|]. specialize (IH H). lia. Qed.

Lemma foldr_max_elem (l : list Z) : (0 < foldr Z.max 0 l)%Z -> foldr Z.max 0%Z l ∈ l.
Proof.
  induction l as [|x l IH]; simpl; [lia|]. intros H. apply elem_of_cons.
  destruct (Z.le_gt_cases (foldr Z.max 0 l) x)%Z; [left; lia|right].
  rewrite Z.max_r by lia. apply IH. lia.
Qed.

Lemma folder_key_exists_true f v o d :
  folder_key_exists f v o d = true <-> exists r, folder_keys d !! (f, v) = Some r /\ fk_owner_user_id r = o.
Proof.
  unfold folder_key_exists. destruct (folder_keys d !! (f, v)) as [r|]; [|naive_solver].
  rewrite String.eqb_eq. naive_solver.
Qed.

Lemma elem_of_key_versions f o d v :
  v ∈ map (fun kv : string * Z * folder_key_row => kv.1.2)
    (select_rows (fun k r => String.eqb k.1 f && String.eqb (fk_owner_user_id r) o) (folder_keys d)) <->
  folder_key_exists f v o d = true.
Proof.
  rewrite folder_key_exists_true. split.
  - intros ([[f' v'] r] & -> & Hin)%list_elem_of_fmap. apply elem_of_select_rows in Hin as [Hk HP].
    apply andb_prop in HP as [?%String.eqb_eq ?%String.eqb_eq]. simpl in *. subst. eauto.
  - intros (r & Hk & Ho). apply list_elem_of_fmap. exists (f, v, r). split; [done|].
    apply elem_of_select_rows. split; [done|]. simpl. by rewrite Ho, !String.eqb_refl.
Qed.

Lemma latest_key_version_spec f o d v :
  folder_key_exists f v o d = true -> (1 <= v)%Z ->
  v = latest_key_version f o d <-> (forall v', folder_key_exists f v' o d = true -> (v' <= v)%Z).
Proof.
  intros Hv Hpos. unfold latest_key_version. set (l := map _ _).
  assert (Hin : v ∈ l) by (by apply elem_of_key_versions). pose proof (foldr_max_le _ _ Hin) as Hle.
  split.
  - intros -> v' Hv'%elem_of_key_versions. by apply foldr_max_le.
  - intros Hmax. assert (Hm : foldr Z.max 0%Z l ∈ l) by (apply foldr_max_elem; lia).
    apply elem_of_key_versions, Hmax in Hm. lia.
Qed.

(** C24. On an acyclic node table [ShareGrant] always returns, and it returns a
    grant exactly when the climb from the node meets an active share of the
    user such that no node strictly before it on the climb is shared with the user and
    nothing from the node up to and including the shared folder is in Trash. *)
Theorem ShareGrant_correct user node d :
  acyclic (nodes d) ->
  (exists g, ShareGrant user node d = Ok g) /\
  forall root perm, ShareGrant user node d = Ok (Some (MkGrant root perm)) <->
    exists path r above, chain (nodes d) node (path ++ (root, r) :: above) /\
      active_permission user root d = Some perm /\
      Forall (fun a => active_permission user a.1 d = None) path /\
      Forall (fun a => IsDeleted a.2 = false) (path ++ [(root, r)]).
Proof.
  intros Hac. split; [by apply ShareGrant_total|].
  intros root perm. apply (ShareGrant_some_iff user node d (MkGrant root perm)).
Qed.

(** [ValidateKeyScope] accepts a declared key exactly when it is the owner
    using the personal Vault key, or an existing version of one of the owner's
    folder keys which a non-owner may use only for the folder it writes
    through and only in its newest version. *)
Theorem ValidateKeyScope_correct `{U : UuidLib} owner actor writeRoot scope version d :
  ValidateKeyScope owner actor writeRoot scope version d = Ok tt <->
  (1 <= version)%Z /\
  ((scope = owner /\ actor = owner) \/
   (scope <> owner /\ ValidUUID scope = true /\ folder_key_exists scope version owner d = true /\
    (actor = owner \/
     (scope = writeRoot /\ forall v, folder_key_exists scope v owner d = true -> (v <= version)%Z)))).
Proof.
  unfold ValidateKeyScope.
  destruct (version <? 1)%Z eqn:Ev; [apply Z.ltb_lt in Ev|apply Z.ltb_ge in Ev]; [split; [done|lia]|].
  destruct (String.eqb_spec scope owner) as [->|Hs]; destruct (String.eqb_spec actor owner) as [->|Ha]; simpl.
  { naive_solver. }
  { naive_solver. }
  all: destruct (ValidUUID scope); simpl; [|naive_solver].
  - destruct (folder_key_exists scope version owner d) eqn:E; naive_solver.
  - destruct (String.eqb_spec scope writeRoot) as [->|]; simpl; [|naive_solver].
    destruct (folder_key_exists writeRoot version owner d) eqn:E; simpl; [|naive_solver].
    pose proof (latest_key_version_spec _ _ _ _ E Ev) as Hlatest.
    destruct (Z.eqb_spec version (latest_key_version writeRoot owner d)); simpl; naive_solver.
Qed.

Lemma ShareGrant_correct_witness :
  ShareGrant bob id3 family = Ok (Some (MkGrant id1 "READ_WRITE")) /\
  ShareGrant bob id4 family = Ok None /\
  exists g, ShareGrant bob id3 family = Ok g.
Proof.
  split; [vm_compute; reflexivity|]. split; [vm_compute; reflexivity|].
  apply (ShareGrant_correct bob id3 family). apply forestb_sound. vm_compute. reflexivity.
Defined.
