(* ===== verification/Nodes.v ===== *)
(** * Package internal/nodes: opaque node CRUD

    Models [internal/nodes/service.go].  Every exported method of [Service]
    is a definition of the same name; the mutations run in [tx], whose error
    rolls the writes back, and the read that follows the commit is [Get].
    [clk i] is the [i]-th reading of the service's clock within one call.
    [fmt.Errorf] wrapping keeps the wrapped error, so it is left out. *)

From S2P Require Import Prelude GoText GoTime Uuid Schema Access.
From Stdlib Require Import Ascii.
Local Open Scope string_scope.

(** ** Data *)

Record Node := MkNode {
  ID : string;
  OwnerID : string;
  ParentID : option string;
  NodeType : string;
  MetadataCiphertext : list byte;
  MetadataKeyVersion : Z;
  MetadataKeyScopeID : string;
  CurrentVersionID : option string;
  Revision : Z;
  CreatedAt : Z;
  UpdatedAt : Z;
  DeletedAt : option Z;
}.

Definition Node_IsDeleted (n : Node) : bool := is_valid (DeletedAt n).

Record CreateInput := MkCreateInput {
  c_ID : string; c_OwnerID : string; c_DeviceID : string; c_OperationID : string;
  c_ParentID : option string;
  c_NodeType : string;
  c_MetadataCiphertext : list byte;
  c_MetadataKeyVersion : Z;
  c_MetadataKeyScopeID : string;
}.

Record UpdateInput := MkUpdateInput {
  u_UserID : string; u_DeviceID : string; u_OperationID : string; u_NodeID : string;
  u_ExpectedRevision : Z;
  u_MetadataCiphertext : list byte;
  u_MetadataKeyVersion : Z;
  u_MetadataKeyScopeID : string;
  u_MoveParent : bool;
  u_ParentID : option string;
}.

Record RekeyVersion := MkRekeyVersion {
  rv_ID : string; rv_WrappedFileKey : list byte; rv_KeyScopeID : string; rv_KeyVersion : Z;
}.
Record RekeyItem := MkRekeyItem {
  ri_NodeID : string;
  ri_ExpectedRevision : Z;
  ri_MetadataCiphertext : list byte;
  ri_MetadataKeyVersion : Z;
  ri_MetadataKeyScopeID : string;
  ri_Versions : list RekeyVersion;
}.
Record RekeyInput := MkRekeyInput {
  rk_UserID : string; rk_DeviceID : string; rk_Items : list RekeyItem;
}.

Record PageRequest := MkPageRequest { Limit : Z; After : string }.

Definition MaxPageSize : Z := 1000.
Definition MaxRekeyItems : nat := 200.
Definition maxRekeyVersions : nat := 256.

Section nodes.
Context {U : UuidLib} {TP : TimeParser}.

Definition validUUID (v : string) : bool :=
  match uuid_parse v with Some parsed => String.eqb (uuid_string parsed) v | None => false end.

(** ** Scanning rows *)

Definition scanNodeWithCreatedAt (id : string) (r : node_row) : result (Node * string) :=
  created ← Parse (node_created_at r);
  updated ← Parse (node_updated_at r);
  deleted ← Parse_opt (node_deleted_at r);
  Ok (MkNode id (node_owner_id r) (node_parent_id r) (node_type r) (node_metadata_ciphertext r)
        (node_metadata_key_version r) (default (node_owner_id r) (node_metadata_key_scope_id r))
        (node_current_version_id r) (node_revision r) created updated deleted,
      node_created_at r).

Definition scanNode (id : string) (r : node_row) : result Node :=
  x ← scanNodeWithCreatedAt id r; Ok x.1.

Definition lockNode (nodeID : string) (d : DB) : result Node :=
  match nodes d !! nodeID with
  | None => Err (ENodes NodesErrNotFound)
  | Some r => scanNode nodeID r
  end.

(** ** Reads *)

Definition Get (userID nodeID : string) (d : DB) : result Node :=
  match nodes d !! nodeID with
  | None => Err (ENodes NodesErrNotFound)
  | Some r =>
      n ← scanNode nodeID r;
      if negb (String.eqb (OwnerID n) userID) then
        if Node_IsDeleted n then Err (ENodes NodesErrForbidden)
        else
          grant ← ShareGrant userID nodeID d;
          match grant with
          | Some _ => Ok n
          | None => Err (ENodes NodesErrForbidden)
          end
      else Ok n
  end.

(** The cursor carries the stored created_at text verbatim. *)
Definition encodeCursor (createdAt id : string) : string := b64_encode (createdAt ++ "|" ++ id).

Definition decodeCursor (cursor : string) : result (string * string) :=
  let bad := Err (NewValidation "invalid page cursor") in
  match b64_decode cursor with
  | None => bad
  | Some raw =>
      match Cut raw "|"%char with
      | None => bad
      | Some (createdAt, id) =>
          if negb (uuid_validate id) then bad
          else match Parse createdAt with Ok _ => Ok (createdAt, id) | Err _ => bad end
      end
  end.

(** Row values compare lexicographically. *)
Definition key_lt (a b : string * string) : bool :=
  text_lt a.1 b.1 || String.eqb a.1 b.1 && text_lt a.2 b.2.
Definition key_le (a b : string * string) : bool :=
  text_lt a.1 b.1 || String.eqb a.1 b.1 && text_le a.2 b.2.
Definition row_key (kr : string * node_row) : string * string := (node_created_at kr.2, kr.1).

Definition listPage (base : list (string * node_row)) (page : PageRequest) : result (list Node * string) :=
  if (Limit page <? 0)%Z || (MaxPageSize <? Limit page)%Z
  then Err (NewValidation ("page limit must be between 1 and " ++ FormatInt MaxPageSize))
  else
    after ← (if String.eqb (After page) "" then Ok None else k ← decodeCursor (After page); Ok (Some k));
    let rows := match after with
                | None => base
                | Some k => List.filter (fun kr => key_lt k (row_key kr)) base
                end in
    let rows := order_by (fun a b => key_le (row_key a) (row_key b)) rows in
    let rows := if (0 <? Limit page)%Z then take (Z.to_nat (Limit page + 1)) rows else rows in
    scanned ← rmap (fun kr => scanNodeWithCreatedAt kr.1 kr.2) rows;
    if (Limit page =? 0)%Z || (Z.of_nat (length scanned) <=? Limit page)%Z
    then Ok (map fst scanned, "")
    else
      let kept := take (Z.to_nat (Limit page)) scanned in
      match last kept with
      | Some (n, createdAt) => Ok (map fst kept, encodeCursor createdAt (ID n))
      | None => Ok (map fst kept, "")
      end.

Definition requireReadableDirectory (userID nodeID : string) (d : DB) : result unit :=
  match nodes d !! nodeID with
  | None => Err (ENodes NodesErrInvalidParent)
  | Some r =>
      if negb (String.eqb (node_type r) "DIRECTORY") || IsDeleted r then Err (ENodes NodesErrForbidden)
      else if negb (String.eqb (node_owner_id r) userID) then
        grant ← ShareGrant userID nodeID d;
        match grant with Some _ => Ok tt | None => Err (ENodes NodesErrForbidden) end
      else Ok tt
  end.

Definition owned_roots (userID : string) (d : DB) : list (string * node_row) :=
  select_rows (fun _ r => String.eqb (node_owner_id r) userID && is_null (node_parent_id r) &&
                          is_null (node_deleted_at r)) (nodes d).

(** The second half of the UNION ALL: [nodes JOIN shares]. *)
Definition shared_roots (userID : string) (d : DB) : list (string * node_row) :=
  omap (fun ks => match nodes d !! share_node_id ks.2 with
                  | Some r => if is_null (node_deleted_at r) then Some (share_node_id ks.2, r) else None
                  | None => None
                  end)
    (select_rows (fun _ s => String.eqb (share_target_user_id s) userID && is_null (share_revoked_at s)) (shares d)).

Definition live_children (parentID : string) (d : DB) : list (string * node_row) :=
  select_rows (fun _ r => bool_decide (node_parent_id r = Some parentID) && is_null (node_deleted_at r)) (nodes d).

Definition ListChildrenPage (userID : string) (parentID : option string) (page : PageRequest) (d : DB)
    : result (list Node * string) :=
  match parentID with
  | None => listPage (owned_roots userID d ++ shared_roots userID d) page
  | Some p => requireReadableDirectory userID p d ;; listPage (live_children p d) page
  end.

Definition ListOwnedRootsPage (userID : string) (page : PageRequest) (d : DB) : result (list Node * string) :=
  listPage (owned_roots userID d) page.

Definition ListChildren (userID : string) (parentID : option string) (d : DB) : result (list Node) :=
  x ← ListChildrenPage userID parentID (MkPageRequest 0 "") d; Ok x.1.
Definition ListOwnedRoots (userID : string) (d : DB) : result (list Node) :=
  x ← ListOwnedRootsPage userID (MkPageRequest 0 "") d; Ok x.1.

(** [ORDER BY deleted_at DESC]. *)
Definition deleted_text (kr : string * node_row) : string := default "" (node_deleted_at kr.2).

Definition ListTrash (userID : string) (d : DB) : result (list Node) :=
  rmap (fun kr => scanNode kr.1 kr.2)
    (order_by (fun a b => text_le (deleted_text b) (deleted_text a))
       (select_rows (fun _ r => String.eqb (node_owner_id r) userID && IsDeleted r) (nodes d))).

(** ** Checks shared by the mutations *)

Definition directoryOwner (nodeID : string) (d : DB) : result string :=
  match nodes d !! nodeID with
  | None => Err (ENodes NodesErrInvalidParent)
  | Some r =>
      if negb (String.eqb (node_type r) "DIRECTORY") || IsDeleted r then Err (ENodes NodesErrInvalidParent)
      else Ok (node_owner_id r)
  end.

Definition validateDeviceOwnership (userID deviceID : string) (d : DB) : result unit :=
  let count := count_rows (fun k r => String.eqb k deviceID && String.eqb (device_user_id r) userID &&
                                      is_null (device_revoked_at r)) (devices d) in
  if negb (Nat.eqb count 1) then Err (ENodes NodesErrForbidden) else Ok tt.

(** The recorded result of an operation that was already applied. *)
Definition replayIfProcessed (operationID userID operationType : string) (d : DB) : result (option (string * Z)) :=
  match processed_operations d !! operationID with
  | None => Ok None
  | Some op =>
      if negb (String.eqb (op_user_id op) userID) || negb (String.eqb (op_operation_type op) operationType)
      then Err (NewValidation "operation ID has already been used")
      else match SplitN2 (op_result_payload op) ":"%char with
           | [nodeID; rev] =>
               if negb (uuid_validate nodeID) then Err (Internal "invalid stored operation result")
               else revision ← ParseInt64 rev; Ok (Some (nodeID, revision))
           | _ => Err (Internal "invalid stored operation result")
           end
  end.

Definition authorizeWrite (userID : string) (n : Node) (d : DB) : result string :=
  writeRoot ← (if negb (String.eqb (OwnerID n) userID) then
                 grant ← ShareGrant userID (ID n) d;
                 match grant with
                 | Some g => if negb (CanWrite g) || String.eqb (RootID g) (ID n)
                             then Err (ENodes NodesErrForbidden) else Ok (RootID g)
                 | None => Err (ENodes NodesErrForbidden)
                 end
               else Ok "");
  if Node_IsDeleted n then Err (NewValidation "node is in trash; restore it before updating") else Ok writeRoot.

Fixpoint forbidCycle_from (fuel : nat) (movingNodeID current : string) (d : DB) : result unit :=
  match fuel with
  | O => Err (NewValidation "directory tree exceeds maximum supported depth")
  | S f =>
      if String.eqb current movingNodeID then Err (NewValidation "move would create a cycle")
      else match nodes d !! current with
           | None => Err (Internal "sql: no rows in result set")
           | Some r => match node_parent_id r with
                       | None => Ok tt
                       | Some p => forbidCycle_from f movingNodeID p d
                       end
           end
  end.

(** [for i := 0; i < 10_000; i++]. *)
Definition maxDepth : nat := Z.to_nat 10000.
Definition forbidCycle (movingNodeID newParentID : string) (d : DB) : result unit :=
  forbidCycle_from maxDepth movingNodeID newParentID d.

Definition owns_folder_keys (ownerID : string) (d : DB) : bool :=
  exists_row (fun _ k => String.eqb (fk_owner_user_id k) ownerID) (folder_keys d).

Definition validateMove (userID : string) (n : Node) (writeRoot : string) (parentID : option string) (d : DB)
    : result unit :=
  match parentID with
  | None => if negb (String.eqb writeRoot "") then Err (ENodes NodesErrInvalidParent) else Ok tt
  | Some p =>
      if String.eqb p (ID n) then Err (NewValidation "a node cannot become its own parent")
      else
        parentOwner ← directoryOwner p d;
        if negb (String.eqb parentOwner (OwnerID n)) then Err (ENodes NodesErrInvalidParent)
        else
          (if negb (String.eqb writeRoot "") then
             grant ← ShareGrant userID p d;
             match grant with
             | Some g => if negb (String.eqb (RootID g) writeRoot) || negb (CanWrite g)
                         then Err (ENodes NodesErrInvalidParent) else Ok tt
             | None => Err (ENodes NodesErrInvalidParent)
             end
           else Ok tt) ;;
          forbidCycle (ID n) p d ;;
          if negb (owns_folder_keys (OwnerID n) d) then Ok tt
          else
            hasKeyed ← SubtreeHasKeyedFolder (ID n) d;
            if negb hasKeyed then Ok tt
            else
              outer ← NearestKeyedFolder p d;
              if negb (String.eqb outer "") then Err ErrNestedSharedFolder else Ok tt
  end.

(** [WITH RECURSIVE ancestors .. UNION]: rows already met are not followed
    again, so the climb ends on every table. *)
Fixpoint climb_union (fuel : nat) (ns : gmap string node_row) (seen : list (string * node_row)) (id : string)
    : list (string * node_row) :=
  match fuel with
  | O => seen
  | S f =>
      match ns !! id with
      | None => seen
      | Some r =>
          if bool_decide (id ∈ seen.*1) then seen
          else match node_parent_id r with
               | None => (seen ++ [(id, r)])%list
               | Some p => climb_union f ns (seen ++ [(id, r)])%list p
               end
      end
  end.

Definition hasDeletedAncestor (nodeID : string) (d : DB) : result bool :=
  let anc := climb_union (size (nodes d)) (nodes d) [] nodeID in
  Ok (negb (existsb (fun a => String.eqb a.1 nodeID) anc) || existsb (fun a => IsDeleted a.2) anc).

(** ** Mutations

    Each mutation validates its input, runs one transaction (the definition
    whose name ends in [Tx]) and reads the node back. *)

(** The [i]-th reading of [s.now()] during one call. *)
Context (clk : nat -> Z).

Definition recordChange (i : nat) (userID nodeID operation : string) : M DB Z :=
  exec_sync userID nodeID operation [] (Format (clk i)).

Definition recordProcessed (i : nat) (operationID userID deviceID operationType nodeID : string) (revision : Z)
    : M DB unit :=
  let now := clk i in
  exec (insert_processed_operations operationID
    (Operation userID deviceID operationType "OK" (nodeID ++ ":" ++ FormatInt revision)
       (Format now) (Format (now + 30 * 24 * Hour)))).

Definition badIDs (nodeID operationID : string) : bool := negb (validUUID nodeID) || negb (validUUID operationID).
Definition errBadIDs : error := NewValidation "node id and operation id must be valid UUIDs".

(** The account a new node is stored under, and the share root it is written
    through (empty for the owner). *)
Definition createPlace (i : CreateInput) (d : DB) : result (string * string) :=
  match c_ParentID i with
  | None => Ok (c_OwnerID i, "")
  | Some p =>
      parentOwner ← directoryOwner p d;
      if negb (String.eqb parentOwner (c_OwnerID i)) then
        grant ← ShareGrant (c_OwnerID i) p d;
        match grant with
        | Some g => if negb (CanWrite g) then Err (ENodes NodesErrInvalidParent) else Ok (parentOwner, RootID g)
        | None => Err (ENodes NodesErrInvalidParent)
        end
      else Ok (c_OwnerID i, "")
  end.

Definition createTx (i : CreateInput) : M DB string :=
  replay ← query (replayIfProcessed (c_OperationID i) (c_OwnerID i) "NODE_CREATE");
  match replay with
  | Some (nodeID, _) => mret nodeID
  | None =>
      query (validateDeviceOwnership (c_OwnerID i) (c_DeviceID i)) ;;
      place ← query (createPlace i);
      let ownerID := place.1 in
      let scope := if String.eqb (c_MetadataKeyScopeID i) "" then ownerID else c_MetadataKeyScopeID i in
      query (ValidateKeyScope ownerID (c_OwnerID i) place.2 scope (c_MetadataKeyVersion i)) ;;
      let now := clk 0 in
      revision ← recordChange 1 ownerID (c_ID i) "CREATE";
      exec (insert_nodes (c_ID i)
        (NodeRow ownerID (c_ParentID i) (c_NodeType i) (c_MetadataCiphertext i) (c_MetadataKeyVersion i)
           (StoredScope scope ownerID) None revision (Format now) (Format now) None)) ;;
      recordProcessed 2 (c_OperationID i) (c_OwnerID i) (c_DeviceID i) "NODE_CREATE" (c_ID i) revision ;;
      mret (c_ID i)
  end.

Definition Create (i : CreateInput) : M DB Node :=
  throw_if (badIDs (c_ID i) (c_OperationID i)) errBadIDs ;;
  throw_if (negb (String.eqb (c_NodeType i) "FILE") && negb (String.eqb (c_NodeType i) "DIRECTORY"))
    (NewValidation "node type must be FILE or DIRECTORY") ;;
  throw_if (Nat.eqb (length (c_MetadataCiphertext i)) 0 || (c_MetadataKeyVersion i <? 1)%Z)
    (NewValidation "encrypted metadata and a key version are required") ;;
  nodeID ← tx (createTx i);
  query (Get (c_OwnerID i) nodeID).

(** The three UPDATE statements of [Update]. *)
Definition set_metadata (i : UpdateInput) (scope : option string) (r : node_row) : node_row :=
  NodeRow (node_owner_id r) (node_parent_id r) (node_type r) (u_MetadataCiphertext i) (u_MetadataKeyVersion i)
    scope (node_current_version_id r) (node_revision r) (node_created_at r) (node_updated_at r) (node_deleted_at r).
Definition set_parent (p : option string) (r : node_row) : node_row :=
  NodeRow (node_owner_id r) p (node_type r) (node_metadata_ciphertext r) (node_metadata_key_version r)
    (node_metadata_key_scope_id r) (node_current_version_id r) (node_revision r) (node_created_at r)
    (node_updated_at r) (node_deleted_at r).
Definition stamp (revision : Z) (now : string) (r : node_row) : node_row :=
  NodeRow (node_owner_id r) (node_parent_id r) (node_type r) (node_metadata_ciphertext r)
    (node_metadata_key_version r) (node_metadata_key_scope_id r) (node_current_version_id r) revision
    (node_created_at r) now (node_deleted_at r).
Definition set_deleted (t : option string) (r : node_row) : node_row :=
  NodeRow (node_owner_id r) (node_parent_id r) (node_type r) (node_metadata_ciphertext r)
    (node_metadata_key_version r) (node_metadata_key_scope_id r) (node_current_version_id r) (node_revision r)
    (node_created_at r) (node_updated_at r) t.

Definition has_metadata (i : UpdateInput) : bool := negb (Nat.eqb (length (u_MetadataCiphertext i)) 0).

Definition updateTx (i : UpdateInput) : M DB string :=
  replay ← query (replayIfProcessed (u_OperationID i) (u_UserID i) "NODE_UPDATE");
  match replay with
  | Some (nodeID, _) => mret nodeID
  | None =>
      query (validateDeviceOwnership (u_UserID i) (u_DeviceID i)) ;;
      current ← query (lockNode (u_NodeID i));
      writeRoot ← query (authorizeWrite (u_UserID i) current);
      throw_if (negb (Revision current =? u_ExpectedRevision i)%Z) (ENodes NodesErrRevisionConflict) ;;
      (if u_MoveParent i then query (validateMove (u_UserID i) current writeRoot (u_ParentID i)) else mret tt) ;;
      let scope := if String.eqb (u_MetadataKeyScopeID i) "" then OwnerID current else u_MetadataKeyScopeID i in
      (if has_metadata i
       then query (ValidateKeyScope (OwnerID current) (u_UserID i) writeRoot scope (u_MetadataKeyVersion i))
       else mret tt) ;;
      let now := clk 0 in
      revision ← recordChange 1 (OwnerID current) (u_NodeID i) "UPDATE";
      let meta := set_metadata i (StoredScope scope (OwnerID current)) in
      let change := if has_metadata i && u_MoveParent i then fun r => set_parent (u_ParentID i) (meta r)
                    else if has_metadata i then meta
                    else set_parent (u_ParentID i) in
      exec (update_node (u_NodeID i) (fun r => stamp revision (Format now) (change r))) ;;
      recordProcessed 2 (u_OperationID i) (u_UserID i) (u_DeviceID i) "NODE_UPDATE" (u_NodeID i) revision ;;
      mret (u_NodeID i)
  end.

Definition Update (i : UpdateInput) : M DB Node :=
  throw_if (badIDs (u_NodeID i) (u_OperationID i)) errBadIDs ;;
  throw_if (negb (has_metadata i) && negb (u_MoveParent i))
    (NewValidation "update must change metadata, parent, or both") ;;
  throw_if (has_metadata i && (u_MetadataKeyVersion i <? 1)%Z)
    (NewValidation "a metadata key version is required when metadata changes") ;;
  nodeID ← tx (updateTx i);
  query (Get (u_UserID i) nodeID).

Definition deleteTx (userID deviceID nodeID operationID : string) (expectedRevision : Z) : M DB unit :=
  replay ← query (replayIfProcessed operationID userID "NODE_DELETE");
  match replay with
  | Some _ => mret tt
  | None =>
      query (validateDeviceOwnership userID deviceID) ;;
      current ← query (lockNode nodeID);
      query (authorizeWrite userID current) ;;
      throw_if (negb (Revision current =? expectedRevision)%Z) (ENodes NodesErrRevisionConflict) ;;
      let now := clk 0 in
      revision ← recordChange 1 (OwnerID current) nodeID "DELETE";
      exec (update_node nodeID (fun r => stamp revision (Format now) (set_deleted (Some (Format now)) r))) ;;
      recordProcessed 2 operationID userID deviceID "NODE_DELETE" nodeID revision
  end.

Definition Delete (userID deviceID nodeID operationID : string) (expectedRevision : Z) : M DB unit :=
  throw_if (badIDs nodeID operationID) errBadIDs ;;
  tx (deleteTx userID deviceID nodeID operationID expectedRevision).

Definition restoreTx (userID deviceID nodeID operationID : string) : M DB string :=
  replay ← query (replayIfProcessed operationID userID "NODE_RESTORE");
  match replay with
  | Some (nodeID', _) => mret nodeID'
  | None =>
      query (validateDeviceOwnership userID deviceID) ;;
      r ← query (fun d => match nodes d !! nodeID with
                          | Some r => Ok r
                          | None => Err (ENodes NodesErrNotFound)
                          end);
      throw_if (negb (String.eqb (node_owner_id r) userID)) (ENodes NodesErrForbidden) ;;
      throw_if (negb (IsDeleted r)) (NewValidation "node is not in trash") ;;
      toRoot ← (match node_parent_id r with
                | Some p => query (hasDeletedAncestor p)
                | None => mret false
                end);
      let now := clk 0 in
      revision ← recordChange 1 userID nodeID "RESTORE";
      let restore r := let r := set_deleted None r in if toRoot : bool then set_parent None r else r in
      exec (update_node nodeID (fun r => stamp revision (Format now) (restore r))) ;;
      recordProcessed 2 operationID userID deviceID "NODE_RESTORE" nodeID revision ;;
      mret nodeID
  end.

Definition Restore (userID deviceID nodeID operationID : string) : M DB Node :=
  throw_if (badIDs nodeID operationID) errBadIDs ;;
  nodeID' ← tx (restoreTx userID deviceID nodeID operationID);
  query (Get userID nodeID').

(** The validation of a rekey batch: [seen] is the map of the loop. *)
Definition badRekeyVersion (v : RekeyVersion) : bool :=
  negb (validUUID (rv_ID v)) || Nat.eqb (length (rv_WrappedFileKey v)) 0 ||
  (1024 <? Z.of_nat (length (rv_WrappedFileKey v)))%Z.

Fixpoint validateRekey (seen : list string) (items : list RekeyItem) : result unit :=
  match items with
  | [] => Ok tt
  | item :: rest =>
      if negb (validUUID (ri_NodeID item)) || bool_decide (ri_NodeID item ∈ seen)
         || Nat.eqb (length (ri_MetadataCiphertext item)) 0
         || (Z.shiftl 1 17 <? Z.of_nat (length (ri_MetadataCiphertext item)))%Z
         || (maxRekeyVersions <? length (ri_Versions item))%nat
      then Err (NewValidation "rekey items need unique node IDs, encrypted metadata, and a bounded version list")
      else if existsb badRekeyVersion (ri_Versions item)
      then Err (NewValidation "rekeyed file versions need an ID and a wrapped file key")
      else validateRekey (ri_NodeID item :: seen) rest
  end.

(** [UPDATE file_versions SET .. WHERE id=? AND node_id=?] and its number of
    affected rows. *)
Definition rewrapVersion (nodeID : string) (v : RekeyVersion) : M DB unit := fun d =>
  match file_versions d !! rv_ID v with
  | Some f =>
      if String.eqb (fv_node_id f) nodeID then
        (Ok tt, upd_file_versions <[rv_ID v :=
           FileVersion (fv_node_id f) (fv_blob_id f) (fv_e2ee_header f) (rv_WrappedFileKey v) (rv_KeyScopeID v)
             (rv_KeyVersion v) (fv_created_at f) (fv_created_by_device_id f) (fv_revision f)]> d)
      else (Err (NewValidation "a rekeyed file version does not belong to its node"), d)
  | None => (Err (NewValidation "a rekeyed file version does not belong to its node"), d)
  end.

Definition set_rekeyed (item : RekeyItem) (scope : option string) (r : node_row) : node_row :=
  NodeRow (node_owner_id r) (node_parent_id r) (node_type r) (ri_MetadataCiphertext item)
    (ri_MetadataKeyVersion item) scope (node_current_version_id r) (node_revision r) (node_created_at r)
    (node_updated_at r) (node_deleted_at r).

Definition rekeyItem (userID now : string) (i : nat) (item : RekeyItem) : M DB unit :=
  current ← query (lockNode (ri_NodeID item));
  throw_if (negb (String.eqb (OwnerID current) userID)) (ENodes NodesErrForbidden) ;;
  throw_if (negb (Revision current =? ri_ExpectedRevision item)%Z) (ENodes NodesErrRevisionConflict) ;;
  query (ValidateKeyScope (OwnerID current) userID "" (ri_MetadataKeyScopeID item) (ri_MetadataKeyVersion item)) ;;
  mfor (fun _ v =>
    query (ValidateKeyScope (OwnerID current) userID "" (rv_KeyScopeID v) (rv_KeyVersion v)) ;;
    rewrapVersion (ri_NodeID item) v) 0 (ri_Versions item) ;;
  revision ← recordChange (S i) (OwnerID current) (ri_NodeID item) "UPDATE";
  exec (update_node (ri_NodeID item) (fun r => stamp revision now
    (set_rekeyed item (StoredScope (ri_MetadataKeyScopeID item) (OwnerID current)) r))).

Definition Rekey (i : RekeyInput) : M DB (list Node) :=
  throw_if (Nat.eqb (length (rk_Items i)) 0 || (MaxRekeyItems <? length (rk_Items i))%nat)
    (NewValidation ("a rekey batch needs 1 to " ++ FormatInt (Z.of_nat MaxRekeyItems) ++ " nodes")) ;;
  lift (validateRekey [] (rk_Items i)) ;;
  tx (
    query (validateDeviceOwnership (rk_UserID i) (rk_DeviceID i)) ;;
    mfor (rekeyItem (rk_UserID i) (Format (clk 0))) 0 (rk_Items i)) ;;
  mmap_list (fun item => query (Get (rk_UserID i) (ri_NodeID item))) (rk_Items i).

End nodes.
