(* ===== verification/NodesSpec.v ===== *)
(** * What internal/nodes promises

    [node_step] is the abstract specification of the node tree: one
    authorized change of one row, stamped with the next global revision and
    recorded in the owner's feed.  [handle_steps] shows that every request,
    whatever it returns, performs a sequence of such steps; the invariants
    and the authorization theorem then follow by induction on the steps. *)

From S2P Require Import Prelude GoText GoTime Uuid Schema Fixture Access Nodes.
Local Open Scope string_scope.

(** ** The abstract specification *)

Definition may_write (u : string) (d : DB) (k : string) (r : node_row) : Prop :=
  node_owner_id r = u \/
  exists g, ShareGrant u k d = Ok (Some g) /\ CanWrite g = true /\ RootID g <> k.

(** A folder key belongs to the owner of its folder. *)
Definition keys_ok (d : DB) : Prop :=
  (forall v, folder_keys d !! ("", v) = None) /\
  forall f v key r, folder_keys d !! (f, v) = Some key -> nodes d !! f = Some r ->
    fk_owner_user_id key = node_owner_id r.

(** Nothing with a folder key at or below [a] and at or above [p] at once. *)
Definition disjoint_keys (d : DB) (k p : string) : Prop := forall a b,
  below (nodes d) a k -> below (nodes d) p b ->
  has_folder_key a d = true -> has_folder_key b d = true -> False.

(** A live directory of [owner] that does not lie below [k], and under which
    [k] would not nest shared folders. *)
Definition good_parent (d : DB) (owner k p : string) : Prop :=
  (exists rp, nodes d !! p = Some rp /\ node_type rp = "DIRECTORY" /\ IsDeleted rp = false /\
    node_owner_id rp = owner /\ ~ below (nodes d) p k) /\
  (forest (nodes d) -> keys_ok d -> disjoint_keys d k p).

(** Where [u] may add a node of [owner]. *)
Definition may_add (u owner : string) (d : DB) (parent : option string) : Prop :=
  match parent with
  | None => owner = u
  | Some p => exists rp, nodes d !! p = Some rp /\ node_type rp = "DIRECTORY" /\ IsDeleted rp = false /\
      node_owner_id rp = owner /\
      (owner = u \/ exists g, ShareGrant u p d = Ok (Some g) /\ CanWrite g = true)
  end.

(** The tables no node request writes. *)
Definition others (d : DB) :=
  (users d, refresh_tokens d, access_tokens d, vault_key_envelopes d, blobs d, upload_sessions d, upload_chunks d, share_device_envelopes d,
   favorites d, gc_blob_candidates d, gc_orphan_blob_files d, recovery_bundles d).

(** Row [k] becomes [r'], with the next revision, recorded in its owner's feed
    as an [op]. *)
Record effect (d : DB) (k : string) (r' : node_row) (op : string) (d' : DB) : Prop := {
  eff_nodes : nodes d' = <[k := r']> (nodes d);
  eff_revision : node_revision r' = (sync_sequence d + 1)%Z;
  eff_sequence : sync_sequence d' = (sync_sequence d + 1)%Z /\ sync_sequence d <> max_int64;
  eff_feed : exists at_, sync_changes d' =
    (sync_changes d ++ [SyncRow (sync_sequence d + 1) (node_owner_id r') k op [] at_])%list;
  eff_shares : shares d' = shares d;
  eff_keys : folder_keys d' = folder_keys d;
  eff_devices : devices d' = devices d;
  eff_rest : others d' = others d;
}.

Definition same_identity (r r' : node_row) : Prop :=
  node_owner_id r' = node_owner_id r /\ node_type r' = node_type r /\
  node_current_version_id r' = node_current_version_id r /\ node_created_at r' = node_created_at r.

(** Only the wrapped key of versions of [k] differs. *)
Definition rewrapped (k : string) (fv fv' : gmap string file_version_row) : Prop :=
  forall v f', fv' !! v = Some f' -> exists f, fv !! v = Some f /\
    fv_node_id f' = fv_node_id f /\ fv_blob_id f' = fv_blob_id f /\ fv_revision f' = fv_revision f /\
    (f' = f \/ fv_node_id f = k).

Inductive node_step (u : string) (d d' : DB) : Prop :=
| step_create k r' :
    effect d k r' "CREATE" d' -> file_versions d' = file_versions d ->
    nodes d !! k = None -> may_add u (node_owner_id r') d (node_parent_id r') ->
    node_deleted_at r' = None -> node_current_version_id r' = None -> node_step u d d'
| step_write k r r' op :
    effect d k r' op d' ->
    (op = "UPDATE" /\ node_deleted_at r' = node_deleted_at r) \/ (op = "DELETE" /\ IsDeleted r' = true) -> file_versions d' = file_versions d ->
    nodes d !! k = Some r -> IsDeleted r = false -> may_write u d k r -> same_identity r r' ->
    (node_parent_id r' = node_parent_id r \/
     forall p, node_parent_id r' = Some p -> good_parent d (node_owner_id r) k p) -> node_step u d d'
| step_restore k r r' :
    effect d k r' "RESTORE" d' -> file_versions d' = file_versions d ->
    nodes d !! k = Some r -> IsDeleted r = true -> IsDeleted r' = false -> node_owner_id r = u ->
    same_identity r r' -> (node_parent_id r' = node_parent_id r \/ node_parent_id r' = None) -> node_step u d d'
| step_rekey k r r' :
    effect d k r' "UPDATE" d' -> rewrapped k (file_versions d) (file_versions d') ->
    nodes d !! k = Some r -> node_owner_id r = u -> same_identity r r' ->
    node_parent_id r' = node_parent_id r -> node_deleted_at r' = node_deleted_at r -> node_step u d d'.

Inductive request :=
| RCreate (i : CreateInput)
| RUpdate (i : UpdateInput)
| RDelete (userID deviceID nodeID operationID : string) (expectedRevision : Z)
| RRestore (userID deviceID nodeID operationID : string)
| RRekey (i : RekeyInput).

Definition actor (q : request) : string :=
  match q with
  | RCreate i => c_OwnerID i
  | RUpdate i => u_UserID i
  | RDelete u _ _ _ _ | RRestore u _ _ _ => u
  | RRekey i => rk_UserID i
  end.

Section spec.
Context {U : UuidLib} {TP : TimeParser} (clk : nat -> Z).

Definition handle (q : request) : M DB (list Node) :=
  match q with
  | RCreate i => n ← Create clk i; mret [n]
  | RUpdate i => n ← Update clk i; mret [n]
  | RDelete u dev k op rev => Delete clk u dev k op rev ;; mret []
  | RRestore u dev k op => n ← Restore clk u dev k op; mret [n]
  | RRekey i => Rekey clk i
  end.

(** ** Inversion of the checks *)

Lemma Parse_opt_ok_inv s o : Parse_opt s = Ok o -> is_valid o = is_valid s.
Proof. unfold Parse_opt. destruct s as [s|]; intros H; inv_ok H; by subst. Qed.

Lemma scanNode_ok_inv id r n : scanNode id r = Ok n ->
  ID n = id /\ OwnerID n = node_owner_id r /\ ParentID n = node_parent_id r /\ Revision n = node_revision r /\
  Node_IsDeleted n = IsDeleted r /\ CurrentVersionID n = node_current_version_id r /\ NodeType n = node_type r.
Proof.
  unfold scanNode, scanNodeWithCreatedAt, Node_IsDeleted, IsDeleted. intros H. inv_ok H. subst. inv_ok H0. subst.
  match goal with HP : Parse_opt _ = _ |- _ => apply Parse_opt_ok_inv in HP end. done.
Qed.

Lemma lockNode_ok_inv k d n : lockNode k d = Ok n ->
  exists r, nodes d !! k = Some r /\ ID n = k /\ OwnerID n = node_owner_id r /\ Revision n = node_revision r /\
    Node_IsDeleted n = IsDeleted r.
Proof.
  unfold lockNode. destruct (nodes d !! k) as [r|]; [|done]. intros H%scanNode_ok_inv. exists r. tauto.
Qed.

Lemma directoryOwner_ok_inv p d o : directoryOwner p d = Ok o ->
  exists rp, nodes d !! p = Some rp /\ node_type rp = "DIRECTORY" /\ IsDeleted rp = false /\ node_owner_id rp = o.
Proof.
  unfold directoryOwner. destruct (nodes d !! p) as [r|]; [|done].
  destruct (String.eqb_spec (node_type r) "DIRECTORY"); destruct (IsDeleted r) eqn:E; simpl; try done.
  intros [= <-]. eauto.
Qed.

Lemma authorizeWrite_ok_inv u n d root : authorizeWrite u n d = Ok root ->
  Node_IsDeleted n = false /\
  ((OwnerID n = u /\ root = "") \/
   (OwnerID n <> u /\ exists g, ShareGrant u (ID n) d = Ok (Some g) /\ CanWrite g = true /\ RootID g <> ID n /\
      RootID g = root)).
Proof.
  unfold authorizeWrite. intros H. inv_ok H. destruct (Node_IsDeleted n); [done|]. injection H as ->.
  split; [done|]. destruct (String.eqb_spec (OwnerID n) u); simpl in *; [left; by injection H0|right].
  split; [done|]. inv_ok H0. destruct a as [g|]; [|done]. exists g.
  destruct (CanWrite g), (String.eqb_spec (RootID g) (ID n)); simpl in *; try done. by injection H0.
Qed.

(** The loop of [forbidCycle] accepts only a parent outside the moved subtree. *)
Lemma forbidCycle_ok_inv f k p d : forbidCycle_from f k p d = Ok tt ->
  exists l, chain (nodes d) p l /\ (k ∉ l.*1) /\ length l <= f.
Proof.
  revert p; induction f as [|f IH]; intros p; simpl; [done|].
  destruct (String.eqb_spec p k) as [|Hne]; [done|].
  destruct (nodes d !! p) as [r|] eqn:Er; [|done].
  destruct (node_parent_id r) as [p'|] eqn:Ep.
  - intros (l & Hl & Hk & Hf)%IH. exists ((p, r) :: l). split; [by econstructor|].
    simpl. rewrite not_elem_of_cons. auto with lia.
  - intros _. exists [(p, r)]. split; [by constructor|]. simpl. rewrite not_elem_of_cons, elem_of_nil. auto with lia.
Qed.

Lemma owns_folder_keys_true o d : owns_folder_keys o d = true <->
  exists f v key, folder_keys d !! (f, v) = Some key /\ fk_owner_user_id key = o.
Proof.
  unfold owns_folder_keys. rewrite exists_row_true. split.
  - intros ([f v] & key & Hk & E%String.eqb_eq). eauto.
  - intros (f & v & key & Hk & <-). exists (f, v), key. by rewrite String.eqb_refl.
Qed.

(** The last part of [validateMove]: shared folders never end up nested. *)
Lemma nesting_check_disjoint k p r d (u : unit) :
  (if negb (owns_folder_keys (node_owner_id r) d) then Ok tt
   else hasKeyed ← SubtreeHasKeyedFolder k d;
        if negb hasKeyed then Ok tt
        else outer ← NearestKeyedFolder p d;
             if negb (String.eqb outer "") then Err ErrNestedSharedFolder else Ok tt) = Ok u ->
  nodes d !! k = Some r -> is_Some (nodes d !! p) -> forest (nodes d) -> keys_ok d -> disjoint_keys d k p.
Proof.
  intros H Hk [rp Hp] [_ Hpar] [Hempty Howned] a b Ha Hb Fa Fb.
  destruct (below_owner _ _ _ _ Hpar Ha Hk) as (ra & Hra & Ho).
  pose proof Fa as Fa'. apply has_folder_key_true in Fa' as (v & key & Hkey).
  assert (Hown : owns_folder_keys (node_owner_id r) d = true).
  { apply owns_folder_keys_true. exists a, v, key. split; [done|]. rewrite <- Ho. by eapply Howned. }
  rewrite Hown in H. cbn [negb] in H. inv_ok H.
  match goal with HS : SubtreeHasKeyedFolder _ _ = Ok ?x |- _ =>
    assert (x = true) as ->; [assert (HS' : SubtreeHasKeyedFolder k d = Ok true) by
      (apply SubtreeHasKeyedFolder_true; split; eauto); congruence|] end.
  cbn [negb] in H. inv_ok H.
  match goal with HN : NearestKeyedFolder _ _ = Ok ?x |- _ =>
    destruct (String.eqb_spec x ""); [subst|done];
    destruct (below_exists _ _ _ _ Hpar Hb Hp) as (rb & Hrb & _);
    pose proof (NearestKeyedFolder_empty _ _ HN Hempty b (ex_intro _ _ Hrb) Hb) end.
  congruence.
Qed.

Lemma validateMove_ok_inv u n root parent d p r :
  validateMove u n root parent d = Ok tt -> nodes d !! ID n = Some r -> OwnerID n = node_owner_id r ->
  parent = Some p -> good_parent d (OwnerID n) (ID n) p.
Proof.
  intros H Hn HO ->. simpl in H. destruct (String.eqb p (ID n)); [done|].
  inv_ok H. destruct (directoryOwner_ok_inv _ _ _ H0) as (rp & Hp & Hty & Hdel & Ho).
  destruct (String.eqb_spec a (OwnerID n)) as [->|]; [|done]. simpl in H. inv_ok H.
  destruct a, a0. apply forbidCycle_ok_inv in H2 as (l & Hl & Hk & _). split.
  - exists rp. split_and!; try done. intros Hb. apply Hk. apply (chain_below _ _ _ _ Hl); [by exists r|done].
  - rewrite HO in H. by eapply nesting_check_disjoint.
Qed.

Lemma createPlace_ok_inv i d owner root : createPlace i d = Ok (owner, root) ->
  may_add (c_OwnerID i) owner d (c_ParentID i).
Proof.
  unfold createPlace. destruct (c_ParentID i) as [p|]; simpl; [|by intros [= <- _]].
  intros H. inv_ok H. destruct (directoryOwner_ok_inv _ _ _ H0) as (rp & Hp & Hty & Hdel & Ho).
  exists rp. destruct (String.eqb_spec a (c_OwnerID i)) as [->|Hne]; simpl in H.
  - injection H as <- _. subst. split_and!; auto.
  - inv_ok H. destruct a0 as [g|]; [|done]. destruct (CanWrite g) eqn:E; [|done]. injection H as <- _.
    split_and!; eauto.
Qed.

(** ** The transactions perform steps *)

(** The three writes every mutation ends with. *)
Lemma commit_effect i j owner k op r' d rev d1 d3 opid u dev ty x :
  recordChange clk i owner k op d = (Ok rev, d1) ->
  recordProcessed clk j opid u dev ty k rev (upd_nodes <[k := r']> d1) = (Ok x, d3) ->
  node_revision r' = rev -> node_owner_id r' = owner ->
  effect d k r' op d3 /\ file_versions d3 = file_versions d.
Proof.
  intros (Hmax & -> & ->)%exec_sync_ok_inv H Hr Ho. unfold recordProcessed in H. inv_ok H.
  apply constrained_ok_inv in H as (_ & _ & _ & ->).
  split; [|done]. split; simpl; try done. rewrite Ho. eauto.
Qed.

(** [fold_commit] packs the three writes found by [inv_ok] into an [effect]. *)
#[local] Ltac fold_commit :=
  match goal with
  | HC : recordChange _ _ _ _ _ _ = (Ok _, _), HP : recordProcessed _ _ _ _ _ _ _ _ _ = (Ok _, _) |- _ =>
      let He := fresh "Heff" in let Hf := fresh "Hfv" in
      destruct (commit_effect _ _ _ _ _ _ _ _ _ _ _ _ _ _ _ HC HP eq_refl eq_refl) as [He Hf]; clear HP
  end.

(** [apply_update r]: the UPDATE statement found the row [r]. *)
#[local] Ltac apply_update r :=
  match goal with
  | HU : update_node _ _ ?s = Ok _, HC : recordChange _ _ _ _ _ _ = (Ok _, ?s) |- _ =>
      let Hs := fresh "Hs" in
      pose proof (exec_sync_ok_inv _ _ _ _ _ _ _ _ HC) as (_ & _ & Hs);
      apply (update_node_ok_inv _ _ _ _ r) in HU as [_ ->]; [clear Hs|by rewrite Hs]
  end.

Lemma createTx_inv i d id d' : createTx clk i d = (Ok id, d') ->
  d' = d \/ (exists r', nodes d !! c_ID i = None /\ effect d (c_ID i) r' "CREATE" d' /\
    file_versions d' = file_versions d /\ may_add (c_OwnerID i) (node_owner_id r') d (node_parent_id r') /\
    node_deleted_at r' = None /\ node_current_version_id r' = None).
Proof.
  intros H. unfold createTx in H. inv_ok H. destruct a as [[? ?]|]; [by inv_ok H; left|].
  inv_ok H. destruct a0 as [owner root]. simpl in *. right.
  match goal with HI : insert_nodes _ _ _ = _ |- _ =>
    apply constrained_ok_inv in HI as (_ & Hfresh%fresh_key_true & _ & ->) end.
  fold_commit. match goal with HC : recordChange _ _ _ _ _ _ = _ |- _ => apply exec_sync_ok_inv in HC as (_ & _ & ->) end.
  simpl in *. eexists. split_and!; eauto. simpl. by eapply createPlace_ok_inv.
Qed.

Lemma authorizeWrite_may_write u n d root k r :
  authorizeWrite u n d = Ok root -> ID n = k -> OwnerID n = node_owner_id r -> may_write u d k r.
Proof.
  intros [_ [[Ho _]|[_ (g & Hg & Hw & Hne & _)]]]%authorizeWrite_ok_inv <- HO; [left; congruence|].
  right. eauto.
Qed.

(** The row [Update] writes. *)
Definition updated (i : UpdateInput) (r r' : node_row) : Prop :=
  node_parent_id r' = (if u_MoveParent i then u_ParentID i else node_parent_id r) /\
  node_metadata_ciphertext r' =
    (if has_metadata i then u_MetadataCiphertext i else node_metadata_ciphertext r) /\
  node_metadata_key_version r' = (if has_metadata i then u_MetadataKeyVersion i else node_metadata_key_version r) /\
  node_metadata_key_scope_id r' =
    (if has_metadata i
     then StoredScope (if String.eqb (u_MetadataKeyScopeID i) "" then node_owner_id r else u_MetadataKeyScopeID i) (node_owner_id r)
     else node_metadata_key_scope_id r) /\
  node_updated_at r' = Format (clk 0) /\ node_deleted_at r' = node_deleted_at r /\ same_identity r r'.

Lemma updateTx_inv i d id d' :
  negb (has_metadata i) && negb (u_MoveParent i) = false -> updateTx clk i d = (Ok id, d') ->
  (d' = d /\ exists rev, replayIfProcessed (u_OperationID i) (u_UserID i) "NODE_UPDATE" d = Ok (Some (id, rev))) \/
  (exists r r', id = u_NodeID i /\ nodes d !! id = Some r /\ IsDeleted r = false /\
    node_revision r = u_ExpectedRevision i /\ may_write (u_UserID i) d id r /\ updated i r r' /\
    (forall p, u_MoveParent i = true -> u_ParentID i = Some p -> good_parent d (node_owner_id r) id p) /\
    effect d id r' "UPDATE" d' /\ file_versions d' = file_versions d).
Proof.
  intros Hguard H. unfold updateTx in H. inv_ok H. destruct a as [[? ?]|]; [inv_ok H; subst; left; eauto|].
  inv_ok H. right. subst id.
  match goal with HL : lockNode _ _ = _ |- _ => apply lockNode_ok_inv in HL as (r & Hr & HI & HO & HR & HD) end.
  match goal with HA : authorizeWrite _ _ _ = _ |- _ =>
    pose proof (authorizeWrite_may_write _ _ _ _ _ _ HA HI HO) as Hmay;
    apply authorizeWrite_ok_inv in HA as [HND _] end.
  match goal with HE : negb _ = false |- _ => apply negb_false_iff, Z.eqb_eq in HE end.
  match goal with HM : (if u_MoveParent i then _ else _) _ = _ |- _ => rename HM into Hmove end.
  match goal with HM : (if has_metadata i then _ else _) _ = _ |- _ => rename HM into Hmeta end.
  match type of Hmove with _ = (_, ?s) => assert (s = d) as -> by (destruct (u_MoveParent i); by inv_ok Hmove) end.
  match type of Hmeta with _ = (_, ?s) => assert (s = d) as -> by (destruct (has_metadata i); by inv_ok Hmeta) end.
  apply_update r. rewrite HO in *.
  assert (Hparent : forall p, u_MoveParent i = true -> u_ParentID i = Some p ->
    good_parent d (node_owner_id r) (u_NodeID i) p).
  { intros p Hmv Hp. rewrite Hmv in Hmove. inv_ok Hmove. destruct a3.
    rewrite <- HO, <- HI. eapply validateMove_ok_inv; [exact Hmove|by rewrite HI|done..]. }
  clear Hmove Hmeta. unfold updated, same_identity.
  destruct (has_metadata i) eqn:Ehm, (u_MoveParent i) eqn:Emv; simpl in *; try discriminate Hguard;
    fold_commit; match goal with He : effect _ _ ?r' _ _ |- _ => exists r, r' end; split_and!; eauto; simpl; congruence.
Qed.

Lemma deleteTx_inv u dev k op rev d d' : deleteTx clk u dev k op rev d = (Ok tt, d') ->
  (d' = d /\ exists x, replayIfProcessed op u "NODE_DELETE" d = Ok (Some x)) \/ (exists r r', nodes d !! k = Some r /\ IsDeleted r = false /\ node_revision r = rev /\
    may_write u d k r /\ node_deleted_at r' = Some (Format (clk 0)) /\
    node_parent_id r' = node_parent_id r /\ same_identity r r' /\
    effect d k r' "DELETE" d' /\ file_versions d' = file_versions d).
Proof.
  intros H. unfold deleteTx in H. inv_ok H. destruct a as [[? ?]|]; [inv_ok H; left; eauto|].
  inv_ok H. right.
  match goal with HL : lockNode _ _ = _ |- _ => apply lockNode_ok_inv in HL as (r & Hr & HI & HO & HR & HD) end.
  match goal with HA : authorizeWrite _ _ _ = _ |- _ =>
    pose proof (authorizeWrite_may_write _ _ _ _ _ _ HA HI HO) as Hmay;
    apply authorizeWrite_ok_inv in HA as [HND _] end.
  match goal with HE : negb _ = false |- _ => apply negb_false_iff, Z.eqb_eq in HE end.
  apply_update r. rewrite HO in *. fold_commit.
  match goal with He : effect _ _ ?r' _ _ |- _ => exists r, r' end. split_and!; done || congruence.
Qed.

Lemma restoreTx_inv u dev k op d id d' : restoreTx clk u dev k op d = (Ok id, d') ->
  (d' = d /\ exists rev, replayIfProcessed op u "NODE_RESTORE" d = Ok (Some (id, rev))) \/
  (id = k /\ exists r r' hidden, nodes d !! k = Some r /\ IsDeleted r = true /\ node_owner_id r = u /\
    node_deleted_at r' = None /\ same_identity r r' /\
    match node_parent_id r with Some p => hasDeletedAncestor p d = Ok hidden | None => hidden = false end /\
    node_parent_id r' = (if hidden then None else node_parent_id r) /\
    effect d k r' "RESTORE" d' /\ file_versions d' = file_versions d).
Proof.
  intros H. unfold restoreTx in H. inv_ok H. destruct a as [[? ?]|]; [inv_ok H; subst; left; eauto|].
  inv_ok H. right. split; [done|]. subst id.
  match goal with HL : match nodes _ !! _ with _ => _ end = Ok ?x |- _ =>
    rename x into r; assert (Hr : nodes d !! k = Some r) by (destruct (nodes d !! k); congruence); clear HL end.
  match goal with HE : negb (String.eqb _ _) = false |- _ => apply negb_false_iff, String.eqb_eq in HE; rename HE into Ho end.
  match goal with HE : negb (IsDeleted _) = false |- _ => apply negb_false_iff in HE; rename HE into Hd end.
  match goal with HM : match node_parent_id _ with _ => _ end _ = (Ok ?h, ?s) |- _ =>
    rename HM into Hhid; rename h into hidden; assert (s = d) as -> by (destruct (node_parent_id r); by inv_ok Hhid) end.
  assert (Hh : match node_parent_id r with Some p => hasDeletedAncestor p d = Ok hidden | None => hidden = false end)
    by (destruct (node_parent_id r); by inv_ok Hhid).
  clear Hhid. apply_update r. rewrite <- Ho in *.
  destruct hidden; fold_commit; match goal with He : effect _ _ ?r' _ _ |- _ => exists r, r' end;
    eexists; split_and!; try exact Hh; done.
Qed.

Lemma rewrapped_refl k fv : rewrapped k fv fv.
Proof. intros v f Hf. exists f. auto 10. Qed.

Lemma rewrapped_trans k fv1 fv2 fv3 : rewrapped k fv1 fv2 -> rewrapped k fv2 fv3 -> rewrapped k fv1 fv3.
Proof.
  intros H12 H23 v f3 (f2 & Hf2 & E1 & E2 & E3 & E4)%H23.
  destruct (H12 _ _ Hf2) as (f1 & Hf1 & F1 & F2 & F3 & F4). exists f1.
  split_and!; try congruence. destruct E4 as [->|]; [done|]. right. congruence.
Qed.

Lemma rewrapVersion_ok_inv k v d x d' : rewrapVersion k v d = (Ok x, d') ->
  exists fv, d' = upd_file_versions (fun _ => fv) d /\ rewrapped k (file_versions d) fv.
Proof.
  unfold rewrapVersion. destruct (file_versions d !! rv_ID v) as [f|] eqn:Ef; [|done].
  destruct (String.eqb_spec (fv_node_id f) k); [|done]. intros [= <- <-].
  eexists. split; [done|]. intros v' f'. destruct (decide (v' = rv_ID v)) as [->|Hne].
  - rewrite lookup_insert_eq. intros [= <-]. exists f. auto 10.
  - rewrite lookup_insert_ne by done. intros Hf. exists f'. auto 10.
Qed.

Lemma rewrap_loop_inv (owner u k : string) versions n d x d' :
  mfor (fun _ v => query (ValidateKeyScope owner u "" (rv_KeyScopeID v) (rv_KeyVersion v)) ;; rewrapVersion k v)
    n versions d = (Ok x, d') ->
  exists fv, d' = upd_file_versions (fun _ => fv) d /\ rewrapped k (file_versions d) fv.
Proof.
  revert n d; induction versions as [|v versions IH]; intros n d H; simpl in H; inv_ok H.
  - match goal with |- exists fv, ?s = _ /\ _ =>
      exists (file_versions s); split; [by destruct s|apply rewrapped_refl] end.
  - match goal with HR : rewrapVersion _ _ _ = _ |- _ => apply rewrapVersion_ok_inv in HR as (fv & -> & Hfv) end.
    destruct (IH _ _ H) as (fv' & -> & Hfv'). exists fv'. split; [done|]. by eapply rewrapped_trans.
Qed.

(** A step of [Rekey]: the owner's own node, same place, same life cycle. *)
Definition rekey_step (u : string) (d d' : DB) : Prop := exists k r r',
  effect d k r' "UPDATE" d' /\ rewrapped k (file_versions d) (file_versions d') /\
  nodes d !! k = Some r /\ node_owner_id r = u /\ same_identity r r' /\
  node_parent_id r' = node_parent_id r /\ node_deleted_at r' = node_deleted_at r.

Lemma rekeyItem_inv u now i item d x d' : rekeyItem clk u now i item d = (Ok x, d') ->
  rekey_step u d d' /\
  exists r r', nodes d !! ri_NodeID item = Some r /\ node_revision r = ri_ExpectedRevision item /\
    nodes d' !! ri_NodeID item = Some r' /\ node_revision r' = (sync_sequence d + 1)%Z /\ node_owner_id r' = u.
Proof.
  intros H. unfold rekeyItem in H. inv_ok H.
  match goal with HL : lockNode _ _ = _ |- _ => apply lockNode_ok_inv in HL as (r & Hr & HI & HO & HR & HD) end.
  repeat match goal with HE : negb _ = false |- _ => apply negb_false_iff in HE end.
  match goal with HE : String.eqb _ _ = true |- _ => apply String.eqb_eq in HE; rename HE into Hu end.
  match goal with HE : Z.eqb _ _ = true |- _ => apply Z.eqb_eq in HE; rename HE into Hrev end.
  rewrite HO in *. subst u.
  match goal with HM : mfor _ _ _ _ = _ |- _ => apply rewrap_loop_inv in HM as (fv & -> & Hfv) end.
  match goal with HC : recordChange _ _ _ _ _ _ = _ |- _ => apply exec_sync_ok_inv in HC as (Hmax & -> & ->) end.
  apply (update_node_ok_inv _ _ _ _ r) in H as [_ ->]; [|done].
  split; [|exists r; eexists; simpl; rewrite lookup_insert_eq; split_and!; [done|congruence|done..]].
  eexists (ri_NodeID item), r, _. split_and!; [split; [reflexivity|..]; simpl; eauto|exact Hfv|done..].
Qed.

Lemma rekey_step_node_step u d d' : rekey_step u d d' -> node_step u d d'.
Proof. intros (k & r & r' & ?). by eapply step_rekey; try apply H. Qed.

Lemma rekeyTx_steps u now n items d x d' :
  mfor (rekeyItem clk u now) n items d = (Ok x, d') -> rtc (rekey_step u) d d'.
Proof.
  revert n d; induction items as [|item items IH]; intros n d H; simpl in H; inv_ok H; [apply rtc_refl|].
  match goal with HR : rekeyItem _ _ _ _ _ _ = _ |- _ => apply rekeyItem_inv in HR as [Hstep _] end.
  eapply rtc_l; [exact Hstep|eauto].
Qed.

Lemma pure_mmap_query {A B} (f : A -> DB -> result B) l : pure_m (mmap_list (fun a => query (f a)) l).
Proof. induction l; simpl; [done|]. apply pure_bind; [done|]. intros b. apply pure_bind; [done|]. by intros. Qed.

Lemma guard_outcome {A} (b : bool) e (m : M DB A) d r d' :
  (throw_if b e ;; m) d = (r, d') -> d' = d \/ (b = false /\ m d = (r, d')).
Proof. unfold mbind, M_bind, throw_if. destruct b; [intros [= _ <-]; by left|by right]. Qed.

(** Peels the validation guards of a handler off [H]. *)
#[local] Ltac peel H :=
  repeat (let Hg := fresh "Hguard" in apply guard_outcome in H as [->|[Hg H]]; [by left|]).

Lemma Create_outcome i d r d' : Create clk i d = (r, d') ->
  d' = d \/ exists r', nodes d !! c_ID i = None /\ effect d (c_ID i) r' "CREATE" d' /\
    file_versions d' = file_versions d /\ may_add (c_OwnerID i) (node_owner_id r') d (node_parent_id r') /\
    node_deleted_at r' = None /\ node_current_version_id r' = None.
Proof.
  intros H. unfold Create in H. peel H. apply tx_then_pure in H as [->|[id H]]; [by left| |done].
  by apply createTx_inv in H.
Qed.

Lemma Update_outcome i d r d' : Update clk i d = (r, d') ->
  d' = d \/ exists r0 r', nodes d !! u_NodeID i = Some r0 /\ IsDeleted r0 = false /\
    node_revision r0 = u_ExpectedRevision i /\ may_write (u_UserID i) d (u_NodeID i) r0 /\ updated i r0 r' /\
    (forall p, u_MoveParent i = true -> u_ParentID i = Some p -> good_parent d (node_owner_id r0) (u_NodeID i) p) /\
    effect d (u_NodeID i) r' "UPDATE" d' /\ file_versions d' = file_versions d.
Proof.
  intros H. unfold Update in H. peel H. apply tx_then_pure in H as [->|[id H]]; [by left| |done].
  apply updateTx_inv in H as [[-> _]|(r0 & r' & -> & H)]; [by left| |done]. right. by exists r0, r'.
Qed.

Lemma Delete_outcome u dev k op rev d r d' : Delete clk u dev k op rev d = (r, d') ->
  d' = d \/ exists r0 r', nodes d !! k = Some r0 /\ IsDeleted r0 = false /\ node_revision r0 = rev /\
    may_write u d k r0 /\ node_deleted_at r' = Some (Format (clk 0)) /\
    node_parent_id r' = node_parent_id r0 /\ same_identity r0 r' /\
    effect d k r' "DELETE" d' /\ file_versions d' = file_versions d.
Proof.
  intros H. unfold Delete in H. peel H. destruct r as [[]|e].
  - apply tx_ok_inv in H. apply deleteTx_inv in H as [[-> _]|H]; [by left|by right].
  - apply tx_err_inv in H. by left.
Qed.

Lemma Restore_outcome u dev k op d r d' : Restore clk u dev k op d = (r, d') ->
  d' = d \/ exists r0 r' hidden, nodes d !! k = Some r0 /\ IsDeleted r0 = true /\ node_owner_id r0 = u /\
    node_deleted_at r' = None /\ same_identity r0 r' /\
    match node_parent_id r0 with Some p => hasDeletedAncestor p d = Ok hidden | None => hidden = false end /\
    node_parent_id r' = (if hidden then None else node_parent_id r0) /\
    effect d k r' "RESTORE" d' /\ file_versions d' = file_versions d.
Proof.
  intros H. unfold Restore in H. peel H. apply tx_then_pure in H as [->|[id H]]; [by left| |done].
  apply restoreTx_inv in H as [[-> _]|[_ H]]; [by left|by right].
Qed.

Lemma Rekey_outcome i d r d' : Rekey clk i d = (r, d') -> rtc (rekey_step (rk_UserID i)) d d'.
Proof.
  intros H. unfold Rekey in H.
  apply guard_outcome in H as [->|[_ H]]; [apply rtc_refl|].
  unfold mbind at 1, M_bind, lift in H. destruct (validateRekey _ _); [|injection H as _ <-; apply rtc_refl].
  apply tx_then_pure in H as [->|[x H]]; [apply rtc_refl| |intros; apply pure_mmap_query].
  inv_ok H. by eapply rekeyTx_steps.
Qed.

Lemma handle_cases q d r d' : handle q d = (r, d') ->
  d' = d \/ node_step (actor q) d d' \/ rtc (rekey_step (actor q)) d d'.
Proof.
  destruct q as [i|i|u dev k op rev|u dev k op|i]; simpl; intros H.
  - unfold mbind, M_bind in H. destruct (Create clk i d) as [[n|e] d1] eqn:E; injection H as _ <-;
      (apply Create_outcome in E as [->|(r' & ? & ? & ? & ? & ? & ?)]; [by left|right; left; by eapply step_create]).
  - unfold mbind, M_bind in H. destruct (Update clk i d) as [[n|e] d1] eqn:E; injection H as _ <-;
      (apply Update_outcome in E as [->|(r0 & r' & Hr & Hd & Hrev & Hmay & (Hp & _ & _ & _ & _ & Hdel & Hid) & Hgood & He & Hf)];
       [by left|right; left; eapply step_write; eauto]).
    all: destruct (u_MoveParent i); [right|by left]; intros p Hp'; apply Hgood; congruence.
  - unfold mbind, M_bind in H. destruct (Delete clk u dev k op rev d) as [[n|e] d1] eqn:E; injection H as _ <-;
      (apply Delete_outcome in E as [->|(r0 & r' & Hr & Hd & Hrev & Hmay & Hdel & Hp & Hid & He & Hf)];
       [by left|right; left; eapply step_write; eauto; right; unfold IsDeleted; by rewrite Hdel]).
  - unfold mbind, M_bind in H. destruct (Restore clk u dev k op d) as [[n|e] d1] eqn:E; injection H as _ <-;
      (apply Restore_outcome in E as [->|(r0 & r' & hidden & Hr & Hd & Ho & Hdel & Hid & _ & Hp & He & Hf)];
       [by left|right; left; eapply step_restore; eauto]).
    all: try (by unfold IsDeleted; rewrite Hdel).
    all: destruct hidden; auto.
  - right; right. by eapply Rekey_outcome.
Qed.

Lemma rekey_steps_node_steps u d d' : rtc (rekey_step u) d d' -> rtc (node_step u) d d'.
Proof. apply rtc_subrel. intros x y. apply rekey_step_node_step. Qed.

(** C1. Refinement: whatever a request returns, success or error, what it did to
    the database is a sequence of the authorized, recorded single-row changes
    of the abstract specification, made by its actor; no other table but that
    of the processed operations is written. *)
Theorem handle_refines q d r d' : handle q d = (r, d') -> rtc (node_step (actor q)) d d'.
Proof.
  intros [->|[Hs|Hs]]%handle_cases; [apply rtc_refl|by apply rtc_once|by apply rekey_steps_node_steps].
Qed.

End spec.

(** Bob, who may write to [id1], renames Alice's folder [id2]. *)
Definition rename_id2 : UpdateInput := MkUpdateInput bob phone op2 id2 2 [x07] 1 id1 false None.
Definition family_keyed : DB := upd_folder_keys (fun _ => {[ (id1, 1%Z) := FolderKey alice [x05] t0 laptop ]}) family.

Lemma handle_refines_witness :
  is_ok (handle (ticking noon) (RUpdate rename_id2) family_keyed).1 = true /\
  rtc (node_step bob) family_keyed (handle (ticking noon) (RUpdate rename_id2) family_keyed).2.
Proof.
  split; [vm_compute; reflexivity|].
  apply (handle_refines (ticking noon) (RUpdate rename_id2) _ _ _ (surjective_pairing _)).
Defined.
