(* ===== verification/NodesCorrect.v ===== *)
(** * Correctness of internal/nodes

    The invariants of the vault, who may change what, optimistic
    concurrency, idempotent retries, restoring from Trash, and pagination. *)

From S2P Require Import Prelude GoText GoTime Uuid Schema Fixture Access Nodes NodesSpec.
Local Open Scope string_scope.

(** ** Invariants *)

(** Revisions of the feed ascend, and the counter is past all of them. *)
Definition feed_ok (d : DB) : Prop :=
  StronglySorted (fun a b => (sync_revision a < sync_revision b)%Z) (sync_changes d) /\
  Forall (fun c => (1 <= sync_revision c <= sync_sequence d)%Z) (sync_changes d) /\
  (0 <= sync_sequence d <= max_int64)%Z.

Record vault_ok (d : DB) : Prop := {
  vault_forest : forest (nodes d);
  vault_revisions : forall k r, nodes d !! k = Some r -> (node_revision r <= sync_sequence d)%Z;
  vault_feed : feed_ok d;
}.

Lemma feed_ok_append d row d' :
  feed_ok d -> sync_changes d' = (sync_changes d ++ [row])%list -> sync_revision row = (sync_sequence d + 1)%Z ->
  sync_sequence d' = (sync_sequence d + 1)%Z -> sync_sequence d <> max_int64 -> feed_ok d'.
Proof.
  intros (Hs & Hb & Hc) E Hr Hq Hm. split; [|split].
  - rewrite E. apply StronglySorted_app. split_and!; [|done|by repeat constructor].
    intros a b Ha Hb'. apply list_elem_of_singleton in Hb' as ->. rewrite Forall_forall in Hb.
    specialize (Hb a Ha). simpl in *. lia.
  - rewrite E. apply Forall_app. split; [|constructor; [lia|constructor]].
    eapply Forall_impl; [exact Hb|]. simpl. lia.
  - lia.
Qed.

Lemma effect_vault_ok d k r' op d' : vault_ok d -> effect d k r' op d' -> forest (nodes d') -> vault_ok d'.
Proof.
  intros [Hf Hr Hq] He Hf'. destruct (eff_sequence _ _ _ _ _ He) as [Hs Hm]. split; [done| |].
  - intros j r Hj. rewrite (eff_nodes _ _ _ _ _ He) in Hj. rewrite Hs. apply lookup_insert_Some in Hj as [[_ <-]|[_ Hj]].
    + rewrite (eff_revision _ _ _ _ _ He). lia.
    + specialize (Hr _ _ Hj). lia.
  - destruct (eff_feed _ _ _ _ _ He) as (at_ & E). by eapply feed_ok_append.
Qed.

Lemma node_step_vault_ok u d d' : node_step u d d' -> vault_ok d -> vault_ok d'.
Proof.
  intros Hstep Hok. pose proof (vault_forest _ Hok) as Hf.
  destruct Hstep as [k r' He _ Hk Hadd _ _|k r r' op He _ _ Hk _ _ (Ho & Hty & _) Hp
                    |k r r' He _ Hk _ _ _ (Ho & Hty & _) Hp|k r r' He _ Hk _ (Ho & Hty & _) Hp _];
    (eapply effect_vault_ok; [done|exact He|]); rewrite (eff_nodes _ _ _ _ _ He); apply forest_insert; try done.
  - congruence.
  - intros p Hp. right. rewrite Hp in Hadd. destruct Hadd as (rp & Hrp & Hty & _ & Ho & _).
    exists rp. split_and!; try done. intros Hb.
    apply rtc_inv_r in Hb as [->|(y & _ & (r & Hy & Hr))]; [congruence|].
    destruct (proj2 Hf _ _ _ Hy Hr) as (rk & ? & _). congruence.
  - intros r0 Hr0. by simplify_eq.
  - intros p Hp'. destruct Hp as [Hp|Hp]; [left; exists r; split; congruence|].
    destruct (Hp p Hp') as [(rp & Hrp & Hty' & _ & Ho' & Hnb) _]. right. exists rp. split_and!; congruence.
  - intros r0 Hr0. by simplify_eq.
  - intros p Hp'. destruct Hp as [Hp|Hp]; [left; exists r; split; congruence|congruence].
  - intros r0 Hr0. by simplify_eq.
  - intros p Hp'. left. exists r. split; congruence.
Qed.

(** ** What rekeying and single steps change *)

Lemma effect_changed d k r' op d' j : effect d k r' op d' -> nodes d' !! j <> nodes d !! j -> j = k.
Proof.
  intros He Hj. rewrite (eff_nodes _ _ _ _ _ He) in Hj. destruct (decide (j = k)) as [|Hne]; [done|].
  by rewrite lookup_insert_ne in Hj.
Qed.

Definition may_change (u : string) (d d' : DB) (k : string) : Prop :=
  (exists r, nodes d !! k = Some r /\ may_write u d k r) \/
  (nodes d !! k = None /\ exists r', nodes d' !! k = Some r' /\
     may_add u (node_owner_id r') d (node_parent_id r')).

Lemma node_step_may_change u d d' k :
  node_step u d d' -> nodes d' !! k <> nodes d !! k -> may_change u d d' k.
Proof.
  intros Hs Hk. destruct Hs as [j r' He _ Hj Hadd _ _|j r r' op He _ _ Hj _ Hmay _ _
    |j r r' He _ Hj _ _ Ho _ _|j r r' He _ Hj Ho _ _ _]; apply (effect_changed _ _ _ _ _ _ He) in Hk as ->.
  - right. split; [done|]. exists r'. split; [|done]. by rewrite (eff_nodes _ _ _ _ _ He), lookup_insert_eq.
  - left. eauto.
  - left. exists r. split; [done|by left].
  - left. exists r. split; [done|by left].
Qed.

(** Rekeying touches the actor's own rows only and leaves owners alone. *)
Lemma rekey_steps_owned u d d' : rtc (rekey_step u) d d' ->
  (forall k, node_owner_id <$> nodes d' !! k = node_owner_id <$> nodes d !! k) /\
  forall k, nodes d' !! k <> nodes d !! k -> exists r, nodes d !! k = Some r /\ node_owner_id r = u.
Proof.
  induction 1 as [d|d d1 d' (j & r & r' & He & _ & Hj & Ho & (Ho' & _) & _) _ [IH1 IH2]]; [done|].
  assert (Hown : forall k, node_owner_id <$> nodes d1 !! k = node_owner_id <$> nodes d !! k).
  { intros k. rewrite (eff_nodes _ _ _ _ _ He). destruct (decide (k = j)) as [->|Hne].
    - rewrite lookup_insert_eq, Hj. simpl. by rewrite Ho'.
    - by rewrite lookup_insert_ne. }
  split; [intros k; by rewrite IH1|]. intros k Hk.
  destruct (decide (k = j)) as [->|Hne]; [by exists r|].
  assert (E : nodes d1 !! k = nodes d !! k) by (by rewrite (eff_nodes _ _ _ _ _ He), lookup_insert_ne).
  rewrite <- E. apply IH2. by rewrite E.
Qed.

(** A changed row carries a new revision that its owner's feed reports. *)
Definition reported (d d' : DB) : Prop :=
  (exists new, sync_changes d' = (sync_changes d ++ new)%list) /\ (sync_sequence d <= sync_sequence d')%Z /\
  forall k, nodes d' !! k <> nodes d !! k -> exists r' c, nodes d' !! k = Some r' /\
    c ∈ sync_changes d' /\ sync_node_id c = k /\ sync_user_scope_id c = node_owner_id r' /\
    sync_revision c = node_revision r' /\ (sync_sequence d < sync_revision c)%Z.

Lemma effect_reported d k r' op d' : effect d k r' op d' -> reported d d'.
Proof.
  intros He. destruct (eff_feed _ _ _ _ _ He) as (at_ & E). destruct (eff_sequence _ _ _ _ _ He) as [Hq _].
  split; [eauto|]. split; [lia|]. intros j Hj. apply (effect_changed _ _ _ _ _ _ He) in Hj as ->.
  exists r', (SyncRow (sync_sequence d + 1) (node_owner_id r') k op [] at_).
  rewrite (eff_nodes _ _ _ _ _ He), lookup_insert_eq, E, (eff_revision _ _ _ _ _ He). simpl.
  split_and!; try done; [|lia]. apply elem_of_app. right. by apply list_elem_of_singleton.
Qed.

Lemma reported_trans d1 d2 d3 : reported d1 d2 -> reported d2 d3 -> reported d1 d3.
Proof.
  intros ([n1 E1] & Q1 & R1) ([n2 E2] & Q2 & R2). split; [|split; [lia|]].
  - exists (n1 ++ n2)%list. by rewrite E2, E1, app_assoc.
  - intros k Hk. destruct (decide (nodes d3 !! k = nodes d2 !! k)) as [E|Hne].
    + destruct (R1 k) as (r' & c & Hr & Hc & ?); [by rewrite <- E|]. exists r', c.
      rewrite E, E2. split_and!; try tauto. apply elem_of_app. by left.
    + destruct (R2 k Hne) as (r' & c & Hr & Hc & H1 & H2 & H3 & H4). exists r', c. split_and!; auto with lia.
Qed.

Lemma node_steps_reported u d d' : rtc (node_step u) d d' -> reported d d'.
Proof.
  induction 1 as [d|d d1 d' Hs _ IH].
  - split; [exists []; by rewrite app_nil_r|]. split; [lia|done].
  - eapply reported_trans; [|exact IH]. destruct Hs; by eapply effect_reported.
Qed.

Section correctness.
Context {U : UuidLib} {TP : TimeParser} (clk : nat -> Z).

Lemma handle_steps q d r d' : handle clk q d = (r, d') -> rtc (node_step (actor q)) d d'.
Proof.
  intros [->|[Hs|Hs]]%handle_cases; [apply rtc_refl|by apply rtc_once|by apply rekey_steps_node_steps].
Qed.

(** Every request, whatever it returns, keeps the vault well formed: the
    parent links form a forest of same-account directories, no node carries a
    revision the feed has not reached, and the feed's revisions ascend. *)
Theorem handle_keeps_vault q d r d' : vault_ok d -> handle clk q d = (r, d') -> vault_ok d'.
Proof.
  intros Hok Hs%handle_steps. induction Hs as [d|d d1 d' Hs _ IH]; [done|].
  apply IH. by eapply node_step_vault_ok.
Qed.

(** Authorization: a row that a request changes belongs to its actor, or
    lies strictly below a folder actively shared with the actor for writing
    with nothing in Trash in between; a row it adds goes to the actor's own
    tree or below such a folder, under that folder owner's account. *)
Theorem handle_authorized q d r d' k :
  handle clk q d = (r, d') -> nodes d' !! k <> nodes d !! k -> may_change (actor q) d d' k.
Proof.
  intros [->|[Hs|Hs]]%handle_cases Hk; [done|by eapply node_step_may_change|].
  apply rekey_steps_owned in Hs as [_ Hs]. destruct (Hs k Hk) as (r0 & Hr & Ho). left. exists r0. split; [done|by left].
Qed.

(** The feed is append-only and complete: every row a request changes has
    a new entry in its owner's feed, past the old counter, with exactly the
    revision the row now carries. *)
Theorem handle_reported q d r d' : handle clk q d = (r, d') -> reported d d'.
Proof. intros Hs%handle_steps. by eapply node_steps_reported. Qed.
End correctness.

(** ** Concrete runs *)

Definition forged : request := RUpdate (MkUpdateInput bob phone op2 id1 1 [x07] 1 id1 false None).

Lemma StronglySorted_lt_check (l : list sync_row) :
  forallb (fun ab => (sync_revision ab.1 <? sync_revision ab.2)%Z) (zip l (tail l)) = true ->
  StronglySorted (fun a b => (sync_revision a < sync_revision b)%Z) l.
Proof.
  intros H. apply Sorted_StronglySorted; [intros x y z; lia|].
  induction l as [|a [|b l] IH]; [constructor|repeat constructor|]. simpl in *.
  apply andb_prop in H as [?%Z.ltb_lt ?]. constructor; [by apply IH|by constructor].
Qed.

(** A checker for concrete vaults. *)
Definition vault_okb (d : DB) : bool :=
  forestb (nodes d) && forallb (fun kr => (node_revision kr.2 <=? sync_sequence d)%Z) (map_to_list (nodes d)) &&
  forallb (fun ab => (sync_revision ab.1 <? sync_revision ab.2)%Z) (zip (sync_changes d) (tail (sync_changes d))) &&
  forallb (fun c => (1 <=? sync_revision c)%Z && (sync_revision c <=? sync_sequence d)%Z) (sync_changes d) &&
  (0 <=? sync_sequence d)%Z && (sync_sequence d <=? max_int64)%Z.

Lemma vault_okb_sound d : vault_okb d = true -> vault_ok d.
Proof.
  unfold vault_okb. rewrite !andb_true_iff, !Z.leb_le, !forallb_forall. intros [[[[[Hf Hr] Hs] Hb] H0] Hm].
  split; [by apply forestb_sound| |split; [|split; [|done]]].
  - intros k r Hk. apply Z.leb_le, (Hr (k, r)), list_elem_of_In. by apply elem_of_map_to_list.
  - apply StronglySorted_lt_check. apply forallb_forall. exact Hs.
  - apply Forall_forall. intros c Hc. apply list_elem_of_In, Hb in Hc. rewrite andb_true_iff, !Z.leb_le in Hc. lia.
Qed.

Lemma handle_keeps_vault_witness :
  vault_ok family_keyed /\ is_ok (handle (ticking noon) (RUpdate rename_id2) family_keyed).1 = true /\
  vault_ok (handle (ticking noon) (RUpdate rename_id2) family_keyed).2.
Proof.
  assert (Hok : vault_ok family_keyed) by (apply vault_okb_sound; vm_compute; reflexivity).
  split; [exact Hok|]. split; [vm_compute; reflexivity|].
  apply (handle_keeps_vault (ticking noon) (RUpdate rename_id2) family_keyed _ _ Hok (surjective_pairing _)).
Defined.

Lemma handle_authorized_witness :
  may_change bob family_keyed (handle (ticking noon) (RUpdate rename_id2) family_keyed).2 id2 /\
  (handle (ticking noon) forged family_keyed).1 = Err (ENodes NodesErrForbidden).
Proof.
  split; [|vm_compute; reflexivity].
  apply (handle_authorized (ticking noon) (RUpdate rename_id2) family_keyed _ _ id2 (surjective_pairing _)).
  vm_compute. discriminate.
Defined.

Lemma handle_reported_witness :
  reported family_keyed (handle (ticking noon) (RUpdate rename_id2) family_keyed).2 /\
  sync_sequence (handle (ticking noon) (RUpdate rename_id2) family_keyed).2 = 5%Z.
Proof.
  split; [|vm_compute; reflexivity].
  apply (handle_reported (ticking noon) (RUpdate rename_id2) family_keyed _ _ (surjective_pairing _)).
Defined.
