(* ===== verification/NodesRetry.v ===== *)
(** * Retries, races and Trash in internal/nodes *)

From S2P Require Import Prelude GoText GoTime Uuid Schema Fixture Access Nodes NodesSpec NodesCorrect.
From Stdlib Require Import Ascii.
Local Open Scope string_scope.

Section retry.
Context {U : UuidLib} {UL : UuidLaws U} {TP : TimeParser} (clk : nat -> Z).

(** ** Idempotency records *)

Lemma validUUID_ValidUUID v : validUUID v = ValidUUID v.
Proof. done. Qed.

Lemma badIDs_false k op : badIDs k op = false -> ValidUUID k = true /\ ValidUUID op = true.
Proof. unfold badIDs. intros [H1%negb_false_iff H2%negb_false_iff]%orb_false_iff. done. Qed.

(** The stored result of an operation is read back as it was written. *)
Lemma recordProcessed_replay i op u dev ty k rev d x d' :
  recordProcessed clk i op u dev ty k rev d = (Ok x, d') -> ValidUUID k = true ->
  (min_int64 <= rev <= max_int64)%Z -> replayIfProcessed op u ty d' = Ok (Some (k, rev)).
Proof.
  unfold recordProcessed. intros H Hk Hrev. inv_ok H.
  apply constrained_ok_inv in H as (_ & _ & _ & ->). unfold replayIfProcessed. simpl.
  rewrite lookup_insert_eq. simpl. rewrite !String.eqb_refl. simpl.
  unfold SplitN2. change (k ++ ":" ++ FormatInt rev) with (k ++ String ":"%char (FormatInt rev)).
  rewrite Cut_app by (by apply ValidUUID_no_char). rewrite (ValidUUID_validate _ Hk). simpl.
  by rewrite ParseInt64_FormatInt.
Qed.

Lemma recordChange_range i u k op d rev d' :
  (0 <= sync_sequence d <= max_int64)%Z -> recordChange clk i u k op d = (Ok rev, d') ->
  (min_int64 <= rev <= max_int64)%Z.
Proof. intros Hq (Hm & -> & _)%exec_sync_ok_inv. unfold min_int64 in *. lia. Qed.

(** [solve_replay]: the last write of the transaction [H] is its record. *)
#[local] Ltac solve_replay :=
  match goal with
  | HP : recordProcessed _ _ _ _ _ _ _ ?rev _ = (Ok _, ?d), HC : recordChange _ _ _ _ _ ?s = (Ok ?rev, _) |- _ =>
      exists rev; eapply recordProcessed_replay; [exact HP|done|eapply recordChange_range; [|exact HC]; done]
  end.

Lemma createTx_replay i d id d' :
  (0 <= sync_sequence d <= max_int64)%Z -> ValidUUID (c_ID i) = true -> createTx clk i d = (Ok id, d') ->
  exists rev, replayIfProcessed (c_OperationID i) (c_OwnerID i) "NODE_CREATE" d' = Ok (Some (id, rev)).
Proof.
  intros Hq Hid H. unfold createTx in H. inv_ok H. destruct a as [[? ?]|]; [inv_ok H; subst; eauto|].
  inv_ok H. subst. solve_replay.
Qed.

Lemma updateTx_replay i d id d' :
  (0 <= sync_sequence d <= max_int64)%Z -> ValidUUID (u_NodeID i) = true -> updateTx clk i d = (Ok id, d') ->
  exists rev, replayIfProcessed (u_OperationID i) (u_UserID i) "NODE_UPDATE" d' = Ok (Some (id, rev)).
Proof.
  intros Hq Hid H. unfold updateTx in H. inv_ok H. destruct a as [[? ?]|]; [inv_ok H; subst; eauto|].
  inv_ok H. subst.
  match goal with HM : (if u_MoveParent i then _ else _) _ = (_, ?s) |- _ =>
    assert (s = d) as -> by (destruct (u_MoveParent i); by inv_ok HM) end.
  match goal with HM : (if has_metadata i then _ else _) _ = (_, ?s) |- _ =>
    assert (s = d) as -> by (destruct (has_metadata i); by inv_ok HM) end.
  solve_replay.
Qed.

Lemma deleteTx_replay u dev k op rv d d' :
  (0 <= sync_sequence d <= max_int64)%Z -> ValidUUID k = true -> deleteTx clk u dev k op rv d = (Ok tt, d') ->
  exists id rev, replayIfProcessed op u "NODE_DELETE" d' = Ok (Some (id, rev)).
Proof.
  intros Hq Hid H. unfold deleteTx in H. inv_ok H. destruct a as [[? ?]|]; [inv_ok H; eauto|].
  inv_ok H. exists k. solve_replay.
Qed.

Lemma restoreTx_replay u dev k op d id d' :
  (0 <= sync_sequence d <= max_int64)%Z -> ValidUUID k = true -> restoreTx clk u dev k op d = (Ok id, d') ->
  exists rev, replayIfProcessed op u "NODE_RESTORE" d' = Ok (Some (id, rev)).
Proof.
  intros Hq Hid H. unfold restoreTx in H. inv_ok H. destruct a as [[? ?]|]; [inv_ok H; subst; eauto|].
  inv_ok H. subst.
  match goal with HM : match node_parent_id _ with _ => _ end _ = (Ok ?h, ?s) |- _ =>
    assert (s = d) as -> by (destruct (node_parent_id _); by inv_ok HM) end.
  solve_replay.
Qed.

(** [solve_retry]: the transaction of the goal replays by [HT]. *)
#[local] Ltac solve_retry HT H :=
  rewrite ?throw_if_bind by done;
  unfold createTx, updateTx, deleteTx, restoreTx, tx, query, mbind, M_bind, mret, M_ret;
  rewrite HT; simpl; try rewrite H; done.

Lemma Create_retry i d n d' : vault_ok d -> Create clk i d = (Ok n, d') -> Create clk i d' = (Ok n, d').
Proof.
  intros Hok H. unfold Create in *. inv_ok H. destruct (badIDs_false _ _ H0) as [Hid _].
  match goal with HT : createTx _ _ _ = _ |- _ =>
    apply createTx_replay in HT as [rev HT]; [solve_retry HT H|apply (vault_feed _ Hok)|done] end.
Qed.

Lemma Update_retry i d n d' : vault_ok d -> Update clk i d = (Ok n, d') -> Update clk i d' = (Ok n, d').
Proof.
  intros Hok H. unfold Update in *. inv_ok H. destruct (badIDs_false _ _ H0) as [Hid _].
  match goal with HT : updateTx _ _ _ = _ |- _ =>
    apply updateTx_replay in HT as [rev HT]; [solve_retry HT H|apply (vault_feed _ Hok)|done] end.
Qed.

Lemma Delete_retry u dev k op rv d d' :
  vault_ok d -> Delete clk u dev k op rv d = (Ok tt, d') -> Delete clk u dev k op rv d' = (Ok tt, d').
Proof.
  intros Hok H. unfold Delete in *. inv_ok H. destruct (badIDs_false _ _ H0) as [Hid _].
  apply deleteTx_replay in H as (id & rev & HT); [solve_retry HT HT|apply (vault_feed _ Hok)|done].
Qed.

Lemma Restore_retry u dev k op d n d' :
  vault_ok d -> Restore clk u dev k op d = (Ok n, d') -> Restore clk u dev k op d' = (Ok n, d').
Proof.
  intros Hok H. unfold Restore in *. inv_ok H. destruct (badIDs_false _ _ H0) as [Hid _].
  match goal with HT : restoreTx _ _ _ _ _ _ = _ |- _ =>
    apply restoreTx_replay in HT as [rev HT]; [solve_retry HT H|apply (vault_feed _ Hok)|done] end.
Qed.

(** Rekeying is the one mutation without an operation identifier. *)
Definition has_operation (q : request) : bool := match q with RRekey _ => false | _ => true end.

(** C6. Idempotent retries (ADR-006): repeating a request that succeeded, with
    the same operation identifier, returns the same answer and leaves the
    database exactly as it is. *)
Theorem handle_retry q d r d' :
  vault_ok d -> has_operation q = true -> handle clk q d = (Ok r, d') -> handle clk q d' = (Ok r, d').
Proof.
  intros Hok Hq H. destruct q as [i|i|u dev k op rv|u dev k op|i]; simpl in *; [..|done]; inv_ok H; subst r.
  - erewrite bind_ok; [done|by eapply Create_retry].
  - erewrite bind_ok; [done|by eapply Update_retry].
  - destruct a. erewrite bind_ok; [done|by eapply Delete_retry].
  - erewrite bind_ok; [done|by eapply Restore_retry].
Qed.

(** ** Optimistic concurrency *)

Lemma Get_ok_inv u k d n : Get u k d = Ok n ->
  exists r, nodes d !! k = Some r /\ scanNode k r = Ok n /\
    (node_owner_id r = u \/ (IsDeleted r = false /\ exists g, ShareGrant u k d = Ok (Some g))).
Proof.
  unfold Get. destruct (nodes d !! k) as [r|] eqn:Hr; [|done]. intros H. inv_ok H. exists r.
  destruct (scanNode_ok_inv _ _ _ H0) as (_ & Ho & _ & _ & Hd & _). rewrite Ho, Hd in H.
  destruct (String.eqb_spec (node_owner_id r) u); simpl in H; [injection H as ->; auto|].
  destruct (IsDeleted r); [done|]. inv_ok H. destruct a0 as [g|]; [|done]. injection H as ->. eauto 10.
Qed.

Lemma Update_fresh_inv i d n d' :
  replayIfProcessed (u_OperationID i) (u_UserID i) "NODE_UPDATE" d = Ok None -> Update clk i d = (Ok n, d') ->
  exists r r', nodes d !! u_NodeID i = Some r /\ node_revision r = u_ExpectedRevision i /\
    IsDeleted r = false /\ may_write (u_UserID i) d (u_NodeID i) r /\ updated clk i r r' /\
    effect d (u_NodeID i) r' "UPDATE" d' /\ Get (u_UserID i) (u_NodeID i) d' = Ok n.
Proof.
  intros Hfresh H. unfold Update in H. inv_ok H.
  match goal with HT : updateTx _ _ _ = _ |- _ =>
    apply updateTx_inv in HT as [[-> [rev Hrep]]|(r & r' & -> & Hr & Hd & Hrev & Hmay & Hup & _ & He & _)];
    [congruence| |done] end.
  by exists r, r'.
Qed.

(** C7. What a fresh, successful [Update] does: the stored row had the expected
    revision, was not in Trash and was writable by the caller; the new row has
    the requested parent and metadata, with its key's version and scope,
    everything else of it unchanged but its time and the revision, which is the
    next global one; no other row changes; the owner's
    feed gains exactly one entry; and the answer is the new row. *)
Theorem Update_correct i d n d' :
  replayIfProcessed (u_OperationID i) (u_UserID i) "NODE_UPDATE" d = Ok None ->
  Update clk i d = (Ok n, d') ->
  exists r r', nodes d !! u_NodeID i = Some r /\ node_revision r = u_ExpectedRevision i /\
    IsDeleted r = false /\ may_write (u_UserID i) d (u_NodeID i) r /\ updated clk i r r' /\
    node_revision r' = (sync_sequence d + 1)%Z /\ nodes d' = <[u_NodeID i := r']> (nodes d) /\
    (exists at_, sync_changes d' =
       (sync_changes d ++ [SyncRow (sync_sequence d + 1) (node_owner_id r) (u_NodeID i) "UPDATE" [] at_])%list) /\
    ID n = u_NodeID i /\ Revision n = node_revision r' /\ ParentID n = node_parent_id r'.
Proof.
  intros Hfresh H.
  destruct (Update_fresh_inv _ _ _ _ Hfresh H) as (r & r' & Hr & Hrev & Hd & Hmay & Hup & He & Hget).
  apply Get_ok_inv in Hget as (r1 & Hr1 & Hscan & _).
  rewrite (eff_nodes _ _ _ _ _ He), lookup_insert_eq in Hr1. injection Hr1 as <-.
  apply scanNode_ok_inv in Hscan as (? & _ & ? & ? & _).
  exists r, r'. split_and!; try done.
  - apply (eff_revision _ _ _ _ _ He).
  - apply (eff_nodes _ _ _ _ _ He).
  - destruct (eff_feed _ _ _ _ _ He) as [at_ E]. exists at_. rewrite E.
    destruct Hup as (_ & _ & _ & _ & _ & _ & Ho & _). by rewrite Ho.
Qed.

(** No lost update: of two updates of one node that expect the same
    revision, once one has succeeded the other fails and changes nothing,
    whoever sends them and whatever they ask for. *)
Theorem Update_no_lost_update i1 i2 d n1 d1 :
  vault_ok d -> replayIfProcessed (u_OperationID i1) (u_UserID i1) "NODE_UPDATE" d = Ok None ->
  Update clk i1 d = (Ok n1, d1) ->
  u_NodeID i2 = u_NodeID i1 -> u_ExpectedRevision i2 = u_ExpectedRevision i1 ->
  replayIfProcessed (u_OperationID i2) (u_UserID i2) "NODE_UPDATE" d1 = Ok None ->
  exists e, Update clk i2 d1 = (Err e, d1).
Proof.
  intros Hok Hfresh H Hk Hx Hfresh2.
  destruct (Update_fresh_inv _ _ _ _ Hfresh H) as (r & r' & Hr & Hrev & _ & _ & _ & He & _).
  assert (Hnot : forall r0, nodes d1 !! u_NodeID i2 = Some r0 -> node_revision r0 = u_ExpectedRevision i2 -> False).
  { intros r0. rewrite (eff_nodes _ _ _ _ _ He), Hk, lookup_insert_eq, (Hx). intros [= <-].
    rewrite (eff_revision _ _ _ _ _ He). pose proof (vault_revisions _ Hok _ _ Hr). lia. }
  destruct (Update clk i2 d1) as [[n|e] d2] eqn:E.
  - destruct (Update_fresh_inv _ _ _ _ Hfresh2 E) as (r0 & ? & Hr0 & Hrev0 & _). by destruct (Hnot _ Hr0).
  - apply Update_outcome in E as [->|(r0 & ? & Hr0 & _ & Hrev0 & _)]; [eauto|by destruct (Hnot _ Hr0)].
Qed.

(** ** Rekey batches *)

Lemma rekey_step_revisions u d d' : rekey_step u d d' -> vault_ok d -> vault_ok d'.
Proof. intros H. by eapply node_step_vault_ok, rekey_step_node_step. Qed.

Lemma rekey_steps_devices u d d' : rtc (rekey_step u) d d' -> devices d' = devices d.
Proof.
  induction 1 as [|d d1 d' (j & r & r' & He & _) _ IH]; [done|]. rewrite IH. apply (eff_devices _ _ _ _ _ He).
Qed.

(** Once a node has been rekeyed, its revision is past every older one. *)
Lemma rekey_steps_revision u d d' k :
  rtc (rekey_step u) d d' ->
  forall r', nodes d' !! k = Some r' -> (sync_sequence d < node_revision r')%Z \/ nodes d !! k = Some r'.
Proof.
  induction 1 as [d|d d1 d' (j & r & r' & He & _) _ IH]; [by right|]. intros rk Hk.
  destruct (eff_sequence _ _ _ _ _ He) as [Hq _].
  destruct (IH _ Hk) as [Hlt|Hk1]; [left; lia|].
  rewrite (eff_nodes _ _ _ _ _ He) in Hk1. apply lookup_insert_Some in Hk1 as [[_ <-]|[_ Hk1]]; [|by right].
  left. rewrite (eff_revision _ _ _ _ _ He). lia.
Qed.

(** A rekey batch that is repeated after it was applied fails with a
    revision conflict and changes nothing, so a retry never overwrites. *)
Theorem Rekey_retry_conflicts i d ns d1 :
  vault_ok d -> Rekey clk i d = (Ok ns, d1) ->
  Rekey clk i d1 = (Err (ENodes NodesErrRevisionConflict), d1).
Proof.
  intros Hok H. unfold Rekey in H. inv_ok H.
  destruct (rk_Items i) as [|item items] eqn:Ei; [done|].
  match goal with HM : mfor _ _ _ _ = _ |- _ => simpl in HM; inv_ok HM; rename HM into Hrest end.
  match goal with HR : rekeyItem _ _ _ _ _ _ = _ |- _ => apply rekeyItem_inv in HR as [Hst (r & r' & Hr & Hx & Hr' & Hrev & Ho)] end.
  apply rekeyTx_steps in Hrest. simpl in H. inv_ok H.
  match goal with HG : Get _ _ _ = _ |- _ => apply Get_ok_inv in HG as (r1 & Hr1 & Hscan & _) end.
  match goal with HM : mmap_list ?g items ?s = (_, d1) |- _ =>
    assert (Hpure : (mmap_list g items s).2 = s)
      by apply (pure_mmap_query (fun item => Get (rk_UserID i) (ri_NodeID item)) items s);
    rewrite HM in Hpure; simpl in Hpure; subst s end.
  assert (Hnew : (sync_sequence d < node_revision r1)%Z).
  { destruct Hst as (j & ? & ? & He & _). destruct (eff_sequence _ _ _ _ _ He) as [Hq _].
    destruct (rekey_steps_revision _ _ _ _ Hrest _ Hr1); [lia|]. simplify_eq. lia. }
  assert (Hown : node_owner_id r1 = rk_UserID i).
  { destruct (rekey_steps_owned _ _ _ Hrest) as [Ho' _]. specialize (Ho' (ri_NodeID item)).
    rewrite Hr1, Hr' in Ho'. simpl in Ho'. congruence. }
  pose proof (vault_revisions _ Hok _ _ Hr) as Hle.
  destruct (scanNode_ok_inv _ _ _ Hscan) as (_ & HO & _ & HR & _).
  assert (Hitem : forall now n, rekeyItem clk (rk_UserID i) now n item d1 = (Err (ENodes NodesErrRevisionConflict), d1)).
  { intros now n. unfold rekeyItem, query, lockNode, throw_if, mbind, M_bind. rewrite Hr1, Hscan, HO, HR, Hown.
    rewrite String.eqb_refl. simpl. by rewrite (proj2 (Z.eqb_neq _ _)) by lia. }
  assert (Hdev : validateDeviceOwnership (rk_UserID i) (rk_DeviceID i) d1 = Ok tt).
  { unfold validateDeviceOwnership. erewrite (rekey_steps_devices _ d d1); [|eapply rtc_l; [exact Hst|exact Hrest]].
    match goal with HV : validateDeviceOwnership _ _ d = Ok ?x |- _ => destruct x; exact HV end. }
  unfold Rekey. rewrite Ei, throw_if_bind by done.
  unfold lift, query, tx, mbind, M_bind. rewrite H1. simpl. rewrite Hdev. unfold mbind, M_bind. by rewrite Hitem.
Qed.

(** ** Restoring from Trash *)

Lemma climb_union_chain (ns : node_table) fuel seen k l :
  chain ns k l -> NoDup (seen.*1 ++ l.*1) -> length l <= fuel -> climb_union fuel ns seen k = (seen ++ l)%list.
Proof.
  intros Hc. revert fuel seen. induction Hc as [k Hk|k r Hk Hp|k r p l Hk Hp Hl IH]; intros [|fuel] seen Hnd Hf;
    simpl in *; try lia; rewrite ?Hk, ?app_nil_r; try done.
  all: rewrite bool_decide_eq_false_2 by (apply NoDup_app in Hnd as (_ & Hnd & _); intros Hin;
    apply (Hnd k Hin), elem_of_cons; by left); rewrite Hp; try done.
  rewrite IH; [by rewrite <- app_assoc| |lia]. rewrite fmap_app, <- app_assoc. done.
Qed.

Lemma hasDeletedAncestor_false p d l :
  chain (nodes d) p l -> hasDeletedAncestor p d = Ok false -> Forall (fun a => IsDeleted a.2 = false) l /\ l <> [].
Proof.
  intros Hc. unfold hasDeletedAncestor.
  rewrite (climb_union_chain _ _ _ _ _ Hc); [|by eapply chain_NoDup|].
  - simpl. intros [= [Hin Hd]%orb_false_iff]. split; [by apply existsb_deleted_false|].
    intros ->. done.
  - rewrite <- (length_fmap fst). apply NoDup_keys_length; [by eapply chain_NoDup|].
    intros a Ha. apply list_elem_of_fmap in Ha as ([a' r] & -> & Ha). exists r. by eapply chain_lookup.
Qed.

(** A restored node is visible again: after a fresh, successful [Restore]
    neither the node nor any folder above it is in Trash; the node has moved
    to the root only if its old place was hidden; no other row changed. *)
Theorem Restore_visible u dev k op d n d' :
  forest (nodes d) -> replayIfProcessed op u "NODE_RESTORE" d = Ok None ->
  Restore clk u dev k op d = (Ok n, d') ->
  exists r r' path, nodes d !! k = Some r /\ IsDeleted r = true /\ node_owner_id r = u /\
    nodes d' = <[k := r']> (nodes d) /\ same_identity r r' /\
    chain (nodes d') k ((k, r') :: path) /\ Forall (fun a => IsDeleted a.2 = false) ((k, r') :: path) /\
    (node_parent_id r' = node_parent_id r \/
     (node_parent_id r' = None /\ exists p, node_parent_id r = Some p /\ hasDeletedAncestor p d = Ok true)).
Proof.
  intros Hf Hfresh H. unfold Restore in H. inv_ok H.
  match goal with HT : restoreTx _ _ _ _ _ _ = _ |- _ =>
    apply restoreTx_inv in HT as [[_ [rev Hrep]]|[-> (r & r' & hidden & Hr & Hd & Ho & Hdel & Hid & Hh & Hp & He & _)]];
    [congruence|] end.
  pose proof (eff_nodes _ _ _ _ _ He) as En. exists r, r'.
  assert (Hdel' : IsDeleted r' = false) by (unfold IsDeleted; by rewrite Hdel).
  destruct (node_parent_id r) as [p|] eqn:Ep.
  - destruct hidden; [exists []|].
    + split_and!; try done; [rewrite En; constructor; [by rewrite lookup_insert_eq|done]|by constructor|].
      right. split; [done|]. by exists p.
    + destruct (proj1 Hf p) as [l Hl]. exists l. destruct (hasDeletedAncestor_false _ _ _ Hl Hh) as [Hall _].
      split_and!; try done; [|by constructor|by left].
      rewrite En. econstructor; [by rewrite lookup_insert_eq|done|]. apply chain_avoid; try done.
      * destruct (proj2 Hf _ _ _ Hr Ep) as (rp & Hrp & _). by exists rp.
      * pose proof (chain_NoDup _ _ _ (chain_up _ _ _ _ _ Hr Ep Hl)) as Hnd. simpl in Hnd.
        by apply NoDup_cons in Hnd as [? _].
  - subst hidden. exists []. split_and!; try done; [rewrite En; constructor; [by rewrite lookup_insert_eq|done]|by constructor|by left].
Qed.

(** ** Losing access by deletion *)

Lemma deleted_cuts_grant d k rk u k' :
  forest (nodes d) -> nodes d !! k = Some rk -> IsDeleted rk = true -> below (nodes d) k' k ->
  (forall a, below (nodes d) k' a -> below (nodes d) a k -> a <> k -> active_permission u a d = None) ->
  ShareGrant u k' d = Ok None.
Proof.
  intros [Hac Hpar] Hk Hdel Hb Hno. destruct (ShareGrant_total u k' d Hac) as [[g|] Hg]; [exfalso|done].
  apply ShareGrant_some_iff in Hg as (l1 & r & l2 & Hc & Hperm & _ & Hlive).
  assert (Hin : k ∈ (l1 ++ (RootID g, r) :: l2)%list.*1) by (by apply (chain_below _ _ _ _ Hc)).
  apply list_elem_of_fmap in Hin as ([k0 r0] & E & Hin). simpl in E. subst k0.
  pose proof (chain_lookup _ _ _ _ _ Hc Hin) as Hk0. rewrite Hk in Hk0. injection Hk0 as <-.
  rewrite Forall_forall in Hlive.
  apply elem_of_app in Hin as [Hin|[E|Hin]%elem_of_cons].
  - specialize (Hlive (k, rk)). simpl in Hlive. rewrite Hlive in Hdel; [done|]. apply elem_of_app. by left.
  - injection E as -> ->. specialize (Hlive (RootID g, r)). simpl in Hlive. rewrite Hlive in Hdel; [done|].
    apply elem_of_app. right. by apply list_elem_of_singleton.
  - assert (Hroot : is_Some (nodes d !! RootID g)).
    { exists r. eapply chain_lookup; [exact Hc|]. apply elem_of_app. right. by left. }
    pose proof (chain_suffix _ _ _ _ _ _ _ Hc eq_refl) as Hs. pose proof (chain_NoDup _ _ _ Hs) as Hnd.
    assert (Hinl : k ∈ l2.*1) by (apply list_elem_of_fmap; by exists (k, rk)).
    rewrite (Hno (RootID g)) in Hperm; [done|..].
    + apply (chain_below _ _ _ _ Hc Hroot). rewrite fmap_app. apply elem_of_app. right. by left.
    + apply (chain_below _ _ _ _ Hs); [by exists rk|]. by right.
    + intros E. simpl in Hnd. rewrite E in Hnd. by apply NoDup_cons in Hnd as [? _].
Qed.

(** Deleting a node cuts off everyone who reached it through a share at or
    above it: after a fresh, successful [Delete] no other account that has no
    share of its own strictly inside the subtree can read any node of it. *)
Theorem Delete_revokes u dev k op rv d d' v k' n :
  forest (nodes d) -> replayIfProcessed op u "NODE_DELETE" d = Ok None ->
  Delete clk u dev k op rv d = (Ok tt, d') -> below (nodes d') k' k ->
  (forall r, nodes d !! k = Some r -> node_owner_id r <> v) ->
  (forall a, below (nodes d') k' a -> below (nodes d') a k -> a <> k -> active_permission v a d = None) ->
  Get v k' d' <> Ok n.
Proof.
  intros Hf Hfresh H Hb Hv Hno Hget. unfold Delete in H. inv_ok H.
  apply deleteTx_inv in H as [[_ [x Hrep]]|(r & r' & Hr & _ & _ & _ & Hdel & Hp & (Ho & Hty & _) & He & _)];
    [congruence|].
  pose proof (eff_nodes _ _ _ _ _ He) as En.
  assert (Hf' : forest (nodes d')).
  { rewrite En. apply forest_insert; [done|intros r0 Hr0; by simplify_eq|]. intros p Hp'. left. exists r. split; congruence. }
  assert (Hk : nodes d' !! k = Some r') by (by rewrite En, lookup_insert_eq).
  apply Get_ok_inv in Hget as (rk' & Hrk' & _ & [Hown|[_ [g Hg]]]).
  - destruct (below_exists _ _ _ _ (proj2 Hf') Hb Hrk') as (rb & Hrb & Howner). rewrite Hk in Hrb. injection Hrb as <-.
    apply (Hv _ Hr). congruence.
  - erewrite deleted_cuts_grant in Hg; [done|exact Hf'|exact Hk|unfold IsDeleted; by rewrite Hdel|exact Hb|].
    intros b Hb' Hbk Hne. unfold active_permission. rewrite (eff_shares _ _ _ _ _ He). by apply Hno.
Qed.

(** ** Shared folders stay disjoint *)

(** No folder with a key strictly below another one. *)
Definition keyed_disjoint (d : DB) : Prop := forall a b,
  below (nodes d) a b -> a <> b -> has_folder_key a d = true -> has_folder_key b d = true -> False.

Lemma effect_keys d k r' op d' f : effect d k r' op d' -> has_folder_key f d' = has_folder_key f d.
Proof. intros He. unfold has_folder_key. by rewrite (eff_keys _ _ _ _ _ He). Qed.

Lemma effect_same_link d k r r' op d' a b :
  effect d k r' op d' -> nodes d !! k = Some r ->
  node_parent_id r' = node_parent_id r \/ node_parent_id r' = None ->
  below (nodes d') a b -> below (nodes d) a b.
Proof.
  intros He Hk Hp Hb. rewrite (eff_nodes _ _ _ _ _ He) in Hb.
  apply below_insert in Hb as [Hb|[Hak (p & Hp' & Hpb)]]; [done|].
  destruct Hp as [Hp|Hp]; [|congruence]. eapply below_trans; [exact Hak|].
  apply rtc_l with p; [|done]. exists r. split; congruence.
Qed.

Lemma node_step_keyed_disjoint u d d' :
  node_step u d d' -> forest (nodes d) -> keys_ok d -> keyed_disjoint d ->
  (forall k, nodes d !! k = None -> is_Some (nodes d' !! k) -> has_folder_key k d = false) -> keyed_disjoint d'.
Proof.
  intros Hs Hf Hkeys Hdisj Hnew a b Hab Hne Ha Hb.
  destruct Hs as [k r' He _ Hk _ _ _|k r r' op He _ _ Hk _ _ _ Hp|k r r' He _ Hk _ _ _ _ Hp|k r r' He _ Hk _ _ Hp _].
  all: rewrite (effect_keys _ _ _ _ _ a He) in Ha; rewrite (effect_keys _ _ _ _ _ b He) in Hb.
  - rewrite (eff_nodes _ _ _ _ _ He) in Hab. apply below_insert in Hab as [Hab|[Hak _]]; [by eapply Hdisj|].
    assert (a = k) as ->.
    { apply rtc_inv_r in Hak as [->|(y & _ & (ry & Hy & Hpy))]; [done|].
      destruct (proj2 Hf _ _ _ Hy Hpy) as (? & ? & _). congruence. }
    rewrite Hnew in Ha; [done|done|]. by rewrite (eff_nodes _ _ _ _ _ He), lookup_insert_eq.
  - destruct Hp as [Hp|Hp]; [eapply Hdisj; [by eapply effect_same_link; eauto|done..]|].
    rewrite (eff_nodes _ _ _ _ _ He) in Hab. apply below_insert in Hab as [Hab|[Hak (p & Hp' & Hpb)]]; [by eapply Hdisj|].
    destruct (Hp p Hp') as [_ Hd]. by apply (Hd Hf Hkeys a b).
  - eapply Hdisj; [by eapply effect_same_link; eauto|done..].
  - eapply Hdisj; [by eapply effect_same_link; eauto|done..].
Qed.

(** Shared folders stay disjoint: no request makes a folder with a key end
    up below another one, as long as a node it creates does not reuse the
    identifier of a folder key that outlived its folder. *)
Theorem handle_keeps_disjoint q d r d' :
  forest (nodes d) -> keys_ok d -> keyed_disjoint d ->
  (forall k, nodes d !! k = None -> is_Some (nodes d' !! k) -> has_folder_key k d = false) ->
  handle clk q d = (r, d') -> keyed_disjoint d'.
Proof.
  intros Hf Hkeys Hdisj Hnew [->|[Hs|Hs]]%handle_cases; [done|by eapply node_step_keyed_disjoint|].
  clear Hf Hkeys Hnew. induction Hs as [d|d d1 d' (k & r1 & r1' & He & _ & Hk & _ & _ & Hp & _) _ IH]; [done|].
  apply IH. intros a b Hab Hne Ha Hb. rewrite (effect_keys _ _ _ _ _ a He) in Ha. rewrite (effect_keys _ _ _ _ _ b He) in Hb.
  eapply Hdisj; [|exact Hne|exact Ha|exact Hb]. eapply effect_same_link; eauto.
Qed.
End retry.

(** ** Concrete runs *)

Lemma family_keyed_ok : vault_ok family_keyed.
Proof. apply vault_okb_sound. vm_compute. reflexivity. Qed.

Definition after_rename : DB := (Update (ticking noon) rename_id2 family_keyed).2.
Definition handled : DB := (handle (ticking noon) (RUpdate rename_id2) family_keyed).2.

Lemma rename_ok : exists n, Update (ticking noon) rename_id2 family_keyed = (Ok n, after_rename).
Proof. apply (run_ok (Update (ticking noon) rename_id2)). vm_compute. reflexivity. Qed.

Lemma handle_retry_witness : exists ns,
  handle (ticking noon) (RUpdate rename_id2) family_keyed = (Ok ns, handled) /\
  handle (ticking noon) (RUpdate rename_id2) handled = (Ok ns, handled).
Proof.
  destruct (run_ok (handle (ticking noon) (RUpdate rename_id2)) family_keyed) as [ns H]; [vm_compute; reflexivity|].
  exists ns. split; [exact H|].
  exact (handle_retry (ticking noon) (RUpdate rename_id2) _ _ _ family_keyed_ok eq_refl H).
Defined.

Lemma Update_correct_witness : exists n r', Update (ticking noon) rename_id2 family_keyed = (Ok n, after_rename) /\
  nodes after_rename = <[id2 := r']> (nodes family_keyed).
Proof.
  destruct rename_ok as [n H].
  destruct (Update_correct (ticking noon) rename_id2 family_keyed n after_rename) as (r & r' & ? & ? & ? & ? & ? & ? & E & _).
  - vm_compute. reflexivity.
  - exact H.
  - exists n, r'. split; [exact H|exact E].
Defined.

(** Alice renames the same folder, unaware of Bob's change. *)
Definition rival : UpdateInput := MkUpdateInput alice laptop op3 id2 2 [x08] 1 "" false None.

Lemma Update_no_lost_update_witness : exists e, Update (ticking noon) rival after_rename = (Err e, after_rename).
Proof.
  destruct rename_ok as [n H].
  apply (Update_no_lost_update (ticking noon) rename_id2 rival family_keyed n after_rename family_keyed_ok);
    [vm_compute; reflexivity|exact H|vm_compute; reflexivity..].
Defined.

Definition rekey_id2 : RekeyInput :=
  MkRekeyInput alice laptop [MkRekeyItem id2 2 [x09] 1 id1 []; MkRekeyItem id3 3 [x09] 1 id1 []].
Definition rekeyed : DB := (Rekey (ticking noon) rekey_id2 family_keyed).2.

Lemma Rekey_retry_conflicts_witness :
  Rekey (ticking noon) rekey_id2 rekeyed = (Err (ENodes NodesErrRevisionConflict), rekeyed) /\
  sync_sequence rekeyed = 6%Z.
Proof.
  destruct (run_ok (Rekey (ticking noon) rekey_id2) family_keyed) as [ns H]; [vm_compute; reflexivity|].
  split; [|vm_compute; reflexivity].
  exact (Rekey_retry_conflicts (ticking noon) rekey_id2 family_keyed ns _ family_keyed_ok H).
Defined.

(** [id2] goes to Trash, then [id4], which was in Trash inside it, is restored. *)
Definition id2_deleted : DB := (Delete (ticking noon) bob phone id2 op2 2 family_keyed).2.
Definition id4_restored : DB := (Restore (ticking noon) alice laptop id4 op3 id2_deleted).2.

Lemma Restore_visible_witness : exists r' path,
  chain (nodes id4_restored) id4 ((id4, r') :: path) /\ node_parent_id <$> nodes id4_restored !! id4 = Some None.
Proof.
  destruct (run_ok (Restore (ticking noon) alice laptop id4 op3) id2_deleted) as [n H]; [vm_compute; reflexivity|].
  destruct (Restore_visible (ticking noon) alice laptop id4 op3 id2_deleted n id4_restored)
    as (r & r' & path & _ & _ & _ & _ & _ & Hc & _);
    [apply forestb_sound; vm_compute; reflexivity|vm_compute; reflexivity|exact H|].
  exists r', path. split; [exact Hc|vm_compute; reflexivity].
Defined.

Lemma Delete_revokes_witness :
  is_ok (Get bob id3 family_keyed) = true /\ forall n, Get bob id3 id2_deleted <> Ok n.
Proof.
  split; [vm_compute; reflexivity|]. intros n.
  apply (Delete_revokes (ticking noon) bob phone id2 op2 2 family_keyed id2_deleted bob id3 n).
  - apply forestb_sound. vm_compute. reflexivity.
  - vm_compute. reflexivity.
  - destruct (run_ok (Delete (ticking noon) bob phone id2 op2 2) family_keyed) as [[] H]; [vm_compute; reflexivity|exact H].
  - apply rtc_once. eexists. split; vm_compute; reflexivity.
  - intros r Hr. vm_compute in Hr. injection Hr as <-. vm_compute. discriminate.
  - intros a _ Hb Hne. apply active_permission_none. intros k s Hk Hn _ _.
    change (shares family_keyed) with ({[ op1 := grant id1 bob "READ_WRITE" ]} : gmap string share_row) in Hk.
    apply lookup_singleton_Some in Hk as [_ <-]. simpl in Hn. subst a.
    apply rtc_inv in Hb as [E|(y & (r & Hr & Hp) & _)]; [vm_compute in E; discriminate E|].
    vm_compute in Hr. injection Hr as <-. discriminate Hp.
Defined.

Lemma family_folder_key f v key :
  folder_keys family_keyed !! (f, v) = Some key -> f = id1 /\ key = FolderKey alice [x05] t0 laptop.
Proof.
  change (folder_keys family_keyed) with ({[ (id1, 1%Z) := FolderKey alice [x05] t0 laptop ]} : gmap (string * Z) folder_key_row).
  intros H. apply lookup_singleton_Some in H as [E <-]. by injection E as <- _.
Qed.

Lemma handle_keeps_disjoint_witness :
  keyed_disjoint handled.
Proof.
  apply (handle_keeps_disjoint (ticking noon) (RUpdate rename_id2) family_keyed _ _
           (vault_forest _ family_keyed_ok)) with (4 := surjective_pairing _).
  - split; [intros v; destruct (folder_keys family_keyed !! ("", v)) eqn:E; [|done]; by apply family_folder_key in E as [? _]|].
    intros f v key r Hk Hr. apply family_folder_key in Hk as [-> ->]. vm_compute in Hr. by injection Hr as <-.
  - intros a b _ Hne Ha Hb. apply has_folder_key_true in Ha as (v & r & Ha), Hb as (w & s & Hb).
    apply family_folder_key in Ha as [-> _], Hb as [-> _]. done.
  - intros k Hk _. apply not_true_iff_false. intros HF. apply has_folder_key_true in HF as (v & r & HF).
    apply family_folder_key in HF as [-> _]. vm_compute in Hk. discriminate Hk.
Defined.
