(* ===== verification/NodesPaging.v ===== *)
(** * Keyset pagination of directory listings

    [listPage] orders rows by [(created_at, id)] and continues after a cursor
    that carries the stored text of both.  [follow] is a client that requests
    page after page. *)

From S2P Require Import Prelude GoText GoTime Uuid Schema Fixture Access Nodes.
From Stdlib Require Import Ascii.
Local Open Scope string_scope.

(** ** The order of rows *)

Lemma text_lt_irrefl a : text_lt a a = false.
Proof. apply not_true_iff_false. rewrite text_lt_compare, compare_refl. done. Qed.

Lemma text_lt_trans a b c : text_lt a b = true -> text_lt b c = true -> text_lt a c = true.
Proof. rewrite !text_lt_compare. apply compare_lt_trans. Qed.

Lemma key_le_iff a b : key_le a b = true <-> text_lt a.1 b.1 = true \/ (a.1 = b.1 /\ text_le a.2 b.2 = true).
Proof. unfold key_le. by rewrite orb_true_iff, andb_true_iff, String.eqb_eq. Qed.

Lemma key_lt_iff a b : key_lt a b = true <-> text_lt a.1 b.1 = true \/ (a.1 = b.1 /\ text_lt a.2 b.2 = true).
Proof. unfold key_lt. by rewrite orb_true_iff, andb_true_iff, String.eqb_eq. Qed.

Lemma key_le_total a b : key_le a b = true \/ key_le b a = true.
Proof.
  rewrite !key_le_iff. destruct (text_le_total a.1 b.1) as [H|H]; apply text_le_lteq in H as [H|H]; auto.
  - rewrite H. destruct (text_le_total a.2 b.2); auto.
  - rewrite H. destruct (text_le_total a.2 b.2); auto.
Qed.

Lemma key_le_trans a b c : key_le a b = true -> key_le b c = true -> key_le a c = true.
Proof.
  rewrite !key_le_iff. intros [H|[E H]] [H'|[E' H']].
  - left. by eapply text_lt_trans.
  - left. by rewrite <- E'.
  - left. by rewrite E.
  - right. split; [congruence|]. by eapply text_le_trans.
Qed.

Lemma key_lt_irrefl a : key_lt a a = false.
Proof. apply not_true_iff_false. rewrite key_lt_iff, !text_lt_irrefl. naive_solver. Qed.

Lemma key_le_lt a b : key_le a b = true -> a <> b -> key_lt a b = true.
Proof.
  rewrite key_le_iff, key_lt_iff, text_le_lteq. destruct a as [a1 a2], b as [b1 b2]; simpl.
  intros [H|[-> [H| ->]]]; auto; congruence.
Qed.

Lemma key_lt_le_false a b : key_le a b = true -> key_lt b a = false.
Proof.
  rewrite key_le_iff. intros H. apply not_true_iff_false. rewrite key_lt_iff.
  rewrite text_le_negb_lt in H. destruct H as [H|[E H]], 1 as [H'|[E' H']].
  - pose proof (text_lt_trans _ _ _ H H') as HF. by rewrite text_lt_irrefl in HF.
  - rewrite E', text_lt_irrefl in H. done.
  - rewrite E, text_lt_irrefl in H'. done.
  - by rewrite H' in H.
Qed.

Section paging.
Context {U : UuidLib} {UL : UuidLaws U} {TP : TimeParser}.

(** ** Cursors *)

(** The page cursor is read back exactly as it was written, for every
    creation time the server can store. *)
Theorem decodeCursor_encodeCursor t id :
  four_digit_year t -> ValidUUID id = true ->
  decodeCursor (encodeCursor (Format t) id) = Ok (Format t, id).
Proof.
  intros Ht Hid. unfold decodeCursor, encodeCursor. rewrite b64_decode_encode.
  change (Format t ++ "|" ++ id) with (Format t ++ String "|"%char id).
  rewrite Cut_app by (by apply no_char_Format). rewrite (ValidUUID_validate _ Hid). simpl.
  by rewrite Parse_Format.
Qed.

Lemma encodeCursor_nonempty t id : String.eqb (encodeCursor t id) "" = false.
Proof.
  destruct (String.eqb_spec (encodeCursor t id) "") as [E|]; [|done]. exfalso. unfold encodeCursor in E.
  pose proof (b64_decode_encode (t ++ "|" ++ id)) as Hd. rewrite E in Hd. simpl in Hd. injection Hd as Hd.
  apply (f_equal String.length) in Hd. rewrite length_app_string in Hd. simpl in Hd. lia.
Qed.

(** ** Pages *)

(** What a listing relies on: distinct identifiers and timestamps the server
    wrote. *)
Definition rows_ok (base : list (string * node_row)) : Prop :=
  NoDup base.*1 /\
  Forall (fun kr => ValidUUID kr.1 = true /\
    (exists t, four_digit_year t /\ node_created_at kr.2 = Format t) /\
    is_ok (scanNodeWithCreatedAt kr.1 kr.2) = true) base.

Definition sorted_rows (base : list (string * node_row)) : list (string * node_row) :=
  order_by (fun a b => key_le (row_key a) (row_key b)) base.

Definition scan_row (kr : string * node_row) : result (Node * string) := scanNodeWithCreatedAt kr.1 kr.2.

Lemma scan_row_inv kr n t : scan_row kr = Ok (n, t) -> ID n = kr.1 /\ t = node_created_at kr.2.
Proof. unfold scan_row, scanNodeWithCreatedAt. intros H. inv_ok H. by simplify_eq. Qed.

(** One page, given the ordered rows that remain. *)
Definition page_of (limit : Z) (scanned : list (Node * string)) : list Node * string :=
  if (Z.of_nat (length scanned) <=? limit)%Z then (map fst scanned, "")
  else let kept := take (Z.to_nat limit) scanned in
       match last kept with
       | Some (n, createdAt) => (map fst kept, encodeCursor createdAt (ID n))
       | None => (map fst kept, "")
       end.

Definition remaining (base : list (string * node_row)) (after : option (string * string)) :=
  match after with
  | None => base
  | Some k => List.filter (fun kr => key_lt k (row_key kr)) base
  end.

Lemma listPage_limit base limit after cursor scanned :
  (1 <= limit <= MaxPageSize)%Z ->
  (if String.eqb cursor "" then Ok None else k ← decodeCursor cursor; Ok (Some k)) = Ok after ->
  rmap scan_row (sorted_rows (remaining base after)) = Ok scanned ->
  listPage base (MkPageRequest limit cursor) = Ok (page_of limit scanned).
Proof.
  intros Hl Hc Hs. unfold listPage. simpl.
  destruct (limit <? 0)%Z eqn:E1; [lia|]. destruct (MaxPageSize <? limit)%Z eqn:E2; [lia|]. simpl.
  rewrite Hc. simpl. destruct (0 <? limit)%Z eqn:E3; [|lia]. fold (remaining base after).
  change (order_by _ (match after with Some k => _ | None => _ end)) with (sorted_rows (remaining base after)).
  change (fun kr : string * node_row => scanNodeWithCreatedAt kr.1 kr.2) with scan_row.
  rewrite (rmap_take _ _ _ _ Hs). simpl. destruct (limit =? 0)%Z eqn:E4; [lia|]. simpl. unfold page_of.
  rewrite length_take. destruct (Z.of_nat (length scanned) <=? limit)%Z eqn:E5.
  - apply Z.leb_le in E5. rewrite take_ge by lia. by rewrite (proj2 (Z.leb_le _ _)) by lia.
  - apply Z.leb_gt in E5. rewrite (proj2 (Z.leb_gt _ _)) by lia. rewrite take_take. replace (_ `min` _)%nat with (Z.to_nat limit) by lia.
    by destruct (last _) as [[n t]|].
Qed.
(** A client that follows the cursor until it is empty. *)
Fixpoint follow (fuel : nat) (base : list (string * node_row)) (limit : Z) (cursor : string) : result (list Node) :=
  match fuel with
  | O => Err Diverges
  | S f =>
      page ← listPage base (MkPageRequest limit cursor);
      if String.eqb page.2 "" then Ok page.1
      else rest ← follow f base limit page.2; Ok (page.1 ++ rest)%list
  end.

Lemma sorted_rows_perm base : sorted_rows base ≡ₚ base.
Proof. apply order_by_perm. Qed.

Lemma sorted_rows_sorted base : StronglySorted (fun a b => key_le (row_key a) (row_key b)) (sorted_rows base).
Proof.
  apply (order_by_sorted (fun a b : string * node_row => key_le (row_key a) (row_key b))).
  - intros x y. apply key_le_total.
  - intros x y z. apply key_le_trans.
Qed.

(** The rows after the cursor of a row are the rows that follow it. *)
Lemma remaining_after base A x B :
  NoDup base.*1 -> sorted_rows base = (A ++ x :: B)%list ->
  sorted_rows (remaining base (Some (row_key x))) = B.
Proof.
  intros Hnd E. unfold remaining, sorted_rows. rewrite <- order_by_filter.
  2: { intros a b. apply key_le_total. } 2: { intros a b c. apply key_le_trans. }
  fold (sorted_rows base). rewrite E.
  assert (Hnd' : NoDup (A ++ x :: B)%list.*1) by (rewrite <- E; by rewrite (sorted_rows_perm base)).
  pose proof (sorted_rows_sorted base) as Hs. rewrite E in Hs.
  apply StronglySorted_app in Hs as (Hle & _ & HB). apply StronglySorted_cons in HB as [HxB _].
  rewrite fmap_app in Hnd'. simpl in Hnd'. apply NoDup_app in Hnd' as (_ & _ & Hnd'). apply NoDup_cons in Hnd' as [HxB' _].
  rewrite List.filter_app. simpl. rewrite key_lt_irrefl.
  assert (HA : List.filter (fun kr => key_lt (row_key x) (row_key kr)) A = []).
  { clear -Hle. induction A as [|a A IH]; [done|]. simpl. rewrite key_lt_le_false.
    - apply IH. intros y z Hy Hz. apply Hle; [by right|done].
    - apply Is_true_true. apply (Hle a x); by left. }
  rewrite HA. simpl. clear -HxB HxB'. induction B as [|b B IH]; [done|]. simpl in *.
  apply Forall_cons in HxB as [Hb HB]. apply not_elem_of_cons in HxB' as [Hne Hn].
  rewrite key_le_lt; [by rewrite IH|by apply Is_true_true|]. intros Hk. apply Hne. unfold row_key in Hk. congruence.
Qed.

Lemma follow_from base limit fuel A B cursor after scanned :
  rows_ok base -> (1 <= limit <= MaxPageSize)%Z -> sorted_rows base = (A ++ B)%list ->
  (if String.eqb cursor "" then Ok None else k ← decodeCursor cursor; Ok (Some k)) = Ok after ->
  sorted_rows (remaining base after) = B -> rmap scan_row B = Ok scanned -> length B < fuel ->
  follow fuel base limit cursor = Ok (map fst scanned).
Proof.
  intros [Hnd Hrows] Hl. revert A B cursor after scanned.
  induction fuel as [|fuel IH]; intros A B cursor after scanned E Hc HB Hs Hf; [lia|].
  simpl. rewrite (listPage_limit _ _ _ _ scanned Hl Hc) by (by rewrite HB). simpl.
  pose proof (rmap_length _ _ _ Hs) as Hlen. unfold page_of.
  destruct (Z.leb_spec (Z.of_nat (length scanned)) limit) as [Hle|Hgt]; [done|].
  set (n := Z.to_nat limit). assert (Hn : 1 <= n < length B) by lia.
  destruct (lookup_lt_is_Some_2 B (n - 1)) as [x Hx]; [lia|].
  pose proof (take_drop_middle _ _ _ Hx) as Hsplit. replace (S (n - 1)) with n in Hsplit by lia.
  assert (Hs' : rmap scan_row (take (n - 1) B ++ x :: drop n B) = Ok scanned) by (by rewrite Hsplit).
  apply rmap_app_inv in Hs' as (s1 & s2 & Hs1 & Hs2 & ->). simpl in Hs2. inv_ok Hs2. subst s2.
  match goal with HX : scan_row x = Ok ?y, HD : rmap scan_row (drop n B) = Ok ?ss |- _ =>
    destruct y as [nd t]; rename ss into s3; destruct (scan_row_inv _ _ _ HX) as [Hid ->]; rename HD into Hs3 end.
  assert (Hl1 : length s1 = n - 1) by (rewrite (rmap_length _ _ _ Hs1), length_take; lia).
  assert (Htake : take n (s1 ++ (nd, node_created_at x.2) :: s3)%list = (s1 ++ [(nd, node_created_at x.2)])%list).
  { rewrite take_app_ge by lia. rewrite Hl1. replace (n - (n - 1)) with 1 by lia. done. }
  fold n. rewrite Htake, last_snoc. simpl. rewrite encodeCursor_nonempty.
  assert (HxB : x ∈ base).
  { rewrite <- (sorted_rows_perm base), E. apply elem_of_app. right. by eapply list_elem_of_lookup_2. }
  rewrite Forall_forall in Hrows. destruct (Hrows x HxB) as (Hu & (tt_ & Ht & Etext) & _).
  assert (E' : sorted_rows base = ((A ++ take (n - 1) B) ++ x :: drop n B)%list)
    by (rewrite E, <- app_assoc; f_equal; by symmetry).
  rewrite (IH ((A ++ take (n - 1) B) ++ [x])%list (drop n B) _ (Some (row_key x)) s3).
  - simpl. rewrite !map_app. simpl. by rewrite <- app_assoc.
  - by rewrite <- app_assoc.
  - rewrite encodeCursor_nonempty, Hid, Etext. unfold decodeCursor, encodeCursor. rewrite b64_decode_encode.
    change (Format tt_ ++ "|" ++ x.1) with (Format tt_ ++ String "|"%char x.1).
    rewrite Cut_app by (by apply no_char_Format). rewrite (ValidUUID_validate _ Hu). simpl.
    rewrite Parse_Format by done. simpl. unfold row_key. by rewrite Etext.
  - by eapply remaining_after.
  - done.
  - rewrite length_drop. lia.
Qed.

(** C31. Pagination is complete: whatever the page size, following the cursor
    from the first page ends and returns exactly the unpaginated listing,
    every row once and in order. *)
Theorem follow_complete base limit :
  rows_ok base -> (1 <= limit <= MaxPageSize)%Z ->
  exists all, listPage base (MkPageRequest 0 "") = Ok (all, "") /\
    length all = length base /\ follow (S (length base)) base limit "" = Ok all.
Proof.
  intros Hok Hl. pose proof Hok as [_ Hrows].
  destruct (rmap_all_ok scan_row (sorted_rows base)) as [scanned Hs].
  { rewrite (sorted_rows_perm base). eapply Forall_impl; [exact Hrows|]. by intros kr (_ & _ & ?). }
  pose proof (rmap_length _ _ _ Hs) as Hlen. rewrite (Permutation_length (sorted_rows_perm base)) in Hlen.
  exists (map fst scanned). split_and!.
  - unfold listPage. simpl. change (rmap _ (order_by _ base)) with (rmap scan_row (sorted_rows base)). by rewrite Hs.
  - by rewrite length_map.
  - eapply (follow_from base limit _ [] (sorted_rows base) "" None); try done.
    rewrite (Permutation_length (sorted_rows_perm base)). lia.
Qed.
End paging.

Lemma decodeCursor_encodeCursor_witness :
  decodeCursor (encodeCursor (Format noon) id1) = Ok ("2024-01-01T12:00:00Z", id1).
Proof.
  apply (decodeCursor_encodeCursor noon id1); [unfold four_digit_year; vm_compute; split; [discriminate|reflexivity]|].
  vm_compute. reflexivity.
Defined.

(** Three entries of one folder, in two pages. *)
Definition three_entries : list (string * node_row) :=
  [(id3, entry alice (Some id1) "FILE" 3 None); (id1, entry alice (Some id1) "FILE" 1 None);
   (id2, entry alice (Some id1) "FILE" 2 None)].

Lemma follow_complete_witness : exists all,
  follow 4 three_entries 2 "" = Ok all /\ map ID all = [id1; id2; id3].
Proof.
  destruct (follow_complete three_entries 2) as (all & _ & _ & H).
  - split; [apply (bool_decide_unpack _); vm_compute; reflexivity|].
    assert (Ht : exists t, four_digit_year t /\ t0 = Format t).
    { exists (1704067200 * Second)%Z. split; [unfold four_digit_year; vm_compute; split; [discriminate|reflexivity]|].
      vm_compute. reflexivity. }
    repeat apply Forall_cons_2; try apply Forall_nil_2; (split; [vm_compute; reflexivity|split; [exact Ht|vm_compute; reflexivity]]).
  - vm_compute. split; discriminate.
  - exists all. split; [exact H|]. vm_compute in H. injection H as <-. vm_compute. reflexivity.
Defined.
