(* ===== verification/Sync.v ===== *)
(** * Package internal/sync: the change feed

    Models [internal/sync/service.go].  [Changes] is the whole method;
    [LIMIT] with a negative bound means no bound, as in SQLite, and slicing
    with a negative bound panics, as in Go.  [sync_step] lets writers append
    to the feed between a client's requests. *)

From S2P Require Import Prelude GoText GoTime Uuid Schema Fixture.
Local Open Scope string_scope.

Record Change := MkChange {
  Change_Revision : Z;
  Change_NodeID : option string;
  Change_Operation : string;
  Change_Payload : list byte;
  Change_CreatedAt : Z;
}.

Record Page := MkPage {
  Page_Changes : list Change;
  NextAfter : Z;
  HasMore : bool;
}.

Record Service := New { defaultSize : Z; maxSize : Z }.

(** [LIMIT n]. *)
Definition sql_limit {A} (n : Z) (l : list A) : list A := if (n <? 0)%Z then l else take (Z.to_nat n) l.

(** The rows of one account after a revision; the table is in revision order. *)
Definition feed_after (userID : string) (after : Z) (rows : list sync_row) : list sync_row :=
  List.filter (fun r => String.eqb (sync_user_scope_id r) userID && (after <? sync_revision r)%Z) rows.

Section sync.
Context {TP : TimeParser}.

Definition scanChange (r : sync_row) : result Change :=
  created ← Parse (sync_created_at r);
  Ok (MkChange (sync_revision r) (Some (sync_node_id r)) (sync_operation r) (sync_payload_ciphertext r) created).

Definition page_size (s : Service) (pageSize : Z) : Z :=
  let p := if (pageSize <=? 0)%Z then defaultSize s else pageSize in
  if (maxSize s <? p)%Z then maxSize s else p.

Definition Changes (s : Service) (userID : string) (afterRevision pageSize : Z) (d : DB) : result Page :=
  if (afterRevision <? 0)%Z then Err SyncErrInvalidCursor
  else
    let size := page_size s pageSize in
    changes ← rmap scanChange (sql_limit (size + 1) (feed_after userID afterRevision (sync_changes d)));
    kept ← (if (size <? Z.of_nat (length changes))%Z then
              if (size <? 0)%Z then Err (Internal "slice bounds out of range")
              else Ok (take (Z.to_nat size) changes, true)
            else Ok (changes, false));
    Ok (MkPage kept.1 (match last kept.1 with Some c => Change_Revision c | None => afterRevision end) kept.2).

(** ** A client that follows the feed while others write *)

Record follower := MkFollower { seen_db : DB; cursor : Z; received : list Change }.

Definition appends (d d' : DB) : Prop :=
  exists new, sync_changes d' = (sync_changes d ++ new)%list /\
    StronglySorted (fun a b => (sync_revision a < sync_revision b)%Z) (sync_changes d') /\
    Forall (fun c => (sync_sequence d < sync_revision c <= sync_sequence d')%Z) new /\
    (sync_sequence d <= sync_sequence d')%Z.

Inductive sync_step (s : Service) (userID : string) : follower -> follower -> Prop :=
| sync_poll d c got size page :
    Changes s userID c size d = Ok page ->
    sync_step s userID (MkFollower d c got) (MkFollower d (NextAfter page) (got ++ Page_Changes page))
| sync_write d d' c got :
    appends d d' -> sync_step s userID (MkFollower d c got) (MkFollower d' c got).

(** The rows of the account up to a revision. *)
Definition feed_upto (userID : string) (upto : Z) (rows : list sync_row) : list sync_row :=
  List.filter (fun r => String.eqb (sync_user_scope_id r) userID && (sync_revision r <=? upto)%Z) rows.

Definition feed_sorted (d : DB) : Prop :=
  StronglySorted (fun a b => (sync_revision a < sync_revision b)%Z) (sync_changes d) /\
  Forall (fun c => (1 <= sync_revision c <= sync_sequence d)%Z) (sync_changes d).

(** What the follower has is the feed up to its cursor. *)
Definition caught_up (userID : string) (f : follower) : Prop :=
  feed_sorted (seen_db f) /\ (0 <= cursor f <= sync_sequence (seen_db f))%Z /\
  rmap scanChange (feed_upto userID (cursor f) (sync_changes (seen_db f))) = Ok (received f).

(** ** Lemmas *)

Lemma scanChange_revision r c : scanChange r = Ok c -> Change_Revision c = sync_revision r.
Proof. unfold scanChange. intros H. inv_ok H. by subst. Qed.

Lemma rmap_last r l s : rmap scanChange (l ++ [r]) = Ok s -> exists c, last s = Some c /\ Change_Revision c = sync_revision r.
Proof.
  revert s; induction l as [|x l IH]; intros s H; simpl in H; inv_ok H; subst.
  - eexists. split; [done|]. by apply scanChange_revision.
  - match goal with HR : rmap scanChange (l ++ [r]) = Ok ?t |- _ => destruct (IH _ HR) as (c & Hl & Hc);
      destruct t as [|y t]; [done|] end.
    exists c. split; [exact Hl|done].
Qed.

(** Sorted rows split at a revision. *)
Lemma feed_split userID c rows :
  StronglySorted (fun a b => (sync_revision a < sync_revision b)%Z) rows ->
  List.filter (fun r => String.eqb (sync_user_scope_id r) userID) rows =
    (feed_upto userID c rows ++ feed_after userID c rows)%list.
Proof.
  induction 1 as [|r rows Hs IH Hr]; [done|]. unfold feed_upto, feed_after in *. simpl.
  destruct (String.eqb (sync_user_scope_id r) userID); simpl; [|exact IH].
  destruct (Z.leb_spec (sync_revision r) c) as [Hle|Hgt].
  - destruct (Z.ltb_spec c (sync_revision r)); [lia|]. simpl. by rewrite IH.
  - destruct (Z.ltb_spec c (sync_revision r)); [|lia]. simpl.
    assert (E : List.filter (fun r0 => String.eqb (sync_user_scope_id r0) userID && (sync_revision r0 <=? c)%Z) rows = []).
    { clear -Hr Hgt. induction rows as [|x rows IH]; [done|]. apply Forall_cons in Hr as [Hx Hr]. simpl.
      destruct (Z.leb_spec (sync_revision x) c); [lia|]. rewrite andb_false_r. by apply IH. }
    rewrite E in IH. rewrite E, IH. done.
Qed.

Lemma feed_upto_filter userID c rows :
  feed_upto userID c rows =
  List.filter (fun r => (sync_revision r <=? c)%Z) (List.filter (fun r => String.eqb (sync_user_scope_id r) userID) rows).
Proof.
  unfold feed_upto. induction rows as [|r rows IH]; [done|]. simpl.
  destruct (String.eqb (sync_user_scope_id r) userID); simpl; [|exact IH]. by rewrite IH.
Qed.

(** Advancing the cursor past the page [P ++ [p]]. *)
Lemma feed_upto_advance userID c rows P p Q :
  StronglySorted (fun a b => (sync_revision a < sync_revision b)%Z) rows ->
  feed_after userID c rows = (P ++ p :: Q)%list ->
  feed_upto userID (sync_revision p) rows = (feed_upto userID c rows ++ P ++ [p])%list.
Proof.
  intros Hs E. rewrite feed_upto_filter, (feed_split _ c _ Hs), E.
  assert (Hafter : StronglySorted (fun a b => (sync_revision a < sync_revision b)%Z) (P ++ p :: Q)%list)
    by (rewrite <- E; by apply StronglySorted_List_filter).
  apply StronglySorted_app in Hafter as (HPp & _ & HQ). apply StronglySorted_cons in HQ as [HpQ _].
  assert (Hp : (c < sync_revision p)%Z).
  { assert (Hin : p ∈ feed_after userID c rows) by (rewrite E; set_solver).
    apply list_elem_of_In, List.filter_In in Hin as [_ Hin]. apply andb_prop in Hin as [_ ?%Z.ltb_lt]. done. }
  replace (P ++ p :: Q)%list with ((P ++ [p]) ++ Q)%list by (by rewrite <- app_assoc).
  rewrite !List.filter_app, (filter_all _ (feed_upto userID c rows)), (filter_all _ P), (filter_none _ Q).
  - simpl. rewrite (proj2 (Z.leb_le _ _)) by lia. by rewrite app_nil_r.
  - eapply Forall_impl; [exact HpQ|]. intros x Hx. simpl in Hx. apply Z.leb_gt. lia.
  - apply Forall_forall. intros x Hx. apply Z.leb_le. specialize (HPp x p Hx). simpl in HPp.
    specialize (HPp ltac:(by left)). lia.
  - apply Forall_forall. intros x Hx. apply list_elem_of_In, List.filter_In in Hx as [_ Hx].
    apply andb_prop in Hx as [_ ?%Z.leb_le]. apply Z.leb_le. lia.
Qed.

(** What one page returns. *)
Lemma Changes_ok_inv s userID c size d page :
  Changes s userID c size d = Ok page -> (0 <= c)%Z /\
  exists P Q, feed_after userID c (sync_changes d) = (P ++ Q)%list /\ rmap scanChange P = Ok (Page_Changes page) /\
    NextAfter page = match last P with Some r => sync_revision r | None => c end /\
    (HasMore page = false -> Q = []).
Proof.
  unfold Changes. destruct (Z.ltb_spec c 0) as [|Hc]; [done|]. intros H. split; [done|]. inv_ok H.
  set (F := feed_after userID c (sync_changes d)) in *. set (p := page_size s size) in *.
  assert (Hcut : exists P Q, F = (P ++ Q)%list /\ rmap scanChange P = Ok a0.1 /\ (a0.2 = false -> Q = [])).
  { destruct (Z.ltb_spec p (Z.of_nat (length a))) as [Hlt|Hge].
    - destruct (Z.ltb_spec p 0) as [|Hp]; [done|]. injection H1 as <-. simpl.
      unfold sql_limit in H0. destruct (Z.ltb_spec (p + 1) 0); [lia|].
      exists (take (Z.to_nat p) F), (drop (Z.to_nat p) F). split; [by rewrite take_drop|]. split; [|done].
      pose proof (rmap_take _ (Z.to_nat p) _ _ H0) as Ht.
      rewrite take_take in Ht. by replace (Z.to_nat p `min` Z.to_nat (p + 1))%nat with (Z.to_nat p) in Ht by lia.
    - injection H1 as <-. simpl. exists F, []. rewrite app_nil_r. split; [done|]. split; [|done].
      pose proof (rmap_length _ _ _ H0) as Hlen.
      unfold sql_limit in *. destruct (Z.ltb_spec (p + 1) 0); [done|].
      rewrite length_take in Hlen. rewrite take_ge in H0 by lia. done. }
  destruct Hcut as (P & Q & E & HP & HQ). exists P, Q. rewrite <- H. simpl. split_and!; try done.
  destruct P as [|r P' _] using rev_ind.
  - simpl in HP. by injection HP as <-.
  - rewrite last_snoc. destruct (rmap_last _ _ _ HP) as (ch & -> & ->). done.
Qed.

(** ** Theorems *)

Lemma feed_upto_appends userID c rows new :
  Forall (fun r => (c < sync_revision r)%Z) new -> feed_upto userID c (rows ++ new) = feed_upto userID c rows.
Proof.
  intros H. unfold feed_upto. rewrite List.filter_app, (filter_none _ new); [by rewrite app_nil_r|].
  eapply Forall_impl; [exact H|]. intros x Hx. simpl in Hx. rewrite (proj2 (Z.leb_gt _ _) Hx). apply andb_false_r.
Qed.

(** C34. A client that polls with the cursor of its last page never misses or
    repeats a change of its account, however its polls interleave with
    writers appending to the feed: what it has received is always exactly the
    account's feed up to its cursor. *)
Theorem sync_never_misses s userID f f' :
  rtc (sync_step s userID) f f' -> caught_up userID f -> caught_up userID f'.
Proof.
  induction 1 as [f|f f1 f' Hs _ IH]; [done|]. intros Hc. apply IH. clear IH f'.
  destruct Hs as [d c got size page Hp|d d' c got (new & E & Hsort & Hnew & Hseq)];
    destruct Hc as ((Hs & Hb) & Hcur & Hgot); simpl in *.
  - apply Changes_ok_inv in Hp as (_ & P & Q & E & HP & -> & _). split; [done|]. simpl.
    destruct P as [|r P _] using rev_ind.
    + simpl in *. injection HP as <-. by rewrite app_nil_r.
    + rewrite last_snoc. rewrite <- app_assoc in E. simpl in E.
      assert (Hin : r ∈ feed_after userID c (sync_changes d)) by (rewrite E; set_solver).
      apply list_elem_of_In, List.filter_In in Hin as [Hin _]. rewrite Forall_forall in Hb.
      apply list_elem_of_In, Hb in Hin. split; [lia|].
      rewrite (feed_upto_advance _ _ _ _ _ _ Hs E). by apply rmap_app.
  - split; [split; [done|]|]; simpl.
    + rewrite E. apply Forall_app. split.
      * eapply Forall_impl; [exact Hb|]. simpl. lia.
      * eapply Forall_impl; [exact Hnew|]. simpl. lia.
    + split; [lia|]. rewrite E, feed_upto_appends; [done|]. eapply Forall_impl; [exact Hnew|]. simpl. lia.
Qed.

(** A client that asks for page after page until none is left. *)
Fixpoint drain (fuel : nat) (s : Service) (userID : string) (after size : Z) (d : DB) : result (list Change) :=
  match fuel with
  | O => Err Diverges
  | S f =>
      page ← Changes s userID after size d;
      if HasMore page then rest ← drain f s userID (NextAfter page) size d; Ok (Page_Changes page ++ rest)%list
      else Ok (Page_Changes page)
  end.

Lemma Changes_total s userID c size d :
  (0 <= c)%Z -> (1 <= page_size s size)%Z -> Forall (fun r => is_ok (scanChange r) = true) (sync_changes d) ->
  exists page, Changes s userID c size d = Ok page /\
    Page_Changes page <> [] \/ Changes s userID c size d = Ok page /\ HasMore page = false.
Proof.
  intros Hc Hp Hscan. unfold Changes. destruct (Z.ltb_spec c 0); [lia|].
  assert (Hs : Forall (fun r => is_ok (scanChange r) = true) (sql_limit (page_size s size + 1) (feed_after userID c (sync_changes d)))).
  { apply Forall_forall. intros r Hr. rewrite Forall_forall in Hscan. apply Hscan.
    assert (Hr' : r ∈ feed_after userID c (sync_changes d)).
    { unfold sql_limit in Hr. destruct (_ <? 0)%Z; [done|]. by apply elem_of_take in Hr as (j & ? & ?); eapply list_elem_of_lookup_2. }
    apply list_elem_of_In, List.filter_In in Hr' as [? _]. by apply list_elem_of_In. }
  destruct (rmap_all_ok _ _ Hs) as [l Hl]. rewrite Hl. simpl.
  destruct (Z.ltb_spec (page_size s size) (Z.of_nat (length l))).
  - destruct (Z.ltb_spec (page_size s size) 0); [lia|]. simpl. eexists. left. split; [done|]. simpl.
    destruct l as [|x l]; simpl in *; [lia|]. by destruct (Z.to_nat (page_size s size)) eqn:E; [lia|].
  - simpl. eexists. right. done.
Qed.

(** Draining ends and is complete: with a positive page size, following
    [NextAfter] while [HasMore] is set returns exactly the account's whole
    feed, in revision order. *)
Theorem drain_complete s userID size d :
  (1 <= page_size s size)%Z -> feed_sorted d ->
  Forall (fun r => is_ok (scanChange r) = true) (sync_changes d) ->
  exists all, drain (S (length (sync_changes d))) s userID 0 size d = Ok all /\
    rmap scanChange (List.filter (fun r => String.eqb (sync_user_scope_id r) userID) (sync_changes d)) = Ok all.
Proof.
  intros Hp [Hs Hb] Hscan.
  assert (Hdrain : forall fuel c, (0 <= c)%Z -> length (feed_after userID c (sync_changes d)) < fuel ->
    exists rest, drain fuel s userID c size d = Ok rest /\ rmap scanChange (feed_after userID c (sync_changes d)) = Ok rest).
  { induction fuel as [|fuel IH]; intros c Hc Hf; [lia|]. simpl.
    destruct (Changes_total s userID c size d Hc Hp Hscan) as [page Hpage].
    assert (HP : Changes s userID c size d = Ok page) by (destruct Hpage as [[? _]|[? _]]; done). rewrite HP. simpl.
    destruct (Changes_ok_inv _ _ _ _ _ _ HP) as (_ & P & Q & E & HPs & Hnext & Hmore).
    destruct (HasMore page) eqn:Em.
    2: { exists (Page_Changes page). split; [done|]. by rewrite E, (Hmore eq_refl), app_nil_r. }
    destruct Hpage as [[_ Hne]|[_ ?]]; [|congruence].
    destruct P as [|r P _] using rev_ind; [simpl in HPs; congruence|].
    rewrite last_snoc in Hnext.
    assert (Hin : r ∈ feed_after userID c (sync_changes d)) by (rewrite E; set_solver).
    apply list_elem_of_In, List.filter_In in Hin as [_ Hin]. apply andb_prop in Hin as [_ Hin%Z.ltb_lt].
    assert (EQ : feed_after userID (NextAfter page) (sync_changes d) = Q).
    { rewrite Hnext. pose proof (feed_split userID c _ Hs) as S1. pose proof (feed_split userID (sync_revision r) _ Hs) as S2.
      rewrite <- app_assoc in E. simpl in E. rewrite (feed_upto_advance _ _ _ _ _ _ Hs E), S1, E in S2.
      rewrite <- !app_assoc in S2. simpl in S2. apply app_inv_head in S2. apply app_inv_head in S2. by injection S2. }
    destruct (IH (NextAfter page)) as (rest & Hd & Hr); [lia| |].
    { rewrite EQ. rewrite E, !length_app in Hf. simpl in Hf. lia. }
    rewrite Hd. simpl. eexists. split; [done|]. rewrite E. apply rmap_app; [done|]. by rewrite <- EQ. }
  destruct (Hdrain (S (length (sync_changes d))) 0%Z) as (all & Hd & Ha); [lia| |].
  { unfold feed_after. pose proof (List.filter_length_le (fun r => String.eqb (sync_user_scope_id r) userID && (0 <? sync_revision r)%Z) (sync_changes d)). lia. }
  exists all. split; [done|]. rewrite (feed_split userID 0 _ Hs).
  assert (E0 : feed_upto userID 0 (sync_changes d) = []).
  { apply filter_none. eapply Forall_impl; [exact Hb|]. simpl. intros x Hx.
    rewrite (proj2 (Z.leb_gt _ _)) by lia. apply andb_false_r. }
  by rewrite E0.
Qed.
End sync.

Definition server : Service := New 100 500.

Lemma feed_sorted_family : feed_sorted family.
Proof.
  split.
  - repeat constructor.
  - repeat apply Forall_cons_2; try apply Forall_nil_2; vm_compute; split; discriminate.
Qed.

Lemma sync_never_misses_witness : exists page,
  Changes server alice 0 2 family = Ok page /\
  caught_up alice (MkFollower family (NextAfter page) (Page_Changes page)).
Proof.
  destruct (Changes server alice 0 2 family) as [page|e] eqn:E; [|vm_compute in E; discriminate E].
  exists page. split; [done|].
  apply (sync_never_misses server alice (MkFollower family 0 []) (MkFollower family (NextAfter page) ([] ++ Page_Changes page))).
  - apply rtc_once. by eapply sync_poll.
  - split; [apply feed_sorted_family|]. split; [vm_compute; split; discriminate|]. vm_compute. reflexivity.
Defined.

Lemma drain_complete_witness : exists all,
  drain 5 server alice 0 3 family = Ok all /\ map Change_Revision all = [1; 2; 3; 4]%Z.
Proof.
  destruct (drain_complete server alice 3 family) as (all & H & _).
  - vm_compute. discriminate.
  - apply feed_sorted_family.
  - repeat apply Forall_cons_2; try apply Forall_nil_2; vm_compute; reflexivity.
  - exists all. split; [exact H|]. vm_compute in H. injection H as <-. vm_compute. reflexivity.
Defined.
