(* ===== verification/Favorites.v ===== *)
(** * Package internal/favorites

    Models [internal/favorites/service.go]: marking, unmarking and listing the
    nodes an account can see. *)

From S2P Require Import Prelude GoText GoTime Uuid Schema Fixture Access.
Local Open Scope string_scope.

Definition MaxFavorites : nat := Z.to_nat 10000.

Record Favorite := MkFavorite { Favorite_NodeID : string; Favorite_CreatedAt : Z }.

Section favorites.
Context {U : UuidLib} {TP : TimeParser} (clk : nat -> Z).

(** A live node the user owns or reaches through an active share. *)
Definition requireVisible (userID nodeID : string) (d : DB) : result unit :=
  match nodes d !! nodeID with
  | None => Err FavoritesErrNotFound
  | Some r =>
      if IsDeleted r then Err FavoritesErrNotFound
      else if String.eqb (node_owner_id r) userID then Ok tt
      else
        shared ← ShareGrant userID nodeID d;
        match shared with Some _ => Ok tt | None => Err FavoritesErrNotFound end
  end.

Definition favorite_count (userID : string) (d : DB) : nat :=
  count_rows (fun k _ => String.eqb k.1 userID) (favorites d).

Definition Add (userID nodeID : string) : M DB unit :=
  throw_if (negb (ValidUUID userID) || negb (ValidUUID nodeID))
    (NewValidation "user and node IDs must be valid UUIDs") ;;
  tx (
    query (requireVisible userID nodeID) ;;
    count ← query (fun d => Ok (favorite_count userID d));
    throw_if (MaxFavorites <=? count)%nat (NewValidation "too many favorites; remove some first") ;;
    exec (insert_favorites userID nodeID (Format (clk 0)))).

Definition Remove (userID nodeID : string) : M DB unit :=
  throw_if (negb (ValidUUID userID) || negb (ValidUUID nodeID))
    (NewValidation "user and node IDs must be valid UUIDs") ;;
  modify (upd_favorites (delete_rows (fun k _ => String.eqb k.1 userID && String.eqb k.2 nodeID))).

(** [favorites JOIN nodes .. WHERE n.deleted_at IS NULL ORDER BY f.created_at DESC]:
    node, creation text, owner. *)
Definition candidate_rows (userID : string) (d : DB) : list (string * string * string) :=
  order_by (fun a b => text_le b.1.2 a.1.2)
    (omap (fun kv => match nodes d !! kv.1.2 with
                     | Some r => if is_null (node_deleted_at r) then Some (kv.1.2, kv.2, node_owner_id r) else None
                     | None => None
                     end)
       (select_rows (fun k _ => String.eqb k.1 userID) (favorites d))).

Definition scanFavorite (row : string * string * string) : result (Favorite * string) :=
  created ← Parse row.1.2; Ok (MkFavorite row.1.1 created, row.2).

(** The second loop: shared nodes are kept while they are still shared. *)
Fixpoint keepVisible (userID : string) (d : DB) (candidates : list (Favorite * string)) : result (list Favorite) :=
  match candidates with
  | [] => Ok []
  | (f, ownerID) :: rest =>
      keep ← (if negb (String.eqb ownerID userID) then
                shared ← ShareGrant userID (Favorite_NodeID f) d; Ok (is_valid shared)
              else Ok true);
      out ← keepVisible userID d rest;
      Ok (if keep : bool then f :: out else out)
  end.

Definition List (userID : string) (d : DB) : result (list Favorite) :=
  if negb (ValidUUID userID) then Err (NewValidation "user ID must be a valid UUID")
  else
    candidates ← rmap scanFavorite (candidate_rows userID d);
    keepVisible userID d candidates.

(** ** Theorems *)

(** What [requireVisible] accepts. *)
Definition visible (userID nodeID : string) (d : DB) : Prop :=
  exists r, nodes d !! nodeID = Some r /\ IsDeleted r = false /\
    (node_owner_id r = userID \/ exists g, ShareGrant userID nodeID d = Ok (Some g)).

Lemma requireVisible_ok_inv userID nodeID d : requireVisible userID nodeID d = Ok tt -> visible userID nodeID d.
Proof.
  unfold requireVisible, visible. destruct (nodes d !! nodeID) as [r|]; [|done].
  destruct (IsDeleted r) eqn:Ed; [done|]. intros H. exists r. split; [done|]. split; [done|].
  destruct (String.eqb_spec (node_owner_id r) userID); [by left|right].
  inv_ok H. destruct a as [g|]; [eauto|done].
Qed.

Lemma elem_of_candidates userID d n t o :
  (n, t, o) ∈ candidate_rows userID d <->
  favorites d !! (userID, n) = Some t /\ exists r, nodes d !! n = Some r /\ IsDeleted r = false /\ node_owner_id r = o.
Proof.
  unfold candidate_rows. rewrite order_by_perm, list_elem_of_omap. split.
  - intros ([[u n'] t'] & Hin & H). apply elem_of_select_rows in Hin as [Hf E]. simpl in *.
    apply String.eqb_eq in E as ->. destruct (nodes d !! n') as [r|] eqn:Hr; [|done].
    unfold IsDeleted. destruct (node_deleted_at r) eqn:Ed; [done|]. simpl in H. injection H as <- <- <-.
    split; [done|]. exists r. by rewrite Ed.
  - intros (Hf & r & Hr & Hd & <-). exists ((userID, n), t). split.
    + apply elem_of_select_rows. split; [done|]. simpl. by rewrite String.eqb_refl.
    + simpl. rewrite Hr. unfold IsDeleted in Hd. by destruct (node_deleted_at r).
Qed.

Lemma keepVisible_spec userID d cs out :
  keepVisible userID d cs = Ok out ->
  forall f, f ∈ out <-> exists o, (f, o) ∈ cs /\
    (o = userID \/ exists g, ShareGrant userID (Favorite_NodeID f) d = Ok (Some g)).
Proof.
  revert out; induction cs as [|[f0 o0] cs IH]; intros out H f; simpl in H; inv_ok H; subst.
  - split; [by intros ?%elem_of_nil|]. intros (o & Ho & _). by apply elem_of_nil in Ho.
  - match goal with HR : keepVisible _ _ cs = Ok ?l |- _ => specialize (IH _ HR f); rename l into rest end.
    setoid_rewrite elem_of_cons.
    assert (Hkeep : a = true <-> (o0 = userID \/ exists g, ShareGrant userID (Favorite_NodeID f0) d = Ok (Some g))).
    { destruct (String.eqb_spec o0 userID) as [->|Hne]; simpl in H0; inv_ok H0; subst; [naive_solver|].
      match goal with HG : ShareGrant _ _ _ = Ok ?x |- _ => rewrite HG; destruct x as [g|]; simpl end; [split; eauto|].
      split; [done|]. intros [?|[g ?]]; done. }
    clear H0. split.
    + intros Hf. assert (Hf' : (a = true /\ f = f0) \/ f ∈ rest).
      { destruct a; [|by right]. apply elem_of_cons in Hf as [->|]; auto. }
      destruct Hf' as [[Ha ->]|(o & ? & ?)%IH]; [|eauto]. exists o0. split; [by left|]. by apply Hkeep.
    + intros (o & [[= -> ->]|Hin] & Hown).
      * rewrite (proj2 Hkeep Hown). by left.
      * assert (Hf : f ∈ rest) by (apply IH; eauto). destruct a; [by right|done].
Qed.

(** [List] returns exactly the user's stored favorites of nodes that it can
    still see: live nodes that it owns or that an active share reaches. *)
Theorem List_visible userID d out :
  List userID d = Ok out ->
  forall n, (exists f, f ∈ out /\ Favorite_NodeID f = n) <->
    is_Some (favorites d !! (userID, n)) /\ visible userID n d.
Proof.
  unfold List. destruct (ValidUUID userID); [|done]. simpl. intros H. inv_ok H. intros n.
  assert (Hscan : forall f o, (f, o) ∈ a <-> exists t, (Favorite_NodeID f, t, o) ∈ candidate_rows userID d /\
    Parse t = Ok (Favorite_CreatedAt f)).
  { revert H0. generalize (candidate_rows userID d) as rows. clear. intros rows. revert a.
    induction rows as [|[[n t] o'] rows IH]; intros a H f o; simpl in H; inv_ok H; subst.
    - split; [by intros ?%elem_of_nil|]. intros (t & Ht & _). by apply elem_of_nil in Ht.
    - match goal with HR : rmap _ rows = Ok _ |- _ => specialize (IH _ HR f o) end.
      unfold scanFavorite in H0. simpl in H0. inv_ok H0. subst. rewrite elem_of_cons, IH. setoid_rewrite elem_of_cons.
      destruct f as [fn fc]; simpl. split.
      + intros [[= -> -> ->]|(t' & ? & ?)]; eauto.
      + intros (t' & [[= -> -> ->]|Hin] & Hp); [left; congruence|right; eauto]. }
  pose proof (keepVisible_spec _ _ _ _ H) as Hkeep. split.
  - intros (f & Hf & <-). apply Hkeep in Hf as (o & Ho & Hown). apply Hscan in Ho as (t & Hrow & _).
    apply elem_of_candidates in Hrow as (Hfav & r & Hr & Hd & <-). split; [by exists t|]. exists r. auto.
  - intros [[t Hfav] (r & Hr & Hd & Hown)].
    assert (Hrow : (n, t, node_owner_id r) ∈ candidate_rows userID d) by (apply elem_of_candidates; eauto).
    assert (Hp : exists c, Parse t = Ok c).
    { clear -H0 Hrow. revert a H0. induction (candidate_rows userID d) as [|row rows IH]; intros a H; [by apply elem_of_nil in Hrow|].
      simpl in H. inv_ok H. apply elem_of_cons in Hrow as [<-|Hrow]; [|by eapply IH].
      unfold scanFavorite in H0. simpl in H0. inv_ok H0. eauto. }
    destruct Hp as [c Hc]. exists (MkFavorite n c). split; [|done]. apply Hkeep. exists (node_owner_id r).
    split; [|done]. apply Hscan. eauto.
Qed.

Lemma Add_inv userID nodeID d d' : Add userID nodeID d = (Ok tt, d') ->
  ValidUUID userID = true /\ ValidUUID nodeID = true /\ visible userID nodeID d /\ favorite_count userID d < MaxFavorites /\
  insert_favorites userID nodeID (Format (clk 0)) d = Ok d'.
Proof.
  unfold Add. intros H. inv_ok H.
  apply orb_false_iff in H0 as [?%negb_false_iff ?%negb_false_iff].
  match goal with HV : requireVisible _ _ _ = Ok ?x |- _ => destruct x; apply requireVisible_ok_inv in HV end.
  match goal with HC : Ok _ = Ok _ |- _ => injection HC as <- end.
  match goal with HL : (_ <=? _)%nat = false |- _ => apply Nat.leb_gt in HL end.
  done.
Qed.

(** [Add] succeeds only for a node the user can see and below the limit; it
    then stores the favorite, keeps the time of one that was already there,
    touches no other favorite, and the limit still holds. *)
Theorem Add_correct userID nodeID d d' :
  Add userID nodeID d = (Ok tt, d') ->
  visible userID nodeID d /\ favorite_count userID d' <= MaxFavorites /\
  favorites d' !! (userID, nodeID) =
    Some (default (Format (clk 0)) (favorites d !! (userID, nodeID))) /\
  forall k, k <> (userID, nodeID) -> favorites d' !! k = favorites d !! k.
Proof.
  intros (_ & _ & Hv & Hc & H)%Add_inv. split; [done|]. unfold insert_favorites in H.
  unfold has in H. destruct (favorites d !! (userID, nodeID)) as [t|] eqn:Ef; simpl in H.
  - injection H as <-. rewrite Ef. split; [lia|]. done.
  - destruct (negb _); [done|]. injection H as <-. simpl. split; [|split].
    + unfold favorite_count in *. simpl. rewrite count_rows_insert by done. simpl. rewrite String.eqb_refl. lia.
    + by rewrite lookup_insert_eq.
    + intros k Hk. by rewrite lookup_insert_ne.
Qed.

(** [Remove] never depends on the node: for any two valid identifiers it
    succeeds, exactly the favorite in question is gone, and so a retry is a
    no-op. *)
Theorem Remove_correct userID nodeID d :
  ValidUUID userID = true -> ValidUUID nodeID = true ->
  exists d', Remove userID nodeID d = (Ok tt, d') /\ Remove userID nodeID d' = (Ok tt, d') /\
    favorites d' = delete (userID, nodeID) (favorites d) /\ nodes d' = nodes d.
Proof.
  intros Hu Hn. unfold Remove. rewrite Hu, Hn. simpl.
  assert (E : forall m : gmap (string * string) string,
    delete_rows (fun k _ => String.eqb k.1 userID && String.eqb k.2 nodeID) m = delete (userID, nodeID) m).
  { intros m. apply map_eq. intros [u n]. apply option_eq. intros t. rewrite lookup_delete_rows, lookup_delete_Some. simpl.
    rewrite andb_false_iff, !String.eqb_neq. split.
    - intros [H [Hne|Hne]]; (split; [congruence|done]).
    - intros [Hne H]. split; [done|]. destruct (decide (u = userID)) as [->|]; [right|by left]. congruence. }
  eexists. split; [done|]. unfold mbind, M_bind, throw_if, modify. simpl. rewrite !E.
  split; [|done]. f_equal. unfold upd_favorites. simpl. f_equal. rewrite !E. apply delete_delete_eq.
Qed.

(** At the limit an existing favorite cannot be added again, although the
    comment on [Add] says that adding an existing one is a no-op. *)
Lemma Add_existing_at_limit userID nodeID d :
  ValidUUID userID = true -> ValidUUID nodeID = true ->
  is_Some (favorites d !! (userID, nodeID)) -> requireVisible userID nodeID d = Ok tt ->
  favorite_count userID d = MaxFavorites ->
  Add userID nodeID d = (Err (Validation "too many favorites; remove some first"), d).
Proof.
  intros Hu Hn _ Hv Hc.
  assert (E : (MaxFavorites <=? favorite_count userID d)%nat = true) by (rewrite Hc; apply Nat.leb_refl).
  unfold Add. rewrite throw_if_bind by (by rewrite Hu, Hn).
  unfold mbind, M_bind, throw_if, query, tx. by rewrite Hv, E.
Qed.
End favorites.

(** Bob marks the file [id3] that Alice shares with him. *)
Definition marked : DB := (Add (ticking noon) bob id3 family).2.

Lemma List_visible_witness : exists out, List bob marked = Ok out /\
  ((exists f, f ∈ out /\ Favorite_NodeID f = id3) <->
   is_Some (favorites marked !! (bob, id3)) /\ visible bob id3 marked) /\ out = [MkFavorite id3 noon].
Proof.
  destruct (List bob marked) as [out|e] eqn:E; [|vm_compute in E; discriminate E].
  exists out. split; [done|]. split; [exact (List_visible bob marked out E id3)|].
  vm_compute in E. injection E as <-. vm_compute. reflexivity.
Defined.

Lemma Add_correct_witness :
  visible bob id3 family /\ favorites marked !! (bob, id3) = Some "2024-01-01T12:00:00Z".
Proof.
  destruct (run_ok (Add (ticking noon) bob id3) family) as [[] H]; [vm_compute; reflexivity|].
  destruct (Add_correct (ticking noon) bob id3 family _ H) as (Hv & _ & Hf & _).
  split; [exact Hv|]. etransitivity; [exact Hf|]. vm_compute. reflexivity.
Defined.

Lemma Remove_correct_witness : exists d', Remove bob id3 marked = (Ok tt, d') /\ favorites d' !! (bob, id3) = None.
Proof.
  destruct (Remove_correct bob id3 marked) as (d' & H & _ & E & _); [vm_compute; reflexivity..|].
  exists d'. split; [exact H|]. rewrite E. apply lookup_delete_eq.
Defined.
