(* ===== verification/Limiter.v ===== *)
(** * Login backoff (internal/auth/limiter.go)

    The in-memory attempt limiter.  The methods hold the mutex for their whole
    body, so a run is a sequence of calls; [lrun] is such a sequence, in which
    every successful [begin_] is ended at most once.  Go ranges over a map in
    an unspecified order: [range] is any function that lists the entries. *)

From S2P Require Import Prelude GoTime.
Local Open Scope string_scope.

Definition maxLimiterEntries : nat := Z.to_nat 10000.
#[local] Opaque maxLimiterEntries.
Definition limiterIdleAfter : Z := 15 * Minute.

(** [time.Time{}]. *)
Definition zero_time : Z := -62135596800 * Second.

Record attemptEntry := MkEntry {
  consecutiveFailures : Z;
  blockedUntil : Z;
  lastFailure : Z;
  inFlight : Z;
}.
Definition newEntry : attemptEntry := MkEntry 0 zero_time zero_time 0.

Abbreviation entry_map := (gmap string attemptEntry).

Definition loginBackoff (failures : Z) : Z :=
  if (failures <? 3)%Z then 0 else if (failures <? 5)%Z then Second
  else if (failures <? 8)%Z then 10 * Second else Minute.

Definition accountBackoff (failures : Z) : Z :=
  if (failures <? 20)%Z then 0 else if (failures <? 50)%Z then 5 * Second else 30 * Second.

Definition addressBackoff (failures : Z) : Z :=
  if (failures <? 10)%Z then 0 else if (failures <? 20)%Z then 5 * Second
  else if (failures <? 40)%Z then 30 * Second else 5 * Minute.

Section limiter.
Context (range : entry_map -> list (string * attemptEntry)).
Hypothesis range_perm : forall m, range m ≡ₚ map_to_list m.
Context (backoff : Z -> Z) (maxInFlight : Z).

(** An attempt is running, or the backoff has not passed. *)
Definition busy (now : Z) (e : attemptEntry) : bool := (0 <? inFlight e)%Z || (now <? blockedUntil e)%Z.
Definition stale (now : Z) (e : attemptEntry) : bool := (limiterIdleAfter <? Sub now (lastFailure e))%Z.

(** The loop of [insert]: the map so far and the least recently failed idle
    entry that is not stale. *)
Fixpoint prune (now : Z) (l : list (string * attemptEntry)) (m : entry_map) (oldest : option (string * Z))
    : entry_map * option (string * Z) :=
  match l with
  | [] => (m, oldest)
  | (k, e) :: rest =>
      if busy now e then prune now rest m oldest
      else if stale now e then prune now rest (delete k m) oldest
      else prune now rest m
        (match oldest with
         | None => Some (k, lastFailure e)
         | Some (k0, t) => if (lastFailure e <? t)%Z then Some (k, lastFailure e) else Some (k0, t)
         end)
  end.

Definition insert (key : string) (entry : attemptEntry) (now : Z) (m : entry_map) : entry_map :=
  let m' :=
    if (maxLimiterEntries <=? size m)%nat then
      match prune now (range m) m None with
      | (m1, Some (oldestKey, _)) => if (maxLimiterEntries <=? size m1)%nat then delete oldestKey m1 else m1
      | (m1, None) => m1
      end
    else m in
  <[key := entry]> m'.

Definition with_inFlight (n : Z) (e : attemptEntry) : attemptEntry :=
  MkEntry (consecutiveFailures e) (blockedUntil e) (lastFailure e) n.

Definition begin_ (key : string) (now : Z) (m : entry_map) : bool * entry_map :=
  if String.eqb key "" then (true, m)
  else match m !! key with
       | Some e =>
           if (now <? blockedUntil e)%Z then (false, m)
           else if (0 <? maxInFlight)%Z && (maxInFlight <=? inFlight e)%Z then (false, m)
           else (true, <[key := with_inFlight (inFlight e + 1) e]> m)
       | None => (true, insert key (with_inFlight 1 newEntry) now m)
       end.

Definition end_ (key : string) (m : entry_map) : entry_map :=
  if String.eqb key "" then m
  else match m !! key with
       | None => m
       | Some e =>
           let e := if (0 <? inFlight e)%Z then with_inFlight (inFlight e - 1) e else e in
           if (inFlight e =? 0)%Z && (consecutiveFailures e =? 0)%Z then delete key m else <[key := e]> m
       end.

Definition failed (now : Z) (e : attemptEntry) : attemptEntry :=
  MkEntry (consecutiveFailures e + 1) (now + backoff (consecutiveFailures e + 1)) now (inFlight e).

Definition recordFailure (key : string) (now : Z) (m : entry_map) : entry_map :=
  if String.eqb key "" then m
  else match m !! key with
       | Some e => <[key := failed now e]> m
       | None => insert key (failed now newEntry) now m
       end.

Definition recordSuccess (key : string) (m : entry_map) : entry_map :=
  if String.eqb key "" then m
  else match m !! key with
       | None => m
       | Some e => if (inFlight e =? 0)%Z then delete key m
                   else <[key := MkEntry 0 zero_time (lastFailure e) (inFlight e)]> m
       end.

(** ** Runs *)

Inductive call :=
| CBegin (key : string) (now : Z)
| CEnd (key : string)
| CFailure (key : string) (now : Z)
| CSuccess (key : string).

(** The limiter and the attempts its callers are still making, per key. *)
Definition lstate : Type := entry_map * (string -> Z).
Definition bump (key : string) (n : Z) (out : string -> Z) : string -> Z :=
  fun k => if String.eqb k key then (out k + n)%Z else out k.

Inductive lstep : call -> lstate -> lstate -> Prop :=
| l_begin k now m out :
    lstep (CBegin k now) (m, out)
      ((begin_ k now m).2, if (begin_ k now m).1 then bump k 1 out else out)
| l_end k m out : (0 < out k)%Z -> lstep (CEnd k) (m, out) (end_ k m, bump k (-1) out)
| l_failure k now m out : lstep (CFailure k now) (m, out) (recordFailure k now m, out)
| l_success k m out : lstep (CSuccess k) (m, out) (recordSuccess k m, out).

Inductive lrun : lstate -> Prop :=
| lrun_new : lrun (∅, fun _ => 0%Z)
| lrun_step c s s' : lrun s -> lstep c s s' -> lrun s'.

Lemma l_begin_ok k now m out :
  (begin_ k now m).1 = true -> lstep (CBegin k now) (m, out) ((begin_ k now m).2, bump k 1 out).
Proof. intros E. pose proof (l_begin k now m out) as H. by rewrite E in H. Qed.

(** ** Pruning *)

Lemma prune_lookup now l m oldest k e :
  m !! k = Some e -> busy now e = true -> (forall k' e', (k', e') ∈ l -> m !! k' = Some e' \/ k' <> k) ->
  (prune now l m oldest).1 !! k = Some e.
Proof.
  intros Hk He Hl. revert m oldest Hk Hl.
  induction l as [|[k' e'] l IH]; intros m oldest Hk Hl; simpl; [done|].
  assert (Hl' : forall m' : entry_map, (forall j, m' !! j = m !! j \/ j <> k) -> forall k1 e1, (k1, e1) ∈ l -> m' !! k1 = Some e1 \/ k1 <> k).
  { intros m' Hm' k1 e1 Hin. destruct (decide (k1 = k)) as [->|]; [|by right]. left.
    destruct (Hm' k) as [->|]; [|done]. by destruct (Hl k e1 ltac:(by right)). }
  destruct (busy now e') eqn:Eb; [apply IH; [done|by apply Hl'; auto]|].
  destruct (stale now e'); [|apply IH; [done|by apply Hl'; auto]].
  assert (k' <> k).
  { destruct (Hl k' e' ltac:(by left)) as [Hk'|]; [|done]. intros ->. congruence. }
  apply IH; [by rewrite lookup_delete_ne|]. apply Hl'. intros j. destruct (decide (j = k')) as [->|]; [by right|].
  left. by rewrite lookup_delete_ne.
Qed.

Lemma prune_oldest now l m oldest k t :
  (prune now l m oldest).2 = Some (k, t) ->
  oldest = Some (k, t) \/ exists e, (k, e) ∈ l /\ busy now e = false.
Proof.
  revert m oldest; induction l as [|[k' e'] l IH]; intros m oldest; simpl; [auto|].
  destruct (busy now e') eqn:Eb; [intros [?|(e & ? & ?)]%IH; [auto|right; exists e; split; [by right|done]]|].
  destruct (stale now e'); [intros [?|(e & ? & ?)]%IH; [auto|right; exists e; split; [by right|done]]|].
  intros [E|(e & ? & ?)]%IH; [|right; exists e; split; [by right|done]].
  destruct oldest as [[k0 t0]|].
  - destruct (lastFailure e' <? t0)%Z; [|auto]. injection E as <- _. right. exists e'. split; [by left|done].
  - injection E as <- _. right. exists e'. split; [by left|done].
Qed.

Lemma range_elem m k e : (k, e) ∈ range m <-> m !! k = Some e.
Proof. by rewrite range_perm, elem_of_map_to_list. Qed.

(** Making room never evicts an entry that is blocked or in use. *)
Lemma insert_keeps_busy key entry now m k e :
  m !! k = Some e -> busy now e = true -> k <> key -> insert key entry now m !! k = Some e.
Proof.
  intros Hk He Hne. unfold insert. rewrite lookup_insert_ne by done.
  destruct (_ <=? _)%nat; [|done].
  assert (Hl : forall k' e', (k', e') ∈ range m -> m !! k' = Some e' \/ k' <> k).
  { intros k' e' Hin%range_elem. by left. }
  pose proof (prune_lookup now (range m) m None k e Hk He Hl) as H1.
  pose proof (prune_oldest now (range m) m None) as H2.
  destruct (prune now (range m) m None) as [m1 [[k0 t]|]]; simpl in *; [|done].
  destruct (_ <=? _)%nat; [|done]. rewrite lookup_delete_ne; [done|].
  intros ->. destruct (H2 _ _ eq_refl) as [?|(e' & Hin%range_elem & Hb)]; [done|]. congruence.
Qed.

Lemma prune_subset now l m oldest k e : (prune now l m oldest).1 !! k = Some e -> m !! k = Some e.
Proof.
  revert m oldest; induction l as [|[k' e'] l IH]; intros m oldest; simpl; [done|].
  destruct (busy now e'); [apply IH|]. destruct (stale now e'); [|apply IH].
  intros H%IH. by apply lookup_delete_Some in H as [_ ?].
Qed.

Lemma insert_subset key entry now m k e :
  insert key entry now m !! k = Some e -> k <> key -> m !! k = Some e.
Proof.
  intros H Hne. unfold insert in H. rewrite lookup_insert_ne in H by done.
  destruct (_ <=? _)%nat; [|done]. pose proof (prune_subset now (range m) m None k e) as Hs.
  destruct (prune now (range m) m None) as [m1 [[k0 t]|]]; simpl in *; [|auto].
  destruct (_ <=? _)%nat; [|auto]. apply lookup_delete_Some in H as [_ ?]. auto.
Qed.

(** With no candidate left, every idle entry has been removed. *)
Lemma prune_none now l m oldest k e :
  (prune now l m oldest).2 = None -> (k, e) ∈ l -> busy now e = false -> (prune now l m oldest).1 !! k = None.
Proof.
  revert m oldest; induction l as [|[k' e'] l IH]; intros m oldest Hn Hin Hb; [by apply elem_of_nil in Hin|].
  assert (Hgone : forall m1 o, m1 !! k = None -> (prune now l m1 o).1 !! k = None).
  { intros m1 o Hm1. destruct ((prune now l m1 o).1 !! k) eqn:E; [|done]. apply prune_subset in E. congruence. }
  assert (Hsome : forall m1 o, o <> None -> (prune now l m1 o).2 <> None).
  { clear. induction l as [|[k1 e1] l IH]; intros m1 o Ho; simpl; [done|].
    destruct (busy now e1); [by apply IH|]. destruct (stale now e1); [by apply IH|]. apply IH.
    destruct o as [[? ?]|]; [|done]. by destruct (_ <? _)%Z. }
  simpl in *. apply elem_of_cons in Hin as [E|Hin].
  - injection E as -> ->. rewrite Hb in *. destruct (stale now e').
    + apply Hgone, lookup_delete_eq.
    + exfalso. revert Hn. apply Hsome. destruct oldest as [[? ?]|]; [|done]. by destruct (_ <? _)%Z.
  - destruct (busy now e'); [by apply IH|]. destruct (stale now e'); by apply IH.
Qed.

(** The candidate is still in the map. *)
Lemma prune_candidate now l (m : entry_map) oldest k t :
  NoDup l.*1 -> (forall k' e', (k', e') ∈ l -> m !! k' = Some e') ->
  (forall k' t', oldest = Some (k', t') -> is_Some (m !! k') /\ k' ∉ l.*1) ->
  (prune now l m oldest).2 = Some (k, t) -> is_Some ((prune now l m oldest).1 !! k).
Proof.
  revert m oldest; induction l as [|[k' e'] l IH]; intros m oldest Hnd Hl Ho; simpl.
  { intros E. by apply (Ho k t). }
  apply NoDup_cons in Hnd as [Hk' Hnd]. simpl in Hk'.
  assert (Hl' : forall k1 e1, (k1, e1) ∈ l -> m !! k1 = Some e1) by (intros; apply Hl; by right).
  assert (Ho' : forall k1 t1, oldest = Some (k1, t1) -> is_Some (m !! k1) /\ k1 ∉ l.*1).
  { intros k1 t1 E. destruct (Ho _ _ E) as [? Hn]. split; [done|]. simpl in Hn. by apply not_elem_of_cons in Hn as [_ ?]. }
  destruct (busy now e'); [by apply IH|]. destruct (stale now e').
  - apply IH; [done| |].
    + intros k1 e1 Hin. rewrite lookup_delete_ne; [by apply Hl'|]. intros <-. apply Hk'. apply list_elem_of_fmap. by exists (k', e1).
    + intros k1 t1 E. destruct (Ho _ _ E) as [? Hn]. simpl in Hn. apply not_elem_of_cons in Hn as [Hne ?].
      split; [by rewrite lookup_delete_ne|done].
  - apply IH; [done|done|]. intros k1 t1 E.
    assert (Hnew : is_Some (m !! k') /\ k' ∉ l.*1) by (split; [exists e'; apply Hl; by left|done]).
    destruct oldest as [[k0 t0]|]; [destruct (_ <? _)%Z|]; simplify_eq; eauto.
Qed.

Lemma size_subset (m1 m2 : entry_map) : (forall k e, m1 !! k = Some e -> m2 !! k = Some e) -> size m1 <= size m2.
Proof.
  intros H. rewrite <- !size_dom. apply subseteq_size. intros k Hk.
  apply elem_of_dom in Hk as [e He]. apply elem_of_dom. exists e. by apply H.
Qed.

Lemma size_insert_le (m : entry_map) k e : size (<[k := e]> m) <= S (size m).
Proof. destruct (m !! k) eqn:E; [rewrite map_size_insert_Some by done; lia|rewrite map_size_insert_None by done; lia]. Qed.

(** The table of the limiter stays within [maxLimiterEntries] whenever any
    entry can be given up: after an insertion into a table within the bound it
    is within the bound again, or every other entry is blocked or in use. *)
Theorem insert_bounded key entry now m :
  size m <= maxLimiterEntries ->
  size (insert key entry now m) <= maxLimiterEntries \/
  forall k e, insert key entry now m !! k = Some e -> k <> key -> busy now e = true.
Proof.
  intros Hm. unfold insert. destruct (Nat.leb_spec maxLimiterEntries (size m)) as [Hfull|Hroom].
  2: { left. etransitivity; [apply size_insert_le|]. lia. }
  pose proof (prune_subset now (range m) m None) as Hsub.
  pose proof (prune_none now (range m) m None) as Hnone.
  pose proof (prune_candidate now (range m) m None) as Hcand.
  destruct (prune now (range m) m None) as [m1 oldest] eqn:E. simpl in *.
  assert (Hle : size m1 <= size m) by (apply size_subset; auto).
  destruct oldest as [[k0 t0]|].
  - left. etransitivity; [apply size_insert_le|].
    destruct (Nat.leb_spec maxLimiterEntries (size m1)) as [Hfull1|]; [|lia].
    destruct (Hcand k0 t0) as [e0 He0]; [|by intros k' e' ?%range_elem|done|done|].
    { rewrite range_perm. apply NoDup_fst_map_to_list. }
    assert (size m1 <> 0) by (intros ->%map_size_empty_inv; by rewrite lookup_empty in He0).
    rewrite map_size_delete, He0. lia.
  - destruct (Nat.leb_spec maxLimiterEntries (size m1)) as [Hfull1|].
    + right. intros k e He Hne. rewrite lookup_insert_ne in He by done.
      destruct (busy now e) eqn:Eb; [done|]. specialize (Hsub _ _ He).
      rewrite (Hnone k e eq_refl) in He; [done|by apply range_elem|done].
    + left. etransitivity; [apply size_insert_le|]. lia.
Qed.

(** ** Attempts in flight *)

Definition inFlight_of (m : entry_map) (k : string) : Z :=
  match m !! k with Some e => inFlight e | None => 0%Z end.

Definition counts_ok (s : lstate) : Prop := forall k, k <> "" ->
  s.2 k = inFlight_of s.1 k /\ (0 <= inFlight_of s.1 k)%Z /\
  ((0 < maxInFlight)%Z -> (inFlight_of s.1 k <= maxInFlight)%Z).

Lemma insert_inFlight_of key entry now m k :
  k <> key -> (0 <= inFlight_of m k)%Z -> inFlight_of (insert key entry now m) k = inFlight_of m k.
Proof.
  intros Hne Hpos. unfold inFlight_of in *.
  destruct (insert key entry now m !! k) as [e|] eqn:E.
  - apply insert_subset in E; [|done]. by rewrite E.
  - destruct (m !! k) as [e|] eqn:Ek; [|done].
    assert (Hb : busy now e = false).
    { destruct (busy now e) eqn:Eb; [|done]. by rewrite (insert_keeps_busy key entry now m k e) in E. }
    unfold busy in Hb. apply orb_false_iff in Hb as [Hb _]. apply Z.ltb_ge in Hb. lia.
Qed.

Lemma insert_inFlight_same key entry now m : inFlight_of (insert key entry now m) key = inFlight entry.
Proof. unfold inFlight_of, insert. by rewrite lookup_insert_eq. Qed.

Lemma lstep_counts c s s' : counts_ok s -> lstep c s s' -> counts_ok s'.
Proof.
  intros Hok Hs k Hk. destruct Hs as [j now m out|j m out Hout|j now m out|j m out]; simpl in *.
  - destruct (Hok k Hk) as (Ho & Hp & Hm). simpl in *. unfold begin_. destruct (String.eqb_spec j "") as [->|Hj].
    { simpl. unfold bump. destruct (String.eqb_spec k ""); [done|]. done. }
    destruct (m !! j) as [e|] eqn:Ej.
    + destruct (now <? blockedUntil e)%Z; [done|]. destruct (_ && _) eqn:Ec; [done|]. simpl. unfold bump.
      destruct (String.eqb_spec k j) as [->|Hne].
      * unfold inFlight_of in *. rewrite lookup_insert_eq. rewrite Ej in *. simpl. split; [lia|]. split; [lia|].
        intros Hpos. rewrite (proj2 (Z.ltb_lt _ _) Hpos) in Ec. simpl in Ec. apply Z.leb_gt in Ec. lia.
      * unfold inFlight_of in *. by rewrite lookup_insert_ne.
    + simpl. unfold bump. destruct (String.eqb_spec k j) as [->|Hne].
      * rewrite insert_inFlight_same. unfold inFlight_of in *. rewrite Ej in *. simpl. lia.
      * by rewrite insert_inFlight_of.
  - destruct (Hok k Hk) as (Ho & Hp & Hm). unfold end_, bump. destruct (String.eqb_spec j "") as [->|Hj].
    { simpl. destruct (String.eqb_spec k ""); [done|done]. }
    destruct (m !! j) as [e|] eqn:Ej; simpl.
    + destruct (String.eqb_spec k j) as [->|Hne]; unfold inFlight_of in *; simpl in *.
      * rewrite Ej in *. destruct (Z.ltb_spec 0 (inFlight e)); [|lia]. simpl.
        destruct (_ && _) eqn:Ec; [|rewrite lookup_insert_eq; simpl; lia].
        apply andb_prop in Ec as [Ec%Z.eqb_eq _]. rewrite lookup_delete_eq. lia.
      * destruct (_ && _); [by rewrite lookup_delete_ne|by rewrite lookup_insert_ne].
    + destruct (String.eqb_spec k j) as [->|Hne]; [|done]. unfold inFlight_of in *. simpl in *. rewrite Ej in *. lia.
  - destruct (Hok k Hk) as (Ho & Hp & Hm). simpl in *. unfold recordFailure. destruct (String.eqb j ""); [done|].
    destruct (m !! j) as [e|] eqn:Ej; destruct (decide (k = j)) as [->|Hne].
    + unfold inFlight_of in *. by rewrite lookup_insert_eq, Ej in *.
    + unfold inFlight_of in *. by rewrite lookup_insert_ne.
    + rewrite insert_inFlight_same. unfold inFlight_of in *. by rewrite Ej in *.
    + by rewrite insert_inFlight_of.
  - destruct (Hok k Hk) as (Ho & Hp & Hm). simpl in *. unfold recordSuccess. destruct (String.eqb j ""); [done|].
    destruct (m !! j) as [e|] eqn:Ej; [|done]. destruct (Z.eqb_spec (inFlight e) 0) as [Ez|];
      destruct (decide (k = j)) as [->|Hne]; unfold inFlight_of in *.
    + rewrite lookup_delete_eq, Ej in *. lia.
    + by rewrite lookup_delete_ne.
    + by rewrite lookup_insert_eq, Ej in *.
    + by rewrite lookup_insert_ne.
Qed.

(** In every run of the limiter, evictions included, the stored count of a
    key equals the attempts its callers are still making, and a positive
    [maxInFlight] is never exceeded: parallel guesses for one key cannot all
    pass the backoff check. *)
Theorem limiter_in_flight m out k :
  lrun (m, out) -> k <> "" ->
  out k = inFlight_of m k /\ (0 <= out k)%Z /\ ((0 < maxInFlight)%Z -> (out k <= maxInFlight)%Z).
Proof.
  intros Hrun Hk. assert (Hok : counts_ok (m, out)).
  { induction Hrun as [|c s s' _ IH Hs]; [|by eapply lstep_counts].
    intros j _. unfold inFlight_of. simpl. rewrite lookup_empty. lia. }
  destruct (Hok k Hk) as (Ho & Hp & Hm). simpl in *. rewrite Ho. done.
Qed.


(** ** Backoff *)

(** After a failure of a key, [begin_] refuses it exactly until the backoff
    of its number of consecutive failures has passed, or while the key has all
    its attempts in flight. *)
Theorem recordFailure_blocks key now m t :
  key <> "" ->
  let failures := (match m !! key with Some e => consecutiveFailures e | None => 0 end + 1)%Z in
  (begin_ key t (recordFailure key now m)).1 = true <->
  (now + backoff failures <= t)%Z /\ ((maxInFlight <= 0)%Z \/ (inFlight_of m key < maxInFlight)%Z).
Proof.
  intros Hk failures.
  assert (He : exists e, recordFailure key now m !! key = Some e /\ blockedUntil e = (now + backoff failures)%Z /\
    inFlight e = inFlight_of m key).
  { unfold recordFailure, inFlight_of. destruct (String.eqb_spec key ""); [done|].
    destruct (m !! key) as [e|]; [|unfold insert]; rewrite lookup_insert_eq; eexists; done. }
  destruct He as (e & He & Hb & Hi). unfold begin_. destruct (String.eqb_spec key ""); [done|]. rewrite He, Hb, Hi.
  destruct (Z.ltb_spec t (now + backoff failures)); simpl; [split; [done|lia]|].
  destruct (Z.ltb_spec 0 maxInFlight), (Z.leb_spec maxInFlight (inFlight_of m key)); simpl; split; try done; lia.
Qed.

Definition call_key (c : call) : string :=
  match c with CBegin k _ | CEnd k | CFailure k _ | CSuccess k => k end.
Definition call_time (c : call) : option Z :=
  match c with CBegin _ t | CFailure _ t => Some t | _ => None end.
(** A call that neither reports the outcome of an attempt for [k] nor happens
    after [now]. *)
Definition harmless (k : string) (now : Z) (c : call) : Prop :=
  (call_key c = k -> match c with CBegin _ _ | CEnd _ => True | _ => False end) /\
  (forall t, call_time c = Some t -> (t <= now)%Z).

Inductive lsteps (P : call -> Prop) : lstate -> lstate -> Prop :=
| lsteps_refl s : lsteps P s s
| lsteps_step c s s1 s' : P c -> lstep c s s1 -> lsteps P s1 s' -> lsteps P s s'.

Definition blocked (k : string) (now until : Z) (m : entry_map) : Prop :=
  exists e, m !! k = Some e /\ blockedUntil e = until /\ (0 < consecutiveFailures e)%Z /\ (now < until)%Z.

Lemma lstep_blocked k now until c s s' :
  k <> "" -> harmless k now c -> lstep c s s' -> blocked k now until s.1 -> blocked k now until s'.1.
Proof.
  intros Hk [Hkey Htime] Hs (e & He & Hb & Hf & Hn).
  assert (Hins : forall j x t, (t <= now)%Z -> j <> k -> insert j x t s.1 !! k = Some e).
  { intros j x t Ht Hne. apply insert_keeps_busy; [done| |done]. unfold busy.
    rewrite (proj2 (Z.ltb_lt t (blockedUntil e))) by lia. apply orb_true_r. }
  assert (Hsame : forall m', m' !! k = Some e -> blocked k now until m') by (intros m' Hm'; by exists e).
  destruct Hs as [j t m out|j m out Hout|j t m out|j m out]; simpl in *.
  - specialize (Htime t eq_refl). unfold begin_. destruct (String.eqb j ""); [by apply Hsame|].
    destruct (decide (j = k)) as [->|Hne].
    + rewrite He, Hb. destruct (Z.ltb_spec t until); [by apply Hsame|lia].
    + destruct (m !! j) as [ej|]; [|apply Hsame; simpl; by apply Hins].
      destruct (t <? _)%Z; [by apply Hsame|]. destruct (_ && _); [by apply Hsame|].
      apply Hsame. simpl. by rewrite lookup_insert_ne.
  - unfold end_. destruct (String.eqb j ""); [by apply Hsame|].
    destruct (decide (j = k)) as [->|Hne].
    + rewrite He. destruct (0 <? inFlight e)%Z; simpl; rewrite (proj2 (Z.eqb_neq (consecutiveFailures e) 0)) by lia; rewrite andb_false_r;
        (eexists; split; [by rewrite lookup_insert_eq|done]).
    + destruct (m !! j) as [ej|]; [|by apply Hsame]. apply Hsame. destruct (_ && _).
      * by rewrite lookup_delete_ne.
      * by rewrite lookup_insert_ne.
  - destruct (decide (j = k)) as [->|Hne]; [by destruct (Hkey eq_refl)|]. specialize (Htime t eq_refl).
    apply Hsame. unfold recordFailure. destruct (String.eqb j ""); [done|].
    destruct (m !! j); [by rewrite lookup_insert_ne|by apply Hins].
  - destruct (decide (j = k)) as [->|Hne]; [by destruct (Hkey eq_refl)|]. apply Hsame. unfold recordSuccess.
    destruct (String.eqb j ""); [done|]. destruct (m !! j) as [ej|]; [|done].
    destruct (_ =? _)%Z; [by rewrite lookup_delete_ne|by rewrite lookup_insert_ne].
Qed.

(** A backoff cannot be flushed out: while a key is blocked, no sequence of
    calls for other keys, however many entries they create, and no further
    attempt for the key itself makes [begin_] accept it before its time. *)
Theorem limiter_blocked_stays k now until s s' :
  k <> "" -> blocked k now until s.1 -> lsteps (harmless k now) s s' ->
  begin_ k now s'.1 = (false, s'.1).
Proof.
  intros Hk Hb Hs. assert (Hb' : blocked k now until s'.1).
  { induction Hs as [s|c s s1 s' Hc Hstep _ IH]; [done|]. apply IH. by eapply lstep_blocked. }
  destruct Hb' as (e & He & Hu & _ & Hn). unfold begin_. destruct (String.eqb_spec k ""); [done|].
  rewrite He, Hu. by destruct (Z.ltb_spec now until); [|lia].
Qed.

(** A full table of busy entries grows past the bound: the limit on memory that
    the comment on [maxLimiterEntries] states is not strict. *)
Lemma insert_exceeds key entry now m :
  m !! key = None -> maxLimiterEntries <= size m ->
  (forall k e, m !! k = Some e -> busy now e = true) -> size (insert key entry now m) = S (size m).
Proof.
  intros Hnew Hfull Hbusy. unfold insert. destruct (Nat.leb_spec maxLimiterEntries (size m)); [|lia].
  assert (Hp : forall l, (forall k e, (k, e) ∈ l -> busy now e = true) -> prune now l m None = (m, None)).
  { induction l as [|[k e] l IH]; intros Hl; [done|]. simpl. rewrite (Hl k e) by (by left). apply IH.
    intros k' e' Hin. apply (Hl k'). by right. }
  rewrite Hp by (intros k e Hin%range_elem; by eapply Hbusy). by rewrite map_size_insert_None.
Qed.
End limiter.

(** The three backoff schedules never shrink as failures accumulate, start
    at no wait, and are capped at one minute, thirty seconds and five minutes. *)
Theorem backoff_monotone a b :
  (a <= b)%Z ->
  (0 <= loginBackoff a <= loginBackoff b)%Z /\ (loginBackoff b <= Minute)%Z /\
  (0 <= accountBackoff a <= accountBackoff b)%Z /\ (accountBackoff b <= 30 * Second)%Z /\
  (0 <= addressBackoff a <= addressBackoff b)%Z /\ (addressBackoff b <= 5 * Minute)%Z.
Proof.
  intros Hab. unfold loginBackoff, accountBackoff, addressBackoff, Minute, Second.
  repeat match goal with |- context [(?x <? ?n)%Z] => destruct (Z.ltb_spec x n) end; lia.
Qed.

Lemma backoff_monotone_witness : (loginBackoff 4 <= loginBackoff 9)%Z /\ loginBackoff 9 = Minute.
Proof. split; [apply (backoff_monotone 4 9); lia|vm_compute; reflexivity]. Defined.

(** ** Concrete runs: usernames with at most one attempt in flight *)

Definition guessed : entry_map := recordFailure map_to_list loginBackoff "alice" 0
  (recordFailure map_to_list loginBackoff "alice" 0 (recordFailure map_to_list loginBackoff "alice" 0 ∅)).

Lemma recordFailure_blocks_witness :
  ((begin_ map_to_list 1 "alice" Second guessed).1 = true) /\
  ((begin_ map_to_list 1 "alice" (Second - 1) guessed).1 = false).
Proof.
  split; [|vm_compute; reflexivity].
  apply (recordFailure_blocks map_to_list loginBackoff 1 "alice" 0
    (recordFailure map_to_list loginBackoff "alice" 0 (recordFailure map_to_list loginBackoff "alice" 0 ∅)) Second).
  - discriminate.
  - vm_compute. split; [discriminate|right; reflexivity].
Defined.

Lemma limiter_in_flight_witness :
  inFlight_of (begin_ map_to_list 1 "alice" 0 ∅).2 "alice" = 1%Z /\
  (begin_ map_to_list 1 "alice" 0 (begin_ map_to_list 1 "alice" 0 ∅).2).1 = false.
Proof.
  split; [|vm_compute; reflexivity].
  destruct (limiter_in_flight map_to_list (fun m => reflexivity _) loginBackoff 1 (begin_ map_to_list 1 "alice" 0 ∅).2
    (bump "alice" 1 (fun _ => 0%Z)) "alice") as (H & _ & _).
  - eapply lrun_step; [apply lrun_new|]. apply l_begin_ok. vm_compute. reflexivity.
  - discriminate.
  - symmetry. exact H.
Defined.

Lemma limiter_blocked_stays_witness :
  let s := (begin_ map_to_list 1 "mallory" 0 guessed).2 in
  begin_ map_to_list 1 "alice" (Second - 1) s = (false, s).
Proof.
  apply (limiter_blocked_stays map_to_list (fun m => reflexivity _) loginBackoff 1 "alice" (Second - 1) Second
    (guessed, fun _ => 0%Z) ((begin_ map_to_list 1 "mallory" 0 guessed).2, bump "mallory" 1 (fun _ => 0%Z))).
  - discriminate.
  - eexists. vm_compute. repeat split.
  - eapply (lsteps_step _ _ _ _ (CBegin "mallory" 0)); [|apply l_begin_ok; vm_compute; reflexivity|apply lsteps_refl].
    split; [discriminate|]. intros t [= <-]. vm_compute. discriminate.
Defined.

Lemma insert_bounded_witness :
  size (insert map_to_list "alice" newEntry 0 ∅) <= maxLimiterEntries \/
  forall k e, insert map_to_list "alice" newEntry 0 ∅ !! k = Some e -> k <> "alice" -> busy 0 e = true.
Proof.
  apply (insert_bounded map_to_list (fun m => reflexivity _) "alice" newEntry 0 ∅). rewrite map_size_empty. lia.
Defined.
