(* ===== verification/Sharing.v ===== *)
(** * Package internal/sharing: folder keys and folder shares

    Models [internal/sharing/service.go].  [clk i] is the [i]-th reading of
    the service's clock within one call and [newid i] the [i]-th identifier
    [uuid.NewString] returns.  Queries are joins written out over the tables. *)

From S2P Require Import Prelude GoText GoTime Uuid Schema Fixture Access Nodes NodesSpec.
Local Open Scope string_scope.

Definition maxEnvelopesPerRequest : nat := 32.
Definition maxEnvelopeSize : Z := 4096.
Definition ownerSignatureLength : nat := 64.
Definition ownerIdentityKeyLength : nat := 32.

Record DeviceEnvelope := MkDeviceEnvelope {
  TargetDeviceID : string;
  EnvKeyVersion : Z;
  Ciphertext : list byte;
  OwnerIdentityPublicKey : list byte;
  OwnerSignature : list byte;
}.

Record Share := MkShare {
  Share_ID : string; Share_NodeID : string; Share_OwnerUserID : string; Share_TargetUserID : string;
  Share_Permission : string;
  Share_OwnerUsername : string; Share_TargetUsername : string;
  Share_CreatedAt : Z;
  Share_Envelopes : list DeviceEnvelope;
}.

Record CreateInput := MkCreateInput {
  OwnerUserID : string; OwnerDeviceID : string; OperationID : string; NodeID : string; TargetUserID : string;
  InPermission : string;
  Envelopes : list DeviceEnvelope;
}.

Record FolderKeyView := MkFolderKey {
  FolderID : string; FolderKeyVersion : Z; OwnerEnvelope : list byte; FolderKeyCreatedAt : Z;
}.

Definition isUniqueConstraint (e : error) : bool := match e with SqlUnique _ => true | _ => false end.

(** [exec] whose unique violation is reported as another error. *)
Definition exec_unique (e : error) (f : DB -> result DB) : M DB unit := fun d =>
  match f d with
  | Ok d' => (Ok tt, d')
  | Err e' => (Err (if isUniqueConstraint e' then e else e'), d)
  end.

Lemma stays_exec_unique (R : relation DB) `{!PreOrder R} e f : (forall d d', f d = Ok d' -> R d d') -> stays R (exec_unique e f).
Proof. intros Hf d. unfold exec_unique. destruct (f d) as [d'|e'] eqn:Ef; [by apply Hf|reflexivity]. Qed.

Section sharing.
Context {U : UuidLib} {TP : TimeParser}.

(** ** Checks *)

Definition requireActiveDevice (userID deviceID : string) (d : DB) : result unit :=
  match devices d !! deviceID with
  | Some r => if String.eqb (device_user_id r) userID && is_null (device_revoked_at r)
              then Ok tt else Err (ESharing SharingErrForbidden)
  | None => Err (ESharing SharingErrForbidden)
  end.

Definition requireOwnedFolder (ownerUserID folderID : string) (d : DB) : result unit :=
  match nodes d !! folderID with
  | Some r =>
      if negb (String.eqb (node_owner_id r) ownerUserID) then Err (ESharing SharingErrForbidden)
      else if negb (String.eqb (node_type r) "DIRECTORY") || IsDeleted r
      then Err (NewValidation "only a non-deleted folder can be shared")
      else Ok tt
  | None => Err (ESharing SharingErrForbidden)
  end.

Definition forbidNestedScope (folderID : string) (d : DB) : result unit :=
  match nodes d !! folderID with
  | None => Err (Internal "sql: no rows in result set")
  | Some r =>
      (match node_parent_id r with
       | Some p =>
           outer ← NearestKeyedFolder p d;
           if negb (String.eqb outer "") then Err ErrNestedSharedFolder else Ok tt
       | None => Ok tt
       end) ;;
      nested ← SubtreeHasKeyedFolder folderID d;
      if nested : bool then Err ErrNestedSharedFolder else Ok tt
  end.

(** The map key [device/version] of the loop determines both parts, as
    [TargetDeviceID] is checked to be an identifier. *)
Fixpoint validateEnvelopes_from (seen : list string) (envelopes : list DeviceEnvelope) : result unit :=
  match envelopes with
  | [] => Ok tt
  | e :: rest =>
      let key := TargetDeviceID e ++ "/" ++ FormatInt (EnvKeyVersion e) in
      if negb (ValidUUID (TargetDeviceID e)) || (EnvKeyVersion e <? 1)%Z || Nat.eqb (length (Ciphertext e)) 0
         || (maxEnvelopeSize <? Z.of_nat (length (Ciphertext e)))%Z || bool_decide (key ∈ seen)
      then Err (NewValidation "share device envelopes must be unique, versioned, and reasonably sized")
      else if negb (Nat.eqb (length (OwnerIdentityPublicKey e)) ownerIdentityKeyLength)
              || negb (Nat.eqb (length (OwnerSignature e)) ownerSignatureLength)
      then Err (NewValidation "share device envelopes must carry the owner's account-identity signature")
      else validateEnvelopes_from (key :: seen) rest
  end.
Definition validateEnvelopes : list DeviceEnvelope -> result unit := validateEnvelopes_from [].

Fixpoint requireEnvelopeTargets (folderID targetUserID : string) (envelopes : list DeviceEnvelope) (d : DB)
    : result unit :=
  match envelopes with
  | [] => Ok tt
  | e :: rest =>
      match requireActiveDevice targetUserID (TargetDeviceID e) d with
      | Err _ => Err (ESharing SharingErrTargetNotFound)
      | Ok _ =>
          if negb (has (folder_keys d) (folderID, EnvKeyVersion e))
          then Err (NewValidation "a share envelope refers to a folder key version that does not exist")
          else requireEnvelopeTargets folderID targetUserID rest d
      end
  end.

(** ** Reads *)

Definition scanFolderKey (folderID : string) (version : Z) (r : folder_key_row) : result FolderKeyView :=
  created ← Parse (fk_created_at r); Ok (MkFolderKey folderID version (fk_owner_envelope r) created).

Definition folderKey (ownerUserID folderID : string) (keyVersion : Z) (d : DB) : result FolderKeyView :=
  match folder_keys d !! (folderID, keyVersion) with
  | Some r => if String.eqb (fk_owner_user_id r) ownerUserID then scanFolderKey folderID keyVersion r
              else Err (Internal "sql: no rows in result set")
  | None => Err (Internal "sql: no rows in result set")
  end.

(** [ORDER BY folder_id,key_version]. *)
Definition folder_key_le (a b : string * Z) : bool :=
  text_lt a.1 b.1 || String.eqb a.1 b.1 && (a.2 <=? b.2)%Z.

Definition ListFolderKeys (ownerUserID : string) (d : DB) : result (list FolderKeyView) :=
  if negb (ValidUUID ownerUserID) then Err (NewValidation "owner ID must be a valid UUID")
  else rmap (fun kr => scanFolderKey kr.1.1 kr.1.2 kr.2)
    (order_by (fun a b => folder_key_le a.1 b.1)
       (select_rows (fun _ r => String.eqb (fk_owner_user_id r) ownerUserID) (folder_keys d))).

(** A row of [shareSelect]: the share, both usernames, and an envelope when
    the LEFT JOIN found one. *)
Record joined_share := MkJoined {
  j_id : string; j_share : share_row; j_owner : string; j_target : string; j_envelope : option share_envelope_row;
}.

Definition shareSelect (P : string -> share_row -> bool) (E : share_envelope_row -> bool) (d : DB) : list joined_share :=
  List.concat (map (fun ks =>
    match users d !! share_owner_user_id ks.2, users d !! share_target_user_id ks.2 with
    | Some o, Some t =>
        let row := MkJoined ks.1 ks.2 (user_username o) (user_username t) in
        match select_rows (fun _ e => String.eqb (se_share_id e) ks.1 && E e && is_null (se_revoked_at e))
                (share_device_envelopes d) with
        | [] => [row None]
        | es => map (fun ke => row (Some ke.2)) es
        end
    | _, _ => []
    end) (select_rows P (shares d))).

Definition to_envelope (e : share_envelope_row) : DeviceEnvelope :=
  MkDeviceEnvelope (se_target_device_id e) (se_key_version e) (se_ciphertext e)
    (default [] (se_owner_identity_public_key e)) (default [] (se_owner_signature e)).

(** [byID[share.ID]]: the first row of a share creates it, later ones append. *)
Fixpoint add_to (row : joined_share) (created : Z) (acc : list Share) : list Share :=
  let extra := match j_envelope row with Some e => [to_envelope e] | None => [] end in
  match acc with
  | [] => let s := j_share row in
          [MkShare (j_id row) (share_node_id s) (share_owner_user_id s) (share_target_user_id s)
             (share_permission s) (j_owner row) (j_target row) created extra]
  | s :: rest =>
      if String.eqb (Share_ID s) (j_id row)
      then MkShare (Share_ID s) (Share_NodeID s) (Share_OwnerUserID s) (Share_TargetUserID s) (Share_Permission s)
             (Share_OwnerUsername s) (Share_TargetUsername s) (Share_CreatedAt s) (Share_Envelopes s ++ extra) :: rest
      else s :: add_to row created rest
  end.

Fixpoint scanShares (rows : list joined_share) (acc : list Share) : result (list Share) :=
  match rows with
  | [] => Ok acc
  | row :: rest =>
      created ← Parse (share_created_at (j_share row));
      scanShares rest (add_to row created acc)
  end.

(** NULL sorts first. *)
Definition env_key (row : joined_share) : Z * string :=
  match j_envelope row with Some e => (se_key_version e, se_created_at e) | None => (-1, "") end%Z.
Definition env_le (a b : joined_share) : bool :=
  ((env_key a).1 <? (env_key b).1)%Z || ((env_key a).1 =? (env_key b).1)%Z && text_le (env_key a).2 (env_key b).2.
Definition share_le (a b : joined_share) : bool :=
  let ca := share_created_at (j_share a) in let cb := share_created_at (j_share b) in
  text_lt ca cb || String.eqb ca cb && (text_lt (j_id a) (j_id b) || String.eqb (j_id a) (j_id b) && env_le a b).

Definition ListIncoming (userID deviceID : string) (d : DB) : result (list Share) :=
  if negb (ValidUUID userID) || negb (ValidUUID deviceID)
  then Err (NewValidation "user and device IDs must be valid UUIDs")
  else scanShares (order_by share_le
    (shareSelect (fun _ s => String.eqb (share_target_user_id s) userID && is_null (share_revoked_at s) &&
                             match nodes d !! share_node_id s with Some n => is_null (node_deleted_at n) | None => false end)
       (fun e => String.eqb (se_target_device_id e) deviceID) d)) [].

Definition GetOutgoing (ownerUserID shareID : string) (d : DB) : result Share :=
  if negb (ValidUUID ownerUserID) || negb (ValidUUID shareID)
  then Err (NewValidation "owner and share IDs must be valid UUIDs")
  else
    found ← scanShares (order_by env_le
      (shareSelect (fun k s => String.eqb k shareID && String.eqb (share_owner_user_id s) ownerUserID &&
                               is_null (share_revoked_at s)) (fun _ => true) d)) [];
    match found with [] => Err (ESharing SharingErrNotFound) | s :: _ => Ok s end.

Definition ListOutgoing (ownerUserID : string) (d : DB) : result (list Share) :=
  if negb (ValidUUID ownerUserID) then Err (NewValidation "owner ID must be a valid UUID")
  else scanShares (order_by share_le
    (shareSelect (fun _ s => String.eqb (share_owner_user_id s) ownerUserID && is_null (share_revoked_at s))
       (fun _ => true) d)) [].

(** ** Mutations *)

Context (clk : nat -> Z) (newid : nat -> string).

Definition latest_of (folderID : string) (d : DB) : Z :=
  foldr Z.max 0%Z (map (fun kv => kv.1.2) (select_rows (fun k _ => String.eqb k.1 folderID) (folder_keys d))).

Definition folderKeyTx (ownerUserID ownerDeviceID folderID : string) (keyVersion : Z) (envelope : list byte)
    : M DB (option FolderKeyView) :=
  query (requireActiveDevice ownerUserID ownerDeviceID) ;;
  query (requireOwnedFolder ownerUserID folderID) ;;
  existing ← query (fun d => Ok (folder_keys d !! (folderID, keyVersion)));
  match existing with
  | Some r =>
      if negb (bool_decide (fk_owner_envelope r = envelope)) then throw (ESharing SharingErrKeyConflict)
      else mret None
  | None =>
      latest ← query (fun d => Ok (latest_of folderID d));
      throw_if (keyVersion <=? latest)%Z (ESharing SharingErrKeyConflict) ;;
      throw_if (negb (keyVersion =? latest + 1)%Z)
        (NewValidation ("the next key version of this folder is " ++ FormatInt (latest + 1))) ;;
      (if (latest =? 0)%Z then query (forbidNestedScope folderID) else mret tt) ;;
      let now := clk 0 in
      exec_unique (ESharing SharingErrKeyConflict)
        (insert_folder_keys folderID keyVersion (FolderKey ownerUserID envelope (Format now) ownerDeviceID)) ;;
      mret (Some (MkFolderKey folderID keyVersion envelope now))
  end.

Definition CreateFolderKey (ownerUserID ownerDeviceID folderID : string) (keyVersion : Z) (envelope : list byte)
    : M DB FolderKeyView :=
  throw_if (negb (ValidUUID ownerUserID) || negb (ValidUUID ownerDeviceID) || negb (ValidUUID folderID))
    (NewValidation "owner, device, and folder IDs must be valid UUIDs") ;;
  throw_if ((keyVersion <? 1)%Z || Nat.eqb (length envelope) 0 || (maxEnvelopeSize <? Z.of_nat (length envelope))%Z)
    (NewValidation "a folder key needs a positive version and a reasonably sized envelope") ;;
  created ← tx (folderKeyTx ownerUserID ownerDeviceID folderID keyVersion envelope);
  match created with
  | Some k => mret k
  | None => query (folderKey ownerUserID folderID keyVersion)
  end.

Definition replay (i : CreateInput) (d : DB) : result (option string) :=
  match processed_operations d !! OperationID i with
  | None => Ok None
  | Some op =>
      if negb (String.eqb (op_user_id op) (OwnerUserID i)) || negb (String.eqb (op_device_id op) (OwnerDeviceID i))
         || negb (String.eqb (op_operation_type op) "SHARE_CREATE") || negb (ValidUUID (op_result_payload op))
      then Err (NewValidation "operation ID has already been used")
      else Ok (Some (op_result_payload op))
  end.

Definition insertEnvelopes (shareID : string) (envelopes : list DeviceEnvelope) (first : nat) (now : Z) : M DB unit :=
  mfor (fun i e => exec (insert_share_device_envelopes (newid i)
    (ShareEnvelope shareID (TargetDeviceID e) (EnvKeyVersion e) (Ciphertext e) (Format now) None
       (Some (OwnerIdentityPublicKey e)) (Some (OwnerSignature e))))) first envelopes.

Definition active_user (userID : string) (d : DB) : bool :=
  match users d !! userID with Some u => String.eqb (user_status u) "ACTIVE" | None => false end.

Definition already_shared (nodeID targetUserID : string) (d : DB) : bool :=
  exists_row (fun _ s => String.eqb (share_node_id s) nodeID && String.eqb (share_target_user_id s) targetUserID &&
                         is_null (share_revoked_at s)) (shares d).

Definition grantTx (i : CreateInput) : M DB string :=
  again ← query (replay i);
  match again with
  | Some shareID => mret shareID
  | None =>
      query (requireActiveDevice (OwnerUserID i) (OwnerDeviceID i)) ;;
      query (requireOwnedFolder (OwnerUserID i) (NodeID i)) ;;
      active ← query (fun d => Ok (active_user (TargetUserID i) d));
      throw_if (negb active) (ESharing SharingErrTargetNotFound) ;;
      already ← query (fun d => Ok (already_shared (NodeID i) (TargetUserID i) d));
      throw_if already (ESharing SharingErrAlreadyShared) ;;
      query (requireEnvelopeTargets (NodeID i) (TargetUserID i) (Envelopes i)) ;;
      let shareID := newid 0 in
      let createdAt := clk 0 in
      exec_unique (ESharing SharingErrAlreadyShared)
        (insert_shares shareID
           (ShareRow (NodeID i) (OwnerUserID i) (TargetUserID i) (InPermission i)
              (match Envelopes i with e :: _ => Ciphertext e | [] => [] end)
              (match Envelopes i with e :: _ => EnvKeyVersion e | [] => 0%Z end)
              (Format createdAt) (OwnerUserID i) None)) ;;
      insertEnvelopes shareID (Envelopes i) 1 createdAt ;;
      exec (insert_processed_operations (OperationID i)
        (Operation (OwnerUserID i) (OwnerDeviceID i) "SHARE_CREATE" "OK" shareID
           (Format createdAt) (Format (createdAt + 30 * 24 * Hour)))) ;;
      mret shareID
  end.

Definition bad_envelope_count (envelopes : list DeviceEnvelope) : bool :=
  Nat.eqb (length envelopes) 0 || (maxEnvelopesPerRequest <? length envelopes)%nat.

Definition CreateGrant (i : CreateInput) : M DB Share :=
  throw_if (negb (ValidUUID (OwnerUserID i)) || negb (ValidUUID (OwnerDeviceID i)) || negb (ValidUUID (OperationID i))
            || negb (ValidUUID (NodeID i)) || negb (ValidUUID (TargetUserID i)))
    (NewValidation "share user, device, operation, and folder IDs must be valid UUIDs") ;;
  throw_if (negb (String.eqb (InPermission i) PermissionRead) && negb (String.eqb (InPermission i) PermissionReadWrite))
    (NewValidation "share permission must be READ or READ_WRITE") ;;
  throw_if (String.eqb (OwnerUserID i) (TargetUserID i) || bad_envelope_count (Envelopes i))
    (NewValidation ("a share needs a different recipient and 1 to " ++
                    FormatInt (Z.of_nat maxEnvelopesPerRequest) ++ " device envelopes")) ;;
  lift (validateEnvelopes (Envelopes i)) ;;
  shareID ← tx (grantTx i);
  query (GetOutgoing (OwnerUserID i) shareID).

Definition own_share (shareID ownerUserID : string) (d : DB) : option share_row :=
  match shares d !! shareID with
  | Some s => if String.eqb (share_owner_user_id s) ownerUserID then Some s else None
  | None => None
  end.

Definition AddEnvelopes (ownerUserID ownerDeviceID shareID : string) (envelopes : list DeviceEnvelope) : M DB Share :=
  throw_if (negb (ValidUUID ownerUserID) || negb (ValidUUID ownerDeviceID) || negb (ValidUUID shareID))
    (NewValidation "owner, device, and share IDs must be valid UUIDs") ;;
  throw_if (bad_envelope_count envelopes)
    (NewValidation ("send 1 to " ++ FormatInt (Z.of_nat maxEnvelopesPerRequest) ++ " device envelopes")) ;;
  lift (validateEnvelopes envelopes) ;;
  tx (
    query (requireActiveDevice ownerUserID ownerDeviceID) ;;
    s ← query (fun d => match own_share shareID ownerUserID d with
                        | Some s => if is_null (share_revoked_at s) then Ok s else Err (ESharing SharingErrNotFound)
                        | None => Err (ESharing SharingErrNotFound)
                        end);
    query (requireEnvelopeTargets (share_node_id s) (share_target_user_id s) envelopes) ;;
    insertEnvelopes shareID envelopes 0 (clk 0)) ;;
  query (GetOutgoing ownerUserID shareID).

Definition revoke_share (now : string) (s : share_row) : share_row :=
  ShareRow (share_node_id s) (share_owner_user_id s) (share_target_user_id s) (share_permission s)
    (share_key_envelope s) (share_key_version s) (share_created_at s) (share_created_by s) (Some now).
Definition revoke_envelope (now : string) (e : share_envelope_row) : share_envelope_row :=
  ShareEnvelope (se_share_id e) (se_target_device_id e) (se_key_version e) (se_ciphertext e) (se_created_at e)
    (Some now) (se_owner_identity_public_key e) (se_owner_signature e).

Definition Revoke (ownerUserID ownerDeviceID shareID : string) : M DB unit :=
  throw_if (negb (ValidUUID ownerUserID) || negb (ValidUUID ownerDeviceID) || negb (ValidUUID shareID))
    (NewValidation "owner, device, and share IDs must be valid UUIDs") ;;
  tx (
    query (requireActiveDevice ownerUserID ownerDeviceID) ;;
    let now := Format (clk 0) in
    found ← query (fun d => Ok (own_share shareID ownerUserID d));
    match found with
    | None => throw (ESharing SharingErrNotFound)
    | Some s =>
        if is_null (share_revoked_at s) then
          modify (upd_shares <[shareID := revoke_share now s]>) ;;
          modify (upd_share_device_envelopes
            (update_rows (fun _ e => String.eqb (se_share_id e) shareID && is_null (se_revoked_at e))
               (revoke_envelope now)))
        else mret tt
    end).
End sharing.
