(* ===== verification/SharingCorrect.v ===== *)
(** * Correctness of internal/sharing

    Folder keys: contiguous versions of one owner, never nested.  Shares: at
    most one active share per folder and recipient, effective at once, and
    gone at once when revoked. *)

From S2P Require Import Prelude GoText GoTime Uuid Schema Fixture Access Nodes NodesSpec NodesCorrect NodesRetry Sharing.
Local Open Scope string_scope.

(** ** Invariants *)

(** The key versions of a folder are 1, 2, .., n. *)
Definition keys_contiguous (d : DB) : Prop := forall f v,
  is_Some (folder_keys d !! (f, v)) ->
  (1 <= v)%Z /\ forall w, (1 <= w <= v)%Z -> is_Some (folder_keys d !! (f, w)).

Record keys_wf (d : DB) : Prop := {
  wf_owner : keys_ok d;
  wf_disjoint : keyed_disjoint d;
  wf_contiguous : keys_contiguous d;
}.

Definition active_share (d : DB) (k node target : string) : Prop := exists s,
  shares d !! k = Some s /\ share_node_id s = node /\ share_target_user_id s = target /\ share_revoked_at s = None.

Definition one_active_share (d : DB) : Prop := forall k1 k2 node target,
  active_share d k1 node target -> active_share d k2 node target -> k1 = k2.

Section correctness.
Context {U : UuidLib} {UL : UuidLaws U} {TP : TimeParser} (clk : nat -> Z) (newid : nat -> string).

(** ** Inversion of the checks *)

Lemma requireOwnedFolder_ok_inv o f d u : requireOwnedFolder o f d = Ok u ->
  exists r, nodes d !! f = Some r /\ node_owner_id r = o /\ node_type r = "DIRECTORY" /\ IsDeleted r = false.
Proof.
  unfold requireOwnedFolder. destruct (nodes d !! f) as [r|]; [|done].
  destruct (String.eqb_spec (node_owner_id r) o); [|done]. simpl.
  destruct (String.eqb_spec (node_type r) "DIRECTORY"); [|done]. simpl.
  destruct (IsDeleted r) eqn:E; [done|]. intros _. by exists r.
Qed.

Lemma exec_unique_ok_inv e f d u d' : exec_unique e f d = (Ok u, d') -> f d = Ok d'.
Proof. unfold exec_unique. by destruct (f d); intros [= <- <-]. Qed.

Lemma latest_of_nonneg f d : (0 <= latest_of f d)%Z.
Proof. unfold latest_of. induction (map _ _); simpl; lia. Qed.

Lemma latest_of_spec f d : keys_contiguous d ->
  forall v, is_Some (folder_keys d !! (f, v)) <-> (1 <= v <= latest_of f d)%Z.
Proof.
  intros Hc v. set (l := map (fun kv => kv.1.2) (select_rows (fun k _ => String.eqb k.1 f) (folder_keys d))).
  assert (Hl : forall w, w ∈ l <-> is_Some (folder_keys d !! (f, w))).
  { intros w. unfold l. rewrite list_elem_of_fmap. split.
    - intros ([[f' w'] r] & -> & [Hk E]%elem_of_select_rows). simpl in *. apply String.eqb_eq in E as ->. by exists r.
    - intros [r Hr]. exists ((f, w), r). split; [done|]. apply elem_of_select_rows. simpl. by rewrite String.eqb_refl. }
  change (latest_of f d) with (foldr Z.max 0%Z l). split.
  - intros Hv. pose proof Hv as Hv'. apply Hl, foldr_max_le in Hv'. apply Hc in Hv as [? _]. lia.
  - intros [H1 H2]. assert (Hm : foldr Z.max 0%Z l ∈ l) by (apply foldr_max_elem; lia).
    apply Hl, Hc in Hm as [_ Hm]. apply Hm. lia.
Qed.

(** ** Folder keys *)

Lemma CreateFolderKey_outcome o dev f v env d r d' :
  CreateFolderKey clk o dev f v env d = (r, d') ->
  d' = d \/ (ValidUUID f = true /\ folder_keys d !! (f, v) = None /\ v = (latest_of f d + 1)%Z /\
    (exists rf, nodes d !! f = Some rf /\ node_owner_id rf = o) /\
    (latest_of f d = 0%Z -> forbidNestedScope f d = Ok tt) /\
    d' = upd_folder_keys <[(f, v) := FolderKey o env (Format (clk 0)) dev]> d /\
    r = Ok (MkFolderKey f v env (clk 0))).
Proof.
  intros H. unfold CreateFolderKey in H.
  apply guard_outcome in H as [->|[Hids H]]; [by left|]. apply guard_outcome in H as [->|[_ H]]; [by left|].
  unfold mbind at 1, M_bind, tx in H.
  destruct (folderKeyTx clk o dev f v env d) as [[[k|]|e] d1] eqn:E; [| |injection H as _ <-; by left].
  - right. injection H as <- <-. unfold folderKeyTx in E. inv_ok E.
    match goal with HX : Ok _ = Ok ?x |- _ => injection HX as <- end.
    destruct (folder_keys d !! (f, v)) as [row|] eqn:Ek; [by destruct (bool_decide (fk_owner_envelope row = env)); inv_ok E|].
    inv_ok E. injection E as <-.
    repeat match goal with HX : Ok _ = Ok ?x |- _ => injection HX as <- end.
    match goal with HR : requireOwnedFolder _ _ _ = _ |- _ => apply requireOwnedFolder_ok_inv in HR as (rf & Hrf & Ho & _) end.
    match goal with HV : negb (_ =? _)%Z = false |- _ => apply negb_false_iff, Z.eqb_eq in HV end.
    match goal with HN : (if _ then _ else _) d = (Ok ?u, ?s') |- _ =>
      assert (s' = d /\ (latest_of f d = 0%Z -> forbidNestedScope f d = Ok tt)) as [-> Hnest] end.
    { destruct (Z.eqb_spec (latest_of f d) 0) as [Hz|Hz]; [|by inv_ok H4].
      inv_ok H4. by destruct a4. }
    match goal with HI : exec_unique _ _ _ = _ |- _ => apply exec_unique_ok_inv, constrained_ok_inv in HI as (_ & _ & _ & ->) end.
    apply orb_false_iff in Hids as [_ Hf%negb_false_iff]. split_and!; try done. by exists rf.
  - assert (Hd1 : d1 = d).
    { unfold folderKeyTx in E. inv_ok E.
      match goal with HX : Ok _ = Ok ?x |- _ => injection HX as <- end.
      destruct (folder_keys d !! (f, v)) as [row|]; [destruct (bool_decide (fk_owner_envelope row = env)); cbn [negb] in E; by inv_ok E|]. inv_ok E. discriminate E. }
    subst d1. unfold query in H. injection H as _ <-. by left.
Qed.

Lemma forbidNestedScope_disjoint f d b :
  forbidNestedScope f d = Ok tt -> forest (nodes d) -> keys_ok d ->
  below (nodes d) f b \/ below (nodes d) b f -> b <> f -> has_folder_key b d = false.
Proof.
  unfold forbidNestedScope. destruct (nodes d !! f) as [r|] eqn:Ef; [|done].
  intros H [_ Hpar] [Hempty _] Hb Hne. inv_ok H. destruct Hb as [Hb|Hb].
  - apply rtc_inv in Hb as [->|(p & (r' & Hr' & Hp) & Hb)]; [done|].
    assert (r' = r) as -> by congruence. rewrite Hp in H0. inv_ok H0.
    match goal with HN : NearestKeyedFolder p d = Ok ?x |- _ => destruct (String.eqb_spec x ""); [subst|done] end.
    destruct (Hpar _ _ _ Hr' Hp) as (rp & Hrp & _). destruct (below_exists _ _ _ _ Hpar Hb Hrp) as (rb & Hrb & _).
    by eapply NearestKeyedFolder_empty.
  - apply not_true_iff_false. intros HF.
    assert (HS : SubtreeHasKeyedFolder f d = Ok true) by (apply SubtreeHasKeyedFolder_true; split; eauto).
    match goal with HX : SubtreeHasKeyedFolder f d = Ok ?x, HY : (if ?x then _ else _) = _ |- _ =>
      rewrite HS in HX; injection HX as <-; discriminate HY end.
Qed.

Lemma has_folder_key_insert f v row d x :
  has_folder_key x (upd_folder_keys <[(f, v) := row]> d) = true -> x = f \/ has_folder_key x d = true.
Proof.
  intros (w & r & Hw)%has_folder_key_true. simpl in Hw. apply lookup_insert_Some in Hw as [[[= -> ->] _]|[_ Hw]]; [by left|].
  right. apply has_folder_key_true. eauto.
Qed.

(** Creating a folder key keeps the folder keys well formed, whatever the
    request answers: versions stay contiguous from 1, every key belongs to the
    owner of its folder, and no folder with a key ends up below another one. *)
Theorem CreateFolderKey_keeps_keys o dev f v env d r d' :
  forest (nodes d) -> keys_wf d -> CreateFolderKey clk o dev f v env d = (r, d') -> keys_wf d'.
Proof.
  intros Hforest [Hk Hd Hc] [->|(Hf & Hnone & -> & (rf & Hrf & Ho) & Hnest & -> & _)]%CreateFolderKey_outcome; [done|].
  pose proof (latest_of_spec f d Hc) as Hlatest. set (row := FolderKey _ _ _ _). split.
  - destruct Hk as [He Hown]. split.
    + intros w. simpl. apply ValidUUID_nonempty in Hf. by rewrite lookup_insert_ne by congruence.
    + intros f' w key r' Hkey Hr'. simpl in Hkey, Hr'.
      apply lookup_insert_Some in Hkey as [[[= <- _] <-]|[_ Hkey]]; [simplify_eq; done|]. by eapply Hown.
  - intros a b Hab Hne Ha Hb. simpl in Hab. destruct (decide (latest_of f d = 0%Z)) as [Hz|Hz].
    + specialize (Hnest Hz). apply has_folder_key_insert in Ha as [->|Ha], Hb as [->|Hb]; [done| | |by eapply Hd].
      * rewrite (forbidNestedScope_disjoint f d b) in Hb; auto; done.
      * rewrite (forbidNestedScope_disjoint f d a) in Ha; auto; done.
    + assert (Hhas : has_folder_key f d = true).
      { apply has_folder_key_true. destruct (proj2 (Hlatest (latest_of f d))) as [x Hx]; [|eauto].
        pose proof (latest_of_nonneg f d). lia. }
      eapply Hd; [exact Hab|done| |].
      * by apply has_folder_key_insert in Ha as [->|Ha].
      * by apply has_folder_key_insert in Hb as [->|Hb].
  - intros f' w Hw. simpl in *. destruct (decide (f' = f)) as [->|Hne].
    + assert (Hw' : (1 <= w <= latest_of f d + 1)%Z).
      { destruct (decide (w = (latest_of f d + 1)%Z)) as [->|Hne].
        - pose proof (latest_of_nonneg f d). lia.
        - rewrite lookup_insert_ne in Hw by congruence. apply Hlatest in Hw. lia. }
      split; [lia|]. intros x Hx. rewrite lookup_insert_is_Some'.
      destruct (decide (x = (latest_of f d + 1)%Z)) as [->|]; [by left|]. right. apply Hlatest. lia.
    + rewrite lookup_insert_ne in Hw by congruence. destruct (Hc _ _ Hw) as [? Hall]. split; [done|].
      intros x Hx. rewrite lookup_insert_ne by congruence. by apply Hall.
Qed.

(** What a successful request leaves behind. *)
Lemma CreateFolderKey_ok_inv o dev f v env d k d' :
  four_digit_year (clk 0) -> CreateFolderKey clk o dev f v env d = (Ok k, d') ->
  (negb (ValidUUID o) || negb (ValidUUID dev) || negb (ValidUUID f) = false /\ (v <? 1)%Z = false) /\
  requireActiveDevice o dev d' = Ok tt /\ requireOwnedFolder o f d' = Ok tt /\
  (exists row, folder_keys d' !! (f, v) = Some row /\ fk_owner_envelope row = env) /\
  folderKey o f v d' = Ok k.
Proof.
  intros Hclk H. unfold CreateFolderKey in H. inv_ok H.
  match goal with HV : (v <? 1)%Z || _ || _ = false |- _ => apply orb_false_iff in HV as [[HV _]%orb_false_iff _]; rename HV into Hv end.
  match goal with HT : folderKeyTx _ _ _ _ _ _ _ = (Ok ?x, _) |- _ => rename HT into E; rename x into res end.
  unfold folderKeyTx in E. inv_ok E.
  repeat match goal with HR : _ = Ok ?u |- _ => is_var u; match type of u with unit => destruct u end end.
  match goal with HX : Ok _ = Ok ?x |- _ => injection HX as <- end.
  destruct (folder_keys d !! (f, v)) as [row|] eqn:Ek.
  - destruct (decide (fk_owner_envelope row = env)) as [He|He];
      [rewrite bool_decide_eq_true_2 in E by done|rewrite bool_decide_eq_false_2 in E by done]; cbn [negb] in E; inv_ok E.
    subst res. inv_ok H. split_and!; try done; eauto.
  - inv_ok E. subst res. inv_ok H. subst k.
    match goal with HN : (if _ then _ else _) d = (Ok ?u, ?s') |- _ =>
      assert (s' = d) as -> by (destruct (_ =? 0)%Z; by inv_ok HN) end.
    match goal with HI : exec_unique _ _ _ = _ |- _ => apply exec_unique_ok_inv, constrained_ok_inv in HI as (_ & _ & _ & ->) end.
    split_and!; try done.
    + eexists. simpl. rewrite lookup_insert_eq. done.
    + unfold folderKey. simpl. rewrite lookup_insert_eq, String.eqb_refl. unfold scanFolderKey. simpl.
      by rewrite Parse_Format.
Qed.

Lemma CreateFolderKey_existing o dev f v env d row :
  negb (ValidUUID o) || negb (ValidUUID dev) || negb (ValidUUID f) = false -> (v <? 1)%Z = false ->
  (1 <= Z.of_nat (length env) <= maxEnvelopeSize)%Z ->
  requireActiveDevice o dev d = Ok tt -> requireOwnedFolder o f d = Ok tt -> folder_keys d !! (f, v) = Some row ->
  CreateFolderKey clk o dev f v env d =
    (if bool_decide (fk_owner_envelope row = env) then folderKey o f v d else Err (ESharing SharingErrKeyConflict), d).
Proof.
  intros Hids Hv Hlen Hdev Hown Hk. unfold CreateFolderKey. rewrite throw_if_bind by done. rewrite throw_if_bind.
  2: { rewrite Hv. destruct env; simpl in *; [lia|]. apply Z.ltb_ge. lia. }
  unfold mbind at 1, M_bind, tx, folderKeyTx, mbind, M_bind, query. rewrite Hdev, Hown, Hk. by destruct (bool_decide _).
Qed.

(** A folder key is written once: a successful request repeated with the
    same envelope answers the same key and changes nothing, and any other
    envelope for that version is refused as a conflict. *)
Theorem CreateFolderKey_once o dev f v env d k d' env' :
  four_digit_year (clk 0) -> CreateFolderKey clk o dev f v env d = (Ok k, d') ->
  (1 <= Z.of_nat (length env') <= maxEnvelopeSize)%Z ->
  CreateFolderKey clk o dev f v env' d' =
    (if bool_decide (env' = env) then Ok k else Err (ESharing SharingErrKeyConflict), d').
Proof.
  intros Hclk ((Hids & Hv) & Hdev & Hown & (row & Hrow & He) & Hkey)%CreateFolderKey_ok_inv Hlen; [|done].
  rewrite (CreateFolderKey_existing _ _ _ _ _ _ row) by done. rewrite He, Hkey.
  destruct (decide (env = env')); [rewrite !bool_decide_eq_true_2|rewrite !bool_decide_eq_false_2]; congruence.
Qed.

(** ** Envelopes *)

Lemma insert_envelope_ok_inv k r d d' : insert_share_device_envelopes k r d = Ok d' ->
  exists se, d' = upd_share_device_envelopes (fun _ => se) d /\ share_device_envelopes d ⊆ se.
Proof.
  unfold insert_share_device_envelopes. destruct (exists_row _ _).
  - intros [= <-]. exists (share_device_envelopes d). by destruct d.
  - intros (_ & Hf%fresh_key_true & _ & ->)%constrained_ok_inv.
    exists (<[k := r]> (share_device_envelopes d)). split; [by destruct d|]. by apply insert_subseteq.
Qed.

(** Storing envelopes adds rows to one table and touches nothing else. *)
Lemma insertEnvelopes_ok_inv sid envs n now d u d' :
  insertEnvelopes newid sid envs n now d = (Ok u, d') ->
  exists se, d' = upd_share_device_envelopes (fun _ => se) d /\ share_device_envelopes d ⊆ se.
Proof.
  revert n d; induction envs as [|e envs IH]; intros n d H; unfold insertEnvelopes in H; simpl in H; inv_ok H.
  - subst. exists (share_device_envelopes d'). by destruct d'.
  - match goal with HE : insert_share_device_envelopes _ _ _ = _ |- _ => apply insert_envelope_ok_inv in HE as (se & -> & Hse) end.
    destruct (IH (S n) _ H) as (se' & -> & Hse'). exists se'. split; [done|]. simpl in Hse'. by etrans.
Qed.

(** Every envelope of the request is stored, with its own contents. *)
Definition envelope_stored (d : DB) (sid : string) (e : DeviceEnvelope) : Prop := exists k r,
  share_device_envelopes d !! k = Some r /\ to_envelope r = e /\ se_share_id r = sid /\ se_revoked_at r = None.

Definition envelope_taken (d : DB) (sid : string) (e : DeviceEnvelope) : Prop := exists k r,
  share_device_envelopes d !! k = Some r /\ se_share_id r = sid /\
  se_target_device_id r = TargetDeviceID e /\ se_key_version r = EnvKeyVersion e.

Lemma insertEnvelopes_stored sid envs n now d u d' :
  insertEnvelopes newid sid envs n now d = (Ok u, d') ->
  NoDup (map (fun e => (TargetDeviceID e, EnvKeyVersion e)) envs) ->
  Forall (fun e => ~ envelope_taken d sid e) envs ->
  Forall (envelope_stored d' sid) envs.
Proof.
  revert n d; induction envs as [|e envs IH]; intros n d H Hnd Hfree; [constructor|].
  unfold insertEnvelopes in H. simpl in H. inv_ok H.
  apply NoDup_cons in Hnd as [Hnin Hnd]. apply Forall_cons in Hfree as [He Hfree].
  match goal with HE : insert_share_device_envelopes _ _ _ = Ok _ |- _ => rename HE into HI end.
  pose proof (insertEnvelopes_ok_inv _ _ (S n) _ _ _ _ H) as (se & Hd' & Hse).
  unfold insert_share_device_envelopes in HI. destruct (exists_row _ _) eqn:Ex.
  { exfalso. apply He. apply exists_row_true in Ex as (k & r & Hk & HP).
    apply andb_prop in HP as [[HP%String.eqb_eq HQ%String.eqb_eq]%andb_prop HV%Z.eqb_eq]. by exists k, r. }
  apply constrained_ok_inv in HI as (_ & Hf%fresh_key_true & _ & ->).
  constructor.
  - rewrite Hd'. exists (newid n). eexists. split.
    + simpl. eapply lookup_weaken; [|exact Hse]. simpl. by rewrite lookup_insert_eq.
    + split; [by destruct e|done].
  - eapply IH; [exact H|done|]. apply Forall_forall. intros e' He' (k & r & Hk & Hs & Hdv & Hv). simpl in Hk.
    rewrite Forall_forall in Hfree. specialize (Hfree e' He').
    apply lookup_insert_Some in Hk as [[_ <-]|[_ Hk]].
    + simpl in *. apply Hnin. rewrite Hdv, Hv. by apply (list_elem_of_fmap_2 (fun e => (TargetDeviceID e, EnvKeyVersion e))).
    + apply Hfree. by exists k, r.
Qed.

Lemma validateEnvelopes_from_ok_inv seen envs : validateEnvelopes_from seen envs = Ok tt ->
  NoDup (map (fun e => (TargetDeviceID e, EnvKeyVersion e)) envs) /\
  Forall (fun e => (TargetDeviceID e ++ "/" ++ FormatInt (EnvKeyVersion e))%string ∉ seen) envs.
Proof.
  revert seen; induction envs as [|e envs IH]; intros seen H; [by repeat constructor|]. simpl in H.
  destruct (_ || _) eqn:E1 in H; [done|]. destruct (_ || _) in H; [done|].
  apply orb_false_iff in E1 as [_ E1%bool_decide_eq_false]. apply IH in H as [Hnd Hs]. split.
  - constructor; [|done]. intros (e' & Heq & He')%list_elem_of_fmap. injection Heq as H1 H2.
    rewrite Forall_forall in Hs. apply (Hs _ He'). rewrite H1, H2. set_solver.
  - constructor; [done|]. eapply Forall_impl; [exact Hs|]. simpl. set_solver.
Qed.

(** ** Shares *)

Definition granted (i : CreateInput) (now : string) : share_row :=
  ShareRow (NodeID i) (OwnerUserID i) (TargetUserID i) (InPermission i)
    (match Envelopes i with e :: _ => Ciphertext e | [] => [] end)
    (match Envelopes i with e :: _ => EnvKeyVersion e | [] => 0%Z end) now (OwnerUserID i) None.

Definition granted_op (i : CreateInput) (now : Z) : operation_row :=
  Operation (OwnerUserID i) (OwnerDeviceID i) "SHARE_CREATE" "OK" (newid 0) (Format now) (Format (now + 30 * 24 * Hour)).

Lemma grantTx_ok_inv i d sid d' : grantTx clk newid i d = (Ok sid, d') ->
  (d' = d /\ replay i d = Ok (Some sid)) \/
  (processed_operations d !! OperationID i = None /\ sid = newid 0 /\
   requireActiveDevice (OwnerUserID i) (OwnerDeviceID i) d = Ok tt /\
   requireOwnedFolder (OwnerUserID i) (NodeID i) d = Ok tt /\ active_user (TargetUserID i) d = true /\
   already_shared (NodeID i) (TargetUserID i) d = false /\
   requireEnvelopeTargets (NodeID i) (TargetUserID i) (Envelopes i) d = Ok tt /\
   shares d !! newid 0 = None /\
   exists se, let d1 := upd_shares <[newid 0 := granted i (Format (clk 0))]> d in
     insertEnvelopes newid (newid 0) (Envelopes i) 1 (clk 0) d1 = (Ok tt, upd_share_device_envelopes (fun _ => se) d1) /\
     d' = upd_processed_operations <[OperationID i := granted_op i (clk 0)]> (upd_share_device_envelopes (fun _ => se) d1)).
Proof.
  unfold grantTx. intros H. inv_ok H. destruct a as [prev|]; inv_ok H; [left; by subst|right]. subst sid.
  repeat match goal with HR : _ = Ok ?u |- _ => is_var u; match type of u with unit => destruct u end end.
  repeat match goal with HX : Ok _ = Ok ?x |- _ => injection HX as <- end.
  match goal with HN : negb _ = false |- _ => apply negb_false_iff in HN end.
  match goal with HI : exec_unique _ _ _ = _ |- _ => apply exec_unique_ok_inv, constrained_ok_inv in HI as (_ & HF & _ & ->) end.
  match goal with HI : insert_processed_operations _ _ _ = _ |- _ => apply constrained_ok_inv in HI as (_ & _ & _ & ->) end.
  match goal with HI : insertEnvelopes _ _ _ _ _ _ = (Ok ?u, _) |- _ =>
    pose proof HI as HE; apply insertEnvelopes_ok_inv in HE as (se & -> & _); destruct u end.
  apply fresh_key_true in HF. split_and!; try done.
  - match goal with HR : replay _ _ = _ |- _ => unfold replay in HR; destruct (processed_operations d !! OperationID i); [|done] end.
    by destruct (_ || _).
  - exists se. done.
Qed.

Definition grant_guards (i : CreateInput) : list bool := [
  negb (ValidUUID (OwnerUserID i)) || negb (ValidUUID (OwnerDeviceID i)) || negb (ValidUUID (OperationID i))
    || negb (ValidUUID (NodeID i)) || negb (ValidUUID (TargetUserID i));
  negb (String.eqb (InPermission i) PermissionRead) && negb (String.eqb (InPermission i) PermissionReadWrite);
  String.eqb (OwnerUserID i) (TargetUserID i) || bad_envelope_count (Envelopes i) ].

Lemma CreateGrant_ok_iff i d s d' : CreateGrant clk newid i d = (Ok s, d') <->
  grant_guards i = [false; false; false] /\ validateEnvelopes (Envelopes i) = Ok tt /\
  exists sid, grantTx clk newid i d = (Ok sid, d') /\ GetOutgoing (OwnerUserID i) sid d' = Ok s.
Proof.
  unfold CreateGrant, grant_guards. split.
  - intros H. inv_ok H. destruct a2. split; [congruence|]. split; [done|]. eauto.
  - intros ([= H1 H2 H3] & Hv & sid & Ht & Hg).
    rewrite !throw_if_bind by done. unfold mbind, M_bind, lift, tx, query. by rewrite Hv, Ht, Hg.
Qed.

Lemma CreateGrant_outcome i d r d' : CreateGrant clk newid i d = (r, d') ->
  d' = d \/ exists sid, grantTx clk newid i d = (Ok sid, d') /\ validateEnvelopes (Envelopes i) = Ok tt /\
    String.eqb (OwnerUserID i) (TargetUserID i) = false.
Proof.
  intros H. unfold CreateGrant in H.
  apply guard_outcome in H as [->|[_ H]]; [by left|]. apply guard_outcome in H as [->|[_ H]]; [by left|].
  apply guard_outcome in H as [->|[[Hself _]%orb_false_iff H]]; [by left|].
  unfold mbind at 1, M_bind, lift in H. destruct (validateEnvelopes (Envelopes i)) as [[]|e]; [|by injection H as _ <-; left].
  apply tx_then_pure in H as [->|[sid H]]; [by left| |by intros a s']. right. eauto.
Qed.

(** The requests that write shares. *)
Inductive share_request :=
| RGrant (i : CreateInput)
| RAddEnvelopes (owner device share : string) (envelopes : list DeviceEnvelope)
| RRevoke (owner device share : string).

Definition share_handle (q : share_request) : M DB unit :=
  match q with
  | RGrant i => CreateGrant clk newid i ;; mret tt
  | RAddEnvelopes o dev sid envs => AddEnvelopes clk newid o dev sid envs ;; mret tt
  | RRevoke o dev sid => Revoke clk o dev sid
  end.

Lemma AddEnvelopes_outcome o dev sid envs d r d' : AddEnvelopes clk newid o dev sid envs d = (r, d') ->
  exists se, d' = upd_share_device_envelopes (fun _ => se) d /\ share_device_envelopes d ⊆ se.
Proof.
  intros H. unfold AddEnvelopes in H.
  assert (Hd : exists se, d = upd_share_device_envelopes (fun _ => se) d /\ share_device_envelopes d ⊆ se)
    by (exists (share_device_envelopes d); by destruct d).
  apply guard_outcome in H as [->|[_ H]]; [done|]. apply guard_outcome in H as [->|[_ H]]; [done|].
  unfold mbind at 1, M_bind, lift in H. destruct (validateEnvelopes envs) as [[]|e]; [|by injection H as _ <-].
  apply tx_then_pure in H as [->|[sid' H]]; [done| |by intros a s']. inv_ok H. by eapply insertEnvelopes_ok_inv.
Qed.

Lemma own_share_some sid o d s : own_share sid o d = Some s -> shares d !! sid = Some s /\ share_owner_user_id s = o.
Proof.
  unfold own_share. destruct (shares d !! sid) as [s'|]; [|done].
  destruct (String.eqb_spec (share_owner_user_id s') o); [|done]. by intros [= <-].
Qed.

Definition revoked (sid : string) (s : share_row) (d : DB) : DB :=
  upd_share_device_envelopes
    (update_rows (fun _ e => String.eqb (se_share_id e) sid && is_null (se_revoked_at e)) (revoke_envelope (Format (clk 0))))
    (upd_shares <[sid := revoke_share (Format (clk 0)) s]> d).

Lemma Revoke_outcome o dev sid d r d' : Revoke clk o dev sid d = (r, d') ->
  (d' = d /\ (r = Ok tt -> exists s, own_share sid o d = Some s /\ share_revoked_at s <> None)) \/
  (r = Ok tt /\ requireActiveDevice o dev d = Ok tt /\
   exists s, own_share sid o d = Some s /\ share_revoked_at s = None /\ d' = revoked sid s d).
Proof.
  intros H. unfold Revoke in H. unfold mbind at 1, M_bind, throw_if in H.
  destruct (_ || _); [injection H as <- <-; by left|].
  destruct r as [[]|e]; [|apply tx_err_inv in H; by left]. inv_ok H.
  match goal with HX : Ok _ = Ok ?x |- _ => injection HX as <- end.
  destruct (own_share sid o d) as [s|] eqn:Es; [|done]. destruct (share_revoked_at s) eqn:Er; simpl in H; inv_ok H.
  - left. split; [by subst|]. intros _. exists s. by rewrite Er.
  - right. match goal with HD : requireActiveDevice o dev d = Ok ?a |- _ => destruct a end.
    split_and!; try done. exists s. by subst.
Qed.

Lemma already_shared_false node target d : already_shared node target d = false ->
  forall k, ~ active_share d k node target.
Proof.
  intros H k (s & Hk & Hn & Ht & Hr). eapply exists_row_false in H; [|exact Hk].
  by rewrite Hn, Ht, Hr, !String.eqb_refl in H.
Qed.

(** A folder is shared with one account at most once at a time: whatever a
    sharing request answers, two active shares of one folder with one
    recipient are the same share. *)
Theorem share_handle_keeps_one_active q d r d' :
  one_active_share d -> share_handle q d = (r, d') -> one_active_share d'.
Proof.
  intros Hone H.
  assert (Hrun : forall A (m : M DB A) r1, (m ;; mret tt) d = (r1, d') -> exists r2, m d = (r2, d')).
  { intros A m r1. unfold mbind, M_bind. destruct (m d) as [[a|e] d1]; intros [= <- <-]; eauto. }
  destruct q as [i|o dev sid envs|o dev sid]; simpl in H.
  - apply Hrun in H as [r2 H]. apply CreateGrant_outcome in H as [->|(sid & H & _)]; [done|].
    apply grantTx_ok_inv in H as [[-> _]|(_ & -> & _ & _ & _ & Hno & _ & Hfresh & se & _ & ->)]; [done|].
    intros k1 k2 node target (s1 & H1 & Hn1 & Ht1 & Hr1) (s2 & H2 & Hn2 & Ht2 & Hr2). simpl in H1, H2.
    pose proof (already_shared_false _ _ _ Hno) as Hnone.
    apply lookup_insert_Some in H1 as [[<- <-]|[_ H1]], H2 as [[<- <-]|[_ H2]]; [done| | |].
    + destruct (Hnone k2). exists s2. simpl in *. by subst.
    + destruct (Hnone k1). exists s1. simpl in *. by subst.
    + apply (Hone k1 k2 node target); [by exists s1|by exists s2].
  - apply Hrun in H as [r2 H]. by apply AddEnvelopes_outcome in H as (se & -> & _).
  - apply Revoke_outcome in H as [[-> _]|(_ & _ & s & _ & _ & ->)]; [done|].
    assert (Hact : forall k node target, active_share (revoked sid s d) k node target -> active_share d k node target).
    { intros k node target (s1 & H1 & Hs). simpl in H1. apply lookup_insert_Some in H1 as [[<- <-]|[_ H1]].
      - by destruct Hs as (_ & _ & [=]).
      - by exists s1. }
    intros k1 k2 node target ?%Hact ?%Hact. by eapply Hone.
Qed.

Lemma active_permission_unique user node d k s :
  active_share d k node user -> shares d !! k = Some s ->
  (forall k', active_share d k' node user -> k' = k) -> active_permission user node d = Some (share_permission s).
Proof.
  intros Hact Hs Huniq. destruct (active_permission user node d) as [p|] eqn:E.
  - apply active_permission_some in E as (k' & s' & Hk' & Hn & Ht & Hr & <-).
    assert (k' = k) as -> by (apply Huniq; by exists s'). congruence.
  - destruct Hact as (s' & Hk & Hn & Ht & Hr). by destruct (proj1 (active_permission_none _ _ _) E k s').
Qed.

(** C32. A new share takes effect at once.  The owner's device is active, the
    folder is a live directory of the owner, and it was not shared with the
    recipient; afterwards the share is stored as requested, the recipient's
    access check grants exactly the requested permission on the folder, and
    every envelope of the request is stored for the recipient's devices. *)
Theorem CreateGrant_correct i d s d' :
  CreateGrant clk newid i d = (Ok s, d') -> processed_operations d !! OperationID i = None ->
  acyclic (nodes d) -> (forall e, ~ envelope_taken d (newid 0) e) ->
  (exists r, nodes d !! NodeID i = Some r /\ node_owner_id r = OwnerUserID i /\ node_type r = "DIRECTORY" /\ IsDeleted r = false) /\
  requireActiveDevice (OwnerUserID i) (OwnerDeviceID i) d = Ok tt /\
  (forall k, ~ active_share d k (NodeID i) (TargetUserID i)) /\
  nodes d' = nodes d /\ shares d' = <[newid 0 := granted i (Format (clk 0))]> (shares d) /\
  ShareGrant (TargetUserID i) (NodeID i) d' = Ok (Some (MkGrant (NodeID i) (InPermission i))) /\
  Forall (envelope_stored d' (newid 0)) (Envelopes i).
Proof.
  intros (_ & Hval & sid & H & _)%CreateGrant_ok_iff Hnew Hac Hfree.
  apply grantTx_ok_inv in H as [[_ H]|(_ & -> & Hdev & Hfold & _ & Hno & _ & Hfresh & se & Hse & ->)].
  { unfold replay in H. by rewrite Hnew in H. }
  apply requireOwnedFolder_ok_inv in Hfold as (r & Hr & Hfold).
  pose proof (already_shared_false _ _ _ Hno) as Hnone.
  split; [by exists r|]. split_and!; try done.
  - destruct (Hac (NodeID i)) as [l Hl].
    apply ShareGrant_some_iff. assert (exists l2, l = (NodeID i, r) :: l2) as [l2 ->] by (inversion Hl; simplify_eq; eauto).
    exists [], r, l2. split_and!; [done| |by constructor|by repeat constructor; apply Hfold].
    change (Some (Permission _)) with (Some (share_permission (granted i (Format (clk 0))))). cbn [RootID].
    apply (active_permission_unique _ _ _ (newid 0)).
    + eexists. simpl. rewrite lookup_insert_eq. split_and!; done.
    + simpl. by rewrite lookup_insert_eq.
    + intros k' (s' & Hk' & Hs'). simpl in Hk'. apply lookup_insert_Some in Hk' as [[<- _]|[_ Hk']]; [done|].
      destruct (Hnone k'). by exists s'.
  - apply validateEnvelopes_from_ok_inv in Hval as [Hnd _].
    apply (insertEnvelopes_stored _ _ _ _ _ _ _ Hse Hnd). apply Forall_forall. intros e _ Ht. by apply (Hfree e).
Qed.

(** Repeating a successful share request returns the same share and
    changes nothing. *)
Theorem CreateGrant_retry i d s d' :
  ValidUUID (newid 0) = true -> CreateGrant clk newid i d = (Ok s, d') -> CreateGrant clk newid i d' = (Ok s, d').
Proof.
  intros Hid (Hg & Hv & sid & H & Hout)%CreateGrant_ok_iff. apply CreateGrant_ok_iff. split_and!; try done.
  exists sid. split; [|done]. assert (Hrep : replay i d' = Ok (Some sid)).
  { apply grantTx_ok_inv in H as [[-> H]|(_ & -> & _ & _ & _ & _ & _ & _ & se & _ & ->)]; [done|].
    unfold replay. simpl. rewrite lookup_insert_eq. simpl. by rewrite !String.eqb_refl, Hid. }
  unfold grantTx, mbind, M_bind, query. by rewrite Hrep.
Qed.

(** C33. Revoking is immediate and complete.  The share was the owner's; once it
    is revoked no request of the recipient is granted through the shared
    folder, all envelopes of the share are revoked, other shares and their
    envelopes are as before, and revoking again changes nothing. *)
Theorem Revoke_correct o dev sid d d' :
  one_active_share d -> Revoke clk o dev sid d = (Ok tt, d') ->
  exists s s', shares d !! sid = Some s /\ share_owner_user_id s = o /\
    shares d' = <[sid := s']> (shares d) /\ share_revoked_at s' <> None /\ nodes d' = nodes d /\
    (share_revoked_at s = None ->
     (forall k g, ShareGrant (share_target_user_id s) k d' = Ok (Some g) -> RootID g <> share_node_id s) /\
     (forall k e, share_device_envelopes d' !! k = Some e -> se_share_id e = sid -> se_revoked_at e <> None) /\
     (forall k e, share_device_envelopes d !! k = Some e -> se_share_id e <> sid -> share_device_envelopes d' !! k = Some e)) /\
    Revoke clk o dev sid d' = (Ok tt, d').
Proof.
  intros Hone H. pose proof H as H0. apply Revoke_outcome in H0 as [[-> Hs]|(_ & Hdev & s & Hs & Hr & ->)].
  - destruct (Hs eq_refl) as (s & [Hk Ho]%own_share_some & Hr). exists s, s.
    split_and!; try done. by rewrite insert_id.
  - pose proof (own_share_some _ _ _ _ Hs) as [Hk Ho]. exists s, (revoke_share (Format (clk 0)) s).
    split_and!; try done; [intros _; split_and!|].
    + intros k g (l1 & r & l2 & _ & Hp & _)%ShareGrant_some_iff Heq.
      apply active_permission_some in Hp as (k' & s1 & Hk' & Hn & Ht & Hr1 & _). simpl in Hk'.
      apply lookup_insert_Some in Hk' as [[<- <-]|[Hne Hk']]; [done|]. apply Hne.
      apply (Hone _ _ (share_node_id s) (share_target_user_id s)); [by exists s|]. exists s1. split_and!; congruence.
    + intros k e He Hsid. simpl in He. rewrite lookup_update_rows in He.
      destruct (share_device_envelopes d !! k) as [e0|]; [|done]. injection He as <-.
      destruct (String.eqb_spec (se_share_id e0) sid) as [Heq|Hne].
      * by destruct (se_revoked_at e0) eqn:E; simpl; rewrite ?E.
      * by rewrite andb_false_l in Hsid.
    + intros k e He Hne. simpl. rewrite lookup_update_rows, He. simpl.
      by rewrite (proj2 (String.eqb_neq _ _) Hne).
    + unfold Revoke in H |- *. unfold mbind at 1, M_bind, throw_if in H. unfold mbind at 1, M_bind, throw_if.
      destruct (_ || _); [done|]. unfold tx, mbind, M_bind, query. change (requireActiveDevice o dev (revoked sid s d)) with
        (requireActiveDevice o dev d). rewrite Hdev. unfold own_share. simpl. rewrite lookup_insert_eq. simpl.
      by rewrite Ho, String.eqb_refl.
Qed.
End correctness.

(** ** Concrete runs *)

(** [family] before anything was shared. *)
Definition unshared : DB := upd_shares (fun _ => ∅) family.
Definition new_ids (i : nat) : string := match i with O => id5 | S O => op2 | _ => op3 end.

Definition keyed : DB := (CreateFolderKey (ticking noon) alice laptop id1 1 [x05] unshared).2.

Definition for_phone : DeviceEnvelope := MkDeviceEnvelope phone 1 [x09] (repeat x00 32) (repeat x00 64).
Definition share_id1 : CreateInput := MkCreateInput alice laptop op1 id1 bob "READ_WRITE" [for_phone].
Definition shared_db : DB := (CreateGrant (ticking noon) new_ids share_id1 keyed).2.
Definition revoked_db : DB := (Revoke (ticking noon) alice laptop id5 shared_db).2.

Lemma unshared_keys : keys_wf unshared.
Proof.
  assert (Hno : folder_keys unshared = ∅) by (vm_compute; reflexivity). split.
  - split; [intros v; by rewrite Hno|intros f v key r Hk; by rewrite Hno in Hk].
  - intros a b _ _ (v & r & Hv)%has_folder_key_true. by rewrite Hno in Hv.
  - intros f v [r Hr]. by rewrite Hno in Hr.
Qed.

Lemma unshared_forest : forest (nodes unshared).
Proof. apply forestb_sound. vm_compute. reflexivity. Qed.

Lemma key_created : exists k, CreateFolderKey (ticking noon) alice laptop id1 1 [x05] unshared = (Ok k, keyed).
Proof. apply run_ok. vm_compute. reflexivity. Qed.

Lemma CreateFolderKey_keeps_keys_witness : keys_wf keyed /\ is_valid (folder_keys keyed !! (id1, 1%Z)) = true.
Proof.
  split; [|vm_compute; reflexivity]. destruct key_created as [k Hk].
  exact (CreateFolderKey_keeps_keys (ticking noon) alice laptop id1 1 [x05] unshared (Ok k) keyed unshared_forest unshared_keys Hk).
Defined.

Lemma CreateFolderKey_once_witness : exists k,
  CreateFolderKey (ticking noon) alice laptop id1 1 [x05] keyed = (Ok k, keyed) /\
  CreateFolderKey (ticking noon) alice laptop id1 1 [x06] keyed = (Err (ESharing SharingErrKeyConflict), keyed).
Proof.
  destruct key_created as [k Hk]. exists k.
  assert (Hclk : four_digit_year (ticking noon 0)) by (unfold four_digit_year; vm_compute; split; [discriminate|reflexivity]).
  split.
  - exact (CreateFolderKey_once (ticking noon) alice laptop id1 1 [x05] unshared k keyed [x05] Hclk Hk ltac:(vm_compute; split; discriminate)).
  - exact (CreateFolderKey_once (ticking noon) alice laptop id1 1 [x05] unshared k keyed [x06] Hclk Hk ltac:(vm_compute; split; discriminate)).
Defined.

Lemma share_created : exists s, CreateGrant (ticking noon) new_ids share_id1 keyed = (Ok s, shared_db).
Proof. apply (run_ok (CreateGrant (ticking noon) new_ids share_id1) keyed). vm_compute. reflexivity. Qed.

Lemma keyed_empty : shares keyed = ∅ /\ share_device_envelopes keyed = ∅ /\ processed_operations keyed = ∅ /\
  forestb (nodes keyed) = true.
Proof. vm_compute. done. Qed.

Lemma keyed_one_active : one_active_share keyed.
Proof. intros k1 k2 n t (s & Hs & _). by rewrite (proj1 keyed_empty) in Hs. Qed.

Lemma share_handle_keeps_one_active_witness : one_active_share shared_db.
Proof.
  destruct share_created as [s Hs].
  apply (share_handle_keeps_one_active (ticking noon) new_ids (RGrant share_id1) keyed (Ok tt) shared_db keyed_one_active).
  simpl. unfold mbind, M_bind. rewrite Hs. reflexivity.
Defined.

Lemma CreateGrant_correct_witness :
  ShareGrant bob id1 shared_db = Ok (Some (MkGrant id1 "READ_WRITE")) /\ envelope_stored shared_db id5 for_phone.
Proof.
  destruct share_created as [s Hs]. destruct keyed_empty as (_ & He & Hp & Hf).
  destruct (CreateGrant_correct (ticking noon) new_ids share_id1 keyed s shared_db Hs) as (_ & _ & _ & _ & _ & Hg & Henv).
  - rewrite Hp. apply lookup_empty.
  - by apply forestb_sound.
  - intros e (k & r & Hk & _). by rewrite He in Hk.
  - split; [exact Hg|]. by apply Forall_cons in Henv as [Henv _].
Defined.

Lemma CreateGrant_retry_witness : exists s, CreateGrant (ticking noon) new_ids share_id1 shared_db = (Ok s, shared_db).
Proof.
  destruct share_created as [s Hs]. exists s.
  assert (Hid : ValidUUID (new_ids 0) = true) by (vm_compute; reflexivity).
  exact (CreateGrant_retry (ticking noon) new_ids share_id1 keyed s shared_db Hid Hs).
Defined.

Lemma share_revoked : Revoke (ticking noon) alice laptop id5 shared_db = (Ok tt, revoked_db).
Proof.
  assert (Hr : exists u, Revoke (ticking noon) alice laptop id5 shared_db = (Ok u, revoked_db))
    by (apply run_ok; vm_compute; reflexivity).
  by destruct Hr as [[] Hr].
Qed.

Lemma shared_one_active : one_active_share shared_db.
Proof.
  assert (Hsh : map_to_list (shares shared_db) = [(id5, granted share_id1 (Format noon))]) by (vm_compute; reflexivity).
  intros k1 k2 n t (s1 & H1 & _) (s2 & H2 & _).
  apply elem_of_map_to_list in H1, H2. rewrite Hsh in H1, H2.
  apply list_elem_of_singleton in H1, H2. congruence.
Qed.

Lemma Revoke_correct_witness :
  Revoke (ticking noon) alice laptop id5 revoked_db = (Ok tt, revoked_db) /\
  ShareGrant bob id1 revoked_db = Ok None.
Proof.
  destruct (Revoke_correct (ticking noon) alice laptop id5 shared_db revoked_db shared_one_active share_revoked)
    as (s & s' & _ & _ & _ & _ & _ & _ & H).
  split; [exact H|vm_compute; reflexivity].
Defined.
