(* ===== verification/Uploads.v ===== *)
(** * Package internal/uploads: chunked ciphertext uploads

    Models [internal/uploads/service.go] on [World], the database and the
    storage tree.  Paths are relative to the storage directory.  The file
    system does what it is asked to (a full or failing disk is not modelled);
    it fails when a file or directory is missing.  [clk i] is the [i]-th
    reading of the clock within one call, [newid i] the [i]-th identifier of
    [uuid.NewString]. *)

From S2P Require Import Prelude GoText GoTime Uuid Sha256 Schema Fixture Access.
From Stdlib Require Import Ascii.
Local Open Scope string_scope.

Definition MaxChunkCiphertextSize : Z := 8 * 1024 * 1024.
Definition maxChunkCount : Z := Z.shiftl 1 16.
Definition MaxOpenSessionsPerDevice : nat := 64.

Record Service := New { maxCiphertextSize : Z; abandonedAfter : Z }.

Record CreateInput := MkCreateInput {
  UserID : string; DeviceID : string; TargetNodeID : string; FileVersionID : string; BlobID : string;
  ExpectedRevision : option Z;
  ChunkSize : Z;
  ChunkCount : Z;
  MetadataKeyVersion : Z;
  MetadataCiphertext : list byte; WrappedFileKey : list byte; E2EEHeader : list byte;
}.

Record Session := MkSession {
  s_ID : string; s_BlobID : string; s_FileVersionID : string; s_Status : string;
  s_ChunkCount : Z;
  s_ReceivedChunks : list Z;
  s_ExpiresAt : Z;
}.

Record CompleteInput := MkCompleteInput {
  ci_UserID : string; ci_DeviceID : string; ci_OperationID : string; ci_KeyScopeID : string;
  ci_ExpectedRevision : option Z;
  ci_KeyVersion : Z;
  ci_SyncPayloadCiphertext : list byte;
}.

Record CompleteResult := MkCompleteResult { cr_BlobID : string; cr_FileVersionID : string; cr_Revision : Z }.

(** [dbSession]: the columns of a session the service reads. *)
Record dbSession := MkDbSession {
  ds_session : Session;
  targetNodeID : string;
  e2eeHeader : list byte;
  wrappedFileKey : list byte;
  metadataCiphertext : list byte;
  metadataKeyVersion : Z;
  expectedRevision : option Z;
  chunkSize : Z;
}.

(** ** Paths *)

Definition uploadDir (id : string) : string := "temp/uploads/" ++ id.
Definition chunkPath (id : string) (no : Z) : string := uploadDir id ++ "/" ++ FormatInt no ++ ".chunk".
Definition blobRelPath (blobID : string) : string := "blobs/" ++ blobID ++ ".hbxblob".

(** ** The file system *)

Definition MkdirAll (dir : string) : M World unit := modify (set_dirs (fun ds => {[ dir ]} ∪ ds)).

Definition in_dir (dir path : string) : bool := HasPrefix path (dir ++ "/").

Definition RemoveAll (dir : string) : M World unit := modify (fun w =>
  set_files (delete_rows (fun path _ => in_dir dir path)) (set_dirs (fun ds => ds ∖ {[ dir ]}) w)).

Definition Remove (path : string) : World -> World := set_files (delete path).

Definition ENOENT : error := Internal "no such file or directory".

(** [WriteFile] of a temporary name, then [Rename] over the final one. *)
Definition writeAtomic (dir path : string) (data : list byte) : M World unit := fun w =>
  if bool_decide (dir ∈ dirs w)
  then (Ok tt, set_files (fun fs => <[path := data]> (delete (path ++ ".new") fs)) w)
  else (Err ENOENT, w).

Definition db_query {A} (q : DB -> result A) : M World A := query (fun w => q (db w)).

Section uploads.
Context {U : UuidLib} {TP : TimeParser}.

Definition validUUID (v : string) : bool :=
  match uuid_parse v with Some parsed => String.eqb (uuid_string parsed) v | None => false end.

(** ** Sessions *)

Definition sessionForDevice (userID deviceID uploadID : string) (d : DB) : result dbSession :=
  match upload_sessions d !! uploadID with
  | None => Err (EUploads UploadsErrNotFound)
  | Some r =>
      if negb (String.eqb (us_user_id r) userID && String.eqb (us_device_id r) deviceID)
      then Err (EUploads UploadsErrNotFound)
      else match us_target_node_id r with
           | None => Err (Internal "sql: converting NULL to string is unsupported")
           | Some target =>
               expires ← Parse (us_expires_at r);
               Ok (MkDbSession
                     (MkSession uploadID (us_blob_id r) (us_file_version_id r) (us_status r) (us_chunk_count r) [] expires)
                     target (us_e2ee_header r) (us_wrapped_file_key r) (us_metadata_ciphertext r)
                     (us_metadata_key_version r) (us_expected_revision r) (us_chunk_size r))
           end
  end.

Definition authorizeFileWrite (userID ownerID nodeID : string) (d : DB) : result string :=
  if String.eqb ownerID userID then Ok ""
  else
    grant ← ShareGrant userID nodeID d;
    match grant with
    | Some g => if CanWrite g then Ok (RootID g) else Err (EUploads UploadsErrForbidden)
    | None => Err (EUploads UploadsErrForbidden)
    end.

(** [SELECT .. FROM nodes WHERE id=? AND node_type='FILE' AND deleted_at IS NULL]. *)
Definition live_file (nodeID : string) (d : DB) : option node_row :=
  match nodes d !! nodeID with
  | Some r => if String.eqb (node_type r) "FILE" && is_null (node_deleted_at r) then Some r else None
  | None => None
  end.

Definition active_device (userID deviceID : string) (d : DB) : bool :=
  match devices d !! deviceID with
  | Some r => String.eqb (device_user_id r) userID && is_null (device_revoked_at r)
  | None => false
  end.

Definition validateActorAndTarget (userID deviceID nodeID : string) (d : DB) : result unit :=
  if negb (active_device userID deviceID d) then Err (EUploads UploadsErrForbidden)
  else match live_file nodeID d with
       | None => Err (EUploads UploadsErrTargetNodeMissing)
       | Some r => authorizeFileWrite userID (node_owner_id r) nodeID d ;; Ok tt
       end.

(** The identifier check of [Create]. *)
Definition reserved (r : upload_session_row) : bool := one_of ["OPEN"; "COMMITTING"] (us_status r).
Definition ids_in_use (blobID versionID : string) (d : DB) : bool :=
  has (blobs d) blobID || has (file_versions d) versionID ||
  exists_row (fun _ r => (String.eqb (us_blob_id r) blobID || String.eqb (us_file_version_id r) versionID) && reserved r)
    (upload_sessions d).

Definition open_sessions (deviceID now : string) (d : DB) : nat :=
  count_rows (fun _ r => String.eqb (us_device_id r) deviceID && String.eqb (us_status r) "OPEN" &&
                         text_lt now (us_expires_at r)) (upload_sessions d).

Context (s : Service) (clk : nat -> Z) (newid : nat -> string).

Definition bad_framing (i : CreateInput) : bool :=
  negb (validUUID (TargetNodeID i)) || negb (validUUID (FileVersionID i)) || negb (validUUID (BlobID i))
  || match ExpectedRevision i with Some r => (r <? 0)%Z | None => true end
  || (ChunkCount i <? 1)%Z || (maxChunkCount <? ChunkCount i)%Z
  || (ChunkSize i <? 1)%Z || (MaxChunkCiphertextSize <? ChunkSize i)%Z.

Definition bad_crypto (i : CreateInput) : bool :=
  Nat.eqb (length (WrappedFileKey i)) 0 || Nat.eqb (length (E2EEHeader i)) 0
  || Nat.eqb (length (MetadataCiphertext i)) 0 || (MetadataKeyVersion i <? 1)%Z.

Definition createTx (i : CreateInput) (id : string) (now : Z) : M DB unit :=
  inUse ← query (fun d => Ok (ids_in_use (BlobID i) (FileVersionID i) d));
  throw_if inUse (EUploads UploadsErrIDConflict) ;;
  openSessions ← query (fun d => Ok (open_sessions (DeviceID i) (Format now) d));
  throw_if (MaxOpenSessionsPerDevice <=? openSessions)%nat (EUploads UploadsErrTooManyUploads) ;;
  exec (insert_upload_sessions id
    (UploadSession (UserID i) (DeviceID i) (Some (TargetNodeID i)) (FileVersionID i) (BlobID i) (ExpectedRevision i)
       (ChunkSize i) (ChunkCount i) (maxCiphertextSize s) (MetadataCiphertext i) (WrappedFileKey i) (E2EEHeader i)
       "OPEN" (Format now) (Format (now + abandonedAfter s)) None (MetadataKeyVersion i))).

Definition Create (i : CreateInput) : M World Session :=
  throw_if (bad_framing i) (NewValidation "invalid opaque upload framing") ;;
  throw_if (bad_crypto i) (NewValidation "encrypted metadata, wrapped file key, and E2EE header are required") ;;
  db_query (validateActorAndTarget (UserID i) (DeviceID i) (TargetNodeID i)) ;;
  throw_if (maxCiphertextSize s <? wrap64 (ChunkCount i * ChunkSize i))%Z
    (NewValidation "ciphertext framing exceeds the configured file limit") ;;
  let now := clk 0 in
  let id := newid 0 in
  on_db (tx (createTx i id now)) ;;
  MkdirAll (uploadDir id) ;;
  mret (MkSession id (BlobID i) (FileVersionID i) "OPEN" (ChunkCount i) [] (now + abandonedAfter s)).

(** [!s.now().Before(session.ExpiresAt)] or a status other than OPEN. *)
Definition not_open (session : Session) (now : Z) : bool :=
  negb (String.eqb (s_Status session) "OPEN") || (s_ExpiresAt session <=? now)%Z.

(** ** Chunks *)

Definition stored_digest (uploadID : string) (no : Z) (d : DB) : option string :=
  uc_ciphertext_sha256 <$> upload_chunks d !! (uploadID, no).

Definition PutChunk (userID deviceID uploadID : string) (chunkNo : Z) (ciphertext : list byte) : M World unit :=
  throw_if (negb (validUUID uploadID) || (chunkNo <? 0)%Z || Nat.eqb (length ciphertext) 0
            || (MaxChunkCiphertextSize <? Z.of_nat (length ciphertext))%Z)
    (NewValidation "invalid ciphertext chunk") ;;
  session ← db_query (sessionForDevice userID deviceID uploadID);
  throw_if (not_open (ds_session session) (clk 0)) (EUploads UploadsErrInvalidState) ;;
  throw_if (s_ChunkCount (ds_session session) <=? chunkNo)%Z (NewValidation "chunk number exceeds declared chunk count") ;;
  throw_if (chunkSize session <? Z.of_nat (length ciphertext))%Z (NewValidation "chunk exceeds the declared chunk size") ;;
  let digestText := hex_EncodeToString (Sum256 ciphertext) in
  existing ← db_query (fun d => Ok (stored_digest uploadID chunkNo d));
  match existing with
  | Some e => throw_if (negb (String.eqb e digestText)) (EUploads UploadsErrChunkConflict)
  | None =>
      writeAtomic (uploadDir uploadID) (chunkPath uploadID chunkNo) ciphertext ;;
      on_db (exec (insert_upload_chunks uploadID chunkNo
        (UploadChunk (Z.of_nat (length ciphertext)) digestText (chunkPath uploadID chunkNo) (Format (clk 1))))) ;;
      stored ← db_query (fun d => Ok (stored_digest uploadID chunkNo d));
      match stored with
      | None => throw (Internal "sql: no rows in result set")
      | Some e => throw_if (negb (String.eqb e digestText)) (EUploads UploadsErrChunkConflict)
      end
  end.

Definition chunk_rows (uploadID : string) (d : DB) : list ((string * Z) * upload_chunk_row) :=
  select_rows (fun k _ => String.eqb k.1 uploadID) (upload_chunks d).

Definition Get (userID deviceID uploadID : string) : M World Session :=
  session ← db_query (sessionForDevice userID deviceID uploadID);
  db_query (fun d =>
    let x := ds_session session in
    Ok (MkSession (s_ID x) (s_BlobID x) (s_FileVersionID x) (s_Status x) (s_ChunkCount x)
          (order_by Z.leb (map (fun kr => kr.1.2) (chunk_rows uploadID d))) (s_ExpiresAt x))).

Definition set_status (status : string) (completed : option string) (r : upload_session_row) : upload_session_row :=
  UploadSession (us_user_id r) (us_device_id r) (us_target_node_id r) (us_file_version_id r) (us_blob_id r)
    (us_expected_revision r) (us_chunk_size r) (us_chunk_count r) (us_max_ciphertext_size r)
    (us_metadata_ciphertext r) (us_wrapped_file_key r) (us_e2ee_header r) status (us_created_at r)
    (us_expires_at r) completed (us_metadata_key_version r).

Definition update_session (id : string) (f : upload_session_row -> upload_session_row) (d : DB) : DB :=
  match upload_sessions d !! id with
  | Some r => upd_upload_sessions <[id := f r]> d
  | None => d
  end.

Definition Abort_ (userID deviceID uploadID : string) : M World unit :=
  throw_if (negb (validUUID uploadID)) (EUploads UploadsErrNotFound) ;;
  session ← db_query (sessionForDevice userID deviceID uploadID);
  if negb (String.eqb (s_Status (ds_session session)) "OPEN") then mret tt
  else
    on_db (modify (update_session uploadID (fun r => set_status "ABORTED" (us_completed_at r) r))) ;;
    RemoveAll (uploadDir uploadID).

(** ** Reading committed versions *)

Definition OpenNodeBlob (nodeID fileVersionID : string) (d : DB) : result (string * Z) :=
  match file_versions d !! fileVersionID with
  | Some f =>
      if negb (String.eqb (fv_node_id f) nodeID) then Err (EUploads UploadsErrNotFound)
      else match blobs d !! fv_blob_id f with
           | Some b => Ok (blob_storage_rel_path b, blob_ciphertext_size b)
           | None => Err (EUploads UploadsErrNotFound)
           end
  | None => Err (EUploads UploadsErrNotFound)
  end.

Record FileVersionView := MkFileVersion {
  v_ID : string; v_NodeID : string; v_BlobID : string;
  v_E2EEHeader : list byte; v_WrappedFileKey : list byte;
  v_KeyScopeID : string; v_KeyVersion : Z;
  v_CreatedAt : Z; v_CreatedByDeviceID : string; v_Revision : Z;
  v_ChunkCount : Z; v_CiphertextSize : Z;
}.

Definition scanVersion (x : string * file_version_row * blob_row) : result FileVersionView :=
  let '(id, f, b) := x in
  created ← Parse (fv_created_at f);
  Ok (MkFileVersion id (fv_node_id f) (fv_blob_id f) (fv_e2ee_header f) (fv_wrapped_file_key f) (fv_key_scope_id f)
        (fv_key_version f) created (fv_created_by_device_id f) (fv_revision f) (blob_chunk_count b) (blob_ciphertext_size b)).

(** [ORDER BY f.created_at DESC, f.id DESC]. *)
Definition version_le (a b : string * file_version_row * blob_row) : bool :=
  let ca := fv_created_at a.1.2 in let cb := fv_created_at b.1.2 in
  text_lt cb ca || String.eqb ca cb && text_le b.1.1 a.1.1.

Definition ListVersions (nodeID : string) (d : DB) : result (list FileVersionView) :=
  rmap scanVersion (order_by version_le (List.concat (map (fun kf =>
    match blobs d !! fv_blob_id kf.2 with Some b => [(kf.1, kf.2, b)] | None => [] end)
    (select_rows (fun _ f => String.eqb (fv_node_id f) nodeID) (file_versions d))))).

(** ** Completion *)

Definition decodeResult (v : string) : result CompleteResult :=
  match Split v ":"%char with
  | [blobID; versionID; rev] =>
      if negb (uuid_validate blobID) || negb (uuid_validate versionID)
      then Err (Internal "invalid stored operation result")
      else revision ← ParseInt64 rev; Ok (MkCompleteResult blobID versionID revision)
  | _ => Err (Internal "invalid stored operation result")
  end.

Definition encodeResult (r : CompleteResult) : string :=
  cr_BlobID r ++ ":" ++ cr_FileVersionID r ++ ":" ++ FormatInt (cr_Revision r).

Definition replayCompletion (i : CompleteInput) (d : DB) : result (option CompleteResult) :=
  match processed_operations d !! ci_OperationID i with
  | None => Ok None
  | Some op =>
      if negb (String.eqb (op_user_id op) (ci_UserID i)) || negb (String.eqb (op_operation_type op) "UPLOAD_COMPLETE")
      then Err (NewValidation "operation ID has already been used")
      else r ← decodeResult (op_result_payload op); Ok (Some r)
  end.

Definition completedResult (versionID : string) (d : DB) : result CompleteResult :=
  match file_versions d !! versionID with
  | Some f => if has (blobs d) (fv_blob_id f) then Ok (MkCompleteResult (fv_blob_id f) versionID (fv_revision f))
              else Err (Internal "sql: no rows in result set")
  | None => Err (Internal "sql: no rows in result set")
  end.

Record ciphertextChunk := MkChunk { relativePath : string; digest : string }.

(** The row loop of [loadChunks]. *)
Fixpoint loadRows (uploadID : string) (count : Z) (rows : list ((string * Z) * upload_chunk_row))
    (paths : gmap Z ciphertextChunk) (total : Z) : result (gmap Z ciphertextChunk * Z) :=
  match rows with
  | [] => Ok (paths, total)
  | (k, r) :: rest =>
      let no := k.2 in
      if (no <? 0)%Z || (count <=? no)%Z then Err (EUploads UploadsErrMissingChunks)
      else if negb (String.eqb (uc_temp_rel_path r) (chunkPath uploadID no))
      then Err (Internal "invalid ciphertext chunk storage path")
      else loadRows uploadID count rest (<[no := MkChunk (uc_temp_rel_path r) (uc_ciphertext_sha256 r)]> paths)
             (wrap64 (total + uc_ciphertext_size r))
  end.

Definition loadChunks (uploadID : string) (count : Z) (d : DB) : result (list ciphertextChunk * Z) :=
  x ← loadRows uploadID count (chunk_rows uploadID d) ∅ 0;
  match mapM (fun no => x.1 !! no) (seqZ 0 count) with
  | Some paths => Ok (paths, x.2)
  | None => Err (EUploads UploadsErrMissingChunks)
  end.

(** The copy loop of [assembleCiphertext]: what ends up in the blob file. *)
Fixpoint copyChunks (chunks : list ciphertextChunk) (fs : gmap string (list byte)) : result (list byte) :=
  match chunks with
  | [] => Ok []
  | c :: rest =>
      match fs !! relativePath c with
      | None => Err ENOENT
      | Some data =>
          if negb (String.eqb (hex_EncodeToString (Sum256 data)) (digest c))
          then Err (Internal "stored ciphertext chunk digest mismatch")
          else tail ← copyChunks rest fs; Ok (data ++ tail)%list
      end
  end.

(** [O_EXCL], or a leftover without a committed blob replaced. *)
Definition createBlobFile (blobID destination : string) : M World unit := fun w =>
  if has (files w) destination && has (blobs (db w)) blobID then (Err (EUploads UploadsErrIDConflict), w)
  else (Ok tt, set_files <[destination := []]> w).

Definition writeChunks (destination : string) (chunks : list ciphertextChunk) : M World string := fun w =>
  match copyChunks chunks (files w) with
  | Ok data => (Ok (hex_EncodeToString (Sum256 data)), set_files <[destination := data]> w)
  | Err e => (Err e, Remove destination w)
  end.

Definition assembleCiphertext (blobID destination : string) (chunks : list ciphertextChunk) : M World string :=
  createBlobFile blobID destination ;; writeChunks destination chunks.

Definition publish (session : dbSession) (scope : option string) (revision : Z) (now : string) (r : node_row) : node_row :=
  NodeRow (node_owner_id r) (node_parent_id r) (node_type r) (metadataCiphertext session) (metadataKeyVersion session)
    scope (Some (s_FileVersionID (ds_session session))) revision (node_created_at r) now (node_deleted_at r).

(** [UPDATE nodes .. WHERE id=? AND revision=?] must change one row. *)
Definition publish_node (nodeID : string) (expected : Z) (f : node_row -> node_row) (d : DB) : result DB :=
  match nodes d !! nodeID with
  | Some r => if (node_revision r =? expected)%Z then Ok (upd_nodes <[nodeID := f r]> d)
              else Err (EUploads UploadsErrRevisionConflict)
  | None => Err (EUploads UploadsErrRevisionConflict)
  end.

(** The transaction; [false] when it only replays an earlier completion. *)
Definition completeTx (uploadID : string) (i : CompleteInput) (session : dbSession) (expected total : Z)
    (digest : string) : M DB (bool * CompleteResult) :=
  replay ← query (replayCompletion i);
  match replay with
  | Some r => mret (false, r)
  | None =>
      let x := ds_session session in
      let target := targetNodeID session in
      status ← query (fun d => match upload_sessions d !! uploadID with
                               | Some r => Ok (us_status r)
                               | None => Err (EUploads UploadsErrInvalidState)
                               end);
      throw_if (negb (String.eqb status "OPEN")) (EUploads UploadsErrInvalidState) ;;
      node ← query (fun d => match live_file target d with
                             | Some r => Ok r
                             | None => Err (EUploads UploadsErrTargetNodeMissing)
                             end);
      let ownerID := node_owner_id node in
      writeRoot ← query (authorizeFileWrite (ci_UserID i) ownerID target);
      throw_if (negb (node_revision node =? expected)%Z) (EUploads UploadsErrRevisionConflict) ;;
      query (ValidateKeyScope ownerID (ci_UserID i) writeRoot (ci_KeyScopeID i) (ci_KeyVersion i)) ;;
      query (ValidateKeyScope ownerID (ci_UserID i) writeRoot (ci_KeyScopeID i) (metadataKeyVersion session)) ;;
      let now := Format (clk 1) in
      exec (insert_blobs (s_BlobID x) (Blob total (blobRelPath (s_BlobID x)) digest 1 (s_ChunkCount x) now)) ;;
      revision ← exec_sync ownerID target "UPDATE" (ci_SyncPayloadCiphertext i) now;
      exec (insert_file_versions (s_FileVersionID x)
        (FileVersion target (s_BlobID x) (e2eeHeader session) (wrappedFileKey session) (ci_KeyScopeID i)
           (ci_KeyVersion i) now (ci_DeviceID i) revision)) ;;
      exec (publish_node target expected (publish session (StoredScope (ci_KeyScopeID i) ownerID) revision now)) ;;
      let result := MkCompleteResult (s_BlobID x) (s_FileVersionID x) revision in
      exec (insert_processed_operations (ci_OperationID i)
        (Operation (ci_UserID i) (ci_DeviceID i) "UPLOAD_COMPLETE" "OK" (encodeResult result) now
           (Format (clk 2 + 30 * 24 * Hour)))) ;;
      modify (update_session uploadID (set_status "COMPLETED" (Some now))) ;;
      mret (true, result)
  end.

Definition bad_completion (uploadID : string) (i : CompleteInput) : bool :=
  negb (validUUID uploadID) || negb (validUUID (ci_OperationID i)) || String.eqb (ci_KeyScopeID i) ""
  || (ci_KeyVersion i <? 1)%Z.

(** Everything before the blob file is touched: a final answer, or the
    session, the expected revision, its chunks and their total size. *)
Definition completionPlan (uploadID : string) (i : CompleteInput) (d : DB)
    : result (CompleteResult + dbSession * Z * list ciphertextChunk * Z) :=
  if bad_completion uploadID i then Err (NewValidation "invalid opaque completion request")
  else
    session ← sessionForDevice (ci_UserID i) (ci_DeviceID i) uploadID d;
    let x := ds_session session in
    if String.eqb (s_Status x) "COMPLETED" then r ← completedResult (s_FileVersionID x) d; Ok (inl r)
    else if not_open x (clk 0) then Err (EUploads UploadsErrInvalidState)
    else
      expected ← (match expectedRevision session, ci_ExpectedRevision i with
                  | Some e, _ => Ok e
                  | None, Some e => Ok e
                  | None, None => Err (NewValidation "expected revision is required")
                  end);
      if match ci_ExpectedRevision i with Some e => negb (e =? expected)%Z | None => false end
      then Err (NewValidation "completion revision does not match the upload session")
      else
        replay ← replayCompletion i d;
        match replay with
        | Some r => Ok (inl r)
        | None =>
            x' ← loadChunks uploadID (s_ChunkCount x) d;
            if (maxCiphertextSize s <? x'.2)%Z
            then Err (NewValidation "ciphertext exceeds configured file limit")
            else Ok (inr (session, expected, x'.1, x'.2))
        end.

(** The commit: unless it committed, the blob file is removed again. *)
Definition commitUpload (uploadID : string) (i : CompleteInput) (session : dbSession) (expected total : Z)
    (digest : string) : M World CompleteResult := fun w =>
  let blobPath := blobRelPath (s_BlobID (ds_session session)) in
  match on_db (tx (completeTx uploadID i session expected total digest)) w with
  | (Ok (true, r), w') => (RemoveAll (uploadDir uploadID) ;; mret r) w'
  | (Ok (false, r), w') => (Ok r, Remove blobPath w')
  | (Err e, w') => (Err e, Remove blobPath w')
  end.

Definition Complete (uploadID : string) (i : CompleteInput) : M World CompleteResult :=
  plan ← db_query (completionPlan uploadID i);
  match plan with
  | inl r => mret r
  | inr (session, expected, chunks, total) =>
      let blobID := s_BlobID (ds_session session) in
      digest ← assembleCiphertext blobID (blobRelPath blobID) chunks;
      commitUpload uploadID i session expected total digest
  end.
End uploads.
