(* ===== verification/UploadsStorage.v ===== *)
(** * Uploads never lose ciphertext

    The invariant of the storage tree: every committed blob has its file,
    with the recorded size and hash, and every received chunk of an open
    session has its own.  Every upload request keeps it, whatever it
    answers. *)

From S2P Require Import Prelude GoText GoTime Uuid Sha256 Schema Fixture Access NodesSpec Uploads.
From Stdlib Require Import Ascii.
Local Open Scope string_scope.

(** ** Lemmas: paths *)

Lemma string_app_inj_len a b x y :
  String.length a = String.length b -> a ++ x = b ++ y -> a = b /\ x = y.
Proof.
  revert b; induction a as [|c a IH]; intros [|c' b] Hlen E; try done.
  simpl in *. injection E as -> E. destruct (IH b) as [-> ->]; [lia|done|done].
Qed.

Lemma string_app_inj_l a x y : a ++ x = a ++ y -> x = y.
Proof. by intros [_ ?]%string_app_inj_len. Qed.

Lemma FormatInt_inj m n : (min_int64 <= m <= max_int64)%Z -> (min_int64 <= n <= max_int64)%Z ->
  FormatInt m = FormatInt n -> m = n.
Proof. intros Hm Hn E. apply ParseInt64_FormatInt in Hm, Hn. rewrite E in Hm. congruence. Qed.

Section paths.
Context {U : UuidLib} {UL : UuidLaws U}.

Lemma validUUID_length v : validUUID v = true -> String.length v = 36.
Proof. intros H. apply (ValidUUID_string v) in H as [u ->]. apply uuid_string_length. Qed.

Lemma uploadDir_inj u u' x y : validUUID u = true -> validUUID u' = true ->
  uploadDir u ++ x = uploadDir u' ++ y -> u = u' /\ x = y.
Proof.
  intros Hu Hu' E. unfold uploadDir in E. rewrite <- !string_app_assoc in E. apply string_app_inj_l in E.
  apply string_app_inj_len in E; [done|]. by rewrite !validUUID_length.
Qed.

Definition chunk_no (n : Z) : Prop := (0 <= n < 65536)%Z.

Lemma FormatInt_dot_inj m n x y : chunk_no m -> chunk_no n ->
  FormatInt m ++ String "." x = FormatInt n ++ String "." y -> m = n /\ x = y.
Proof.
  unfold chunk_no. intros Hm Hn E. apply (f_equal (fun s => Cut s ".")) in E.
  rewrite !Cut_app in E by (by apply no_char_FormatInt). injection E as E ->. split; [|done].
  apply FormatInt_inj; [unfold min_int64, max_int64; lia..|done].
Qed.

Lemma chunkPath_inj u u' m n : validUUID u = true -> validUUID u' = true -> chunk_no m -> chunk_no n ->
  chunkPath u m = chunkPath u' n -> u = u' /\ m = n.
Proof.
  unfold chunkPath. intros Hu Hu' Hm Hn [-> E]%uploadDir_inj; [|done..]. split; [done|].
  apply (string_app_inj_l "/") in E. by apply FormatInt_dot_inj in E as [-> _].
Qed.

Lemma chunkPath_new u u' m n : validUUID u = true -> validUUID u' = true -> chunk_no m -> chunk_no n ->
  chunkPath u m ++ ".new" <> chunkPath u' n.
Proof.
  unfold chunkPath. intros Hu Hu' Hm Hn E. rewrite <- !string_app_assoc in E.
  apply uploadDir_inj in E as [-> E]; [|done..]. apply (string_app_inj_l "/") in E.
  by apply FormatInt_dot_inj in E as [_ E].
Qed.

Lemma blobRelPath_inj b b' : validUUID b = true -> validUUID b' = true -> blobRelPath b = blobRelPath b' -> b = b'.
Proof.
  intros Hb Hb' E. apply (string_app_inj_l "blobs/") in E. apply string_app_inj_len in E as [-> _]; [done|].
  by rewrite !validUUID_length.
Qed.

Lemma blob_not_chunk b u n x : blobRelPath b <> chunkPath u n ++ x.
Proof. unfold blobRelPath, chunkPath, uploadDir. simpl. discriminate. Qed.

Lemma in_dir_blob u b : in_dir (uploadDir u) (blobRelPath b) = false.
Proof. reflexivity. Qed.

Lemma in_dir_chunk u u' n : validUUID u = true -> validUUID u' = true ->
  in_dir (uploadDir u) (chunkPath u' n) = true -> u = u'.
Proof.
  intros Hu Hu' [t E]%HasPrefix_true. unfold chunkPath in E. rewrite <- string_app_assoc in E.
  by apply uploadDir_inj in E as [-> _].
Qed.
End paths.

(** ** Lemmas: loading the chunks of a session *)

Definition to_chunk (c : upload_chunk_row) : ciphertextChunk := MkChunk (uc_temp_rel_path c) (uc_ciphertext_sha256 c).

Definition sum_sizes (cs : list upload_chunk_row) : Z := foldr (fun c acc => uc_ciphertext_size c + acc)%Z 0%Z cs.

Lemma wrap64_id z : (min_int64 <= z <= max_int64)%Z -> wrap64 z = z.
Proof. unfold wrap64, min_int64, max_int64. intros. rewrite Z.mod_small; lia. Qed.

Lemma sum_sizes_perm cs cs' : cs ≡ₚ cs' -> sum_sizes cs = sum_sizes cs'.
Proof. induction 1; simpl; lia. Qed.

Lemma sum_sizes_nonneg cs : Forall (fun c => 0 <= uc_ciphertext_size c)%Z cs -> (0 <= sum_sizes cs)%Z.
Proof. induction 1; simpl; lia. Qed.

Lemma sum_sizes_bound B cs : Forall (fun c => 0 <= uc_ciphertext_size c <= B)%Z cs ->
  (0 <= sum_sizes cs <= B * Z.of_nat (length cs))%Z.
Proof. induction 1; simpl; lia. Qed.

Lemma loadRows_range u count rows paths total x :
  loadRows u count rows paths total = Ok x -> Forall (fun kr => 0 <= kr.1.2 < count)%Z rows.
Proof.
  revert paths total; induction rows as [|[[u' n] c] rows IH]; intros paths total H; [constructor|]. simpl in H.
  destruct (_ || _) eqn:Eb in H; [done|]. destruct (negb _) in H; [done|].
  apply orb_false_iff in Eb as [?%Z.ltb_ge ?%Z.leb_gt]. constructor; [simpl; lia|by eapply IH].
Qed.

Lemma loadRows_ok_inv u count rows paths total paths' total' :
  loadRows u count rows paths total = Ok (paths', total') -> NoDup rows.*1 ->
  Forall (fun kr => kr.1.1 = u) rows -> Forall (fun kr => 0 <= uc_ciphertext_size kr.2)%Z rows ->
  (0 <= total)%Z -> (total + sum_sizes rows.*2 <= max_int64)%Z ->
  total' = (total + sum_sizes rows.*2)%Z /\
  (forall n c, ((u, n), c) ∈ rows -> paths' !! n = Some (to_chunk c)) /\
  (forall n, (forall c, ((u, n), c) ∉ rows) -> paths' !! n = paths !! n).
Proof.
  revert paths total; induction rows as [|[[u' n] c] rows IH]; intros paths total H Hnd Hu Hpos Ht Hsum; simpl in *;
    change (list_fmap (string * Z * upload_chunk_row)%type upload_chunk_row snd) with
      (fmap (FMap:=list_fmap) (snd : string * Z * upload_chunk_row -> _)) in *;
    change (list_fmap (string * Z * upload_chunk_row)%type (string * Z)%type fst) with
      (fmap (FMap:=list_fmap) (fst : string * Z * upload_chunk_row -> _)) in *.
  - injection H as -> ->. split_and!; [lia|set_solver|done].
  - apply NoDup_cons in Hnd as [Hnin Hnd]. apply Forall_cons in Hu as [E Hu]. simpl in E. subst u'. apply Forall_cons in Hpos as [Hc Hpos].
    simpl in Hc. destruct (_ || _) in H; [done|]. destruct (negb _) in H; [done|].
    assert (Hs0 : (0 <= sum_sizes rows.*2)%Z) by (by apply sum_sizes_nonneg, Forall_fmap).
    rewrite wrap64_id in H by (unfold min_int64; lia).
    apply IH in H as (-> & Hp & Hrest); [|done..|lia|lia]. split_and!; [lia| |].
    + intros m c' [Heq|Hm]%elem_of_cons; [|by apply Hp]. injection Heq as -> ->. rewrite Hrest.
      * by rewrite lookup_insert_eq.
      * intros c' Hc'. apply Hnin. by apply (list_elem_of_fmap_2 fst) in Hc'.
    + intros m Hm. rewrite Hrest by (intros c'; specialize (Hm c'); set_solver).
      apply lookup_insert_ne. intros ->. apply (Hm c). set_solver.
Qed.

(** The rows of chunks [0 .. count-1], in order. *)
Definition ordered_chunks (u : string) (count : Z) (d : DB) : option (list upload_chunk_row) :=
  mapM (fun n => upload_chunks d !! (u, n)) (seqZ 0 count).

Lemma chunk_rows_NoDup u d : NoDup (chunk_rows u d).*1.
Proof.
  unfold chunk_rows, select_rows. generalize (NoDup_fst_map_to_list (upload_chunks d)).
  generalize (map_to_list (upload_chunks d)). induction l as [|kr l IH]; simpl; [done|].
  intros [Hn Hnd]%NoDup_cons. destruct (String.eqb _ _); [|by apply IH]. simpl. constructor; [|by apply IH].
  intros (kr' & E & Hin)%list_elem_of_fmap. apply Hn. rewrite E. apply list_elem_of_fmap_2.
  apply list_elem_of_In, List.filter_In in Hin as [Hin _]. by apply list_elem_of_In.
Qed.

Lemma elem_of_chunk_rows u d k c : (k, c) ∈ chunk_rows u d <-> k.1 = u /\ upload_chunks d !! k = Some c.
Proof. unfold chunk_rows. rewrite elem_of_select_rows, String.eqb_eq. tauto. Qed.

Lemma ordered_chunks_perm u count d cs :
  ordered_chunks u count d = Some cs ->
  (forall n c, upload_chunks d !! (u, n) = Some c -> 0 <= n < count)%Z -> (chunk_rows u d).*2 ≡ₚ cs.
Proof.
  intros Hcs Hrange. set (l := seqZ 0 count) in *.
  assert (Hlen : length cs = length l) by (by apply length_mapM in Hcs).
  assert (Hp : chunk_rows u d ≡ₚ zip (map (fun n => (u, n)) l) cs).
  { apply NoDup_Permutation.
    - apply (NoDup_fmap_1 fst), chunk_rows_NoDup.
    - apply (NoDup_fmap_1 fst). change (map (fun n => (u, n)) l) with ((fun n => (u, n)) <$> l).
      rewrite fst_zip by (rewrite length_fmap; lia). apply (NoDup_fmap_2 _), NoDup_seqZ.
    - intros [[u' n] c]. rewrite elem_of_chunk_rows. simpl. split.
      + intros [-> Hc]. apply Hrange in Hc as Hn.
        apply mapM_Some_1 in Hcs. assert (Hl : l !! Z.to_nat n = Some n).
        { unfold l. rewrite lookup_seqZ_lt by lia. f_equal. lia. }
        destruct (Forall2_lookup_l _ _ _ _ _ Hcs Hl) as (c' & Hc' & E). rewrite Hc in E. injection E as <-.
        apply list_elem_of_lookup. exists (Z.to_nat n). apply lookup_zip_Some.
        by rewrite list_lookup_fmap, Hl.
      + intros Hin. apply list_elem_of_lookup in Hin as (j & Hj). apply lookup_zip_Some in Hj as [Hk Hc].
        rewrite list_lookup_fmap in Hk. destruct (l !! j) as [m|] eqn:El; [|done]. injection Hk as -> ->.
        apply mapM_Some_1 in Hcs. destruct (Forall2_lookup_l _ _ _ _ _ Hcs El) as (c' & Hc' & E).
        simplify_eq. done. }
  rewrite Hp. change (map (fun n => (u, n)) l) with ((fun n => (u, n)) <$> l). by rewrite snd_zip by (rewrite length_fmap; lia).
Qed.

Lemma mapM_chunks u d (f : Z -> option ciphertextChunk) l :
  (forall n, n ∈ l -> f n = to_chunk <$> upload_chunks d !! (u, n)) ->
  mapM f l = map to_chunk <$> mapM (fun n => upload_chunks d !! (u, n)) l.
Proof.
  induction l as [|n l IH]; intros H; [done|]. simpl. rewrite H by set_solver.
  destruct (upload_chunks d !! (u, n)); simpl; [|done]. rewrite IH by set_solver. clear IH. by destruct (mapM (M:=option) _ l).
Qed.

(** Loading succeeds only with every chunk present; the total is their sum. *)
Lemma loadChunks_ok_inv u count d chunks total B :
  loadChunks u count d = Ok (chunks, total) ->
  (forall n c, upload_chunks d !! (u, n) = Some c -> 0 <= uc_ciphertext_size c <= B)%Z ->
  (0 <= count)%Z -> (B * count <= max_int64)%Z -> (0 <= B)%Z ->
  exists cs, ordered_chunks u count d = Some cs /\ chunks = map to_chunk cs /\ total = sum_sizes cs.
Proof.
  unfold loadChunks. intros H HB Hcount Hmax HB0.
  apply rbind_ok_inv in H as ([paths tot] & Hrows & H). simpl in H.
  destruct (mapM (M:=option) _ _) as [ps|] eqn:Em; [|done]. injection H as <- <-.
  pose proof (loadRows_range _ _ _ _ _ _ Hrows) as Hrange. rewrite Forall_forall in Hrange.
  assert (Hrange' : forall n c, upload_chunks d !! (u, n) = Some c -> (0 <= n < count)%Z).
  { intros n c Hc. apply (Hrange ((u, n), c)). by apply elem_of_chunk_rows. }
  assert (Hsizes : Forall (fun kr => 0 <= uc_ciphertext_size kr.2 <= B)%Z (chunk_rows u d)).
  { apply Forall_forall. intros [[u' n] c] Hin. apply elem_of_chunk_rows in Hin as [E Hc]. simpl in *. subst. by eapply HB. }
  assert (Hlen : (length (chunk_rows u d) <= Z.to_nat count)).
  { rewrite <- (length_seqZ 0 count), <- (length_fmap (fun kr : string * Z * upload_chunk_row => kr.1.2)).
    apply submseteq_length, NoDup_submseteq.
    - apply (NoDup_fmap_1 (pair u)). rewrite <- list_fmap_compose.
      assert (E : (pair u ∘ (fun kr : string * Z * upload_chunk_row => kr.1.2)) <$> chunk_rows u d = (chunk_rows u d).*1).
      { apply list_fmap_ext. intros j [[u' n] c] Hj. apply list_elem_of_lookup_2, elem_of_chunk_rows in Hj as [E _]. simpl in *. by subst. }
      rewrite E. apply chunk_rows_NoDup.
    - intros n (kr & -> & Hin)%list_elem_of_fmap. apply elem_of_seqZ. apply Hrange in Hin. lia. }
  assert (Hsum : (0 <= sum_sizes (chunk_rows u d).*2 <= max_int64)%Z).
  { assert (Hb : Forall (fun c => 0 <= uc_ciphertext_size c <= B)%Z (chunk_rows u d).*2) by (by apply Forall_fmap).
    apply sum_sizes_bound in Hb. rewrite length_fmap in Hb. nia. }
  apply loadRows_ok_inv in Hrows as (-> & Hin & Hout); [|apply chunk_rows_NoDup| | |done|lia].
  2: { apply Forall_forall. intros [[u' n] c] Hin. by apply elem_of_chunk_rows in Hin as [? _]. }
  2: { eapply Forall_impl; [exact Hsizes|]. simpl. lia. }
  assert (Hps : Some ps = map to_chunk <$> ordered_chunks u count d).
  { rewrite <- Em. apply mapM_chunks. intros n _. destruct (upload_chunks d !! (u, n)) as [c|] eqn:Ec; simpl.
    - apply Hin. by apply elem_of_chunk_rows.
    - rewrite Hout; [apply lookup_empty|]. intros c Hc%elem_of_chunk_rows. naive_solver. }
  destruct (ordered_chunks u count d) as [cs|] eqn:Ecs; [|done]. injection Hps as ->. exists cs. split_and!; [done..|].
  simpl. apply sum_sizes_perm. by eapply ordered_chunks_perm.
Qed.

(** ** The invariant of the storage tree *)

Definition stored (w : World) (path : string) (size : Z) (sha : string) : Prop := exists data,
  files w !! path = Some data /\ Z.of_nat (length data) = size /\ hex_EncodeToString (Sum256 data) = sha.

Section storage.
Context {U : UuidLib} {UL : UuidLaws U} {TP : TimeParser}.

Definition session_wf (u : string) (r : upload_session_row) : Prop :=
  validUUID u = true /\ validUUID (us_blob_id r) = true /\
  (1 <= us_chunk_count r <= 65536)%Z /\ (1 <= us_chunk_size r <= MaxChunkCiphertextSize)%Z.

Definition chunk_wf (w : World) (u : string) (n : Z) (c : upload_chunk_row) : Prop := exists r,
  upload_sessions (db w) !! u = Some r /\ (0 <= n < us_chunk_count r)%Z /\ uc_temp_rel_path c = chunkPath u n /\
  (0 <= uc_ciphertext_size c <= us_chunk_size r)%Z /\
  (us_status r = "OPEN" -> stored w (chunkPath u n) (uc_ciphertext_size c) (uc_ciphertext_sha256 c)).

Definition blob_wf (w : World) (b : string) (row : blob_row) : Prop :=
  validUUID b = true /\ blob_storage_rel_path row = blobRelPath b /\
  stored w (blobRelPath b) (blob_ciphertext_size row) (blob_ciphertext_sha256 row).

Record storage_ok (w : World) : Prop := {
  st_sessions : forall u r, upload_sessions (db w) !! u = Some r -> session_wf u r;
  st_chunks : forall u n c, upload_chunks (db w) !! (u, n) = Some c -> chunk_wf w u n c;
  st_blobs : forall b row, blobs (db w) !! b = Some row -> blob_wf w b row;
}.

Lemma stored_frame w w' path size sha :
  files w' !! path = files w !! path -> stored w path size sha -> stored w' path size sha.
Proof. intros E (data & Hd & H). exists data. by rewrite E. Qed.

Lemma chunk_wf_no w u n c : storage_ok w -> upload_chunks (db w) !! (u, n) = Some c ->
  validUUID u = true /\ chunk_no n.
Proof.
  intros Hok Hc. destruct (st_chunks _ Hok _ _ _ Hc) as (r & Hr & Hn & _).
  destruct (st_sessions _ Hok _ _ Hr) as (Hu & _ & Hcount & _). split; [done|]. unfold chunk_no. lia.
Qed.

(** Changing one blob file that no row refers to. *)
Lemma storage_ok_blob_file w w' b :
  storage_ok w -> validUUID b = true -> blobs (db w) !! b = None -> db w' = db w ->
  (forall path, path <> blobRelPath b -> files w' !! path = files w !! path) -> storage_ok w'.
Proof.
  intros Hok Hb Hnone Hdb Hf. split; rewrite Hdb.
  - apply (st_sessions _ Hok).
  - intros u n c Hc. destruct (st_chunks _ Hok _ _ _ Hc) as (r & Hr & Hn & Hp & Hs & Hst).
    exists r. rewrite Hdb. split_and!; try done; [lia..|]. intros Ho. eapply stored_frame; [|by apply Hst].
    apply Hf. intros E. apply (blob_not_chunk b u n ""). by rewrite string_app_nil_r.
  - intros b' row Hrow. destruct (st_blobs _ Hok _ _ Hrow) as (Hv & Hp & Hst). split_and!; try done.
    eapply stored_frame; [|done]. apply Hf. intros E. apply blobRelPath_inj in E as ->; [congruence|done..].
Qed.

(** ** What each request does to the storage *)

Context (s : Service) (clk : nat -> Z) (newid : nat -> string).

Lemma db_query_bind {A B} (q : DB -> result A) (f : A -> M World B) w r w' :
  (db_query q ≫= f) w = (r, w') -> (exists a, q (db w) = Ok a /\ f a w = (r, w')) \/ (exists e, q (db w) = Err e /\ r = Err e /\ w' = w).
Proof.
  unfold mbind, M_bind, db_query, query. destruct (q (db w)) as [a|e]; [left; eauto|].
  intros [= <- <-]. right. eauto.
Qed.

Lemma throw_if_outcome {A} b e (m : M World A) w r w' :
  (throw_if b e ;; m) w = (r, w') -> (r = Err e /\ w' = w) \/ (b = false /\ m w = (r, w')).
Proof. unfold mbind, M_bind, throw_if. destruct b; [intros [= <- <-]; by left|by right]. Qed.

Lemma createTx_ok_inv i id now d u d' : createTx s i id now d = (Ok u, d') ->
  ids_in_use (BlobID i) (FileVersionID i) d = false /\
  (open_sessions (DeviceID i) (Format now) d < MaxOpenSessionsPerDevice) /\
  upload_sessions d !! id = None /\
  d' = upd_upload_sessions <[id := UploadSession (UserID i) (DeviceID i) (Some (TargetNodeID i)) (FileVersionID i)
       (BlobID i) (ExpectedRevision i) (ChunkSize i) (ChunkCount i) (maxCiphertextSize s) (MetadataCiphertext i)
       (WrappedFileKey i) (E2EEHeader i) "OPEN" (Format now) (Format (now + abandonedAfter s)) None
       (MetadataKeyVersion i)]> d.
Proof.
  unfold createTx. intros H. inv_ok H. injection H0 as <-. injection H2 as <-.
  apply constrained_ok_inv in H as (_ & Hf%fresh_key_true & _ & ->). apply Nat.leb_gt in H3. done.
Qed.

Lemma open_outcome i w r w' : Create s clk newid i w = (r, w') ->
  w' = w \/ (bad_framing i = false /\ bad_crypto i = false /\
    validateActorAndTarget (UserID i) (DeviceID i) (TargetNodeID i) (db w) = Ok tt /\ (exists x, r = Ok x) /\
    exists d', createTx s i (newid 0) (clk 0) (db w) = (Ok tt, d') /\
      w' = set_dirs (fun ds => {[ uploadDir (newid 0) ]} ∪ ds) (set_db d' w)).
Proof.
  intros H. unfold Create in H. apply throw_if_outcome in H as [[_ ->]|[Hf H]]; [by left|].
  apply throw_if_outcome in H as [[_ ->]|[Hc H]]; [by left|].
  apply db_query_bind in H as [([] & Hv & H)|(e & _ & _ & ->)]; [|by left].
  apply throw_if_outcome in H as [[_ ->]|[_ H]]; [by left|].
  unfold mbind at 1, M_bind, on_db, tx in H.
  destruct (createTx s i (newid 0) (clk 0) (db w)) as [[[]|e] d'] eqn:E.
  - injection H as <- <-. right. split_and!; eauto.
  - injection H as _ <-. left. by destruct w.
Qed.

Lemma PutChunk_outcome user dev u n data w r w' : PutChunk clk user dev u n data w = (r, w') ->
  w' = w \/ (validUUID u = true /\ upload_chunks (db w) !! (u, n) = None /\
    (exists row, upload_sessions (db w) !! u = Some row /\ (0 <= n < us_chunk_count row)%Z /\
      (Z.of_nat (length data) <= us_chunk_size row)%Z) /\
    let w1 := set_files (fun fs => <[chunkPath u n := data]> (delete (chunkPath u n ++ ".new") fs)) w in
    r = Ok tt /\ w' = set_db (upd_upload_chunks <[(u, n) := UploadChunk (Z.of_nat (length data))
      (hex_EncodeToString (Sum256 data)) (chunkPath u n) (Format (clk 1))]> (db w)) w1).
Proof.
  intros H. unfold PutChunk in H. apply throw_if_outcome in H as [[_ ->]|[Hb H]]; [by left|].
  apply orb_false_iff in Hb as [[[Hu%negb_false_iff Hn%Z.ltb_ge]%orb_false_iff _]%orb_false_iff _].
  apply db_query_bind in H as [(ss & Hs & H)|(e & _ & _ & ->)]; [|by left].
  apply throw_if_outcome in H as [[_ ->]|[Ho H]]; [by left|].
  apply throw_if_outcome in H as [[_ ->]|[Hc%Z.leb_gt H]]; [by left|].
  apply throw_if_outcome in H as [[_ ->]|[Hz%Z.ltb_ge H]]; [by left|].
  apply db_query_bind in H as [(ex & Hex & H)|(e & _ & _ & ->)]; [|by left]. injection Hex as <-.
  destruct (stored_digest u n (db w)) as [dg|] eqn:Ed.
  { left. unfold throw_if in H. by injection H. }
  unfold stored_digest in Ed. destruct (upload_chunks (db w) !! (u, n)) as [c|] eqn:Ec; [done|].
  unfold sessionForDevice in Hs. destruct (upload_sessions (db w) !! u) as [row|] eqn:Er; [|done].
  destruct (negb _) in Hs; [done|]. destruct (us_target_node_id row); [|done]. inv_ok Hs. subst ss. simpl in *.
  unfold mbind at 1, M_bind, writeAtomic in H. destruct (bool_decide _); [|injection H as _ <-; by left].
  right. split_and!; try done; [exists row; split_and!; [done|lia..]| |].
  all: unfold mbind, M_bind, on_db, exec, insert_upload_chunks, has in H; simpl in H; rewrite Ec in H; simpl in H;
    rewrite Er in H; simpl in H; unfold stored_digest in H; simpl in H; rewrite lookup_insert_eq in H; simpl in H;
    rewrite String.eqb_refl in H; by injection H as <- <-.
Qed.

(** The database after a completion, written out. *)
Definition completed (u : string) (i : CompleteInput) (ss : dbSession) (node : node_row) (total : Z) (sha : string) (d : DB) : DB :=
  let x := ds_session ss in
  let owner := node_owner_id node in
  let now := Format (clk 1) in
  let rev := (sync_sequence d + 1)%Z in
  update_session u (set_status "COMPLETED" (Some now))
  (upd_processed_operations <[ci_OperationID i := Operation (ci_UserID i) (ci_DeviceID i) "UPLOAD_COMPLETE" "OK"
      (encodeResult (MkCompleteResult (s_BlobID x) (s_FileVersionID x) rev)) now (Format (clk 2 + 30 * 24 * Hour))]>
  (upd_nodes <[targetNodeID ss := publish ss (StoredScope (ci_KeyScopeID i) owner) rev now node]>
  (upd_file_versions <[s_FileVersionID x := FileVersion (targetNodeID ss) (s_BlobID x) (e2eeHeader ss) (wrappedFileKey ss)
      (ci_KeyScopeID i) (ci_KeyVersion i) now (ci_DeviceID i) rev]>
  (append_change owner (targetNodeID ss) "UPDATE" (ci_SyncPayloadCiphertext i) now
  (upd_blobs <[s_BlobID x := Blob total (blobRelPath (s_BlobID x)) sha 1 (s_ChunkCount x) now]> d))))).

(** What a completion checks before it commits. *)
Record may_complete (u : string) (i : CompleteInput) (ss : dbSession) (expected : Z) (node : node_row) (d : DB) : Prop := {
  mc_new : processed_operations d !! ci_OperationID i = None;
  mc_open : exists row, upload_sessions d !! u = Some row /\ us_status row = "OPEN";
  mc_node : live_file (targetNodeID ss) d = Some node;
  mc_write : exists root, authorizeFileWrite (ci_UserID i) (node_owner_id node) (targetNodeID ss) d = Ok root /\
    ValidateKeyScope (node_owner_id node) (ci_UserID i) root (ci_KeyScopeID i) (ci_KeyVersion i) d = Ok tt /\
    ValidateKeyScope (node_owner_id node) (ci_UserID i) root (ci_KeyScopeID i) (metadataKeyVersion ss) d = Ok tt;
  mc_revision : node_revision node = expected;
  mc_blob : blobs d !! s_BlobID (ds_session ss) = None;
  mc_version : file_versions d !! s_FileVersionID (ds_session ss) = None;
  mc_counter : sync_sequence d <> max_int64;
}.

Lemma completeTx_ok_inv u i ss expected total sha d b r d' :
  completeTx clk u i ss expected total sha d = (Ok (b, r), d') ->
  (b = false /\ d' = d /\ replayCompletion i d = Ok (Some r)) \/
  (b = true /\ r = MkCompleteResult (s_BlobID (ds_session ss)) (s_FileVersionID (ds_session ss)) (sync_sequence d + 1) /\
   exists node, may_complete u i ss expected node d /\ d' = completed u i ss node total sha d).
Proof.
  unfold completeTx. intros H. inv_ok H. destruct a as [prev|].
  { inv_ok H. injection H as <- <-. by left. }
  inv_ok H. injection H as <- <-.
  repeat match goal with HR : _ = Ok ?v |- _ => is_var v; match type of v with unit => destruct v end end.
  repeat match goal with
  | HI : insert_blobs _ _ _ = _ |- _ => apply constrained_ok_inv in HI as (_ & [?%fresh_key_true _]%andb_prop & _ & ->)
  | HI : insert_file_versions _ _ _ = _ |- _ => apply constrained_ok_inv in HI as (_ & ?%fresh_key_true & _ & ->)
  | HI : insert_processed_operations _ _ _ = _ |- _ => apply constrained_ok_inv in HI as (_ & ?%fresh_key_true & _ & ->)
  | HI : exec_sync _ _ _ _ _ _ = _ |- _ => apply exec_sync_ok_inv in HI as (? & -> & ->)
  | HI : negb (String.eqb _ _) = false |- _ => apply negb_false_iff, String.eqb_eq in HI
  | HI : negb (_ =? _)%Z = false |- _ => apply negb_false_iff, Z.eqb_eq in HI
  end.
  match goal with HP : publish_node _ _ _ _ = _ |- _ => unfold publish_node in HP; simpl in HP end.
  match goal with HL : match live_file ?t ?dd with _ => _ end = Ok ?n |- _ =>
    destruct (live_file t dd) as [node|] eqn:El; [|done]; injection HL as <- end.
  pose proof El as Hn. unfold live_file in Hn. destruct (nodes d !! targetNodeID ss) as [node'|] eqn:En; [|done].
  destruct (_ && _) in Hn; [|done]. injection Hn as ->.
  match goal with HP : (if _ then _ else _) = Ok _ |- _ => destruct (_ =? _)%Z in HP; [|done]; injection HP as <- end.
  destruct (upload_sessions d !! u) as [row|] eqn:Eu; [|done].
  right. split_and!; [done|done|]. exists node. split; [|done].
  split; eauto. exists row. split; [done|]. congruence.
Qed.

(** A plan to assemble: the session is open and matches the request. *)
Lemma completionPlan_ok_inv u i d ss expected chunks total :
  completionPlan s clk u i d = Ok (inr (ss, expected, chunks, total)) ->
  validUUID u = true /\ validUUID (ci_OperationID i) = true /\
  sessionForDevice (ci_UserID i) (ci_DeviceID i) u d = Ok ss /\
  s_Status (ds_session ss) = "OPEN" /\ (clk 0 < s_ExpiresAt (ds_session ss))%Z /\
  (expectedRevision ss = Some expected \/ expectedRevision ss = None /\ ci_ExpectedRevision i = Some expected) /\
  replayCompletion i d = Ok None /\
  loadChunks u (s_ChunkCount (ds_session ss)) d = Ok (chunks, total) /\ (total <= maxCiphertextSize s)%Z.
Proof.
  unfold completionPlan. destruct (bad_completion u i) eqn:E0; [done|]. unfold bad_completion in E0.
  apply orb_false_iff in E0 as [[[Hu%negb_false_iff Hop%negb_false_iff]%orb_false_iff _]%orb_false_iff _].
  intros H. apply rbind_ok_inv in H as (ss' & Hs & H). simpl in H.
  destruct (String.eqb _ "COMPLETED"); [by apply rbind_ok_inv in H as (x & _ & [=])|].
  destruct (not_open _ _) eqn:Eo; [done|]. apply orb_false_iff in Eo as [Eo%negb_false_iff%String.eqb_eq Et%Z.leb_gt].
  apply rbind_ok_inv in H as (e & He & H). destruct (match ci_ExpectedRevision i with Some _ => _ | None => _ end) in H; [done|].
  apply rbind_ok_inv in H as (rp & Hrp & H). destruct rp; [done|].
  apply rbind_ok_inv in H as ([ch tot] & Hl & H). simpl in H. destruct (Z.ltb_spec (maxCiphertextSize s) tot); [done|].
  injection H as -> -> -> ->. split_and!; try done.
  destruct (expectedRevision ss); [left; congruence|right]. destruct (ci_ExpectedRevision i); [split; congruence|done].
Qed.

Lemma sessionForDevice_ok_inv user dev u d ss : sessionForDevice user dev u d = Ok ss ->
  exists row target, upload_sessions d !! u = Some row /\ us_user_id row = user /\ us_device_id row = dev /\
    us_target_node_id row = Some target /\ targetNodeID ss = target /\
    s_BlobID (ds_session ss) = us_blob_id row /\ s_FileVersionID (ds_session ss) = us_file_version_id row /\
    s_Status (ds_session ss) = us_status row /\ s_ChunkCount (ds_session ss) = us_chunk_count row /\
    expectedRevision ss = us_expected_revision row /\ e2eeHeader ss = us_e2ee_header row /\
    wrappedFileKey ss = us_wrapped_file_key row /\ metadataCiphertext ss = us_metadata_ciphertext row /\
    metadataKeyVersion ss = us_metadata_key_version row.
Proof.
  unfold sessionForDevice. destruct (upload_sessions d !! u) as [row|]; [|done].
  destruct (negb _) eqn:E; [done|]. apply negb_false_iff, andb_prop in E as [Eu%String.eqb_eq Ed%String.eqb_eq].
  destruct (us_target_node_id row) as [target|] eqn:Et; [|done]. intros H. inv_ok H. subst ss. exists row, target. simpl. by rewrite Et.
Qed.

(** What a completion does to the machine: nothing, a leftover blob file
    rewritten or removed, or the committed state. *)
Lemma Complete_outcome u i w r w' : Complete s clk u i w = (r, w') ->
  (w' = w /\ forall res, r = Ok res -> completionPlan s clk u i (db w) = Ok (inl res)) \/
  exists ss expected chunks total,
    completionPlan s clk u i (db w) = Ok (inr (ss, expected, chunks, total)) /\
    let dest := blobRelPath (s_BlobID (ds_session ss)) in
    has (files w) dest && has (blobs (db w)) (s_BlobID (ds_session ss)) = false /\
    ((db w' = db w /\ is_ok r = false /\ (forall path, path <> dest -> files w' !! path = files w !! path)) \/
     exists data node, copyChunks chunks (<[dest := []]> (files w)) = Ok data /\
       let sha := hex_EncodeToString (Sum256 data) in
       may_complete u i ss expected node (db w) /\
       r = Ok (MkCompleteResult (s_BlobID (ds_session ss)) (s_FileVersionID (ds_session ss)) (sync_sequence (db w) + 1)) /\
       w' = set_files (delete_rows (fun path _ => in_dir (uploadDir u) path))
              (set_dirs (fun ds => ds ∖ {[ uploadDir u ]})
                (MkWorld (completed u i ss node total sha (db w)) (<[dest := data]> (<[dest := []]> (files w))) (dirs w)))).
Proof.
  intros H. unfold Complete in H. apply db_query_bind in H as [(plan & Hp & H)|(e & _ & -> & ->)]; [|by left].
  destruct plan as [res|[[[ss expected] chunks] total]].
  { injection H as <- <-. left. split; [done|]. by intros res' [= <-]. }
  set (dest := blobRelPath (s_BlobID (ds_session ss))) in *. unfold assembleCiphertext, mbind, M_bind, createBlobFile in H.
  destruct (has (files w) dest && _) eqn:Ex; [injection H as <- <-; by left|].
  right. exists ss, expected, chunks, total. split; [done|]. cbn zeta. split; [done|].
  unfold writeChunks in H. simpl in H. destruct (copyChunks chunks _) as [data|e] eqn:Ec.
  2: { left. injection H as <- <-. simpl. split_and!; [done|done|].
       intros path Hne. by rewrite lookup_delete_ne, lookup_insert_ne by (by apply not_eq_sym). }
  unfold commitUpload, on_db in H. simpl in H. unfold tx in H.
  destruct (completeTx _ _ _ _ _ _ _ _) as [[[b res]|e] d'] eqn:Et.
  2: { left. injection H as <- <-. simpl. split_and!; [done|done|].
       intros path Hne. by rewrite lookup_delete_ne, !lookup_insert_ne by (by apply not_eq_sym). }
  apply completeTx_ok_inv in Et as [(-> & -> & Hr)|(-> & -> & node & Hm & ->)].
  - apply completionPlan_ok_inv in Hp as (_ & _ & _ & _ & _ & _ & Hnone & _). simpl in Hr. congruence.
  - right. exists data, node. split; [done|]. cbn zeta. split; [done|]. by injection H as <- <-.
Qed.

(** ** The ciphertext of an upload *)

(** The chunk files of an upload, in order. *)
Definition chunk_files (u : string) (count : Z) (w : World) : option (list (list byte)) :=
  mapM (fun n => files w !! chunkPath u n) (seqZ 0 count).

Lemma copyChunks_spec u w fs ns cs :
  (forall n, n ∈ ns -> fs !! chunkPath u n = files w !! chunkPath u n) ->
  Forall2 (fun n c => uc_temp_rel_path c = chunkPath u n /\
    stored w (chunkPath u n) (uc_ciphertext_size c) (uc_ciphertext_sha256 c)) ns cs ->
  exists pieces, mapM (fun n => files w !! chunkPath u n) ns = Some pieces /\
    copyChunks (map to_chunk cs) fs = Ok (List.concat pieces) /\
    Z.of_nat (length (List.concat pieces)) = sum_sizes cs.
Proof.
  intros Hfs H. induction H as [|n c ns cs (Hp & data & Hd & Hl & Hh) _ IH]; [by exists []|].
  destruct IH as (pieces & Hm & Hc & Hlen); [intros m Hm; apply Hfs; set_solver|].
  exists (data :: pieces). split_and!.
  - cbn [mapM]. rewrite Hd. simpl. by rewrite Hm.
  - simpl. rewrite Hp, Hfs, Hd by set_solver. rewrite Hh, String.eqb_refl. simpl. by rewrite Hc.
  - simpl. rewrite length_app, Nat2Z.inj_add. lia.
Qed.

(** In a sound storage a plan always assembles, and to the recorded size. *)
Lemma assembled u i w ss expected chunks total b :
  storage_ok w -> completionPlan s clk u i (db w) = Ok (inr (ss, expected, chunks, total)) ->
  exists pieces, chunk_files u (s_ChunkCount (ds_session ss)) w = Some pieces /\
    copyChunks chunks (<[blobRelPath b := []]> (files w)) = Ok (List.concat pieces) /\
    Z.of_nat (length (List.concat pieces)) = total.
Proof.
  intros Hok Hp. apply completionPlan_ok_inv in Hp as (Hu & _ & Hs & Ho & _ & _ & _ & Hl & _).
  apply sessionForDevice_ok_inv in Hs as (row & target & Hrow & _ & _ & _ & _ & _ & _ & Hst & Hcnt & _).
  destruct (st_sessions _ Hok _ _ Hrow) as (_ & _ & Hcount & Hsize). rewrite Hst in Ho. rewrite Hcnt in *.
  assert (Hchunk : forall n c, upload_chunks (db w) !! (u, n) = Some c ->
    (0 <= n < us_chunk_count row)%Z /\ uc_temp_rel_path c = chunkPath u n /\ (0 <= uc_ciphertext_size c <= us_chunk_size row)%Z /\
    stored w (chunkPath u n) (uc_ciphertext_size c) (uc_ciphertext_sha256 c)).
  { intros n c Hc. destruct (st_chunks _ Hok _ _ _ Hc) as (r & Hr & Hn & Hpath & Hsz & Hstored). simplify_eq. eauto. }
  apply (loadChunks_ok_inv _ _ _ _ _ (us_chunk_size row)) in Hl as (cs & Hcs & -> & ->).
  - apply copyChunks_spec.
    + intros n _. apply lookup_insert_ne. intros E. apply (blob_not_chunk b u n ""). by rewrite string_app_nil_r.
    + apply mapM_Some_1 in Hcs. eapply Forall2_impl; [exact Hcs|]. intros n c Hc. by apply Hchunk in Hc as (_ & ? & _ & ?).
  - intros n c Hc. by apply Hchunk in Hc as (_ & _ & ? & _).
  - lia.
  - unfold max_int64, MaxChunkCiphertextSize in *. nia.
  - lia.
Qed.

Lemma update_session_lookup u f d v row :
  upload_sessions (update_session u f d) !! v = Some row ->
  exists row0, upload_sessions d !! v = Some row0 /\ row = (if String.eqb v u then f row0 else row0).
Proof.
  unfold update_session. destruct (upload_sessions d !! u) as [r|] eqn:Eu; simpl.
  - intros [[<- <-]|[Hne Hv]]%lookup_insert_Some; [exists r; by rewrite String.eqb_refl|].
    exists row. split; [done|]. by rewrite (proj2 (String.eqb_neq v u)) by congruence.
  - intros Hv. exists row. split; [done|]. destruct (String.eqb_spec v u); [congruence|done].
Qed.

Lemma update_session_Some u f d v row :
  upload_sessions d !! v = Some row ->
  upload_sessions (update_session u f d) !! v = Some (if String.eqb v u then f row else row).
Proof.
  unfold update_session. intros Hv. destruct (String.eqb_spec v u) as [->|Hne].
  - rewrite Hv. simpl. by rewrite lookup_insert_eq.
  - destruct (upload_sessions d !! u); simpl; [by rewrite lookup_insert_ne|done].
Qed.

Lemma update_session_other u f d : upload_chunks (update_session u f d) = upload_chunks d /\ blobs (update_session u f d) = blobs d.
Proof. unfold update_session. by destruct (upload_sessions d !! u). Qed.

(** Closing a session and removing its directory. *)
Lemma storage_ok_close w u status at_ d' :
  storage_ok w -> validUUID u = true -> status <> "OPEN" ->
  upload_sessions d' = upload_sessions (update_session u (fun r => set_status status (at_ r) r) (db w)) ->
  upload_chunks d' = upload_chunks (db w) -> blobs d' = blobs (db w) ->
  forall ds, storage_ok (MkWorld d' (delete_rows (fun path _ => in_dir (uploadDir u) path) (files w)) ds).
Proof.
  intros Hok Hu Hst Es Ec Eb ds.
  assert (Hfiles : forall path, in_dir (uploadDir u) path = false ->
    delete_rows (fun path _ => in_dir (uploadDir u) path) (files w) !! path = files w !! path).
  { intros path Hp. apply option_eq. intros x. rewrite lookup_delete_rows. tauto. }
  split; simpl; rewrite ?Es, ?Ec, ?Eb.
  - intros v row Hrow. apply update_session_lookup in Hrow as (row0 & Hrow0 & ->).
    pose proof (st_sessions _ Hok _ _ Hrow0) as Hwf. by destruct (String.eqb v u).
  - intros v n c Hc. destruct (st_chunks _ Hok _ _ _ Hc) as (r & Hr & Hn & Hp & Hs & Hstored).
    exists (if String.eqb v u then set_status status (at_ r) r else r).
    simpl. rewrite Es. split; [by apply (update_session_Some u (fun r => set_status status (at_ r) r))|].
    destruct (String.eqb_spec v u) as [->|Hne]; simpl; split_and!; try done; try lia.
    intros Ho. eapply stored_frame; [|by apply Hstored]. simpl. apply Hfiles. apply not_true_iff_false. intros Hin.
    destruct (chunk_wf_no _ _ _ _ Hok Hc) as [Hv _]. by apply in_dir_chunk in Hin.
  - intros b row Hrow. destruct (st_blobs _ Hok _ _ Hrow) as (Hb & Hp & Hstored). split_and!; try done.
    eapply stored_frame; [|done]. simpl. apply Hfiles, in_dir_blob.
Qed.

(** Recording a blob whose file is in place. *)
Lemma storage_ok_add_blob w b row :
  storage_ok w -> blob_wf w b row -> storage_ok (set_db (upd_blobs <[b := row]> (db w)) w).
Proof.
  intros Hok Hb. split; simpl.
  - apply (st_sessions _ Hok).
  - apply (st_chunks _ Hok).
  - intros b' row' [[<- <-]|[_ Hrow]]%lookup_insert_Some; [done|by apply (st_blobs _ Hok)].
Qed.

Lemma update_session_congr u f d d' : upload_sessions d = upload_sessions d' ->
  upload_sessions (update_session u f d) = upload_sessions (update_session u f d').
Proof. intros E. unfold update_session. rewrite <- E. by destruct (upload_sessions d !! u); simpl; rewrite ?E. Qed.

(** The committed state of a completion. *)
Lemma storage_ok_completed w u i ss node total sha data ds :
  storage_ok w -> validUUID u = true -> validUUID (s_BlobID (ds_session ss)) = true ->
  blobs (db w) !! s_BlobID (ds_session ss) = None ->
  Z.of_nat (length data) = total -> hex_EncodeToString (Sum256 data) = sha ->
  storage_ok (MkWorld (completed u i ss node total sha (db w))
    (delete_rows (fun path _ => in_dir (uploadDir u) path)
       (<[blobRelPath (s_BlobID (ds_session ss)) := data]> (<[blobRelPath (s_BlobID (ds_session ss)) := []]> (files w)))) ds).
Proof.
  intros Hok Hu Hb Hnone Hlen Hsha. set (b := s_BlobID (ds_session ss)) in *. set (dest := blobRelPath b).
  set (w1 := MkWorld (db w) (<[dest := data]> (<[dest := []]> (files w))) (dirs w)).
  assert (Hw1 : storage_ok w1).
  { apply (storage_ok_blob_file w w1 b); try done. intros path Hne. simpl. by rewrite !lookup_insert_ne by (by apply not_eq_sym). }
  set (row := Blob total dest sha 1 (s_ChunkCount (ds_session ss)) (Format (clk 1))).
  assert (Hw2 : storage_ok (set_db (upd_blobs <[b := row]> (db w1)) w1)).
  { apply storage_ok_add_blob; [done|]. split_and!; try done. exists data. simpl. by rewrite lookup_insert_eq. }
  unfold completed. eapply (storage_ok_close _ u "COMPLETED" (fun _ => Some (Format (clk 1)))) in Hw2; [exact Hw2|done|done|..].
  - by apply update_session_congr.
  - by rewrite (proj1 (update_session_other _ _ _)).
  - by rewrite (proj2 (update_session_other _ _ _)).
Qed.

(** ** Every request keeps the invariant *)

Inductive upload_request :=
| UCreate (i : CreateInput)
| UPut (user device upload : string) (no : Z) (data : list byte)
| UGet (user device upload : string)
| UAbort (user device upload : string)
| UComplete (upload : string) (i : CompleteInput).

Definition upload_handle (q : upload_request) : M World unit :=
  match q with
  | UCreate i => Create s clk newid i ;; mret tt
  | UPut user dev u n data => PutChunk clk user dev u n data
  | UGet user dev u => Get user dev u ;; mret tt
  | UAbort user dev u => Abort_ user dev u
  | UComplete u i => Complete s clk u i ;; mret tt
  end.

Lemma then_ret_inv {A} (m : M World A) w r w' : (m ;; mret tt) w = (r, w') -> exists r', m w = (r', w').
Proof. unfold mbind, M_bind. destruct (m w) as [[a|e] w1]; intros [= <- <-]; eauto. Qed.

Lemma Get_outcome user dev u w r w' : Get user dev u w = (r, w') -> w' = w.
Proof.
  intros H. unfold Get in H. by apply db_query_bind in H as [(ss & _ & [= _ <-])|(e & _ & _ & ->)].
Qed.

Lemma Abort_outcome user dev u w r w' : Abort_ user dev u w = (r, w') ->
  w' = w \/ (validUUID u = true /\ r = Ok tt /\
    (exists ss, sessionForDevice user dev u (db w) = Ok ss /\ s_Status (ds_session ss) = "OPEN") /\
    w' = MkWorld (update_session u (fun r => set_status "ABORTED" (us_completed_at r) r) (db w))
           (delete_rows (fun path _ => in_dir (uploadDir u) path) (files w)) (dirs w ∖ {[ uploadDir u ]})).
Proof.
  intros H. unfold Abort_ in H. apply throw_if_outcome in H as [[_ ->]|[Hu%negb_false_iff H]]; [by left|].
  apply db_query_bind in H as [(ss & Hs & H)|(e & _ & _ & ->)]; [|by left].
  destruct (String.eqb_spec (s_Status (ds_session ss)) "OPEN") as [Ho|]; [|injection H as _ <-; by left].
  right. injection H as <- <-. split_and!; eauto.
Qed.

Lemma upload_handle_storage q w r w' :
  validUUID (newid 0) = true -> storage_ok w -> upload_handle q w = (r, w') -> storage_ok w'.
Proof.
  intros Hid Hok H. destruct q as [i|user dev u n data|user dev u|user dev u|u i]; simpl in H.
  - apply then_ret_inv in H as [r' H]. apply open_outcome in H as [->|(Hf & _ & _ & _ & d' & Hd' & ->)]; [done|].
    apply createTx_ok_inv in Hd' as (_ & _ & Hfresh & ->). unfold bad_framing in Hf.
    repeat match goal with HB : _ || _ = false |- _ => apply orb_false_iff in HB as [? ?] end.
    split; simpl.
    + intros u row. intros [[<- <-]|[_ Hrow]]%lookup_insert_Some; [|by apply (st_sessions _ Hok)].
      assert (Hmax : maxChunkCount = 65536%Z) by reflexivity.
      unfold session_wf. simpl. rewrite Hid. split_and!; try done; try lia. by apply negb_false_iff.
    + intros u n c Hc. destruct (st_chunks _ Hok _ _ _ Hc) as (row & Hrow & Hn & Hp & Hs & Hst).
      exists row. simpl. rewrite lookup_insert_ne by congruence. done.
    + apply (st_blobs _ Hok).
  - apply PutChunk_outcome in H as [->|(Hu & Hnew & (row & Hrow & Hn & Hlen) & _ & ->)]; [done|].
    destruct (st_sessions _ Hok _ _ Hrow) as (_ & _ & Hcount & _).
    assert (Hno : chunk_no n) by (unfold chunk_no; lia).
    assert (Hother : forall path, path <> chunkPath u n -> chunkPath u n ++ ".new" <> path ->
      <[chunkPath u n := data]> (delete (chunkPath u n ++ ".new") (files w)) !! path = files w !! path).
    { intros path H1 H2. by rewrite lookup_insert_ne, lookup_delete_ne by congruence. }
    split; simpl.
    + apply (st_sessions _ Hok).
    + intros v m c Hc. apply lookup_insert_Some in Hc as [[[= <- <-] <-]|[Hne Hc]].
      * exists row. split_and!; simpl; try done; [lia..|]. intros _. exists data. simpl. by rewrite lookup_insert_eq.
      * destruct (st_chunks _ Hok _ _ _ Hc) as (row' & Hrow' & Hm & Hp & Hs & Hst). exists row'. split_and!; try done; [lia..|].
        destruct (chunk_wf_no _ _ _ _ Hok Hc) as [Hv Hmno]. intros Ho. eapply stored_frame; [|by apply Hst]. simpl. apply Hother.
        -- intros E. apply Hne. apply chunkPath_inj in E as [-> ->]; done.
        -- by apply chunkPath_new.
    + intros b rowb Hb. destruct (st_blobs _ Hok _ _ Hb) as (Hv & Hp & Hst). split_and!; try done.
      eapply stored_frame; [|done]. simpl. apply Hother.
      * intros E. apply (blob_not_chunk b u n ""). by rewrite string_app_nil_r.
      * intros E. by apply (blob_not_chunk b u n ".new").
  - apply then_ret_inv in H as [r' H]. by apply Get_outcome in H as ->.
  - apply Abort_outcome in H as [->|(Hu & _ & _ & ->)]; [done|].
    eapply (storage_ok_close w u "ABORTED" us_completed_at); try done; apply update_session_other.
  - apply then_ret_inv in H as [r' H]. apply Complete_outcome in H as [[-> _]|(ss & expected & chunks & total & Hp & Hex & H)]; [done|].
    pose proof Hp as Hp'. apply completionPlan_ok_inv in Hp' as (Hu & _ & Hs & _).
    apply sessionForDevice_ok_inv in Hs as (row & target & Hrow & _ & _ & _ & _ & Hblob & _).
    destruct (st_sessions _ Hok _ _ Hrow) as (_ & Hbid & _). rewrite Hblob in *.
    assert (Hnone : blobs (db w) !! us_blob_id row = None).
    { destruct (blobs (db w) !! us_blob_id row) as [brow|] eqn:Eb; [|done].
      destruct (st_blobs _ Hok _ _ Eb) as (_ & _ & dat & Hdat & _). unfold has in Hex. by rewrite Hdat, Eb in Hex. }
    destruct H as [(Hdb & _ & Hf)|(data & node & Hc & Hm & _ & ->)].
    { by eapply storage_ok_blob_file. }
    destruct (assembled _ _ _ _ _ _ _ (us_blob_id row) Hok Hp) as (pieces & _ & Hc' & Hlen).
    rewrite Hc in Hc'. injection Hc' as ->.
    rewrite <- Hblob in *. by apply storage_ok_completed.
Qed.
End storage.
