(* ===== verification/UploadsCorrect.v ===== *)
(** * Correctness of internal/uploads

    Committed ciphertext is intact and immutable, a completion publishes
    exactly the uploaded chunks, retries are harmless, and client-chosen
    identifiers are used by one upload at a time. *)

From S2P Require Import Prelude GoText GoTime Uuid Sha256 Schema Fixture Access NodesSpec NodesCorrect Uploads UploadsStorage.
Local Open Scope string_scope.

Section correctness.
Context {U : UuidLib} {UL : UuidLaws U} {TP : TimeParser}.
Context (s : Service) (clk : nat -> Z) (newid : nat -> string).

(** ** Storage *)

Lemma delete_rows_other {V} (P : string -> V -> bool) (m : gmap string V) k :
  (forall v, P k v = false) -> delete_rows P m !! k = m !! k.
Proof. intros HP. apply option_eq. intros v. rewrite lookup_delete_rows. naive_solver. Qed.

(** A committed blob and its file. *)
Definition keeps_blobs (w w' : World) : Prop := forall b row, blobs (db w) !! b = Some row ->
  blobs (db w') !! b = Some row /\ files w' !! blobRelPath b = files w !! blobRelPath b.

Lemma upload_handle_immutable q w r w' :
  validUUID (newid 0) = true -> storage_ok w -> upload_handle s clk newid q w = (r, w') -> keeps_blobs w w'.
Proof.
  intros Hid Hok H b brow Hb. destruct (st_blobs _ Hok _ _ Hb) as (Hv & _ & dat & Hdat & _).
  destruct q as [i|user dev u n data|user dev u|user dev u|u i]; simpl in H.
  - apply then_ret_inv in H as [r' H]. apply open_outcome in H as [->|(_ & _ & _ & _ & d' & Hd' & ->)]; [done|].
    by apply createTx_ok_inv in Hd' as (_ & _ & _ & ->).
  - apply PutChunk_outcome in H as [->|(Hu & _ & (row & Hrow & Hn & _) & _ & ->)]; [done|]. split; [done|]. simpl.
    rewrite lookup_insert_ne, lookup_delete_ne; [done| |].
    + intros E. by apply (blob_not_chunk b u n ".new").
    + intros E. apply (blob_not_chunk b u n ""). by rewrite string_app_nil_r.
  - apply then_ret_inv in H as [r' H]. by apply Get_outcome in H as ->.
  - apply Abort_outcome in H as [->|(_ & _ & _ & ->)]; [done|]. simpl.
    rewrite (proj2 (update_session_other _ _ _)). split; [done|]. apply delete_rows_other. intros _. apply in_dir_blob.
  - apply then_ret_inv in H as [r' H]. apply Complete_outcome in H as [[-> _]|(ss & expected & chunks & total & Hp & Hex & H)]; [done|].
    assert (Hne : s_BlobID (ds_session ss) <> b).
    { intros <-. unfold has in Hex. by rewrite Hdat, Hb in Hex. }
    apply completionPlan_ok_inv in Hp as (_ & _ & Hs & _).
    apply sessionForDevice_ok_inv in Hs as (row & target & Hrow & _ & _ & _ & _ & Hblob & _).
    destruct (st_sessions _ Hok _ _ Hrow) as (_ & Hbid & _). rewrite <- Hblob in Hbid.
    assert (Hpath : blobRelPath (s_BlobID (ds_session ss)) <> blobRelPath b) by (intros E; by apply blobRelPath_inj in E).
    destruct H as [(Hdb & _ & Hf)|(data & node & _ & _ & _ & ->)].
    + rewrite Hdb. split; [done|]. apply Hf. by apply not_eq_sym.
    + simpl. split.
      * unfold completed. rewrite (proj2 (update_session_other _ _ _)). simpl. by rewrite lookup_insert_ne.
      * rewrite delete_rows_other by (intros _; apply in_dir_blob). by rewrite !lookup_insert_ne.
Qed.

(** C8. Uploads never lose or alter committed ciphertext.  Whatever an upload
    request answers, afterwards every blob row still has its file, with the
    recorded size and SHA-256, every received chunk of an open upload has its
    own, and no blob that was committed before changed in any way. *)
Theorem upload_handle_keeps_storage q w r w' :
  validUUID (newid 0) = true -> storage_ok w -> upload_handle s clk newid q w = (r, w') ->
  storage_ok w' /\ keeps_blobs w w'.
Proof. intros Hid Hok H. split; [by eapply upload_handle_storage|by eapply upload_handle_immutable]. Qed.

(** ** Completion *)

(** An open session never answers without assembling, unless the operation was
    recorded before. *)
Lemma plan_not_final u i d res row :
  completionPlan s clk u i d = Ok (inl res) -> processed_operations d !! ci_OperationID i = None ->
  upload_sessions d !! u = Some row -> us_status row <> "OPEN".
Proof.
  unfold completionPlan. destruct (bad_completion u i); [done|]. intros H Hnew Hrow Ho. apply rbind_ok_inv in H as (ss & Hs & H).
  apply sessionForDevice_ok_inv in Hs as (row' & _ & Hrow' & _ & _ & _ & _ & _ & _ & Hst & _). simplify_eq.
  rewrite Hst, Ho in H. simpl in H. destruct (not_open _ _) in H; [done|].
  apply rbind_ok_inv in H as (e & _ & H). destruct (match ci_ExpectedRevision i with Some _ => _ | None => _ end) in H; [done|].
  unfold replayCompletion in H. rewrite Hnew in H. simpl in H.
  apply rbind_ok_inv in H as (y & _ & H). by destruct (_ <? _)%Z in H.
Qed.

(** A first completion of an open session. *)
Lemma Complete_fresh_inv u i w res w' row :
  storage_ok w -> Complete s clk u i w = (Ok res, w') ->
  processed_operations (db w) !! ci_OperationID i = None ->
  upload_sessions (db w) !! u = Some row -> us_status row = "OPEN" ->
  exists ss expected chunks total pieces node,
    completionPlan s clk u i (db w) = Ok (inr (ss, expected, chunks, total)) /\
    chunk_files u (us_chunk_count row) w = Some pieces /\
    Z.of_nat (length (List.concat pieces)) = total /\
    may_complete u i ss expected node (db w) /\
    res = MkCompleteResult (us_blob_id row) (us_file_version_id row) (sync_sequence (db w) + 1) /\
    w' = MkWorld (completed clk u i ss node total (hex_EncodeToString (Sum256 (List.concat pieces))) (db w))
           (delete_rows (fun path _ => in_dir (uploadDir u) path)
              (<[blobRelPath (us_blob_id row) := List.concat pieces]> (<[blobRelPath (us_blob_id row) := []]> (files w))))
           (dirs w ∖ {[ uploadDir u ]}).
Proof.
  intros Hok H Hnew Hrow Ho.
  apply Complete_outcome in H as [[-> Hplan]|(ss & expected & chunks & total & Hp & _ & H)].
  { exfalso. by apply (plan_not_final _ _ _ _ _ (Hplan _ eq_refl) Hnew Hrow). }
  destruct H as [(_ & Hr & _)|(data & node & Hc & Hm & Hres & ->)]; [done|].
  pose proof Hp as Hp'. apply completionPlan_ok_inv in Hp' as (_ & _ & Hs & _).
  apply sessionForDevice_ok_inv in Hs as (row' & _ & Hrow' & _ & _ & _ & _ & Hblob & Hver & _ & Hcnt & _). simplify_eq.
  destruct (assembled s clk _ _ _ _ _ _ _ (s_BlobID (ds_session ss)) Hok Hp) as (pieces & Hpieces & Hc' & Hlen).
  rewrite Hc in Hc'. injection Hc' as ->. rewrite Hcnt in Hpieces. rewrite Hblob, Hver in *.
  exists ss, expected, chunks, total, pieces, node. done.
Qed.

(** C9. A completed upload publishes exactly what was uploaded.  The first
    successful completion of an open session was made by the session's device
    for a live file it may write, at the revision the session expected; it
    stores the concatenation of the uploaded chunks as the blob's file, with
    its size and SHA-256, records a version that binds this blob to the node
    under the session's key material, makes it the node's current version
    together with the session's metadata, appends one change to the owner's
    feed, and removes the temporary chunks. *)
Theorem Complete_publishes u i w res w' row :
  storage_ok w -> Complete s clk u i w = (Ok res, w') ->
  processed_operations (db w) !! ci_OperationID i = None ->
  upload_sessions (db w) !! u = Some row -> us_status row = "OPEN" ->
  exists target node pieces, let data := List.concat pieces in let rev := (sync_sequence (db w) + 1)%Z in
    us_user_id row = ci_UserID i /\ us_device_id row = ci_DeviceID i /\ us_target_node_id row = Some target /\
    live_file target (db w) = Some node /\
    (exists root, authorizeFileWrite (ci_UserID i) (node_owner_id node) target (db w) = Ok root) /\
    (us_expected_revision row = Some (node_revision node) \/ ci_ExpectedRevision i = Some (node_revision node)) /\
    chunk_files u (us_chunk_count row) w = Some pieces /\
    files w' !! blobRelPath (us_blob_id row) = Some data /\
    blobs (db w') = <[us_blob_id row := Blob (Z.of_nat (length data)) (blobRelPath (us_blob_id row))
       (hex_EncodeToString (Sum256 data)) 1 (us_chunk_count row) (Format (clk 1))]> (blobs (db w)) /\
    file_versions (db w') = <[us_file_version_id row := FileVersion target (us_blob_id row) (us_e2ee_header row)
       (us_wrapped_file_key row) (ci_KeyScopeID i) (ci_KeyVersion i) (Format (clk 1)) (ci_DeviceID i) rev]> (file_versions (db w)) /\
    (exists node', nodes (db w') = <[target := node']> (nodes (db w)) /\
       node_current_version_id node' = Some (us_file_version_id row) /\
       node_metadata_ciphertext node' = us_metadata_ciphertext row /\ node_revision node' = rev /\
       node_owner_id node' = node_owner_id node /\ node_parent_id node' = node_parent_id node) /\
    sync_changes (db w') = (sync_changes (db w) ++
       [SyncRow rev (node_owner_id node) target "UPDATE" (ci_SyncPayloadCiphertext i) (Format (clk 1))])%list /\
    (forall n, files w' !! chunkPath u n = None) /\
    res = MkCompleteResult (us_blob_id row) (us_file_version_id row) rev.
Proof.
  intros Hok H Hnew Hrow Ho.
  destruct (Complete_fresh_inv _ _ _ _ _ _ Hok H Hnew Hrow Ho)
    as (ss & expected & chunks & total & pieces & node & Hp & Hpieces & Hlen & Hm & Hres & ->).
  apply completionPlan_ok_inv in Hp as (Hu & _ & Hs & _ & _ & Hexp & _).
  apply sessionForDevice_ok_inv in Hs as (row' & target & Hrow' & Huser & Hdev & Htgt & Ht & Hblob & Hver & _ & Hcnt & He & Hh & Hw & Hmc & Hmv).
  simplify_eq. exists (targetNodeID ss), node, pieces. cbn zeta. pose proof (mc_revision _ _ _ _ _ _ Hm) as Hrev.
  split_and!; try done.
  - apply (mc_node _ _ _ _ _ _ Hm).
  - destruct (mc_write _ _ _ _ _ _ Hm) as (root & Hroot & _). by exists root.
  - rewrite Hrev, <- He. destruct Hexp as [?|[_ ?]]; [by left|by right].
  - simpl. rewrite delete_rows_other by (intros _; apply in_dir_blob). by rewrite lookup_insert_eq.
  - simpl. unfold completed. rewrite (proj2 (update_session_other _ _ _)). simpl. by rewrite Hblob, Hcnt.
  - simpl. unfold completed, update_session. simpl. rewrite Hrow. simpl. by rewrite Hblob, Hver, Hh, Hw.
  - simpl. unfold completed, update_session. simpl. rewrite Hrow. simpl. eexists. split; [done|]. simpl. by rewrite Hver, Hmc.
  - simpl. unfold completed, update_session. simpl. by rewrite Hrow.
  - intros n. simpl. apply eq_None_not_Some. intros [x Hx]. apply lookup_delete_rows in Hx as [_ Hx].
    unfold in_dir in Hx. rewrite (proj2 (HasPrefix_true _ _)) in Hx; [done|].
    exists (FormatInt n ++ ".chunk"). unfold chunkPath. by rewrite <- string_app_assoc.
Qed.

Lemma completed_session u i ss node total sha d row : upload_sessions d !! u = Some row ->
  upload_sessions (completed clk u i ss node total sha d) !! u = Some (set_status "COMPLETED" (Some (Format (clk 1))) row).
Proof.
  intros Hrow. unfold completed.
  match goal with |- upload_sessions (update_session u ?f ?d0) !! u = _ => pose proof (update_session_Some u f d0 u row Hrow) as E end.
  by rewrite String.eqb_refl in E.
Qed.

Lemma completed_rows u i ss node total sha d :
  file_versions (completed clk u i ss node total sha d) = <[s_FileVersionID (ds_session ss) :=
    FileVersion (targetNodeID ss) (s_BlobID (ds_session ss)) (e2eeHeader ss) (wrappedFileKey ss) (ci_KeyScopeID i)
      (ci_KeyVersion i) (Format (clk 1)) (ci_DeviceID i) (sync_sequence d + 1)]> (file_versions d) /\
  blobs (completed clk u i ss node total sha d) = <[s_BlobID (ds_session ss) :=
    Blob total (blobRelPath (s_BlobID (ds_session ss))) sha 1 (s_ChunkCount (ds_session ss)) (Format (clk 1))]> (blobs d).
Proof. unfold completed, update_session. by case_match. Qed.

Lemma Complete_completed clk' u i w ss res :
  bad_completion u i = false -> sessionForDevice (ci_UserID i) (ci_DeviceID i) u (db w) = Ok ss ->
  s_Status (ds_session ss) = "COMPLETED" -> completedResult (s_FileVersionID (ds_session ss)) (db w) = Ok res ->
  Complete s clk' u i w = (Ok res, w).
Proof.
  intros Hin Hs Hst Hres. unfold Complete. rewrite (bind_ok _ _ _ (inl res) w); [done|]. unfold db_query, query, completionPlan.
  rewrite Hin, Hs. cbn. by rewrite Hst, Hres.
Qed.

(** A completion can be retried.  Repeated after it succeeded, at any later
    time and even once the session has expired, it gives the same answer and
    changes neither the database nor a file. *)
Theorem Complete_retry clk' u i w res w' row :
  storage_ok w -> Complete s clk u i w = (Ok res, w') ->
  processed_operations (db w) !! ci_OperationID i = None ->
  upload_sessions (db w) !! u = Some row -> us_status row = "OPEN" ->
  Complete s clk' u i w' = (Ok res, w').
Proof.
  intros Hok H Hnew Hrow Ho.
  destruct (Complete_fresh_inv _ _ _ _ _ _ Hok H Hnew Hrow Ho)
    as (ss & expected & chunks & total & pieces & node & Hp & _ & _ & _ & -> & ->).
  assert (Hin : bad_completion u i = false) by (unfold completionPlan in Hp; by destruct (bad_completion u i)).
  apply completionPlan_ok_inv in Hp as (_ & _ & Hs & _).
  unfold sessionForDevice in Hs. rewrite Hrow in Hs. destruct (negb _) eqn:En in Hs; [done|].
  destruct (us_target_node_id row) as [target|] eqn:Et; [|done].
  apply rbind_ok_inv in Hs as (expires & Hx & [= <-]).
  eapply Complete_completed; [done| | |].
  - unfold sessionForDevice. cbn [db]. rewrite (completed_session _ _ _ _ _ _ _ row) by done. cbn [set_status us_user_id us_device_id us_target_node_id us_expires_at].
    rewrite En, Et, Hx. reflexivity.
  - reflexivity.
  - unfold completedResult. cbn [db ds_session s_FileVersionID set_status us_file_version_id].
    match goal with |- context [completed clk u i ?ss node total ?sha ?d] =>
      destruct (completed_rows u i ss node total sha d) as [-> ->] end.
    cbn [ds_session s_FileVersionID s_BlobID]. rewrite lookup_insert_eq. cbn [fv_blob_id fv_revision].
    unfold has. by rewrite lookup_insert_eq.
Qed.

(** ** Chunks *)

Lemma PutChunk_ok_inv user dev u n data w w' :
  PutChunk clk user dev u n data w = (Ok tt, w') ->
  validUUID u = true /\ (0 <= n)%Z /\ (Z.of_nat (length data) <= MaxChunkCiphertextSize)%Z /\
  (exists ss, sessionForDevice user dev u (db w') = Ok ss /\ not_open (ds_session ss) (clk 0) = false /\
    (n < s_ChunkCount (ds_session ss))%Z /\ (Z.of_nat (length data) <= chunkSize ss)%Z) /\
  stored_digest u n (db w') = Some (hex_EncodeToString (Sum256 data)).
Proof.
  intros H. pose proof (PutChunk_outcome clk _ _ _ _ _ _ _ _ H) as Hout. unfold PutChunk in H.
  apply throw_if_outcome in H as [[? _]|[Hb H]]; [done|].
  apply orb_false_iff in Hb as [[[Hu%negb_false_iff Hn%Z.ltb_ge]%orb_false_iff _]%orb_false_iff Hmax%Z.ltb_ge].
  apply db_query_bind in H as [(ss & Hs & H)|(e & _ & [=] & _)].
  apply throw_if_outcome in H as [[? _]|[Ho H]]; [done|].
  apply throw_if_outcome in H as [[? _]|[Hc%Z.leb_gt H]]; [done|].
  apply throw_if_outcome in H as [[? _]|[Hz%Z.ltb_ge H]]; [done|].
  split_and!; try done.
  - exists ss. split_and!; try done. by destruct Hout as [->|(_ & _ & _ & _ & ->)].
  - apply db_query_bind in H as [(ex & Hex & H)|(e & _ & [=] & _)]. injection Hex as <-.
    destruct (stored_digest u n (db w)) as [dg|] eqn:Ed.
    + unfold throw_if in H. destruct (String.eqb_spec dg (hex_EncodeToString (Sum256 data))) as [->|]; [|done].
      by injection H as <-.
    + destruct Hout as [->|(_ & _ & _ & _ & ->)].
      * exfalso. unfold mbind at 1, M_bind, writeAtomic in H. destruct (bool_decide _); [|done].
        inv_ok H. match goal with HO : on_db _ _ = _ |- _ => apply on_db_ok_inv in HO as (d & Hd & ->) end.
        match goal with HD : db_query _ _ = _ |- _ => unfold db_query in HD; inv_ok HD end.
        subst.
        simpl in H. destruct (stored_digest u n d) eqn:E2; [|done].
        unfold throw_if in H. injection H as _ H. apply (f_equal db) in H. simpl in H. subst d. congruence.
      * unfold stored_digest. simpl. by rewrite lookup_insert_eq.
Qed.

(** A chunk is written once: sending a stored chunk again changes nothing,
    and sending other bytes under its number is refused as a conflict. *)
Theorem PutChunk_once user dev u n data w w' data' :
  PutChunk clk user dev u n data w = (Ok tt, w') ->
  (1 <= Z.of_nat (length data') <= Z.of_nat (length data))%Z ->
  PutChunk clk user dev u n data' w' =
    (if String.eqb (hex_EncodeToString (Sum256 data)) (hex_EncodeToString (Sum256 data')) then Ok tt
     else Err (EUploads UploadsErrChunkConflict), w').
Proof.
  intros (Hu & Hn & Hmax & (ss & Hs & Ho & Hc & Hz) & Hd)%PutChunk_ok_inv Hlen. unfold PutChunk.
  rewrite throw_if_bind.
  2: { rewrite Hu, (proj2 (Z.ltb_ge n 0)), (proj2 (Z.ltb_ge _ (Z.of_nat (length data')))) by lia.
       destruct data'; [simpl in Hlen; lia|done]. }
  erewrite bind_ok by (unfold db_query, query; by rewrite Hs).
  rewrite throw_if_bind by done. rewrite throw_if_bind by (apply Z.leb_gt; lia). rewrite throw_if_bind by (apply Z.ltb_ge; lia).
  cbn zeta. erewrite bind_ok by (unfold db_query, query; by rewrite Hd). unfold throw_if. by destruct (String.eqb _ _).
Qed.

(** ** Identifiers *)

(** No two uploads in progress share a blob or version identifier, and none
    uses an identifier that is already committed. *)
Record ids_exclusive (d : DB) : Prop := {
  ids_sessions : forall u1 u2 r1 r2, upload_sessions d !! u1 = Some r1 -> upload_sessions d !! u2 = Some r2 ->
    reserved r1 = true -> reserved r2 = true ->
    us_blob_id r1 = us_blob_id r2 \/ us_file_version_id r1 = us_file_version_id r2 -> u1 = u2;
  ids_fresh : forall u r, upload_sessions d !! u = Some r -> reserved r = true ->
    blobs d !! us_blob_id r = None /\ file_versions d !! us_file_version_id r = None;
}.

Lemma ids_in_use_false b v d : ids_in_use b v d = false ->
  blobs d !! b = None /\ file_versions d !! v = None /\
  forall u r, upload_sessions d !! u = Some r -> reserved r = true -> us_blob_id r <> b /\ us_file_version_id r <> v.
Proof.
  unfold ids_in_use. intros [[Hb Hv]%orb_false_iff Hs]%orb_false_iff. split_and!.
  - unfold has in Hb. by destruct (blobs d !! b).
  - unfold has in Hv. by destruct (file_versions d !! v).
  - intros u r Hr Hres. eapply exists_row_false in Hs; [|exact Hr]. rewrite Hres, andb_true_r in Hs.
    by apply orb_false_iff in Hs as [?%String.eqb_neq ?%String.eqb_neq].
Qed.

(** Closing a session frees its identifiers and nothing else. *)
Lemma ids_exclusive_close d d' u f :
  ids_exclusive d -> (forall r, reserved (f r) = false) ->
  upload_sessions d' = upload_sessions (update_session u f d) ->
  (forall b, blobs d' !! b = blobs d !! b \/ exists r, upload_sessions d !! u = Some r /\ reserved r = true /\ us_blob_id r = b) ->
  (forall v, file_versions d' !! v = file_versions d !! v \/
     exists r, upload_sessions d !! u = Some r /\ reserved r = true /\ us_file_version_id r = v) ->
  ids_exclusive d'.
Proof.
  intros [Hs Hfr] Hf E Hb Hv.
  assert (Hold : forall v r, upload_sessions d' !! v = Some r -> reserved r = true ->
    upload_sessions d !! v = Some r /\ v <> u).
  { intros v r Hr Hres. rewrite E in Hr. apply update_session_lookup in Hr as (r0 & Hr0 & ->).
    destruct (String.eqb_spec v u) as [->|]; [by rewrite Hf in Hres|done]. }
  split.
  - intros u1 u2 r1 r2 H1 H2 Hr1 Hr2. apply Hold in H1 as [H1 _], H2 as [H2 _]; try done. by eapply Hs.
  - intros v r Hr Hres. destruct (Hold _ _ Hr Hres) as [Hr0 Hne]. destruct (Hfr _ _ Hr0 Hres) as [Hbn Hvn]. split.
    + destruct (Hb (us_blob_id r)) as [->|(r' & Hr' & Hres' & Eq)]; [done|]. destruct Hne.
      eapply Hs; [exact Hr0|exact Hr'|done|done|by left].
    + destruct (Hv (us_file_version_id r)) as [->|(r' & Hr' & Hres' & Eq)]; [done|]. destruct Hne.
      eapply Hs; [exact Hr0|exact Hr'|done|done|by right].
Qed.

(** Client-chosen identifiers are reserved: after any upload request there
    are still no two uploads in progress for one blob or version identifier,
    and none in progress for an identifier that is already committed. *)
Theorem upload_handle_keeps_ids q w r w' :
  ids_exclusive (db w) -> upload_handle s clk newid q w = (r, w') -> ids_exclusive (db w').
Proof.
  intros Hids H. destruct q as [i|user dev u n data|user dev u|user dev u|u i]; simpl in H.
  - apply then_ret_inv in H as [r' H]. apply open_outcome in H as [->|(_ & _ & _ & _ & d' & Hd' & ->)]; [done|].
    apply createTx_ok_inv in Hd' as ((Hb & Hv & Hn)%ids_in_use_false & _ & _ & ->). destruct Hids as [Hs Hfr]. simpl.
    split; simpl.
    + intros u1 u2 r1 r2 [[<- <-]|[_ H1]]%lookup_insert_Some [[<- <-]|[_ H2]]%lookup_insert_Some Hr1 Hr2 Heq; [done| | |by eapply Hs].
      * destruct (Hn _ _ H2 Hr2) as [? ?]. simpl in Heq. destruct Heq; congruence.
      * destruct (Hn _ _ H1 Hr1) as [? ?]. simpl in Heq. destruct Heq; congruence.
    + intros u r0 [[<- <-]|[_ Hr0]]%lookup_insert_Some; [done|]. intros Hres. by apply (Hfr u r0).
  - apply PutChunk_outcome in H as [->|(_ & _ & _ & _ & ->)]; [done|]. destruct Hids as [Hs Hfr]. by split.
  - apply then_ret_inv in H as [r' H]. by apply Get_outcome in H as ->.
  - apply Abort_outcome in H as [->|(_ & _ & _ & ->)]; [done|]. simpl.
    apply (ids_exclusive_close (db w) _ u (fun r => set_status "ABORTED" (us_completed_at r) r) Hids); try done;
      intros x; left; unfold update_session; by destruct (upload_sessions (db w) !! u).
  - apply then_ret_inv in H as [r' H]. apply Complete_outcome in H as [[-> _]|(ss & expected & chunks & total & Hp & Hex & H)]; [done|].
    destruct H as [(-> & _)|(data & node & _ & Hm & _ & ->)]; [done|]. simpl.
    apply completionPlan_ok_inv in Hp as (_ & _ & Hs & Ho & _).
    apply sessionForDevice_ok_inv in Hs as (row & target & Hrow & _ & _ & _ & _ & Hblob & Hver & Hst & _).
    assert (Hres : reserved row = true) by (unfold reserved; by rewrite <- Hst, Ho).
    eapply (ids_exclusive_close _ _ u (set_status "COMPLETED" (Some (Format (clk 1)))) Hids); [done|by apply update_session_congr| |].
    + intros b. rewrite (proj2 (completed_rows _ _ _ _ _ _ _)).
      destruct (decide (s_BlobID (ds_session ss) = b)) as [<-|]; [right; exists row; done|left; by rewrite lookup_insert_ne].
    + intros v. rewrite (proj1 (completed_rows _ _ _ _ _ _ _)).
      destruct (decide (s_FileVersionID (ds_session ss) = v)) as [<-|]; [right; exists row; done|left; by rewrite lookup_insert_ne].
Qed.

(** ** The node tree and the feed *)

Lemma completed_nodes u i ss node total sha d :
  nodes (completed clk u i ss node total sha d) = <[targetNodeID ss := publish ss (StoredScope (ci_KeyScopeID i) (node_owner_id node))
    (sync_sequence d + 1) (Format (clk 1)) node]> (nodes d) /\
  sync_changes (completed clk u i ss node total sha d) = (sync_changes d ++
    [SyncRow (sync_sequence d + 1) (node_owner_id node) (targetNodeID ss) "UPDATE" (ci_SyncPayloadCiphertext i) (Format (clk 1))])%list /\
  sync_sequence (completed clk u i ss node total sha d) = (sync_sequence d + 1)%Z.
Proof. unfold completed, update_session. by case_match. Qed.

Lemma live_file_Some t d r : live_file t d = Some r -> nodes d !! t = Some r /\ node_type r = "FILE" /\ node_deleted_at r = None.
Proof.
  unfold live_file. destruct (nodes d !! t) as [r'|]; [|done]. destruct (_ && _) eqn:E; [|done]. intros [= ->].
  apply andb_prop in E as [?%String.eqb_eq Hd]. by destruct (node_deleted_at r).
Qed.

(** Uploads keep the vault well formed and report what they change: the
    node forest, the bound of revisions by the feed and the feed's order are
    invariants of upload requests too, the feed only grows, and a node that an
    upload changes is reported to its owner under its new revision. *)
Theorem upload_handle_keeps_vault q w r w' :
  vault_ok (db w) -> upload_handle s clk newid q w = (r, w') -> vault_ok (db w') /\ reported (db w) (db w').
Proof.
  intros Hok H.
  assert (Hsame : nodes (db w') = nodes (db w) -> sync_changes (db w') = sync_changes (db w) ->
    sync_sequence (db w') = sync_sequence (db w) -> vault_ok (db w') /\ reported (db w) (db w')).
  { intros En Ec Es. destruct Hok as [Hf Hr Hq]. split; [split|split; [|split]].
    - by rewrite En.
    - intros k row. rewrite En, Es. apply Hr.
    - unfold feed_ok in *. by rewrite Ec, Es.
    - exists []. by rewrite Ec, app_nil_r.
    - lia.
    - intros k Hk. by rewrite En in Hk. }
  destruct q as [i|user dev u n data|user dev u|user dev u|u i]; simpl in H.
  - apply then_ret_inv in H as [r' H]. apply open_outcome in H as [->|(_ & _ & _ & _ & d' & Hd' & ->)]; [by apply Hsame|].
    apply createTx_ok_inv in Hd' as (_ & _ & _ & ->). by apply Hsame.
  - apply PutChunk_outcome in H as [->|(_ & _ & _ & _ & ->)]; by apply Hsame.
  - apply then_ret_inv in H as [r' H]. apply Get_outcome in H as ->. by apply Hsame.
  - apply Abort_outcome in H as [->|(_ & _ & _ & ->)]; [by apply Hsame|].
    apply Hsame; simpl; unfold update_session; by case_match.
  - apply then_ret_inv in H as [r' H]. apply Complete_outcome in H as [[-> _]|(ss & expected & chunks & total & Hp & Hex & H)]; [by apply Hsame|].
    destruct H as [(E & _)|(data & node & _ & Hm & _ & ->)]; [apply Hsame; by rewrite E|]. cbn [db set_files set_dirs].
    destruct (completed_nodes u i ss node total (hex_EncodeToString (Sum256 data)) (db w)) as (En & Ec & Es).
    destruct (live_file_Some _ _ _ (mc_node _ _ _ _ _ _ Hm)) as (Hnode & _ & _).
    pose proof (mc_counter _ _ _ _ _ _ Hm) as Hcnt. destruct Hok as [Hf Hr Hq]. split; [split|split; [|split]].
    + rewrite En. apply forest_insert; [done| |].
      * intros r0 Hr0. by simplify_eq.
      * intros p Hpp. left. by exists node.
    + intros k row. rewrite En, Es. intros [[<- <-]|[_ Hk]]%lookup_insert_Some; [simpl; lia|]. specialize (Hr _ _ Hk). lia.
    + eapply feed_ok_append; [done|exact Ec|done|done|done].
    + rewrite Ec. eauto.
    + lia.
    + intros k Hk. rewrite En in Hk. destruct (decide (k = targetNodeID ss)) as [->|Hne]; [|by rewrite lookup_insert_ne in Hk].
      eexists _, _. rewrite En, lookup_insert_eq. split; [done|]. rewrite Ec. split; [apply elem_of_app; right; by apply list_elem_of_singleton|].
      simpl. split_and!; [done|done|done|lia].
Qed.

(** ** Opening a session *)

(** What a successful Create guarantees: the device is active and may write
    the live target file, the declared framing fits the file limit, the new
    session is stored open under a fresh identifier with its directory, and
    the device has at most [MaxOpenSessionsPerDevice] unexpired open sessions. *)
Theorem Create_correct i w x w' :
  Create s clk newid i w = (Ok x, w') ->
  active_device (UserID i) (DeviceID i) (db w) = true /\
  (exists node root, live_file (TargetNodeID i) (db w) = Some node /\
     authorizeFileWrite (UserID i) (node_owner_id node) (TargetNodeID i) (db w) = Ok root) /\
  (1 <= ChunkCount i * ChunkSize i <= maxCiphertextSize s)%Z /\
  upload_sessions (db w) !! newid 0 = None /\
  (exists row, upload_sessions (db w') = <[newid 0 := row]> (upload_sessions (db w)) /\ us_status row = "OPEN" /\
     us_user_id row = UserID i /\ us_device_id row = DeviceID i /\ us_target_node_id row = Some (TargetNodeID i) /\
     us_blob_id row = BlobID i /\ us_file_version_id row = FileVersionID i /\ us_chunk_count row = ChunkCount i) /\
  (uploadDir (newid 0) ∈ dirs w') /\
  (open_sessions (DeviceID i) (Format (clk 0)) (db w') <= MaxOpenSessionsPerDevice).
Proof.
  intros H. pose proof H as H0. unfold Create in H0.
  apply throw_if_outcome in H0 as [[? _]|[Hf H0]]; [done|]. apply throw_if_outcome in H0 as [[? _]|[_ H0]]; [done|].
  apply db_query_bind in H0 as [([] & Hv & H0)|(e & _ & [=] & _)].
  apply throw_if_outcome in H0 as [[? _]|[Hmax%Z.ltb_ge H0]]; [done|].
  inv_ok H0. match goal with HO : on_db _ _ = _ |- _ => apply on_db_ok_inv in HO as (d1 & Hd & ->); inv_ok Hd end.
  apply createTx_ok_inv in Hd as (_ & Hcount & Hnew & ->).
  match goal with HM : MkdirAll _ _ = _ |- _ => unfold MkdirAll in HM; inv_ok HM end.
  assert (Hframe : (1 <= ChunkCount i <= 65536)%Z /\ (1 <= ChunkSize i <= 8388608)%Z).
  { unfold bad_framing in Hf. repeat match goal with HB : _ || _ = false |- _ => apply orb_false_iff in HB as [? ?] end.
    assert (maxChunkCount = 65536%Z) by reflexivity. unfold MaxChunkCiphertextSize in *. lia. }
  unfold validateActorAndTarget in Hv. destruct (active_device _ _ _) eqn:Ea; [|done]. simpl in Hv.
  destruct (live_file _ _) as [node|] eqn:El; [|done]. apply rbind_ok_inv in Hv as (root & Hroot & _).
  split_and!; try done.
  - by exists node, root.
  - nia.
  - rewrite wrap64_id in Hmax; [done|]. unfold min_int64, max_int64. nia.
  - subst. eexists. split; [reflexivity|done].
  - subst. simpl. set_solver.
  - subst. simpl. unfold open_sessions in *. simpl. rewrite count_rows_insert by done. case_match; lia.
Qed.
End correctness.

(** ** Concrete runs *)

(** Alice's laptop uploads a two-chunk version of the file [id3]. *)
Definition limits : Service := New (500 * 1024 * 1024) (24 * Hour).
Definition blob1 : string := "20000000-0000-4000-8000-000000000001".
Definition version1 : string := "20000000-0000-4000-8000-000000000002".
Definition new_upload (i : nat) : string := id5.

Definition start : CreateInput :=
  MkCreateInput alice laptop id3 version1 blob1 (Some 3%Z) 2 2 1 [x07] [x08] [x09].
Definition finish : CompleteInput := MkCompleteInput alice laptop op3 alice (Some 3%Z) 1 [x05].

Definition clock : nat -> Z := ticking noon.
Definition w0 : World := MkWorld family ∅ ∅.
Definition opened : World := (Create limits clock new_upload start w0).2.
Definition chunk0 : World := (PutChunk clock alice laptop id5 0 [x01; x02] opened).2.
Definition chunk1 : World := (PutChunk clock alice laptop id5 1 [x03] chunk0).2.
Definition published : World := (Complete limits clock id5 finish chunk1).2.

Lemma new_upload_valid : validUUID (new_upload 0) = true.
Proof. vm_compute. reflexivity. Qed.

Lemma created : exists x, Create limits clock new_upload start w0 = (Ok x, opened).
Proof. apply (run_ok (Create limits clock new_upload start) w0). vm_compute. reflexivity. Qed.
Lemma put0 : PutChunk clock alice laptop id5 0 [x01; x02] opened = (Ok tt, chunk0).
Proof.
  destruct (run_ok (PutChunk clock alice laptop id5 0 [x01; x02]) opened) as [[] H]; [vm_compute; reflexivity|exact H].
Qed.
Lemma put1 : PutChunk clock alice laptop id5 1 [x03] chunk0 = (Ok tt, chunk1).
Proof. destruct (run_ok (PutChunk clock alice laptop id5 1 [x03]) chunk0) as [[] H]; [vm_compute; reflexivity|exact H]. Qed.
Lemma completed_ok : exists res, Complete limits clock id5 finish chunk1 = (Ok res, published).
Proof. apply (run_ok (Complete limits clock id5 finish) chunk1). vm_compute. reflexivity. Qed.

Lemma empty_storage : storage_ok w0.
Proof.
  split.
  - intros u r Hr. assert (E : upload_sessions (db w0) = ∅) by (vm_compute; reflexivity). by rewrite E in Hr.
  - intros u n c Hc. assert (E : upload_chunks (db w0) = ∅) by (vm_compute; reflexivity). by rewrite E in Hc.
  - intros b row Hb. assert (E : blobs (db w0) = ∅) by (vm_compute; reflexivity). by rewrite E in Hb.
Qed.

Lemma chunk1_storage : storage_ok chunk1.
Proof.
  destruct created as [x Hx].
  apply (upload_handle_storage limits clock new_upload (UPut alice laptop id5 1 [x03]) chunk0 (Ok tt) chunk1 new_upload_valid); [|exact put1].
  apply (upload_handle_storage limits clock new_upload (UPut alice laptop id5 0 [x01; x02]) opened (Ok tt) chunk0 new_upload_valid); [|exact put0].
  apply (upload_handle_storage limits clock new_upload (UCreate start) w0 (Ok tt) opened new_upload_valid empty_storage).
  simpl. unfold mbind, M_bind. rewrite Hx. reflexivity.
Qed.

Lemma finished : upload_handle limits clock new_upload (UComplete id5 finish) chunk1 = (Ok tt, published).
Proof. destruct completed_ok as [res Hres]. simpl. unfold mbind, M_bind. rewrite Hres. reflexivity. Qed.

Lemma upload_handle_keeps_storage_witness : storage_ok published /\ is_valid (blobs (db published) !! blob1) = true.
Proof.
  split; [|vm_compute; reflexivity].
  apply (upload_handle_keeps_storage limits clock new_upload (UComplete id5 finish) chunk1 (Ok tt) published new_upload_valid chunk1_storage finished).
Defined.

Lemma chunk1_session : exists row, upload_sessions (db chunk1) !! id5 = Some row /\ us_status row = "OPEN" /\
  us_blob_id row = blob1 /\ processed_operations (db chunk1) !! op3 = None.
Proof. eexists. split; [vm_compute; reflexivity|]. vm_compute. split_and!; reflexivity. Qed.

Lemma Complete_publishes_witness :
  (exists data, files published !! blobRelPath blob1 = Some data) /\
  files published !! blobRelPath blob1 = Some [x01; x02; x03].
Proof.
  destruct completed_ok as [res Hres]. destruct chunk1_session as (row & Hrow & Hst & Hb & Hop).
  destruct (Complete_publishes limits clock id5 finish chunk1 res published row chunk1_storage Hres Hop Hrow Hst)
    as (target & node & pieces & _ & _ & _ & _ & _ & _ & _ & Hf & _).
  rewrite Hb in Hf. split; [eexists; exact Hf|vm_compute; reflexivity].
Defined.

Lemma Complete_retry_witness : exists res,
  Complete limits (ticking (noon + 48 * Hour)) id5 finish published = (Ok res, published).
Proof.
  destruct completed_ok as [res Hres]. destruct chunk1_session as (row & Hrow & Hst & _ & Hop). exists res.
  exact (Complete_retry limits clock _ id5 finish chunk1 res published row chunk1_storage Hres Hop Hrow Hst).
Defined.

Lemma PutChunk_once_witness :
  PutChunk clock alice laptop id5 0 [x01; x02] chunk0 = (Ok tt, chunk0) /\
  PutChunk clock alice laptop id5 0 [x02] chunk0 = (Err (EUploads UploadsErrChunkConflict), chunk0).
Proof.
  split; rewrite (PutChunk_once clock alice laptop id5 0 [x01; x02] opened chunk0 _ put0) by (vm_compute; split; discriminate).
  - by rewrite String.eqb_refl.
  - assert (E : String.eqb (hex_EncodeToString (Sum256 [x01; x02])) (hex_EncodeToString (Sum256 [x02])) = false)
      by (vm_compute; reflexivity).
    by rewrite E.
Defined.

Lemma upload_handle_keeps_ids_witness : ids_exclusive (db opened).
Proof.
  destruct created as [x Hx].
  apply (upload_handle_keeps_ids limits clock new_upload (UCreate start) w0 (Ok tt) opened).
  - assert (E : upload_sessions (db w0) = ∅) by (vm_compute; reflexivity).
    split; [intros u1 u2 r1 r2 H1|intros u r H1]; by rewrite E in H1.
  - simpl. unfold mbind, M_bind. rewrite Hx. reflexivity.
Defined.

Lemma upload_handle_keeps_vault_witness :
  vault_ok (db published) /\ length (sync_changes (db published)) = 5.
Proof.
  split; [|vm_compute; reflexivity].
  apply (upload_handle_keeps_vault limits clock new_upload (UComplete id5 finish) chunk1 (Ok tt) published); [|exact finished].
  apply vault_okb_sound. vm_compute. reflexivity.
Defined.

Lemma Create_correct_witness : exists x, Create limits clock new_upload start w0 = (Ok x, opened) /\
  open_sessions laptop (Format noon) (db opened) <= MaxOpenSessionsPerDevice.
Proof.
  destruct created as [x Hx]. exists x. split; [exact Hx|].
  apply (Create_correct limits clock new_upload start w0 x opened Hx).
Defined.
