(* ===== verification/UploadLocks.v ===== *)
(** * The keyed mutex of the upload service

    Models [uploadLocks] of [internal/uploads/service.go]: one mutex per
    upload, created on demand and dropped when nobody holds or waits for it.
    Requests run concurrently; a critical section of [l.mu] is one step, and
    so are taking and releasing the mutex of an entry.  Entries are addresses
    in a heap, so a dropped entry and a new one for the same upload differ. *)

From S2P Require Import Prelude Schema.
Local Open Scope string_scope.
Local Open Scope Z_scope.

Record uploadLock := MkLock { held : bool; refs : Z }.

(** Where a request is: inside [lock] past the counting, between [lock] and
    [unlock], or inside [unlock] past the release. *)
Inductive place : Type :=
| Waiting (id : string) (p : nat)
| Holding (id : string) (p : nat)
| Releasing (id : string) (p : nat).

Definition place_id (c : place) : string := match c with Waiting id _ | Holding id _ | Releasing id _ => id end.
Definition place_ptr (c : place) : nat := match c with Waiting _ p | Holding _ p | Releasing _ p => p end.

Record uploadLocks := MkLocks {
  locks : gmap string nat;
  heap : gmap nat uploadLock;
  fresh : nat;
  threads : gmap nat place;
}.

Definition no_locks : uploadLocks := MkLocks ∅ ∅ 0 ∅.

Definition entry (s : uploadLocks) (p : nat) : uploadLock := default (MkLock false 0) (heap s !! p).
Definition set_entry (p : nat) (e : uploadLock) (s : uploadLocks) : uploadLocks :=
  MkLocks (locks s) (<[p := e]> (heap s)) (fresh s) (threads s).
Definition set_thread (t : nat) (c : option place) (s : uploadLocks) : uploadLocks :=
  MkLocks (locks s) (heap s) (fresh s) (match c with Some c => <[t := c]> (threads s) | None => delete t (threads s) end).

(** [lock] up to [l.mu.Unlock()]: find or create the entry and count in. *)
Definition count_in (t : nat) (id : string) (p : nat) (s : uploadLocks) : uploadLocks :=
  set_thread t (Some (Waiting id p)) (set_entry p (MkLock (held (entry s p)) (refs (entry s p) + 1)) s).
Definition new_entry (id : string) (s : uploadLocks) : uploadLocks :=
  MkLocks (<[id := fresh s]> (locks s)) (<[fresh s := MkLock false 0]> (heap s)) (S (fresh s)) (threads s).
Definition lock_enter (t : nat) (id : string) (s : uploadLocks) : uploadLocks :=
  match locks s !! id with
  | Some p => count_in t id p s
  | None => count_in t id (fresh s) (new_entry id s)
  end.

(** [entry.mu.Lock()], possible while nobody has it. *)
Definition lock_acquire (t : nat) (id : string) (p : nat) (s : uploadLocks) : uploadLocks :=
  set_thread t (Some (Holding id p)) (set_entry p (MkLock true (refs (entry s p))) s).

(** [entry.mu.Unlock()]. *)
Definition unlock_release (t : nat) (id : string) (p : nat) (s : uploadLocks) : uploadLocks :=
  set_thread t (Some (Releasing id p)) (set_entry p (MkLock false (refs (entry s p))) s).

(** The rest of [unlock]: count out, and drop an entry nobody uses. *)
Definition unlock_leave (t : nat) (id : string) (p : nat) (s : uploadLocks) : uploadLocks :=
  let e := MkLock (held (entry s p)) (refs (entry s p) - 1) in
  let s := set_thread t None (set_entry p e s) in
  if refs e =? 0 then MkLocks (delete id (locks s)) (heap s) (fresh s) (threads s) else s.

(** The steps of requests already inside [lock] or [unlock]. *)
Inductive inner_step (t : nat) (s : uploadLocks) : uploadLocks -> Prop :=
| step_acquire id p : threads s !! t = Some (Waiting id p) -> held (entry s p) = false ->
    inner_step t s (lock_acquire t id p s)
| step_release id p : threads s !! t = Some (Holding id p) -> inner_step t s (unlock_release t id p s)
| step_leave id p : threads s !! t = Some (Releasing id p) -> inner_step t s (unlock_leave t id p s).

Inductive lock_step : uploadLocks -> uploadLocks -> Prop :=
| step_enter t id s : threads s !! t = None -> lock_step s (lock_enter t id s)
| step_inner t s s' : inner_step t s s' -> lock_step s s'.

(** ** The invariant *)

(** The requests that use the entry at [p]. *)
Definition users_of (p : nat) (s : uploadLocks) : nat := count_rows (fun _ c => Nat.eqb (place_ptr c) p) (threads s).

Record locks_ok (s : uploadLocks) : Prop := {
  ok_refs : forall p, refs (entry s p) = Z.of_nat (users_of p s);
  ok_thread : forall t c, threads s !! t = Some c -> locks s !! place_id c = Some (place_ptr c);
  ok_inj : forall i j p, locks s !! i = Some p -> locks s !! j = Some p -> i = j;
  ok_fresh : forall i p, locks s !! i = Some p -> (p < fresh s)%nat;
  ok_held : forall p, held (entry s p) = true -> exists t i, threads s !! t = Some (Holding i p);
  ok_holds : forall t i p, threads s !! t = Some (Holding i p) -> held (entry s p) = true;
  ok_excl : forall t t' i i' p, threads s !! t = Some (Holding i p) -> threads s !! t' = Some (Holding i' p) -> t = t';
}.

(** ... and no entry outlives its users. *)
Definition all_used (s : uploadLocks) : Prop := forall i p, locks s !! i = Some p -> (0 < users_of p s)%nat.

Lemma entry_set p q e s : entry (set_entry p e s) q = if decide (p = q) then e else entry s q.
Proof.
  unfold entry. simpl. destruct (decide (p = q)) as [->|Hne]; [by rewrite lookup_insert_eq|by rewrite lookup_insert_ne].
Qed.

Lemma entry_thread t c s q : entry (set_thread t c s) q = entry s q.
Proof. done. Qed.

Definition at_ptr (p : nat) (c : option place) : nat :=
  match c with Some c => if Nat.eqb (place_ptr c) p then 1 else 0 | None => 0 end.

Lemma users_of_split p s t : users_of p s = (at_ptr p (threads s !! t) + users_of p (set_thread t None s))%nat.
Proof.
  unfold users_of. simpl. destruct (threads s !! t) as [c|] eqn:Et; simpl.
  - rewrite <- (insert_delete_id (threads s) t c Et) at 1. rewrite count_rows_insert by apply lookup_delete_eq. done.
  - by rewrite delete_id.
Qed.

(** Moving one request changes the count by what it used before and after. *)
Lemma users_of_move p s t c :
  (users_of p (set_thread t c s) + at_ptr p (threads s !! t) = users_of p s + at_ptr p c)%nat.
Proof.
  rewrite (users_of_split p s t). destruct c as [c|]; simpl; [|lia].
  unfold users_of at 1. simpl. rewrite <- insert_delete_eq, count_rows_insert by apply lookup_delete_eq.
  fold (users_of p (set_thread t None s)). unfold users_of. simpl. lia.
Qed.

Lemma no_locks_ok : locks_ok no_locks /\ all_used no_locks.
Proof.
  split; [split|]; try done; intros; unfold entry, users_of, no_locks in *; simpl in *; try done; by rewrite lookup_empty in *.
Qed.

Lemma set_thread_lookup t c s t' : threads (set_thread t c s) !! t' = if decide (t = t') then c else threads s !! t'.
Proof.
  destruct c as [c|], (decide (t = t')) as [->|Hne]; simpl;
    by rewrite ?lookup_insert_eq, ?lookup_insert_ne, ?lookup_delete_eq, ?lookup_delete_ne.
Qed.

Lemma users_of_zero p s : (forall t c, threads s !! t = Some c -> place_ptr c <> p) -> users_of p s = 0%nat.
Proof.
  intros Hn. destruct (users_of p s) as [|n] eqn:En; [done|].
  assert (H : exists_row (fun _ c => Nat.eqb (place_ptr c) p) (threads s) = true).
  { rewrite <- count_rows_pos. fold (users_of p s). by rewrite En. }
  apply exists_row_true in H as (t & c & Ht & Hc%Nat.eqb_eq). by destruct (Hn t c Ht).
Qed.

Lemma users_of_pos p s t c : threads s !! t = Some c -> place_ptr c = p -> (0 < users_of p s)%nat.
Proof.
  intros Ht Hp. apply Nat.ltb_lt. unfold users_of. rewrite count_rows_pos. apply exists_row_true. exists t, c.
  split; [done|]. by apply Nat.eqb_eq.
Qed.

Lemma fresh_unused s : locks_ok s -> users_of (fresh s) s = 0%nat /\ entry s (fresh s) = MkLock false 0.
Proof.
  intros Hok. assert (Hn : users_of (fresh s) s = 0%nat).
  { apply users_of_zero. intros t c Ht E. pose proof (ok_fresh s Hok _ _ (ok_thread s Hok t c Ht)). lia. }
  split; [done|]. pose proof (ok_refs s Hok (fresh s)) as Hr. destruct (entry s (fresh s)) as [[] r] eqn:Ee; simpl in Hr.
  - destruct (ok_held s Hok (fresh s)) as (t & i & Ht); [by rewrite Ee|].
    pose proof (ok_fresh s Hok _ _ (ok_thread s Hok t _ Ht)) as Hf. simpl in Hf. lia.
  - by rewrite Hn in Hr; subst.
Qed.

Lemma new_entry_ok id s : locks_ok s -> locks s !! id = None -> locks_ok (new_entry id s).
Proof.
  intros Hok Hid. destruct (fresh_unused s Hok) as [Hu He].
  assert (Hent : forall q, entry (new_entry id s) q = entry s q).
  { intros q. unfold new_entry, entry. simpl. destruct (decide (fresh s = q)) as [<-|Hne].
    - rewrite lookup_insert_eq. symmetry. exact He.
    - by rewrite lookup_insert_ne. }
  destruct Hok. split; intros *; rewrite ?Hent; simpl; eauto.
  - intros Ht. rewrite lookup_insert_ne; [by eauto|]. intros ->. by rewrite (ok_thread0 _ _ Ht) in Hid.
  - intros Hi Hj. rewrite !lookup_insert_Some in *.
    destruct Hi as [[<- <-]|[_ Hi]], Hj as [[<- Hj]|[_ Hj]]; subst; eauto.
    + apply ok_fresh0 in Hj. lia.
    + apply ok_fresh0 in Hi. lia.
  - rewrite lookup_insert_Some. intros [[_ <-]|[_ Hi]]; [lia|]. apply ok_fresh0 in Hi. lia.
Qed.

Lemma count_in_ok t id p s : locks_ok s -> threads s !! t = None -> locks s !! id = Some p -> locks_ok (count_in t id p s).
Proof.
  intros Hok Ht Hid. unfold count_in. set (e := MkLock _ _).
  destruct Hok. split.
  - intros q. rewrite entry_thread, entry_set. pose proof (users_of_move q (set_entry p e s) t (Some (Waiting id p))) as Hm.
    cbn [threads set_entry] in Hm. rewrite Ht in Hm. simpl in Hm. change (users_of q (set_entry p e s)) with (users_of q s) in Hm.
    destruct (decide (p = q)) as [->|Hne].
    + rewrite Nat.eqb_refl in Hm. simpl. rewrite (ok_refs0 q). lia.
    + apply Nat.eqb_neq in Hne. rewrite Hne in Hm. rewrite (ok_refs0 q). lia.
  - intros t' c. rewrite set_thread_lookup. case_decide; [intros [= <-]; done|apply ok_thread0].
  - apply ok_inj0.
  - apply ok_fresh0.
  - intros q. rewrite entry_thread, entry_set. intros Hq. assert (Hh : held (entry s q) = true) by (case_decide; subst; done).
    destruct (ok_held0 q Hh) as (t' & i & Ht'). exists t', i. rewrite set_thread_lookup. destruct (decide (t = t')) as [Ed|]; [|exact Ht']. rewrite <- Ed, Ht in Ht'. discriminate.
  - intros t' i q. rewrite set_thread_lookup, entry_thread, entry_set. case_decide; [done|]. intros Hq. apply ok_holds0 in Hq.
    by case_decide; subst.
  - intros t1 t2 i1 i2 q. rewrite !set_thread_lookup. do 2 (case_decide; [done|]). apply ok_excl0.
Qed.

(** The count of an entry's users after one request moves. *)
Lemma users_of_step q p e s t c :
  (users_of q (set_thread t c (set_entry p e s)) + at_ptr q (threads s !! t) = users_of q s + at_ptr q c)%nat.
Proof. exact (users_of_move q (set_entry p e s) t c). Qed.

Lemma at_ptr_same q c c' : place_ptr c = place_ptr c' -> at_ptr q (Some c) = at_ptr q (Some c').
Proof. simpl. by intros ->. Qed.

(** A request that moves between places of the same entry leaves the counts. *)
Lemma users_of_stay q p e s t c c' : threads s !! t = Some c -> place_ptr c' = place_ptr c ->
  users_of q (set_thread t (Some c') (set_entry p e s)) = users_of q s.
Proof. intros Ht Hp. pose proof (users_of_step q p e s t (Some c')) as H. rewrite Ht, (at_ptr_same q c' c Hp) in H. lia. Qed.

Lemma refs_same q p e s : locks_ok s -> refs e = refs (entry s p) -> refs (entry (set_entry p e s) q) = Z.of_nat (users_of q s).
Proof. intros Hok He. rewrite entry_set. case_decide; subst; [rewrite He|]; apply (ok_refs s Hok). Qed.

Lemma lock_acquire_ok t id p s : locks_ok s -> threads s !! t = Some (Waiting id p) -> held (entry s p) = false ->
  locks_ok (lock_acquire t id p s).
Proof.
  intros Hok Ht Hfree. unfold lock_acquire. set (e := MkLock _ _). split.
  - intros q. rewrite entry_thread, (refs_same q p e s Hok eq_refl). f_equal. symmetry. by apply (users_of_stay q p e s t (Waiting id p)).
  - intros t' c. rewrite set_thread_lookup. destruct (decide (t = t')) as [<-|]; [|apply (ok_thread s Hok)].
    intros [= <-]. apply (ok_thread s Hok _ _ Ht).
  - apply (ok_inj s Hok).
  - apply (ok_fresh s Hok).
  - intros q. rewrite entry_thread, entry_set. destruct (decide (p = q)) as [<-|Hne]; intros Hq.
    + exists t, id. rewrite set_thread_lookup. by rewrite decide_True.
    + destruct (ok_held s Hok q Hq) as (t' & i & Ht'). exists t', i. rewrite set_thread_lookup. rewrite decide_False; [exact Ht'|].
      intros <-. rewrite Ht in Ht'. discriminate.
  - intros t' i q. rewrite set_thread_lookup, entry_thread, entry_set. destruct (decide (t = t')) as [<-|Hne].
    + intros [= <- <-]. by rewrite decide_True.
    + intros Hq. destruct (decide (p = q)); [done|]. apply (ok_holds s Hok _ _ _ Hq).
  - assert (Hnone : forall t' i, threads s !! t' = Some (Holding i p) -> False).
    { intros t' i Hq. apply (ok_holds s Hok) in Hq. by rewrite Hfree in Hq. }
    intros t1 t2 i1 i2 q. rewrite !set_thread_lookup. destruct (decide (t = t1)) as [<-|], (decide (t = t2)) as [<-|]; [done|..].
    + intros [= _ <-] Hq. by destruct (Hnone t2 i2).
    + intros Hq [= _ <-]. by destruct (Hnone t1 i1).
    + apply (ok_excl s Hok).
Qed.

Lemma unlock_release_ok t id p s : locks_ok s -> threads s !! t = Some (Holding id p) -> locks_ok (unlock_release t id p s).
Proof.
  intros Hok Ht. unfold unlock_release. set (e := MkLock _ _).
  assert (Hone : forall t' i, threads s !! t' = Some (Holding i p) -> t = t') by (intros t' i; apply (ok_excl s Hok _ _ _ _ _ Ht)).
  split.
  - intros q. rewrite entry_thread, (refs_same q p e s Hok eq_refl). f_equal. symmetry. by apply (users_of_stay q p e s t (Holding id p)).
  - intros t' c. rewrite set_thread_lookup. destruct (decide (t = t')) as [<-|]; [|apply (ok_thread s Hok)].
    intros [= <-]. apply (ok_thread s Hok _ _ Ht).
  - apply (ok_inj s Hok).
  - apply (ok_fresh s Hok).
  - intros q. rewrite entry_thread, entry_set. destruct (decide (p = q)) as [<-|Hne]; [done|]. intros Hq.
    destruct (ok_held s Hok q Hq) as (t' & i & Ht'). exists t', i. rewrite set_thread_lookup. rewrite decide_False; [exact Ht'|].
    intros <-. rewrite Ht in Ht'. congruence.
  - intros t' i q. rewrite set_thread_lookup, entry_thread, entry_set. destruct (decide (t = t')) as [<-|Hne]; [done|].
    intros Hq. destruct (decide (p = q)) as [<-|]; [by destruct Hne; eapply Hone|]. apply (ok_holds s Hok _ _ _ Hq).
  - intros t1 t2 i1 i2 q. rewrite !set_thread_lookup. destruct (decide (t = t1)), (decide (t = t2)); try done. apply (ok_excl s Hok).
Qed.

Lemma unlock_leave_ok t id p s : locks_ok s -> all_used s -> threads s !! t = Some (Releasing id p) ->
  locks_ok (unlock_leave t id p s) /\ all_used (unlock_leave t id p s).
Proof.
  intros Hok Hused Ht. unfold unlock_leave. set (e := MkLock _ _). set (s1 := set_thread _ _ _).
  pose proof (ok_thread s Hok _ _ Ht) as Hid. simpl in Hid.
  assert (Hcount : forall q, (users_of q s1 + (if decide (p = q) then 1 else 0) = users_of q s)%nat).
  { intros q. pose proof (users_of_step q p e s t None) as H. fold s1 in H. rewrite Ht in H. simpl in H.
    destruct (decide (p = q)) as [<-|Hne]; [rewrite Nat.eqb_refl in H|apply Nat.eqb_neq in Hne; rewrite Hne in H]; lia. }
  assert (Hrefs : forall q, refs (entry s1 q) = Z.of_nat (users_of q s1)).
  { intros q. specialize (Hcount q). unfold s1. rewrite entry_thread, entry_set. fold s1.
    pose proof (ok_refs s Hok q) as Hr. destruct (decide (p = q)) as [<-|]; simpl; rewrite Hr; lia. }
  assert (Hthreads : forall t' c, threads s1 !! t' = Some c -> threads s !! t' = Some c).
  { intros t' c. unfold s1. rewrite set_thread_lookup. by case_decide. }
  assert (Hok1 : locks_ok s1).
  { split; [done| | | | | |].
    - intros t' c Hc%Hthreads. apply (ok_thread s Hok _ _ Hc).
    - apply (ok_inj s Hok).
    - apply (ok_fresh s Hok).
    - intros q. unfold s1. rewrite entry_thread, entry_set. intros Hq.
      assert (Hh : held (entry s q) = true) by (destruct (decide (p = q)); subst; done).
      destruct (ok_held s Hok q Hh) as (t' & i & Ht'). exists t', i. rewrite set_thread_lookup, decide_False; [exact Ht'|].
      intros <-. rewrite Ht in Ht'. discriminate.
    - intros t' i q Hq%Hthreads. unfold s1. rewrite entry_thread, entry_set. apply (ok_holds s Hok) in Hq.
      by destruct (decide (p = q)); subst.
    - intros t1 t2 i1 i2 q H1%Hthreads H2%Hthreads. apply (ok_excl s Hok _ _ _ _ _ H1 H2). }
  assert (He : refs e = refs (entry s1 p)) by (unfold s1; by rewrite entry_thread, entry_set, decide_True).
  rewrite He, Hrefs. destruct (Z.eqb_spec (Z.of_nat (users_of p s1)) 0) as [E0|E0].
  - split.
    + destruct Hok1. split; try done; simpl.
      * intros t' c Hc. pose proof (ok_thread0 _ _ Hc) as Hl. destruct (decide (place_id c = id)) as [Ei|Hne].
        -- rewrite Ei in Hl. change (locks s1) with (locks s) in Hl. rewrite Hid in Hl. injection Hl as Hl.
           pose proof (users_of_pos p s1 t' c Hc (eq_sym Hl)). lia.
        -- by rewrite lookup_delete_ne.
      * intros i j q. rewrite !lookup_delete_Some. intros [_ Hi] [_ Hj]. by apply (ok_inj0 i j q).
      * intros i q. rewrite lookup_delete_Some. intros [_ Hi]. by apply (ok_fresh0 i q).
    + intros i q. simpl. rewrite lookup_delete_Some. intros [Hne Hi]. specialize (Hcount q).
      change (0 < users_of q s1)%nat. pose proof (Hused i q Hi). rewrite decide_False in Hcount; [lia|].
      intros <-. destruct Hne. by apply (ok_inj s Hok _ _ _ Hid Hi).
  - split; [done|]. intros i q Hi. specialize (Hcount q). pose proof (Hused i q Hi).
    destruct (decide (p = q)) as [<-|]; lia.
Qed.

Lemma lock_enter_ok t id s : locks_ok s -> all_used s -> threads s !! t = None ->
  locks_ok (lock_enter t id s) /\ all_used (lock_enter t id s).
Proof.
  intros Hok Hused Ht. unfold lock_enter. destruct (locks s !! id) as [p|] eqn:Hid.
  - split; [by apply count_in_ok|]. intros i q Hi. unfold count_in. set (e := MkLock _ _).
    pose proof (users_of_step q p e s t (Some (Waiting id p))). rewrite Ht in *. pose proof (Hused i q Hi). simpl in *. lia.
  - split; [apply count_in_ok; [by apply new_entry_ok|done|apply lookup_insert_eq]|].
    intros i q. unfold count_in. set (e := MkLock _ _). intros Hi.
    pose proof (users_of_step q (fresh s) e (new_entry id s) t (Some (Waiting id (fresh s)))) as H.
    cbn [threads new_entry] in H. rewrite Ht in H. simpl in H, Hi.
    apply lookup_insert_Some in Hi as [[_ <-]|[_ Hi]]; [rewrite Nat.eqb_refl in H; lia|].
    pose proof (Hused i q Hi) as Hq. change (users_of q (new_entry id s)) with (users_of q s) in H. lia.
Qed.

Lemma lock_step_ok s s' : lock_step s s' -> locks_ok s -> all_used s -> locks_ok s' /\ all_used s'.
Proof.
  intros [t id s0 Ht|t s0 s1 [id p Ht Hf|id p Ht|id p Ht]] Hok Hused.
  - by apply lock_enter_ok.
  - split; [by apply lock_acquire_ok|]. intros i q Hi. unfold lock_acquire. erewrite users_of_stay; [by apply (Hused i)|exact Ht|done].
  - split; [by apply unlock_release_ok|]. intros i q Hi. unfold unlock_release. erewrite users_of_stay; [by apply (Hused i)|exact Ht|done].
  - by apply unlock_leave_ok.
Qed.

Definition reachable (s : uploadLocks) : Prop := rtc lock_step no_locks s.

Lemma reachable_ok s : reachable s -> locks_ok s /\ all_used s.
Proof.
  intros Hr. assert (H : forall x y, rtc lock_step x y -> locks_ok x /\ all_used x -> locks_ok y /\ all_used y).
  { clear. induction 1 as [|x y z Hs _ IH]; [done|]. intros [H1 H2]. apply IH. by apply (lock_step_ok x y). }
  apply (H _ _ Hr no_locks_ok).
Qed.

(** ** What the keyed mutex promises *)

(** C35. At any moment at most one request is between [lock] and [unlock] of an
    upload, whichever entries the two were given. *)
Theorem lock_exclusive s t t' id p p' : reachable s ->
  threads s !! t = Some (Holding id p) -> threads s !! t' = Some (Holding id p') -> t = t'.
Proof.
  intros [Hok _]%reachable_ok H1 H2.
  pose proof (ok_thread s Hok _ _ H1) as L1. pose proof (ok_thread s Hok _ _ H2) as L2. simpl in L1, L2.
  rewrite L1 in L2. injection L2 as <-. by apply (ok_excl s Hok _ _ _ _ _ H1 H2).
Qed.

Lemma lock_used s id : reachable s -> is_Some (locks s !! id) -> exists t c, threads s !! t = Some c /\ place_id c = id.
Proof.
  intros [Hok Hused]%reachable_ok [p Hp]. pose proof (Hused id p Hp) as Hu. unfold users_of in Hu.
  apply Nat.ltb_lt in Hu. rewrite count_rows_pos in Hu.
  apply exists_row_true in Hu as (t & c & Ht & Hc%Nat.eqb_eq). exists t, c. split; [done|].
  apply (ok_inj s Hok _ _ p); [|done]. rewrite <- Hc. exact (ok_thread s Hok t c Ht).
Qed.

(** The table holds exactly the uploads some request uses: an entry is
    dropped with its last user and never earlier. *)
Theorem locks_exact s id : reachable s ->
  is_Some (locks s !! id) <-> exists t c, threads s !! t = Some c /\ place_id c = id.
Proof.
  intros Hr. split; [by apply lock_used|]. destruct (reachable_ok s Hr) as [Hok _].
  intros (t & c & Ht & <-). exists (place_ptr c). exact (ok_thread s Hok t c Ht).
Qed.

Lemma inner_possible s t c : reachable s -> threads s !! t = Some c ->
  exists t' c' s', threads s !! t' = Some c' /\ place_id c' = place_id c /\ inner_step t' s s'.
Proof.
  intros [Hok Hused]%reachable_ok Ht.
  destruct c as [id p|id p|id p]; [|eexists t, _, _; split; [done|]; split; [done|by constructor]..].
  destruct (held (entry s p)) eqn:Eh; [|eexists t, _, _; split; [done|]; split; [done|by constructor]].
  destruct (ok_held s Hok p Eh) as (t' & i & Ht'). eexists t', _, _. split; [done|]. split; [|by econstructor].
  pose proof (ok_thread s Hok _ _ Ht) as L1. pose proof (ok_thread s Hok _ _ Ht') as L2. by apply (ok_inj s Hok _ _ p).
Qed.

(** What a request still has to do. *)
Definition weight (c : place) : nat := match c with Waiting _ _ => 3 | Holding _ _ => 2 | Releasing _ _ => 1 end.
Definition work (s : uploadLocks) : nat := map_fold (fun _ c n => (weight c + n)%nat) 0%nat (threads s).

Lemma work_delete t c s : threads s !! t = Some c -> work s = (weight c + work (set_thread t None s))%nat.
Proof.
  intros Ht. unfold work. simpl. apply (map_fold_delete_L (fun _ c n => (weight c + n)%nat)); [|done]. intros. lia.
Qed.

Lemma work_insert t c s : work (set_thread t (Some c) s) = (weight c + work (set_thread t None s))%nat.
Proof.
  unfold work. simpl. rewrite <- insert_delete_eq. rewrite map_fold_insert_L; [done|intros; lia|apply lookup_delete_eq].
Qed.

Lemma inner_step_work t s s' : inner_step t s s' -> (work s' < work s)%nat.
Proof.
  assert (Hw : forall p e x y, threads s !! t = Some x -> (weight y < weight x)%nat ->
    (work (set_thread t (Some y) (set_entry p e s)) < work s)%nat).
  { intros p e x y Hx Hlt. rewrite work_insert, (work_delete t x s Hx).
    change (work (set_thread t None (set_entry p e s))) with (work (set_thread t None s)). lia. }
  intros [id p Ht Hf|id p Ht|id p Ht]; [by eapply Hw; [exact Ht|simpl; lia]..|].
  rewrite (work_delete t _ s Ht). unfold unlock_leave. case_match; unfold work; simpl; lia.
Qed.

Definition some_inner (s s' : uploadLocks) : Prop := exists t, inner_step t s s'.

Lemma some_inner_reachable s s' : rtc some_inner s s' -> reachable s -> reachable s'.
Proof.
  induction 1 as [|x y z [t Hs] _ IH]; [done|]. intros Hr. apply IH. apply (rtc_r _ _ _ Hr). by apply (step_inner t).
Qed.

Lemma drain_out s : reachable s -> exists s', rtc some_inner s s' /\ threads s' = ∅ /\ locks s' = ∅.
Proof.
  revert s. apply (well_founded_ind (well_founded_ltof _ work) (fun s => reachable s -> _)). intros s IH Hr.
  destruct (map_choose_or_empty (threads s)) as [(t & c & Ht)|Hn].
  - destruct (inner_possible s t c Hr Ht) as (t' & c' & s1 & _ & _ & Hs).
    destruct (IH s1 (inner_step_work t' s s1 Hs)) as (s2 & H2 & Hd).
    { apply (some_inner_reachable s); [apply rtc_once; by exists t'|done]. }
    exists s2. split; [|done]. apply (rtc_l _ _ s1); [by exists t'|done].
  - exists s. split; [apply rtc_refl|]. split; [done|]. apply map_eq. intros id. rewrite lookup_empty.
    destruct (locks s !! id) as [p|] eqn:El; [|done]. destruct (lock_used s id Hr) as (t & c & Ht & _); [by exists p|].
    by rewrite Hn, lookup_empty in Ht.
Qed.

(** C36. The mutexes drain: while requests are inside one of them can step, no
    schedule of the requests already inside goes on
    for ever, and any schedule can be continued until all of them are out and
    the table is empty. *)
Theorem locks_drain s : reachable s ->
  Acc (fun y x => some_inner x y) s /\ exists s', rtc some_inner s s' /\ threads s' = ∅ /\ locks s' = ∅.
Proof.
  intros Hr. split.
  - clear Hr. revert s. apply (well_founded_ind (well_founded_ltof _ work)). intros s IH.
    constructor. intros y [t Hy]. apply IH, (inner_step_work t s y Hy).
  - apply drain_out. done.
Qed.

(** ** A run *)

(** Two requests for one upload: the second waits until the first is out. *)
Definition both : uploadLocks := lock_enter 2 "u" (lock_acquire 1 "u" 0 (lock_enter 1 "u" no_locks)).

Lemma both_reachable : reachable both.
Proof.
  unfold reachable, both. eapply rtc_l; [by apply (step_enter 1 "u")|].
  eapply rtc_l; [apply (step_inner 1), (step_acquire 1 _ "u" 0); by vm_compute|].
  eapply rtc_l; [|apply rtc_refl]. apply (step_enter 2 "u"). by vm_compute.
Qed.

Lemma lock_exclusive_witness : threads both !! 1%nat = Some (Holding "u" 0) /\ 1%nat = 1%nat.
Proof.
  assert (H : threads both !! 1%nat = Some (Holding "u" 0)) by by vm_compute.
  split; [done|]. exact (lock_exclusive both 1 1 "u" 0 0 both_reachable H H).
Defined.

Lemma locks_exact_witness : is_Some (locks both !! "u") <-> exists t c, threads both !! t = Some c /\ place_id c = "u".
Proof. apply (locks_exact both "u" both_reachable). Defined.

Lemma locks_drain_witness : Acc (fun y x => some_inner x y) both /\
  exists s', rtc some_inner both s' /\ threads s' = ∅ /\ locks s' = ∅.
Proof. apply (locks_drain both both_reachable). Defined.

(** After both are done the table is empty. *)
Example both_done : locks (unlock_leave 2 "u" 0 (unlock_release 2 "u" 0 (lock_acquire 2 "u" 0
  (unlock_leave 1 "u" 0 (unlock_release 1 "u" 0 both))))) = ∅.
Proof. by vm_compute. Qed.
