(* ===== verification/Auth.v ===== *)
(** * Passwords and accounts (internal/auth/auth.go)

    Argon2id ([golang.org/x/crypto/argon2]) is the interface [Argon2].
    [salt] stands for the bytes [crypto/rand] returns.  The stored hash is the
    text the code formats and reads back with [strings.Split], [fmt.Sscanf]
    and unpadded base64. *)

From S2P Require Import Prelude GoText GoTime Uuid Sha256 Schema Fixture.
From Stdlib Require Import Ascii String.
Local Open Scope string_scope.

Class Argon2 : Type := {
  IDKey : forall (password : string) (salt : list byte) (time memory threads keyLen : Z), list byte;
}.
(** The derived key has the requested length. *)
Class Argon2Laws (A : Argon2) : Prop := {
  IDKey_length : forall password salt time memory threads keyLen, (0 <= keyLen)%Z ->
    Z.of_nat (List.length (IDKey password salt time memory threads keyLen)) = keyLen;
}.

Definition argonTime : Z := 3.
Definition argonMemory : Z := 64 * 1024.
Definition argonThreads : Z := 4.
Definition argonKeyLen : Z := 32.

Definition maxConcurrentPasswordHashes : Z := 2.
Definition maxConcurrentAttemptsPerAddress : Z := 4.
Definition maxConcurrentAttemptsPerAccount : Z := 4.

Record User := MkUser { User_ID : string; Username : string; Role : string }.

(** ** Go's [base64.RawStdEncoding], [TrimSpace], [ToLower] and [Sscanf] *)

Fixpoint string_map (f : ascii -> ascii) (s : string) : string :=
  match s with "" => "" | String c s' => String (f c) (string_map f s') end.

(** The standard alphabet has + and / where the URL alphabet has - and _. *)
Definition url_to_std (c : ascii) : ascii :=
  if Ascii.eqb c "-" then "+"%char else if Ascii.eqb c "_" then "/"%char else c.
Definition std_to_url (c : ascii) : ascii :=
  if Ascii.eqb c "+" then "-"%char else if Ascii.eqb c "/" then "_"%char else c.
Definition url_only (c : ascii) : bool := Ascii.eqb c "-" || Ascii.eqb c "_".

Definition std_encode (l : list byte) : string := string_map url_to_std (b64_encode (string_of_list_byte l)).
Definition std_decode (s : string) : option (list byte) :=
  if string_forall (fun c => negb (url_only c)) s
  then list_byte_of_string <$> b64_decode (string_map std_to_url s)
  else None.

(** The white space of Unicode, as UTF-8. *)
Definition utf8 (l : list byte) : string := string_of_list_byte l.
Definition spaces : list string :=
  (map (fun c => String c "") ["009"; "010"; "011"; "012"; "013"; " "]%char ++
  [utf8 [xc2; x85]; utf8 [xc2; xa0]; utf8 [xe1; x9a; x80]] ++
  map (fun b => utf8 [xe2; x80; b]) [x80; x81; x82; x83; x84; x85; x86; x87; x88; x89; x8a; xa8; xa9; xaf] ++
  [utf8 [xe2; x81; x9f]; utf8 [xe3; x80; x80]])%list.

Fixpoint first_match (test : string -> string -> bool) (s : string) (l : list string) : option string :=
  match l with
  | [] => None
  | p :: rest => if test s p then Some p else first_match test s rest
  end.

Fixpoint trim_left (fuel : nat) (s : string) : string :=
  match fuel with
  | O => s
  | S f => match first_match HasPrefix s spaces with
           | Some p => trim_left f (TrimPrefix s p)
           | None => s
           end
  end.
Fixpoint trim_right (fuel : nat) (s : string) : string :=
  match fuel with
  | O => s
  | S f => match first_match HasSuffix s spaces with
           | Some p => trim_right f (TrimSuffix s p)
           | None => s
           end
  end.
Definition TrimSpace (s : string) : string :=
  let n := String.length s in trim_right n (trim_left n s).

Definition lower (c : ascii) : ascii :=
  let n := N_of_ascii c in if ((65 <=? n) && (n <=? 90))%N then ascii_of_N (n + 32) else c.
Definition ToLower (s : string) : string := string_map lower s.

(** [SkipSpace] of [Sscanf]: a newline is an error. *)
Fixpoint skip_space (fuel : nat) (s : string) : option string :=
  match fuel with
  | O => Some s
  | S f =>
      if HasPrefix s (String "010" "") then None
      else match first_match HasPrefix s spaces with
           | Some p => skip_space f (TrimPrefix s p)
           | None => Some s
           end
  end.

Fixpoint span_digits (s : string) : string * string :=
  match s with
  | String c s' => match digit_val c with
                   | Some _ => let '(a, b) := span_digits s' in (String c a, b)
                   | None => ("", s)
                   end
  | "" => ("", "")
  end.

Definition scan_literal (lit s : string) : option string :=
  if HasPrefix s lit then Some (string_drop (String.length lit) s) else None.

(** [%d] into an unsigned integer of [bits] bits. *)
Definition scan_uint (bits : Z) (s : string) : option (Z * string) :=
  match skip_space (S (String.length s)) s with
  | None => None
  | Some s => match span_digits s with
              | ("", _) => None
              | (tok, rest) => match parse_uint tok 0 with
                               | Some n => if (n <? 2 ^ bits)%Z then Some (n, rest) else None
                               | None => None
                               end
              end
  end.

(** [Sscanf(s, "m=%d,t=%d,p=%d", &memory, &iterations, &threads)]. *)
Definition scan_params (s : string) : option (Z * Z * Z) :=
  s ← scan_literal "m=" s; m ← scan_uint 32 s;
  s ← scan_literal ",t=" m.2; t ← scan_uint 32 s;
  s ← scan_literal ",p=" t.2; p ← scan_uint 8 s;
  Some (m.1, t.1, p.1).

(** ** Passwords *)

Section auth.
Context {A : Argon2}.

Definition HashPassword (salt : list byte) (password : string) : string :=
  let hash := IDKey password salt argonTime argonMemory argonThreads argonKeyLen in
  "$argon2id$v=19$m=" ++ FormatInt argonMemory ++ ",t=" ++ FormatInt argonTime ++ ",p=" ++ FormatInt argonThreads
  ++ "$" ++ std_encode salt ++ "$" ++ std_encode hash.

Definition VerifyPassword (encoded password : string) : bool :=
  match Split encoded "$"%char with
  | [_; kind; version; params; saltEncoded; hashEncoded] =>
      if negb (String.eqb kind "argon2id") || negb (String.eqb version "v=19") then false
      else match scan_params params with
           | None => false
           | Some (memory, iterations, threads) =>
               if (memory <? 8 * 1024)%Z || (iterations =? 0)%Z || (threads =? 0)%Z then false
               else match std_decode saltEncoded with
                    | None => false
                    | Some salt =>
                        match std_decode hashEncoded with
                        | None => false
                        | Some expected =>
                            if negb (Z.of_nat (List.length expected) =? argonKeyLen)%Z then false
                            else bool_decide (IDKey password salt iterations memory threads
                                                (Z.of_nat (List.length expected)) = expected)
                        end
                    end
           end
  | _ => false
  end.

(** The bytes of a token's hash. *)
Definition TokenHash (token : string) : list byte := Sum256 (list_byte_of_string token).

(** ** Accounts *)

Definition username_char (c : ascii) : bool :=
  let n := N_of_ascii c in
  ((97 <=? n) && (n <=? 122) || (65 <=? n) && (n <=? 90) || (48 <=? n) && (n <=? 57)
   || (n =? 45) || (n =? 95) || (n =? 46))%N.

Definition normalizeUsername (value : string) : result (string * string) :=
  let value := TrimSpace value in
  if (String.length value <? 3)%nat || (64 <? String.length value)%nat
  then Err (Internal "username must contain 3 to 64 characters")
  else if negb (string_forall username_char value)
  then Err (Internal "username may only contain letters, digits, dots, hyphens, and underscores")
  else Ok (value, ToLower value).

Definition validatePassword (password : string) : result unit :=
  if (Z.of_nat (String.length password) <? 12)%Z || (1024 <? Z.of_nat (String.length password))%Z
  then Err (Internal "password must contain 12 to 1024 characters") else Ok tt.

Context (clk : nat -> Z) (newid : nat -> string) (salt : list byte).

Definition insert_account (role : string) (id username normalized hash now : string) : DB -> result DB :=
  insert_users id (Schema.User username normalized hash role "ACTIVE" now now).

Definition BootstrapAdmin (username password : string) : M DB User :=
  names ← lift (normalizeUsername username);
  lift (validatePassword password) ;;
  tx (
    count ← query (fun d => Ok (size (users d)));
    throw_if (negb (Nat.eqb count 0)) (Internal "bootstrap admin is only allowed before the first user exists") ;;
    let hash := HashPassword salt password in
    let now := Format (clk 0) in
    exec (insert_account "ADMIN" (newid 0) names.1 names.2 hash now) ;;
    mret (MkUser (newid 0) names.1 "ADMIN")).

Definition active_admins (d : DB) : nat :=
  count_rows (fun _ u => String.eqb (user_role u) "ADMIN" && String.eqb (user_status u) "ACTIVE") (users d).

Definition CreateUser (maxUsers : Z) (username password : string) : M DB User :=
  names ← lift (normalizeUsername username);
  lift (validatePassword password) ;;
  tx (
    count ← query (fun d => Ok (size (users d)));
    admins ← query (fun d => Ok (active_admins d));
    throw_if (Nat.eqb admins 0) (Internal "create an active bootstrap admin before creating family user accounts") ;;
    throw_if (maxUsers <=? Z.of_nat count)%Z (Internal ("user limit of " ++ FormatInt maxUsers ++ " reached")) ;;
    let hash := HashPassword salt password in
    let now := Format (clk 0) in
    exec (insert_account "USER" (newid 0) names.1 names.2 hash now) ;;
    mret (MkUser (newid 0) names.1 "USER")).
End auth.

Example trim1 : TrimSpace "  Alice. " = "Alice.". Proof. reflexivity. Qed.
Example scan1 : scan_params "m=65536,t=3,p=4" = Some (65536, 3, 4)%Z. Proof. reflexivity. Qed.
Example scan2 : scan_params "m= 65536,t=3,p=400" = None. Proof. reflexivity. Qed.
Example scan3 : scan_params "m= 65536,t=3,p=4x" = Some (65536, 3, 4)%Z. Proof. reflexivity. Qed.
