(* ===== verification/Session.v ===== *)
(** * Logins, sessions and devices (internal/auth/session.go)

    [Service] is the state of the service: the database and its three attempt
    limiters.  [clk i] is the [i]-th reading of the clock within one call,
    [newid i] the [i]-th identifier of [uuid.NewString] and [rand i] the
    [i]-th read of [crypto/rand].  A run is a sequence of whole calls; the
    limiters themselves are proved for arbitrary interleavings in Limiter.
    The slots that bound concurrent Argon2id runs and the server's log have
    no effect on results and are left out. *)

From S2P Require Import Prelude GoText GoTime Uuid Sha256 Schema Fixture Limiter Auth.
From Stdlib Require Import String.
Local Open Scope string_scope.

Definition refreshTokenTTL : Z := 30 * 24 * Hour.
Definition refreshRetryGrace : Z := Minute.
Definition recordSyncInterval : Z := Minute.

Record DeviceRegistration := MkRegistration {
  reg_ID : string; reg_Name : string; reg_Platform : string; reg_PublicKey : list byte; reg_KeyVersion : Z;
}.

Record Device := MkDevice {
  Device_ID : string; Device_UserID : string; Device_Name : string; Device_Platform : string;
  Device_PublicKey : list byte; Device_KeyVersion : Z;
  Device_CreatedAt : Z; LastSeenAt : Z; LastSyncAt : option Z; RevokedAt : option Z;
}.

Record ShareableDevice := MkShareable {
  sd_ID : string; sd_Platform : string; sd_PublicKey : list byte; sd_KeyVersion : Z;
}.

Record Session := MkSession {
  Session_User : User;
  Session_Device : Device;
  AccessToken : string; AccessTokenExpiresAt : Z;
  RefreshToken : string; RefreshTokenExpiresAt : Z;
  refreshTokenID : string;
  accessTokenID : string;
}.

Record Service := MkService {
  auth_db : DB;
  loginLimiter : entry_map;
  accountLimiter : entry_map;
  addressLimiter : entry_map;
}.
Definition set_auth_db (d : DB) (st : Service) : Service :=
  MkService d (loginLimiter st) (accountLimiter st) (addressLimiter st).
Definition set_login (m : entry_map) (st : Service) : Service :=
  MkService (auth_db st) m (accountLimiter st) (addressLimiter st).
Definition set_account (m : entry_map) (st : Service) : Service :=
  MkService (auth_db st) (loginLimiter st) m (addressLimiter st).
Definition set_address (m : entry_map) (st : Service) : Service :=
  MkService (auth_db st) (loginLimiter st) (accountLimiter st) m.

(** A database computation as part of a call. *)
Definition in_db {A} (m : M DB A) : M Service A := fun st =>
  let '(r, d) := m (auth_db st) in (r, set_auth_db d st).

Section session.
Context {U : UuidLib} {TP : TimeParser} {A2 : Argon2}.

(** ** Devices *)

Definition validateDeviceRegistration (d : DeviceRegistration) : result unit :=
  if negb (ValidUUID (reg_ID d)) then Err (NewValidation "device id must be a valid UUID")
  else if Nat.eqb (String.length (reg_Name d)) 0 || (128 <? Z.of_nat (String.length (reg_Name d)))%Z
  then Err (NewValidation "device name must contain 1 to 128 characters")
  else if negb (one_of ["WINDOWS"; "ANDROID"; "OTHER"] (reg_Platform d))
  then Err (NewValidation "device platform must be WINDOWS, ANDROID, or OTHER")
  else if Nat.eqb (List.length (reg_PublicKey d)) 0 || (4096 <? Z.of_nat (List.length (reg_PublicKey d)))%Z
  then Err (NewValidation "device public key is required")
  else if (reg_KeyVersion d <? 1)%Z then Err (NewValidation "device key version must be at least 1")
  else Ok tt.

Definition scanDevice (id : string) (r : device_row) : result Device :=
  created ← Parse (device_created_at r);
  seen ← Parse (device_last_seen_at r);
  synced ← Parse_opt (device_last_sync_at r);
  revoked ← Parse_opt (device_revoked_at r);
  Ok (MkDevice id (device_user_id r) (device_name r) (device_platform r) (device_e2ee_public_key r)
        (device_e2ee_key_version r) created seen synced revoked).

(** [SELECT .. FROM devices WHERE id = ? AND user_id = ?]. *)
Definition own_device (deviceID userID : string) (d : DB) : option device_row :=
  match devices d !! deviceID with
  | Some r => if String.eqb (device_user_id r) userID then Some r else None
  | None => None
  end.

Definition loadDevice (deviceID userID : string) (d : DB) : result Device :=
  match own_device deviceID userID d with
  | Some r => scanDevice deviceID r
  | None => Err (EAuth AuthErrTokenInvalid)
  end.

Definition GetDevice (userID deviceID : string) (d : DB) : result Device :=
  match own_device deviceID userID d with
  | Some r => scanDevice deviceID r
  | None => Err (EAuth AuthErrNotFound)
  end.

Definition created_le (a b : string * device_row) : bool := text_le (device_created_at a.2) (device_created_at b.2).

Definition ListDevices (userID : string) (d : DB) : result (list Device) :=
  rmap (fun kr => scanDevice kr.1 kr.2)
    (order_by created_le (select_rows (fun _ r => String.eqb (device_user_id r) userID) (devices d))).

Definition ListShareableDevices (userID : string) (d : DB) : list ShareableDevice :=
  match users d !! userID with
  | Some u =>
      if String.eqb (user_status u) "ACTIVE" then
        map (fun kr => MkShareable kr.1 (device_platform kr.2) (device_e2ee_public_key kr.2) (device_e2ee_key_version kr.2))
          (order_by created_le
            (select_rows (fun _ r => String.eqb (device_user_id r) userID && is_null (device_revoked_at r)) (devices d)))
      else []
  | None => []
  end.

Definition GetUser (id : string) (d : DB) : result User :=
  match users d !! id with
  | Some u => Ok (MkUser id (user_username u) (user_role u))
  | None => Err (EAuth AuthErrNotFound)
  end.

Context (clk : nat -> Z) (newid : nat -> string) (rand : nat -> list byte) (accessTokenTTL : Z).

Definition touch_device (name now : string) (r : device_row) : device_row :=
  Schema.Device (device_user_id r) name (device_platform r) (device_e2ee_public_key r) (device_e2ee_key_version r)
    (device_created_at r) now (device_revoked_at r) (device_last_sync_at r).
Definition sync_device (now : string) (r : device_row) : device_row :=
  Schema.Device (device_user_id r) (device_name r) (device_platform r) (device_e2ee_public_key r)
    (device_e2ee_key_version r) (device_created_at r) (device_last_seen_at r) (device_revoked_at r) (Some now).
Definition revoke_device (now : string) (r : device_row) : device_row :=
  Schema.Device (device_user_id r) (device_name r) (device_platform r) (device_e2ee_public_key r)
    (device_e2ee_key_version r) (device_created_at r) (device_last_seen_at r) (Some now) (device_last_sync_at r).

Definition update_device (id : string) (f : device_row -> device_row) (d : DB) : DB :=
  match devices d !! id with Some r => upd_devices <[id := f r]> d | None => d end.

Definition upsertDevice (now : Z) (userID : string) (reg : DeviceRegistration) : M DB Device :=
  existing ← query (fun d => match loadDevice (reg_ID reg) userID d with
                             | Ok x => Ok (Some x)
                             | Err e => if decide (e = EAuth AuthErrTokenInvalid) then Ok None else Err e
                             end);
  match existing with
  | None =>
      conflict ← query (fun d => Ok (match devices d !! reg_ID reg with
                                     | Some r => negb (String.eqb (device_user_id r) userID)
                                     | None => false
                                     end));
      throw_if conflict (EAuth AuthErrDeviceConflict) ;;
      exec (insert_devices (reg_ID reg)
        (Schema.Device userID (reg_Name reg) (reg_Platform reg) (reg_PublicKey reg) (reg_KeyVersion reg)
           (Format now) (Format now) None None)) ;;
      mret (MkDevice (reg_ID reg) userID (reg_Name reg) (reg_Platform reg) (reg_PublicKey reg) (reg_KeyVersion reg)
              now now None None)
  | Some x =>
      throw_if (is_valid (RevokedAt x)) (EAuth AuthErrDeviceRevoked) ;;
      throw_if (negb (bool_decide (Device_PublicKey x = reg_PublicKey reg)) ||
                negb (Device_KeyVersion x =? reg_KeyVersion reg)%Z) (EAuth AuthErrDeviceConflict) ;;
      modify (update_device (Device_ID x) (touch_device (reg_Name reg) (Format now))) ;;
      mret (MkDevice (Device_ID x) (Device_UserID x) (reg_Name reg) (Device_Platform x) (Device_PublicKey x)
              (Device_KeyVersion x) (Device_CreatedAt x) now (LastSyncAt x) (RevokedAt x))
  end.

(** ** Tokens *)

Definition randomToken (bytes : list byte) : string := b64_encode (string_of_list_byte bytes).

Definition issueTokens (now : Z) (user : User) (device : Device) : M DB Session :=
  let accessToken := randomToken (rand 0) in
  let refreshToken := randomToken (rand 1) in
  let refreshTokenID := newid 0 in
  let accessTokenID := newid 1 in
  let accessExpires := (now + accessTokenTTL)%Z in
  let refreshExpires := (now + refreshTokenTTL)%Z in
  exec (insert_access_tokens accessTokenID
    (Schema.AccessToken (User_ID user) (Device_ID device) (TokenHash accessToken) (Format now) (Format accessExpires))) ;;
  exec (insert_refresh_tokens refreshTokenID
    (Schema.RefreshToken (User_ID user) (Device_ID device) (TokenHash refreshToken) (Format now) (Format refreshExpires)
       None None)) ;;
  mret (MkSession user device accessToken accessExpires refreshToken refreshExpires refreshTokenID accessTokenID).

Definition retire (now : string) (successor : option string) (r : refresh_token_row) : refresh_token_row :=
  Schema.RefreshToken (rt_user_id r) (rt_device_id r) (rt_token_hash r) (rt_created_at r) (rt_expires_at r)
    (Some now) (match successor with Some _ => successor | None => rt_rotated_to r end).
Definition expire_at (t : string) (r : access_token_row) : access_token_row :=
  Schema.AccessToken (at_user_id r) (at_device_id r) (at_token_hash r) (at_created_at r) t.

Definition revokeDeviceTokens (deviceID : string) (now : Z) : M DB unit :=
  modify (upd_refresh_tokens (update_rows
    (fun _ r => String.eqb (rt_device_id r) deviceID && is_null (rt_revoked_at r)) (retire (Format now) None))) ;;
  modify (upd_access_tokens (delete_rows (fun _ r => String.eqb (at_device_id r) deviceID))).

Definition refresh_token_of (hash : list byte) (d : DB) : option refresh_token_row :=
  match select_rows (fun _ r => bool_decide (rt_token_hash r = hash)) (refresh_tokens d) with
  | [] => None
  | (_, r) :: _ => Some r
  end.

(** The presented token was rotated longer ago than the grace period. *)
Definition reused (now : Z) (r : refresh_token_row) : result bool :=
  match rt_revoked_at r with
  | None => Ok false
  | Some t =>
      match rt_rotated_to r with
      | None => Err (EAuth AuthErrTokenInvalid)
      | Some _ => match Parse t with
                  | Err _ => Err (EAuth AuthErrTokenInvalid)
                  | Ok revoked => Ok (refreshRetryGrace <? Sub now revoked)%Z
                  end
      end
  end.

(** [None]: the reuse of a rotated token was punished and committed. *)
Definition refreshTx (refreshToken : string) : M DB (option Session) :=
  row ← query (fun d => match refresh_token_of (TokenHash refreshToken) d with
                        | Some r => Ok r
                        | None => Err (EAuth AuthErrTokenInvalid)
                        end);
  let now := clk 0 in
  throw_if (match Parse (rt_expires_at row) with Ok expires => (expires <=? now)%Z | Err _ => true end)
    (EAuth AuthErrTokenInvalid) ;;
  theft ← lift (reused now row);
  if theft : bool then revokeDeviceTokens (rt_device_id row) now ;; mret None
  else
    account ← query (fun d => match users d !! rt_user_id row with
                              | Some u => Ok u
                              | None => Err (EAuth AuthErrTokenInvalid)
                              end);
    throw_if (negb (String.eqb (user_status account) "ACTIVE")) (EAuth AuthErrAccountDisabled) ;;
    dev ← query (loadDevice (rt_device_id row) (rt_user_id row));
    throw_if (is_valid (RevokedAt dev)) (EAuth AuthErrDeviceRevoked) ;;
    session ← issueTokens now (MkUser (rt_user_id row) (user_username account) (user_role account)) dev;
    modify (upd_refresh_tokens (update_rows
      (fun k r => String.eqb (rt_device_id r) (rt_device_id row) && is_null (rt_revoked_at r) &&
                  negb (String.eqb k (refreshTokenID session)))
      (retire (Format now) (Some (refreshTokenID session))))) ;;
    let supersededUntil := Format (now + refreshRetryGrace) in
    modify (upd_access_tokens (update_rows
      (fun k r => String.eqb (at_device_id r) (rt_device_id row) && negb (String.eqb k (accessTokenID session)) &&
                  text_lt supersededUntil (at_expires_at r))
      (expire_at supersededUntil))) ;;
    mret (Some session).

Definition Refresh (refreshToken : string) : M DB Session :=
  throw_if (String.eqb refreshToken "") (EAuth AuthErrTokenInvalid) ;;
  session ← tx (refreshTx refreshToken);
  match session with
  | Some x => mret x
  | None => throw (EAuth AuthErrTokenInvalid)
  end.

Definition Logout (refreshToken : string) : M DB unit :=
  if String.eqb refreshToken "" then mret tt
  else
    let hash := TokenHash refreshToken in
    tx (
      found ← query (fun d => Ok (select_rows (fun _ r => bool_decide (rt_token_hash r = hash) && is_null (rt_revoked_at r))
                                    (refresh_tokens d)));
      match found with
      | [] => mret tt
      | (_, row) :: _ =>
          modify (upd_refresh_tokens (update_rows (fun _ r => bool_decide (rt_token_hash r = hash)) (retire (Format (clk 0)) None))) ;;
          modify (upd_access_tokens (delete_rows (fun _ r => String.eqb (at_device_id r) (rt_device_id row))))
      end).

Definition access_token_of (hash : list byte) (d : DB) : option access_token_row :=
  match select_rows (fun _ r => bool_decide (at_token_hash r = hash)) (access_tokens d) with
  | [] => None
  | (_, r) :: _ => Some r
  end.

Definition Authenticate (accessToken : string) (d : DB) : result (string * string) :=
  if String.eqb accessToken "" then Err (EAuth AuthErrTokenInvalid)
  else
    match access_token_of (TokenHash accessToken) d with
    | None => Err (EAuth AuthErrTokenInvalid)
    | Some r =>
        match users d !! at_user_id r, devices d !! at_device_id r with
        | Some u, Some dev =>
            if match Parse (at_expires_at r) with Ok expires => (expires <=? clk 0)%Z | Err _ => true end
            then Err (EAuth AuthErrTokenInvalid)
            else if negb (String.eqb (user_status u) "ACTIVE") then Err (EAuth AuthErrTokenInvalid)
            else if is_valid (device_revoked_at dev) then Err (EAuth AuthErrDeviceRevoked)
            else Ok (at_user_id r, at_device_id r)
        | _, _ => Err (EAuth AuthErrTokenInvalid)
        end
    end.

(** [SELECT .. WHERE id = ? AND user_id = ? AND revoked_at IS NULL]. *)
Definition live_device (deviceID userID : string) (d : DB) : option device_row :=
  match own_device deviceID userID d with
  | Some r => if is_null (device_revoked_at r) then Some r else None
  | None => None
  end.

Definition recently_synced (now : Z) (r : device_row) : bool :=
  match device_last_sync_at r with
  | Some t => match Parse t with
              | Ok last => (0 <=? Sub now last)%Z && (Sub now last <? recordSyncInterval)%Z
              | Err _ => false
              end
  | None => false
  end.

Definition RecordSync (userID deviceID : string) : M DB unit :=
  let now := clk 0 in
  row ← query (fun d => match live_device deviceID userID d with
                        | Some r => Ok r
                        | None => Err (EAuth AuthErrNotFound)
                        end);
  if recently_synced now row then mret tt
  else modify (update_device deviceID (sync_device (Format now))).

Definition RevokeDevice (userID deviceID : string) : M DB unit :=
  let now := Format (clk 0) in
  tx (
    query (fun d => match live_device deviceID userID d with
                    | Some _ => Ok tt
                    | None => Err (EAuth AuthErrNotFound)
                    end) ;;
    modify (update_device deviceID (revoke_device now)) ;;
    modify (upd_refresh_tokens (update_rows
      (fun _ r => String.eqb (rt_device_id r) deviceID && is_null (rt_revoked_at r)) (retire now None)))).

(** ** Login *)

Context (range : entry_map -> list (string * attemptEntry)) (dummyPasswordHash : string).

(** [begin .. defer end] around the rest of a call. *)
Definition limited {A} (get : Service -> entry_map) (set : entry_map -> Service -> Service) (maxInFlight : Z)
    (key : string) (now : Z) (body : M Service A) : M Service A := fun st =>
  match begin_ range maxInFlight key now (get st) with
  | (false, m) => (Err (EAuth AuthErrRateLimited), set m st)
  | (true, m) =>
      let '(r, st') := body (set m st) in
      (r, set (end_ key (get st')) st')
  end.

Definition account_by_name (normalized : string) (d : DB) : option (string * user_row) :=
  match select_rows (fun _ u => String.eqb (user_username_norm u) normalized) (users d) with
  | [] => None
  | x :: _ => Some x
  end.

Definition record_failures (attemptKey normalized clientAddr : string) (now : Z) (st : Service) : Service :=
  MkService (auth_db st)
    (recordFailure range loginBackoff attemptKey now (loginLimiter st))
    (recordFailure range accountBackoff normalized now (accountLimiter st))
    (recordFailure range addressBackoff clientAddr now (addressLimiter st)).

Definition record_successes (attemptKey normalized clientAddr : string) (st : Service) : Service :=
  MkService (auth_db st) (recordSuccess attemptKey (loginLimiter st)) (recordSuccess normalized (accountLimiter st))
    (recordSuccess clientAddr (addressLimiter st)).

Definition loginTx (now : Z) (userID : string) (user : User) (passwordHash : string) (reg : DeviceRegistration)
    : M DB Session :=
  current ← query (fun d => match users d !! userID with
                            | Some u => Ok u
                            | None => Err (EAuth AuthErrInvalidCredentials)
                            end);
  throw_if (negb (String.eqb (user_password_hash current) passwordHash)) (EAuth AuthErrInvalidCredentials) ;;
  throw_if (negb (String.eqb (user_status current) "ACTIVE")) (EAuth AuthErrAccountDisabled) ;;
  dev ← upsertDevice now userID reg;
  issueTokens now user dev.

Definition attempt (now : Z) (attemptKey normalized clientAddr password : string) (reg : DeviceRegistration)
    : M Service Session :=
  found ← in_db (query (fun d => Ok (account_by_name normalized d)));
  let passwordHash := match found with Some x => user_password_hash x.2 | None => dummyPasswordHash end in
  let passwordValid := VerifyPassword passwordHash password in
  match found with
  | Some (userID, u) =>
      if negb passwordValid
      then modify (record_failures attemptKey normalized clientAddr now) ;; throw (EAuth AuthErrInvalidCredentials)
      else if negb (String.eqb (user_status u) "ACTIVE") then throw (EAuth AuthErrAccountDisabled)
      else
        session ← in_db (tx (loginTx now userID (MkUser userID (user_username u) (user_role u)) passwordHash reg));
        modify (record_successes attemptKey normalized clientAddr) ;;
        mret session
  | None => modify (record_failures attemptKey normalized clientAddr now) ;; throw (EAuth AuthErrInvalidCredentials)
  end.

Definition Login (clientAddr username password : string) (device : DeviceRegistration) : M Service Session :=
  match normalizeUsername username with
  | Err _ => throw (EAuth AuthErrInvalidCredentials)
  | Ok (_, normalized) =>
      lift (validateDeviceRegistration device) ;;
      let now := clk 0 in
      let attemptKey := normalized ++ "|" ++ clientAddr in
      limited addressLimiter set_address maxConcurrentAttemptsPerAddress clientAddr now
        (limited accountLimiter set_account maxConcurrentAttemptsPerAccount normalized now
          (limited loginLimiter set_login 1 attemptKey now
            (attempt now attemptKey normalized clientAddr password device)))
  end.
End session.
