(* ===== verification/SessionCorrect.v ===== *)
(** * Correctness of internal/auth/session.go

    A refresh leaves one live session, a reused token or a revoked device
    ends them, and a device identity never changes hands. *)

From S2P Require Import Prelude GoText GoTime Uuid Sha256 Schema Fixture Limiter Auth AuthCorrect Session.
From Stdlib Require Import String.
Local Open Scope string_scope.

(** A refresh token of [dev] that was not revoked. *)
Definition live_refresh (d : DB) (dev k : string) : Prop := exists r,
  refresh_tokens d !! k = Some r /\ rt_device_id r = dev /\ rt_revoked_at r = None.

(** What never changes about a registered device. *)
Definition same_device (r r' : device_row) : Prop :=
  device_user_id r' = device_user_id r /\ device_e2ee_public_key r' = device_e2ee_public_key r /\
  device_e2ee_key_version r' = device_e2ee_key_version r /\ device_platform r' = device_platform r /\
  (device_revoked_at r <> None -> device_revoked_at r' = device_revoked_at r).

Definition devices_stable (d d' : DB) : Prop := forall k r, devices d !! k = Some r ->
  exists r', devices d' !! k = Some r' /\ same_device r r'.

Lemma devices_stable_refl d : devices_stable d d.
Proof. intros k r Hr. exists r. split; [done|]. by split_and!. Qed.

Lemma devices_stable_eq d d' : devices d' = devices d -> devices_stable d d'.
Proof. intros E k r Hr. exists r. rewrite E. split; [done|]. by split_and!. Qed.

Lemma devices_stable_trans d1 d2 d3 : devices_stable d1 d2 -> devices_stable d2 d3 -> devices_stable d1 d3.
Proof.
  intros H1 H2 k r Hr. destruct (H1 k r Hr) as (r2 & Hr2 & U2 & K2 & V2 & P2 & R2).
  destruct (H2 k r2 Hr2) as (r3 & Hr3 & U3 & K3 & V3 & P3 & R3). exists r3. split; [done|].
  split_and!; try congruence. intros Hn. rewrite R3, R2; try done. by rewrite R2.
Qed.

#[export] Instance devices_stable_preorder : PreOrder devices_stable.
Proof. split; [exact devices_stable_refl|intros ???; apply devices_stable_trans]. Qed.

Lemma update_device_stable k f d :
  (forall r, devices d !! k = Some r -> same_device r (f r)) -> devices_stable d (update_device k f d).
Proof.
  intros Hf j r Hj. unfold update_device. destruct (devices d !! k) as [rk|] eqn:Ek.
  - destruct (decide (j = k)) as [->|Hne].
    + exists (f r). simpl. simplify_eq. rewrite lookup_insert_eq. auto.
    + exists r. simpl. rewrite lookup_insert_ne by congruence. split; [done|]. by split_and!.
  - exists r. split; [done|]. by split_and!.
Qed.

Section tokens.
Context {U : UuidLib} {TP : TimeParser} {A2 : Argon2} (clk : nat -> Z).

(** ** Tokens that authenticate *)

Lemma access_token_of_unique h d k r : access_tokens d !! k = Some r -> at_token_hash r = h ->
  (forall k' r', access_tokens d !! k' = Some r' -> at_token_hash r' = h -> k' = k) -> access_token_of h d = Some r.
Proof.
  intros Hk Hh Hu. unfold access_token_of.
  destruct (select_rows_first (fun _ r => bool_decide (at_token_hash r = h)) (access_tokens d) k r) as [l ->]; [done|..|done].
  - by apply bool_decide_eq_true_2.
  - intros k' r' Hk' Hh'%bool_decide_eq_true_1. eauto.
Qed.

Lemma access_token_of_Some h d r : access_token_of h d = Some r ->
  exists k, access_tokens d !! k = Some r /\ at_token_hash r = h.
Proof.
  unfold access_token_of. destruct (select_rows _ _) as [|[k r'] l] eqn:E; [done|]. intros [= ->]. exists k.
  assert (HE : (k, r) ∈ select_rows (fun _ r => bool_decide (at_token_hash r = h)) (access_tokens d))
    by (rewrite E; constructor).
  apply elem_of_select_rows in HE as [? ?%bool_decide_eq_true_1]. done.
Qed.

(** An access token works for an active account on a device in use. *)
Lemma Authenticate_ok tok d k r u dev t : tok <> "" -> access_tokens d !! k = Some r -> at_token_hash r = TokenHash tok ->
  (forall k' r', access_tokens d !! k' = Some r' -> at_token_hash r' = TokenHash tok -> k' = k) ->
  users d !! at_user_id r = Some u -> user_status u = "ACTIVE" ->
  devices d !! at_device_id r = Some dev -> device_revoked_at dev = None ->
  Parse (at_expires_at r) = Ok t -> (clk 0 < t)%Z ->
  Authenticate clk tok d = Ok (at_user_id r, at_device_id r).
Proof.
  intros Htok Hk Hh Hu Hus Hst Hd Hrev Ht Hlt. unfold Authenticate.
  rewrite (proj2 (String.eqb_neq _ _) Htok), (access_token_of_unique _ _ _ _ Hk Hh Hu), Hus, Hd, Ht, Hst, Hrev.
  rewrite (proj2 (Z.leb_gt _ _) Hlt). done.
Qed.

Lemma Authenticate_ok_inv tok d u dev : Authenticate clk tok d = Ok (u, dev) ->
  exists ur dr r t, users d !! u = Some ur /\ user_status ur = "ACTIVE" /\
    devices d !! dev = Some dr /\ device_revoked_at dr = None /\
    access_token_of (TokenHash tok) d = Some r /\ at_user_id r = u /\ at_device_id r = dev /\
    Parse (at_expires_at r) = Ok t /\ (clk 0 < t)%Z.
Proof.
  unfold Authenticate. destruct (String.eqb tok ""); [done|].
  destruct (access_token_of _ d) as [r|] eqn:E; [|done].
  destruct (users d !! at_user_id r) as [ur|] eqn:Eu; [|done].
  destruct (devices d !! at_device_id r) as [dr|] eqn:Ed; [|done].
  destruct (Parse (at_expires_at r)) as [t|] eqn:Et; [|done].
  destruct (t <=? clk 0)%Z eqn:El; [done|]. destruct (String.eqb_spec (user_status ur) "ACTIVE"); [|done]. simpl.
  destruct (device_revoked_at dr) eqn:Er; [done|]. simpl. intros [= <- <-]. apply Z.leb_gt in El.
  by exists ur, dr, r, t.
Qed.
End tokens.

Section correctness.
Context {U : UuidLib} {TP : TimeParser} {A2 : Argon2}.
Context (clk : nat -> Z) (newid : nat -> string) (rand : nat -> list byte) (accessTokenTTL : Z).

Lemma own_device_Some k u d r : own_device k u d = Some r -> devices d !! k = Some r /\ device_user_id r = u.
Proof.
  unfold own_device. destruct (devices d !! k) as [r'|]; [|done].
  destruct (String.eqb_spec (device_user_id r') u); [|done]. by intros [= ->].
Qed.

Lemma scanDevice_ok_inv k r x : scanDevice k r = Ok x ->
  Device_ID x = k /\ Device_UserID x = device_user_id r /\ Device_PublicKey x = device_e2ee_public_key r /\
  Device_KeyVersion x = device_e2ee_key_version r /\ is_valid (RevokedAt x) = is_valid (device_revoked_at r).
Proof.
  unfold scanDevice. intros H. inv_ok H. subst x. simpl. split_and!; try done.
  match goal with HP : Parse_opt (device_revoked_at r) = _ |- _ => rename HP into Hp end.
  unfold Parse_opt in Hp. destruct (device_revoked_at r); inv_ok Hp; by subst.
Qed.

Lemma loadDevice_ok_inv k u d x : loadDevice k u d = Ok x ->
  exists r, devices d !! k = Some r /\ device_user_id r = u /\ Device_ID x = k /\
    Device_PublicKey x = device_e2ee_public_key r /\ Device_KeyVersion x = device_e2ee_key_version r /\
    is_valid (RevokedAt x) = is_valid (device_revoked_at r).
Proof.
  unfold loadDevice. destruct (own_device k u d) as [r|] eqn:E; [|done]. intros H.
  apply own_device_Some in E as [Hk Hu]. apply scanDevice_ok_inv in H as (? & _ & ? & ? & ?). exists r. done.
Qed.

(** ** Issuing tokens *)

Definition new_access (now : Z) (user dev token : string) : access_token_row :=
  Schema.AccessToken user dev (TokenHash token) (Format now) (Format (now + accessTokenTTL)).
Definition new_refresh (now : Z) (user dev token : string) : refresh_token_row :=
  Schema.RefreshToken user dev (TokenHash token) (Format now) (Format (now + refreshTokenTTL)) None None.

Lemma issueTokens_ok_inv now user dev d x d' :
  issueTokens newid rand accessTokenTTL now user dev d = (Ok x, d') ->
  let acc := randomToken (rand 0) in let ref := randomToken (rand 1) in
  access_tokens d !! newid 1 = None /\
  (forall k r, access_tokens d !! k = Some r -> at_token_hash r <> TokenHash acc) /\
  refresh_tokens d !! newid 0 = None /\ has (users d) (User_ID user) = true /\ has (devices d) (Device_ID dev) = true /\
  d' = upd_refresh_tokens <[newid 0 := new_refresh now (User_ID user) (Device_ID dev) ref]>
        (upd_access_tokens <[newid 1 := new_access now (User_ID user) (Device_ID dev) acc]> d) /\
  x = MkSession user dev acc (now + accessTokenTTL) ref (now + refreshTokenTTL) (newid 0) (newid 1).
Proof.
  unfold issueTokens. intros H. inv_ok H.
  match goal with HA : insert_access_tokens _ _ _ = _ |- _ =>
    apply constrained_ok_inv in HA as (_ & [Ha%fresh_key_true Hu]%andb_prop & [Hus Hd]%andb_prop & ->) end.
  match goal with HR : insert_refresh_tokens _ _ _ = _ |- _ =>
    apply constrained_ok_inv in HR as (_ & Hr%fresh_key_true & _ & ->) end.
  cbn zeta. split_and!; try done.
  intros k r Hk Heq. apply negb_true_iff, exists_row_false with (k := k) (v := r) in Hu; [|done].
  simpl in Hu. by rewrite bool_decide_eq_true_2 in Hu.
Qed.

(** ** Refresh *)

(** The state after a rotation. *)
Definition rotated (now : Z) (row : refresh_token_row) (acc ref : string) (d : DB) : DB :=
  let user := rt_user_id row in let dev := rt_device_id row in
  let until := Format (now + refreshRetryGrace) in
  upd_access_tokens (update_rows
      (fun k r => String.eqb (at_device_id r) dev && negb (String.eqb k (newid 1)) && text_lt until (at_expires_at r))
      (expire_at until))
  (upd_refresh_tokens (update_rows
      (fun k r => String.eqb (rt_device_id r) dev && is_null (rt_revoked_at r) && negb (String.eqb k (newid 0)))
      (retire (Format now) (Some (newid 0))))
  (upd_refresh_tokens <[newid 0 := new_refresh now user dev ref]>
  (upd_access_tokens <[newid 1 := new_access now user dev acc]> d))).

Definition punished (now : Z) (dev : string) (d : DB) : DB :=
  upd_access_tokens (delete_rows (fun _ r => String.eqb (at_device_id r) dev))
  (upd_refresh_tokens (update_rows (fun _ r => String.eqb (rt_device_id r) dev && is_null (rt_revoked_at r))
     (retire (Format now) None)) d).

Record may_refresh (tok : string) (row : refresh_token_row) (d : DB) : Prop := {
  mr_row : refresh_token_of (TokenHash tok) d = Some row;
  mr_time : exists t, Parse (rt_expires_at row) = Ok t /\ (clk 0 < t)%Z;
  mr_fresh : reused (clk 0) row = Ok false;
  mr_user : exists u, users d !! rt_user_id row = Some u /\ user_status u = "ACTIVE";
  mr_device : exists r, devices d !! rt_device_id row = Some r /\ device_user_id r = rt_user_id row /\ device_revoked_at r = None;
  mr_access : access_tokens d !! newid 1 = None /\
    forall k r, access_tokens d !! k = Some r -> at_token_hash r <> TokenHash (randomToken (rand 0));
  mr_refresh : refresh_tokens d !! newid 0 = None;
}.

Lemma refreshTx_ok_inv tok d o d' : refreshTx clk newid rand accessTokenTTL tok d = (Ok o, d') ->
  exists row, refresh_token_of (TokenHash tok) d = Some row /\
  match o with
  | None => reused (clk 0) row = Ok true /\ d' = punished (clk 0) (rt_device_id row) d
  | Some x => may_refresh tok row d /\
      d' = rotated (clk 0) row (randomToken (rand 0)) (randomToken (rand 1)) d /\
      AccessToken x = randomToken (rand 0) /\ RefreshToken x = randomToken (rand 1) /\
      User_ID (Session_User x) = rt_user_id row /\ Device_ID (Session_Device x) = rt_device_id row /\
      AccessTokenExpiresAt x = (clk 0 + accessTokenTTL)%Z
  end.
Proof.
  unfold refreshTx. intros H. inv_ok H.
  match goal with HR : match refresh_token_of _ _ with _ => _ end = Ok ?r |- _ =>
    destruct (refresh_token_of (TokenHash tok) d) as [row|] eqn:Erow; [|done]; injection HR as <- end.
  exists row. split; [done|].
  match goal with HT : match Parse (rt_expires_at row) with _ => _ end = false |- _ =>
    destruct (Parse (rt_expires_at row)) as [t|] eqn:Et; [|done]; apply Z.leb_gt in HT end.
  match goal with HR : reused _ _ = Ok ?b |- _ => destruct b end.
  - unfold revokeDeviceTokens in H. inv_ok H. subst o.
    match goal with HM : modify _ _ = _ |- _ => inv_ok HM end. subst. done.
  - inv_ok H. subst o.
    match goal with HR : match users _ !! _ with _ => _ end = Ok ?r |- _ =>
      destruct (users d !! rt_user_id row) as [u|] eqn:Eu; [|done]; injection HR as <- end.
    match goal with HS : negb _ = false |- _ => apply negb_false_iff, String.eqb_eq in HS end.
    match goal with HL : loadDevice _ _ _ = _ |- _ => apply loadDevice_ok_inv in HL as (r & Hr & Hru & Hid & _ & _ & Hrev) end.
    match goal with HI : issueTokens _ _ _ _ _ _ _ = _ |- _ => apply issueTokens_ok_inv in HI as (Ha & Hh & Hrf & _ & _ & -> & ->) end.
    rewrite Hid in *. simpl. split_and!; try done. split; eauto.
    + exists r. split_and!; try done. match goal with HV : is_valid (RevokedAt _) = false |- _ => rewrite Hrev in HV end.
      by destruct (device_revoked_at r).
Qed.

Lemma randomToken_nonempty l : l <> [] -> randomToken l <> "".
Proof. unfold randomToken. destruct l as [|a [|b [|c l]]]; [done|..]; done. Qed.

Lemma text_lt_irrefl' a : text_lt a a = false.
Proof. apply not_true_iff_false. rewrite text_lt_compare, compare_refl. done. Qed.

Lemma rotated_access now row acc ref d k r :
  access_tokens (rotated now row acc ref d) !! k = Some r -> at_device_id r = rt_device_id row -> k <> newid 1 ->
  text_le (at_expires_at r) (Format (now + refreshRetryGrace)) = true.
Proof.
  simpl. rewrite lookup_update_rows, fmap_Some. intros (r0 & _ & ->). repeat case_match; simpl.
  - intros _ _. apply text_le_refl.
  - intros Hd Hk. rewrite text_le_negb_lt. rewrite Hd, String.eqb_refl, (proj2 (String.eqb_neq _ _) Hk) in *. simpl in *.
    by apply negb_true_iff.
Qed.

Lemma rotated_live now row acc ref d k :
  live_refresh (rotated now row acc ref d) (rt_device_id row) k <-> k = newid 0.
Proof.
  unfold live_refresh. simpl. setoid_rewrite lookup_update_rows. split.
  - intros (r & (r0 & Hr & ->)%fmap_Some & Hd & Hn). destruct (decide (k = newid 0)) as [|Hne]; [done|].
    rewrite lookup_insert_ne in Hr by congruence. repeat case_match; simpl in *; [done|].
    rewrite Hd, Hn, String.eqb_refl, (proj2 (String.eqb_neq _ _) Hne) in *. done.
  - intros ->. rewrite lookup_insert_eq. simpl. rewrite !String.eqb_refl. simpl. eexists. by split_and!.
Qed.

(** The new session works, and nothing else of the device outlives the grace. *)
Lemma rotated_authenticates tok row d acc ref c :
  may_refresh tok row d -> acc = randomToken (rand 0) -> rand 0 <> [] ->
  four_digit_year (clk 0 + accessTokenTTL) -> (c 0%nat < clk 0 + accessTokenTTL)%Z ->
  Authenticate c acc (rotated (clk 0) row acc ref d) = Ok (rt_user_id row, rt_device_id row).
Proof.
  intros [_ _ _ (u & Hu & Hst) (dr & Hdr & Hown & Hrev) [Hfk Hfh] _] -> Hr Hy Hc.
  refine (Authenticate_ok c _ (rotated (clk 0) row _ ref d) (newid 1) (new_access (clk 0) (rt_user_id row) (rt_device_id row) _) u dr
            (clk 0 + accessTokenTTL) _ _ _ _ Hu Hst Hdr Hrev _ Hc).
  - by apply randomToken_nonempty.
  - simpl. rewrite lookup_update_rows, lookup_insert_eq. simpl. by rewrite !String.eqb_refl.
  - done.
  - intros k r. simpl. rewrite lookup_update_rows, fmap_Some. intros (r0 & Hr0 & ->) Hh.
    destruct (decide (k = newid 1)) as [|Hne]; [done|]. rewrite lookup_insert_ne in Hr0 by congruence.
    edestruct Hfh; [exact Hr0|]. by case_match.
  - by apply Parse_Format.
Qed.

Lemma Refresh_ok_inv tok d x d' : Refresh clk newid rand accessTokenTTL tok d = (Ok x, d') ->
  tok <> "" /\ refreshTx clk newid rand accessTokenTTL tok d = (Ok (Some x), d').
Proof.
  unfold Refresh. intros H. inv_ok H. apply String.eqb_neq in H0. split; [done|].
  destruct a0 as [y|]; inv_ok H. by subst.
Qed.

(** C11. A successful Refresh leaves the device exactly one live refresh
    token, stored under the hash of the one it returns; the access token it returns authenticates as
    that account and device until it expires; every other access token of the
    device expires within the grace period; accounts and devices are as they
    were. *)
Theorem Refresh_correct tok d x d' :
  Refresh clk newid rand accessTokenTTL tok d = (Ok x, d') ->
  rand 0 <> [] -> four_digit_year (clk 0 + accessTokenTTL) ->
  let user := User_ID (Session_User x) in let dev := Device_ID (Session_Device x) in
  (exists row, may_refresh tok row d /\ rt_user_id row = user /\ rt_device_id row = dev) /\
  (forall k, live_refresh d' dev k <-> k = newid 0) /\
  (exists row, refresh_tokens d' !! newid 0 = Some row /\ rt_token_hash row = TokenHash (RefreshToken x)) /\
  refresh_token_of (TokenHash (RefreshToken x)) d' <> None /\
  (forall c, (c 0%nat < AccessTokenExpiresAt x)%Z -> Authenticate c (AccessToken x) d' = Ok (user, dev)) /\
  (forall k r, access_tokens d' !! k = Some r -> at_device_id r = dev -> k <> newid 1 ->
     text_le (at_expires_at r) (Format (clk 0 + refreshRetryGrace)) = true) /\
  users d' = users d /\ devices d' = devices d.
Proof.
  intros H Hr Hy. apply Refresh_ok_inv in H as [Hne H].
  apply refreshTx_ok_inv in H as (row & Hrow & Hmay & -> & Hacc & Href & Hu & Hd & Hexp). cbn zeta.
  rewrite Hu, Hd.
  split; [by exists row|]. split_and!; try done.
  - intros k. apply rotated_live.
  - rewrite Href. eexists. simpl. rewrite lookup_update_rows, lookup_insert_eq. split; [reflexivity|]. by case_match.
  - rewrite Href. unfold refresh_token_of. simpl. destruct (select_rows _ _) as [|[? ?] ?] eqn:E; [|done].
    assert (HE : (newid 0, new_refresh (clk 0) (rt_user_id row) (rt_device_id row) (randomToken (rand 1))) ∈ @nil (string * refresh_token_row)).
    { rewrite <- E. apply elem_of_select_rows. rewrite lookup_update_rows, lookup_insert_eq. simpl.
      rewrite !String.eqb_refl. simpl. split; [done|]. by apply bool_decide_eq_true_2. }
    by apply not_elem_of_nil in HE.
  - intros c Hc. rewrite Hacc. eapply rotated_authenticates; eauto. by rewrite <- Hexp.
  - intros k r. apply rotated_access.
Qed.

(** C12. A rotated refresh token that has not expired, presented after the
    grace period, is refused and ends every session of its device; other
    devices keep theirs. *)
Theorem Refresh_reuse tok d row t s next revoked :
  tok <> "" -> refresh_token_of (TokenHash tok) d = Some row ->
  Parse (rt_expires_at row) = Ok t -> (clk 0 < t)%Z ->
  rt_revoked_at row = Some s -> rt_rotated_to row = Some next -> Parse s = Ok revoked ->
  (refreshRetryGrace < Sub (clk 0) revoked)%Z ->
  exists d', Refresh clk newid rand accessTokenTTL tok d = (Err (EAuth AuthErrTokenInvalid), d') /\
    (forall k, ~ live_refresh d' (rt_device_id row) k) /\
    (forall k r, access_tokens d' !! k = Some r -> at_device_id r <> rt_device_id row) /\
    (forall k r, at_device_id r <> rt_device_id row -> access_tokens d !! k = Some r -> access_tokens d' !! k = Some r) /\
    (forall dev k, dev <> rt_device_id row -> live_refresh d dev k -> live_refresh d' dev k).
Proof.
  intros Hne Hrow Ht Hlt Hs Hn Hrev Hg. exists (punished (clk 0) (rt_device_id row) d). split_and!.
  - unfold Refresh. rewrite throw_if_bind by by apply String.eqb_neq.
    rewrite (bind_ok (tx _) _ _ None (punished (clk 0) (rt_device_id row) d)); [reflexivity|]. unfold tx, refreshTx, mbind, M_bind, query, throw_if, lift, reused. cbn beta.
    rewrite Hrow, Ht, (proj2 (Z.leb_gt _ _) Hlt), Hs, Hn, Hrev, (proj2 (Z.ltb_lt _ _) Hg). done.
  - intros k (r & Hr & Hd & Hl). simpl in Hr. rewrite lookup_update_rows, fmap_Some in Hr. destruct Hr as (r0 & _ & ->).
    revert Hd Hl. repeat case_match; simpl; [done|]. intros Hd Hl. by rewrite Hd, Hl, String.eqb_refl in *.
  - intros k r. simpl. rewrite lookup_delete_rows. intros [_ Hr]. by apply String.eqb_neq.
  - intros k r Hd Hr. simpl. apply lookup_delete_rows. split; [done|]. by apply String.eqb_neq.
  - intros dev k Hd (r & Hr & Hrd & Hl). exists r. simpl. rewrite lookup_update_rows, Hr. simpl.
    rewrite Hrd, (proj2 (String.eqb_neq _ _) Hd). done.
Qed.

(** ** Device identities *)

(** A statement on another table. *)
Ltac other_table :=
  first [ apply stays_modify; intros ?; by apply devices_stable_eq
        | apply stays_exec; [exact _|]; intros ? ? Hi; apply constrained_ok_inv in Hi as (_ & _ & _ & ->);
          by apply devices_stable_eq ].

Lemma upsertDevice_stays now u reg : stays devices_stable (upsertDevice now u reg).
Proof.
  unfold upsertDevice. solve_stays.
  - apply stays_modify. intros db. by apply update_device_stable.
  - apply stays_exec; [exact _|]. intros db d' Hi. apply constrained_ok_inv in Hi as (_ & Hf%fresh_key_true & _ & ->).
    intros k r Hk. exists r. simpl.
    rewrite lookup_insert_ne by congruence. split; [done|]. by split_and!.
Qed.

Lemma issueTokens_stays now user dev : stays devices_stable (issueTokens newid rand accessTokenTTL now user dev).
Proof. unfold issueTokens. solve_stays; other_table. Qed.

Lemma Refresh_stays tok : stays devices_stable (Refresh clk newid rand accessTokenTTL tok).
Proof. unfold Refresh, refreshTx, revokeDeviceTokens. solve_stays; first [apply issueTokens_stays | other_table]. Qed.

Lemma Logout_stays tok : stays devices_stable (Logout clk tok).
Proof. unfold Logout. solve_stays; other_table. Qed.

Lemma RecordSync_stays u dev : stays devices_stable (RecordSync clk u dev).
Proof. unfold RecordSync. solve_stays. apply stays_modify. intros db. by apply update_device_stable. Qed.

Lemma RevokeDevice_stays u dev : stays devices_stable (RevokeDevice clk u dev).
Proof.
  unfold RevokeDevice. apply stays_tx; [exact _|]. intros d.
  destruct (live_device dev u d) as [r|] eqn:E; unfold mbind, M_bind, query; rewrite E; simpl.
  - etrans; [|by apply devices_stable_eq]. apply update_device_stable. intros r' Hr'.
    unfold live_device, own_device in E. rewrite Hr' in E. repeat case_match; try done. simplify_eq.
    unfold same_device. simpl. split_and!; try done. intros Hn. by destruct (device_revoked_at r).
  - reflexivity.
Qed.

(** The limiters around a login do not touch the database. *)
Lemma limited_stays (R : relation DB) `{!PreOrder R} {A} range get set cap key now (body : M Service A) :
  (forall m st, auth_db (set m st) = auth_db st) ->
  (forall st, R (auth_db st) (auth_db (body st).2)) ->
  forall st, R (auth_db st) (auth_db (limited range get set cap key now body st).2).
Proof.
  intros Hset Hb st. unfold limited. destruct (begin_ _ _ _ _ _) as [[|] m]; simpl; [|by rewrite Hset].
  specialize (Hb (set m st)). rewrite Hset in Hb. destruct (body (set m st)) as [r st']. simpl in *. by rewrite Hset.
Qed.

Lemma in_db_stays (R : relation DB) {A} (m : M DB A) : stays R m ->
  forall st, R (auth_db st) (auth_db (in_db m st).2).
Proof. intros Hm st. specialize (Hm (auth_db st)). unfold in_db. by destruct (m (auth_db st)) as [? ?]. Qed.

(** ** Login *)

(** The device a login may use: a new one, or the account's own, not
    revoked, with the same key. *)
Definition device_usable (u : string) (reg : DeviceRegistration) (d : DB) : Prop :=
  match devices d !! reg_ID reg with
  | None => True
  | Some r => device_user_id r = u /\ device_revoked_at r = None /\
      device_e2ee_public_key r = reg_PublicKey reg /\ device_e2ee_key_version r = reg_KeyVersion reg
  end.

Lemma upsertDevice_ok_inv now u reg d x d' : upsertDevice now u reg d = (Ok x, d') ->
  device_usable u reg d /\ Device_ID x = reg_ID reg /\
  access_tokens d' = access_tokens d /\ refresh_tokens d' = refresh_tokens d /\ users d' = users d /\
  exists r, devices d' !! reg_ID reg = Some r /\ device_user_id r = u /\ device_revoked_at r = None /\
    device_e2ee_public_key r = reg_PublicKey reg /\ device_e2ee_key_version r = reg_KeyVersion reg.
Proof.
  unfold upsertDevice, device_usable. intros H. inv_ok H.
  destruct (loadDevice (reg_ID reg) u d) as [y|e] eqn:E.
  - simpl in H0. injection H0 as <-. inv_ok H. subst x.
    apply loadDevice_ok_inv in E as (r & Hr & Hu & Hid & Hk & Hv & Hrev).
    match goal with HN : is_valid (RevokedAt y) = false |- _ => rewrite Hrev in HN; destruct (device_revoked_at r) eqn:Er; [done|] end.
    match goal with HO : _ || _ = false |- _ => apply orb_false_iff in HO as [HK%negb_false_iff%bool_decide_eq_true_1 HV%negb_false_iff%Z.eqb_eq] end.
    rewrite Hr. unfold update_device. rewrite Hid, Hr. simpl. split_and!; try congruence; try done.
    eexists. split; [apply lookup_insert_eq|]. simpl. split_and!; congruence.
  - destruct (decide (e = EAuth AuthErrTokenInvalid)) as [_|_]; [|done]. injection H0 as <-. inv_ok H. subst x.
    match goal with HI : insert_devices _ _ _ = _ |- _ => apply constrained_ok_inv in HI as (_ & Hf%fresh_key_true & _ & ->) end.
    rewrite Hf. simpl. split_and!; try done. eexists. split; [apply lookup_insert_eq|]. done.
Qed.

(** What a session start of [user] on device [reg] needs. *)
Record may_login (uid : string) (u : user_row) (norm password : string) (reg : DeviceRegistration) (d : DB) : Prop := {
  ml_user : users d !! uid = Some u;
  ml_name : user_username_norm u = norm;
  ml_password : VerifyPassword (user_password_hash u) password = true;
  ml_active : user_status u = "ACTIVE";
  ml_device : device_usable uid reg d;
}.

Lemma loginTx_ok_inv now uid user hash reg d x d' : User_ID user = uid ->
  loginTx newid rand accessTokenTTL now uid user hash reg d = (Ok x, d') ->
  exists u d1, users d !! uid = Some u /\ user_password_hash u = hash /\ user_status u = "ACTIVE" /\
    device_usable uid reg d /\ users d1 = users d /\
    (exists r, devices d1 !! reg_ID reg = Some r /\ device_user_id r = uid /\ device_revoked_at r = None /\
      device_e2ee_public_key r = reg_PublicKey reg /\ device_e2ee_key_version r = reg_KeyVersion reg) /\
    (forall k r, access_tokens d1 !! k = Some r -> at_token_hash r <> TokenHash (randomToken (rand 0))) /\
    d' = upd_refresh_tokens <[newid 0 := new_refresh now uid (reg_ID reg) (randomToken (rand 1))]>
          (upd_access_tokens <[newid 1 := new_access now uid (reg_ID reg) (randomToken (rand 0))]> d1) /\
    Session_User x = user /\ Device_ID (Session_Device x) = reg_ID reg /\ AccessToken x = randomToken (rand 0) /\
    AccessTokenExpiresAt x = (now + accessTokenTTL)%Z.
Proof.
  intros Hid H. unfold loginTx in H. inv_ok H.
  match goal with HR : match users _ !! _ with _ => _ end = Ok ?r |- _ =>
    destruct (users d !! uid) as [u|] eqn:Eu; [|done]; injection HR as <- end.
  match goal with HU : upsertDevice _ _ _ _ = _ |- _ => apply upsertDevice_ok_inv in HU as (Hus & Hdid & _ & _ & Eus & Hdev) end.
  apply issueTokens_ok_inv in H as (_ & Hh & _ & _ & _ & -> & ->).
  eexists u, _. rewrite Hid, Hdid.
  split_and!; try done; apply String.eqb_eq; by apply negb_false_iff.
Qed.

Lemma in_db_ok_inv {A} (m : M DB A) st a st' : in_db m st = (Ok a, st') ->
  m (auth_db st) = (Ok a, auth_db st') /\ st' = set_auth_db (auth_db st') st.
Proof. unfold in_db. destruct (m (auth_db st)) as [r d]. by intros [= -> <-]. Qed.

Lemma limited_ok_inv {A} range get set cap key now (body : M Service A) st a st' :
  limited range get set cap key now body st = (Ok a, st') ->
  exists m st1, begin_ range cap key now (get st) = (true, m) /\ body (set m st) = (Ok a, st1) /\
    st' = set (end_ key (get st1)) st1.
Proof.
  unfold limited. destruct (begin_ _ _ _ _ _) as [[|] m]; [|done].
  destruct (body (set m st)) as [r st1] eqn:E. intros [= -> <-]. by exists m, st1.
Qed.

Context (range : entry_map -> list (string * attemptEntry)) (dummy : string).

Lemma attempt_ok_inv now key norm addr password reg st x st' :
  attempt newid rand accessTokenTTL range dummy now key norm addr password reg st = (Ok x, st') ->
  exists uid u, may_login uid u norm password reg (auth_db st) /\
    loginTx newid rand accessTokenTTL now uid (MkUser uid (user_username u) (user_role u)) (user_password_hash u) reg (auth_db st)
      = (Ok x, auth_db st').
Proof.
  unfold attempt. intros H. inv_ok H. apply in_db_ok_inv in H0 as [Hq Hs]. apply query_ok_inv in Hq as [[= <-] Hd].
  unfold account_by_name in H.
  destruct (select_rows _ _) as [|[uid u] l] eqn:E; [by inv_ok H|].
  assert (HE : (uid, u) ∈ select_rows (fun _ u => String.eqb (user_username_norm u) norm) (users (auth_db st)))
    by (rewrite E; constructor).
  apply elem_of_select_rows in HE as [Hu Hn%String.eqb_eq]. cbn [snd] in H.
  destruct (VerifyPassword (user_password_hash u) password) eqn:Ev; cbn [negb] in H; [|by inv_ok H].
  destruct (String.eqb_spec (user_status u) "ACTIVE") as [Ha|]; cbn [negb] in H; [|by inv_ok H].
  inv_ok H. match goal with HI : in_db _ _ = _ |- _ => apply in_db_ok_inv in HI as [Ht _] end.
  apply tx_ok_inv in Ht. rewrite Hd in Ht. exists uid, u. subst. simpl. split; [|done].
  apply loginTx_ok_inv in Ht as (u' & _ & Hu' & _ & _ & Hus & _); [|done]. by split.
Qed.

Lemma Login_ok_inv addr username password reg st x st' :
  Login clk newid rand accessTokenTTL range dummy addr username password reg st = (Ok x, st') ->
  exists name norm uid u, normalizeUsername username = Ok (name, norm) /\ validateDeviceRegistration reg = Ok tt /\
    may_login uid u norm password reg (auth_db st) /\
    loginTx newid rand accessTokenTTL (clk 0) uid (MkUser uid (user_username u) (user_role u)) (user_password_hash u) reg
      (auth_db st) = (Ok x, auth_db st').
Proof.
  unfold Login. destruct (normalizeUsername username) as [[name norm]|] eqn:En; [|by intros [=]].
  intros H. inv_ok H. destruct a.
  apply limited_ok_inv in H as (m1 & s1 & _ & H & ->). apply limited_ok_inv in H as (m2 & s2 & _ & H & ->).
  apply limited_ok_inv in H as (m3 & s3 & _ & H & ->). apply attempt_ok_inv in H as (uid & u & Hm & H).
  exists name, norm, uid, u. done.
Qed.

(** What a login does to the database is done by its transaction. *)
Lemma Login_stays_of (R : relation DB) `{!PreOrder R} addr username password reg :
  (forall now uid user hash, stays R (loginTx newid rand accessTokenTTL now uid user hash reg)) -> forall st,
  R (auth_db st) (auth_db (Login clk newid rand accessTokenTTL range dummy addr username password reg st).2).
Proof.
  intros Htx st. unfold Login. destruct (normalizeUsername username) as [[name norm]|]; [|reflexivity].
  unfold mbind, M_bind, lift. destruct (validateDeviceRegistration reg); [|reflexivity].
  repeat (apply limited_stays; [exact _|done|]; intros ?). unfold attempt, mbind, M_bind, in_db, query. cbn beta iota.
  destruct (account_by_name _ _) as [[uid u]|]; [|reflexivity].
  destruct (negb _); [reflexivity|]. destruct (negb _); [reflexivity|].
  match goal with |- context [tx (loginTx _ _ _ ?now ?uid ?user ?hash _) ?d] =>
    pose proof (stays_tx R _ (Htx now uid user hash) d) as Hs; destruct (tx (loginTx _ _ _ now uid user hash _) d) as [[?|?] ?] end;
    done.
Qed.

Lemma Login_stays addr username password reg st :
  devices_stable (auth_db st) (auth_db (Login clk newid rand accessTokenTTL range dummy addr username password reg st).2).
Proof.
  apply Login_stays_of; [exact _|]. intros. unfold loginTx. solve_stays; [apply upsertDevice_stays|apply issueTokens_stays].
Qed.
End correctness.

(** ** Sequences of requests *)

(** What one call reads from outside. *)
Record Env := MkEnv {
  env_clk : nat -> Z; env_newid : nat -> string; env_rand : nat -> list byte;
  env_range : entry_map -> list (string * attemptEntry);
}.

(** The requests of this service that write. *)
Inductive auth_request :=
  | ReqLogin (addr username password : string) (reg : DeviceRegistration)
  | ReqRefresh (token : string)
  | ReqLogout (token : string)
  | ReqRecordSync (user dev : string)
  | ReqRevoke (user dev : string).

Section requests.
Context {U : UuidLib} {TP : TimeParser} {A2 : Argon2} (ttl : Z) (dummy : string).

Definition auth_handle (e : Env) (r : auth_request) : M Service unit :=
  match r with
  | ReqLogin addr username password reg =>
      Login (env_clk e) (env_newid e) (env_rand e) ttl (env_range e) dummy addr username password reg ;; mret tt
  | ReqRefresh token => in_db (Refresh (env_clk e) (env_newid e) (env_rand e) ttl token) ;; mret tt
  | ReqLogout token => in_db (Logout (env_clk e) token)
  | ReqRecordSync user dev => in_db (RecordSync (env_clk e) user dev)
  | ReqRevoke user dev => in_db (RevokeDevice (env_clk e) user dev)
  end.

Inductive auth_runs : Service -> Service -> Prop :=
  | runs_nil st : auth_runs st st
  | runs_cons e r st st' : auth_runs (auth_handle e r st).2 st' -> auth_runs st st'.

Lemma then_ret_stays {A} (m : M Service A) st : ((m ;; mret tt) st).2 = (m st).2.
Proof. unfold mbind, M_bind. by destruct (m st) as [[a|e] st']. Qed.

Lemma auth_handle_devices e r st : devices_stable (auth_db st) (auth_db (auth_handle e r st).2).
Proof.
  destruct r; cbn [auth_handle]; rewrite ?then_ret_stays; [apply Login_stays|apply in_db_stays..].
  - apply Refresh_stays.
  - apply Logout_stays.
  - apply RecordSync_stays.
  - apply RevokeDevice_stays.
Qed.

Lemma auth_runs_stable st st' : auth_runs st st' -> devices_stable (auth_db st) (auth_db st').
Proof.
  induction 1 as [st|e r st st' _ IH]; [apply devices_stable_refl|].
  eapply devices_stable_trans; [apply auth_handle_devices|exact IH].
Qed.

Lemma live_device_Some k u d r : live_device k u d = Some r ->
  devices d !! k = Some r /\ device_user_id r = u /\ device_revoked_at r = None.
Proof.
  unfold live_device. destruct (own_device k u d) as [r'|] eqn:E; [|done]. apply own_device_Some in E as [? ?].
  destruct (device_revoked_at r') eqn:Er; [done|]. simpl. intros [= ->]. done.
Qed.

Lemma RevokeDevice_ok_inv clk u dev d d' : RevokeDevice clk u dev d = (Ok tt, d') ->
  (exists r, devices d' !! dev = Some r /\ device_user_id r = u /\ device_revoked_at r <> None) /\
  forall k, ~ live_refresh d' dev k.
Proof.
  unfold RevokeDevice. intros H. inv_ok H.
  destruct (live_device dev u d) as [r|] eqn:E; [|done]. apply live_device_Some in E as (Hr & Hu & _). subst. simpl. split.
  - exists (revoke_device (Format (clk 0)) r). unfold update_device. rewrite Hr. simpl. by rewrite lookup_insert_eq.
  - intros k (r' & Hr' & Hd & Hl). simpl in Hr'. rewrite lookup_update_rows, fmap_Some in Hr'.
    destruct Hr' as (r0 & _ & ->). revert Hd Hl. repeat case_match; simpl; [done|]. intros Hd Hl.
    by rewrite Hd, Hl, String.eqb_refl in *.
Qed.

(** Whatever requests follow, a registered device keeps its owner, its
    encryption key, its key version and its platform, and its revocation. *)
Theorem auth_runs_keep_devices st st' k r : auth_runs st st' -> devices (auth_db st) !! k = Some r ->
  exists r', devices (auth_db st') !! k = Some r' /\ same_device r r'.
Proof. intros H. apply (auth_runs_stable _ _ H). Qed.

(** C13. Once RevokeDevice succeeded, no sequence of later requests brings the
    device back: none of its tokens authenticates, and neither a refresh nor
    a login ever opens a session on it. *)
Theorem RevokeDevice_final clk u dev st st1 st2 :
  in_db (RevokeDevice clk u dev) st = (Ok tt, st1) -> auth_runs st1 st2 ->
  (forall c tok usr, Authenticate c tok (auth_db st2) <> Ok (usr, dev)) /\
  (forall e tok x d', Refresh (env_clk e) (env_newid e) (env_rand e) ttl tok (auth_db st2) = (Ok x, d') ->
     Device_ID (Session_Device x) <> dev) /\
  (forall e addr name pw reg x st3,
     Login (env_clk e) (env_newid e) (env_rand e) ttl (env_range e) dummy addr name pw reg st2 = (Ok x, st3) ->
     Device_ID (Session_Device x) <> dev) /\
  (forall k, ~ live_refresh (auth_db st1) dev k).
Proof.
  intros H Hruns. apply in_db_ok_inv in H as [H _]. apply RevokeDevice_ok_inv in H as [(r & Hr & _ & Hrev) Hlive].
  destruct (auth_runs_stable _ _ Hruns _ _ Hr) as (r2 & Hr2 & _ & _ & _ & _ & Hkeep).
  specialize (Hkeep Hrev). split_and!; [| | |done].
  - intros c tok usr Ha. apply Authenticate_ok_inv in Ha as (? & dr & _ & _ & _ & _ & Hd & Hn & _). congruence.
  - intros e tok x d' HR <-. apply Refresh_ok_inv in HR as [_ HR].
    apply refreshTx_ok_inv in HR as (row & _ & Hm & _ & _ & _ & _ & Hd & _).
    destruct (mr_device _ _ _ _ _ _ Hm) as (dr & Hdr & _ & Hn). congruence.
  - intros e addr name pw reg x st3 HL <-. apply Login_ok_inv in HL as (? & ? & ? & ? & _ & _ & Hm & HL).
    apply loginTx_ok_inv in HL as (? & ? & _ & _ & _ & Hus & _ & _ & _ & _ & _ & Hd & _); [|done].
    unfold device_usable in Hus. rewrite <- Hd, Hr2 in Hus. destruct Hus as (_ & Hn & _). congruence.
Qed.

(** The session a login returns works at once. *)
Lemma Login_usable e addr name pw reg st x st' :
  Login (env_clk e) (env_newid e) (env_rand e) ttl (env_range e) dummy addr name pw reg st = (Ok x, st') ->
  env_rand e 0 <> [] -> four_digit_year (env_clk e 0 + ttl) ->
  AccessTokenExpiresAt x = (env_clk e 0 + ttl)%Z /\ AccessToken x <> "" /\
  forall c, (c 0%nat < env_clk e 0 + ttl)%Z ->
    Authenticate c (AccessToken x) (auth_db st') = Ok (User_ID (Session_User x), Device_ID (Session_Device x)).
Proof.
  intros H Hrand Hy. apply Login_ok_inv in H as (nm & norm & uid & u & Hn & Hv & Hm & H).
  apply loginTx_ok_inv in H as (u' & d1 & Hu' & _ & _ & _ & Hus & (r & Hr & Hru & Hrr & Hrk) & Hh & Hdb & Hu & Hd & Ha & Hx); [|done].
  rewrite Ha. split; [done|]. split; [by apply randomToken_nonempty|].
  intros c Hc. rewrite Hdb, Hu, Hd. destruct Hm as [Hmu _ _ Hact _].
  refine (Authenticate_ok c _ (upd_refresh_tokens _ (upd_access_tokens _ d1)) (env_newid e 1)
    (new_access ttl (env_clk e 0) uid (reg_ID reg) _) u r (env_clk e 0 + ttl) _ _ _ _ _ Hact Hr Hrr _ Hc); simpl.
  - by apply randomToken_nonempty.
  - apply lookup_insert_eq.
  - done.
  - intros k r'. intros [[-> _]|[_ Hr']]%lookup_insert_Some Hhash; [done|]. by destruct (Hh _ _ Hr').
  - by rewrite Hus.
  - by apply Parse_Format.
Qed.

(** C14. A successful Login is on an active account of the given name whose
    stored hash accepts the password, on a device that is new or already that
    account's with the same key; the session it returns works at once and the
    device is registered under the given key. *)
Theorem Login_correct e addr name pw reg st x st' :
  Login (env_clk e) (env_newid e) (env_rand e) ttl (env_range e) dummy addr name pw reg st = (Ok x, st') ->
  env_rand e 0 <> [] -> four_digit_year (env_clk e 0 + ttl) ->
  exists norm uid u, normalizeUsername name = Ok (TrimSpace name, norm) /\ validateDeviceRegistration reg = Ok tt /\
    may_login uid u norm pw reg (auth_db st) /\
    User_ID (Session_User x) = uid /\ Device_ID (Session_Device x) = reg_ID reg /\
    (exists r, devices (auth_db st') !! reg_ID reg = Some r /\ device_user_id r = uid /\ device_revoked_at r = None /\
      device_e2ee_public_key r = reg_PublicKey reg /\ device_e2ee_key_version r = reg_KeyVersion reg) /\
    live_refresh (auth_db st') (reg_ID reg) (env_newid e 0) /\
    (forall c, (c 0%nat < AccessTokenExpiresAt x)%Z -> Authenticate c (AccessToken x) (auth_db st') = Ok (uid, reg_ID reg)).
Proof.
  intros H Hrand Hy. destruct (Login_usable _ _ _ _ _ _ _ _ H Hrand Hy) as (Hexp & _ & Hauth).
  apply Login_ok_inv in H as (nm & norm & uid & u & Hn & Hv & Hm & H). exists norm, uid, u.
  apply loginTx_ok_inv in H as (u' & d1 & _ & _ & _ & _ & _ & Hdev & _ & Hdb & Hu & Hd & _ & _); [|done].
  rewrite Hexp. rewrite Hu, Hd in *. rewrite Hdb. destruct Hdev as (r & Hr & Hru & Hrr & Hrk). split_and!; try done.
  - revert Hn. unfold normalizeUsername. repeat case_match; by try intros [= <- <-].
  - by exists r.
  - eexists. simpl. rewrite lookup_insert_eq. by split_and!.
  - rewrite <- Hdb. exact Hauth.
Qed.
End requests.

(** ** Concrete runs *)

Definition tokens (start : byte) (i : nat) : list byte := match i with O => [start; x01] | _ => [start; x02] end.
Definition fresh_ids (a b : string) (i : nat) : string := match i with O => a | _ => b end.
Definition env (t : Z) (a b : string) (start : byte) : Env := MkEnv (ticking t) (fresh_ids a b) (tokens start) map_to_list.
Definition day : Z := 24 * Hour.

Definition bob_account : user_row := Schema.User "bob" "bob" bob_hash "USER" "ACTIVE" t0 t0.
Definition server0 : Service := MkService (upd_users <[bob := bob_account]> two_accounts) ∅ ∅ ∅.
Definition phone_reg : DeviceRegistration := MkRegistration phone "phone" "ANDROID" [x01] 1.

(** Bob's phone is known as an OTHER device; he logs in and refreshes twice. *)
Definition log_in : M Service Session :=
  Login (ticking noon) (fresh_ids id1 id2) (tokens x0a) day map_to_list "" "10.0.0.7" " bob" bob_password phone_reg.
Definition server1 : Service := (log_in server0).2.
Definition token_1 : string := randomToken (tokens x0a 1).
Definition token_2 : string := randomToken (tokens x0b 1).

Definition refresh1 : M DB Session := Refresh (ticking (noon + 10 * Second)) (fresh_ids id3 id4) (tokens x0b) day token_1.
Definition server2 : DB := (refresh1 (auth_db server1)).2.

Lemma logged_in : exists x, log_in server0 = (Ok x, server1).
Proof. apply (run_ok log_in server0). vm_compute. reflexivity. Qed.

Lemma refreshed1 : exists x, refresh1 (auth_db server1) = (Ok x, server2) /\ Device_ID (Session_Device x) = phone.
Proof.
  destruct (run_ok refresh1 (auth_db server1)) as [x Hx]; [vm_compute; reflexivity|]. exists x. split; [exact Hx|].
  assert (E : match (refresh1 (auth_db server1)).1 with Ok y => String.eqb (Device_ID (Session_Device y)) phone | _ => false end = true)
    by (vm_compute; reflexivity).
  rewrite Hx in E. by apply String.eqb_eq.
Qed.

Lemma Login_correct_witness : exists x uid, log_in server0 = (Ok x, server1) /\
  forall c, (c 0%nat < AccessTokenExpiresAt x)%Z -> Authenticate c (AccessToken x) (auth_db server1) = Ok (uid, phone).
Proof.
  destruct logged_in as [x Hx].
  destruct (Login_correct day "" (env noon id1 id2 x0a) "10.0.0.7" " bob" bob_password phone_reg server0 x server1 Hx)
    as (norm & uid & u & _ & _ & _ & _ & _ & _ & _ & Ha).
  - discriminate.
  - unfold four_digit_year. vm_compute. split; [discriminate|reflexivity].
  - exists x, uid. split; [exact Hx|exact Ha].
Defined.

Lemma Refresh_correct_witness : exists x, refresh1 (auth_db server1) = (Ok x, server2) /\
  forall k, live_refresh server2 phone k <-> k = id3.
Proof.
  destruct refreshed1 as (x & Hx & Hd). exists x. split; [exact Hx|]. rewrite <- Hd. unfold refresh1 in Hx.
  assert (Hy : four_digit_year (ticking (noon + 10 * Second) 0 + day))
    by (unfold four_digit_year; vm_compute; split; [discriminate|reflexivity]).
  assert (Hr : tokens x0b 0 <> []) by discriminate.
  pose proof (Refresh_correct _ _ _ _ _ _ x server2 Hx Hr Hy) as H. cbn zeta in H. apply H.
Defined.

(** Two minutes later someone presents the rotated token. *)
Definition thief : nat -> Z := ticking (noon + 130 * Second).
Definition stolen : option refresh_token_row := refresh_token_of (TokenHash token_1) server2.

Lemma Refresh_reuse_witness : exists d',
  Refresh thief (fresh_ids op1 op2) (tokens x0c) day token_1 server2 = (Err (EAuth AuthErrTokenInvalid), d') /\
  forall k, ~ live_refresh d' phone k.
Proof.
  destruct stolen as [row|] eqn:E; [|vm_compute in E; discriminate E].
  assert (Hrow : row = Schema.RefreshToken bob phone (TokenHash token_1) (Format noon) (Format (noon + refreshTokenTTL))
      (Some (Format (noon + 10 * Second))) (Some id3)) by (vm_compute in E; injection E as <-; vm_compute; reflexivity).
  destruct (Refresh_reuse thief (fresh_ids op1 op2) (tokens x0c) day token_1 server2 row (noon + refreshTokenTTL)
    (Format (noon + 10 * Second)) id3 (noon + 10 * Second)) as (d' & H & Hd & _).
  - discriminate.
  - exact E.
  - rewrite Hrow. vm_compute. reflexivity.
  - reflexivity.
  - by rewrite Hrow.
  - by rewrite Hrow.
  - vm_compute. reflexivity.
  - vm_compute. reflexivity.
  - exists d'. split; [exact H|]. intros k. rewrite Hrow in Hd. exact (Hd k).
Defined.

(** Bob revokes his phone. *)
Definition revoke_phone : M Service unit := in_db (RevokeDevice (ticking (noon + 20 * Second)) bob phone).
Definition server3 : Service := (revoke_phone (set_auth_db server2 server1)).2.

Lemma RevokeDevice_final_witness :
  Authenticate (ticking (noon + 30 * Second)) (randomToken (tokens x0b 0)) server2 = Ok (bob, phone) /\
  Authenticate (ticking (noon + 30 * Second)) (randomToken (tokens x0b 0)) (auth_db server3) <> Ok (bob, phone).
Proof.
  split; [vm_compute; reflexivity|].
  assert (E : is_ok (revoke_phone (set_auth_db server2 server1)).1 = true) by (vm_compute; reflexivity).
  destruct (run_ok revoke_phone (set_auth_db server2 server1) E) as [[] Hr].
  apply (RevokeDevice_final day "" _ bob phone _ server3 server3 Hr (runs_nil day "" server3)).
Defined.

Lemma auth_runs_keep_devices_witness :
  (exists r', devices (auth_db server1) !! phone = Some r' /\ same_device (machine bob) r').
Proof.
  apply (auth_runs_keep_devices day "" server0 server1 phone (machine bob)); [|reflexivity].
  apply (runs_cons day "" (env noon id1 id2 x0a) (ReqLogin "10.0.0.7" " bob" bob_password phone_reg)).
  cbn [auth_handle]. rewrite then_ret_stays. apply runs_nil.
Defined.

(** Within its grace period a rotated token opens a session even after a
    logout with its successor. *)
Definition logged_out : DB := (Logout (ticking (noon + 20 * Second)) token_2 server2).2.

Example Logout_predecessor_revives :
  (forall k, ~ live_refresh logged_out phone k) /\
  is_ok (Refresh (ticking (noon + 50 * Second)) (fresh_ids op1 op2) (tokens x0c) day token_1 logged_out).1 = true.
Proof.
  split; [|vm_compute; reflexivity].
  assert (E : select_rows (fun _ r => String.eqb (rt_device_id r) phone && is_null (rt_revoked_at r)) (refresh_tokens logged_out) = [])
    by (vm_compute; reflexivity).
  intros k (r & Hr & Hd & Hn).
  assert (HE : (k, r) ∈ @nil (string * refresh_token_row)).
  { rewrite <- E. apply elem_of_select_rows. split; [exact Hr|]. by rewrite Hd, Hn, String.eqb_refl. }
  by apply not_elem_of_nil in HE.
Qed.
