(* ===== verification/Maintenance.v ===== *)
(** * Reclaiming expired state (internal/maintenance)

    [service.go] of the package: expired tokens, operations and uploads, Trash
    subtrees, old file versions, and the two-pass collection of ciphertext
    nothing refers to.  Every method works on [World].  A pass is modelled as
    one run with no requests in between; its database transactions and file
    removals happen in the order of the code. *)

From S2P Require Import Prelude GoText GoTime Uuid Schema Access Uploads.
From Stdlib Require Import Ascii.
Local Open Scope string_scope.

Record Result := MkResult {
  ExpiredUploads : nat;
  ExpiredAccessTokens : nat;
  ExpiredRefreshTokens : nat;
  ExpiredOperations : nat;
  ExpiredTrashItems : nat;
  PrunedFileVersions : nat;
  UnreferencedBlobs : nat;
  OrphanBlobFiles : nat;
}.

Record Policy := MkPolicy {
  OrphanBlobGrace : Z;
  TrashRetention : Z;
  MaxFileVersions : Z;
  VersionRetention : Z;
}.

Definition New (storagePath : string) (p : Policy) : result Policy :=
  if String.eqb storagePath "" then Err (Internal "database and storage path are required")
  else if (OrphanBlobGrace p <=? 0)%Z || (TrashRetention p <=? 0)%Z || (MaxFileVersions p <? 1)%Z
          || (VersionRetention p <=? 0)%Z
  then Err (Internal "maintenance policy durations and version limit must be positive")
  else Ok p.

(** [DELETE FROM t WHERE P], reporting the number of rows. *)
Definition count_delete {K V} `{Countable K} (P : K -> V -> bool) (get : DB -> gmap K V)
    (upd : (gmap K V -> gmap K V) -> DB -> DB) : M DB nat := fun d =>
  (Ok (count_rows P (get d)), upd (delete_rows P) d).

Section maintenance.
Context {U : UuidLib}.

Definition safeBlobPath (path : string) : bool :=
  HasPrefix path "blobs/" && Nat.eqb (Count path "/") 1 && HasSuffix path ".hbxblob" &&
  is_valid (uuid_parse (TrimSuffix (TrimPrefix path "blobs/") ".hbxblob")).

(** ** Trash *)

Definition expired_trash (cutoff : string) (r : node_row) : bool :=
  match node_deleted_at r with Some t => text_le t cutoff | None => false end.

(** [trashSubtreeCTE]. *)
Definition trash_subtree (id cutoff : string) (d : DB) : list string :=
  match nodes d !! id with
  | Some r =>
      if expired_trash cutoff r
      then subtree (fun n => String.eqb (node_owner_id n) (node_owner_id r)) (nodes d) id
      else []
  | None => []
  end.

(** The uploads of a subtree; [uuid.Parse] must accept their identifiers. *)
Definition targets (gone : string -> bool) (s : upload_session_row) : bool :=
  match us_target_node_id s with Some t => gone t | None => false end.
Definition all_uuids (ids : list string) : bool := forallb (fun k => is_valid (uuid_parse k)) ids.
Definition subtree_uploads (gone : string -> bool) (d : DB) : result (list string) :=
  let ids := (select_rows (fun _ s => targets gone s) (upload_sessions d)).*1 in
  if all_uuids ids then Ok ids else Err (Internal "invalid upload ID in Trash subtree").

Definition owner_of (d : DB) (k : string) : string :=
  match nodes d !! k with Some r => node_owner_id r | None => "" end.

(** [INSERT INTO sync_changes .. SELECT owner_id,id,'PURGE',? FROM subtree]. *)
Fixpoint record_purges (at_ : string) (rows : list (string * string)) : M DB unit :=
  match rows with
  | [] => mret tt
  | (owner, k) :: rest => _ ← exec_sync owner k "PURGE" [] at_; record_purges at_ rest
  end.

(** Something outside the subtree is still encrypted under the folder key. *)
Definition key_needed (gone : string -> bool) (folder : string) (d : DB) : bool :=
  exists_row (fun k n => bool_decide (node_metadata_key_scope_id n = Some folder) && negb (gone k)) (nodes d)
  || exists_row (fun _ f => String.eqb (fv_key_scope_id f) folder && negb (gone (fv_node_id f))) (file_versions d).

Definition share_in (gone : string -> bool) (share : string) (d : DB) : bool :=
  match shares d !! share with Some s => gone (share_node_id s) | None => false end.
Definition upload_in (gone : string -> bool) (upload : string) (d : DB) : bool :=
  match upload_sessions d !! upload with Some s => targets gone s | None => false end.

(** The deletions of [queries], in their order. *)
Definition delete_dependents (gone : string -> bool) : M DB unit :=
  modify (fun d => upd_folder_keys (delete_rows (fun k _ => gone k.1 && negb (key_needed gone k.1 d))) d) ;;
  modify (fun d => upd_share_device_envelopes (delete_rows (fun _ e => share_in gone (se_share_id e) d)) d) ;;
  exec (delete_shares (fun _ s => gone (share_node_id s))) ;;
  modify (upd_favorites (delete_rows (fun k _ => gone k.2))) ;;
  modify (fun d => upd_upload_chunks (delete_rows (fun k _ => upload_in gone k.1 d)) d) ;;
  exec (delete_upload_sessions (fun _ s => targets gone s)) ;;
  modify (upd_file_versions (delete_rows (fun _ f => gone (fv_node_id f)))).

Fixpoint remove_uploads (ids : list string) : M World unit :=
  match ids with
  | [] => mret tt
  | k :: rest => RemoveAll (uploadDir k) ;; remove_uploads rest
  end.

Definition purgeSubtree (id cutoff : string) (now : Z) : M World bool :=
  tx_world (
    ids ← db_query (fun d => Ok (trash_subtree id cutoff d));
    let gone k := bool_decide (k ∈ ids) in
    uploads ← db_query (subtree_uploads gone);
    rows ← db_query (fun d => Ok (map (fun k => (owner_of d k, k)) ids));
    on_db (record_purges (Format now) rows) ;;
    on_db (delete_dependents gone) ;;
    remove_uploads uploads ;;
    on_db (exec (delete_nodes gone)) ;;
    mret (negb (Nat.eqb (length ids) 0))).

Definition PurgeTrashEntry (clk : nat -> Z) (ownerID nodeID : string) : M World unit :=
  deletedAt ← db_query (fun d =>
    match nodes d !! nodeID with
    | Some r => if negb (String.eqb (node_owner_id r) ownerID) then Err MaintenanceErrNotInTrash
                else match node_deleted_at r with
                     | Some t => Ok t
                     | None => Err MaintenanceErrNotInTrash
                     end
    | None => Err MaintenanceErrNotInTrash
    end);
  let now := clk 0 in
  purged ← purgeSubtree nodeID deletedAt now;
  throw_if (negb purged) MaintenanceErrNotInTrash.

Context (p : Policy).

Definition deleted_text (r : node_row) : string := default "" (node_deleted_at r).

Definition cleanupExpiredTrash (now : Z) : M World nat :=
  let cutoff := Format (now - TrashRetention p) in
  rows ← db_query (fun d => Ok (order_by (fun a b => text_le (deleted_text a.2) (deleted_text b.2))
                                  (select_rows (fun _ r => expired_trash cutoff r) (nodes d))));
  mcount (fun k => purgeSubtree k cutoff now) rows.*1.

(** ** File versions *)

(** The rows of the inner query: versions of a file that has a current
    version, other than that one. *)
Definition superseded (d : DB) (k : string) (f : file_version_row) : bool :=
  match nodes d !! fv_node_id f with
  | Some n => match node_current_version_id n with
              | Some c => negb (String.eqb k c)
              | None => false
              end
  | None => false
  end.

(** [ORDER BY created_at DESC, id DESC]: [(k', f')] comes before [(k, f)]. *)
Definition newer (k' : string) (f' : file_version_row) (k : string) (f : file_version_row) : bool :=
  text_lt (fv_created_at f) (fv_created_at f') || String.eqb (fv_created_at f) (fv_created_at f') && text_lt k k'.

(** [ROW_NUMBER() OVER (PARTITION BY node_id ..)]. *)
Definition older_rank (d : DB) (k : string) (f : file_version_row) : Z :=
  (1 + Z.of_nat (count_rows (fun k' f' => superseded d k' f' && String.eqb (fv_node_id f') (fv_node_id f)
                                         && newer k' f' k f) (file_versions d)))%Z.

Definition prunable (now : Z) (d : DB) (k : string) (f : file_version_row) : bool :=
  superseded d k f &&
  ((MaxFileVersions p <=? older_rank d k f)%Z || text_lt (fv_created_at f) (Format (now - VersionRetention p))).

Definition pruneFileVersions (now : Z) : M DB nat := fun d =>
  count_delete (prunable now d) file_versions upd_file_versions d.

(** ** Expired records *)

Definition cleanupExpired (now : Z) : M DB (nat * nat * nat) :=
  let at_ := Format now in
  access ← count_delete (fun _ r => text_le (at_expires_at r) at_) access_tokens upd_access_tokens;
  refresh ← count_delete (fun _ r => text_le (rt_expires_at r) at_) refresh_tokens upd_refresh_tokens;
  operations ← count_delete (fun _ r => text_le (op_expires_at r) at_) processed_operations upd_processed_operations;
  mret (access, refresh, operations).

Definition abandoned (at_ : string) (s : upload_session_row) : bool :=
  text_le (us_expires_at s) at_ && negb (String.eqb (us_status s) "COMPLETED").

(** [UPDATE upload_sessions SET status='EXPIRED' WHERE id=? AND ..]: did it
    change a row? *)
Definition expire_session (at_ id : string) : M DB bool := fun d =>
  match upload_sessions d !! id with
  | Some s => if abandoned at_ s then (Ok true, update_session id (set_status "EXPIRED" (us_completed_at s)) d) else (Ok false, d)
  | None => (Ok false, d)
  end.

Definition delete_expired_session (id : string) : M DB unit :=
  modify (upd_upload_chunks (delete_rows (fun k _ => String.eqb k.1 id))) ;;
  exec (delete_upload_sessions (fun k s => String.eqb k id && String.eqb (us_status s) "EXPIRED")).

Definition cleanup_upload (at_ id : string) : M World bool :=
  expired ← on_db (expire_session at_ id);
  if expired : bool then
    RemoveAll (uploadDir id) ;;
    on_db (tx (delete_expired_session id)) ;;
    mret true
  else mret false.

Definition cleanupExpiredUploads (now : Z) : M World nat :=
  let at_ := Format now in
  ids ← db_query (fun d => let ids := (select_rows (fun _ s => abandoned at_ s) (upload_sessions d)).*1 in
                           if all_uuids ids then Ok ids else Err (Internal "invalid upload ID in database"));
  mcount (cleanup_upload at_) ids.

(** ** Unreferenced blobs: marked first, removed after the grace period *)

Definition referenced (d : DB) (blob : string) : bool :=
  exists_row (fun _ f => String.eqb (fv_blob_id f) blob) (file_versions d).

Definition mark_blobs (now : Z) (d : DB) : DB :=
  upd_gc_blob_candidates (fun cs =>
    cs ∪ ((fun _ => Format now) <$> filter (fun kv => referenced d kv.1 = false) (blobs d))) d.

Definition clear_candidates (d : DB) : DB :=
  upd_gc_blob_candidates (delete_rows (fun k _ => negb (has (blobs d) k) || referenced d k)) d.

Definition eligible_blobs (cutoff : string) (d : DB) : result (list (string * string)) :=
  let rows := select_rows (fun k marked => text_le marked cutoff && has (blobs d) k && negb (referenced d k))
                (gc_blob_candidates d) in
  let path k := match blobs d !! k with Some b => blob_storage_rel_path b | None => "" end in
  if forallb (fun kv => safeBlobPath (path kv.1)) rows then Ok (map (fun kv => (kv.1, path kv.1)) rows)
  else Err (Internal "unsafe blob path in database").

(** The transaction that drops the rows: did the blob go? *)
Definition delete_blob (id : string) : M DB bool := tx (fun d =>
  let d1 := upd_gc_blob_candidates (delete_rows (fun k _ => String.eqb k id)) d in
  let P k (_ : blob_row) := String.eqb k id && negb (referenced d1 id) in
  match delete_blobs P d1 with
  | Ok d2 => (Ok (Nat.ltb 0 (count_rows P (blobs d1))), d2)
  | Err e => (Err e, d1)
  end).

Definition collect_blob (c : string * string) : M World bool :=
  affected ← on_db (delete_blob c.1);
  if affected : bool then modify (Remove c.2) ;; mret true else mret false.

Definition collectUnreferencedBlobs (now : Z) : M World nat :=
  on_db (modify (mark_blobs now)) ;;
  on_db (modify clear_candidates) ;;
  candidates ← db_query (eligible_blobs (Format (now - OrphanBlobGrace p)));
  mcount collect_blob candidates.

(** ** Orphan blob files *)

(** [os.ReadDir(storagePath/blobs)]: the files, by name; [blobs/] exists. *)
Definition blob_dir (w : World) : list string :=
  order_by text_le (select_rows (fun path _ => HasPrefix path "blobs/" && Nat.eqb (Count path "/") 1) (files w)).*1.

Definition recorded_path (path : string) (d : DB) : bool :=
  exists_row (fun _ b => String.eqb (blob_storage_rel_path b) path) (blobs d).

Definition mark_file (now : Z) (path : string) : M DB unit := modify (fun d =>
  if negb (HasSuffix path ".hbxblob") || negb (safeBlobPath path) then d
  else if recorded_path path d then upd_gc_orphan_blob_files (delete path) d
  else match gc_orphan_blob_files d !! path with
       | Some _ => d
       | None => upd_gc_orphan_blob_files <[path := Format now]> d
       end).

Fixpoint mark_files (now : Z) (paths : list string) : M DB unit :=
  match paths with
  | [] => mret tt
  | path :: rest => mark_file now path ;; mark_files now rest
  end.

Definition eligible_files (cutoff : string) (d : DB) : result (list string) :=
  let paths := (select_rows (fun _ marked => text_le marked cutoff) (gc_orphan_blob_files d)).*1 in
  if forallb safeBlobPath paths then Ok paths else Err (Internal "unsafe orphan blob path in database").

Definition collect_file (path : string) : M World bool :=
  exists_ ← db_query (fun d => Ok (recorded_path path d));
  if exists_ : bool then on_db (modify (upd_gc_orphan_blob_files (delete path))) ;; mret false
  else
    modify (Remove path) ;;
    on_db (modify (upd_gc_orphan_blob_files (delete path))) ;;
    mret true.

Definition collectOrphanBlobFiles (now : Z) : M World nat :=
  entries ← query (fun w => Ok (blob_dir w));
  on_db (mark_files now entries) ;;
  paths ← db_query (eligible_files (Format (now - OrphanBlobGrace p)));
  mcount collect_file paths.

(** ** One pass *)

Definition Run (clk : nat -> Z) : M World Result :=
  let now := clk 0 in
  expired ← on_db (cleanupExpired now);
  uploads ← cleanupExpiredUploads now;
  trashItems ← cleanupExpiredTrash now;
  pruned ← on_db (pruneFileVersions now);
  unreferenced ← collectUnreferencedBlobs now;
  orphanFiles ← collectOrphanBlobFiles now;
  let '(access, refresh, operations) := expired in
  mret (MkResult uploads access refresh operations trashItems pruned unreferenced orphanFiles).
End maintenance.
