(* ===== verification/MaintenancePurge.v ===== *)
(** * Permanent deletion of a Trash entry

    [purgeSubtree] of internal/maintenance/service.go: exactly the subtree
    goes, with everything that depends on it, and the deletion cannot fail
    half way. *)

From S2P Require Import Prelude GoText GoTime Uuid Sha256 Schema Fixture Access Nodes NodesSpec NodesCorrect Uploads UploadsStorage Maintenance.
Local Open Scope string_scope.

(** ** The subtree *)

Section subtree.
Context {U : UuidLib}.

Lemma trash_subtree_spec id cutoff d r :
  parents_ok (nodes d) -> nodes d !! id = Some r -> expired_trash cutoff r = true ->
  NoDup (trash_subtree id cutoff d) /\
  forall k, k ∈ trash_subtree id cutoff d <-> is_Some (nodes d !! k) /\ below (nodes d) k id.
Proof.
  intros Hpar Hr He. unfold trash_subtree. rewrite Hr, He.
  set (P n := String.eqb (node_owner_id n) (node_owner_id r)).
  destruct (subtree_spec P (nodes d) id) as [Hnd Hel]. split; [done|]. intros k. rewrite Hel. split.
  - intros [_ Hk]. split.
    + destruct (rtc_inv_r _ _ Hk) as [<-|(x & _ & r' & Hr' & _)]; eauto.
    + unfold below. eapply rtc_flip; [|exact Hk]. intros a b (r' & Hr' & _ & Hp). by exists r'.
  - intros [_ Hk]. split; [eauto|].
    induction Hk as [k|k y z (rk & Hk & Hp) Hyz IH]; [apply rtc_refl|]. eapply rtc_r; [by apply IH|].
    destruct (below_owner (nodes d) k z r Hpar) as (ra & Hra & Ho); [|done|].
    + eapply rtc_l; [|exact Hyz]. by exists rk.
    + assert (ra = rk) as -> by congruence. exists rk. split_and!; try done. unfold P. by rewrite Ho, String.eqb_refl.
Qed.

(** The purged set is closed downwards, whether or not the entry expired. *)
Lemma trash_subtree_closed id cutoff d k r p :
  parents_ok (nodes d) -> nodes d !! k = Some r -> node_parent_id r = Some p ->
  p ∈ trash_subtree id cutoff d -> k ∈ trash_subtree id cutoff d.
Proof.
  intros Hpar Hk Hp Hin. unfold trash_subtree in Hin.
  destruct (nodes d !! id) as [r0|] eqn:Er; [|by apply not_elem_of_nil in Hin].
  destruct (expired_trash cutoff r0) eqn:Ee; [|by apply not_elem_of_nil in Hin].
  destruct (trash_subtree_spec id cutoff d r0 Hpar Er Ee) as [_ Hel].
  assert (Hin' : p ∈ trash_subtree id cutoff d) by (unfold trash_subtree; by rewrite Er, Ee).
  apply Hel in Hin' as [_ Hb]. apply Hel. split; [eauto|]. eapply rtc_l; [|exact Hb]. by exists r.
Qed.

Lemma trash_subtree_exists id cutoff d k : k ∈ trash_subtree id cutoff d -> is_Some (nodes d !! k).
Proof.
  unfold trash_subtree. destruct (nodes d !! id) as [r0|] eqn:Er; [|by intros ?%not_elem_of_nil].
  case_match; [|by intros ?%not_elem_of_nil]. intros Hk.
  apply (proj2 (subtree_spec _ (nodes d) id)) in Hk as [_ Hk].
  destruct (rtc_inv_r _ _ Hk) as [<-|(x & _ & r' & Hr' & _)]; eauto.
Qed.
End subtree.

(** Removing a set of nodes closed downwards leaves a forest. *)
Lemma forest_delete ns (gone : string -> bool) : forest ns ->
  (forall k r p, ns !! k = Some r -> node_parent_id r = Some p -> gone p = true -> gone k = true) ->
  forest (delete_rows (fun k _ => gone k) ns).
Proof.
  intros [Hac Hpar] Hcl.
  assert (Hl : forall k, delete_rows (fun k _ => gone k) ns !! k = if gone k then None else ns !! k).
  { intros k. apply option_eq. intros v. rewrite lookup_delete_rows. destruct (gone k); naive_solver. }
  split.
  - intros k. destruct (gone k) eqn:Ek; [exists []; constructor; by rewrite Hl, Ek|].
    destruct (Hac k) as [l Hc]. exists l. induction Hc as [k Hk|k r Hk Hp|k r p l Hk Hp Hc IH].
    + constructor. by rewrite Hl, Ek.
    + constructor; [by rewrite Hl, Ek|done].
    + econstructor; [by rewrite Hl, Ek|done|]. apply IH.
      apply not_true_iff_false. intros Hg. rewrite (Hcl _ _ _ Hk Hp Hg) in Ek. done.
  - intros k r p Hk Hp. rewrite Hl in Hk. destruct (gone k) eqn:Ek; [done|].
    destruct (Hpar _ _ _ Hk Hp) as (rp & Hrp & Hty). exists rp. split; [|done]. rewrite Hl.
    destruct (gone p) eqn:Eg; [|done]. by rewrite (Hcl _ _ _ Hk Hp Eg) in Ek.
Qed.

(** ** The feed *)

Fixpoint purge_rows (at_ : string) (rev : Z) (rows : list (string * string)) : list sync_row :=
  match rows with
  | [] => []
  | (owner, k) :: rest => SyncRow (rev + 1) owner k "PURGE" [] at_ :: purge_rows at_ (rev + 1) rest
  end.

Definition with_feed (changes : list sync_row) (seq : Z) (d : DB) : DB :=
  MkDB (users d) (devices d) (refresh_tokens d) (access_tokens d) (vault_key_envelopes d) (nodes d)
    (blobs d) (file_versions d) changes seq
    (processed_operations d) (upload_sessions d) (upload_chunks d) (shares d) (share_device_envelopes d)
    (favorites d) (gc_blob_candidates d) (gc_orphan_blob_files d) (recovery_bundles d) (folder_keys d).

Lemma record_purges_ok_inv at_ rows d u d' : record_purges at_ rows d = (Ok u, d') ->
  d' = with_feed (sync_changes d ++ purge_rows at_ (sync_sequence d) rows)%list
         (sync_sequence d + Z.of_nat (length rows)) d /\
  (feed_ok d -> feed_ok d').
Proof.
  revert d; induction rows as [|[o k] rows IH]; intros d H.
  - simpl in H. injection H as _ <-. destruct d. simpl. unfold with_feed. simpl. by rewrite app_nil_r, Z.add_0_r.
  - cbn [record_purges] in H. inv_ok H.
    match goal with HS : exec_sync _ _ _ _ _ _ = _ |- _ => apply exec_sync_ok_inv in HS as (Hm & -> & ->) end.
    apply IH in H as [-> Hf]. split.
    + unfold with_feed. cbn [append_change users devices refresh_tokens access_tokens vault_key_envelopes nodes blobs
        file_versions sync_changes sync_sequence processed_operations upload_sessions upload_chunks shares
        share_device_envelopes favorites gc_blob_candidates gc_orphan_blob_files recovery_bundles folder_keys purge_rows length].
      rewrite <- app_assoc. simpl. f_equal. lia.
    + intros Hok. apply Hf. eapply feed_ok_append; [exact Hok|reflexivity|reflexivity|reflexivity|done].
Qed.

Lemma record_purges_err at_ rows d e d' : record_purges at_ rows d = (Err e, d') ->
  exists changes seq, d' = with_feed changes seq d.
Proof.
  revert d; induction rows as [|[o k] rows IH]; intros d H; [done|]. cbn [record_purges] in H.
  unfold mbind, M_bind in H. destruct (exec_sync o k "PURGE" [] at_ d) as [[x|x] d1] eqn:E.
  - apply exec_sync_ok_inv in E as (_ & _ & ->). apply IH in H as (c & q & ->). by exists c, q.
  - unfold exec_sync in E. destruct (insert_sync_changes _ _ _ _ _ _) as [[? ?]|]; [done|].
    injection E as _ <-. injection H as _ <-. exists (sync_changes d), (sync_sequence d). by destruct d.
Qed.

(** ** The dependents *)

Definition dependents_deleted (gone : string -> bool) (d : DB) : DB :=
  upd_file_versions (delete_rows (fun _ f => gone (fv_node_id f)))
  (upd_upload_sessions (delete_rows (fun _ s => targets gone s))
  (upd_upload_chunks (delete_rows (fun k _ => upload_in gone k.1 d))
  (upd_favorites (delete_rows (fun k _ => gone k.2))
  (upd_shares (delete_rows (fun _ s => gone (share_node_id s)))
  (upd_share_device_envelopes (delete_rows (fun _ e => share_in gone (se_share_id e) d))
  (upd_folder_keys (delete_rows (fun k _ => gone k.1 && negb (key_needed gone k.1 d))) d)))))).

(** Nothing that stays refers to a deleted share or upload. *)
Lemma delete_dependents_run gone d : delete_dependents gone d = (Ok tt, dependents_deleted gone d).
Proof.
  unfold delete_dependents.
  rewrite (bind_ok _ _ _ tt (upd_folder_keys (delete_rows (fun k _ => gone k.1 && negb (key_needed gone k.1 d))) d)) by done.
  set (d1 := upd_folder_keys _ d).
  rewrite (bind_ok _ _ _ tt (upd_share_device_envelopes (delete_rows (fun _ e => share_in gone (se_share_id e) d)) d1)) by done.
  set (d2 := upd_share_device_envelopes _ d1).
  assert (E3 : delete_shares (fun _ s => gone (share_node_id s)) d2 = Ok (upd_shares (delete_rows (fun _ s => gone (share_node_id s))) d2)).
  { unfold delete_shares. rewrite (proj2 (exists_row_false _ _)); [done|]. intros k e Hk. simpl in Hk.
    apply lookup_delete_rows in Hk as [_ Hk]. exact Hk. }
  rewrite (bind_ok _ _ _ tt (upd_shares (delete_rows (fun _ s => gone (share_node_id s))) d2)) by (unfold exec; by rewrite E3).
  set (d3 := upd_shares _ d2).
  rewrite (bind_ok _ _ _ tt (upd_favorites (delete_rows (fun k _ => gone k.2)) d3)) by done.
  set (d4 := upd_favorites _ d3).
  rewrite (bind_ok _ _ _ tt (upd_upload_chunks (delete_rows (fun k _ => upload_in gone k.1 d)) d4)) by done.
  set (d5 := upd_upload_chunks _ d4).
  assert (E6 : delete_upload_sessions (fun _ s => targets gone s) d5 = Ok (upd_upload_sessions (delete_rows (fun _ s => targets gone s)) d5)).
  { unfold delete_upload_sessions. rewrite (proj2 (exists_row_false _ _)); [done|]. intros k c Hk. simpl in Hk.
    apply lookup_delete_rows in Hk as [_ Hk]. exact Hk. }
  rewrite (bind_ok _ _ _ tt (upd_upload_sessions (delete_rows (fun _ s => targets gone s)) d5)) by (unfold exec; by rewrite E6).
  done.
Qed.

Lemma remove_uploads_run ids w : exists w1, remove_uploads ids w = (Ok tt, w1) /\ db w1 = db w /\
  forall path, files w1 !! path = if existsb (fun u => in_dir (uploadDir u) path) ids then None else files w !! path.
Proof.
  revert w; induction ids as [|u ids IH]; intros w; [by exists w|]. cbn [remove_uploads].
  set (w0 := set_files (delete_rows (fun path _ => in_dir (uploadDir u) path)) (set_dirs (fun ds => ds ∖ {[ uploadDir u ]}) w)).
  rewrite (bind_ok _ _ _ tt w0) by done.
  destruct (IH w0) as (w1 & -> & Hdb & Hf). exists w1. split_and!; [done|done|]. intros path. rewrite Hf. cbn [existsb].
  destruct (existsb _ ids); [by rewrite orb_true_r|]. rewrite orb_false_r. simpl.
  apply option_eq. intros x. rewrite lookup_delete_rows. destruct (in_dir (uploadDir u) path); naive_solver.
Qed.

(** ** The whole transaction *)

Definition in_list (ids : list string) (k : string) : bool := bool_decide (k ∈ ids).

Definition purged_db (ids : list string) (now : Z) (d : DB) : DB :=
  upd_nodes (delete_rows (fun k _ => in_list ids k))
    (dependents_deleted (in_list ids)
      (with_feed (sync_changes d ++ purge_rows (Format now) (sync_sequence d) (map (fun k => (owner_of d k, k)) ids))%list
         (sync_sequence d + Z.of_nat (length ids)) d)).

(** The final deletion succeeds: no remaining row refers to the subtree. *)
Lemma delete_nodes_purged ids d0 d :
  (forall k r p, nodes d !! k = Some r -> node_parent_id r = Some p -> p ∈ ids -> k ∈ ids) ->
  nodes d0 = nodes d ->
  delete_nodes (in_list ids) (dependents_deleted (in_list ids) d0) =
    Ok (upd_nodes (delete_rows (fun k _ => in_list ids k)) (dependents_deleted (in_list ids) d0)).
Proof.
  intros Hcl En. unfold delete_nodes.
  assert (Hout : forall k, in_list ids k = false -> in_list ids k && has (nodes (dependents_deleted (in_list ids) d0)) k = false)
    by (by intros k ->).
  rewrite !(proj2 (exists_row_false _ _)); [done|..].
  - intros k a Hk. simpl in Hk. apply lookup_delete_rows in Hk as [_ Hk]. by apply Hout.
  - intros k a Hk. simpl in Hk. apply lookup_delete_rows in Hk as [_ Hk]. by apply Hout.
  - intros k a Hk. simpl in Hk. apply lookup_delete_rows in Hk as [_ Hk]. unfold targets in Hk.
    destruct (us_target_node_id a); [by apply Hout|done].
  - intros k a Hk. simpl in Hk. apply lookup_delete_rows in Hk as [_ Hk]. by apply Hout.
  - intros k r Hk. simpl in Hk. rewrite En in Hk. destruct (in_list ids k) eqn:Ek; [done|].
    destruct (node_parent_id r) as [p|] eqn:Ep; [|done]. simpl. apply andb_false_intro1.
    apply bool_decide_eq_false_2. intros Hin. apply bool_decide_eq_false_1 in Ek. by apply Ek, (Hcl _ _ _ Hk Ep).
Qed.

Section purge.
Context {U : UuidLib}.

Lemma purgeSubtree_outcome id cutoff now w r w' : parents_ok (nodes (db w)) ->
  purgeSubtree id cutoff now w = (r, w') ->
  (exists e, r = Err e /\ w' = w) \/
  let ids := trash_subtree id cutoff (db w) in
  exists uploads, r = Ok (negb (Nat.eqb (length ids) 0)) /\ subtree_uploads (in_list ids) (db w) = Ok uploads /\
    db w' = purged_db ids now (db w) /\ (feed_ok (db w) -> feed_ok (db w')) /\
    forall path, files w' !! path = if existsb (fun u => in_dir (uploadDir u) path) uploads then None else files w !! path.
Proof.
  intros Hpar. unfold purgeSubtree, tx_world.
  rewrite (bind_ok _ _ _ (trash_subtree id cutoff (db w)) w) by done. cbn zeta.
  set (ids := trash_subtree id cutoff (db w)). change (fun k => bool_decide (k ∈ ids)) with (in_list ids).
  destruct (subtree_uploads (in_list ids) (db w)) as [ups|e] eqn:Eu;
    [|rewrite (bind_err _ _ _ e w) by (unfold db_query, query; by rewrite Eu); intros [= <- <-]; left; exists e; by destruct w].
  rewrite (bind_ok _ _ _ ups w) by (unfold db_query, query; by rewrite Eu).
  set (rows := map (fun k => (owner_of (db w) k, k)) ids).
  rewrite (bind_ok _ _ _ rows w) by done.
  destruct (record_purges (Format now) rows (db w)) as [[[]|e] d1] eqn:Er.
  2:{ rewrite (bind_err _ _ _ e (set_db d1 w)) by (unfold on_db; by rewrite Er). intros [= <- <-]. left. exists e. by destruct w. }
  rewrite (bind_ok _ _ _ tt (set_db d1 w)) by (unfold on_db; by rewrite Er).
  apply record_purges_ok_inv in Er as [-> Hfeed]. set (d1 := with_feed _ _ _) in *.
  rewrite (bind_ok _ _ _ tt (set_db (dependents_deleted (in_list ids) d1) w))
    by (unfold on_db; simpl; by rewrite delete_dependents_run).
  destruct (remove_uploads_run ups (set_db (dependents_deleted (in_list ids) d1) w)) as (w1 & Hrun & Hdb & Hfiles).
  rewrite (bind_ok _ _ _ tt w1) by done.
  assert (Hdel : delete_nodes (in_list ids) (db w1) =
    Ok (upd_nodes (delete_rows (fun k _ => in_list ids k)) (dependents_deleted (in_list ids) d1))).
  { rewrite Hdb. apply (delete_nodes_purged ids d1 (db w)); [|done]. intros k r0 p Hk Hp Hin.
    by eapply trash_subtree_closed. }
  rewrite (bind_ok _ _ _ tt (set_db (upd_nodes (delete_rows (fun k _ => in_list ids k)) (dependents_deleted (in_list ids) d1)) w1))
    by (unfold on_db, exec; by rewrite Hdel).
  intros [= <- <-]. right. exists ups. split; [done|]. split; [done|]. split; [|split].
  - unfold purged_db. simpl. subst d1. unfold rows. by rewrite length_map.
  - exact Hfeed.
  - intros path. simpl. by rewrite Hfiles.
Qed.

Lemma expired_own r t : node_deleted_at r = Some t -> expired_trash t r = true.
Proof. unfold expired_trash. intros ->. apply text_le_refl. Qed.

Lemma key_needed_true gone f d : key_needed gone f d = true <->
  (exists k n, nodes d !! k = Some n /\ node_metadata_key_scope_id n = Some f /\ gone k = false) \/
  (exists k x, file_versions d !! k = Some x /\ fv_key_scope_id x = f /\ gone (fv_node_id x) = false).
Proof.
  unfold key_needed. rewrite orb_true_iff, !exists_row_true.
  setoid_rewrite andb_true_iff. setoid_rewrite negb_true_iff. setoid_rewrite bool_decide_eq_true.
  by setoid_rewrite String.eqb_eq.
Qed.

(** The upload sessions of a purged node. *)
Definition uploads_to (ids : list string) (d : DB) (u : string) : Prop :=
  exists s k, upload_sessions d !! u = Some s /\ us_target_node_id s = Some k /\ k ∈ ids.

Lemma targets_true ids s : targets (in_list ids) s = true <-> exists k, us_target_node_id s = Some k /\ k ∈ ids.
Proof. unfold targets, in_list. destruct (us_target_node_id s); [rewrite bool_decide_eq_true|]; naive_solver. Qed.
Lemma upload_in_true ids d u : upload_in (in_list ids) u d = true <-> uploads_to ids d u.
Proof.
  unfold upload_in, uploads_to. destruct (upload_sessions d !! u) as [s|]; [rewrite targets_true|]; naive_solver.
Qed.
Lemma subtree_uploads_in ids d ups u : subtree_uploads (in_list ids) d = Ok ups -> In u ups <-> uploads_to ids d u.
Proof.
  unfold subtree_uploads. destruct (all_uuids _); [|done]. intros [= <-]. rewrite <- list_elem_of_In, list_elem_of_fmap. unfold uploads_to. split.
  - intros ([u' s] & -> & [Hs Ht]%elem_of_select_rows). apply targets_true in Ht as (k & ? & ?). by exists s, k.
  - intros (s & k & Hs & Ht & Hk). exists (u, s). split; [done|]. apply elem_of_select_rows. split; [done|]. apply targets_true. by exists k.
Qed.

(** C22. A successful PurgeTrashEntry removes exactly the entry and the nodes
    below it, each reported once to its owner as a PURGE under consecutive
    revisions, together with their versions, shares with the envelopes,
    favorites and uploads with their chunks, in the tables and in the storage; a
    folder key goes only when no node and no version outside the subtree is
    encrypted under it; nothing else changes hands, and ciphertext stays for
    the collector. *)
Theorem PurgeTrashEntry_correct clk owner id w w' :
  forest (nodes (db w)) -> PurgeTrashEntry clk owner id w = (Ok tt, w') ->
  (exists r, nodes (db w) !! id = Some r /\ node_owner_id r = owner /\ IsDeleted r = true) /\
  exists ids, NoDup ids /\
    (forall k, k ∈ ids <-> is_Some (nodes (db w) !! k) /\ below (nodes (db w)) k id) /\
    (forall k r, nodes (db w') !! k = Some r <-> nodes (db w) !! k = Some r /\ k ∉ ids) /\
    sync_changes (db w') = (sync_changes (db w) ++
      purge_rows (Format (clk 0)) (sync_sequence (db w)) (map (pair owner) ids))%list /\
    (forall k f, file_versions (db w') !! k = Some f <-> file_versions (db w) !! k = Some f /\ fv_node_id f ∉ ids) /\
    (forall k s, shares (db w') !! k = Some s <-> shares (db w) !! k = Some s /\ share_node_id s ∉ ids) /\
    (forall u k t, favorites (db w') !! (u, k) = Some t <-> favorites (db w) !! (u, k) = Some t /\ k ∉ ids) /\
    (forall u s, upload_sessions (db w') !! u = Some s <->
       upload_sessions (db w) !! u = Some s /\ (forall k, us_target_node_id s = Some k -> k ∉ ids)) /\
    (forall f v row, folder_keys (db w') !! (f, v) = Some row <-> folder_keys (db w) !! (f, v) = Some row /\
       (f ∉ ids \/
        (exists k n, nodes (db w) !! k = Some n /\ node_metadata_key_scope_id n = Some f /\ k ∉ ids) \/
        (exists k x, file_versions (db w) !! k = Some x /\ fv_key_scope_id x = f /\ fv_node_id x ∉ ids))) /\
    (forall k e, share_device_envelopes (db w') !! k = Some e <-> share_device_envelopes (db w) !! k = Some e /\
       (forall s, shares (db w) !! se_share_id e = Some s -> share_node_id s ∉ ids)) /\
    (forall u n c, upload_chunks (db w') !! (u, n) = Some c <-> upload_chunks (db w) !! (u, n) = Some c /\ ~ uploads_to ids (db w) u) /\
    (forall path data, files w' !! path = Some data <-> files w !! path = Some data /\
       (forall u, uploads_to ids (db w) u -> in_dir (uploadDir u) path = false)) /\
    blobs (db w') = blobs (db w) /\ users (db w') = users (db w) /\ devices (db w') = devices (db w).
Proof.
  intros [_ Hpar] H. unfold PurgeTrashEntry, db_query in H. inv_ok H.
  match goal with HQ : match nodes _ !! id with _ => _ end = Ok _ |- _ => rename HQ into Hq end.
  destruct (nodes (db w) !! id) as [r|] eqn:Er; [|done].
  destruct (String.eqb_spec (node_owner_id r) owner) as [Ho|]; [|done]. simpl in Hq.
  destruct (node_deleted_at r) as [t|] eqn:Et; [|done]. injection Hq as <-.
  match goal with HP : purgeSubtree _ _ _ _ = _ |- _ => apply (purgeSubtree_outcome _ _ _ _ _ _ Hpar) in HP as
    [(e & [=] & _)|(ups & _ & Hups & Hdb & _ & Hfiles)] end.
  split; [exists r; split_and!; [done..|]; by unfold IsDeleted; rewrite Et|].
  destruct (trash_subtree_spec id t (db w) r Hpar Er (expired_own r t Et)) as [Hnd Hel].
  set (ids := trash_subtree id t (db w)) in *. exists ids.
  assert (Hin : forall k, in_list ids k = false <-> k ∉ ids) by (intros k; apply bool_decide_eq_false).
  rewrite Hdb. split; [exact Hnd|]. split; [exact Hel|]. split; [|split; [|split; [|split; [|split; [|split; [|split; [|split; [|split; [|split]]]]]]]]]; [..|done].
  - intros k x. simpl. by rewrite lookup_delete_rows, Hin.
  - simpl. do 2 f_equal. apply map_ext_in. intros k Hk%list_elem_of_In%Hel. destruct Hk as [_ Hk].
    destruct (below_owner _ _ _ _ Hpar Hk Er) as (rk & Hrk & Hok). unfold owner_of. rewrite Hrk. congruence.
  - intros k x. simpl. by rewrite lookup_delete_rows, Hin.
  - intros k x. simpl. by rewrite lookup_delete_rows, Hin.
  - intros u k x. simpl. by rewrite lookup_delete_rows, Hin.
  - intros u x. simpl. rewrite lookup_delete_rows. unfold targets. destruct (us_target_node_id x); [rewrite Hin|]; naive_solver.
  - intros f v row. simpl. rewrite lookup_delete_rows. simpl. change (key_needed _ f _) with (key_needed (in_list ids) f (db w)).
    rewrite andb_false_iff, Hin, negb_false_iff, key_needed_true. by setoid_rewrite Hin.
  - intros k x. simpl. rewrite lookup_delete_rows. unfold share_in. simpl. destruct (shares (db w) !! se_share_id x); [rewrite Hin|]; naive_solver.
  - intros u n x. simpl. rewrite lookup_delete_rows. simpl. by rewrite <- (not_true_iff_false (upload_in _ _ _)), (upload_in_true ids (db w) u).
  - intros path data. rewrite Hfiles. destruct (existsb _ ups) eqn:Ex.
    + split; [done|]. intros [_ Hno]. apply existsb_exists in Ex as (u & Hu & Hd). rewrite Hno in Hd; [done|]. by eapply subtree_uploads_in.
    + split; [|by intros []]. intros Hf. split; [done|]. intros u Hu. apply (subtree_uploads_in _ _ _ _ Hups) in Hu.
      destruct (in_dir (uploadDir u) path) eqn:Ed; [|done]. rewrite <- Ex. symmetry. apply existsb_exists. by exists u.
Qed.
End purge.

(** ** A concrete run: Alice empties her Trash of [id4] *)

Definition family_world : World := MkWorld family ∅ ∅.
Definition purge_id4 : M World unit := PurgeTrashEntry (ticking noon) alice id4.

Lemma PurgeTrashEntry_correct_witness : nodes (db (purge_id4 family_world).2) !! id4 = None /\
  exists ids, sync_changes (db (purge_id4 family_world).2) = (sync_changes (db family_world) ++
    purge_rows (Format (ticking noon 0)) (sync_sequence (db family_world)) (map (pair alice) ids))%list.
Proof.
  split; [vm_compute; reflexivity|].
  assert (Hf : forest (nodes (db family_world))) by (apply forestb_sound; vm_compute; reflexivity).
  destruct (run_ok purge_id4 family_world) as [[] Hrun]; [vm_compute; reflexivity|].
  destruct (PurgeTrashEntry_correct (ticking noon) alice id4 family_world _ Hf Hrun)
    as (_ & ids & _ & _ & _ & Hs & _).
  exists ids. exact Hs.
Defined.
