(* ===== verification/MaintenanceCorrect.v ===== *)
(** * Correctness of internal/maintenance

    A pass never touches ciphertext a file version refers to, keeps the
    storage tree and the vault sound, removes only what expired, and collects
    ciphertext in two passes. *)

From S2P Require Import Prelude GoText GoTime Uuid Sha256 Schema Fixture Access Nodes NodesSpec NodesCorrect Uploads UploadsStorage Maintenance MaintenancePurge.
From Stdlib Require Import String.
Local Open Scope string_scope.

Section safety.
Context {U : UuidLib} {UL : UuidLaws U}.

(** ** What every step of a pass respects *)

Record sound (w : World) : Prop := {
  sound_storage : storage_ok w;
  sound_vault : vault_ok (db w);
}.

(** Nothing is added or changed; a version that stays keeps its blob and its
    ciphertext; a node goes only with an entry that expired in Trash. *)
Record reclaims (cutoff : string) (w w' : World) : Prop := {
  rc_nodes : forall k r, nodes (db w') !! k = Some r -> nodes (db w) !! k = Some r;
  rc_trash : forall k, is_Some (nodes (db w) !! k) -> nodes (db w') !! k = None ->
    exists a r, below (nodes (db w)) k a /\ nodes (db w) !! a = Some r /\ expired_trash cutoff r = true;
  rc_versions : forall k f, file_versions (db w') !! k = Some f -> file_versions (db w) !! k = Some f;
  rc_blobs : forall k f row, file_versions (db w') !! k = Some f -> blobs (db w) !! fv_blob_id f = Some row ->
    blobs (db w') !! fv_blob_id f = Some row /\
    files w' !! blob_storage_rel_path row = files w !! blob_storage_rel_path row;
}.

Definition gc_step (cutoff : string) (w w' : World) : Prop := sound w -> sound w' /\ reclaims cutoff w w'.

Lemma reclaims_refl cutoff w : reclaims cutoff w w.
Proof. split; [done| |done|done]. intros k [r Hr] Hn. congruence. Qed.

Lemma reclaims_trans cutoff w1 w2 w3 : reclaims cutoff w1 w2 -> reclaims cutoff w2 w3 -> reclaims cutoff w1 w3.
Proof.
  intros [N1 T1 V1 B1] [N2 T2 V2 B2]. split; [by eauto| |by eauto|].
  - intros k Hk Hn. destruct (nodes (db w2) !! k) as [r|] eqn:E2; [|by apply T1].
    destruct (T2 k) as (a & ra & Hb & Ha & He); [by exists r|done|]. exists a, ra. split_and!; eauto.
    unfold below in *. eapply rtc_congruence with (f := fun z => z); [|exact Hb].
    intros x y (rx & Hx & Hp). exists rx. eauto.
  - intros k f row Hf Hb. destruct (B1 k f row (V2 _ _ Hf) Hb) as [Hb2 E2].
    destruct (B2 k f row Hf Hb2) as [Hb3 E3]. split; [done|]. by rewrite E3.
Qed.

#[local] Instance gc_step_preorder cutoff : PreOrder (gc_step cutoff).
Proof.
  split; [intros w Hs; split; [done|apply reclaims_refl]|].
  intros w1 w2 w3 H12 H23 Hs. destruct (H12 Hs) as [Hs2 R12]. destruct (H23 Hs2) as [Hs3 R23].
  split; [done|]. by eapply reclaims_trans.
Qed.

(** A statement on tables the invariants do not mention. *)
Lemma gc_step_frame cutoff w d :
  nodes d = nodes (db w) -> file_versions d = file_versions (db w) -> blobs d = blobs (db w) ->
  upload_sessions d = upload_sessions (db w) -> upload_chunks d = upload_chunks (db w) ->
  sync_changes d = sync_changes (db w) -> sync_sequence d = sync_sequence (db w) ->
  gc_step cutoff w (set_db d w).
Proof.
  intros En Ef Eb Es Ec El Eq [Hst [Hfo Hre Hfe]]. split; [split|].
  - destruct Hst as [S1 S2 S3]. split; simpl.
    + rewrite Es. apply S1.
    + rewrite Ec. intros u n c Hc. destruct (S2 _ _ _ Hc) as (r & Hr & Hrest). exists r. simpl. by rewrite Es.
    + rewrite Eb. apply S3.
  - split; simpl; rewrite ?En, ?Eq; try done. unfold feed_ok. by rewrite El, Eq.
  - split; simpl; rewrite ?En, ?Ef, ?Eb; try done. intros k [r Hr] Hn. congruence.
Qed.

Lemma stays_on_db cutoff {A} (m : M DB A) :
  (forall w, gc_step cutoff w (set_db (m (db w)).2 w)) -> stays (gc_step cutoff) (on_db m).
Proof. intros H w. specialize (H w). unfold on_db. by destruct (m (db w)). Qed.

(** ** Removing rows and files *)

(** Fewer versions, sessions without their chunks, and fewer files, none of
    them in use. *)
Lemma sound_shrink w w' :
  sound w -> vault_ok (db w') ->
  (forall b row, blobs (db w') !! b = Some row -> blobs (db w) !! b = Some row) ->
  (forall u r, upload_sessions (db w') !! u = Some r -> upload_sessions (db w) !! u = Some r) ->
  (forall u n c, upload_chunks (db w') !! (u, n) = Some c -> upload_chunks (db w) !! (u, n) = Some c /\
     is_Some (upload_sessions (db w') !! u)) ->
  (forall b row, blobs (db w') !! b = Some row -> files w' !! blobRelPath b = files w !! blobRelPath b) ->
  (forall u n c, upload_chunks (db w') !! (u, n) = Some c -> files w' !! chunkPath u n = files w !! chunkPath u n) ->
  sound w'.
Proof.
  intros [[S1 S2 S3] _] Hv Hb Hs Hc Fb Fc. split; [split|done].
  - intros u r Hr. by apply S1, Hs.
  - intros u n c Hn. destruct (Hc _ _ _ Hn) as [Hn0 [r Hr]]. destruct (S2 _ _ _ Hn0) as (r0 & Hr0 & Hbd & Hp & Hsz & Ho).
    exists r. pose proof (Hs _ _ Hr). simplify_eq. split_and!; try done; [lia..|].
    intros Hopen. eapply stored_frame; [|by apply Ho]. by eapply Fc.
  - intros b row Hr. destruct (S3 _ _ (Hb _ _ Hr)) as (Hv' & Hp & Hst). split_and!; try done.
    eapply stored_frame; [|done]. by eapply Fb.
Qed.

Lemma vault_ok_same d d' : nodes d' = nodes d -> sync_changes d' = sync_changes d ->
  sync_sequence d' = sync_sequence d -> vault_ok d -> vault_ok d'.
Proof. intros En El Eq [Hf Hr Hq]. split; rewrite ?En, ?Eq; try done. unfold feed_ok. by rewrite El, Eq. Qed.

Lemma vault_ok_purged id cutoff now d : vault_ok d ->
  (feed_ok d -> feed_ok (purged_db (trash_subtree id cutoff d) now d)) ->
  vault_ok (purged_db (trash_subtree id cutoff d) now d).
Proof.
  intros [Hf Hr Hq] Hfeed. split; [| |by apply Hfeed].
  - simpl. apply forest_delete; [done|]. intros k r p0 Hk Hp Hin%bool_decide_eq_true_1.
    apply bool_decide_eq_true_2. eapply trash_subtree_closed; [apply Hf|done..].
  - intros k r Hk. simpl in Hk. apply lookup_delete_rows in Hk as [Hk _]. specialize (Hr _ _ Hk). simpl. lia.
Qed.

Lemma purgeSubtree_step id cutoff now : stays (gc_step cutoff) (purgeSubtree id cutoff now).
Proof.
  intros w Hs. destruct (purgeSubtree id cutoff now w) as [r w'] eqn:E. simpl.
  pose proof (vault_forest _ (sound_vault _ Hs)) as [_ Hpar].
  apply (purgeSubtree_outcome id cutoff now w r w' Hpar) in E as [(e & _ & ->)|(ups & _ & Hups & Hdb & Hfeed & Hfiles)];
    [split; [done|apply reclaims_refl]|].
  set (ids := trash_subtree id cutoff (db w)) in *.
  assert (Hup : forall u s, upload_sessions (db w) !! u = Some s -> targets (in_list ids) s = false ->
    forall n, chunk_no n -> existsb (fun u0 => in_dir (uploadDir u0) (chunkPath u n)) ups = false).
  { intros u s0 Hu Ht n Hn. apply not_true_iff_false. intros (u0 & Hin & Hd)%existsb_exists.
    unfold subtree_uploads in Hups. destruct (all_uuids _) in Hups; [|done]. injection Hups as <-.
    apply list_elem_of_In, list_elem_of_fmap in Hin as ([u1 s1] & -> & [Hu1 Ht1]%elem_of_select_rows). simpl in *.
    assert (validUUID u1 = true) by apply (st_sessions _ (sound_storage _ Hs) _ _ Hu1).
    assert (validUUID u = true) by apply (st_sessions _ (sound_storage _ Hs) _ _ Hu).
    apply in_dir_chunk in Hd as ->; [|done..]. congruence. }
  assert (Hblob : forall b, existsb (fun u0 => in_dir (uploadDir u0) (blobRelPath b)) ups = false).
  { intros b. apply not_true_iff_false. by intros (u0 & _ & Hd)%existsb_exists. }
  split.
  - apply (sound_shrink w w'); [done| |..]; rewrite ?Hdb.
    + rewrite Hdb in Hfeed. apply vault_ok_purged; [apply Hs|exact Hfeed].
    + done.
    + intros u r0 Hu. simpl in Hu. by apply lookup_delete_rows in Hu as [Hu _].
    + intros u n c Hc. simpl in *. apply lookup_delete_rows in Hc as [Hc Ht]. split; [done|].
      destruct (st_chunks _ (sound_storage _ Hs) _ _ _ Hc) as (r0 & Hr0 & _). exists r0.
      apply lookup_delete_rows. split; [done|]. unfold upload_in in Ht. simpl in Ht. by rewrite Hr0 in Ht.
    + intros b row Hb. by rewrite Hfiles, Hblob.
    + intros u n c Hc. rewrite Hfiles. simpl in Hc. apply lookup_delete_rows in Hc as [Hc Ht].
      destruct (st_chunks _ (sound_storage _ Hs) _ _ _ Hc) as (r0 & Hr0 & _).
      destruct (chunk_wf_no _ _ _ _ (sound_storage _ Hs) Hc) as [_ Hn].
      unfold upload_in in Ht. simpl in Ht. rewrite Hr0 in Ht. by rewrite (Hup u r0 Hr0 Ht n Hn).
  - split; rewrite ?Hdb; simpl.
    + intros k r0 Hk. by apply lookup_delete_rows in Hk as [Hk _].
    + intros k [r0 Hk] Hn. assert (Hin : k ∈ ids).
      { destruct (in_list ids k) eqn:Ei; [by apply bool_decide_eq_true_1 in Ei|]. exfalso.
        assert (Hk' : delete_rows (fun k _ => in_list ids k) (nodes (db w)) !! k = Some r0) by by apply lookup_delete_rows.
        congruence. }
      unfold ids, trash_subtree in Hin. destruct (nodes (db w) !! id) as [ra|] eqn:Ea; [|by apply not_elem_of_nil in Hin].
      destruct (expired_trash cutoff ra) eqn:Ee; [|by apply not_elem_of_nil in Hin].
      exists id, ra. split_and!; try done. apply (trash_subtree_spec id cutoff (db w) ra Hpar Ea Ee).
      unfold trash_subtree. by rewrite Ea, Ee.
    + intros k f Hk. by apply lookup_delete_rows in Hk as [Hk _].
    + intros k f row _ Hb. split; [done|]. destruct (st_blobs _ (sound_storage _ Hs) _ _ Hb) as (_ & -> & _).
      by rewrite Hfiles, Hblob.
Qed.

(** ** Expired uploads *)

Definition without_upload (id : string) (w : World) : World :=
  MkWorld (upd_upload_sessions (delete id) (upd_upload_chunks (delete_rows (fun k _ => String.eqb k.1 id)) (db w)))
    (delete_rows (fun path _ => in_dir (uploadDir id) path) (files w)) (dirs w ∖ {[ uploadDir id ]}).

Lemma delete_rows_expired id at_ d s : upload_sessions d !! id = Some s ->
  delete_rows (fun k r => String.eqb k id && String.eqb (us_status r) "EXPIRED")
    (upload_sessions (update_session id (set_status "EXPIRED" at_) d)) = delete id (upload_sessions d).
Proof.
  intros Hs. apply map_eq. intros k. apply option_eq. intros x. rewrite lookup_delete_rows.
  unfold update_session. rewrite Hs. simpl. destruct (decide (k = id)) as [->|Hne].
  - rewrite lookup_insert_eq, lookup_delete_eq, String.eqb_refl. simpl. split; [|done]. by intros [[= <-] ?].
  - rewrite lookup_insert_ne, lookup_delete_ne by congruence. rewrite (proj2 (String.eqb_neq _ _) Hne). naive_solver.
Qed.

Lemma cleanup_upload_outcome at_ id w : exists r, cleanup_upload at_ id w = (r, w) \/
  (is_Some (upload_sessions (db w) !! id) /\ cleanup_upload at_ id w = (r, without_upload id w)).
Proof.
  unfold cleanup_upload. destruct (upload_sessions (db w) !! id) as [s|] eqn:Es.
  2:{ exists (Ok false). left. unfold mbind, M_bind, on_db, expire_session. rewrite Es. by destruct w. }
  destruct (abandoned at_ s) eqn:Ea.
  2:{ exists (Ok false). left. unfold mbind, M_bind, on_db, expire_session. rewrite Es, Ea. by destruct w. }
  exists (Ok true). right. split; [eauto|].
  set (d1 := update_session id (set_status "EXPIRED" (us_completed_at s)) (db w)).
  rewrite (bind_ok _ _ _ true (set_db d1 w)) by (unfold on_db, expire_session; by rewrite Es, Ea).
  set (w2 := MkWorld d1 (delete_rows (fun path _ => in_dir (uploadDir id) path) (files w)) (dirs w ∖ {[ uploadDir id ]})).
  rewrite (bind_ok _ _ _ tt w2) by done.
  assert (E : tx (delete_expired_session id) d1 =
    (Ok tt, upd_upload_sessions (delete_rows (fun k r => String.eqb k id && String.eqb (us_status r) "EXPIRED"))
              (upd_upload_chunks (delete_rows (fun k _ => String.eqb k.1 id)) d1))).
  { unfold tx, delete_expired_session. rewrite (bind_ok _ _ _ tt (upd_upload_chunks (delete_rows (fun k _ => String.eqb k.1 id)) d1)) by done.
    unfold exec, delete_upload_sessions. rewrite (proj2 (exists_row_false _ _)); [done|]. intros [u n] c Hk.
    simpl in Hk. apply lookup_delete_rows in Hk as [_ Hk]. simpl in *. rewrite Hk. by case_match. }
  rewrite (bind_ok _ _ _ tt (set_db (upd_upload_sessions (delete id) (upd_upload_chunks (delete_rows (fun k _ => String.eqb k.1 id)) (db w))) w2)).
  { done. }
  unfold on_db. cbn [db w2]. rewrite E. pose proof (delete_rows_expired id (us_completed_at s) (db w) s Es) as Hd.
  fold d1 in Hd. unfold set_db, upd_upload_sessions, upd_upload_chunks.
  cbn [users devices refresh_tokens access_tokens vault_key_envelopes nodes blobs file_versions sync_changes sync_sequence
    processed_operations upload_sessions upload_chunks shares share_device_envelopes favorites gc_blob_candidates
    gc_orphan_blob_files recovery_bundles folder_keys files dirs w2]. rewrite Hd.
  unfold d1, update_session. rewrite Es. reflexivity.
Qed.

Lemma cleanup_upload_step cutoff at_ id : stays (gc_step cutoff) (cleanup_upload at_ id).
Proof.
  intros w Hs. destruct (cleanup_upload_outcome at_ id w) as (r & [->|[[s Hid] ->]]); simpl.
  { split; [done|apply reclaims_refl]. }
  assert (Hv : validUUID id = true) by apply (st_sessions _ (sound_storage _ Hs) _ _ Hid).
  assert (Hfiles : forall path, in_dir (uploadDir id) path = false -> files (without_upload id w) !! path = files w !! path).
  { intros path Hp. apply option_eq. intros x. simpl. rewrite lookup_delete_rows. tauto. }
  split.
  - apply (sound_shrink w); [done| |..]; simpl.
    + by apply (vault_ok_same (db w)), Hs.
    + done.
    + intros u r0 Hu. by apply lookup_delete_Some in Hu as [_ Hu].
    + intros u n c Hc. apply lookup_delete_rows in Hc as [Hc Hne%String.eqb_neq]. simpl in Hne. split; [done|].
      destruct (st_chunks _ (sound_storage _ Hs) _ _ _ Hc) as (r0 & Hr0 & _). exists r0. by rewrite lookup_delete_ne.
    + intros b row _. apply Hfiles, in_dir_blob.
    + intros u n c Hc. apply lookup_delete_rows in Hc as [Hc Hne%String.eqb_neq]. simpl in Hne. apply Hfiles.
      apply not_true_iff_false. intros Hin. destruct (chunk_wf_no _ _ _ _ (sound_storage _ Hs) Hc) as [Hu _].
      apply in_dir_chunk in Hin; [congruence|done..].
  - split; simpl; try done.
    + intros k [r0 Hk] Hn. congruence.
    + intros k f row _ Hb. split; [done|]. destruct (st_blobs _ (sound_storage _ Hs) _ _ Hb) as (_ & -> & _).
      apply Hfiles, in_dir_blob.
Qed.

(** ** Versions and ciphertext *)

Context (p : Policy).

Lemma pruneFileVersions_step cutoff now : stays (gc_step cutoff) (on_db (pruneFileVersions p now)).
Proof.
  apply stays_on_db. intros w Hs. unfold pruneFileVersions, count_delete. simpl. split.
  - apply (sound_shrink w); [done| |..]; simpl; try done.
    + by apply (vault_ok_same (db w)), Hs.
    + intros u n c Hc. split; [done|]. destruct (st_chunks _ (sound_storage _ Hs) _ _ _ Hc) as (r0 & Hr0 & _). eauto.
  - split; simpl; try done.
    + intros k [r Hr] Hn. congruence.
    + intros k f Hk. by apply lookup_delete_rows in Hk as [Hk _].
Qed.

Lemma referenced_false d b : referenced d b = false <-> forall k f, file_versions d !! k = Some f -> fv_blob_id f <> b.
Proof.
  unfold referenced. rewrite exists_row_false. split; intros H k f Hk; specialize (H k f Hk); by apply String.eqb_neq.
Qed.

(** The transaction drops an unreferenced blob and its candidate, or changes
    the candidate only. *)
Lemma delete_blob_outcome id d :
  delete_blob id d = (Ok (has (blobs d) id && negb (referenced d id)),
    upd_blobs (if referenced d id then fun m => m else delete id) (upd_gc_blob_candidates (delete id) d)).
Proof.
  assert (Ec : forall m : gmap string string, delete_rows (fun k _ => String.eqb k id) m = delete id m).
  { intros m. apply map_eq. intros k. apply option_eq. intros x. rewrite lookup_delete_rows, lookup_delete_Some, String.eqb_neq.
    naive_solver. }
  assert (Eb : forall m : gmap string blob_row, delete_rows (fun k _ => String.eqb k id && negb (referenced d id)) m =
    (if referenced d id then m else delete id m)).
  { intros m. destruct (referenced d id); apply map_eq; intros k; apply option_eq; intros x; rewrite lookup_delete_rows.
    - simpl. rewrite andb_false_r. naive_solver.
    - simpl. rewrite andb_true_r, lookup_delete_Some, String.eqb_neq. naive_solver. }
  unfold delete_blob, tx, delete_blobs. rewrite count_rows_pos, exists_row_key by (intros; apply String.eqb_eq).
  cbn [blobs upd_gc_blob_candidates file_versions gc_blob_candidates].
  rewrite !(proj2 (exists_row_false _ _)).
  - cbn [orb]. change (referenced (upd_gc_blob_candidates _ d) id) with (referenced d id).
    f_equal. unfold upd_gc_blob_candidates, upd_blobs. cbn [users devices refresh_tokens access_tokens vault_key_envelopes nodes
      blobs file_versions sync_changes sync_sequence processed_operations upload_sessions upload_chunks shares
      share_device_envelopes favorites gc_blob_candidates gc_orphan_blob_files recovery_bundles folder_keys].
    rewrite Ec. change (referenced (MkDB _ _ _ _ _ _ _ _ _ _ _ _ _ _ _ _ _ _ _ _) id) with (referenced d id).
    rewrite Eb. by destruct (referenced d id).
  - intros k m Hk. apply lookup_delete_rows in Hk as [_ Hk]. destruct (blobs d !! k); [|done]. by rewrite Hk.
  - intros k f Hk. destruct (blobs d !! fv_blob_id f); [|done]. destruct (String.eqb_spec (fv_blob_id f) id) as [<-|]; [|done].
    apply andb_false_intro2, negb_false_iff. apply exists_row_true. exists k, f. by rewrite String.eqb_refl.
Qed.

Lemma collect_blob_step cutoff b : validUUID b = true -> stays (gc_step cutoff) (collect_blob (b, blobRelPath b)).
Proof.
  intros Hv w Hs. unfold collect_blob, mbind, M_bind, on_db. simpl. rewrite delete_blob_outcome.
  destruct (has (blobs (db w)) b && negb (referenced (db w) b)) eqn:E.
  - apply andb_prop in E as [_ E%negb_true_iff]. rewrite E. pose proof (proj1 (referenced_false _ _) E) as Hun.
    assert (Hne : forall b' row, blobs (db w) !! b' = Some row -> b' <> b -> blobRelPath b' <> blobRelPath b).
    { intros b' row Hb Hn Heq. apply Hn. apply blobRelPath_inj; [|done|done]. apply (st_blobs _ (sound_storage _ Hs) _ _ Hb). }
    simpl. split.
    + apply (sound_shrink w); [done| |..]; simpl; try done.
      * by apply (vault_ok_same (db w)), Hs.
      * intros b' row Hb. by apply lookup_delete_Some in Hb as [_ Hb].
      * intros u n c Hc. split; [done|]. destruct (st_chunks _ (sound_storage _ Hs) _ _ _ Hc) as (r0 & Hr0 & _). eauto.
      * intros b' row Hb. apply lookup_delete_Some in Hb as [Hn Hb]. rewrite lookup_delete_ne; [done|].
        intros Heq. by apply (Hne b' row Hb).
      * intros u n c _. rewrite lookup_delete_ne; [done|]. intros Heq. apply (blob_not_chunk b u n "").
        by rewrite string_app_nil_r.
    + split; simpl; try done.
      * intros k [r Hr] Hn. congruence.
      * intros k f row Hf Hb. pose proof (Hun _ _ Hf) as Hn. rewrite lookup_delete_ne by congruence. split; [done|].
        destruct (st_blobs _ (sound_storage _ Hs) _ _ Hb) as (_ & -> & _). rewrite lookup_delete_ne; [done|].
        intros Heq. by apply (Hne (fv_blob_id f) row Hb).
  - assert (Eb : (if referenced (db w) b then fun m => m else delete b) (blobs (db w)) = blobs (db w)).
    { destruct (referenced (db w) b); [done|]. simpl in E. rewrite andb_true_r in E. unfold has in E.
      apply delete_id. by destruct (blobs (db w) !! b). }
    simpl. apply gc_step_frame; [done|done|exact Eb|done..].
Qed.

(** Candidates of a sound storage name their own file. *)
Lemma eligible_blobs_own cutoff w l : storage_ok w -> eligible_blobs cutoff (db w) = Ok l ->
  Forall (fun c => validUUID c.1 = true /\ c.2 = blobRelPath c.1 /\ referenced (db w) c.1 = false /\
    exists marked, gc_blob_candidates (db w) !! c.1 = Some marked /\ text_le marked cutoff = true) l.
Proof.
  unfold eligible_blobs. intros Hok H. destruct (forallb _ _) in H; [|done]. injection H as <-.
  apply Forall_fmap, Forall_forall. intros [b m] [Hm Hb]%elem_of_select_rows. simpl.
  apply andb_prop in Hb as [[Hle Hb]%andb_prop Href%negb_true_iff]. unfold has in Hb.
  destruct (blobs (db w) !! b) as [row|] eqn:Eb; [|done]. destruct (st_blobs _ Hok _ _ Eb) as (Hv & Hp & _).
  split_and!; [done|done|done|by exists m].
Qed.

Lemma stays_mcount_Forall {A} (R : relation World) `{!PreOrder R} (f : A -> M World bool) l :
  Forall (fun x => stays R (f x)) l -> stays R (mcount f l).
Proof.
  induction 1 as [|x l Hx _ IH]; simpl; [by apply stays_ret|].
  apply stays_bind; [done|done|intros b]. apply stays_bind; [done|done|intros n]. by apply stays_ret.
Qed.

Lemma collectUnreferencedBlobs_step cutoff now : stays (gc_step cutoff) (collectUnreferencedBlobs p now).
Proof.
  unfold collectUnreferencedBlobs. apply stays_bind; [exact _| |intros _].
  { apply stays_on_db. intros w. by apply gc_step_frame. }
  apply stays_bind; [exact _| |intros _].
  { apply stays_on_db. intros w. by apply gc_step_frame. }
  intros w Hs. unfold mbind, M_bind, db_query, query. destruct (eligible_blobs _ (db w)) as [l|e] eqn:E;
    [|split; [done|apply reclaims_refl]].
  apply eligible_blobs_own in E; [|apply Hs]. apply (stays_mcount_Forall (gc_step cutoff)); [|done].
  eapply Forall_impl; [exact E|]. intros [b path] (Hv & Hp & _). simpl in *. subst path. by apply collect_blob_step.
Qed.

(** ** Orphan files *)

Lemma recorded_path_false path d : recorded_path path d = false <->
  forall b row, blobs d !! b = Some row -> blob_storage_rel_path row <> path.
Proof.
  unfold recorded_path. rewrite exists_row_false. split; intros H b row Hb; specialize (H b row Hb); by apply String.eqb_neq.
Qed.

Lemma collect_file_step cutoff path : safeBlobPath path = true -> stays (gc_step cutoff) (collect_file path).
Proof.
  intros Hsafe w Hs. unfold collect_file, mbind, M_bind, db_query, query, on_db, modify. simpl.
  destruct (recorded_path path (db w)) eqn:E; simpl; [by apply gc_step_frame|].
  pose proof (proj1 (recorded_path_false _ _) E) as Hun. unfold safeBlobPath in Hsafe.
  apply andb_prop in Hsafe as [[[Hpre _]%andb_prop _]%andb_prop _].
  assert (Hblob : forall b row, blobs (db w) !! b = Some row -> path <> blobRelPath b).
  { intros b row Hb ->. destruct (st_blobs _ (sound_storage _ Hs) _ _ Hb) as (_ & Hp & _). by apply (Hun b row Hb). }
  split.
  - apply (sound_shrink w); [done| |..]; simpl; try done.
    + by apply (vault_ok_same (db w)), Hs.
    + intros u n c Hc. split; [done|]. destruct (st_chunks _ (sound_storage _ Hs) _ _ _ Hc) as (r0 & Hr0 & _). eauto.
    + intros b row Hb. apply lookup_delete_ne. by eapply Hblob.
    + intros u n c _. apply lookup_delete_ne. intros ->. by vm_compute in Hpre.
  - split; simpl; try done.
    + intros k [r Hr] Hn. congruence.
    + intros k f row Hf Hb. split; [done|]. apply lookup_delete_ne. intros ->. by apply (Hun _ _ Hb).
Qed.

Lemma mark_files_frame now paths d : exists d', mark_files now paths d = (Ok tt, d') /\
  nodes d' = nodes d /\ file_versions d' = file_versions d /\ blobs d' = blobs d /\
  upload_sessions d' = upload_sessions d /\ upload_chunks d' = upload_chunks d /\
  sync_changes d' = sync_changes d /\ sync_sequence d' = sync_sequence d /\
  gc_blob_candidates d' = gc_blob_candidates d.
Proof.
  revert d; induction paths as [|path paths IH]; intros d; [by exists d|]. cbn [mark_files].
  erewrite (bind_ok _ _ _ tt) by reflexivity.
  match goal with |- context [mark_files now paths ?d1] => destruct (IH d1) as (d' & -> & H) end.
  exists d'. split; [done|]. destruct (negb (HasSuffix path ".hbxblob") || negb (safeBlobPath path)); [done|].
  destruct (recorded_path path d); [done|]. by destruct (gc_orphan_blob_files d !! path).
Qed.

Lemma collectOrphanBlobFiles_step cutoff now : stays (gc_step cutoff) (collectOrphanBlobFiles p now).
Proof.
  unfold collectOrphanBlobFiles. apply stays_bind; [exact _|apply stays_query; exact _|intros entries].
  apply stays_bind; [exact _| |intros _].
  { apply stays_on_db. intros w. destruct (mark_files_frame now entries (db w)) as (d' & -> & Hd). simpl.
    apply gc_step_frame; apply Hd. }
  intros w Hs. unfold mbind, M_bind, db_query, query, eligible_files. destruct (forallb safeBlobPath _) eqn:E;
    [|split; [done|apply reclaims_refl]].
  apply (stays_mcount_Forall (gc_step cutoff)); [|done]. apply Forall_forall. intros path Hp. apply collect_file_step.
  rewrite forallb_forall in E. by apply E, list_elem_of_In.
Qed.

(** ** One pass *)

Lemma cleanupExpired_step cutoff now : stays (gc_step cutoff) (on_db (cleanupExpired now)).
Proof. apply stays_on_db. intros w. by apply gc_step_frame. Qed.

Lemma cleanupExpiredUploads_step cutoff now : stays (gc_step cutoff) (cleanupExpiredUploads now).
Proof.
  unfold cleanupExpiredUploads. apply stays_bind; [exact _|apply stays_query; exact _|intros ids].
  apply stays_mcount; [exact _|intros id]. apply cleanup_upload_step.
Qed.

Lemma cleanupExpiredTrash_step now :
  stays (gc_step (Format (now - TrashRetention p))) (cleanupExpiredTrash p now).
Proof.
  unfold cleanupExpiredTrash. apply stays_bind; [exact _|apply stays_query; exact _|intros rows].
  apply stays_mcount; [exact _|intros id]. apply purgeSubtree_step.
Qed.

Lemma Run_step clk : stays (gc_step (Format (clk 0 - TrashRetention p))) (Run p clk).
Proof.
  unfold Run. cbv zeta. apply stays_bind; [exact _|apply cleanupExpired_step|intros e].
  apply stays_bind; [exact _|apply cleanupExpiredUploads_step|intros u].
  apply stays_bind; [exact _|apply cleanupExpiredTrash_step|intros t].
  apply stays_bind; [exact _|apply pruneFileVersions_step|intros v].
  apply stays_bind; [exact _|apply collectUnreferencedBlobs_step|intros b].
  apply stays_bind; [exact _|apply collectOrphanBlobFiles_step|intros f]. destruct e as [[? ?] ?].
  apply stays_ret; exact _.
Qed.

(** C21. Whatever a maintenance pass returns, failing in the middle included,
    it keeps the storage tree, the forest and the feed sound.  It adds and
    changes no node and no file version; every version that stays keeps its
    blob record and its ciphertext; and every node that goes lies in the
    subtree of an entry that had been in Trash for the retention period. *)
Theorem Run_keeps_referenced clk w r w' :
  storage_ok w -> vault_ok (db w) -> Run p clk w = (r, w') ->
  storage_ok w' /\ vault_ok (db w') /\ reclaims (Format (clk 0 - TrashRetention p)) w w'.
Proof.
  intros Hst Hv H. pose proof (Run_step clk w {| sound_storage := Hst; sound_vault := Hv |}) as Hr.
  rewrite H in Hr. destruct Hr as [[Hst' Hv'] Hrc]. done.
Qed.
End safety.
