(* ===== verification/MaintenanceLimits.v ===== *)
(** * Retention limits of internal/maintenance

    What [pruneFileVersions] keeps, and the two passes that collect
    ciphertext. *)

From S2P Require Import Prelude GoText GoTime Uuid Sha256 Schema Fixture Access Nodes NodesSpec NodesCorrect NodesPaging Uploads UploadsStorage UploadsCorrect Maintenance MaintenancePurge MaintenanceCorrect.
Local Open Scope string_scope.
Local Open Scope Z_scope.

(** ** Counting rows *)

Section counting.
Context {K V : Type} `{Countable K}.

Lemma select_rows_NoDup (P : K -> V -> bool) (m : gmap K V) : NoDup (select_rows P m).
Proof. unfold select_rows. apply NoDup_ListNoDup, List.NoDup_filter, NoDup_ListNoDup, NoDup_map_to_list. Qed.

Lemma count_rows_select (P : K -> V -> bool) (m : gmap K V) : count_rows P m = length (select_rows P m).
Proof. done. Qed.

(** Rows that satisfy [P], apart from one, satisfy [Q] in a larger table. *)
Lemma count_rows_but_one (P Q : K -> V -> bool) (m m' : gmap K V) k0 v0 :
  m !! k0 = Some v0 -> P k0 v0 = true ->
  (forall k v, m !! k = Some v -> P k v = true -> k <> k0 -> m' !! k = Some v /\ Q k v = true) ->
  (count_rows P m <= S (count_rows Q m'))%nat.
Proof.
  intros Hk HP HQ. rewrite !count_rows_select.
  assert (Hin : (k0, v0) ∈ select_rows P m) by by apply elem_of_select_rows.
  apply list_elem_of_split in Hin as (l1 & l2 & E). rewrite E, length_app. simpl.
  pose proof (select_rows_NoDup P m) as Hnd. rewrite E in Hnd.
  assert (Hsub : (l1 ++ l2)%list ⊆+ select_rows Q m').
  { apply NoDup_submseteq.
    - apply NoDup_app in Hnd as (H1 & H2 & [_ H3]%NoDup_cons). apply NoDup_app. split_and!; [done| |done]. set_solver.
    - intros [k v] Hin. assert (Hin' : (k, v) ∈ select_rows P m) by (rewrite E; set_solver).
      apply elem_of_select_rows in Hin' as [Hkv HPk]. apply elem_of_select_rows. apply HQ; [done..|]. intros ->.
      assert (v = v0) as -> by congruence. rewrite NoDup_app, NoDup_cons in Hnd. set_solver. }
  apply submseteq_length in Hsub. rewrite length_app in Hsub. lia.
Qed.
End counting.

(** A nonempty list has a least element of a relation total on it. *)
Lemma least_element {A} `{EqDecision A} (lt : A -> A -> Prop) (l : list A) :
  (forall x y, x ∈ l -> y ∈ l -> x <> y -> lt x y \/ lt y x) -> (forall x y z, lt x y -> lt y z -> lt x z) ->
  l <> [] -> exists x, x ∈ l /\ forall y, y ∈ l -> y <> x -> lt x y.
Proof.
  intros Htot Htr. induction l as [|a l IH]; [done|]. intros _. destruct l as [|b l].
  - exists a. split; [set_solver|]. intros y Hy Hne. set_solver.
  - destruct IH as (x & Hx & Hmin); [intros; apply Htot; set_solver|done|].
    destruct (decide (a = x)) as [->|Hne].
    + exists x. split; [set_solver|]. intros y [->|Hy]%elem_of_cons Hny; [done|by apply Hmin].
    + destruct (Htot a x) as [Hax|Hxa]; [set_solver..|done| |].
      * exists a. split; [set_solver|]. intros y [->|Hy]%elem_of_cons Hny; [done|].
        destruct (decide (y = x)) as [->|]; [done|]. eapply Htr; [done|by apply Hmin].
      * exists x. split; [set_solver|]. intros y [->|Hy]%elem_of_cons Hny; [done|by apply Hmin].
Qed.

Section limits.
Context {U : UuidLib} {UL : UuidLaws U} (p : Policy).

(** ** Pruning *)

Lemma newer_irrefl k f : newer k f k f = false.
Proof. unfold newer. by rewrite !text_lt_irrefl, andb_false_r. Qed.

Definition newer_row (x y : string * file_version_row) : Prop := newer y.1 y.2 x.1 x.2 = true.

Lemma newer_iff k' f' k f : newer k' f' k f = true <->
  text_lt (fv_created_at f) (fv_created_at f') = true \/ (fv_created_at f = fv_created_at f' /\ text_lt k k' = true).
Proof. unfold newer. rewrite orb_true_iff, andb_true_iff, String.eqb_eq. done. Qed.

Lemma newer_total x y : x.1 <> y.1 -> newer_row x y \/ newer_row y x.
Proof.
  unfold newer_row. rewrite !newer_iff. intros Hne.
  destruct (text_le_total (fv_created_at x.2) (fv_created_at y.2)) as [[H|H]%text_le_lteq|[H|H]%text_le_lteq]; eauto;
    (destruct (text_le_total x.1 y.1) as [[Hk|Hk]%text_le_lteq|[Hk|Hk]%text_le_lteq]; naive_solver).
Qed.

Lemma newer_trans x y z : newer_row x y -> newer_row y z -> newer_row x z.
Proof.
  unfold newer_row. rewrite !newer_iff. intros [H1|[E1 H1]] [H2|[E2 H2]].
  - left. by eapply text_lt_trans.
  - left. congruence.
  - left. congruence.
  - right. split; [congruence|]. by eapply text_lt_trans.
Qed.

(** Versions of one file other than its current one. *)
Definition old_version (d : DB) (node : string) (k : string) (f : file_version_row) : bool :=
  superseded d k f && String.eqb (fv_node_id f) node.

Lemma pruned_versions now d k f :
  file_versions (pruneFileVersions p now d).2 !! k = Some f <->
  file_versions d !! k = Some f /\ prunable p now d k f = false.
Proof. simpl. apply lookup_delete_rows. Qed.

Lemma prunable_false now d k f : prunable p now d k f = false <-> superseded d k f = false \/
  (older_rank d k f < MaxFileVersions p)%Z /\ text_lt (fv_created_at f) (Format (now - VersionRetention p)) = false.
Proof. unfold prunable. rewrite andb_false_iff, orb_false_iff, Z.leb_gt. done. Qed.

Lemma old_versions_bound now d node :
  let d' := (pruneFileVersions p now d).2 in
  1 <= MaxFileVersions p -> Z.of_nat (count_rows (old_version d node) (file_versions d')) <= MaxFileVersions p - 1.
Proof.
  cbn zeta. intros Hmax. set (d' := (pruneFileVersions p now d).2).
  destruct (select_rows (old_version d node) (file_versions d')) as [|x0 l0] eqn:El.
  { rewrite count_rows_select, El. simpl. lia. }
  destruct (least_element newer_row (select_rows (old_version d node) (file_versions d'))) as ([k f] & Hin & Hmin).
  - intros [k1 f1] [k2 f2] [H1 _]%elem_of_select_rows [H2 _]%elem_of_select_rows Hne. apply newer_total. simpl.
    intros ->. congruence.
  - apply newer_trans.
  - by rewrite El.
  - apply elem_of_select_rows in Hin as [Hk Ho]. pose proof Ho as Ho'.
    apply andb_prop in Ho' as [Hs Hn%String.eqb_eq]. pose proof Hk as Hk'.
    apply pruned_versions in Hk' as [Hk0 Hpr]. apply prunable_false in Hpr as [Hpr|[Hrank _]]; [congruence|].
    assert (Hc : (count_rows (old_version d node) (file_versions d') <=
      S (count_rows (fun k' f' => superseded d k' f' && String.eqb (fv_node_id f') (fv_node_id f) && newer k' f' k f)
           (file_versions d)))%nat).
    { apply (count_rows_but_one _ _ _ _ k f); [done|done|]. intros k1 f1 H1 Ho1 Hne.
      pose proof (proj1 (pruned_versions now d k1 f1) H1) as [H0 _]. split; [done|].
      assert (Hnew : newer_row (k, f) (k1, f1)).
      { apply Hmin; [by apply elem_of_select_rows|]. intros [= -> _]. done. }
      apply andb_prop in Ho1 as [Hs1 Hn1]. rewrite Hs1, Hn, Hn1. exact Hnew. }
    unfold older_rank in Hrank. lia.
Qed.

(** C23. Pruning removes file versions only.  It keeps the current version of
    every file and all versions of a file without a current one; of the
    others it keeps at most MaxFileVersions - 1 per file, none older than the
    retention period; and it removes one within that period only when
    MaxFileVersions - 1 newer old versions of the file exist. *)
Theorem pruneFileVersions_correct now d :
  1 <= MaxFileVersions p ->
  let d' := (pruneFileVersions p now d).2 in
  (forall k f, file_versions d' !! k = Some f -> file_versions d !! k = Some f) /\
  (forall k f n, file_versions d !! k = Some f -> nodes d !! fv_node_id f = Some n ->
     node_current_version_id n = Some k \/ node_current_version_id n = None -> file_versions d' !! k = Some f) /\
  (forall node, Z.of_nat (count_rows (old_version d node) (file_versions d')) <= MaxFileVersions p - 1) /\
  (forall k f, file_versions d' !! k = Some f -> superseded d k f = true ->
     text_le (Format (now - VersionRetention p)) (fv_created_at f) = true) /\
  (forall k f, file_versions d !! k = Some f -> file_versions d' !! k = None ->
     text_le (Format (now - VersionRetention p)) (fv_created_at f) = true ->
     MaxFileVersions p - 1 <= Z.of_nat (count_rows (fun k' f' => old_version d (fv_node_id f) k' f' && newer k' f' k f)
                                          (file_versions d))) /\
  d' = upd_file_versions (fun _ => file_versions d') d.
Proof.
  intros Hmax. cbn zeta. split_and!; [| | | | |done].
  - intros k f Hk. by apply pruned_versions in Hk as [Hk _].
  - intros k f n Hk Hn Hc. apply pruned_versions. split; [done|]. apply prunable_false. left.
    unfold superseded. rewrite Hn. destruct Hc as [->| ->]; [by rewrite String.eqb_refl|done].
  - intros node. by apply old_versions_bound.
  - intros k f Hk Hs. apply pruned_versions in Hk as [_ Hk]. apply prunable_false in Hk as [Hk|[_ Hk]]; [congruence|].
    by rewrite text_le_negb_lt, Hk.
  - intros k f Hk Hnone Hage. destruct (prunable p now d k f) eqn:Ep.
    + unfold prunable in Ep. apply andb_prop in Ep as [_ Ep]. rewrite text_le_negb_lt, negb_true_iff in Hage.
      rewrite Hage, orb_false_r in Ep. unfold older_rank in Ep. unfold old_version. lia.
    + assert (Hk' : file_versions (pruneFileVersions p now d).2 !! k = Some f) by by apply pruned_versions.
      congruence.
Qed.

(** ** The two passes over unreferenced ciphertext *)

(** A blob a pass leaves alone. *)
Definition blob_kept (b : string) (w w' : World) : Prop :=
  blobs (db w') !! b = blobs (db w) !! b /\ gc_blob_candidates (db w') !! b = gc_blob_candidates (db w) !! b.

#[local] Instance blob_kept_preorder b : PreOrder (blob_kept b).
Proof. split; [done|]. intros w1 w2 w3 [H1 H2] [H3 H4]. split; congruence. Qed.

Lemma collect_blob_other b c : b <> c.1 -> stays (blob_kept b) (collect_blob c).
Proof.
  intros Hne w. unfold collect_blob, mbind, M_bind, on_db. rewrite delete_blob_outcome.
  assert (H : blob_kept b w (set_db (upd_blobs (if referenced (db w) c.1 then fun m => m else delete c.1)
    (upd_gc_blob_candidates (delete c.1) (db w))) w)).
  { split; simpl; [|by rewrite lookup_delete_ne]. destruct (referenced (db w) c.1); [done|by rewrite lookup_delete_ne]. }
  by destruct (has (blobs (db w)) c.1 && negb (referenced (db w) c.1)).
Qed.

Definition marked_db (now : Z) (d : DB) : DB := clear_candidates (mark_blobs now d).

Lemma marked_candidate now d b marked : gc_blob_candidates (marked_db now d) !! b = Some marked <->
  is_Some (blobs d !! b) /\ referenced d b = false /\ marked = default (Format now) (gc_blob_candidates d !! b).
Proof.
  unfold marked_db, clear_candidates. simpl. rewrite lookup_delete_rows, orb_false_iff, negb_false_iff.
  change (blobs (mark_blobs now d)) with (blobs d). change (referenced (mark_blobs now d) b) with (referenced d b).
  rewrite has_true. split.
  - intros (Hm & Hb & Hr). split_and!; [done..|]. apply lookup_union_Some_raw in Hm as [->|[-> Hm]]; [done|].
    rewrite lookup_fmap in Hm. destruct (filter _ _ !! b) in Hm; [|done]. by injection Hm.
  - intros (Hb & Hr & ->). split_and!; [|done..]. destruct (gc_blob_candidates d !! b) as [m|] eqn:Em; simpl.
    + by apply lookup_union_Some_l.
    + rewrite lookup_union_r by done. rewrite lookup_fmap. destruct Hb as [row Hb].
      rewrite (proj2 (map_lookup_filter_Some (fun kv => referenced d kv.1 = false) (blobs d) b row)) by done. done.
Qed.

(** The candidates of a pass, and what the loop leaves alone. *)
Lemma collectUnreferencedBlobs_other now w r w' b :
  storage_ok w -> collectUnreferencedBlobs p now w = (r, w') ->
  blob_kept b (set_db (marked_db now (db w)) w) w' \/
  exists marked, gc_blob_candidates (marked_db now (db w)) !! b = Some marked /\
    text_le marked (Format (now - OrphanBlobGrace p)) = true.
Proof.
  intros Hst H. unfold collectUnreferencedBlobs in H.
  rewrite (bind_ok _ _ _ tt (set_db (mark_blobs now (db w)) w)) in H by done.
  rewrite (bind_ok _ _ _ tt (set_db (marked_db now (db w)) w)) in H by done.
  unfold mbind, M_bind, db_query, query in H.
  set (w1 := set_db (marked_db now (db w)) w) in *.
  assert (Hst1 : storage_ok w1) by (destruct Hst as [S1 S2 S3]; split; [exact S1|exact S2|exact S3]).
  destruct (eligible_blobs _ (db w1)) as [l|e] eqn:El; [|injection H as _ <-; by left].
  apply eligible_blobs_own in El; [|done].
  destruct (decide (b ∈ l.*1)) as [Hin|Hout].
  - right. apply list_elem_of_fmap in Hin as (c & -> & Hc). rewrite Forall_forall in El.
    destruct (El c Hc) as (_ & _ & _ & marked & Hm & Hle). by exists marked.
  - left. assert (Hs : stays (blob_kept b) (mcount collect_blob l)).
    { apply (stays_mcount_Forall (blob_kept b)). apply Forall_forall. intros c Hc. apply collect_blob_other.
      intros ->. apply Hout, list_elem_of_fmap. eauto. }
    specialize (Hs w1). by rewrite H in Hs.
Qed.

(** Ciphertext is collected in two passes: a blob record that a pass
    removes was referenced by no file version and had been marked, by an
    earlier pass, for at least the grace period; an unreferenced blob met for
    the first time is only marked. *)
Theorem collectUnreferencedBlobs_waits now w r w' b row :
  storage_ok w -> four_digit_year now -> four_digit_year (now - OrphanBlobGrace p) -> Second <= OrphanBlobGrace p ->
  collectUnreferencedBlobs p now w = (r, w') -> blobs (db w) !! b = Some row ->
  (blobs (db w') !! b = None ->
     referenced (db w) b = false /\
     exists marked, gc_blob_candidates (db w) !! b = Some marked /\
       text_le marked (Format (now - OrphanBlobGrace p)) = true) /\
  (referenced (db w) b = false -> gc_blob_candidates (db w) !! b = None ->
     blobs (db w') !! b = Some row /\ gc_blob_candidates (db w') !! b = Some (Format now)).
Proof.
  intros Hst Hy1 Hy2 Hgrace H Hb. split.
  - intros Hnone. destruct (collectUnreferencedBlobs_other now w r w' b Hst H) as [[E _]|(marked & Hm & Hle)].
    + rewrite Hnone in E. simpl in E. congruence.
    + apply marked_candidate in Hm as (_ & Hr & ->). split; [done|].
      destruct (gc_blob_candidates (db w) !! b) as [m|]; [by exists m|]. simpl in Hle.
      rewrite text_le_negb_lt, Format_lt_second in Hle; [done..|lia].
  - intros Hr Hn. destruct (collectUnreferencedBlobs_other now w r w' b Hst H) as [[E1 E2]|(marked & Hm & Hle)].
    + rewrite E1, E2. split; [done|]. apply marked_candidate. rewrite Hn. eauto.
    + apply marked_candidate in Hm as (_ & _ & ->). rewrite Hn in Hle. simpl in Hle.
      rewrite text_le_negb_lt, Format_lt_second in Hle; [done..|lia].
Qed.
End limits.

(** ** Concrete runs: the published file of UploadsCorrect, two months later *)

Definition policy : Policy := MkPolicy (24 * Hour) (30 * 24 * Hour) 2 (90 * 24 * Hour).
Definition later : nat -> Z := ticking (noon + 60 * 24 * Hour).

Lemma published_storage : storage_ok published.
Proof. exact (upload_handle_storage limits clock new_upload (UComplete id5 finish) chunk1 _ published new_upload_valid chunk1_storage finished). Qed.

Lemma published_vault : vault_ok (db published).
Proof. apply vault_okb_sound. vm_compute. reflexivity. Qed.

Lemma Run_keeps_referenced_witness :
  storage_ok (Run policy later published).2 /\ nodes (db (Run policy later published).2) !! id4 = None /\
  is_valid (files (Run policy later published).2 !! blobRelPath blob1) = true.
Proof.
  split; [|vm_compute; split; reflexivity].
  exact (proj1 (Run_keeps_referenced policy later published _ _ published_storage published_vault (surjective_pairing _))).
Defined.

(** Two older versions of [id3] next to the current one: one is too many. *)
Definition older_version (t : Z) : file_version_row := FileVersion id3 blob1 [] [] alice 1 (Format t) laptop 1.
Definition versions_db : DB :=
  upd_file_versions (fun m => <[op1 := older_version (noon - Hour)]> (<[op2 := older_version (noon - 2 * Hour)]> m)) (db published).

Lemma pruneFileVersions_correct_witness :
  file_versions (pruneFileVersions policy noon versions_db).2 !! op2 = None /\
  is_valid (file_versions (pruneFileVersions policy noon versions_db).2 !! version1) = true /\
  Z.of_nat (count_rows (old_version versions_db id3) (file_versions (pruneFileVersions policy noon versions_db).2))
    <= MaxFileVersions policy - 1.
Proof.
  split; [vm_compute; reflexivity|]. split; [vm_compute; reflexivity|].
  assert (Hmax : 1 <= MaxFileVersions policy) by (vm_compute; discriminate).
  destruct (pruneFileVersions_correct policy noon versions_db Hmax) as (_ & _ & Hb & _). exact (Hb id3).
Defined.

(** Without its versions the blob is marked by the next pass, not removed. *)
Definition dropped : World := set_db (upd_file_versions (fun _ => ∅) (db published)) published.

Lemma storage_ok_versions f w : storage_ok w -> storage_ok (set_db (upd_file_versions f (db w)) w).
Proof. intros [S1 S2 S3]. split; [exact S1|exact S2|exact S3]. Qed.

Lemma dropped_storage : storage_ok dropped.
Proof. exact (storage_ok_versions (fun _ => ∅) published published_storage). Qed.

Lemma collectUnreferencedBlobs_waits_witness :
  gc_blob_candidates (db (collectUnreferencedBlobs policy noon dropped).2) !! blob1 = Some (Format noon) /\
  blobs (db (collectUnreferencedBlobs policy (later 0) (collectUnreferencedBlobs policy noon dropped).2).2) !! blob1 = None.
Proof.
  split; [|vm_compute; reflexivity].
  destruct (blobs (db dropped) !! blob1) as [row|] eqn:Eb; [|vm_compute in Eb; discriminate Eb].
  assert (H1 : four_digit_year noon) by (unfold four_digit_year; vm_compute; split; [discriminate|reflexivity]).
  assert (H2 : four_digit_year (noon - OrphanBlobGrace policy)) by (unfold four_digit_year; vm_compute; split; [discriminate|reflexivity]).
  assert (H3 : Second <= OrphanBlobGrace policy) by (vm_compute; discriminate).
  destruct (collectUnreferencedBlobs_waits policy noon dropped _ _ blob1 row dropped_storage H1 H2 H3 (surjective_pairing _) Eb)
    as [_ H].
  apply H; vm_compute; reflexivity.
Defined.
