(* ===== verification/DeviceAuth.v ===== *)
(** * Statements signed by an account identity (internal/deviceauth)

    [certificate.go]: the bytes an account's Ed25519 identity signs for a
    device key and for a recovery bundle.  [crypto/ed25519]'s check of a
    signature is the interface [Ed25519]; everything around it is modelled. *)

From S2P Require Import Prelude GoText GoTime Uuid Sha256 Schema Fixture.
From Stdlib Require Import String.
Local Open Scope string_scope.
Local Open Scope Z_scope.

(** [ed25519.Verify(publicKey, message, sig)]. *)
Class Ed25519 : Type := { ed25519_Verify : list byte -> list byte -> list byte -> bool }.

Definition PublicKeySize : nat := 32.
Definition SignatureSize : nat := 64.

Definition SignatureVersion : Z := 1.

Definition ErrInvalidCertificate : error := Internal "invalid device key certificate".
Definition ErrInvalidSignature : error := Internal "invalid account identity signature".

(** [binary.BigEndian.PutUint16] and [PutUint32]. *)
Definition uint16_bytes (v : Z) : list byte := [Z_byte (Z.shiftr v 8); Z_byte v].
Definition uint32_bytes (v : Z) : list byte := word_bytes v.

Section deviceauth.
Context {U : UuidLib} {E : Ed25519}.

Definition Statement (userID deviceID : string) (keyVersion : Z) (devicePublicKey : list byte) : result (list byte) :=
  if (keyVersion <? 1) || (4294967295 <? keyVersion) || negb (Nat.eqb (List.length devicePublicKey) 32)
  then Err ErrInvalidCertificate
  else match uuid_parse userID with
       | None => Err ErrInvalidCertificate
       | Some userUUID =>
           match uuid_parse deviceID with
           | None => Err ErrInvalidCertificate
           | Some deviceUUID =>
               Ok (list_byte_of_string "HBXDS" ++ uint16_bytes SignatureVersion ++ uuid_bytes userUUID
                   ++ uuid_bytes deviceUUID ++ uint32_bytes keyVersion ++ devicePublicKey)%list
           end
       end.

Definition bad_lengths (accountPublicKey signature : list byte) : bool :=
  negb (Nat.eqb (List.length accountPublicKey) PublicKeySize) || negb (Nat.eqb (List.length signature) SignatureSize).

Definition Verify (accountPublicKey signature : list byte) (userID deviceID : string) (keyVersion : Z)
    (devicePublicKey : list byte) : result unit :=
  if bad_lengths accountPublicKey signature then Err ErrInvalidCertificate
  else match Statement userID deviceID keyVersion devicePublicKey with
       | Ok statement => if ed25519_Verify accountPublicKey statement signature then Ok tt else Err ErrInvalidCertificate
       | Err _ => Err ErrInvalidCertificate
       end.

Definition RecoveryBundleStatement (userID : string) (bundle : list byte) : result (list byte) :=
  match uuid_parse userID with
  | None => Err ErrInvalidSignature
  | Some userUUID =>
      if Nat.eqb (List.length bundle) 0 then Err ErrInvalidSignature
      else Ok (list_byte_of_string "HBXRB" ++ uint16_bytes SignatureVersion ++ uuid_bytes userUUID ++ Sum256 bundle)%list
  end.

Definition VerifyRecoveryBundle (accountPublicKey signature : list byte) (userID : string) (bundle : list byte)
    : result unit :=
  if bad_lengths accountPublicKey signature then Err ErrInvalidSignature
  else match RecoveryBundleStatement userID bundle with
       | Ok statement => if ed25519_Verify accountPublicKey statement signature then Ok tt else Err ErrInvalidSignature
       | Err _ => Err ErrInvalidSignature
       end.

(** ** Lemmas *)

Lemma byte_Z_byte z : byte_Z (Z_byte z) = z mod 256.
Proof.
  unfold byte_Z, Z_byte. pose proof (Z.mod_pos_bound z 256 ltac:(lia)) as Hb.
  destruct (Byte.of_N (Z.to_N (z mod 256))) as [b|] eqn:Eb; simpl.
  - apply Byte.to_of_N in Eb. rewrite Eb. lia.
  - apply Byte.of_N_None_iff in Eb. lia.
Qed.

Lemma uint32_bytes_inj v w : 0 <= v < 4294967296 -> 0 <= w < 4294967296 -> uint32_bytes v = uint32_bytes w -> v = w.
Proof.
  intros Hv Hw [= E1 E2 E3 E4]. apply (f_equal byte_Z) in E1, E2, E3, E4. rewrite !byte_Z_byte in *.
  rewrite !Z.shiftr_div_pow2 in * by lia. change (2 ^ 24) with 16777216 in *. change (2 ^ 16) with 65536 in *.
  change (2 ^ 8) with 256 in *. change (2 ^ 0) with 1 in *. rewrite !Z.div_1_r in *.
  pose proof (Z.div_mod v 256 ltac:(lia)). pose proof (Z.div_mod w 256 ltac:(lia)).
  pose proof (Z.div_mod (v / 256) 256 ltac:(lia)). pose proof (Z.div_mod (w / 256) 256 ltac:(lia)).
  pose proof (Z.div_mod (v / 65536) 256 ltac:(lia)). pose proof (Z.div_mod (w / 65536) 256 ltac:(lia)).
  assert (v / 256 / 256 = v / 65536) by (rewrite Z.div_div by lia; done).
  assert (w / 256 / 256 = w / 65536) by (rewrite Z.div_div by lia; done).
  assert (v / 65536 / 256 = v / 16777216) by (rewrite Z.div_div by lia; done).
  assert (w / 65536 / 256 = w / 16777216) by (rewrite Z.div_div by lia; done).
  rewrite (Z.mod_small (v / 16777216) 256), (Z.mod_small (w / 16777216) 256) in E1; [lia|..];
    (split; [apply Z.div_pos; lia|apply Z.div_lt_upper_bound; lia]).
Qed.

Lemma Statement_ok_inv u d v k s : Statement u d v k = Ok s ->
  1 <= v <= 4294967295 /\ List.length k = 32%nat /\ exists uu du, uuid_parse u = Some uu /\ uuid_parse d = Some du /\
    s = (list_byte_of_string "HBXDS" ++ uint16_bytes SignatureVersion ++ uuid_bytes uu
         ++ uuid_bytes du ++ uint32_bytes v ++ k)%list.
Proof.
  unfold Statement. destruct (_ || _) eqn:Eg; [done|].
  apply orb_false_iff in Eg as [[E1 E2]%orb_false_iff E3]. apply Z.ltb_ge in E1, E2. apply negb_false_iff, Nat.eqb_eq in E3.
  destruct (uuid_parse u) as [uu|]; [|done]. destruct (uuid_parse d) as [du|]; [|done]. intros [= <-].
  split; [lia|]. split; [done|]. by exists uu, du.
Qed.

Lemma app_inj_length {A} (a b x y : list A) : List.length a = List.length b -> (a ++ x = b ++ y)%list -> a = b /\ x = y.
Proof. intros Hl. apply app_inj_1. done. Qed.

(** Signed statements are unambiguous: two device statements with the same
    bytes name the same account, device, key version and key, whatever
    spelling of the identifiers was used; and no device statement is a
    recovery-bundle statement. *)
Theorem Statement_unambiguous {UL : UuidLaws U} u d v k u' d' v' k' s :
  Statement u d v k = Ok s ->
  (Statement u' d' v' k' = Ok s -> uuid_parse u = uuid_parse u' /\ uuid_parse d = uuid_parse d' /\ v = v' /\ k = k') /\
  (forall bundle, RecoveryBundleStatement u' bundle <> Ok s).
Proof.
  intros (Hv & Hk & uu & du & Hu & Hd & ->)%Statement_ok_inv. split.
  - intros (Hv' & Hk' & uu' & du' & Hu' & Hd' & E1)%Statement_ok_inv.
    apply app_inj_length in E1 as [_ E1]; [|done]. apply app_inj_length in E1 as [_ E1]; [|done].
    apply app_inj_length in E1 as [Eu E1]; [|by rewrite !uuid_bytes_length].
    apply app_inj_length in E1 as [Ed E1]; [|by rewrite !uuid_bytes_length].
    apply app_inj_length in E1 as [Ev ->]; [|done].
    apply uuid_bytes_inj in Eu as ->. apply uuid_bytes_inj in Ed as ->. apply uint32_bytes_inj in Ev; [|lia..].
    split_and!; congruence.
  - intros bundle. unfold RecoveryBundleStatement. destruct (uuid_parse u') as [uu'|]; [|done].
    destruct (Nat.eqb _ 0); [done|]. done.
Qed.
End deviceauth.

Lemma Statement_unambiguous_witness : exists s, Statement alice laptop 1 (repeat x09 32) = Ok s /\
  (Statement bob laptop 1 (repeat x09 32) = Ok s -> uuid_parse alice = uuid_parse bob /\ uuid_parse laptop = uuid_parse laptop /\
     1 = 1 /\ repeat x09 32 = repeat x09 32) /\
  (forall bundle, RecoveryBundleStatement bob bundle <> Ok s).
Proof.
  destruct (Statement alice laptop 1 (repeat x09 32)) as [s|e] eqn:Es; [|by vm_compute in Es]. exists s. split; [done|].
  apply (Statement_unambiguous alice laptop 1 (repeat x09 32)). exact Es.
Defined.
