(* ===== verification/Provisioning.v ===== *)
(** * Package internal/provisioning

    Models [internal/provisioning/service.go]: the encrypted vault-key
    envelopes a trusted device leaves for another one, with the optional
    certificate in which the account's identity signs the device's key.

    The invariant is [one_identity]: all the active signed envelopes of an
    account carry the same account identity. *)

From S2P Require Import Prelude GoText GoTime Uuid Sha256 Schema Fixture Session DeviceAuth.
Local Open Scope string_scope.

Record Certification := MkCertification {
  cert_SignatureVersion : Z;
  cert_AccountPublicKey : list byte;
  cert_DeviceSignature : list byte;
}.

Record Envelope := MkEnvelope {
  envelope_ID : string;
  envelope_VaultID : string;
  envelope_TargetUserID : string;
  envelope_TargetDeviceID : string;
  envelope_KeyVersion : Z;
  envelope_Ciphertext : list byte;
  envelope_CreatedAt : Z;
  envelope_Certification : option Certification;
}.

Definition maxCiphertext : Z := Z.shiftl 1 20.

(** [ORDER BY created_at,id]. *)
Definition oldest_first (a b : string * envelope_row) : bool :=
  text_lt (env_created_at a.2) (env_created_at b.2)
  || String.eqb (env_created_at a.2) (env_created_at b.2) && text_le a.1 b.1.

(** The identity column of the first active signed envelope of an account. *)
Definition active_signed (userID : string) (r : envelope_row) : bool :=
  String.eqb (env_target_user_id r) userID && is_valid (env_signature_version r) && is_null (env_revoked_at r).

Definition envelope_identity (userID : string) (d : DB) : option (option (list byte)) :=
  match order_by oldest_first (select_rows (fun _ r => active_signed userID r) (vault_key_envelopes d)) with
  | [] => None
  | x :: _ => Some (env_account_identity_public_key x.2)
  end.

Section provisioning.
Context {U : UuidLib} {E : Ed25519} {TP : TimeParser} (clk : nat -> Z) (newid : nat -> string).

Definition certificate_valid (c : Certification) (targetUserID targetDeviceID : string) (deviceKeyVersion : Z)
    (devicePublicKey : list byte) : bool :=
  (cert_SignatureVersion c =? SignatureVersion)%Z &&
  is_ok (Verify (cert_AccountPublicKey c) (cert_DeviceSignature c) targetUserID targetDeviceID deviceKeyVersion devicePublicKey).

Definition row_of (e : Envelope) : envelope_row :=
  VaultEnvelope (envelope_VaultID e) (envelope_TargetUserID e) (Some (envelope_TargetDeviceID e)) (envelope_KeyVersion e)
    (envelope_Ciphertext e) (Format (envelope_CreatedAt e)) None
    (cert_SignatureVersion <$> envelope_Certification e)
    (cert_AccountPublicKey <$> envelope_Certification e)
    (cert_DeviceSignature <$> envelope_Certification e).

(** The check of an envelope's certificate against the recorded identity; a
    NULL blob scans to the empty slice. *)
Definition requireIdentity (targetUserID : string) (certification : option Certification) (d : DB) : result unit :=
  match certification with
  | None => Ok tt
  | Some c =>
      match envelope_identity targetUserID d with
      | Some established =>
          if negb (bool_decide (default [] established = cert_AccountPublicKey c))
          then Err (EProvisioning ProvisioningErrIdentityConflict) else Ok tt
      | None => Ok tt
      end
  end.

Definition UploadAuthenticated (vaultID targetUserID targetDeviceID : string) (keyVersion : Z) (ciphertext : list byte)
    (devicePublicKey : list byte) (deviceKeyVersion : Z) (certification : option Certification) : M DB Envelope :=
  throw_if (String.eqb vaultID "" || String.eqb targetUserID "" || String.eqb targetDeviceID "" || (keyVersion <? 1)%Z)
    (NewValidation "vault id, target user id, target device id, and key version are required") ;;
  throw_if (Nat.eqb (length ciphertext) 0 || (maxCiphertext <? Z.of_nat (length ciphertext))%Z)
    (NewValidation "envelope ciphertext is required and must be reasonably sized") ;;
  throw_if (match certification with
            | Some c => negb (certificate_valid c targetUserID targetDeviceID deviceKeyVersion devicePublicKey)
            | None => false
            end)
    (NewValidation "device key certificate is invalid") ;;
  let e := MkEnvelope (newid 0) vaultID targetUserID targetDeviceID keyVersion ciphertext (clk 0) certification in
  tx (
    query (requireIdentity targetUserID certification) ;;
    exec (insert_vault_key_envelopes (envelope_ID e) (row_of e)) ;;
    mret e).

Definition Upload (vaultID targetUserID targetDeviceID : string) (keyVersion : Z) (ciphertext : list byte) : M DB Envelope :=
  UploadAuthenticated vaultID targetUserID targetDeviceID keyVersion ciphertext [] 0 None.

Definition scanCertification (r : envelope_row) : option Certification :=
  (fun v => MkCertification v (default [] (env_account_identity_public_key r)) (default [] (env_device_key_signature r)))
    <$> env_signature_version r.

Definition addressed_to (targetDeviceID : string) (r : envelope_row) : bool :=
  bool_decide (env_target_device_id r = Some targetDeviceID) && is_null (env_revoked_at r).

Definition Latest (targetDeviceID : string) (d : DB) : result Envelope :=
  match order_by (fun a b => oldest_first b a)
          (select_rows (fun _ r => addressed_to targetDeviceID r) (vault_key_envelopes d)) with
  | [] => Err (EProvisioning ProvisioningErrNotFound)
  | (id, r) :: _ =>
      createdAt ← Parse (env_created_at r);
      Ok (MkEnvelope id (env_vault_id r) (env_target_user_id r) targetDeviceID (env_key_version r)
            (env_ciphertext r) createdAt (scanCertification r))
  end.

(** A NULL device does not scan into a string. *)
Fixpoint collect {A} (f : envelope_row -> A) (rows : list (string * envelope_row)) (acc : gmap string A)
    : result (gmap string A) :=
  match rows with
  | [] => Ok acc
  | (_, r) :: rest =>
      match env_target_device_id r with
      | None => Err (Internal "sql: Scan error on column target_device_id")
      | Some deviceID => collect f rest (<[deviceID := f r]> acc)
      end
  end.

Definition LatestCertifications (targetUserID : string) (d : DB) : result (gmap string Certification) :=
  collect (fun r => MkCertification (default 0%Z (env_signature_version r))
                      (default [] (env_account_identity_public_key r)) (default [] (env_device_key_signature r)))
    (order_by oldest_first (select_rows (fun _ r => active_signed targetUserID r) (vault_key_envelopes d))) ∅.

Definition ActiveEnvelopeDeviceIDs (targetUserID : string) (d : DB) : result (gmap string bool) :=
  collect (fun _ => true)
    (select_rows (fun _ r => String.eqb (env_target_user_id r) targetUserID && is_null (env_revoked_at r)
                             && is_valid (env_target_device_id r)) (vault_key_envelopes d)) ∅.
End provisioning.
