(* ===== verification/Recovery.v ===== *)
(** * Package internal/recovery

    Models [internal/recovery/service.go]: the encrypted recovery bundle of an
    account, replaceable only under the identity the server already knows. *)

From S2P Require Import Prelude GoText GoTime Uuid Sha256 Schema Fixture Session DeviceAuth Provisioning.
Local Open Scope string_scope.

Definition MaxBundleSize : nat := Z.to_nat 4096.

Record Bundle := MkBundle {
  bundle_Bundle : list byte;
  bundle_UpdatedAt : Z;
  bundle_UpdatedByDeviceID : string;
}.

Section recovery.
Context {U : UuidLib} {E : Ed25519} {TP : TimeParser} (clk : nat -> Z).

Definition Get (userID : string) (d : DB) : result Bundle :=
  match recovery_bundles d !! userID with
  | None => Err (ERecovery RecoveryErrNotFound)
  | Some r => updatedAt ← Parse (rb_updated_at r); Ok (MkBundle (rb_bundle r) updatedAt (rb_updated_by_device_id r))
  end.

(** [nil] when nothing is recorded (or a recorded envelope has a NULL key). *)
Definition establishedIdentity (userID : string) (d : DB) : option (list byte) :=
  match envelope_identity userID d with
  | Some key => key
  | None => rb_account_identity_public_key <$> recovery_bundles d !! userID
  end.

Definition Put (userID deviceID : string) (bundle accountPublicKey signature : list byte) : M DB unit :=
  throw_if (Nat.eqb (length bundle) 0 || (MaxBundleSize <? length bundle)%nat)
    (NewValidation "recovery bundle is required and must be at most 4096 bytes") ;;
  throw_if (negb (is_ok (VerifyRecoveryBundle accountPublicKey signature userID bundle)))
    (NewValidation "recovery bundle signature is invalid") ;;
  tx (
    expected ← query (fun d => Ok (establishedIdentity userID d));
    throw_if (match expected with Some k => negb (bool_decide (k = accountPublicKey)) | None => false end)
      (ERecovery RecoveryErrIdentityConflict) ;;
    exec (upsert_recovery_bundles userID
      (RecoveryBundle bundle accountPublicKey signature (Format (clk 0)) deviceID))).
End recovery.
