(* ===== verification/IdentityCorrect.v ===== *)
(** * Account identities are pinned (provisioning and recovery together)

    Once an account has an active signed envelope, its identity never changes:
    further certificates and recovery bundles are accepted under that identity
    only ([identity_pinned]).  Envelopes and bundles are read back as they
    were written.  Before the first certificate the recovery bundle alone does
    not pin the identity ([bundle_identity_bypassed]). *)

From S2P Require Import Prelude GoText GoTime Uuid Sha256 Schema Fixture Nodes NodesPaging DeviceAuth Provisioning Recovery.
From Stdlib Require Import String.
Local Open Scope string_scope.

(** Every active signed envelope of the account carries the key [K]. *)
Definition signed_only_by (u : string) (K : list byte) (d : DB) : Prop :=
  forall i r, vault_key_envelopes d !! i = Some r -> active_signed u r = true -> env_account_identity_public_key r = Some K.

(** ... and there is one. *)
Definition has_identity (u : string) (K : list byte) (d : DB) : Prop :=
  signed_only_by u K d /\ exists i r, vault_key_envelopes d !! i = Some r /\ active_signed u r = true.

(** Each account has at most one identity. *)
Definition one_identity (d : DB) : Prop := forall u,
  (forall i r, vault_key_envelopes d !! i = Some r -> active_signed u r = false) \/ exists K, has_identity u K d.

Lemma order_by_nil {A} (le : A -> A -> bool) l : order_by le l = [] -> l = [].
Proof. intros E. pose proof (order_by_perm le l) as Hp. rewrite E in Hp. by apply Permutation_nil_l in Hp. Qed.

Lemma order_by_first {A} (le : A -> A -> bool) l x l' : order_by le l = x :: l' -> x ∈ l.
Proof. intros E. rewrite <- (order_by_perm le l), E. constructor. Qed.

(** A row before every other one comes first. *)
Lemma order_by_minimum {A} (le : A -> A -> bool) l x :
  (forall a b, le a b = true \/ le b a = true) -> (forall a b c, le a b = true -> le b c = true -> le a c = true) ->
  x ∈ l -> (forall y, y ∈ l -> y = x \/ le y x = false) -> exists l', order_by le l = x :: l'.
Proof.
  intros Ht Htr Hx Hmin. pose proof (order_by_sorted le Ht Htr l) as Hs. pose proof (order_by_perm le l) as Hp.
  rewrite <- Hp in Hx. destruct (order_by le l) as [|y l'] eqn:E; [by apply not_elem_of_nil in Hx|].
  exists l'. f_equal. apply order_by_first in E. destruct (Hmin y E) as [->|Hy]; [done|].
  apply elem_of_cons in Hx as [->|Hx]; [done|]. apply StronglySorted_inv in Hs as [_ Hs].
  rewrite Forall_forall in Hs. pose proof (Hs x Hx) as H. cbn in H. by rewrite Hy in H.
Qed.

Definition envelope_key (a : string * envelope_row) : string * string := (env_created_at a.2, a.1).
Lemma oldest_first_key a b : oldest_first a b = key_le (envelope_key a) (envelope_key b).
Proof. done. Qed.

Lemma envelope_identity_None u d : envelope_identity u d = None ->
  forall i r, vault_key_envelopes d !! i = Some r -> active_signed u r = false.
Proof.
  unfold envelope_identity. destruct (order_by _ _) as [|x l] eqn:E; [|done]. intros _ i r Hi.
  apply order_by_nil in E. destruct (active_signed u r) eqn:Ea; [|done].
  assert (Hin : (i, r) ∈ select_rows (fun _ r => active_signed u r) (vault_key_envelopes d)) by by apply elem_of_select_rows.
  rewrite E in Hin. by apply not_elem_of_nil in Hin.
Qed.

Lemma envelope_identity_Some u d k : envelope_identity u d = Some k ->
  exists i r, vault_key_envelopes d !! i = Some r /\ active_signed u r = true /\ env_account_identity_public_key r = k.
Proof.
  unfold envelope_identity. destruct (order_by _ _) as [|[i r] l] eqn:E; [done|]. intros [= <-].
  apply order_by_first, elem_of_select_rows in E as [Hi Ha]. by exists i, r.
Qed.

Lemma has_identity_envelope u K d : has_identity u K d -> envelope_identity u d = Some (Some K).
Proof.
  intros [Ho (i & r & Hi & Ha)]. destruct (envelope_identity u d) as [k|] eqn:E.
  - apply envelope_identity_Some in E as (j & s & Hj & Hs & <-). by rewrite (Ho j s).
  - rewrite (envelope_identity_None _ _ E _ _ Hi) in Ha. done.
Qed.

Lemma has_identity_established u K d : has_identity u K d -> establishedIdentity u d = Some K.
Proof. intros H. unfold establishedIdentity. by rewrite (has_identity_envelope u K d H). Qed.

Section identity.
Context {U : UuidLib} {E : Ed25519} {TP : TimeParser} (clk : nat -> Z) (newid : nat -> string).

Definition certified (c : option Certification) (e : envelope_row) : Prop :=
  env_signature_version e = cert_SignatureVersion <$> c /\ env_account_identity_public_key e = cert_AccountPublicKey <$> c /\
  env_device_key_signature e = cert_DeviceSignature <$> c.

Lemma UploadAuthenticated_ok_inv vid u dev kv ct dpk dkv c d e d' :
  UploadAuthenticated clk newid vid u dev kv ct dpk dkv c d = (Ok e, d') ->
  e = MkEnvelope (newid 0) vid u dev kv ct (clk 0) c /\
  vault_key_envelopes d !! newid 0 = None /\ d' = upd_vault_key_envelopes <[newid 0 := row_of e]> d /\
  requireIdentity u c d = Ok tt /\
  (forall x, c = Some x -> certificate_valid x u dev dkv dpk = true).
Proof.
  unfold UploadAuthenticated. intros H. inv_ok H.
  repeat match goal with H : (mbind _ _) _ = (Ok _, _) |- _ => inv_ok H end.
  match goal with H : insert_vault_key_envelopes _ _ _ = Ok _ |- _ =>
    unfold insert_vault_key_envelopes in H; apply constrained_ok_inv in H as (_ & Hf%fresh_key_true & _ & ->) end.
  subst e. split_and!; try done.
  - by destruct (requireIdentity u c d) as [[]|].
  - intros x ->. match goal with H : negb (certificate_valid _ _ _ _ _) = false |- _ => by apply negb_false_iff in H end.
Qed.

Lemma Put_ok_inv u dev b pk sig d d' :
  Put clk u dev b pk sig d = (Ok tt, d') ->
  VerifyRecoveryBundle pk sig u b = Ok tt /\ (forall k, establishedIdentity u d = Some k -> k = pk) /\
  d' = upd_recovery_bundles <[u := RecoveryBundle b pk sig (Format (clk 0)) dev]> d.
Proof.
  unfold Put. intros H. inv_ok H. unfold upsert_recovery_bundles in H.
  repeat match goal with H : query _ _ = (Ok _, _) |- _ => inv_ok H | H : Ok ?x = Ok ?y |- _ => is_var y; injection H as H; subst y end.
  destruct (negb _) in H; [done|]. injection H as <-. split_and!; [..|done].
  - match goal with H : negb (is_ok _) = false |- _ => apply negb_false_iff in H end.
    by destruct (VerifyRecoveryBundle pk sig u b) as [[]|].
  - intros k Hk. rewrite Hk in *.
    match goal with H : negb (bool_decide _) = false |- _ => by apply negb_false_iff, bool_decide_eq_true_1 in H end.
Qed.

Lemma UploadAuthenticated_rolls_back vid u dev kv ct dpk dkv c :
  rolls_back (UploadAuthenticated clk newid vid u dev kv ct dpk dkv c).
Proof. unfold UploadAuthenticated. solve_rolls_back. Qed.

Lemma Put_rolls_back u dev b pk sig : rolls_back (Put clk u dev b pk sig).
Proof. unfold Put. solve_rolls_back. Qed.

(** ** The invariant *)

Lemma row_of_active u e : active_signed u (row_of e) = true ->
  u = envelope_TargetUserID e /\ exists c, envelope_Certification e = Some c.
Proof.
  unfold active_signed. simpl. intros [[Hu%String.eqb_eq Hv]%andb_prop _]%andb_prop.
  destruct (envelope_Certification e) as [c|]; [|done]. split; [done|]. by exists c.
Qed.

Lemma requireIdentity_Some u c k d : envelope_identity u d = Some k -> requireIdentity u (Some c) d = Ok tt ->
  default [] k = cert_AccountPublicKey c.
Proof.
  unfold requireIdentity. intros ->. destruct (negb _) eqn:En; [done|]. intros _.
  by apply negb_false_iff, bool_decide_eq_true_1 in En.
Qed.

Lemma requireIdentity_has u K c d : has_identity u K d -> requireIdentity u (Some c) d = Ok tt -> cert_AccountPublicKey c = K.
Proof. intros H%has_identity_envelope Hr. by rewrite <- (requireIdentity_Some u c (Some K) d). Qed.

(** An envelope accepted next to an established identity leaves it in place. *)
Lemma has_identity_insert u K e i d :
  has_identity u K d -> vault_key_envelopes d !! i = None ->
  (forall c, envelope_Certification e = Some c -> envelope_TargetUserID e = u -> cert_AccountPublicKey c = K) ->
  has_identity u K (upd_vault_key_envelopes <[i := row_of e]> d).
Proof.
  intros [Ho (j & r & Hj & Hr)] Hi He. split.
  - intros k s. simpl. destruct (decide (i = k)) as [<-|Hne].
    + rewrite lookup_insert_eq. intros [= <-] (-> & c & Hc)%row_of_active. simpl. rewrite Hc. simpl. f_equal. by apply He.
    + rewrite lookup_insert_ne by done. apply Ho.
  - exists j, r. simpl. rewrite lookup_insert_ne by congruence. done.
Qed.

(** The first certificate of an account establishes its identity. *)
Lemma has_identity_first e c i d : envelope_Certification e = Some c ->
  (forall k r, vault_key_envelopes d !! k = Some r -> active_signed (envelope_TargetUserID e) r = false) ->
  has_identity (envelope_TargetUserID e) (cert_AccountPublicKey c) (upd_vault_key_envelopes <[i := row_of e]> d).
Proof.
  intros Hc Hnone. split.
  - intros k s. simpl. destruct (decide (i = k)) as [<-|Hne].
    + rewrite lookup_insert_eq. intros [= <-] _. simpl. by rewrite Hc.
    + rewrite lookup_insert_ne by done. intros Hk Hs. by rewrite (Hnone _ _ Hk) in Hs.
  - exists i, (row_of e). simpl. rewrite lookup_insert_eq. split; [done|]. unfold active_signed. simpl.
    by rewrite String.eqb_refl, Hc.
Qed.

Lemma one_identity_insert e i d : one_identity d -> vault_key_envelopes d !! i = None ->
  requireIdentity (envelope_TargetUserID e) (envelope_Certification e) d = Ok tt ->
  one_identity (upd_vault_key_envelopes <[i := row_of e]> d).
Proof.
  intros Hone Hi Hreq u. destruct (active_signed u (row_of e)) eqn:Ea.
  - right. apply row_of_active in Ea as (-> & c & Hc). rewrite Hc in Hreq. exists (cert_AccountPublicKey c).
    destruct (Hone (envelope_TargetUserID e)) as [Hnone|[K HK]].
    + by apply has_identity_first.
    + rewrite (requireIdentity_has (envelope_TargetUserID e) K c d HK Hreq). apply has_identity_insert; [done..|].
      intros c' [= <-]%(eq_trans (eq_sym Hc)) _. by apply (requireIdentity_has (envelope_TargetUserID e) K c d).
  - destruct (Hone u) as [Hnone|[K HK]]; [left|right].
    + intros k s. simpl. destruct (decide (i = k)) as [<-|Hne].
      * rewrite lookup_insert_eq. by intros [= <-].
      * rewrite lookup_insert_ne by done. apply Hnone.
    + exists K. apply has_identity_insert; [done..|]. intros c Hc <-.
      apply (requireIdentity_has (envelope_TargetUserID e) K c d); [done|]. by rewrite <- Hc.
Qed.


(** An accepted envelope newer than the device's other ones is what the
    device fetches next, certificate included. *)
Theorem UploadAuthenticated_Latest vid u dev kv ct dpk dkv c d e d' :
  UploadAuthenticated clk newid vid u dev kv ct dpk dkv c d = (Ok e, d') -> four_digit_year (clk 0) ->
  (forall i r, vault_key_envelopes d !! i = Some r -> addressed_to dev r = true ->
     text_lt (env_created_at r) (Format (clk 0)) = true) ->
  Latest dev d' = Ok e /\ envelope_Ciphertext e = ct /\ envelope_Certification e = c.
Proof.
  intros (He & Hf & -> & _)%UploadAuthenticated_ok_inv Hy Hnew. split; [|by rewrite He]. unfold Latest.
  destruct (order_by_minimum (fun a b => oldest_first b a) (select_rows (fun _ r => addressed_to dev r)
    (vault_key_envelopes (upd_vault_key_envelopes <[newid 0 := row_of e]> d))) (newid 0, row_of e)) as [l ->].
  - intros a b. rewrite !oldest_first_key. apply key_le_total.
  - intros a b x. rewrite !oldest_first_key. intros H1 H2. exact (key_le_trans _ _ _ H2 H1).
  - apply elem_of_select_rows. simpl. rewrite lookup_insert_eq. split; [done|]. unfold addressed_to. simpl.
    rewrite He. simpl. by rewrite bool_decide_eq_true_2.
  - intros [i r] [Hi Ha]%elem_of_select_rows. simpl in Hi. destruct (decide (newid 0 = i)) as [<-|Hne].
    + rewrite lookup_insert_eq in Hi. injection Hi as <-. by left.
    + rewrite lookup_insert_ne in Hi by done. right. specialize (Hnew i r Hi Ha). rewrite oldest_first_key.
      apply not_true_iff_false. rewrite key_le_iff. rewrite He. simpl. intros [Hlt|[Heq _]].
      * pose proof (text_lt_trans _ _ _ Hnew Hlt) as HF. by rewrite text_lt_irrefl in HF.
      * by rewrite <- Heq, text_lt_irrefl in Hnew.
  - simpl. rewrite He. simpl. rewrite Parse_Format by done. cbn. f_equal. f_equal. by destruct c as [[]|].
Qed.
End identity.

(** ** Runs *)

Section runs.
Context {U : UuidLib} {E : Ed25519} {TP : TimeParser}.

(** What can happen to the two tables: an upload, a bundle, or any step of
    another service, none of which writes them. *)
Inductive key_op : Type :=
| OpUpload (vaultID targetUserID targetDeviceID : string) (keyVersion : Z) (ciphertext devicePublicKey : list byte)
    (deviceKeyVersion : Z) (certification : option Certification) (clk : nat -> Z) (newid : nat -> string)
| OpPut (userID deviceID : string) (bundle accountPublicKey signature : list byte) (clk : nat -> Z).

Definition key_handle (o : key_op) (d : DB) : DB :=
  match o with
  | OpUpload vid u dev kv ct dpk dkv c clk newid => (UploadAuthenticated clk newid vid u dev kv ct dpk dkv c d).2
  | OpPut u dev b pk sig clk => (Put clk u dev b pk sig d).2
  end.

Inductive key_step : DB -> DB -> Prop :=
| step_op o d : key_step d (key_handle o d)
| step_other d d' : vault_key_envelopes d' = vault_key_envelopes d -> recovery_bundles d' = recovery_bundles d -> key_step d d'.

(** The stored bundle is the one there was, or [K] signed it. *)
Definition bundle_under (u : string) (K : list byte) (d d' : DB) : Prop :=
  recovery_bundles d' !! u = recovery_bundles d !! u \/
  exists r, recovery_bundles d' !! u = Some r /\ rb_account_identity_public_key r = K /\
    VerifyRecoveryBundle K (rb_signature r) u (rb_bundle r) = Ok tt.

Lemma key_step_ok o d : key_handle o d = d \/
  (exists e i, vault_key_envelopes d !! i = None /\ key_handle o d = upd_vault_key_envelopes <[i := row_of e]> d /\
     requireIdentity (envelope_TargetUserID e) (envelope_Certification e) d = Ok tt) \/
  (exists u r, VerifyRecoveryBundle (rb_account_identity_public_key r) (rb_signature r) u (rb_bundle r) = Ok tt /\
     (forall k, establishedIdentity u d = Some k -> k = rb_account_identity_public_key r) /\
     key_handle o d = upd_recovery_bundles <[u := r]> d).
Proof.
  destruct o as [vid u dev kv ct dpk dkv c clk0 newid0|u dev b pk sig clk0]; simpl.
  - pose proof (UploadAuthenticated_rolls_back clk0 newid0 vid u dev kv ct dpk dkv c d) as Hrb.
    destruct (UploadAuthenticated clk0 newid0 vid u dev kv ct dpk dkv c d) as [[e|er] d'] eqn:EU; simpl in *; [|by left; apply Hrb].
    apply UploadAuthenticated_ok_inv in EU as (-> & Hf & -> & Hr & _). right; left. eexists _, _. done.
  - pose proof (Put_rolls_back clk0 u dev b pk sig d) as Hrb.
    destruct (Put clk0 u dev b pk sig d) as [[[]|er] d'] eqn:EP; simpl in *; [|by left; apply Hrb].
    apply Put_ok_inv in EP as (Hv & Hk & ->). right; right. by exists u, (RecoveryBundle b pk sig (Format (clk0 0)) dev).
Qed.

Lemma has_identity_eq u K d d' : vault_key_envelopes d' = vault_key_envelopes d -> has_identity u K d -> has_identity u K d'.
Proof. unfold has_identity, signed_only_by. by intros ->. Qed.

Lemma key_step_identity u K d d' : key_step d d' -> has_identity u K d -> has_identity u K d'.
Proof.
  intros [o d0|d0 d1 He _] HK; [|by apply (has_identity_eq _ _ d0)].
  destruct (key_step_ok o d0) as [->|[(e & i & Hi & -> & Hr)|(v & r & _ & _ & ->)]]; [done| |done].
  apply has_identity_insert; [done..|]. intros c Hc <-. rewrite Hc in Hr.
  by apply (requireIdentity_has (envelope_TargetUserID e) K c d0).
Qed.

Lemma key_step_bundle u K d d' : key_step d d' -> has_identity u K d -> bundle_under u K d d'.
Proof.
  intros [o d0|d0 d1 _ Hb] HK; [|left; by rewrite Hb].
  destruct (key_step_ok o d0) as [->|[(e & i & _ & -> & _)|(v & r & Hv & Hk & ->)]]; [by left..|].
  destruct (decide (v = u)) as [->|Hne]; [right|left; simpl; by rewrite lookup_insert_ne].
  rewrite <- (Hk K (has_identity_established u K d0 HK)) in Hv. exists r. simpl. rewrite lookup_insert_eq.
  split_and!; [done|by rewrite <- (Hk K (has_identity_established u K d0 HK))|done].
Qed.

(** Every account has at most one identity, whatever is uploaded. *)
Theorem key_steps_one_identity d d' : rtc key_step d d' -> one_identity d -> one_identity d'.
Proof.
  induction 1 as [|d d1 d2 Hs _ IH]; [done|]. intros Hone. apply IH. destruct Hs as [o d|d d1 He _].
  - destruct (key_step_ok o d) as [->|[(e & i & Hi & -> & Hr)|(v & r & _ & _ & ->)]]; [done|by apply one_identity_insert|done].
  - intros u. unfold has_identity, signed_only_by. rewrite He. apply Hone.
Qed.

(** C20. Once an account has an active signed envelope its identity is pinned:
    after any uploads, bundles and steps of other services, the account's
    certificates still carry that key, its established identity is that key,
    and its recovery bundle is the one it had or one the key signed for that
    account. *)
Theorem identity_pinned u K d d' : rtc key_step d d' -> has_identity u K d ->
  has_identity u K d' /\ establishedIdentity u d' = Some K /\ bundle_under u K d d'.
Proof.
  intros Hr HK. assert (H : has_identity u K d' /\ bundle_under u K d d').
  { induction Hr as [d|d d1 d2 Hs _ IH]; [split; [done|by left]|].
    destruct (IH (key_step_identity u K d d1 Hs HK)) as [HK2 [Hb|Hb]]; (split; [done|]).
    - destruct (key_step_bundle u K d d1 Hs HK) as [Hb1|Hb1]; [left|right]; by rewrite Hb.
    - by right. }
  destruct H as [H1 H2]. split; [done|]. split; [by apply has_identity_established|done].
Qed.
End runs.

(** ** Concrete runs

    A stand-in for Ed25519 that makes the definitions run: the signature of a
    message under a key is the key followed by the message's digest. *)
#[local] Instance HashSignature : Ed25519 := {|
  ed25519_Verify pk msg sig := bool_decide (sig = (pk ++ Sum256 msg)%list)
|}.

Definition key_of (b : byte) : list byte := repeat b 32.
Definition sign (pk : list byte) (statement : result (list byte)) : list byte :=
  match statement with Ok s => (pk ++ Sum256 s)%list | Err _ => [] end.
Definition certificate (pk : list byte) : Certification :=
  MkCertification 1 pk (sign pk (Statement alice laptop 1 (key_of x09))).
Definition upload_as (pk : list byte) : M DB Envelope :=
  UploadAuthenticated (ticking noon) (fun _ => id1) "vault" alice laptop 1 [x01] (key_of x09) 1 (Some (certificate pk)).
Definition put_as (pk bundle : list byte) : M DB unit :=
  Put (ticking noon) alice laptop bundle pk (sign pk (RecoveryBundleStatement alice bundle)).

Definition owner_key : list byte := key_of x01.
Definition other_key : list byte := key_of x02.

Lemma no_envelopes i r : vault_key_envelopes two_accounts !! i = Some r -> False.
Proof. unfold two_accounts. simpl. by rewrite lookup_empty. Qed.

Lemma UploadAuthenticated_Latest_witness : exists e, Latest laptop (upload_as owner_key two_accounts).2 = Ok e /\
  envelope_Ciphertext e = [x01] /\ envelope_Certification e = Some (certificate owner_key).
Proof.
  destruct (run_ok (upload_as owner_key) two_accounts) as [e He]; [by vm_compute|]. exists e. unfold upload_as in He.
  apply (UploadAuthenticated_Latest (ticking noon) (fun _ => id1) _ _ _ _ _ _ _ _ _ _ _ He).
  - unfold four_digit_year. vm_compute. split; [discriminate|reflexivity].
  - intros i r Hi. by destruct (no_envelopes i r).
Defined.

Definition upload_op (pk : list byte) : key_op :=
  OpUpload "vault" alice laptop 1 [x01] (key_of x09) 1 (Some (certificate pk)) (ticking noon) (fun _ => id1).
Definition put_op (pk bundle : list byte) : key_op :=
  OpPut alice laptop bundle pk (sign pk (RecoveryBundleStatement alice bundle)) (ticking noon).

Lemma uploaded_identity d : vault_key_envelopes d = ∅ -> is_ok (upload_as owner_key d).1 = true ->
  has_identity alice owner_key (key_handle (upload_op owner_key) d).
Proof.
  intros Hn Hok. apply run_ok in Hok as [e He]. unfold upload_as in He. unfold key_handle, upload_op.
  rewrite He. cbn [snd]. apply UploadAuthenticated_ok_inv in He as (-> & _ & -> & _).
  apply (has_identity_first (MkEnvelope id1 "vault" alice laptop 1 [x01] (ticking noon 0) (Some (certificate owner_key)))
    (certificate owner_key)); [done|].
  intros k r Hk. by rewrite Hn, lookup_empty in Hk.
Qed.

Lemma key_steps_one_identity_witness : one_identity (key_handle (upload_op owner_key) two_accounts).
Proof.
  apply (key_steps_one_identity two_accounts).
  - apply rtc_once, step_op.
  - intros u. left. intros i r Hi. by destruct (no_envelopes i r).
Defined.

(** A bundle under another key is refused once the identity is certified. *)
Lemma identity_pinned_witness :
  let d := key_handle (upload_op owner_key) two_accounts in let d' := key_handle (put_op owner_key [x05]) d in
  has_identity alice owner_key d' /\ establishedIdentity alice d' = Some owner_key /\ bundle_under alice owner_key d d'.
Proof.
  intros d d'. apply (identity_pinned alice owner_key d d').
  - apply rtc_once, step_op.
  - apply uploaded_identity; [done|by vm_compute].
Defined.

(** The recovery bundle alone does not pin the identity: [UploadAuthenticated]
    compares a certificate with the account's other certificates only, so on
    an account whose identity is known from its bundle a certificate under any
    other key is accepted, and with it a bundle under that key. *)
Example bundle_identity_bypassed :
  let d1 := (put_as owner_key [x05] two_accounts).2 in
  let d2 := (upload_as other_key d1).2 in
  establishedIdentity alice d1 = Some owner_key /\
  (put_as other_key [x06] d1).1 = Err (ERecovery RecoveryErrIdentityConflict) /\
  is_ok (upload_as other_key d1).1 = true /\
  establishedIdentity alice d2 = Some other_key /\
  (put_as other_key [x06] d2).1 = Ok tt /\
  (bundle_Bundle <$> match Get alice (put_as other_key [x06] d2).2 with Ok b => Some b | Err _ => None end) = Some [x06].
Proof. by vm_compute. Qed.
