(* ===== verification/GoServeContent.v ===== *)
(** * Go's [http.ServeContent] for content without a modification time

    [net/http/fs.go]: the preconditions ([If-Match], [If-None-Match],
    [If-Range]), the [Range] header, and the answer they lead to, for a handler
    that set a strong [Etag] and passed the zero time, so that no
    [Last-Modified] is sent and [If-Modified-Since] and [If-Unmodified-Since]
    are ignored.  Reading and seeking in the content do not fail. *)

From S2P Require Import Prelude GoText.
From Stdlib Require Import Ascii String.
Local Open Scope string_scope.
Local Open Scope Z_scope.
#[local] Arguments String.append !_ _ : simpl nomatch.

(** ** [net/textproto.TrimString] *)

Definition isASCIISpace (c : ascii) : bool :=
  Ascii.eqb c " " || Ascii.eqb c "009" || Ascii.eqb c "010" || Ascii.eqb c "013".
Fixpoint trim_head (s : string) : string :=
  match s with String c s' => if isASCIISpace c then trim_head s' else s | "" => "" end.
Fixpoint trim_tail (s : string) : string :=
  match s with
  | "" => ""
  | String c s' => match trim_tail s' with
                   | "" => if isASCIISpace c then "" else String c ""
                   | t => String c t
                   end
  end.
Definition TrimString (s : string) : string := trim_tail (trim_head s).

(** ** The [Range] header *)

Record httpRange := MkRange { start : Z; length : Z }.
(** [errors.New "invalid range"], and [errNoOverlap]. *)
Inductive range_error := InvalidRange | NoOverlap.
Definition range_error_text (e : range_error) : string :=
  match e with InvalidRange => "invalid range" | NoOverlap => "invalid range: failed to overlap" end.

Definition nonnegative (s : string) : option Z :=
  match ParseInt64 s with Ok i => if i <? 0 then None else Some i | Err _ => None end.

(** One [start-end]: [None] is malformed, [Some None] starts behind the end. *)
Definition range_spec (ra : string) (size : Z) : option (option httpRange) :=
  match Cut ra "-" with
  | None => None
  | Some (start, end_) =>
      let start := TrimString start in
      let end_ := TrimString end_ in
      if String.eqb start "" then
        if String.eqb end_ "" || HasPrefix end_ "-" then None
        else match nonnegative end_ with
             | None => None
             | Some i => let i := if size <? i then size else i in Some (Some (MkRange (size - i) (size - (size - i))))
             end
      else match nonnegative start with
           | None => None
           | Some s =>
               if size <=? s then Some None
               else if String.eqb end_ "" then Some (Some (MkRange s (size - s)))
               else match ParseInt64 end_ with
                    | Err _ => None
                    | Ok i => if i <? s then None
                              else let i := if size <=? i then size - 1 else i in Some (Some (MkRange s (i - s + 1)))
                    end
           end
  end.

(** The loop over the specifications: the ranges, and whether one did not
    overlap the content. *)
Fixpoint range_specs (l : list string) (size : Z) : option (list httpRange * bool) :=
  match l with
  | [] => Some ([], false)
  | ra :: rest =>
      let ra := TrimString ra in
      if String.eqb ra "" then range_specs rest size
      else match range_spec ra size, range_specs rest size with
           | Some (Some r), Some (ranges, noOverlap) => Some (r :: ranges, noOverlap)
           | Some None, Some (ranges, _) => Some (ranges, true)
           | _, _ => None
           end
  end.

Definition parseRange (s : string) (size : Z) : list httpRange + range_error :=
  if String.eqb s "" then inl []
  else if negb (HasPrefix s "bytes=") then inr InvalidRange
  else match range_specs (Split (string_drop 6 s) ",") size with
       | None => inr InvalidRange
       | Some ([], true) => inr NoOverlap
       | Some (ranges, _) => inl ranges
       end.

Definition contentRange (r : httpRange) (size : Z) : string :=
  "bytes " ++ FormatInt (start r) ++ "-" ++ FormatInt (start r + length r - 1) ++ "/" ++ FormatInt size.
Definition sumRangesSize (l : list httpRange) : Z := foldr (fun r n => length r + n) 0 l.

(** ** Entity tags *)

Definition quote : ascii := "034".
Definition etag_char (c : ascii) : bool :=
  let n := Z.of_N (N_of_ascii c) in (n =? 33) || ((35 <=? n) && (n <=? 126)) || (128 <=? n).

(** The tag's text up to its closing quote, and the rest. *)
Fixpoint scan_text (s : string) : option (string * string) :=
  match s with
  | "" => None
  | String c s' =>
      if Ascii.eqb c quote then Some (String c "", s')
      else if etag_char c then match scan_text s' with Some (t, rest) => Some (String c t, rest) | None => None end
      else None
  end.
Definition scan_quoted (s : string) : option (string * string) :=
  match s with
  | String c s' => if Ascii.eqb c quote then match scan_text s' with Some (t, rest) => Some (String c t, rest) | None => None end
                   else None
  | "" => None
  end.
Definition scanETag (s : string) : option (string * string) :=
  let s := TrimString s in
  if HasPrefix s "W/" then match scan_quoted (string_drop 2 s) with Some (t, rest) => Some ("W/" ++ t, rest) | None => None end
  else scan_quoted s.

Definition etagStrongMatch (a b : string) : bool := String.eqb a b && HasPrefix a (String quote "").
Definition etagWeakMatch (a b : string) : bool := String.eqb (TrimPrefix a "W/") (TrimPrefix b "W/").

(** The loop of [checkIfMatch] and [checkIfNoneMatch]: is there a [*] or a tag
    that [hit]s before the list ends or breaks off?  Every turn consumes a
    byte. *)
Fixpoint etag_list (hit : string -> bool) (fuel : nat) (s : string) : bool :=
  match fuel with
  | O => false
  | S fuel' =>
      match TrimString s with
      | "" => false
      | String c s' =>
          if Ascii.eqb c "," then etag_list hit fuel' s'
          else if Ascii.eqb c "*" then true
          else match scanETag (String c s') with
               | None => false
               | Some (etag, remain) => if hit etag then true else etag_list hit fuel' remain
               end
      end
  end.
Definition etag_listed (hit : string -> bool) (s : string) : bool := etag_list hit (S (String.length s)) s.

(** ** The answer *)

(** The request's headers [ServeContent] reads; [""] when absent. *)
Record Conditions := MkConditions { If_Match : string; If_None_Match : string; If_Range : string; Range : string }.
Definition unconditional : Conditions := MkConditions "" "" "" "".
Definition resume_from (n : Z) : Conditions := MkConditions "" "" "" ("bytes=" ++ FormatInt n ++ "-").

Inductive Served :=
| PreconditionFailed
| NotModified
| Unsatisfiable (e : range_error) (size : Z)
| Whole (content : list byte)
| Partial (r : httpRange) (size : Z) (part : list byte)
| Multipart (boundary : string) (size : Z) (parts : list (httpRange * list byte)).

Definition slice (r : httpRange) (content : list byte) : list byte :=
  take (Z.to_nat (length r)) (drop (Z.to_nat (start r)) content).

(** [checkIfRange] is not [condFalse]. *)
Definition if_range_holds (etag ir : string) : bool :=
  String.eqb ir "" || match scanETag ir with Some (t, _) => etagStrongMatch t etag | None => false end.

(** What is sent for a range header that counts. *)
Definition serve_range (boundary range : string) (content : list byte) : Served :=
  let size := Z.of_nat (List.length content) in
  match parseRange range size with
  | inr e => if (match e with NoOverlap => size =? 0 | InvalidRange => false end) then Whole content else Unsatisfiable e size
  | inl ranges =>
      match (if size <? sumRangesSize ranges then [] else ranges) with
      | [] => Whole content
      | [r] => Partial r size (slice r content)
      | rs => Multipart boundary size (map (fun r => (r, slice r content)) rs)
      end
  end.

(** [etag] is the header the handler set, [boundary] that of [mime/multipart]. *)
Definition ServeContent (etag boundary : string) (c : Conditions) (content : list byte) : Served :=
  if negb (String.eqb (If_Match c) "") && negb (etag_listed (fun t => etagStrongMatch t etag) (If_Match c)) then PreconditionFailed
  else if negb (String.eqb (If_None_Match c) "") && etag_listed (fun t => etagWeakMatch t etag) (If_None_Match c) then NotModified
  else serve_range boundary (if if_range_holds etag (If_Range c) then Range c else "") content.

Definition served_status (sv : Served) : Z :=
  match sv with
  | PreconditionFailed => 412
  | NotModified => 304
  | Unsatisfiable _ _ => 416
  | Whole _ => 200
  | Partial _ _ _ | Multipart _ _ _ => 206
  end.

Abbreviation Header := (gmap string string).

(** What is done to the headers set so far.  [serveError] removes the headers
    that were meant for the content, [Cache-Control] among them. *)
Definition served_headers (sv : Served) (h : Header) : Header :=
  match sv with
  | PreconditionFailed => h
  | NotModified => delete "Content-Type" h
  | Unsatisfiable e size =>
      <["X-Content-Type-Options" := "nosniff"]> (<["Content-Type" := "text/plain; charset=utf-8"]>
        (delete "Last-Modified" (delete "Etag" (delete "Content-Encoding" (delete "Cache-Control"
           (match e with NoOverlap => <["Content-Range" := "bytes */" ++ FormatInt size]> h | InvalidRange => h end))))))
  | Whole _ => <["Accept-Ranges" := "bytes"]> h
  | Partial r size _ => <["Accept-Ranges" := "bytes"]> (<["Content-Range" := contentRange r size]> h)
  | Multipart boundary _ _ =>
      <["Accept-Ranges" := "bytes"]> (<["Content-Type" := "multipart/byteranges; boundary=" ++ boundary]> h)
  end.

(** ** What is served is the content *)

Lemma scan_text_shorter s t rest : scan_text s = Some (t, rest) -> (String.length rest < String.length s)%nat.
Proof.
  revert t. induction s as [|c s IH]; [done|]. cbn [scan_text String.length]. intros t. case_match; [intros [= _ <-]; lia|].
  case_match; [|done]. destruct (scan_text s) as [[t' r]|]; [|done]. intros [= _ <-]. specialize (IH _ eq_refl). lia.
Qed.

Lemma trim_head_length s : (String.length (trim_head s) <= String.length s)%nat.
Proof. induction s as [|c s IH]; [done|]. cbn [trim_head]. case_match; cbn [String.length] in *; lia. Qed.
Lemma trim_tail_length s : (String.length (trim_tail s) <= String.length s)%nat.
Proof.
  induction s as [|c s IH]; [done|]. cbn [trim_tail]. destruct (trim_tail s) as [|d t]; [case_match|]; cbn [String.length] in *; lia.
Qed.
Lemma TrimString_length s : (String.length (TrimString s) <= String.length s)%nat.
Proof. unfold TrimString. pose proof (trim_tail_length (trim_head s)). pose proof (trim_head_length s). lia. Qed.

Lemma scan_quoted_shorter s t rest : scan_quoted s = Some (t, rest) -> (String.length rest < String.length s)%nat.
Proof.
  destruct s as [|c s]; [done|]. cbn [scan_quoted String.length]. case_match; [|done].
  destruct (scan_text s) as [[t' r]|] eqn:E; [|done]. intros [= _ <-]. apply scan_text_shorter in E. lia.
Qed.
Lemma scanETag_shorter s t rest : scanETag s = Some (t, rest) -> (String.length rest < String.length s)%nat.
Proof.
  unfold scanETag. pose proof (TrimString_length s) as Ht. set (u := TrimString s) in *. case_match.
  - destruct (scan_quoted _) as [[t' r]|] eqn:E; [|done]. intros [= _ <-]. apply scan_quoted_shorter in E.
    apply HasPrefix_true in H as [v Hv]. rewrite Hv in E, Ht. change (string_drop 2 ("W/" ++ v)) with v in E.
    rewrite length_app_string in Ht. simpl in Ht. lia.
  - intros E. apply scan_quoted_shorter in E. lia.
Qed.

(** The fuel of [etag_listed] is enough. *)
Lemma etag_list_fuel hit n s : (String.length s < n)%nat -> etag_list hit n s = etag_listed hit s.
Proof.
  assert (Hf : forall n m s, (String.length s < n)%nat -> (String.length s < m)%nat -> etag_list hit n s = etag_list hit m s).
  { clear. induction n as [|n IH]; [lia|]. intros [|m] s Hn Hm; [lia|]. cbn [etag_list].
    pose proof (TrimString_length s) as Ht. destruct (TrimString s) as [|c s']; [done|]. cbn [String.length] in Ht.
    case_match; [apply IH; lia|]. case_match; [done|]. destruct (scanETag (String c s')) as [[t rest]|] eqn:E; [|done].
    apply scanETag_shorter in E. cbn [String.length] in E. case_match; [done|]. apply IH; lia. }
  intros Hn. apply Hf; lia.
Qed.

(** A range lies within the content. *)
Definition within (size : Z) (r : httpRange) : Prop := 0 <= start r /\ 0 <= length r /\ start r + length r <= size.

Lemma nonnegative_bound s i : nonnegative s = Some i -> 0 <= i.
Proof. unfold nonnegative. destruct (ParseInt64 s); [|done]. case_match eqn:E; [done|]. intros [= <-]. lia. Qed.

Lemma range_spec_within ra size r : 0 <= size -> range_spec ra size = Some (Some r) -> within size r.
Proof.
  intros Hs. unfold range_spec. destruct (Cut ra "-") as [[st en]|]; [|done]. cbv zeta. case_match.
  - case_match; [done|]. destruct (nonnegative _) as [i|] eqn:E; [|done]. intros [= <-]. apply nonnegative_bound in E.
    unfold within. simpl. case_match eqn:Ei; lia.
  - destruct (nonnegative _) as [i|] eqn:E; [|done]. apply nonnegative_bound in E. case_match eqn:Ei; [done|].
    apply Z.leb_gt in Ei. case_match; [intros [= <-]; unfold within; simpl; lia|].
    destruct (ParseInt64 _) as [j|]; [|done]. case_match eqn:Ej; [done|]. apply Z.ltb_ge in Ej. intros [= <-]. unfold within. simpl.
    case_match eqn:El; [apply Z.leb_le in El|apply Z.leb_gt in El]; lia.
Qed.

Lemma range_specs_within l size rs b : 0 <= size -> range_specs l size = Some (rs, b) -> Forall (within size) rs.
Proof.
  intros Hs. revert rs b. induction l as [|ra l IH]; cbn [range_specs]; [by intros rs b [= <- <-]|]. intros rs b. case_match; [apply IH|].
  destruct (range_spec _ size) as [[r|]|] eqn:Er; [| |done]; (destruct (range_specs l size) as [[rs' b']|]; [|done]);
    intros [= <- <-]; [|by eapply IH]. constructor; [by eapply range_spec_within|by eapply IH].
Qed.

Lemma parseRange_within s size rs : 0 <= size -> parseRange s size = inl rs -> Forall (within size) rs.
Proof.
  intros Hs. unfold parseRange. case_match; [by intros [= <-]|]. case_match; [done|].
  destruct (range_specs _ size) as [[l b]|] eqn:E; [|done]. apply range_specs_within in E; [|done].
  destruct l; [destruct b; [done|]|]; by intros [= <-].
Qed.

(** The bytes of the answer, and where each part of it belongs. *)
Definition served_parts (sv : Served) : list (httpRange * list byte) :=
  match sv with
  | Whole content => [(MkRange 0 (Z.of_nat (List.length content)), content)]
  | Partial r _ part => [(r, part)]
  | Multipart _ _ parts => parts
  | _ => []
  end.

(** Whatever is served is the content at the place the answer names, no more
    and no less bytes than the range has. *)
Lemma served_parts_correct etag boundary c content r part :
  (r, part) ∈ served_parts (ServeContent etag boundary c content) ->
  within (Z.of_nat (List.length content)) r /\ part = slice r content /\ Z.of_nat (List.length part) = length r.
Proof.
  set (size := Z.of_nat (List.length content)).
  assert (Hsl : forall r, within size r -> Z.of_nat (List.length (slice r content)) = length r).
  { intros [st ln] (H1 & H2 & H3). unfold slice. simpl in *. rewrite length_take, length_drop. unfold size in H3. lia. }
  assert (Hw : within size (MkRange 0 size)) by (unfold within, size; simpl; lia).
  assert (Hwhole : forall r part, (r, part) ∈ served_parts (Whole content) ->
    within size r /\ part = slice r content /\ Z.of_nat (List.length part) = length r).
  { cbn [served_parts]. intros r' p' [= -> ->]%list_elem_of_singleton. split_and!; [exact Hw| |done].
    unfold slice. simpl. rewrite drop_0, take_ge; [done|unfold size; lia]. }
  unfold ServeContent. case_match; [by intros ?%elem_of_nil|]. case_match; [by intros ?%elem_of_nil|]. unfold serve_range. fold size.
  set (range := if if_range_holds _ _ then _ else _).
  destruct (parseRange range size) as [rs|e] eqn:Ep.
  - apply parseRange_within in Ep; [|unfold size; lia].
    assert (Hrs : Forall (within size) (if size <? sumRangesSize rs then [] else rs)) by (by case_match).
    destruct (if size <? sumRangesSize rs then [] else rs) as [|r1 [|r2 l]]; [apply Hwhole| |].
    + cbn [served_parts]. intros [= -> ->]%list_elem_of_singleton. inversion_clear Hrs. auto.
    + cbn [served_parts]. intros (x & [= -> ->] & Hx)%list_elem_of_fmap. rewrite Forall_forall in Hrs. auto.
  - destruct (match e with NoOverlap => _ | InvalidRange => _ end); [apply Hwhole|by intros ?%elem_of_nil].
Qed.

Lemma serve_range_absent boundary content : serve_range boundary "" content = Whole content.
Proof. unfold serve_range. change (parseRange "" _) with (@inl (list httpRange) range_error []). cbv beta iota zeta. by destruct (_ <? _). Qed.

(** A plain request gets all of it. *)
Lemma serve_unconditional etag boundary content : ServeContent etag boundary unconditional content = Whole content.
Proof. apply (serve_range_absent boundary). Qed.

Lemma digit_not_space z : isASCIISpace (digit z) = false.
Proof. unfold isASCIISpace. by rewrite !digit_eqb. Qed.

(** [s] has no space at all. *)
Lemma TrimString_solid s : string_forall (fun c => negb (isASCIISpace c)) s = true -> TrimString s = s.
Proof.
  intros Hs. unfold TrimString.
  assert (Hh : trim_head s = s) by (destruct s as [|c s]; [done|]; simpl in *; apply andb_prop in Hs as [Hc%negb_true_iff _]; by rewrite Hc).
  rewrite Hh. clear Hh. induction s as [|c s IH]; [done|]. simpl in *. apply andb_prop in Hs as [Hc%negb_true_iff Hs].
  rewrite (IH Hs). destruct s; [by rewrite Hc|done].
Qed.

Lemma FormatInt_digits n : 0 <= n -> string_forall (fun c => negb (isASCIISpace c)) (FormatInt n) = true.
Proof.
  intros Hn. unfold FormatInt. replace (n <? 0) with false by (symmetry; apply Z.ltb_ge; lia).
  assert (H : forall f z acc, string_forall (fun c => negb (isASCIISpace c)) acc = true ->
    string_forall (fun c => negb (isASCIISpace c)) (format_uint f z acc) = true).
  { induction f as [|f IH]; intros z acc Ha; [done|]. cbn [format_uint].
    assert (Hd : string_forall (fun c => negb (isASCIISpace c)) (String (digit z) acc) = true)
      by (cbn [string_forall]; by rewrite digit_not_space, Ha).
    case_match; [done|by apply IH]. }
  by apply H.
Qed.

(** Only a range is ever unsatisfiable. *)
Lemma unsatisfiable_range etag boundary c content e n : ServeContent etag boundary c content = Unsatisfiable e n -> Range c <> "".
Proof.
  unfold ServeContent. intros H Hr. rewrite Hr in H. case_match; [done|]. case_match; [done|].
  replace (if if_range_holds etag (If_Range c) then "" else "") with "" in H by by case_match. by rewrite serve_range_absent in H.
Qed.

(** Resuming at the [n]-th byte: the rest of the content. *)
Lemma serve_resume etag boundary content n : 0 <= n < Z.of_nat (List.length content) -> Z.of_nat (List.length content) <= max_int64 ->
  ServeContent etag boundary (resume_from n) content =
  Partial (MkRange n (Z.of_nat (List.length content) - n)) (Z.of_nat (List.length content)) (drop (Z.to_nat n) content).
Proof.
  intros Hn Hmax. set (size := Z.of_nat (List.length content)) in *.
  assert (Hd : forall c, digit_val c = None -> no_char c (FormatInt n) = true).
  { intros c Hc. unfold FormatInt. replace (n <? 0) with false by (symmetry; apply Z.ltb_ge; lia). by apply no_char_format_uint. }
  assert (Hne : FormatInt n <> "").
  { intros E. pose proof (ParseInt64_FormatInt n ltac:(unfold min_int64, max_int64 in *; lia)) as H. by rewrite E in H. }
  assert (Hp : parseRange ("bytes=" ++ FormatInt n ++ "-") size = inl [MkRange n (size - n)]).
  { unfold parseRange. change (String.eqb _ "") with false. cbv iota.
    rewrite (proj2 (HasPrefix_true _ "bytes=")) by eauto. cbv [negb]. rewrite (string_drop_app "bytes=").
    unfold Split. rewrite Split_from_no_char by (rewrite no_char_app, Hd; reflexivity). cbn [range_specs].
    assert (Ht : TrimString (FormatInt n ++ "-") = FormatInt n ++ "-").
    { apply TrimString_solid. by rewrite string_forall_app, FormatInt_digits by lia. }
    change ("" ++ FormatInt n ++ "-") with (FormatInt n ++ "-"). rewrite Ht.
    assert (Hz : String.eqb (FormatInt n ++ "-") "" = false) by (destruct (FormatInt n); [done|reflexivity]). rewrite Hz.
    unfold range_spec. rewrite (Cut_app (FormatInt n) "" "-") by by apply Hd. cbv zeta.
    rewrite (TrimString_solid (FormatInt n)) by (apply FormatInt_digits; lia).
    rewrite (proj2 (String.eqb_neq _ _) Hne). unfold nonnegative. rewrite ParseInt64_FormatInt by (unfold min_int64, max_int64 in *; lia).
    replace (n <? 0) with false by (symmetry; apply Z.ltb_ge; lia). replace (size <=? n) with false by (symmetry; apply Z.leb_gt; lia).
    reflexivity. }
  unfold ServeContent, resume_from. cbn [If_Match If_None_Match If_Range Range]. change (if_range_holds etag "") with true. cbn [negb andb String.eqb].
  unfold serve_range. fold size. rewrite Hp. cbn [sumRangesSize foldr length].
  replace (size <? size - n + 0) with false by (symmetry; apply Z.ltb_ge; lia).
  f_equal. unfold slice. cbn [start length]. apply take_ge. rewrite length_drop. unfold size. lia.
Qed.

(** A tag the version no longer has turns the range off: all of it is sent. *)
Lemma serve_if_range_stale tag etag boundary range content : scanETag tag <> None -> etagStrongMatch (default "" (fst <$> scanETag tag)) etag = false ->
  ServeContent etag boundary (MkConditions "" "" tag range) content = Whole content.
Proof.
  intros Hs He. unfold ServeContent. cbn [If_Match If_None_Match If_Range Range negb andb String.eqb]. unfold if_range_holds.
  destruct (scanETag tag) as [[t r]|] eqn:E; [|done]. simpl in He. rewrite He.
  destruct (String.eqb_spec tag "") as [->|_]; [done|]. apply serve_range_absent.
Qed.

Example range1 : parseRange "bytes=0-1, -1" 5 = inl [MkRange 0 2; MkRange 4 1]. Proof. reflexivity. Qed.
Example range2 : parseRange "bytes=9-" 5 = inr NoOverlap. Proof. reflexivity. Qed.
Example range3 : parseRange "bytes=1" 5 = inr InvalidRange. Proof. reflexivity. Qed.
Example etag1 : let tag s := String quote (s ++ String quote "") in
  etag_listed (fun t => etagWeakMatch t (tag "a")) (" " ++ tag "b" ++ " , W/" ++ tag "a") = true.
Proof. reflexivity. Qed.
