(* ===== verification/HttpApi.v ===== *)
(** * Package internal/httpapi: the frame of every endpoint

    Models the parts of [internal/httpapi/httpapi.go] all handlers share: the
    bearer token, [authenticated], the checks of path and query values, the
    base64 fields, and the mapping of the services' errors to responses.

    A handler is a computation that may answer at any point, as Go's handlers
    do with [writeError .. return].  Request bodies arrive decoded: [None] is
    a body [decodeJSON] refuses.  [Server] is the state of all services, with
    one database, and the server's log. *)

From S2P Require Import Prelude GoText GoNet GoTime Uuid Schema Fixture Limiter Auth AuthCorrect Session Sync Uploads.
From Stdlib Require Import Ascii String.
Local Open Scope string_scope.

(** ** The server *)

Record Server := MkServer {
  world : World;
  srv_login : entry_map;
  srv_account : entry_map;
  srv_address : entry_map;
  log : list (string * string * error);   (* operation, request, cause *)
}.

Definition set_world (w : World) (s : Server) : Server :=
  MkServer w (srv_login s) (srv_account s) (srv_address s) (log s).
Definition add_log (line : string * string * error) (s : Server) : Server :=
  MkServer (world s) (srv_login s) (srv_account s) (srv_address s) (line :: log s).

(** The calls of the services, on the server. *)
Definition on_world {A} (m : M World A) : M Server A := fun s =>
  let '(r, w) := m (world s) in (r, set_world w s).
Definition on_database {A} (m : M DB A) : M Server A := on_world (on_db m).
Definition reading {A} (q : DB -> result A) : M Server A := fun s => (q (db (world s)), s).
Definition on_auth {A} (m : M Session.Service A) : M Server A := fun s =>
  let '(r, a) := m (Session.MkService (db (world s)) (srv_login s) (srv_account s) (srv_address s)) in
  (r, MkServer (set_db (auth_db a) (world s)) (loginLimiter a) (accountLimiter a) (addressLimiter a) (log s)).

(** What the services are configured with ([New]). *)
Record API := MkAPI {
  accessTokenTTL : Z;
  dummyPasswordHash : string;
  sync_service : Sync.Service;
  uploads_service : Uploads.Service;
}.

(** What one request reads from outside: the clock, identifiers and random
    bytes of its [n]-th service call, the order a map is walked in, the
    identifier an error response carries, what the system reports when a file
    that is there cannot be opened or [Stat] fails on it, and the boundary
    [mime/multipart] draws. *)
Record RequestEnv := MkRequestEnv {
  call_clk : nat -> nat -> Z;
  call_newid : nat -> nat -> string;
  call_rand : nat -> nat -> list byte;
  map_range : entry_map -> list (string * attemptEntry);
  requestID : string;
  open_fails : string -> option string;
  stat_fails : string -> option string;
  boundary : string;
}.

(** ** Responses *)

(** [CB] is the type of the bodies of successful answers. *)
Inductive Body (CB : Type) : Type :=
| NoBody
| ErrorBody (code message request : string)
| Content (c : CB).
Arguments NoBody {CB}.
Arguments ErrorBody {CB} code message request.
Arguments Content {CB} c.

Record Response (CB : Type) := MkResponse {
  status : Z;
  x_next_after : option string;
  response_body : Body CB;
}.
Arguments MkResponse {CB} status x_next_after response_body.
Arguments status {CB} _.
Arguments x_next_after {CB} _.
Arguments response_body {CB} _.

(** A handler: a value, or the response that ended the request. *)
Definition H (CB A : Type) : Type := Server -> (Response CB + A) * Server.

#[global] Instance H_ret {CB} : MRet (H CB) := fun _ a s => (inr a, s).
#[global] Instance H_bind {CB} : MBind (H CB) := fun _ _ f m s =>
  match m s with (inr a, s') => f a s' | (inl r, s') => (inl r, s') end.

Section handlers.
Context {CB : Type}.

Definition respond {A} (r : Response CB) : H CB A := fun s => (inl r, s).
Definition writeJSON {A} (code : Z) (c : CB) : H CB A := respond (MkResponse code None (Content c)).
Definition writeStatus {A} (code : Z) : H CB A := respond (MkResponse code None NoBody).

Context {U : UuidLib} (env : RequestEnv).

Definition errorResponse (code : Z) (name message : string) : Response CB :=
  MkResponse code None (ErrorBody name message (requestID env)).
Definition writeError {A} (code : Z) (name message : string) : H CB A := respond (errorResponse code name message).
Definition badRequest {A} (message : string) : H CB A := writeError 400 "VALIDATION_ERROR" message.

Definition writeInternalError {A} (operation message : string) (e : error) : H CB A := fun s =>
  (inl (errorResponse 500 "INTERNAL_ERROR" message), add_log (operation, requestID env, e) s).

(** The sentinel errors of [writeServiceError]; everything else is internal. *)
Definition sentinel (e : error) : option (Z * string * string) :=
  match e with
  | Validation message => Some (400%Z, "VALIDATION_ERROR", message)
  | EAuth AuthErrInvalidCredentials => Some (401%Z, "AUTH_INVALID_CREDENTIALS", "invalid username or password")
  | EAuth AuthErrAccountDisabled => Some (403%Z, "FORBIDDEN", "account is disabled")
  | EAuth AuthErrDeviceRevoked => Some (403%Z, "AUTH_DEVICE_REVOKED", "device has been revoked")
  | EAuth AuthErrDeviceConflict =>
      Some (409%Z, "VALIDATION_ERROR", "device id is already registered to a different account or key")
  | EAuth AuthErrTokenInvalid => Some (401%Z, "AUTH_TOKEN_EXPIRED", "token is invalid, expired, or revoked")
  | EAuth AuthErrNotFound => Some (404%Z, "NOT_FOUND", "not found")
  | EAuth AuthErrRateLimited => Some (429%Z, "AUTH_RATE_LIMITED", "too many failed login attempts; try again shortly")
  | ENodes NodesErrNotFound => Some (404%Z, "NOT_FOUND", "node not found")
  | ENodes NodesErrForbidden => Some (403%Z, "FORBIDDEN", "node does not belong to this account")
  | ENodes NodesErrRevisionConflict => Some (409%Z, "REVISION_CONFLICT", "node revision conflict")
  | ENodes NodesErrInvalidParent =>
      Some (400%Z, "VALIDATION_ERROR", "parent must be an existing, non-deleted directory owned by this account")
  | EUploads UploadsErrNotFound => Some (404%Z, "UPLOAD_NOT_FOUND", "upload session not found")
  | EUploads UploadsErrForbidden => Some (403%Z, "FORBIDDEN", "upload session does not belong to this device")
  | EUploads UploadsErrInvalidState => Some (409%Z, "UPLOAD_EXPIRED", "upload session is not open")
  | EUploads UploadsErrChunkConflict =>
      Some (409%Z, "UPLOAD_CHUNK_INVALID", "chunk already exists with a different ciphertext digest")
  | EUploads UploadsErrMissingChunks => Some (400%Z, "UPLOAD_CHUNK_INVALID", "upload has missing ciphertext chunks")
  | EUploads UploadsErrRevisionConflict => Some (409%Z, "REVISION_CONFLICT", "node revision conflict")
  | EUploads UploadsErrIDConflict => Some (409%Z, "UPLOAD_ID_CONFLICT", "blob or file version id is already in use")
  | EUploads UploadsErrTooManyUploads =>
      Some (429%Z, "UPLOAD_LIMIT_REACHED", "too many unfinished uploads from this device; let them finish or expire")
  | EUploads UploadsErrTargetNodeMissing => Some (404%Z, "NOT_FOUND", "target file node not found")
  | SyncErrInvalidCursor => Some (400%Z, "SYNC_CURSOR_INVALID", "sync cursor is invalid")
  | EProvisioning ProvisioningErrNotFound => Some (404%Z, "NOT_FOUND", "no key envelope is available yet")
  | EProvisioning ProvisioningErrIdentityConflict =>
      Some (409%Z, "DEVICE_IDENTITY_CONFLICT", "account identity does not match existing device certificates")
  | ERecovery RecoveryErrNotFound => Some (404%Z, "NOT_FOUND", "no recovery bundle is stored for this account")
  | ERecovery RecoveryErrIdentityConflict =>
      Some (409%Z, "DEVICE_IDENTITY_CONFLICT", "recovery bundle is not signed by this account's identity")
  | ESharing SharingErrNotFound | ESharing SharingErrTargetNotFound =>
      Some (404%Z, "NOT_FOUND", "share or recipient was not found")
  | ESharing SharingErrForbidden => Some (403%Z, "FORBIDDEN", "share is not owned by this account")
  | FavoritesErrNotFound => Some (404%Z, "NOT_FOUND", "node not found")
  | MaintenanceErrNotInTrash => Some (404%Z, "NOT_FOUND", "node is not in the trash")
  | ESharing SharingErrKeyConflict => Some (409%Z, "REVISION_CONFLICT", "this folder key version already exists")
  | ESharing SharingErrAlreadyShared => Some (409%Z, "REVISION_CONFLICT", "folder is already shared with this account")
  | Internal _ | SqlUnique _ | SqlForeignKey | Diverges => None
  end.

Definition writeServiceError {A} (e : error) : H CB A :=
  match sentinel e with
  | Some (code, name, message) => writeError code name message
  | None => writeInternalError "internal error" "an internal error occurred" e
  end.

(** A service call and what its error is answered with. *)
Definition call_or {A} (fail : error -> H CB A) (m : M Server A) : H CB A := fun s =>
  match m s with
  | (Ok a, s') => (inr a, s')
  | (Err e, s') => fail e s'
  end.
Definition call {A} (m : M Server A) : H CB A := call_or writeServiceError m.

(** ** Reading requests *)

Definition canonicalUUID (value : string) : bool :=
  match uuid_parse value with
  | Some parsed => String.eqb (uuid_string parsed) value
  | None => false
  end.

Definition pathUUID (name id : string) : H CB string :=
  if negb (canonicalUUID id) then badRequest ("invalid " ++ name) else mret id.
Definition pathDeviceID (id : string) : H CB string :=
  if negb (canonicalUUID id) then badRequest "invalid device id" else mret id.

(** [strconv.Atoi] is [ParseInt] at the width of an [int], 64 bits. *)
Definition pathInt (name raw : string) : H CB Z :=
  match ParseInt64 raw with
  | Ok n => if (n <? 0)%Z then badRequest ("invalid " ++ name) else mret n
  | Err _ => badRequest ("invalid " ++ name)
  end.
Definition queryInt64 (name raw : string) (def : Z) : H CB Z :=
  if String.eqb raw "" then mret def
  else match ParseInt64 raw with
       | Ok n => mret n
       | Err _ => badRequest ("invalid " ++ name)
       end.
Definition queryInt (name raw : string) (def : Z) : H CB Z := queryInt64 name raw def.

Definition decodeJSON {A} (body : option A) : H CB A :=
  match body with
  | Some req => mret req
  | None => badRequest "malformed JSON request body"
  end.
End handlers.

(** [base64.StdEncoding]: padded to whole groups of four. *)
Definition padding (n : nat) : string :=
  match (n mod 4)%nat with 2%nat => "==" | 3%nat => "=" | _ => "" end.
Definition EncodeToString (l : list byte) : string :=
  let s := std_encode l in s ++ padding (String.length s).
Definition strip_padding (s : string) : string :=
  if HasSuffix s "==" then TrimSuffix s "==" else TrimSuffix s "=".
Definition DecodeString (s : string) : option (list byte) :=
  let t := b64_strip s in
  if Nat.eqb (String.length t mod 4) 0 then std_decode (strip_padding t) else None.

(** A base64 field of a request. *)
Definition field {CB} (env : RequestEnv) (message s : string) : H CB (list byte) :=
  match DecodeString s with
  | Some l => mret l
  | None => badRequest env message
  end.

(** ** Who is asking *)

Definition bearerToken (header : string) : string :=
  let prefix := "Bearer " in
  if negb (HasPrefix header prefix) then "" else TrimPrefix header prefix.

Definition clientAddress (remoteAddr : string) : string := default remoteAddr (fst <$> SplitHostPort remoteAddr).

Section authenticated.
Context {CB : Type} {U : UuidLib} {TP : TimeParser} (env : RequestEnv).

(** The first service call of a protected endpoint.  A handler always answers:
    it has no value to return. *)
Definition authenticated (header : string) (next : string -> string -> H CB Empty_set) : H CB Empty_set :=
  let token := bearerToken header in
  if String.eqb token "" then writeError env 401 "AUTH_TOKEN_EXPIRED" "missing or malformed Authorization header"
  else
    who ← call env (reading (Authenticate (call_clk env 0) token));
    next who.1 who.2.
End authenticated.
