(* ===== verification/HttpBodies.v ===== *)
(** * Package internal/httpapi: request and response bodies

    The JSON structs of the package, field by field, and the conversions from
    the services' values.  Binary fields are base64 text, times RFC 3339
    text; fields with [omitempty] hold the value the encoder would leave out. *)

From S2P Require Import Prelude GoText GoTime Uuid Schema Fixture Auth Session Nodes Sync Favorites Sharing Uploads Provisioning Recovery HttpApi GoServeContent.
From Stdlib Require Import String.
Local Open Scope string_scope.

(** ** Requests *)

Record deviceRegistrationBody := MkDeviceRegistrationBody {
  drb_ID : string; drb_Name : string; drb_Platform : string; drb_PublicKey : string; drb_KeyVersion : Z;
}.
Record loginRequest := MkLoginRequest {
  lr_Username : string; lr_Password : string; lr_Device : deviceRegistrationBody;
}.
Record refreshTokenRequest := MkRefreshTokenRequest { rtr_RefreshToken : string }.
Record uploadEnvelopeRequest := MkUploadEnvelopeRequest {
  uer_VaultID : string; uer_KeyVersion : Z; uer_Ciphertext : string;
  uer_SignatureVersion : Z; uer_AccountIdentityPublicKey : string; uer_PublicKeySignature : string;
}.

Record createNodeRequest := MkCreateNodeRequest {
  cnr_ID : string; cnr_OperationID : string; cnr_ParentID : option string; cnr_NodeType : string;
  cnr_MetadataCiphertext : string; cnr_MetadataKeyVersion : Z; cnr_MetadataKeyScopeID : string;
}.
Record updateNodeRequest := MkUpdateNodeRequest {
  unr_OperationID : string; unr_ExpectedRevision : Z; unr_MetadataCiphertext : option string;
  unr_MetadataKeyVersion : Z; unr_MetadataKeyScopeID : string; unr_MoveParent : bool; unr_ParentID : option string;
}.
Record rekeyVersionRequest := MkRekeyVersionRequest {
  rvr_ID : string; rvr_WrappedFileKey : string; rvr_KeyScopeID : string; rvr_KeyVersion : Z;
}.
Record rekeyItemRequest := MkRekeyItemRequest {
  rir_NodeID : string; rir_ExpectedRevision : Z; rir_MetadataCiphertext : string; rir_MetadataKeyVersion : Z;
  rir_MetadataKeyScopeID : string; rir_FileVersions : list rekeyVersionRequest;
}.
Record rekeyRequest := MkRekeyRequest { rr_Items : list rekeyItemRequest }.
Record deleteOrRestoreRequest := MkDeleteOrRestoreRequest { dor_OperationID : string; dor_ExpectedRevision : Z }.

Record createUploadRequest := MkCreateUploadRequest {
  cur_TargetNodeID : string; cur_FileVersionID : string; cur_BlobID : string; cur_ExpectedRevision : option Z;
  cur_ChunkSize : Z; cur_ChunkCount : Z; cur_MetadataKeyVersion : Z;
  cur_MetadataCiphertext : string; cur_WrappedFileKey : string; cur_E2eeHeader : string;
}.
Record completeUploadRequest := MkCompleteUploadRequest {
  cpr_OperationID : string; cpr_KeyScopeID : string; cpr_KeyVersion : Z; cpr_ExpectedRevision : option Z;
  cpr_SyncPayloadCiphertext : string;
}.

Record shareEnvelopeRequest := MkShareEnvelopeRequest {
  ser_TargetDeviceID : string; ser_KeyVersion : Z; ser_Ciphertext : string;
  ser_OwnerIdentityPublicKey : string; ser_OwnerSignature : string;
}.
Record createShareRequest := MkCreateShareRequest {
  csr_OperationID : string; csr_NodeID : string; csr_TargetUserID : string; csr_Permission : string;
  csr_Envelopes : list shareEnvelopeRequest;
}.
Record addShareEnvelopesRequest := MkAddShareEnvelopesRequest { aer_Envelopes : list shareEnvelopeRequest }.
Record createFolderKeyRequest := MkCreateFolderKeyRequest { cfr_KeyVersion : Z; cfr_OwnerEnvelope : string }.
Record recoveryBundleRequest := MkRecoveryBundleRequest {
  rbr_Bundle : string; rbr_AccountIdentityPublicKey : string; rbr_Signature : string;
}.

(** ** Responses *)

Record sessionResponse := MkSessionResponse {
  sr_User_ID : string; sr_User_Username : string; sr_User_Role : string;
  sr_Device_ID : string; sr_Device_Platform : string;
  sr_AccessToken : string; sr_AccessTokenExpiresAt : string;
  sr_RefreshToken : string; sr_RefreshTokenExpiresAt : string;
}.
(** The certificate fields of a device; zero values are omitted. *)
Record certificateFields := MkCertificateFields {
  cf_SignatureVersion : Z; cf_AccountIdentityPublicKey : string; cf_PublicKeySignature : string;
}.
Record deviceResponse := MkDeviceResponse {
  dr_ID : string; dr_Name : string; dr_Platform : string; dr_PublicKey : string; dr_KeyVersion : Z;
  dr_CreatedAt : string; dr_LastSeenAt : string; dr_LastSyncAt : option string; dr_RevokedAt : option string;
  dr_HasVaultKey : bool;
  dr_Certificate : certificateFields;
}.
Record shareDeviceResponse := MkShareDeviceResponse {
  sdr_ID : string; sdr_Platform : string; sdr_PublicKey : string; sdr_KeyVersion : Z;
  sdr_Certificate : certificateFields;
}.
(** The map [downloadKeyEnvelope] answers with; the certificate comes with the
    version of the device key. *)
Record keyEnvelopeResponse := MkKeyEnvelopeResponse {
  ker_ID : string; ker_VaultID : string; ker_KeyVersion : Z; ker_Ciphertext : string;
  ker_Certificate : option (Z * certificateFields);
}.
Record nodeResponse := MkNodeResponse {
  nr_ID : string; nr_ParentID : option string; nr_NodeType : string; nr_MetadataCiphertext : string;
  nr_MetadataKeyVersion : Z; nr_MetadataKeyScopeID : string; nr_CurrentVersionID : option string;
  nr_Revision : Z; nr_CreatedAt : string; nr_UpdatedAt : string; nr_DeletedAt : option string;
}.
Record uploadSessionResponse := MkUploadSessionResponse { usr_ID : string; usr_ChunkCount : Z; usr_ReceivedChunks : list Z }.
Record completeUploadResponse := MkCompleteUploadResponse { cur_Blob : string; cur_FileVersion : string; cur_Revision : Z }.
Record fileVersionResponse := MkFileVersionResponse {
  fvr_ID : string; fvr_BlobID : string; fvr_E2eeHeader : string; fvr_WrappedFileKey : string;
  fvr_KeyScopeID : string; fvr_KeyVersion : Z; fvr_CreatedAt : string; fvr_CreatedByDeviceID : string;
  fvr_Revision : Z; fvr_ChunkCount : Z; fvr_CiphertextSize : Z;
}.
Record shareEnvelopeResponse := MkShareEnvelopeResponse {
  sev_TargetDeviceID : string; sev_KeyVersion : Z; sev_Ciphertext : string;
  sev_OwnerIdentityPublicKey : string; sev_OwnerSignature : string;
}.
Record shareResponse := MkShareResponse {
  shr_ID : string; shr_NodeID : string; shr_OwnerUserID : string; shr_OwnerUsername : string;
  shr_TargetUserID : string; shr_TargetUsername : string; shr_Permission : string; shr_CreatedAt : string;
  shr_Envelopes : list shareEnvelopeResponse;
}.
Record folderKeyResponse := MkFolderKeyResponse {
  fkr_FolderID : string; fkr_KeyVersion : Z; fkr_OwnerEnvelope : string; fkr_CreatedAt : string;
}.
Record syncChangeResponse := MkSyncChangeResponse {
  scr_Revision : Z; scr_NodeID : option string; scr_Operation : string; scr_Payload : string; scr_CreatedAt : string;
}.
Record syncChangesResponse := MkSyncChangesResponse {
  spr_Changes : list syncChangeResponse; spr_NextAfter : Z; spr_HasMore : bool;
}.
Record recoveryBundleResponse := MkRecoveryBundleResponse {
  rbp_Bundle : string; rbp_UpdatedAt : string; rbp_UpdatedByDeviceID : string;
}.
Record favoriteResponse := MkFavoriteResponse { fr_NodeID : string; fr_CreatedAt : string }.

(** Every body a successful answer can have. *)
Inductive Reply : Type :=
| ReplySession (r : sessionResponse)
| ReplyUser (id username role : string)
| ReplyShareDevices (l : list shareDeviceResponse)
| ReplyDevices (l : list deviceResponse)
| ReplyID (id : string)
| ReplyKeyEnvelope (r : keyEnvelopeResponse)
| ReplyNode (r : nodeResponse)
| ReplyNodes (l : list nodeResponse)
| ReplyUpload (r : uploadSessionResponse)
| ReplyComplete (r : completeUploadResponse)
| ReplyFile (version : string) (served : Served)
| ReplyVersions (l : list fileVersionResponse)
| ReplyShare (r : shareResponse)
| ReplyShares (l : list shareResponse)
| ReplyFolderKey (r : folderKeyResponse)
| ReplyFolderKeys (l : list folderKeyResponse)
| ReplySync (r : syncChangesResponse)
| ReplyRecovery (r : recoveryBundleResponse)
| ReplyFavorites (l : list favoriteResponse).

Definition Handler : Type := H Reply Empty_set.

(** ** Conversions *)

Definition toSessionResponse (s : Session.Session) : sessionResponse :=
  let u := Session_User s in let dev := Session_Device s in
  MkSessionResponse (User_ID u) (Username u) (Role u) (Device_ID dev) (Device_Platform dev)
    (AccessToken s) (Format (AccessTokenExpiresAt s)) (RefreshToken s) (Format (RefreshTokenExpiresAt s)).

Definition no_certificate : certificateFields := MkCertificateFields 0 "" "".
Definition certificateFields_of (c : option Certification) : certificateFields :=
  match c with
  | Some c => MkCertificateFields (cert_SignatureVersion c) (EncodeToString (cert_AccountPublicKey c))
                (EncodeToString (cert_DeviceSignature c))
  | None => no_certificate
  end.

Definition toDeviceResponse (d : Session.Device) : deviceResponse :=
  MkDeviceResponse (Device_ID d) (Device_Name d) (Device_Platform d) (EncodeToString (Device_PublicKey d)) (Device_KeyVersion d)
    (Format (Device_CreatedAt d)) (Format (LastSeenAt d)) (Format <$> LastSyncAt d) (Format <$> RevokedAt d) false no_certificate.

Definition toNodeResponse (n : Nodes.Node) : nodeResponse :=
  MkNodeResponse (Nodes.ID n) (Nodes.ParentID n) (Nodes.NodeType n) (EncodeToString (Nodes.MetadataCiphertext n))
    (Nodes.MetadataKeyVersion n) (Nodes.MetadataKeyScopeID n) (Nodes.CurrentVersionID n) (Nodes.Revision n)
    (Format (Nodes.CreatedAt n)) (Format (Nodes.UpdatedAt n)) (Format <$> Nodes.DeletedAt n).

Definition toUploadSessionResponse (s : Uploads.Session) : uploadSessionResponse :=
  MkUploadSessionResponse (Uploads.s_ID s) (Uploads.s_ChunkCount s) (Uploads.s_ReceivedChunks s).

Definition toFileVersionResponse (v : Uploads.FileVersionView) : fileVersionResponse :=
  MkFileVersionResponse (Uploads.v_ID v) (Uploads.v_BlobID v) (EncodeToString (Uploads.v_E2EEHeader v))
    (EncodeToString (Uploads.v_WrappedFileKey v)) (Uploads.v_KeyScopeID v) (Uploads.v_KeyVersion v)
    (Format (Uploads.v_CreatedAt v)) (Uploads.v_CreatedByDeviceID v) (Uploads.v_Revision v) (Uploads.v_ChunkCount v)
    (Uploads.v_CiphertextSize v).

Definition toShareEnvelope (e : Sharing.DeviceEnvelope) : shareEnvelopeResponse :=
  MkShareEnvelopeResponse (Sharing.TargetDeviceID e) (Sharing.EnvKeyVersion e) (EncodeToString (Sharing.Ciphertext e))
    (EncodeToString (Sharing.OwnerIdentityPublicKey e)) (EncodeToString (Sharing.OwnerSignature e)).

Definition toShareResponse (s : Sharing.Share) : shareResponse :=
  MkShareResponse (Share_ID s) (Share_NodeID s) (Share_OwnerUserID s) (Share_OwnerUsername s) (Share_TargetUserID s)
    (Share_TargetUsername s) (Share_Permission s) (Format (Share_CreatedAt s)) (map toShareEnvelope (Share_Envelopes s)).

Definition toFolderKeyResponse (k : Sharing.FolderKeyView) : folderKeyResponse :=
  MkFolderKeyResponse (FolderID k) (FolderKeyVersion k) (EncodeToString (OwnerEnvelope k)) (Format (FolderKeyCreatedAt k)).

Definition toSyncChange (c : Sync.Change) : syncChangeResponse :=
  MkSyncChangeResponse (Change_Revision c) (Change_NodeID c) (Change_Operation c)
    (match Change_Payload c with [] => "" | p => EncodeToString p end) (Format (Change_CreatedAt c)).

Definition toFavoriteResponse (f : Favorites.Favorite) : favoriteResponse :=
  MkFavoriteResponse (Favorite_NodeID f) (Format (Favorite_CreatedAt f)).
