(* ===== verification/HttpAuth.v ===== *)
(** * Package internal/httpapi: sessions, devices and key envelopes

    The handlers of [internal/httpapi/httpapi.go] and
    [internal/httpapi/recovery.go].  [userID] and [deviceID] are what
    [authenticated] put in the request's context. *)

From S2P Require Import Prelude GoText GoTime Uuid Schema Fixture Auth Session DeviceAuth Provisioning Recovery HttpApi HttpBodies.
From Stdlib Require Import String.
Local Open Scope string_scope.

Section handlers.
Context {U : UuidLib} {TP : TimeParser} {A2 : Argon2} {E : Ed25519} (api : API) (env : RequestEnv).

(** ** Sessions *)

Definition login (remoteAddr : string) (body : option loginRequest) : Handler :=
  req ← decodeJSON env body;
  let dev := lr_Device req in
  publicKey ← field env "device.publicKey must be base64-encoded" (drb_PublicKey dev);
  session ← call env (on_auth
    (Session.Login (call_clk env 1) (call_newid env 1) (call_rand env 1) (HttpApi.accessTokenTTL api) (map_range env)
       (HttpApi.dummyPasswordHash api) (clientAddress remoteAddr) (lr_Username req) (lr_Password req)
       (Session.MkRegistration (drb_ID dev) (drb_Name dev) (drb_Platform dev) publicKey (drb_KeyVersion dev))));
  writeJSON 200 (ReplySession (toSessionResponse session)).

Definition refresh (body : option refreshTokenRequest) : Handler :=
  req ← decodeJSON env body;
  session ← call env (on_database
    (Session.Refresh (call_clk env 1) (call_newid env 1) (call_rand env 1) (HttpApi.accessTokenTTL api) (rtr_RefreshToken req)));
  writeJSON 200 (ReplySession (toSessionResponse session)).

Definition logout (body : option refreshTokenRequest) : Handler :=
  req ← decodeJSON env body;
  call_or (writeInternalError env "logout" "failed to logout")
    (on_database (Session.Logout (call_clk env 1) (rtr_RefreshToken req))) ;;
  writeStatus 204.

Definition getMe (userID : string) : Handler :=
  user ← call env (reading (Session.GetUser userID));
  writeJSON 200 (ReplyUser (User_ID user) (Username user) (Role user)).

(** ** Devices *)

Definition listShareDevices (id : string) : Handler :=
  userID ← pathUUID env "id" id;
  let failed {A} : error -> H Reply A := writeInternalError env "list share devices" "failed to list recipient devices" in
  devices ← call_or failed (reading (fun d => Ok (Session.ListShareableDevices userID d)));
  if Nat.eqb (List.length devices) 0 then writeError env 404 "NOT_FOUND" "no active recipient device found"
  else
    certificates ← call_or failed (reading (Provisioning.LatestCertifications userID));
    writeJSON 200 (ReplyShareDevices (map (fun device =>
      MkShareDeviceResponse (sd_ID device) (sd_Platform device) (EncodeToString (sd_PublicKey device)) (sd_KeyVersion device)
        (certificateFields_of (certificates !! sd_ID device))) devices)).

Definition with_vault_key (approved : gmap string bool) (certificates : gmap string Certification) (d : Session.Device)
    : deviceResponse :=
  let r := toDeviceResponse d in
  MkDeviceResponse (dr_ID r) (dr_Name r) (dr_Platform r) (dr_PublicKey r) (dr_KeyVersion r) (dr_CreatedAt r)
    (dr_LastSeenAt r) (dr_LastSyncAt r) (dr_RevokedAt r) (default false (approved !! Device_ID d))
    (certificateFields_of (certificates !! Device_ID d)).

Definition listDevices (userID : string) : Handler :=
  let failed {A} : error -> H Reply A := writeInternalError env "list devices" "failed to list devices" in
  devices ← call_or failed (reading (Session.ListDevices userID));
  approved ← call_or failed (reading (Provisioning.ActiveEnvelopeDeviceIDs userID));
  certificates ← call_or failed (reading (Provisioning.LatestCertifications userID));
  writeJSON 200 (ReplyDevices (map (with_vault_key approved certificates) devices)).

Definition revokeDevice (userID id : string) : Handler :=
  targetDeviceID ← pathDeviceID env id;
  call env (on_database (Session.RevokeDevice (call_clk env 1) userID targetDeviceID)) ;;
  writeStatus 204.

(** ** Key envelopes *)

Definition uploadKeyEnvelope (userID id : string) (body : option uploadEnvelopeRequest) : Handler :=
  targetDeviceID ← pathDeviceID env id;
  req ← decodeJSON env body;
  ciphertext ← field env "ciphertext must be base64-encoded" (uer_Ciphertext req);
  target ← call env (reading (Session.GetDevice userID targetDeviceID));
  if is_valid (RevokedAt target) then writeServiceError env (EAuth AuthErrDeviceRevoked)
  else if (uer_SignatureVersion req =? 0)%Z || String.eqb (uer_AccountIdentityPublicKey req) ""
          || String.eqb (uer_PublicKeySignature req) ""
  then badRequest env "a device key certificate is required for new key envelopes"
  else
    accountPublicKey ← field env "accountIdentityPublicKey must be base64-encoded" (uer_AccountIdentityPublicKey req);
    deviceSignature ← field env "publicKeySignature must be base64-encoded" (uer_PublicKeySignature req);
    envelope ← call env (on_database
      (Provisioning.UploadAuthenticated (call_clk env 1) (call_newid env 1) (uer_VaultID req) userID targetDeviceID
         (uer_KeyVersion req) ciphertext (Device_PublicKey target) (Device_KeyVersion target)
         (Some (MkCertification (uer_SignatureVersion req) accountPublicKey deviceSignature))));
    writeJSON 201 (ReplyID (envelope_ID envelope)).

Definition downloadKeyEnvelope (userID deviceID id : string) : Handler :=
  targetDeviceID ← pathDeviceID env id;
  if negb (String.eqb targetDeviceID deviceID)
  then writeError env 403 "FORBIDDEN" "a device may only download its own key envelope"
  else
    envelope ← call env (reading (Provisioning.Latest targetDeviceID));
    target ← call env (reading (Session.GetDevice userID targetDeviceID));
    writeJSON 200 (ReplyKeyEnvelope
      (MkKeyEnvelopeResponse (envelope_ID envelope) (envelope_VaultID envelope) (envelope_KeyVersion envelope)
         (EncodeToString (envelope_Ciphertext envelope))
         ((fun c => (Device_KeyVersion target, certificateFields_of (Some c))) <$> envelope_Certification envelope))).

(** ** Recovery bundles *)

Definition getRecoveryBundle (userID : string) : Handler :=
  bundle ← call env (reading (Recovery.Get userID));
  writeJSON 200 (ReplyRecovery
    (MkRecoveryBundleResponse (EncodeToString (bundle_Bundle bundle)) (Format (bundle_UpdatedAt bundle))
       (bundle_UpdatedByDeviceID bundle))).

Definition putRecoveryBundle (userID deviceID : string) (body : option recoveryBundleRequest) : Handler :=
  req ← decodeJSON env body;
  bundle ← field env "bundle must be base64-encoded" (rbr_Bundle req);
  publicKey ← field env "accountIdentityPublicKey must be base64-encoded" (rbr_AccountIdentityPublicKey req);
  signature ← field env "signature must be base64-encoded" (rbr_Signature req);
  call env (on_database (Recovery.Put (call_clk env 1) userID deviceID bundle publicKey signature)) ;;
  writeStatus 204.
End handlers.
