(* ===== verification/HttpVault.v ===== *)
(** * Package internal/httpapi: nodes, uploads, shares, sync and favorites

    The handlers of [internal/httpapi/nodes.go], [uploads.go], [shares.go],
    [sync.go] and [favorites.go]. *)

From S2P Require Import Prelude GoText GoTime Uuid Schema Fixture Auth Session Nodes Sync Favorites Sharing Uploads Maintenance HttpApi HttpBodies GoServeContent.
From Stdlib Require Import String.
Local Open Scope string_scope.

Section handlers.
Context {U : UuidLib} {TP : TimeParser} (api : API) (env : RequestEnv).

(** ** Nodes *)

Definition createNode (userID deviceID : string) (body : option createNodeRequest) : Handler :=
  req ← decodeJSON env body;
  metadata ← field env "metadataCiphertext must be base64-encoded" (cnr_MetadataCiphertext req);
  node ← call env (on_database (Nodes.Create (call_clk env 1)
    (Nodes.MkCreateInput (cnr_ID req) userID deviceID (cnr_OperationID req) (cnr_ParentID req) (cnr_NodeType req)
       metadata (cnr_MetadataKeyVersion req) (cnr_MetadataKeyScopeID req))));
  writeJSON 201 (ReplyNode (toNodeResponse node)).

Definition getNode (userID id : string) : Handler :=
  id ← pathUUID env "id" id;
  node ← call env (reading (Nodes.Get userID id));
  writeJSON 200 (ReplyNode (toNodeResponse node)).

Definition listChildren (userID parentId limit after ownedOnly : string) : Handler :=
  parentID ← (if String.eqb parentId "" then mret None
              else if negb (canonicalUUID parentId) then badRequest env "invalid parentId"
              else mret (Some parentId) : H Reply (option string));
  limit ← queryInt env "limit" limit 0;
  if (limit <? 0)%Z || (MaxPageSize <? limit)%Z then badRequest env "invalid limit"
  else if negb (String.eqb after "") && (limit =? 0)%Z then badRequest env "after requires limit"
  else if String.eqb ownedOnly "true" && is_valid parentID then badRequest env "ownedOnly is valid only for root nodes"
  else
    let page := Nodes.MkPageRequest limit after in
    listed ← call env (reading (if String.eqb ownedOnly "true" then Nodes.ListOwnedRootsPage userID page
                                else Nodes.ListChildrenPage userID parentID page));
    respond (MkResponse 200 (if String.eqb listed.2 "" then None else Some listed.2)
      (Content (ReplyNodes (map toNodeResponse listed.1)))).

Definition listTrash (userID : string) : Handler :=
  trashed ← call env (reading (Nodes.ListTrash userID));
  writeJSON 200 (ReplyNodes (map toNodeResponse trashed)).

Definition updateNode (userID deviceID id : string) (body : option updateNodeRequest) : Handler :=
  id ← pathUUID env "id" id;
  req ← decodeJSON env body;
  metadata ← (match unr_MetadataCiphertext req with
              | Some m => field env "metadataCiphertext must be base64-encoded" m
              | None => mret []
              end : H Reply (list byte));
  node ← call env (on_database (Nodes.Update (call_clk env 1)
    (Nodes.MkUpdateInput userID deviceID (unr_OperationID req) id (unr_ExpectedRevision req) metadata
       (unr_MetadataKeyVersion req) (unr_MetadataKeyScopeID req) (unr_MoveParent req) (unr_ParentID req))));
  writeJSON 200 (ReplyNode (toNodeResponse node)).

(** The loops that decode a batch, in order, answering at the first bad field. *)
Fixpoint decode_list {A B} (f : A -> H Reply B) (l : list A) : H Reply (list B) :=
  match l with
  | [] => mret []
  | x :: rest => y ← f x; ys ← decode_list f rest; mret (y :: ys)
  end.

Definition decodeRekeyVersion (v : rekeyVersionRequest) : H Reply Nodes.RekeyVersion :=
  wrapped ← field env "wrappedFileKey must be base64-encoded" (rvr_WrappedFileKey v);
  mret (Nodes.MkRekeyVersion (rvr_ID v) wrapped (rvr_KeyScopeID v) (rvr_KeyVersion v)).

Definition decodeRekeyItem (i : rekeyItemRequest) : H Reply Nodes.RekeyItem :=
  metadata ← field env "metadataCiphertext must be base64-encoded" (rir_MetadataCiphertext i);
  versions ← decode_list decodeRekeyVersion (rir_FileVersions i);
  mret (Nodes.MkRekeyItem (rir_NodeID i) (rir_ExpectedRevision i) metadata (rir_MetadataKeyVersion i)
          (rir_MetadataKeyScopeID i) versions).

Definition rekeyNodes (userID deviceID : string) (body : option rekeyRequest) : Handler :=
  req ← decodeJSON env body;
  items ← decode_list decodeRekeyItem (rr_Items req);
  updated ← call env (on_database (Nodes.Rekey (call_clk env 1) (Nodes.MkRekeyInput userID deviceID items)));
  writeJSON 200 (ReplyNodes (map toNodeResponse updated)).

Definition deleteNode (userID deviceID id : string) (body : option deleteOrRestoreRequest) : Handler :=
  id ← pathUUID env "id" id;
  req ← decodeJSON env body;
  call env (on_database (Nodes.Delete (call_clk env 1) userID deviceID id (dor_OperationID req) (dor_ExpectedRevision req))) ;;
  writeStatus 204.

Definition restoreNode (userID deviceID id : string) (body : option deleteOrRestoreRequest) : Handler :=
  id ← pathUUID env "id" id;
  req ← decodeJSON env body;
  node ← call env (on_database (Nodes.Restore (call_clk env 1) userID deviceID id (dor_OperationID req)));
  writeJSON 200 (ReplyNode (toNodeResponse node)).

(** ** Uploads *)

Definition createUpload (userID deviceID : string) (body : option createUploadRequest) : Handler :=
  req ← decodeJSON env body;
  match DecodeString (cur_MetadataCiphertext req), DecodeString (cur_WrappedFileKey req), DecodeString (cur_E2eeHeader req) with
  | Some metadata, Some wrappedKey, Some header =>
      session ← call env (on_world (Uploads.Create (uploads_service api) (call_clk env 1) (call_newid env 1)
        (Uploads.MkCreateInput userID deviceID (cur_TargetNodeID req) (cur_FileVersionID req) (cur_BlobID req)
           (cur_ExpectedRevision req) (cur_ChunkSize req) (cur_ChunkCount req) (cur_MetadataKeyVersion req)
           metadata wrappedKey header)));
      writeJSON 201 (ReplyUpload (toUploadSessionResponse session))
  | _, _, _ => badRequest env "metadataCiphertext, wrappedFileKey, and e2eeHeader must be base64-encoded"
  end.

Definition getUpload (userID deviceID id : string) : Handler :=
  id ← pathUUID env "id" id;
  session ← call env (on_world (Uploads.Get userID deviceID id));
  writeJSON 200 (ReplyUpload (toUploadSessionResponse session)).

(** [body] is [None] when reading it fails. *)
Definition putUploadChunk (userID deviceID id chunkNo : string) (body : option (list byte)) : Handler :=
  id ← pathUUID env "id" id;
  chunkNo ← pathInt env "chunkNo" chunkNo;
  ciphertext ← (match body with
                | Some l => if (MaxChunkCiphertextSize <? Z.of_nat (List.length l))%Z
                            then writeError env 413 "UPLOAD_CHUNK_INVALID" "chunk exceeds the maximum ciphertext chunk size"
                            else mret l
                | None => writeError env 400 "UPLOAD_CHUNK_INVALID" "could not read chunk body"
                end : H Reply (list byte));
  call env (on_world (Uploads.PutChunk (call_clk env 1) userID deviceID id chunkNo ciphertext)) ;;
  writeStatus 204.

Definition completeUpload (userID deviceID id : string) (body : option completeUploadRequest) : Handler :=
  id ← pathUUID env "id" id;
  req ← decodeJSON env body;
  payload ← (if String.eqb (cpr_SyncPayloadCiphertext req) "" then mret []
             else field env "syncPayloadCiphertext must be base64-encoded" (cpr_SyncPayloadCiphertext req) : H Reply (list byte));
  result ← call env (on_world (Uploads.Complete (uploads_service api) (call_clk env 1) id
    (Uploads.MkCompleteInput userID deviceID (cpr_OperationID req) (cpr_KeyScopeID req) (cpr_ExpectedRevision req)
       (cpr_KeyVersion req) payload)));
  writeJSON 200 (ReplyComplete (MkCompleteUploadResponse (cr_BlobID result) (cr_FileVersionID result) (cr_Revision result))).

Definition abortUpload (userID deviceID id : string) : Handler :=
  id ← pathUUID env "id" id;
  call env (on_world (Uploads.Abort_ userID deviceID id)) ;;
  writeStatus 204.

(** [os.Open]: [NotExist] is [os.ErrNotExist], any other failure is the
    system's. *)
Inductive opened := Opened (content : list byte) | NotExist | OpenFailed (what : string).
Definition openFile (path : string) : M Server opened := fun s =>
  (Ok (match open_fails env path with
       | Some what => OpenFailed what
       | None => match files (world s) !! path with Some content => Opened content | None => NotExist end
       end), s).

(** The [ETag] header of a version's content. *)
Definition file_etag (version : string) : string := String quote (version ++ String quote "").

Definition downloadFileContent (userID id versionId : string) (c : Conditions) : Handler :=
  id ← pathUUID env "id" id;
  node ← call env (reading (Nodes.Get userID id));
  match Nodes.CurrentVersionID node with
  | Some current =>
      if negb (String.eqb (Nodes.NodeType node) "FILE") || Nodes.Node_IsDeleted node
      then writeError env 404 "NOT_FOUND" "node has no file content yet"
      else
        versionID ← (if String.eqb versionId "" then mret current
                     else if negb (canonicalUUID versionId) then badRequest env "versionId must be a UUID"
                     else mret versionId : H Reply string);
        blob ← call env (reading (Uploads.OpenNodeBlob id versionID));
        file ← call env (openFile blob.1);
        match file with
        | NotExist => writeInternalError env "download ciphertext" "stored ciphertext is missing" (Internal "file does not exist")
        | OpenFailed what => writeInternalError env "download ciphertext" "failed to open stored ciphertext" (Internal what)
        | Opened content =>
            match stat_fails env blob.1 with
            | Some what => writeInternalError env "download ciphertext" "failed to open stored ciphertext" (Internal what)
            | None =>
                if negb (Z.of_nat (List.length content) =? blob.2)%Z
                then writeInternalError env "download ciphertext" "stored ciphertext is damaged" (Internal "size mismatch")
                else
                  let served := ServeContent (file_etag versionID) (boundary env) c content in
                  respond (MkResponse (served_status served) None (Content (ReplyFile versionID served)))
            end
        end
  | None => writeError env 404 "NOT_FOUND" "node has no file content yet"
  end.

Definition listFileVersions (userID id : string) : Handler :=
  id ← pathUUID env "id" id;
  node ← call env (reading (Nodes.Get userID id));
  if negb (String.eqb (Nodes.NodeType node) "FILE") then badRequest env "node is not a file"
  else
    versions ← call env (reading (Uploads.ListVersions id));
    writeJSON 200 (ReplyVersions (map toFileVersionResponse versions)).

(** ** Shares and folder keys *)

Definition decodeShareEnvelope (e : shareEnvelopeRequest) : H Reply Sharing.DeviceEnvelope :=
  match DecodeString (ser_Ciphertext e), DecodeString (ser_OwnerIdentityPublicKey e), DecodeString (ser_OwnerSignature e) with
  | Some ciphertext, Some identity, Some signature =>
      mret (Sharing.MkDeviceEnvelope (ser_TargetDeviceID e) (ser_KeyVersion e) ciphertext identity signature)
  | _, _, _ => badRequest env "share envelope fields must be base64-encoded"
  end.
Definition decodeShareEnvelopes : list shareEnvelopeRequest -> H Reply (list Sharing.DeviceEnvelope) :=
  decode_list decodeShareEnvelope.

Definition createShare (userID deviceID : string) (body : option createShareRequest) : Handler :=
  req ← decodeJSON env body;
  envelopes ← decodeShareEnvelopes (csr_Envelopes req);
  share ← call env (on_database (Sharing.CreateGrant (call_clk env 1) (call_newid env 1)
    (Sharing.MkCreateInput userID deviceID (csr_OperationID req) (csr_NodeID req) (csr_TargetUserID req)
       (csr_Permission req) envelopes)));
  writeJSON 201 (ReplyShare (toShareResponse share)).

Definition addShareEnvelopes (userID deviceID id : string) (body : option addShareEnvelopesRequest) : Handler :=
  shareID ← pathUUID env "id" id;
  req ← decodeJSON env body;
  envelopes ← decodeShareEnvelopes (aer_Envelopes req);
  share ← call env (on_database (Sharing.AddEnvelopes (call_clk env 1) (call_newid env 1) userID deviceID shareID envelopes));
  writeJSON 200 (ReplyShare (toShareResponse share)).

Definition writeShares (shares : list Sharing.Share) : Handler := writeJSON 200 (ReplyShares (map toShareResponse shares)).

Definition listIncomingShares (userID deviceID : string) : Handler :=
  shares ← call env (reading (Sharing.ListIncoming userID deviceID)); writeShares shares.

Definition listOutgoingShares (userID : string) : Handler :=
  shares ← call env (reading (Sharing.ListOutgoing userID)); writeShares shares.

Definition revokeShare (userID deviceID id : string) : Handler :=
  shareID ← pathUUID env "id" id;
  call env (on_database (Sharing.Revoke (call_clk env 1) userID deviceID shareID)) ;;
  writeStatus 204.

Definition createFolderKey (userID deviceID id : string) (body : option createFolderKeyRequest) : Handler :=
  folderID ← pathUUID env "id" id;
  req ← decodeJSON env body;
  envelope ← field env "ownerEnvelope must be base64-encoded" (cfr_OwnerEnvelope req);
  key ← call env (on_database (Sharing.CreateFolderKey (call_clk env 1) userID deviceID folderID (cfr_KeyVersion req) envelope));
  writeJSON 201 (ReplyFolderKey (toFolderKeyResponse key)).

Definition listFolderKeys (userID : string) : Handler :=
  keys ← call env (reading (Sharing.ListFolderKeys userID));
  writeJSON 200 (ReplyFolderKeys (map toFolderKeyResponse keys)).

(** ** Sync and favorites *)

Definition syncChanges (userID deviceID after pageSize : string) : Handler :=
  after ← queryInt64 env "after" after 0;
  pageSize ← queryInt env "pageSize" pageSize 0;
  page ← call env (reading (Sync.Changes (sync_service api) userID after pageSize));
  call env (on_database (Session.RecordSync (call_clk env 1) userID deviceID)) ;;
  writeJSON 200 (ReplySync (MkSyncChangesResponse (map toSyncChange (Page_Changes page)) (NextAfter page) (HasMore page))).

Definition listFavorites (userID : string) : Handler :=
  list ← call env (reading (Favorites.List userID));
  writeJSON 200 (ReplyFavorites (map toFavoriteResponse list)).

Definition addFavorite (userID id : string) : Handler :=
  nodeID ← pathUUID env "id" id;
  call env (on_database (Favorites.Add (call_clk env 1) userID nodeID)) ;;
  writeStatus 204.

Definition removeFavorite (userID id : string) : Handler :=
  nodeID ← pathUUID env "id" id;
  call env (on_database (Favorites.Remove userID nodeID)) ;;
  writeStatus 204.

Definition purgeTrashEntry (userID id : string) : Handler :=
  nodeID ← pathUUID env "id" id;
  call env (on_world (Maintenance.PurgeTrashEntry (call_clk env 1) userID nodeID)) ;;
  writeStatus 204.
End handlers.
