(* ===== verification/HttpRoutes.v ===== *)
(** * Package internal/httpapi: the routes

    [New] of [internal/httpapi/httpapi.go]: every route with its handler, and
    which routes [authenticated] protects.  [http.ServeMux] picks the route
    from the method and the path; a [Route] is one pattern with its path
    values, the query values it reads ([""] when absent) and its body. *)

From S2P Require Import Prelude GoText GoTime Uuid Schema Fixture Auth Session DeviceAuth HttpApi HttpBodies GoServeContent HttpAuth HttpVault.
From Stdlib Require Import String.
Local Open Scope string_scope.

(** The routes anybody may call. *)
Inductive OpenRoute : Type :=
| PostLogin (body : option loginRequest)
| PostRefresh (body : option refreshTokenRequest)
| PostLogout (body : option refreshTokenRequest).

(** The routes behind [authenticated]. *)
Inductive ProtectedRoute : Type :=
| GetUsersMe
| GetRecovery
| PutRecovery (body : option recoveryBundleRequest)
| GetShareDevices (id : string)
| PostShares (body : option createShareRequest)
| GetSharesIncoming
| GetSharesOutgoing
| DeleteShare (id : string)
| PostShareEnvelopes (id : string) (body : option addShareEnvelopesRequest)
| GetFolderKeys
| PostFolderKeys (id : string) (body : option createFolderKeyRequest)
| PostRekey (body : option rekeyRequest)
| GetDevices
| DeleteDevice (id : string)
| PostKeyEnvelope (id : string) (body : option uploadEnvelopeRequest)
| GetKeyEnvelope (id : string)
| PostNodes (body : option createNodeRequest)
| GetChildren (parentId limit after ownedOnly : string)
| GetNode (id : string)
| PatchNode (id : string) (body : option updateNodeRequest)
| DeleteNode (id : string) (body : option deleteOrRestoreRequest)
| PostRestore (id : string) (body : option deleteOrRestoreRequest)
| GetTrash
| DeleteTrash (id : string)
| GetFavorites
| PutFavorite (id : string)
| DeleteFavorite (id : string)
| GetSyncChanges (after pageSize : string)
| PostUploads (body : option createUploadRequest)
| GetUpload (id : string)
| PutChunk (id chunkNo : string) (body : option (list byte))
| PostComplete (id : string) (body : option completeUploadRequest)
| DeleteUpload (id : string)
| GetContent (id versionId : string) (c : Conditions)
| GetVersions (id : string).

Inductive Route : Type :=
| Open (r : OpenRoute)
| Protected (r : ProtectedRoute).

Record Request := MkRequest {
  rq_Authorization : string;   (* [""] when the header is absent *)
  rq_RemoteAddr : string;
  rq_route : Route;
}.

Section routes.
Context {U : UuidLib} {TP : TimeParser} {A2 : Argon2} {E : Ed25519} (api : API) (env : RequestEnv).

Definition open_handler (remoteAddr : string) (r : OpenRoute) : Handler :=
  match r with
  | PostLogin body => login api env remoteAddr body
  | PostRefresh body => refresh api env body
  | PostLogout body => logout env body
  end.

Definition protected_handler (r : ProtectedRoute) (user device : string) : Handler :=
  match r with
  | GetUsersMe => getMe env user
  | GetRecovery => getRecoveryBundle env user
  | PutRecovery body => putRecoveryBundle env user device body
  | GetShareDevices id => listShareDevices env id
  | PostShares body => createShare env user device body
  | GetSharesIncoming => listIncomingShares env user device
  | GetSharesOutgoing => listOutgoingShares env user
  | DeleteShare id => revokeShare env user device id
  | PostShareEnvelopes id body => addShareEnvelopes env user device id body
  | GetFolderKeys => listFolderKeys env user
  | PostFolderKeys id body => createFolderKey env user device id body
  | PostRekey body => rekeyNodes env user device body
  | GetDevices => listDevices env user
  | DeleteDevice id => revokeDevice env user id
  | PostKeyEnvelope id body => uploadKeyEnvelope env user id body
  | GetKeyEnvelope id => downloadKeyEnvelope env user device id
  | PostNodes body => createNode env user device body
  | GetChildren parentId limit after ownedOnly => listChildren env user parentId limit after ownedOnly
  | GetNode id => getNode env user id
  | PatchNode id body => updateNode env user device id body
  | DeleteNode id body => deleteNode env user device id body
  | PostRestore id body => restoreNode env user device id body
  | GetTrash => listTrash env user
  | DeleteTrash id => purgeTrashEntry env user id
  | GetFavorites => listFavorites env user
  | PutFavorite id => addFavorite env user id
  | DeleteFavorite id => removeFavorite env user id
  | GetSyncChanges after pageSize => syncChanges api env user device after pageSize
  | PostUploads body => createUpload api env user device body
  | GetUpload id => getUpload env user device id
  | PutChunk id chunkNo body => putUploadChunk env user device id chunkNo body
  | PostComplete id body => completeUpload api env user device id body
  | DeleteUpload id => abortUpload env user device id
  | GetContent id versionId c => downloadFileContent env user id versionId c
  | GetVersions id => listFileVersions env user id
  end.

Definition route_handler (rq : Request) : Handler :=
  match rq_route rq with
  | Open r => open_handler (rq_RemoteAddr rq) r
  | Protected r => authenticated env (rq_Authorization rq) (protected_handler r)
  end.

Definition ServeHTTP (rq : Request) (s : Server) : Response Reply * Server :=
  match route_handler rq s with
  | (inl r, s') => (r, s')
  | (inr never, _) => match never with end
  end.
End routes.
