(* ===== verification/HttpCorrect.v ===== *)
(** * What a request can do

    Every request has the effect of at most one call of one service, made by
    the account and device its token belongs to ([ServeHTTP_refines]).
    Without a valid token a protected route does nothing, and internal errors
    are logged under the identifier the client is told, never described to it. *)

From S2P Require Import Prelude GoText GoTime Uuid Schema Fixture Limiter Auth AuthCorrect Session SessionCorrect Nodes NodesSpec Favorites Sharing SharingCorrect Uploads UploadsStorage Maintenance DeviceAuth Provisioning Recovery HttpApi HttpBodies HttpAuth HttpVault HttpRoutes.
From Stdlib Require Import String.
Local Open Scope string_scope.

(** ** Computations that write nothing *)

(** Only the log may differ. *)
Definition quiet_step (s s' : Server) : Prop :=
  world s' = world s /\ srv_login s' = srv_login s /\ srv_account s' = srv_account s /\ srv_address s' = srv_address s.

#[export] Instance quiet_step_preorder : PreOrder quiet_step.
Proof. split; [done|]. intros a b c (?&?&?&?) (?&?&?&?). split_and!; congruence. Qed.

Section effects.
Context {CB : Type} {U : UuidLib} (env : RequestEnv).

Definition quiet {A} (h : H CB A) : Prop := forall s, quiet_step s (h s).2.
Definition quiet_m {A} (m : M Server A) : Prop := forall s, quiet_step s (m s).2.

(** The world changes as [W] says, if it changes at all. *)
Definition acts {A} (W : World -> World -> Prop) (h : H CB A) : Prop := forall s,
  quiet_step s (h s).2 \/
  (W (world s) (world (h s).2) /\ quiet_step s (set_world (world s) (h s).2)).

Lemma quiet_respond {A} r : quiet (respond r : H CB A).
Proof. intros s. reflexivity. Qed.
Lemma quiet_writeInternalError {A} op msg e : quiet (writeInternalError env op msg e : H CB A).
Proof. intros s. split_and!; reflexivity. Qed.
Lemma quiet_ret {A} (a : A) : quiet (mret a : H CB A).
Proof. intros s. reflexivity. Qed.
Lemma quiet_bind {A B} (m : H CB A) (f : A -> H CB B) : quiet m -> (forall a, quiet (f a)) -> quiet (m ≫= f).
Proof.
  intros Hm Hf s. unfold mbind, H_bind. specialize (Hm s). destruct (m s) as [[r|a] s1]; [done|]. etrans; [exact Hm|apply Hf].
Qed.
Lemma H_bind_mret {A B} (a : A) (f : A -> H CB B) : (mret a ≫= f) = f a.
Proof. done. Qed.
Lemma H_bind_respond {A B} r (f : A -> H CB B) : (respond r ≫= f) = respond r.
Proof. done. Qed.
Lemma quiet_writeServiceError {A} e : quiet (writeServiceError env e : H CB A).
Proof. unfold writeServiceError. repeat case_match; [apply quiet_respond|apply quiet_writeInternalError]. Qed.
Lemma quiet_call_or {A} (fail : error -> H CB A) m : quiet_m m -> (forall e, quiet (fail e)) -> quiet (call_or fail m).
Proof.
  intros Hm Hf s. unfold call_or. specialize (Hm s). destruct (m s) as [[a|e] s1]; [done|]. etrans; [exact Hm|apply Hf].
Qed.
Lemma quiet_call {A} (m : M Server A) : quiet_m m -> quiet (call env m : H CB A).
Proof. intros Hm. apply quiet_call_or; [done|]. intros e. apply quiet_writeServiceError. Qed.
Lemma quiet_reading {A} (q : DB -> result A) : quiet_m (reading q).
Proof. intros s. reflexivity. Qed.
Lemma quiet_openFile path : quiet_m (openFile env path).
Proof. intros s. reflexivity. Qed.

Lemma acts_quiet {A} W (h : H CB A) : quiet h -> acts W h.
Proof. intros Hh s. left. apply Hh. Qed.

Lemma acts_bind_quiet {A B} W (m : H CB A) (f : A -> H CB B) : quiet m -> (forall a, acts W (f a)) -> acts W (m ≫= f).
Proof.
  intros Hm Hf s. unfold mbind, H_bind. specialize (Hm s). destruct (m s) as [[r|a] s1]; [by left|]. cbn [snd] in Hm.
  destruct (Hf a s1) as [Hq|[HW Hq]]; [left; by etrans|right].
  destruct Hm as (Hw & H1 & H2 & H3). destruct Hq as (_ & Q1 & Q2 & Q3). simpl in Q1, Q2, Q3. rewrite <- Hw.
  split; [done|]. split_and!; simpl; congruence.
Qed.

Lemma acts_bind_last {A B} W (m : H CB A) (f : A -> H CB B) : acts W m -> (forall a, quiet (f a)) -> acts W (m ≫= f).
Proof.
  intros Hm Hf s. unfold mbind, H_bind. specialize (Hm s). destruct (m s) as [[r|a] s1]; [done|]. cbn [snd] in Hm.
  destruct (Hf a s1) as (Hw & H1 & H2 & H3). destruct Hm as [Hq|[HW Hq]].
  - left. etrans; [exact Hq|]. by split_and!.
  - right. rewrite Hw. split; [done|]. destruct Hq as (_ & Q1 & Q2 & Q3). simpl in Q1, Q2, Q3. split_and!; simpl; congruence.
Qed.

Lemma acts_call_or {A} W (m : M World A) (fail : error -> H CB A) :
  (forall w, W w (m w).2) -> (forall e, quiet (fail e)) -> acts W (call_or fail (on_world m)).
Proof.
  intros Hm Hf s. right. unfold call_or, on_world. specialize (Hm (world s)). destruct (m (world s)) as [[a|e] w1]; simpl in *; [done|].
  destruct (Hf e (set_world w1 s)) as (Hw & H1 & H2 & H3). rewrite Hw. split; [done|]. by split_and!.
Qed.
Lemma acts_call {A} W (m : M World A) : (forall w, W w (m w).2) -> acts W (call env (on_world m) : H CB A).
Proof. intros Hm. apply acts_call_or; [done|]. intros e. apply quiet_writeServiceError. Qed.
End effects.

(** [quiet] by the shape of the code. *)
Ltac solve_quiet :=
  repeat lazymatch goal with
  | |- quiet (mbind _ _) => apply quiet_bind; [|intros ?]
  | |- quiet (call _ (reading _)) => apply quiet_call, quiet_reading
  | |- quiet (call_or _ (reading _)) => apply quiet_call_or; [apply quiet_reading|intros ?]
  | |- quiet (call _ (openFile _ _)) => apply quiet_call, quiet_openFile
  | |- quiet (let _ := _ in _) => cbv zeta
  | |- quiet (writeInternalError _ _ _ _) => apply quiet_writeInternalError
  | |- quiet (writeServiceError _ _) => apply quiet_writeServiceError
  | |- quiet (mret _) => apply quiet_ret
  | |- quiet (match _ with _ => _ end) => case_match
  | |- quiet (decode_list _ _) => fail
  | |- quiet _ => first [apply quiet_respond | progress unfold decodeJSON, field, pathUUID, pathDeviceID, pathInt, queryInt, queryInt64, badRequest, writeError, writeJSON, writeStatus, writeShares]
  end.

(** ** The service calls of an account *)

Definition node_device (q : NodesSpec.request) : string :=
  match q with
  | RCreate i => Nodes.c_DeviceID i
  | RUpdate i => Nodes.u_DeviceID i
  | RDelete _ dev _ _ _ | RRestore _ dev _ _ => dev
  | RRekey i => Nodes.rk_DeviceID i
  end.
Definition upload_actor (q : upload_request) : string * string :=
  match q with
  | UCreate i => (Uploads.UserID i, Uploads.DeviceID i)
  | UPut u dev _ _ _ | UGet u dev _ | UAbort u dev _ => (u, dev)
  | UComplete _ i => (ci_UserID i, ci_DeviceID i)
  end.
Definition share_actor (q : share_request) : string * string :=
  match q with
  | RGrant i => (Sharing.OwnerUserID i, Sharing.OwnerDeviceID i)
  | RAddEnvelopes u dev _ _ | RRevoke u dev _ => (u, dev)
  end.

Section refinement.
Context {U : UuidLib} {TP : TimeParser} {A2 : Argon2} {E : Ed25519} (api : API) (env : RequestEnv).

Local Abbreviation clk := (call_clk env 1).
Local Abbreviation newid := (call_newid env 1).

(** One call of one service on behalf of [u] on the device [dev]. *)
Inductive service_call (u dev : string) : World -> World -> Prop :=
| call_nodes q w : actor q = u -> node_device q = dev -> service_call u dev w (on_db (NodesSpec.handle clk q) w).2
| call_upload q w : upload_actor q = (u, dev) -> service_call u dev w (upload_handle (uploads_service api) clk newid q w).2
| call_share q w : share_actor q = (u, dev) -> service_call u dev w (on_db (share_handle clk newid q) w).2
| call_folder_key folder version envelope w :
    service_call u dev w (on_db (CreateFolderKey clk u dev folder version envelope) w).2
| call_add_favorite node w : service_call u dev w (on_db (Favorites.Add clk u node) w).2
| call_remove_favorite node w : service_call u dev w (on_db (Favorites.Remove u node) w).2
| call_purge node w : service_call u dev w (PurgeTrashEntry clk u node w).2
| call_envelope vault target version ct key keyVersion c w :
    service_call u dev w (on_db (UploadAuthenticated clk newid vault u target version ct key keyVersion (Some c)) w).2
| call_bundle bundle key signature w : service_call u dev w (on_db (Recovery.Put clk u dev bundle key signature) w).2
| call_record_sync w : service_call u dev w (on_db (RecordSync clk u dev) w).2
| call_revoke_device target w : service_call u dev w (on_db (RevokeDevice clk u target) w).2.

Lemma bind_ret_world {St A B} (m : M St A) (f : A -> B) s : ((a ← m; mret (f a)) s).2 = (m s).2.
Proof. unfold mbind, M_bind. by destruct (m s) as [[a|e] s']. Qed.

Lemma on_db_world {A B} (m : M DB A) (m' : M DB B) w : (m (db w)).2 = (m' (db w)).2 -> (on_db m w).2 = (on_db m' w).2.
Proof. unfold on_db. destruct (m (db w)) as [r d], (m' (db w)) as [r' d']. simpl. by intros ->. Qed.

(** A method whose wrapper in the list of requests only drops its result. *)
Lemma call_nodes_as {A} q (m : M DB A) u dev w : actor q = u -> node_device q = dev ->
  (NodesSpec.handle clk q (db w)).2 = (m (db w)).2 -> service_call u dev w (on_db m w).2.
Proof. intros Hu Hd E0. rewrite <- (on_db_world _ m w E0). by apply call_nodes. Qed.
Lemma call_share_as {A} q (m : M DB A) u dev w : share_actor q = (u, dev) ->
  (share_handle clk newid q (db w)).2 = (m (db w)).2 -> service_call u dev w (on_db m w).2.
Proof. intros Hu E0. rewrite <- (on_db_world _ m w E0). by apply call_share. Qed.
Lemma call_upload_as {A} q (m : M World A) u dev w : upload_actor q = (u, dev) ->
  (upload_handle (uploads_service api) clk newid q w).2 = (m w).2 -> service_call u dev w (m w).2.
Proof. intros Hu E0. rewrite <- E0. by apply call_upload. Qed.

Lemma quiet_decode_list {A B} (f : A -> H Reply B) l : (forall x, quiet (f x)) -> quiet (decode_list f l).
Proof.
  intros Hf. induction l as [|x l IH]; simpl; [apply quiet_ret|].
  apply quiet_bind; [apply Hf|intros y]. apply quiet_bind; [apply IH|intros ys]. apply quiet_ret.
Qed.

(** A protected handler: reading and checking, then at most one call. *)
Ltac acts_step :=
  lazymatch goal with
  | |- acts _ (mbind _ (call _ (on_database _))) => apply acts_bind_last; [apply acts_call; intros ?|intros ?; solve [solve_quiet]]
  | |- acts _ (mbind _ (call _ (on_world _))) => apply acts_bind_last; [apply acts_call; intros ?|intros ?; solve [solve_quiet]]
  | |- acts _ (mbind _ (decode_list _ _)) => apply acts_bind_quiet; [apply quiet_decode_list; intros ?|intros ?]
  | |- acts _ (mbind _ (match _ with _ => _ end)) => apply acts_bind_quiet; [solve [solve_quiet]|intros ?]
  | |- acts _ (mbind _ _) => apply acts_bind_quiet; [solve [solve_quiet]|intros ?]
  | |- acts _ (match _ with _ => _ end) => case_match
  | |- acts _ _ => apply acts_quiet; solve [solve_quiet]
  end.

Lemma quiet_rekey_item x : quiet (decodeRekeyItem env x).
Proof.
  unfold decodeRekeyItem. apply quiet_bind; [solve_quiet|intros m]. apply quiet_bind; [|intros; apply quiet_ret].
  apply quiet_decode_list. intros v. unfold decodeRekeyVersion. solve_quiet.
Qed.

Lemma quiet_share_envelope x : quiet (decodeShareEnvelope env x).
Proof. unfold decodeShareEnvelope. solve_quiet. Qed.

Lemma protected_acts r u dev : acts (service_call u dev) (protected_handler api env r u dev).
Proof.
  destruct r; cbn [protected_handler].
  all: unfold getMe, getRecoveryBundle, putRecoveryBundle, listShareDevices, createShare, listIncomingShares,
    listOutgoingShares, revokeShare, addShareEnvelopes, listFolderKeys, createFolderKey, rekeyNodes, listDevices,
    revokeDevice, uploadKeyEnvelope, downloadKeyEnvelope, createNode, listChildren, getNode, updateNode, deleteNode,
    restoreNode, listTrash, purgeTrashEntry, listFavorites, addFavorite, removeFavorite, syncChanges, createUpload,
    getUpload, putUploadChunk, completeUpload, abortUpload, downloadFileContent, listFileVersions, decodeShareEnvelopes.
  all: repeat acts_step.
  all: try first [apply quiet_share_envelope | apply quiet_rekey_item].
  - apply call_bundle.
  - by eapply (call_share_as (RGrant _)); [|apply bind_ret_world].
  - by eapply (call_share_as (RRevoke _ _ _)); [..|reflexivity].
  - by eapply (call_share_as (RAddEnvelopes _ _ _ _)); [|apply bind_ret_world].
  - apply call_folder_key.
  - by eapply (call_nodes_as (RRekey _)); [..|reflexivity].
  - apply call_revoke_device.
  - apply call_envelope.
  - by eapply (call_nodes_as (RCreate _)); [..|apply bind_ret_world].
  - by eapply (call_nodes_as (RUpdate _)); [..|apply bind_ret_world].
  - by eapply (call_nodes_as (RDelete _ _ _ _ _)); [..|apply bind_ret_world].
  - by eapply (call_nodes_as (RRestore _ _ _ _)); [..|apply bind_ret_world].
  - apply call_purge.
  - apply call_add_favorite.
  - apply call_remove_favorite.
  - apply call_record_sync.
  - by eapply (call_upload_as (UCreate _)); [|apply bind_ret_world].
  - by eapply (call_upload_as (UGet _ _ _)); [|apply bind_ret_world].
  - by eapply (call_upload_as (UPut _ _ _ _ _)); [..|reflexivity].
  - by eapply (call_upload_as (UComplete _ _)); [|apply bind_ret_world].
  - by eapply (call_upload_as (UAbort _ _ _)); [..|reflexivity].
Qed.

(** The account and device a request runs as. *)
Definition request_actor (rq : Request) (d : DB) : option (string * string) :=
  let token := bearerToken (rq_Authorization rq) in
  if String.eqb token "" then None
  else match Authenticate (call_clk env 0) token d with Ok who => Some who | Err _ => None end.

(** The session calls of the open routes. *)
Definition auth_view (s : Server) : Session.Service :=
  Session.MkService (db (world s)) (srv_login s) (srv_account s) (srv_address s).
Definition auth_env : Env := MkEnv clk newid (call_rand env 1) (map_range env).
Definition session_call (q : auth_request) (s s' : Server) : Prop :=
  auth_view s' = (auth_handle (HttpApi.accessTokenTTL api) (HttpApi.dummyPasswordHash api) auth_env q (auth_view s)).2 /\
  files (world s') = files (world s) /\ dirs (world s') = dirs (world s).

Lemma session_call_quiet s s' : quiet_step s s' -> auth_view s' = auth_view s.
Proof. intros (Hw & H1 & H2 & H3). unfold auth_view. by rewrite Hw, H1, H2, H3. Qed.

(** After the call of an open route the handler only answers. *)
Lemma open_call {A} q (m : M Server A) (fail : error -> H Reply A) (f : A -> H Reply Empty_set) s :
  session_call q s (m s).2 -> (forall e, quiet (fail e)) -> (forall a, quiet (f a)) ->
  session_call q s ((call_or fail m ≫= f) s).2.
Proof.
  intros [Ha [Hf Hd]] Hfail Hans. unfold mbind, H_bind, call_or.
  assert (Hstep : forall s1 s2, (m s).2 = s1 -> quiet_step s1 s2 -> session_call q s s2).
  { intros s1 s2 <- Hq. split; [by rewrite (session_call_quiet _ _ Hq)|]. destruct Hq as (Hw & _). by rewrite Hw. }
  destruct (m s) as [[a|e] s1] eqn:Em; simpl in *.
  - apply (Hstep s1); [done|apply Hans].
  - specialize (Hfail e s1). destruct (fail e s1) as [[r|a] s2]; simpl in *; [by apply (Hstep s1)|].
    apply (Hstep s1); [done|]. etrans; [exact Hfail|apply Hans].
Qed.

Lemma on_database_session {A} (m : M DB A) q s :
  (auth_handle (HttpApi.accessTokenTTL api) (HttpApi.dummyPasswordHash api) auth_env q (auth_view s)).2 = (in_db m (auth_view s)).2 ->
  session_call q s (on_database m s).2.
Proof.
  intros H0. unfold session_call. rewrite H0. unfold on_database, on_world, on_db, in_db. simpl.
  by destruct (m (db (world s))) as [r d].
Qed.

Lemma on_auth_session {A} (m : M Session.Service A) q s :
  (auth_handle (HttpApi.accessTokenTTL api) (HttpApi.dummyPasswordHash api) auth_env q (auth_view s)).2 = (m (auth_view s)).2 ->
  session_call q s (on_auth m s).2.
Proof.
  intros H0. unfold session_call. rewrite H0. unfold on_auth. fold (auth_view s).
  by destruct (m (auth_view s)) as [r [d0 m1 m2 m3]].
Qed.

Lemma open_acts r remote s : quiet_step s (open_handler api env remote r s).2 \/
  exists q, session_call q s (open_handler api env remote r s).2.
Proof.
  destruct r as [[body|]|[body|]|[body|]]; cbn [open_handler];
    unfold login, refresh, logout, decodeJSON; rewrite ?H_bind_mret; try (left; reflexivity).
  - unfold field. destruct (DecodeString _) as [key|]; rewrite ?H_bind_mret; [|left; reflexivity].
    right. eexists (ReqLogin _ _ _ _). apply open_call; [|intros; apply quiet_writeServiceError|intros; apply quiet_respond].
    apply on_auth_session. apply bind_ret_world.
  - right. eexists (ReqRefresh _). apply open_call; [|intros; apply quiet_writeServiceError|intros; apply quiet_respond].
    apply on_database_session. cbn [auth_handle]. apply bind_ret_world.
  - right. eexists (ReqLogout _). apply open_call; [|intros; apply quiet_writeInternalError|intros; apply quiet_respond].
    by apply on_database_session.
Qed.

Lemma Authenticate_err clk0 token d e : Authenticate clk0 token d = Err e ->
  e = EAuth AuthErrTokenInvalid \/ e = EAuth AuthErrDeviceRevoked.
Proof. unfold Authenticate. repeat case_match; intros [=]; auto. Qed.

Lemma authenticated_as rq u dev next s : request_actor rq (db (world s)) = Some (u, dev) ->
  authenticated (CB:=Reply) env (rq_Authorization rq) next s = next u dev s.
Proof.
  unfold request_actor, authenticated. destruct (String.eqb _ ""); [done|].
  destruct (Authenticate _ _ _) as [who|e] eqn:Ea; [|done]. intros [= ->].
  unfold mbind, H_bind, call, call_or, reading. by rewrite Ea.
Qed.

Lemma unauthenticated rq next s : request_actor rq (db (world s)) = None ->
  exists r, authenticated (CB:=Reply) env (rq_Authorization rq) next s = (inl r, s) /\
  exists code name message, (code = 401 \/ code = 403)%Z /\
    r = MkResponse code None (ErrorBody name message (requestID env)).
Proof.
  unfold request_actor, authenticated. destruct (String.eqb _ ""); intros H.
  - eexists. split; [reflexivity|]. eexists _, _, _. split; [|reflexivity]. by left.
  - destruct (Authenticate _ _ _) as [who|e] eqn:Ea; [done|]. unfold mbind, H_bind, call, call_or, reading. rewrite Ea.
    apply Authenticate_err in Ea as [->| ->]; (eexists; split; [reflexivity|]); eexists _, _, _; (split; [|reflexivity]); auto.
Qed.

Lemma protected_effect rq p s r s' : rq_route rq = Protected p -> ServeHTTP api env rq s = (r, s') ->
  quiet_step s s' \/
  exists u dev, request_actor rq (db (world s)) = Some (u, dev) /\
    service_call u dev (world s) (world s') /\ quiet_step s (set_world (world s) s').
Proof.
  intros Hr. unfold ServeHTTP, route_handler. rewrite Hr.
  destruct (request_actor rq (db (world s))) as [[u dev]|] eqn:Ea.
  - rewrite (authenticated_as rq u dev _ s Ea).
    destruct (protected_acts p u dev s) as [Hq|[HW Hq]]; destruct (protected_handler api env p u dev s) as [[r1|[]] s1];
      intros [= <- <-]; [by left|]. right. by exists u, dev.
  - destruct (unauthenticated rq (protected_handler api env p) s Ea) as (r2 & -> & _). intros [= <- <-]. left. reflexivity.
Qed.

Lemma open_effect rq o s r s' : rq_route rq = Open o -> ServeHTTP api env rq s = (r, s') ->
  quiet_step s s' \/ exists q, session_call q s s'.
Proof.
  intros Hr. unfold ServeHTTP, route_handler. rewrite Hr. pose proof (open_acts o (rq_RemoteAddr rq) s) as H0.
  destruct (open_handler api env (rq_RemoteAddr rq) o s) as [[r1|[]] s1]. by intros [= <- <-].
Qed.

(** C5. Whatever a request is and however it is answered, its effect is that of
    at most one call of one service: on a protected route a call by the account
    and the device of its token, which must be valid; on an open route one
    session call.  Otherwise only the log changes. *)
Theorem ServeHTTP_refines rq s r s' : ServeHTTP api env rq s = (r, s') ->
  quiet_step s s' \/
  (exists p u dev, rq_route rq = Protected p /\ request_actor rq (db (world s)) = Some (u, dev) /\
     service_call u dev (world s) (world s') /\ quiet_step s (set_world (world s) s')) \/
  (exists o q, rq_route rq = Open o /\ session_call q s s').
Proof.
  intros H. destruct (rq_route rq) as [o|p] eqn:Er.
  - destruct (open_effect rq o s r s' Er H) as [Hq|[q Hq]]; [by left|right; right; by exists o, q].
  - destruct (protected_effect rq p s r s' Er H) as [Hq|(u & dev & Ha & Hc)]; [by left|right; left; by exists p, u, dev].
Qed.

(** A protected route without the token of an active account on a device in
    use answers 401 or 403 with an error and changes nothing at all. *)
Theorem protected_needs_token rq p s : rq_route rq = Protected p -> request_actor rq (db (world s)) = None ->
  exists code name message, (code = 401 \/ code = 403)%Z /\
    ServeHTTP api env rq s = (MkResponse code None (ErrorBody name message (requestID env)), s).
Proof.
  intros Hr Ha. unfold ServeHTTP, route_handler. rewrite Hr.
  destruct (unauthenticated rq (protected_handler api env p) s Ha) as (r & -> & code & name & message & Hc & ->).
  by exists code, name, message.
Qed.
End refinement.
