(* ===== verification/HttpSafety.v ===== *)
(** * End to end: who may change the vault

    The services' guarantees carried through the HTTP interface: which
    requests can change a node, and as whom. *)

From S2P Require Import Prelude GoText GoTime Uuid Schema Fixture Access Limiter Auth AuthCorrect Session SessionCorrect Nodes NodesSpec NodesCorrect Favorites Sharing SharingCorrect Uploads UploadsStorage UploadsCorrect Maintenance MaintenancePurge MaintenanceCorrect DeviceAuth Provisioning Recovery HttpApi HttpBodies HttpAuth HttpVault HttpRoutes HttpCorrect.
From Stdlib Require Import String.
Local Open Scope string_scope.

(** ** Services that touch neither the node table, nor the feed, nor what the
    storage tree must match *)

Definition same_vault (d d' : DB) : Prop :=
  nodes d' = nodes d /\ sync_changes d' = sync_changes d /\ sync_sequence d' = sync_sequence d /\
  upload_sessions d' = upload_sessions d /\ upload_chunks d' = upload_chunks d /\ blobs d' = blobs d.
#[export] Instance same_vault_preorder : PreOrder same_vault.
Proof. split; [done|]. intros a b c (?&?&?&?&?&?) (?&?&?&?&?&?). split_and!; congruence. Qed.

Lemma constrained_vault check table unique cols fk d d0 d' :
  constrained check table unique cols fk d = Ok d' -> same_vault d0 d -> same_vault d0 d'.
Proof. by intros (_ & _ & _ & ->)%constrained_ok_inv. Qed.

(** A statement on another table. *)
Ltac vault_free :=
  solve [ apply stays_modify; intros ?; unfold update_device; repeat case_match; done
        | apply stays_exec; [exact _|]; intros ? ? Hi;
          unfold insert_devices, insert_refresh_tokens, insert_access_tokens, insert_vault_key_envelopes, insert_upload_sessions,
            insert_shares, insert_share_device_envelopes, insert_favorites, insert_folder_keys, insert_processed_operations,
            upsert_recovery_bundles in Hi; repeat case_match; try done;
          first [by injection Hi as <- | by apply (constrained_vault _ _ _ _ _ _ _ _ Hi)] ].

Section free.
Context {U : UuidLib} {TP : TimeParser} {A2 : Argon2} {E : Ed25519} (clk : nat -> Z) (newid : nat -> string) (rand : nat -> list byte) (ttl : Z).

Lemma upsertDevice_nodes now u reg : stays same_vault (upsertDevice now u reg).
Proof. unfold upsertDevice. solve_stays; vault_free. Qed.
Lemma issueTokens_nodes now user dev : stays same_vault (issueTokens newid rand ttl now user dev).
Proof. unfold issueTokens. solve_stays; vault_free. Qed.
Lemma loginTx_nodes now uid user hash reg : stays same_vault (loginTx newid rand ttl now uid user hash reg).
Proof. unfold loginTx. solve_stays; [apply upsertDevice_nodes|apply issueTokens_nodes]. Qed.
Lemma Refresh_nodes tok : stays same_vault (Refresh clk newid rand ttl tok).
Proof. unfold Refresh, refreshTx, revokeDeviceTokens. solve_stays; first [apply issueTokens_nodes | vault_free]. Qed.
Lemma Logout_nodes tok : stays same_vault (Logout clk tok).
Proof. unfold Logout. solve_stays; vault_free. Qed.
Lemma RecordSync_nodes u dev : stays same_vault (RecordSync clk u dev).
Proof. unfold RecordSync. solve_stays; vault_free. Qed.
Lemma RevokeDevice_nodes u dev : stays same_vault (RevokeDevice clk u dev).
Proof. unfold RevokeDevice. solve_stays; vault_free. Qed.
Lemma Add_nodes u k : stays same_vault (Favorites.Add clk u k).
Proof. unfold Favorites.Add. solve_stays; vault_free. Qed.
Lemma Remove_nodes u k : stays same_vault (Favorites.Remove u k).
Proof. unfold Favorites.Remove. solve_stays; vault_free. Qed.
Lemma UploadAuthenticated_nodes vid u dev kv ct key ver c : stays same_vault (UploadAuthenticated clk newid vid u dev kv ct key ver c).
Proof. unfold UploadAuthenticated. solve_stays; vault_free. Qed.
Lemma Put_nodes u dev b key sig : stays same_vault (Recovery.Put clk u dev b key sig).
Proof. unfold Recovery.Put. solve_stays; vault_free. Qed.

Ltac unique_free := apply stays_exec_unique; [exact _|]; intros ? ? Hi; by apply (constrained_vault _ _ _ _ _ _ _ _ Hi).

Lemma CreateFolderKey_nodes u dev f v e : stays same_vault (CreateFolderKey clk u dev f v e).
Proof. unfold CreateFolderKey, folderKeyTx. solve_stays; unique_free. Qed.

Lemma insertEnvelopes_nodes sid envs i now : stays same_vault (insertEnvelopes newid sid envs i now).
Proof. unfold insertEnvelopes. apply stays_mfor; [exact _|]. intros j x. vault_free. Qed.

Lemma share_handle_nodes q : stays same_vault (share_handle clk newid q).
Proof.
  destruct q; cbn [share_handle]; unfold CreateGrant, grantTx, AddEnvelopes, Revoke; solve_stays;
    first [apply insertEnvelopes_nodes | unique_free | vault_free].
Qed.
End free.

(** ** The authorization of a request *)

(** What the account [u] may do to the row [k]: what a node request may do, or
    publish a version of a live file it owns or has a write share above. *)
Definition request_may_change (u : string) (d d' : DB) (k : string) : Prop :=
  may_change u d d' k \/
  exists node root, live_file k d = Some node /\ authorizeFileWrite u (node_owner_id node) k d = Ok root.

Section safety.
Context {U : UuidLib} {UL : UuidLaws U} {TP : TimeParser} {A2 : Argon2} {E : Ed25519} (api : API) (env : RequestEnv).

Lemma node_call_may_change clk q d k : nodes (handle clk q d).2 !! k <> nodes d !! k ->
  may_change (actor q) d (handle clk q d).2 k.
Proof.
  destruct (handle clk q d) as [r d'] eqn:Eh. simpl. intros Hk.
  apply handle_cases in Eh as [->|[Hs|Hs]]; [done|by eapply node_step_may_change|].
  apply rekey_steps_owned in Hs as [_ Hs]. destruct (Hs k Hk) as (r0 & Hr & Ho). left. exists r0. split; [done|by left].
Qed.

(** A purge by the owner, whatever it returns: nothing, or the subtree of the entry. *)
Lemma purge_call_outcome clk u id w : parents_ok (nodes (db w)) -> let w' := (PurgeTrashEntry clk u id w).2 in
  db w' = db w \/
  exists r t, nodes (db w) !! id = Some r /\ node_owner_id r = u /\ node_deleted_at r = Some t /\
    db w' = purged_db (trash_subtree id t (db w)) (clk 0) (db w) /\ (feed_ok (db w) -> feed_ok (db w')).
Proof.
  intros Hpar w'. assert (Hw : w' = (PurgeTrashEntry clk u id w).2) by done. clearbody w'. revert Hw.
  unfold PurgeTrashEntry, db_query, mbind at 1, M_bind, query. cbv beta zeta.
  destruct (nodes (db w) !! id) as [r|] eqn:Er; [|intros ->; by left].
  destruct (String.eqb_spec (node_owner_id r) u) as [Ho|]; [|intros ->; by left]. simpl.
  destruct (node_deleted_at r) as [t|] eqn:Et; [|intros ->; by left]. unfold mbind, M_bind.
  destruct (purgeSubtree id t (clk 0) w) as [res w1] eqn:Ep. intros Hw.
  assert (w' = w1) as -> by (rewrite Hw; destruct res; [unfold throw_if; by case_match|done]).
  apply (purgeSubtree_outcome _ _ _ _ _ _ Hpar) in Ep as [(e & -> & ->)|(ups & -> & _ & Hdb & Hfeed & _)]; [by left|].
  right. exists r, t. by split_and!.
Qed.

Lemma purge_may_change clk u id w k : forest (nodes (db w)) ->
  nodes (db (PurgeTrashEntry clk u id w).2) !! k <> nodes (db w) !! k ->
  exists r, nodes (db w) !! k = Some r /\ node_owner_id r = u.
Proof.
  intros [_ Hpar]. destruct (purge_call_outcome clk u id w Hpar) as [->|(r & t & Er & Ho & Et & -> & _)]; [done|].
  simpl. intros Hk. destruct (trash_subtree_spec id t (db w) r Hpar Er (expired_own r t Et)) as [_ Hel].
  destruct (decide (k ∈ trash_subtree id t (db w))) as [Hin|Hout].
  - apply Hel in Hin as [_ Hb]. destruct (below_owner _ _ _ _ Hpar Hb Er) as (rk & Hrk & Hok). exists rk. split; [done|congruence].
  - destruct Hk. apply option_eq. intros x. rewrite lookup_delete_rows. unfold in_list. rewrite bool_decide_eq_false. naive_solver.
Qed.

(** A call on tables the invariants do not mention. *)
Definition quiet_call (w w' : World) : Prop := same_vault (db w) (db w') /\ w' = set_db (db w') w.

Lemma on_db_vault {A} (m : M DB A) w : stays same_vault m -> quiet_call w (on_db m w).2.
Proof. intros Hm. specialize (Hm (db w)). unfold on_db. by destruct (m (db w)) as [r d]. Qed.

(** The calls on other tables. *)
Lemma service_call_quiet u dev w w' : service_call api env u dev w w' -> quiet_call w w' \/
  (exists q, actor q = u /\ w' = (on_db (handle (call_clk env 1) q) w).2) \/
  (exists q, upload_actor q = (u, dev) /\ w' = (upload_handle (uploads_service api) (call_clk env 1) (call_newid env 1) q w).2) \/
  (exists n, w' = (PurgeTrashEntry (call_clk env 1) u n w).2).
Proof.
  intros [q w0 Hu _|q w0 Hu|q w0 _|f v e w0|n w0|n w0|n w0|vid t v ct key kv c w0|b key sig w0|w0|t w0];
    [right; left; by exists q|right; right; left; by exists q|left|left|left|left|right; right; right; by exists n|left|left|left|left];
    apply on_db_vault;
    first [apply share_handle_nodes | apply CreateFolderKey_nodes | apply Add_nodes | apply Remove_nodes
          | apply UploadAuthenticated_nodes | apply Put_nodes | apply RecordSync_nodes | apply RevokeDevice_nodes].
Qed.

Lemma update_session_nodes u f d : nodes (update_session u f d) = nodes d.
Proof. unfold update_session. by case_match. Qed.

Lemma upload_call_may_change clk newid q w k :
  let w' := (upload_handle (uploads_service api) clk newid q w).2 in
  nodes (db w') !! k <> nodes (db w) !! k ->
  exists node root, live_file k (db w) = Some node /\
    authorizeFileWrite (upload_actor q).1 (node_owner_id node) k (db w) = Ok root.
Proof.
  destruct q as [i|u dev up n data|u dev up|u dev up|up i]; cbn [upload_handle upload_actor fst]; rewrite ?bind_ret_world.
  - destruct (Uploads.Create _ clk newid i w) as [r w'] eqn:Ec. simpl.
    apply open_outcome in Ec as [->|(_ & _ & _ & _ & d' & Hc & ->)]; [done|].
    apply createTx_ok_inv in Hc as (_ & _ & _ & ->). done.
  - destruct (Uploads.PutChunk clk u dev up n data w) as [r w'] eqn:Ec. simpl.
    apply PutChunk_outcome in Ec as [->|(_ & _ & _ & _ & ->)]; done.
  - destruct (Uploads.Get u dev up w) as [r w'] eqn:Ec. simpl. by apply Get_outcome in Ec as ->.
  - destruct (Abort_ u dev up w) as [r w'] eqn:Ec. simpl. apply Abort_outcome in Ec as [->|(_ & _ & _ & ->)]; [done|].
    simpl. by rewrite update_session_nodes.
  - destruct (Complete _ clk up i w) as [r w'] eqn:Ec. simpl.
    apply Complete_outcome in Ec as [[-> _]|(ss & ex & ch & tot & _ & _ & [(-> & _)|(data & node & _ & Hm & _ & ->)])]; [done..|].
    simpl. unfold completed. rewrite update_session_nodes. simpl. intros Hk.
    destruct (decide (targetNodeID ss = k)) as [<-|Hne]; [|by rewrite lookup_insert_ne in Hk].
    destruct Hm as [_ _ Hn (root & Hr & _) _ _ _ _]. by exists node, root.
Qed.

Lemma service_call_may_change u dev w w' k : forest (nodes (db w)) -> service_call api env u dev w w' ->
  nodes (db w') !! k <> nodes (db w) !! k -> request_may_change u (db w) (db w') k.
Proof.
  intros Hf [[[-> _] _]|[(q & <- & ->)|[(q & Hu & ->)|[n ->]]]]%service_call_quiet Hk; [done|..].
  - left. unfold on_db in *. pose proof (node_call_may_change (call_clk env 1) q (db w) k) as Hm.
    destruct (handle (call_clk env 1) q (db w)) as [r d]. by apply Hm.
  - right. apply upload_call_may_change in Hk. by rewrite Hu in Hk.
  - left. apply purge_may_change in Hk as (r & Hr & Ho); [|done]. left. exists r. split; [done|by left].
Qed.

Lemma session_call_vault q s s' : session_call api env q s s' -> same_vault (db (world s)) (db (world s')).
Proof.
  intros [Hv _]. change (same_vault (auth_db (auth_view s)) (auth_db (auth_view s'))). rewrite Hv.
  destruct q; cbn [auth_handle]; rewrite ?then_ret_stays.
  - apply (Login_stays_of _ _ _ _ _ _ same_vault). intros. apply loginTx_nodes.
  - apply (in_db_stays same_vault), Refresh_nodes.
  - apply (in_db_stays same_vault), Logout_nodes.
  - apply (in_db_stays same_vault), RecordSync_nodes.
  - apply (in_db_stays same_vault), RevokeDevice_nodes.
Qed.

(** C4. End to end, the node table is safe from anybody without the right: a
    request that changes a row carries the token of an active account on a
    device in use, and that account owns the row, may write it through a share
    above it, may add it where it stands, or publishes a version of a live
    file it may write. *)
Theorem request_changes_authorized rq s r s' k : forest (nodes (db (world s))) ->
  ServeHTTP api env rq s = (r, s') -> nodes (db (world s')) !! k <> nodes (db (world s)) !! k ->
  exists u dev, request_actor env rq (db (world s)) = Some (u, dev) /\
    request_may_change u (db (world s)) (db (world s')) k.
Proof.
  intros Hf H Hk. destruct (rq_route rq) as [o|p] eqn:Er.
  - destruct (open_effect api env rq o s r s' Er H) as [(Hw & _)|[q Hq]]; [by rewrite Hw in Hk|].
    by rewrite (proj1 (session_call_vault _ _ _ Hq)) in Hk.
  - destruct (protected_effect api env rq p s r s' Er H) as [(Hw & _)|(u & dev & Ha & Hc & _)]; [by rewrite Hw in Hk|].
    exists u, dev. split; [done|]. by eapply service_call_may_change.
Qed.

Lemma vault_ok_same_vault d d' : same_vault d d' -> vault_ok d -> vault_ok d'.
Proof. intros (En & Ec & Es & _). by apply vault_ok_same. Qed.

Lemma service_call_vault_ok u dev w w' : service_call api env u dev w w' -> vault_ok (db w) -> vault_ok (db w').
Proof.
  intros [[Hs _]|[(q & _ & ->)|[(q & _ & ->)|[n ->]]]]%service_call_quiet Hv; [by eapply vault_ok_same_vault|..].
  - unfold on_db. destruct (handle (call_clk env 1) q (db w)) as [r d] eqn:Eh. by eapply handle_keeps_vault.
  - destruct (upload_handle _ _ _ q w) as [r w'] eqn:Eh. by eapply upload_handle_keeps_vault.
  - destruct (purge_call_outcome (call_clk env 1) u n w) as [->|(r & t & _ & _ & _ & Hd & Hfeed)]; [apply Hv|done|].
    revert Hfeed. rewrite Hd. by apply vault_ok_purged.
Qed.

(** End to end, every request keeps the vault well formed, whatever it
    asks and whatever the server answers: the parent links form a forest of
    same-account directories, no node carries a revision that the feed has
    not reached, and the feed's revisions ascend. *)
Theorem request_keeps_vault rq s r s' : vault_ok (db (world s)) -> ServeHTTP api env rq s = (r, s') -> vault_ok (db (world s')).
Proof.
  intros Hv H. destruct (rq_route rq) as [o|p] eqn:Er.
  - destruct (open_effect api env rq o s r s' Er H) as [(Hw & _)|[q Hq]]; [by rewrite Hw|].
    by apply (vault_ok_same_vault _ _ (session_call_vault _ _ _ Hq)).
  - destruct (protected_effect api env rq p s r s' Er H) as [(Hw & _)|(u & dev & _ & Hc & _)]; [by rewrite Hw|].
    by eapply service_call_vault_ok.
Qed.
End safety.
