(* ===== verification/HttpSession.v ===== *)
(** * Sessions, errors and encodings over HTTP

    A session the login endpoint answers with works on the next request
    ([login_session_works]); internal errors are logged under the identifier
    of the response and described to nobody ([internal_errors_logged]);
    base64 fields read back as they were written ([Decode_Encode]). *)

From S2P Require Import Prelude GoText GoTime Uuid Schema Fixture Limiter Auth AuthCorrect Session SessionCorrect Uploads UploadsStorage DeviceAuth HttpApi HttpBodies GoServeContent HttpAuth HttpVault HttpRoutes HttpCorrect.
From Stdlib Require Import Ascii String.
Local Open Scope string_scope.

(** ** Base64 *)

Lemma string_length_map f s : String.length (string_map f s) = String.length s.
Proof. induction s as [|c s IH]; simpl; [done|by rewrite IH]. Qed.

Lemma b64_encode_length_mod s : (String.length (b64_encode s) mod 4 <> 1)%nat.
Proof.
  induction s as [|a|a b|a b c s IH] using string_ind3; try (simpl; discriminate).
  cbn [b64_encode String.length]. set (n := String.length (b64_encode s)) in *.
  replace (S (S (S (S n)))) with (n + 1 * 4)%nat by lia. by rewrite Nat.Div0.mod_add.
Qed.

(** No character of the alphabet is skipped or taken for padding. *)
Lemma b64_strip_app s t : b64_strip (s ++ t) = b64_strip s ++ b64_strip t.
Proof. induction s as [|c s IH]; simpl; [done|]. case_match; [done|]. simpl. by rewrite IH. Qed.

Definition plain (c : ascii) : bool :=
  negb (Ascii.eqb c "013" || Ascii.eqb c "010") && negb (Ascii.eqb c "=").

Lemma b64_strip_plain s : string_forall plain s = true -> b64_strip s = s.
Proof.
  induction s as [|c s IH]; simpl; [done|]. intros [[Hc _]%andb_prop Hs]%andb_prop. apply negb_true_iff in Hc.
  by rewrite Hc, IH.
Qed.

Lemma string_forall_map (P Q : ascii -> bool) f s : (forall c, P c = true -> Q (f c) = true) ->
  string_forall P s = true -> string_forall Q (string_map f s) = true.
Proof.
  intros Hf. induction s as [|c s IH]; [done|]. simpl. intros [Hc Hs]%andb_prop. by rewrite Hf, IH.
Qed.

Lemma std_encode_plain l : string_forall plain (std_encode l) = true.
Proof.
  apply (string_forall_map b64_ok); [|apply b64_encode_ok].
  intros c. destruct c as [[] [] [] [] [] [] [] []]; vm_compute; intros H; try discriminate H; reflexivity.
Qed.

(** Encoded text does not end in padding. *)
Lemma plain_no_suffix s : string_forall plain s = true -> HasSuffix s "=" = false.
Proof.
  intros Hs. apply not_true_iff_false. intros [t ->]%HasSuffix_split. rewrite string_forall_app in Hs. by apply andb_prop in Hs as [_ Hs].
Qed.

Lemma last_char_inj s t c d : s ++ String c "" = t ++ String d "" -> s = t.
Proof.
  intros E. apply (f_equal (fun u => TrimSuffix u (String c ""))) in E as E'. rewrite TrimSuffix_app in E'.
  assert (Ec : c = d).
  { apply (f_equal (fun u => string_drop (String.length u - 1) u)) in E. rewrite !string_length_app in E. simpl in E.
    replace (_ + 1 - 1)%nat with (String.length s) in E by lia. rewrite string_drop_app in E.
    replace (_ + 1 - 1)%nat with (String.length t) in E by lia. rewrite string_drop_app in E. by injection E. }
  by rewrite Ec, TrimSuffix_app in E'.
Qed.

Lemma strip_padding_encoded s : string_forall plain s = true -> (String.length s mod 4 <> 1)%nat ->
  strip_padding (s ++ padding (String.length s)) = s.
Proof.
  intros Hs Hm. pose proof (plain_no_suffix s Hs) as Hn. unfold strip_padding, padding.
  assert (Hnn : HasSuffix s "==" = false).
  { apply not_true_iff_false. intros [t ->]%HasSuffix_split. change "==" with ("=" ++ "=") in Hn.
    rewrite string_app_assoc, HasSuffix_app in Hn. done. }
  pose proof (Nat.mod_upper_bound (String.length s) 4 ltac:(lia)) as Hb.
  destruct (String.length s mod 4)%nat as [|[|[|[|n]]]] eqn:Em; [| done | | |lia].
  - assert (Hs0 : s ++ "" = s) by (clear; induction s as [|c s IH]; [done|]; change (String c (s ++ "") = String c s); by rewrite IH).
    rewrite Hs0, Hnn. unfold TrimSuffix. by rewrite Hn.
  - by rewrite HasSuffix_app, TrimSuffix_app.
  - destruct (HasSuffix (s ++ "=") "==") eqn:E2; [|apply TrimSuffix_app].
    apply HasSuffix_split in E2 as [t Et]. change "==" with ("=" ++ "=") in Et. rewrite string_app_assoc in Et.
    apply last_char_inj in Et. rewrite Et, HasSuffix_app in Hn. done.
Qed.

(** A binary field of a response reads back as the bytes it was made from:
    [DecodeString] inverts [EncodeToString]. *)
Theorem Decode_Encode l : DecodeString (EncodeToString l) = Some l.
Proof.
  unfold DecodeString, EncodeToString. set (s := std_encode l).
  pose proof (std_encode_plain l) as Hp. fold s in Hp.
  assert (Hm : (String.length s mod 4 <> 1)%nat)
    by (unfold s, std_encode; rewrite string_length_map; apply b64_encode_length_mod).
  assert (Hstrip : b64_strip (s ++ padding (String.length s)) = s ++ padding (String.length s)).
  { rewrite b64_strip_app, (b64_strip_plain s Hp). f_equal. unfold padding. by repeat case_match. }
  rewrite Hstrip, string_length_app.
  assert (Hlen : ((String.length s + String.length (padding (String.length s))) mod 4 = 0)%nat).
  { rewrite Nat.Div0.add_mod. pose proof (Nat.mod_upper_bound (String.length s) 4 ltac:(lia)) as Hb. unfold padding.
    destruct (String.length s mod 4)%nat as [|[|[|[|n]]]]; [done|done|done|done|lia]. }
  rewrite Hlen, Nat.eqb_refl, strip_padding_encoded by done. apply std_decode_encode.
Qed.

(** ** Logging in over HTTP *)

Lemma bearerToken_prefix t : bearerToken ("Bearer " ++ t) = t.
Proof.
  unfold bearerToken, TrimPrefix. rewrite (proj2 (HasPrefix_true _ "Bearer ")) by eauto. apply (string_drop_app "Bearer ").
Qed.

Section sessions.
Context {U : UuidLib} {TP : TimeParser} {A2 : Argon2} {E : Ed25519} (api : API).

(** C15. A 200 from the login endpoint carries a working session: sent as the
    bearer token, its access token makes any later request, from any address
    and before it expires, run as the account and the device of the answer, in
    the state the login left (a logout, refresh or revocation in between is the
    subject of the session service's theorems). *)
Theorem login_session_works env header addr body s x s' :
  ServeHTTP api env (MkRequest header addr (Open (PostLogin body))) s =
    (MkResponse 200 None (Content (ReplySession x)), s') ->
  call_rand env 1 0 <> [] -> four_digit_year (call_clk env 1 0 + HttpApi.accessTokenTTL api) ->
  forall env' addr' p, (call_clk env' 0 0 < call_clk env 1 0 + HttpApi.accessTokenTTL api)%Z ->
    request_actor env' (MkRequest ("Bearer " ++ sr_AccessToken x) addr' (Protected p)) (db (world s'))
      = Some (sr_User_ID x, sr_Device_ID x).
Proof.
  intros H Hrand Hy env' addr' p Hlt.
  unfold ServeHTTP, route_handler in H. cbn [rq_route rq_RemoteAddr open_handler] in H. unfold login, decodeJSON in H.
  destruct body as [req|]; [|done]. rewrite H_bind_mret in H. unfold field in H.
  destruct (DecodeString _) as [key|]; [|done]. rewrite H_bind_mret in H.
  unfold mbind, H_bind, call, call_or, on_auth in H.
  match type of H with context [Session.Login _ _ _ _ _ _ _ _ _ ?reg ?st] =>
    destruct (Session.Login (call_clk env 1) (call_newid env 1) (call_rand env 1) (HttpApi.accessTokenTTL api) (map_range env)
      (HttpApi.dummyPasswordHash api) (clientAddress addr) (lr_Username req) (lr_Password req) reg st) as [[y|e] st'] eqn:EL end.
  - injection H as <- <-. 
    pose proof (Login_usable (HttpApi.accessTokenTTL api) (HttpApi.dummyPasswordHash api)
      (MkEnv (call_clk env 1) (call_newid env 1) (call_rand env 1) (map_range env)) _ _ _ _ _ y st' EL Hrand Hy) as (_ & Hne & Ha).
    unfold request_actor. cbn [rq_Authorization sr_AccessToken toSessionResponse]. rewrite bearerToken_prefix.
    rewrite (proj2 (String.eqb_neq _ _) Hne). cbn [world set_db db]. by rewrite (Ha (call_clk env' 0) Hlt).
  - exfalso. unfold writeServiceError in H. destruct (sentinel e) as [[[code nm] msg]|]; discriminate H.
Qed.
End sessions.

(** ** Errors *)

(** The fixed texts of internal errors. *)
Definition internal_messages : list string :=
  ["an internal error occurred"; "failed to logout"; "failed to list recipient devices"; "failed to list devices";
   "stored ciphertext is missing"; "failed to open stored ciphertext"; "stored ciphertext is damaged"].

Definition failure_ok (env : RequestEnv) {CB} (r : Response CB) (before after : list (string * string * error)) : Prop :=
  (status r = 500%Z /\ exists op msg e, response_body r = ErrorBody "INTERNAL_ERROR" msg (requestID env) /\
     msg ∈ internal_messages /\ after = (op, requestID env, e) :: before) \/
  (status r <> 500%Z /\ after = before).

Section errors.
Context {CB : Type} {U : UuidLib} (env : RequestEnv).

Definition logged {A} (h : H CB A) : Prop := forall s,
  match (h s).1 with
  | inl r => failure_ok env r (log s) (log (h s).2)
  | inr _ => log (h s).2 = log s
  end.
Definition silent {A} (m : M Server A) : Prop := forall s, log (m s).2 = log s.

Lemma logged_bind {A B} (m : H CB A) (f : A -> H CB B) : logged m -> (forall a, logged (f a)) -> logged (m ≫= f).
Proof.
  intros Hm Hf s. unfold mbind, H_bind. specialize (Hm s). destruct (m s) as [[r|a] s1]; simpl in *; [done|].
  specialize (Hf a s1). by rewrite Hm in Hf.
Qed.
Lemma logged_ret {A} (a : A) : logged (mret a : H CB A).
Proof. intros s. reflexivity. Qed.
Lemma logged_respond {A} r : status r <> 500%Z -> logged (respond r : H CB A).
Proof. intros Hr s. right. done. Qed.
Lemma served_status_ok sv next (b : Body CB) : status (MkResponse (served_status sv) next b) <> 500%Z.
Proof. by destruct sv. Qed.
Lemma logged_internal {A} op msg e : msg ∈ internal_messages -> logged (writeInternalError env op msg e : H CB A).
Proof. intros Hm s. left. split; [done|]. by exists op, msg, e. Qed.

(** No sentinel is answered with 500. *)
Lemma sentinel_status e code name msg : sentinel e = Some (code, name, msg) -> code <> 500%Z.
Proof. destruct e as [m|[]|[]|[]|[]|[]|[]| | | | | | | ]; simpl; intros [= <- _ _] || done; discriminate. Qed.

Lemma logged_service_error {A} e : logged (writeServiceError env e : H CB A).
Proof.
  unfold writeServiceError. destruct (sentinel e) as [[[code name] msg]|] eqn:Es.
  - apply logged_respond. exact (sentinel_status _ _ _ _ Es).
  - apply logged_internal. constructor.
Qed.
Lemma logged_call_or {A} (fail : error -> H CB A) m : silent m -> (forall e, logged (fail e)) -> logged (call_or fail m).
Proof.
  intros Hm Hf s. unfold call_or. specialize (Hm s). destruct (m s) as [[a|e] s1]; simpl in *; [done|].
  specialize (Hf e s1). by rewrite Hm in Hf.
Qed.
Lemma logged_call {A} (m : M Server A) : silent m -> logged (call env m : H CB A).
Proof. intros Hm. apply logged_call_or; [done|]. intros e. apply logged_service_error. Qed.

Lemma silent_on_world {A} (m : M World A) : silent (on_world m).
Proof. intros s. unfold on_world. by destruct (m (world s)) as [r w]. Qed.
Lemma silent_on_auth {A} (m : M Session.Service A) : silent (on_auth m).
Proof. intros s. unfold on_auth. by destruct (m _) as [r a]. Qed.
Lemma silent_reading {A} (q : DB -> result A) : silent (reading q).
Proof. done. Qed.
Lemma silent_openFile path : silent (openFile env path).
Proof. done. Qed.
End errors.

Ltac solve_silent := first [apply silent_reading | apply silent_openFile | apply silent_on_auth | apply silent_on_world].
Ltac solve_logged :=
  repeat lazymatch goal with
  | |- logged _ (mbind _ _) => apply logged_bind; [|intros ?]
  | |- logged _ (call _ _) => apply logged_call; solve_silent
  | |- logged _ (call_or _ _) => apply logged_call_or; [solve_silent|intros ?]
  | |- logged _ (writeInternalError _ _ _ _) => apply logged_internal; repeat constructor
  | |- logged _ (writeServiceError _ _) => apply logged_service_error
  | |- logged _ (mret _) => apply logged_ret
  | |- logged _ (respond _) => apply logged_respond; first [discriminate | apply served_status_ok]
  | |- logged _ (let _ := _ in _) => cbv zeta
  | |- logged _ (match _ with _ => _ end) => case_match
  | |- logged _ (decode_list _ _) => fail
  | |- logged _ _ => progress unfold decodeJSON, field, pathUUID, pathDeviceID, pathInt, queryInt, queryInt64, badRequest, writeError, errorResponse, writeJSON, writeStatus, writeShares
  end.

Section logging.
Context {U : UuidLib} {TP : TimeParser} {A2 : Argon2} {E : Ed25519} (api : API) (env : RequestEnv).

Lemma logged_decode_list {A B} (f : A -> H Reply B) l : (forall x, logged env (f x)) -> logged env (decode_list f l).
Proof.
  intros Hf. induction l as [|x l IH]; simpl; [apply logged_ret|].
  apply logged_bind; [apply Hf|intros y]. apply logged_bind; [apply IH|intros ys]. apply logged_ret.
Qed.

Lemma logged_rekey_item x : logged env (decodeRekeyItem env x).
Proof.
  unfold decodeRekeyItem. apply logged_bind; [solve_logged|intros m]. apply logged_bind; [|intros; apply logged_ret].
  apply logged_decode_list. intros v. unfold decodeRekeyVersion. solve_logged.
Qed.

Lemma logged_share_envelope x : logged env (decodeShareEnvelope env x).
Proof. unfold decodeShareEnvelope. solve_logged. Qed.

Lemma protected_logged r u dev : logged env (protected_handler api env r u dev).
Proof.
  destruct r; cbn [protected_handler].
  all: unfold getMe, getRecoveryBundle, putRecoveryBundle, listShareDevices, createShare, listIncomingShares,
    listOutgoingShares, revokeShare, addShareEnvelopes, listFolderKeys, createFolderKey, rekeyNodes, listDevices,
    revokeDevice, uploadKeyEnvelope, downloadKeyEnvelope, createNode, listChildren, getNode, updateNode, deleteNode,
    restoreNode, listTrash, purgeTrashEntry, listFavorites, addFavorite, removeFavorite, syncChanges, createUpload,
    getUpload, putUploadChunk, completeUpload, abortUpload, downloadFileContent, listFileVersions, decodeShareEnvelopes.
  all: solve_logged.
  all: apply logged_decode_list; intros ?; first [apply logged_rekey_item | apply logged_share_envelope].
Qed.

Lemma route_logged rq : logged env (route_handler api env rq).
Proof.
  unfold route_handler. destruct (rq_route rq) as [[]|p]; cbn [open_handler]; unfold login, refresh, logout, authenticated; solve_logged.
  apply protected_logged.
Qed.

(** C16. Internal errors stay internal: an answer has status 500 exactly when one
    line was logged, under the identifier the answer carries, and then it says
    one of seven fixed sentences, whatever went wrong. *)
Theorem internal_errors_logged rq s r s' : ServeHTTP api env rq s = (r, s') -> failure_ok env r (log s) (log s').
Proof.
  unfold ServeHTTP. pose proof (route_logged rq s) as Hl. destruct (route_handler api env rq s) as [[r1|[]] s1].
  by intros [= <- <-].
Qed.
End logging.
