(* ===== verification/Migrations.v ===== *)
(** * Schema migrations

    Models [internal/database/migrations.go], the statements of every
    migration, and [Migrate] of [internal/database/database.go], which applies
    the pending ones in order, each in a transaction that also records it.

    A table has columns, table constraints and rows of values; the statements
    behave as SQLite's do, including what they refuse. *)

From S2P Require Import Prelude GoText GoTime.
Local Open Scope string_scope.

(** ** Tables and statements *)

Inductive affinity : Type := TEXT | INTEGER | BLOB.
Inductive value : Type :=
| Null
| Text (s : string)
| Integer (z : Z)
| Bytes (l : list byte).

Inductive column_constraint : Type :=
| PrimaryKey
| PrimaryKeyAuto
| NotNull
| Unique
| References (table column : string)
| CheckIn (values : list string)
| Default (v : value).

Record column := Column {
  column_name : string;
  column_affinity : affinity;
  column_constraints : list column_constraint;
}.

Inductive table_constraint : Type :=
| KeyColumns (columns : list string)
| UniqueColumns (columns : list string).

Inductive condition : Type :=
| IsNull (column : string)
| IsNotNull (column : string).

Record table := MkTable {
  columns : list column;
  constraints : list table_constraint;
  rows : list (list value);
}.

Record index := MkIndex {
  index_table : string;
  index_unique : bool;
  index_columns : list string;
  index_where : list condition;
}.

Record migration_row := MkMigrationRow { migration_row_name : string; applied_at : string }.

(** [schema_migrations] is the runner's own table; [None] before the first run. *)
Record Database := MkDatabase {
  tables : gmap string table;
  indexes : gmap string index;
  schema_migrations : option (gmap Z migration_row);
}.

#[global] Instance affinity_eq_dec : EqDecision affinity.
Proof. solve_decision. Defined.
#[global] Instance value_eq_dec : EqDecision value.
Proof. solve_decision. Defined.
#[global] Instance column_constraint_eq_dec : EqDecision column_constraint.
Proof. solve_decision. Defined.
#[global] Instance column_eq_dec : EqDecision column.
Proof. solve_decision. Defined.
#[global] Instance table_constraint_eq_dec : EqDecision table_constraint.
Proof. solve_decision. Defined.
#[global] Instance condition_eq_dec : EqDecision condition.
Proof. solve_decision. Defined.
#[global] Instance index_eq_dec : EqDecision index.
Proof. solve_decision. Defined.

(** Every [CREATE] has [IF NOT EXISTS]. *)
Inductive statement : Type :=
| CreateTable (name : string) (cols : list column) (tcs : list table_constraint)
| CreateIndex (unique : bool) (name table : string) (cols : list string) (where_ : list condition)
| AddColumn (table : string) (col : column).

Definition set_tables (t : gmap string table) (d : Database) : Database := MkDatabase t (indexes d) (schema_migrations d).
Definition set_indexes (i : gmap string index) (d : Database) : Database := MkDatabase (tables d) i (schema_migrations d).
Definition set_schema_migrations (m : gmap Z migration_row) (d : Database) : Database :=
  MkDatabase (tables d) (indexes d) (Some m).

Definition has_name (l : list column) (n : string) : bool := existsb (fun c => String.eqb (column_name c) n) l.
Definition condition_column (c : condition) : string := match c with IsNull n | IsNotNull n => n end.

(** The value a row of a table with columns [l] has in the column [n]. *)
Fixpoint cell (l : list column) (n : string) (row : list value) : value :=
  match l, row with
  | c :: l', v :: row' => if String.eqb (column_name c) n then v else cell l' n row'
  | _, _ => Null
  end.

Definition holds (l : list column) (row : list value) (c : condition) : bool :=
  match c with
  | IsNull n => bool_decide (cell l n row = Null)
  | IsNotNull n => negb (bool_decide (cell l n row = Null))
  end.

(** The keys a unique index enforces: of the rows its condition selects, those
    without a NULL. *)
Definition index_keys (t : table) (cols : list string) (where_ : list condition) : list (list value) :=
  List.filter (fun k => negb (bool_decide (Null ∈ k)))
    (map (fun row => map (fun n => cell (columns t) n row) cols)
       (List.filter (fun row => forallb (holds (columns t) row) where_) (rows t))).

Definition is_default (c : column_constraint) : option value := match c with Default v => Some v | _ => None end.
Definition default_of (c : column) : value := default Null (head (omap is_default (column_constraints c))).
Definition has_constraint (P : column_constraint -> bool) (c : column) : bool := existsb P (column_constraints c).
Definition is_key (k : column_constraint) : bool := match k with PrimaryKey | PrimaryKeyAuto | Unique => true | _ => false end.
Definition is_not_null (k : column_constraint) : bool := match k with NotNull => true | _ => false end.
Definition is_reference (k : column_constraint) : bool := match k with References _ _ => true | _ => false end.

(** What SQLite allows of a column added to a table that has rows. *)
Definition needs_empty (c : column) : bool :=
  (has_constraint is_not_null c && bool_decide (default_of c = Null)) ||
  (has_constraint is_reference c && negb (bool_decide (default_of c = Null))).

Fixpoint distinct {A} `{EqDecision A} (l : list A) : bool :=
  match l with [] => true | x :: l' => negb (bool_decide (x ∈ l')) && distinct l' end.

Definition constraint_columns (c : table_constraint) : list string := match c with KeyColumns l | UniqueColumns l => l end.

Definition statement_exec (st : statement) (d : Database) : result Database :=
  match st with
  | CreateTable name cols tcs =>
      if is_valid (tables d !! name) then Ok d
      else if is_valid (indexes d !! name) then Err (Internal "there is already an index of that name")
      else if negb (distinct (map column_name cols)) then Err (Internal "duplicate column name")
      else if negb (forallb (fun k => forallb (has_name cols) (constraint_columns k)) tcs) then Err (Internal "no such column")
      else Ok (set_tables (<[name := MkTable cols tcs []]> (tables d)) d)
  | CreateIndex unique name table cols where_ =>
      match tables d !! table with
      | None => Err (Internal "no such table")
      | Some t =>
          if is_valid (tables d !! name) then Err (Internal "there is already a table of that name")
          else if is_valid (indexes d !! name) then Ok d
          else if negb (forallb (has_name (columns t)) (cols ++ map condition_column where_)) then Err (Internal "no such column")
          else if unique && negb (distinct (index_keys t cols where_)) then Err (SqlUnique name)
          else Ok (set_indexes (<[name := MkIndex table unique cols where_]> (indexes d)) d)
      end
  | AddColumn table col =>
      match tables d !! table with
      | None => Err (Internal "no such table")
      | Some t =>
          if has_name (columns t) (column_name col) then Err (Internal "duplicate column name")
          else if has_constraint is_key col then Err (Internal "cannot add a PRIMARY KEY or UNIQUE column")
          else if needs_empty col && negb (Nat.eqb (length (rows t)) 0) then Err (Internal "cannot add a column with that default value")
          else Ok (set_tables (<[table := MkTable (columns t ++ [col]) (constraints t)
                                   (map (fun row => row ++ [default_of col]) (rows t))]> (tables d)) d)
      end
  end%list.

(** [ExecContext] of a text of several statements. *)
Definition exec_script (l : list statement) : M Database unit := mfor (fun _ st => exec (statement_exec st)) 0 l.

(** ** migrations.go *)

Record migration := MkMigration {
  Version : Z;
  Name : string;
  SQL : list statement;
}.

Definition migration0001InitialSchema : list statement :=
  [ CreateTable "users"
      [ Column "id" TEXT [PrimaryKey];
        Column "username" TEXT [NotNull];
        Column "username_norm" TEXT [NotNull; Unique];
        Column "display_name" TEXT [];
        Column "password_hash" TEXT [NotNull];
        Column "role" TEXT [NotNull; CheckIn ["ADMIN"; "USER"]];
        Column "status" TEXT [NotNull; CheckIn ["ACTIVE"; "DISABLED"]];
        Column "created_at" TEXT [NotNull];
        Column "updated_at" TEXT [NotNull] ]
      [];
    CreateTable "devices"
      [ Column "id" TEXT [PrimaryKey];
        Column "user_id" TEXT [NotNull; References "users" "id"];
        Column "name" TEXT [NotNull];
        Column "platform" TEXT [NotNull; CheckIn ["WINDOWS"; "ANDROID"; "OTHER"]];
        Column "e2ee_public_key" BLOB [NotNull];
        Column "e2ee_key_version" INTEGER [NotNull];
        Column "created_at" TEXT [NotNull];
        Column "last_seen_at" TEXT [NotNull];
        Column "revoked_at" TEXT [] ]
      [];
    CreateTable "refresh_tokens"
      [ Column "id" TEXT [PrimaryKey];
        Column "user_id" TEXT [NotNull; References "users" "id"];
        Column "device_id" TEXT [NotNull; References "devices" "id"];
        Column "token_hash" BLOB [NotNull];
        Column "created_at" TEXT [NotNull];
        Column "expires_at" TEXT [NotNull];
        Column "revoked_at" TEXT [] ]
      [];
    CreateTable "vault_key_envelopes"
      [ Column "id" TEXT [PrimaryKey];
        Column "vault_id" TEXT [NotNull];
        Column "target_user_id" TEXT [NotNull; References "users" "id"];
        Column "target_device_id" TEXT [References "devices" "id"];
        Column "key_version" INTEGER [NotNull];
        Column "envelope_ciphertext" BLOB [NotNull];
        Column "created_at" TEXT [NotNull];
        Column "revoked_at" TEXT [] ]
      [];
    CreateTable "nodes"
      [ Column "id" TEXT [PrimaryKey];
        Column "owner_id" TEXT [NotNull; References "users" "id"];
        Column "parent_id" TEXT [References "nodes" "id"];
        Column "node_type" TEXT [NotNull; CheckIn ["FILE"; "DIRECTORY"]];
        Column "metadata_ciphertext" BLOB [NotNull];
        Column "metadata_key_version" INTEGER [NotNull];
        Column "current_version_id" TEXT [];
        Column "revision" INTEGER [NotNull];
        Column "created_at" TEXT [NotNull];
        Column "updated_at" TEXT [NotNull];
        Column "deleted_at" TEXT [] ]
      [];
    CreateTable "blobs"
      [ Column "id" TEXT [PrimaryKey];
        Column "ciphertext_size" INTEGER [NotNull];
        Column "storage_rel_path" TEXT [NotNull; Unique];
        Column "ciphertext_sha256" TEXT [NotNull];
        Column "format_version" INTEGER [NotNull];
        Column "chunk_count" INTEGER [NotNull];
        Column "created_at" TEXT [NotNull] ]
      [];
    CreateTable "file_versions"
      [ Column "id" TEXT [PrimaryKey];
        Column "node_id" TEXT [NotNull; References "nodes" "id"];
        Column "blob_id" TEXT [NotNull; References "blobs" "id"];
        Column "e2ee_header" BLOB [NotNull];
        Column "wrapped_file_key" BLOB [NotNull];
        Column "key_scope_id" TEXT [NotNull];
        Column "key_version" INTEGER [NotNull];
        Column "created_at" TEXT [NotNull];
        Column "created_by_device_id" TEXT [NotNull; References "devices" "id"];
        Column "revision" INTEGER [NotNull] ]
      [];
    CreateTable "sync_changes"
      [ Column "revision" INTEGER [PrimaryKeyAuto];
        Column "user_scope_id" TEXT [];
        Column "node_id" TEXT [];
        Column "operation" TEXT [NotNull];
        Column "payload_ciphertext" BLOB [];
        Column "created_at" TEXT [NotNull] ]
      [];
    CreateTable "processed_operations"
      [ Column "operation_id" TEXT [PrimaryKey];
        Column "user_id" TEXT [NotNull; References "users" "id"];
        Column "device_id" TEXT [NotNull; References "devices" "id"];
        Column "operation_type" TEXT [NotNull];
        Column "result_code" TEXT [NotNull];
        Column "result_payload" BLOB [];
        Column "created_at" TEXT [NotNull];
        Column "expires_at" TEXT [NotNull] ]
      [];
    CreateTable "upload_sessions"
      [ Column "id" TEXT [PrimaryKey];
        Column "user_id" TEXT [NotNull; References "users" "id"];
        Column "device_id" TEXT [NotNull; References "devices" "id"];
        Column "target_node_id" TEXT [References "nodes" "id"];
        Column "file_version_id" TEXT [NotNull];
        Column "blob_id" TEXT [NotNull];
        Column "expected_revision" INTEGER [];
        Column "chunk_size" INTEGER [NotNull];
        Column "chunk_count" INTEGER [NotNull];
        Column "max_ciphertext_size" INTEGER [NotNull];
        Column "metadata_ciphertext" BLOB [];
        Column "wrapped_file_key" BLOB [NotNull];
        Column "e2ee_header" BLOB [NotNull];
        Column "status" TEXT [NotNull; CheckIn ["OPEN"; "COMMITTING"; "COMPLETED"; "ABORTED"; "EXPIRED"]];
        Column "created_at" TEXT [NotNull];
        Column "expires_at" TEXT [NotNull];
        Column "completed_at" TEXT [] ]
      [];
    CreateTable "upload_chunks"
      [ Column "upload_id" TEXT [NotNull; References "upload_sessions" "id"];
        Column "chunk_no" INTEGER [NotNull];
        Column "ciphertext_size" INTEGER [NotNull];
        Column "ciphertext_sha256" TEXT [NotNull];
        Column "temp_rel_path" TEXT [NotNull];
        Column "received_at" TEXT [NotNull] ]
      [KeyColumns ["upload_id"; "chunk_no"]];
    CreateTable "shares"
      [ Column "id" TEXT [PrimaryKey];
        Column "node_id" TEXT [NotNull; References "nodes" "id"];
        Column "owner_user_id" TEXT [NotNull; References "users" "id"];
        Column "target_user_id" TEXT [NotNull; References "users" "id"];
        Column "permission" TEXT [NotNull; CheckIn ["READ"; "READ_WRITE"]];
        Column "key_envelope" BLOB [NotNull];
        Column "key_version" INTEGER [NotNull];
        Column "created_at" TEXT [NotNull];
        Column "created_by" TEXT [NotNull; References "users" "id"];
        Column "revoked_at" TEXT [] ]
      [];
    CreateTable "favorites"
      [ Column "user_id" TEXT [NotNull; References "users" "id"];
        Column "node_id" TEXT [NotNull; References "nodes" "id"];
        Column "created_at" TEXT [NotNull] ]
      [KeyColumns ["user_id"; "node_id"]];
    CreateTable "sync_cursors"
      [ Column "device_id" TEXT [PrimaryKey; References "devices" "id"];
        Column "last_ack_revision" INTEGER [NotNull];
        Column "updated_at" TEXT [NotNull] ]
      [];
    CreateTable "audit_events"
      [ Column "id" INTEGER [PrimaryKeyAuto];
        Column "created_at" TEXT [NotNull];
        Column "user_id" TEXT [];
        Column "device_id" TEXT [];
        Column "event_type" TEXT [NotNull];
        Column "subject_id" TEXT [];
        Column "request_id" TEXT [];
        Column "metadata" TEXT [] ]
      [];
    CreateIndex false "idx_nodes_parent" "nodes" ["parent_id"] [];
    CreateIndex false "idx_sync_changes_revision" "sync_changes" ["revision"] [];
    CreateIndex false "idx_upload_chunks_upload" "upload_chunks" ["upload_id"] [];
    CreateIndex false "idx_upload_sessions_status" "upload_sessions" ["status"; "expires_at"] [] ].

Definition migration0002AccessTokens : list statement :=
  [ CreateTable "access_tokens"
      [ Column "id" TEXT [PrimaryKey];
        Column "user_id" TEXT [NotNull; References "users" "id"];
        Column "device_id" TEXT [NotNull; References "devices" "id"];
        Column "token_hash" BLOB [NotNull];
        Column "created_at" TEXT [NotNull];
        Column "expires_at" TEXT [NotNull] ]
      [];
    CreateIndex true "idx_access_tokens_hash" "access_tokens" ["token_hash"] [];
    CreateIndex false "idx_access_tokens_expires" "access_tokens" ["expires_at"] [] ].

Definition migration0003MaintenanceGCCandidates : list statement :=
  [ CreateTable "gc_blob_candidates"
      [ Column "blob_id" TEXT [PrimaryKey; References "blobs" "id"];
        Column "marked_at" TEXT [NotNull] ]
      [];
    CreateTable "gc_orphan_blob_files"
      [ Column "storage_rel_path" TEXT [PrimaryKey];
        Column "marked_at" TEXT [NotNull] ]
      [];
    CreateIndex false "idx_gc_blob_candidates_marked_at" "gc_blob_candidates" ["marked_at"] [];
    CreateIndex false "idx_gc_orphan_blob_files_marked_at" "gc_orphan_blob_files" ["marked_at"] [] ].

Definition migration0004ShareDeviceEnvelopes : list statement :=
  [ CreateTable "share_device_envelopes"
      [ Column "id" TEXT [PrimaryKey];
        Column "share_id" TEXT [NotNull; References "shares" "id"];
        Column "target_device_id" TEXT [NotNull; References "devices" "id"];
        Column "key_version" INTEGER [NotNull];
        Column "envelope_ciphertext" BLOB [NotNull];
        Column "created_at" TEXT [NotNull];
        Column "revoked_at" TEXT [] ]
      [UniqueColumns ["share_id"; "target_device_id"; "key_version"]];
    CreateIndex false "idx_active_share_per_recipient" "shares" ["node_id"; "target_user_id"; "revoked_at"] [];
    CreateIndex false "idx_share_device_envelopes_recipient" "share_device_envelopes" ["target_device_id"; "share_id"] [IsNull "revoked_at"] ].

Definition migration0005DeviceLastSync : list statement :=
  [ AddColumn "devices" (Column "last_sync_at" TEXT []);
    CreateIndex false "idx_devices_user_last_sync" "devices" ["user_id"; "last_sync_at"] [] ].

Definition migration0006UploadMetadataVersion : list statement :=
  [ AddColumn "upload_sessions" (Column "metadata_key_version" INTEGER [NotNull; Default (Integer 1)]) ].

Definition migration0007TrashRetentionIndex : list statement :=
  [ CreateIndex false "idx_nodes_deleted_at" "nodes" ["deleted_at"] [IsNotNull "deleted_at"] ].

Definition migration0008AuthenticatedDeviceKeys : list statement :=
  [ AddColumn "vault_key_envelopes" (Column "signature_version" INTEGER []);
    AddColumn "vault_key_envelopes" (Column "account_identity_public_key" BLOB []);
    AddColumn "vault_key_envelopes" (Column "device_key_signature" BLOB []);
    CreateIndex false "idx_vault_envelopes_certificates" "vault_key_envelopes" ["target_user_id"; "target_device_id"; "created_at"] [IsNotNull "signature_version"; IsNull "revoked_at"] ].

Definition migration0009HotPathIndexesAndTokenRotation : list statement :=
  [ CreateIndex false "idx_sync_changes_user_revision" "sync_changes" ["user_scope_id"; "revision"] [];
    CreateIndex false "idx_refresh_tokens_hash" "refresh_tokens" ["token_hash"] [];
    CreateIndex false "idx_refresh_tokens_device" "refresh_tokens" ["device_id"] [IsNull "revoked_at"];
    CreateIndex false "idx_upload_sessions_blob" "upload_sessions" ["blob_id"] [];
    CreateIndex false "idx_upload_sessions_file_version" "upload_sessions" ["file_version_id"] [];
    AddColumn "refresh_tokens" (Column "rotated_to" TEXT []) ].

Definition migration0010RecoveryBundles : list statement :=
  [ CreateTable "recovery_bundles"
      [ Column "user_id" TEXT [PrimaryKey; References "users" "id"];
        Column "bundle" BLOB [NotNull];
        Column "account_identity_public_key" BLOB [NotNull];
        Column "signature" BLOB [NotNull];
        Column "updated_at" TEXT [NotNull];
        Column "updated_by_device_id" TEXT [NotNull; References "devices" "id"] ]
      [] ].

Definition migration0011FileVersionRetentionIndex : list statement :=
  [ CreateIndex false "idx_file_versions_node_created" "file_versions" ["node_id"; "created_at"] [] ].

Definition migration0012GCAndLookupIndexes : list statement :=
  [ CreateIndex false "idx_file_versions_blob" "file_versions" ["blob_id"] [];
    CreateIndex false "idx_upload_sessions_target_node" "upload_sessions" ["target_node_id"] [];
    CreateIndex false "idx_vault_envelopes_target_device" "vault_key_envelopes" ["target_device_id"; "created_at"] [IsNull "revoked_at"] ].

Definition migration0013FamilyVaultFolderKeys : list statement :=
  [ AddColumn "nodes" (Column "metadata_key_scope_id" TEXT []);
    CreateTable "folder_keys"
      [ Column "folder_id" TEXT [NotNull];
        Column "key_version" INTEGER [NotNull];
        Column "owner_user_id" TEXT [NotNull; References "users" "id"];
        Column "owner_envelope" BLOB [NotNull];
        Column "created_at" TEXT [NotNull];
        Column "created_by_device_id" TEXT [NotNull; References "devices" "id"] ]
      [KeyColumns ["folder_id"; "key_version"]];
    CreateIndex false "idx_folder_keys_owner" "folder_keys" ["owner_user_id"; "folder_id"] [];
    AddColumn "share_device_envelopes" (Column "owner_identity_public_key" BLOB []);
    AddColumn "share_device_envelopes" (Column "owner_signature" BLOB []);
    CreateIndex false "idx_shares_target_active" "shares" ["target_user_id"; "node_id"] [IsNull "revoked_at"];
    CreateIndex false "idx_shares_node_active" "shares" ["node_id"] [IsNull "revoked_at"];
    CreateIndex false "idx_nodes_metadata_scope" "nodes" ["metadata_key_scope_id"] [IsNotNull "metadata_key_scope_id"];
    CreateIndex false "idx_file_versions_key_scope" "file_versions" ["key_scope_id"] [] ].

Definition migrations : list migration :=
  [ MkMigration 1 "initial_schema" migration0001InitialSchema;
    MkMigration 2 "access_tokens" migration0002AccessTokens;
    MkMigration 3 "maintenance_gc_candidates" migration0003MaintenanceGCCandidates;
    MkMigration 4 "share_device_envelopes" migration0004ShareDeviceEnvelopes;
    MkMigration 5 "device_last_sync" migration0005DeviceLastSync;
    MkMigration 6 "upload_metadata_version" migration0006UploadMetadataVersion;
    MkMigration 7 "trash_retention_index" migration0007TrashRetentionIndex;
    MkMigration 8 "authenticated_device_keys" migration0008AuthenticatedDeviceKeys;
    MkMigration 9 "hot_path_indexes_and_token_rotation" migration0009HotPathIndexesAndTokenRotation;
    MkMigration 10 "recovery_bundles" migration0010RecoveryBundles;
    MkMigration 11 "file_version_retention_index" migration0011FileVersionRetentionIndex;
    MkMigration 12 "gc_and_lookup_indexes" migration0012GCAndLookupIndexes;
    MkMigration 13 "family_vault_folder_keys" migration0013FamilyVaultFolderKeys ].

(** ** database.go *)

Definition create_schema_migrations (d : Database) : Database := set_schema_migrations (default ∅ (schema_migrations d)) d.

(** [SELECT version FROM schema_migrations]. *)
Definition applied (d : Database) (v : Z) : bool := is_valid (default ∅ (schema_migrations d) !! v).

Definition record_migration (now : Z) (m : migration) (d : Database) : result Database :=
  if applied d (Version m) then Err (SqlUnique "schema_migrations.version")
  else Ok (set_schema_migrations (<[Version m := MkMigrationRow (Name m) (Format now)]> (default ∅ (schema_migrations d))) d).

Definition apply_migration (now : Z) (m : migration) : M Database unit :=
  tx (exec_script (SQL m) ;; exec (record_migration now m)).

(** The loop over the migrations: [done_] is the set read before it. *)
Fixpoint apply_pending (clk : nat -> Z) (i : nat) (done_ : Z -> bool) (l : list migration) : M Database unit :=
  match l with
  | [] => mret tt
  | m :: l' => if done_ (Version m) then apply_pending clk i done_ l'
               else apply_migration (clk i) m ;; apply_pending clk (S i) done_ l'
  end.

Definition Migrate (clk : nat -> Z) : M Database unit :=
  modify create_schema_migrations ;;
  done_ ← query (fun d => Ok (applied d));
  apply_pending clk 0 done_ migrations.

(** The file before anything was created in it. *)
Definition new_database : Database := MkDatabase ∅ ∅ None.

(** What the 13 migrations make of a new database. *)
Example Migrate_new : let d := (Migrate (fun _ => 0%Z) new_database).2 in
  is_ok (Migrate (fun _ => 0%Z) new_database).1 = true /\ size (tables d) = 21 /\ size (indexes d) = 27 /\
  (column_name <$> (from_option columns [] (tables d !! "nodes"))) =
    ["id"; "owner_id"; "parent_id"; "node_type"; "metadata_ciphertext"; "metadata_key_version"; "current_version_id";
     "revision"; "created_at"; "updated_at"; "deleted_at"; "metadata_key_scope_id"].
Proof. vm_compute. split_and!; reflexivity. Qed.
