(* ===== verification/MigrationsCorrect.v ===== *)
(** * Correctness of the migration runner

    Whatever a database has been through since it was created, interrupted
    runs and years of use included, one run brings it to the latest schema
    with its rows kept. *)

From S2P Require Import Prelude GoText GoTime Migrations.
Local Open Scope string_scope.

(** ** The schema of a database, and planning over it *)

Record schema := MkSchema {
  s_tables : gmap string (list column * list table_constraint);
  s_indexes : gmap string index;
}.

Definition shape (t : table) : list column * list table_constraint := (columns t, constraints t).
Definition schema_of (d : Database) : schema := MkSchema (shape <$> tables d) (indexes d).

(** A schema and the tables known to be empty. *)
Definition plan_state : Type := schema * gset string.

(** The effect of a statement on the schema; [None] where it may depend on rows. *)
Definition plan (st : statement) (p : plan_state) : option plan_state :=
  let s := p.1 in let E := p.2 in
  match st with
  | CreateTable name cols tcs =>
      if is_valid (s_tables s !! name) then Some p
      else if is_valid (s_indexes s !! name) || negb (distinct (map column_name cols)) ||
              negb (forallb (fun k => forallb (has_name cols) (constraint_columns k)) tcs) then None
      else Some (MkSchema (<[name := (cols, tcs)]> (s_tables s)) (s_indexes s), {[name]} ∪ E)
  | CreateIndex unique name table cols where_ =>
      match s_tables s !! table with
      | None => None
      | Some t =>
          if is_valid (s_tables s !! name) then None
          else if is_valid (s_indexes s !! name) then Some p
          else if negb (forallb (has_name t.1) (cols ++ map condition_column where_)) ||
                  (unique && negb (bool_decide (table ∈ E))) then None
          else Some (MkSchema (s_tables s) (<[name := MkIndex table unique cols where_]> (s_indexes s)), E)
      end
  | AddColumn table col =>
      match s_tables s !! table with
      | None => None
      | Some t =>
          if has_name t.1 (column_name col) || has_constraint is_key col ||
             (needs_empty col && negb (bool_decide (table ∈ E))) then None
          else Some (MkSchema (<[table := ((t.1 ++ [col])%list, t.2)]> (s_tables s)) (s_indexes s), E)
      end
  end%list.

Fixpoint plan_script (l : list statement) (p : plan_state) : option plan_state :=
  match l with [] => Some p | st :: l' => plan st p ≫= plan_script l' end.

Definition plan_migration (m : migration) (s : schema) : option schema := fst <$> plan_script (SQL m) (s, ∅).

Fixpoint plan_all (l : list migration) (s : schema) : option schema :=
  match l with [] => Some s | m :: l' => plan_migration m s ≫= plan_all l' end.

Definition empty_schema : schema := MkSchema ∅ ∅.
(** The schema the first [k] migrations make. *)
Definition schema_at (k : nat) : option schema := plan_all (take k migrations) empty_schema.
Definition latest : nat := length migrations.

(** ** What a statement keeps *)

(** Every table of [d] is still there with its rows; columns were only added,
    and their cells hold the default. *)
Definition extends (d d' : Database) : Prop := forall name t, tables d !! name = Some t ->
  exists t' added, tables d' !! name = Some t' /\ columns t' = (columns t ++ added)%list /\ constraints t' = constraints t /\
    rows t' = map (fun row => row ++ map default_of added)%list (rows t).

Lemma extends_refl d : extends d d.
Proof.
  intros name t Ht. exists t, []. split; [done|]. rewrite app_nil_r. split_and!; [done..|].
  simpl. rewrite <- (map_id (rows t)) at 1. apply map_ext. intros row. by rewrite app_nil_r.
Qed.

#[export] Instance extends_preorder : PreOrder extends.
Proof.
  split; [exact extends_refl|]. intros a b c H1 H2 name t Ht.
  destruct (H1 _ _ Ht) as (t1 & l1 & Ht1 & C1 & T1 & R1). destruct (H2 _ _ Ht1) as (t2 & l2 & Ht2 & C2 & T2 & R2).
  exists t2, (l1 ++ l2)%list. rewrite C2, C1, T2, T1, R2, R1, <- app_assoc, map_map. split_and!; try done.
  apply map_ext. intros row. by rewrite map_app, app_assoc.
Qed.

Definition abstracts (d : Database) (p : plan_state) : Prop :=
  schema_of d = p.1 /\ forall n, n ∈ p.2 -> exists t, tables d !! n = Some t /\ rows t = [].

Lemma abstracts_schema d : abstracts d (schema_of d, ∅).
Proof. split; [reflexivity|]. intros n Hn. by apply elem_of_empty in Hn. Qed.

Lemma extends_tables d f : (forall n t, tables d !! n = Some t -> f !! n = Some t) -> extends d (set_tables f d).
Proof.
  intros H n t Ht. destruct (extends_refl d n t Ht) as (t' & l & Ht' & Hrest). exists t', l.
  split; [by apply H|done].
Qed.

Lemma lookup_shape d n : (shape <$> tables d) !! n = shape <$> (tables d !! n).
Proof. apply lookup_fmap. Qed.

Lemma plan_sound st d p p' : abstracts d p -> plan st p = Some p' ->
  exists d', statement_exec st d = Ok d' /\ abstracts d' p' /\ extends d d' /\ schema_migrations d' = schema_migrations d.
Proof.
  destruct p as [s E]. intros [Hs HE] Hp. simpl in Hs, HE. subst s.
  destruct st as [name cols tcs|unique name table cols where_|table col]; simpl in Hp |- *.
  - rewrite lookup_shape in Hp. destruct (tables d !! name) as [t|] eqn:Et; simpl in Hp |- *.
    { injection Hp as <-. by exists d. }
    destruct (indexes d !! name) as [i|]; [done|]. simpl in Hp |- *.
    destruct (distinct _); [|done]. destruct (forallb _ tcs); [|done]. simpl in Hp |- *. injection Hp as <-.
    eexists. split; [done|]. split; [split|split; [|done]].
    + unfold schema_of. simpl. by rewrite fmap_insert.
    + simpl. intros n [->%elem_of_singleton|Hn]%elem_of_union; [rewrite lookup_insert_eq; eauto|].
      destruct (HE n Hn) as (t & Ht & Hr). exists t. split; [|done]. rewrite lookup_insert_ne by congruence. done.
    + apply extends_tables. intros n t Ht. rewrite lookup_insert_ne by congruence. done.
  - rewrite !lookup_shape in Hp. destruct (tables d !! table) as [t|] eqn:Et; [|done]. simpl in Hp.
    destruct (tables d !! name) as [t'|]; [done|]. simpl in Hp |- *.
    destruct (indexes d !! name) as [i|]; simpl in Hp |- *. { injection Hp as <-. by exists d. }
    destruct (forallb _ _); [|done]. simpl in Hp |- *.
    assert (Hu : unique && negb (distinct (index_keys t cols where_)) = false).
    { destruct unique; [|done]. simpl in Hp |- *. destruct (bool_decide_reflect (table ∈ E)) as [Hin|]; [|done].
      destruct (HE _ Hin) as (t0 & Ht0 & Hr0). assert (t0 = t) as -> by congruence. unfold index_keys. by rewrite Hr0. }
    rewrite Hu. destruct (unique && _); [done|]. injection Hp as <-. eexists. split; [done|]. split; [by split|]. split; [exact (extends_refl d)|done].
  - rewrite lookup_shape in Hp. destruct (tables d !! table) as [t|] eqn:Et; [|done]. simpl in Hp.
    destruct (has_name _ _); [done|]. destruct (has_constraint is_key col); [done|]. simpl in Hp.
    assert (Hn : needs_empty col && negb (Nat.eqb (length (rows t)) 0) = false).
    { destruct (needs_empty col); [|done]. simpl in Hp |- *. destruct (bool_decide_reflect (table ∈ E)) as [Hin|]; [|done].
      destruct (HE _ Hin) as (t0 & Ht0 & Hr0). assert (t0 = t) as -> by congruence. by rewrite Hr0. }
    rewrite Hn. destruct (needs_empty col && _); [done|]. injection Hp as <-. eexists. split; [done|].
    split; [split|split; [|done]].
    + unfold schema_of. simpl. by rewrite fmap_insert.
    + simpl. intros n Hin. destruct (HE n Hin) as (t0 & Ht0 & Hr0). destruct (decide (table = n)) as [->|Hne].
      * rewrite lookup_insert_eq. eexists. split; [done|]. assert (t0 = t) as -> by congruence. simpl. by rewrite Hr0.
      * rewrite lookup_insert_ne by done. eauto.
    + intros n t0 Ht0. simpl. destruct (decide (table = n)) as [->|Hne].
      * rewrite lookup_insert_eq. assert (t0 = t) as -> by congruence. by exists (MkTable (columns t ++ [col]) (constraints t)
          (map (fun row => row ++ [default_of col])%list (rows t))), [col].
      * rewrite lookup_insert_ne by done. by apply extends_refl.
Qed.

Lemma plan_script_sound l d p p' : abstracts d p -> plan_script l p = Some p' ->
  exists d', exec_script l d = (Ok tt, d') /\ abstracts d' p' /\ extends d d' /\ schema_migrations d' = schema_migrations d.
Proof.
  unfold exec_script. generalize 0%nat. revert d p. induction l as [|st l IH]; intros d p i Ha Hp; simpl in Hp |- *.
  - injection Hp as <-. by exists d.
  - destruct (plan st p) as [p1|] eqn:E1; [|done]. simpl in Hp.
    destruct (plan_sound st d p p1 Ha E1) as (d1 & Hd1 & Ha1 & Hx1 & Hm1).
    destruct (IH d1 p1 (S i) Ha1 Hp) as (d2 & Hd2 & Ha2 & Hx2 & Hm2). exists d2.
    rewrite (bind_ok _ _ d tt d1) by (unfold exec; by rewrite Hd1). split; [done|]. split; [done|].
    split; [by etrans|congruence].
Qed.

(** ** The history of a database *)

(** The database after the first [k] migrations, whatever its rows: its schema,
    and the migrations recorded in it. *)
Definition at_version (k : nat) (d : Database) : Prop :=
  k <= latest /\ schema_at k = Some (schema_of d) /\
  forall v, applied d v = existsb (fun m => Z.eqb (Version m) v) (take k migrations).

Definition same_schema (d d' : Database) : Prop := schema_of d' = schema_of d /\ schema_migrations d' = schema_migrations d.

(** What happens to a database: a run of [Migrate] opens it, commits the next
    pending migration, or the server's statements change its rows.  A run may
    stop, by an error or a crash, after any of these steps. *)
Inductive db_step (d : Database) : Database -> Prop :=
| step_open : db_step d (create_schema_migrations d)
| step_commit now m d' : List.find (fun m => negb (applied d (Version m))) migrations = Some m ->
    apply_migration now m d = (Ok tt, d') -> db_step d d'
| step_use d' : same_schema d d' -> db_step d d'.

Lemma schema_at_S k m : migrations !! k = Some m -> schema_at (S k) = schema_at k ≫= plan_migration m.
Proof.
  unfold schema_at. generalize empty_schema. revert k. induction migrations as [|m0 l IH]; intros k s; [done|].
  destruct k as [|k]; simpl.
  - intros [= ->]. by destruct (plan_migration m s).
  - intros Hm. destruct (plan_migration m0 s) as [s1|]; [|done]. simpl. by apply IH.
Qed.

(** Every migration applies to the schema the ones before it make. *)
Lemma schema_at_valid k : is_Some (schema_at k).
Proof.
  assert (H : forallb (fun k => is_valid (schema_at k)) (seq 0 (S latest)) = true) by (vm_compute; reflexivity).
  destruct (decide (k <= latest)) as [Hk|Hk].
  - rewrite forallb_forall in H. specialize (H k ltac:(apply in_seq; lia)). destruct (schema_at k); [by eexists|done].
  - unfold schema_at. rewrite take_ge by (unfold latest in Hk; lia).
    specialize (forallb_forall (fun k => is_valid (schema_at k)) (seq 0 (S latest))) as [Hf _].
    specialize (Hf H latest ltac:(apply in_seq; lia)). unfold schema_at in Hf. rewrite take_ge in Hf by done.
    destruct (plan_all _ _); [by eexists|done].
Qed.

Lemma versions_distinct i j m m' : migrations !! i = Some m -> migrations !! j = Some m' -> Version m = Version m' -> i = j.
Proof.
  intros Hi Hj Hv. assert (Hd : NoDup (map Version migrations)) by (apply (bool_decide_unpack _); vm_compute; exact I).
  assert (Hl : forall i m, migrations !! i = Some m -> map Version migrations !! i = Some (Version m))
    by (intros i0 m0 H0; change (map Version migrations) with (Version <$> migrations); by rewrite list_lookup_fmap, H0).
  apply (NoDup_lookup (map Version migrations) i j (Version m)); [done|by apply Hl|]. rewrite Hv. by apply Hl.
Qed.

Lemma applied_iff k d i m : at_version k d -> migrations !! i = Some m -> applied d (Version m) = bool_decide (i < k).
Proof.
  intros (Hk & _ & Ha) Hm. rewrite Ha. apply eq_bool_prop_intro. rewrite !Is_true_true, bool_decide_eq_true, existsb_exists. split.
  - intros (m' & Hin & Hv%Z.eqb_eq). apply list_elem_of_In, list_elem_of_lookup in Hin as [j Hj].
    apply lookup_take_Some in Hj as [Hj Hjk]. by rewrite (versions_distinct i j m m' Hm Hj).
  - intros Hi. exists m. split; [|by apply Z.eqb_eq]. apply list_elem_of_In, list_elem_of_lookup. exists i.
    by apply lookup_take_Some.
Qed.

(** The next pending migration of a database at version [k] is the [k]-th. *)
Lemma find_pending k d m : at_version k d ->
  List.find (fun m => negb (applied d (Version m))) migrations = Some m <-> migrations !! k = Some m.
Proof.
  intros Hv. pose proof (applied_iff k d) as Ha.
  assert (Hall : forall i m, migrations !! i = Some m -> applied d (Version m) = bool_decide (i < k)) by (intros; by apply Ha).
  clear Ha Hv. revert k Hall. induction migrations as [|m0 l IH]; intros k Hall; [done|]. simpl.
  rewrite (Hall 0 m0) by done. destruct k as [|k]; [done|]. simpl. apply IH.
  intros i m' Hi. rewrite (Hall (S i) m') by done. apply bool_decide_ext. lia.
Qed.

Lemma apply_migration_ok k d m now : at_version k d -> migrations !! k = Some m ->
  exists d', apply_migration now m d = (Ok tt, d') /\ at_version (S k) d' /\ extends d d'.
Proof.
  intros Hv Hm. pose proof Hv as (Hk & Hs & Ha). destruct (schema_at_valid (S k)) as [s' Hs'].
  pose proof Hs' as Hp. rewrite (schema_at_S k m Hm), Hs in Hp. simpl in Hp. unfold plan_migration in Hp.
  destruct (plan_script (SQL m) (schema_of d, ∅)) as [[s1 E1]|] eqn:Epl; [|done]. simpl in Hp. injection Hp as ->.
  pose proof (abstracts_schema d) as Habs.
  destruct (plan_script_sound (SQL m) d (schema_of d, ∅) _ Habs Epl)
    as (d1 & Hd1 & [Hs1 _] & Hx & Hmig). simpl in Hs1.
  assert (Hap : forall v, applied d1 v = applied d v) by (intros v; unfold applied; by rewrite Hmig).
  assert (Hnew : applied d1 (Version m) = false) by (rewrite Hap, (applied_iff k d k m Hv Hm); by apply bool_decide_eq_false; lia).
  eexists. unfold apply_migration, tx. rewrite (bind_ok _ _ d tt d1 Hd1). unfold exec, record_migration. rewrite Hnew.
  split; [done|]. split; [split_and!|].
  - apply lookup_lt_Some in Hm. unfold latest. lia.
  - rewrite Hs', <- Hs1. done.
  - intros v. rewrite (take_S_r _ _ _ Hm), existsb_app, <- Ha. simpl. rewrite orb_false_r. unfold applied. simpl.
    rewrite Hmig. destruct (Z.eqb_spec (Version m) v) as [->|Hne].
    + rewrite lookup_insert_eq. simpl. by rewrite orb_true_r.
    + rewrite lookup_insert_ne by done. by rewrite orb_false_r.
  - etrans; [exact Hx|]. exact (extends_refl d1).
Qed.

Lemma new_database_version : at_version 0 new_database.
Proof. split; [lia|]. split; [reflexivity|]. intros v. reflexivity. Qed.

Lemma same_schema_version k d d' : same_schema d d' -> at_version k d -> at_version k d'.
Proof. intros [Hs Hm] (Hk & Hsk & Ha). split; [done|]. rewrite Hs. split; [done|]. intros v. unfold applied. rewrite Hm. apply Ha. Qed.

Lemma open_version k d : at_version k d -> at_version k (create_schema_migrations d).
Proof. intros (Hk & Hs & Ha). split; [exact Hk|]. split; [exact Hs|exact Ha]. Qed.

Lemma db_step_version d d' : db_step d d' -> (exists k, at_version k d) -> exists k, at_version k d'.
Proof.
  intros [|now m d1 Hf Hm|d1 Hs] [k Hk].
  - exists k. by apply open_version.
  - apply (find_pending k d m Hk) in Hf. destruct (apply_migration_ok k d m now Hk Hf) as (d2 & Hd2 & Hv & _).
    exists (S k). assert (d2 = d1) as <- by congruence. exact Hv.
  - exists k. by apply (same_schema_version k d).
Qed.

Lemma history_version d : rtc db_step new_database d -> exists k, at_version k d.
Proof.
  intros Hr. assert (H : forall x y, rtc db_step x y -> (exists k, at_version k x) -> exists k, at_version k y).
  { clear. induction 1 as [|x y z Hs _ IH]; [done|]. intros Hx. by apply IH, (db_step_version x). }
  apply (H _ _ Hr). exists 0. exact new_database_version.
Qed.

(** ** The run *)

Lemma apply_pending_skip clk i done_ l l' d : (forall m, m ∈ l -> done_ (Version m) = true) ->
  apply_pending clk i done_ (l ++ l') d = apply_pending clk i done_ l' d.
Proof.
  induction l as [|m l IH]; intros Hl; [done|]. simpl. rewrite (Hl m) by (by left). apply IH. intros m' Hm'. apply Hl. by right.
Qed.

Lemma apply_pending_rest clk done_ k i d : at_version k d ->
  (forall j m, migrations !! j = Some m -> k <= j -> done_ (Version m) = false) ->
  exists d', apply_pending clk i done_ (drop k migrations) d = (Ok tt, d') /\ at_version latest d' /\ extends d d'.
Proof.
  intros Hv Hd. remember (latest - k)%nat as n eqn:En. revert k i d Hv Hd En.
  induction n as [|n IH]; intros k i d Hv Hd En; pose proof (proj1 Hv) as Hk.
  - assert (k = latest) as -> by lia. rewrite drop_ge by done. exists d. split; [done|]. split; [done|apply extends_refl].
  - destruct (migrations !! k) as [m|] eqn:Em; [|apply lookup_ge_None in Em; unfold latest in *; lia].
    rewrite (drop_S _ m) by done. simpl. rewrite (Hd k m Em) by lia.
    destruct (apply_migration_ok k d m (clk i) Hv Em) as (d1 & Hd1 & Hv1 & Hx1).
    destruct (IH (S k) (S i) d1 Hv1) as (d2 & Hd2 & Hv2 & Hx2); [intros j m' Hj Hle; apply (Hd j); [done|lia]|lia|].
    exists d2. rewrite (bind_ok _ _ d tt d1 Hd1). split; [done|]. split; [done|by etrans].
Qed.

Lemma Migrate_version clk k d : at_version k d ->
  exists d', Migrate clk d = (Ok tt, d') /\ at_version latest d' /\ extends d d'.
Proof.
  intros Hv0. pose proof (open_version k d Hv0) as Hv. set (d0 := create_schema_migrations d) in *.
  destruct (apply_pending_rest clk (applied d0) k 0 d0 Hv) as (d' & Hd' & Hl & Hx).
  - intros j m Hj Hle. rewrite (applied_iff k d0 j m Hv Hj). apply bool_decide_eq_false. lia.
  - exists d'. split; [|split; [exact Hl|exact Hx]]. unfold Migrate.
    rewrite (bind_ok _ _ d tt d0) by reflexivity. rewrite (bind_ok _ _ d0 (applied d0) d0) by reflexivity.
    rewrite <- (take_drop k migrations) at 1. rewrite apply_pending_skip; [exact Hd'|].
    intros m Hm. apply list_elem_of_lookup in Hm as [j Hj]. apply lookup_take_Some in Hj as [Hj Hjk].
    rewrite (applied_iff k d0 j m Hv Hj). by apply bool_decide_eq_true.
Qed.

Lemma Migrate_latest clk d : at_version latest d -> is_valid (schema_migrations d) = true -> Migrate clk d = (Ok tt, d).
Proof.
  intros Hv Hs. unfold Migrate. rewrite (bind_ok _ _ d tt d).
  - rewrite (bind_ok _ _ d (applied d) d) by reflexivity. rewrite <- (app_nil_r migrations), apply_pending_skip; [done|].
    intros m Hm. apply list_elem_of_lookup in Hm as [j Hj]. rewrite (applied_iff latest d j m Hv Hj).
    apply bool_decide_eq_true. by apply lookup_lt_Some in Hj.
  - unfold modify, create_schema_migrations. destruct d as [t ix [s|]]; [done|discriminate Hs].
Qed.

(** C28. Whatever a database has been through since it was created - any number
    of runs, each stopped by an error or a crash at any point, and any use of
    its tables in between - the next run succeeds, leaves exactly the schema of
    a new server, keeps every row with the added columns at their defaults, and
    makes the run after it a no-op. *)
Theorem Migrate_any_history d clk clk' : rtc db_step new_database d ->
  exists d', Migrate clk d = (Ok tt, d') /\ Some (schema_of d') = schema_at latest /\ extends d d' /\ Migrate clk' d' = (Ok tt, d').
Proof.
  intros [k Hk]%history_version. destruct (Migrate_version clk k d Hk) as (d' & Hd' & Hv & Hx). exists d'.
  split; [exact Hd'|]. split; [symmetry; apply Hv|]. split; [exact Hx|]. apply Migrate_latest; [exact Hv|].
  assert (Hn : applied d' 1%Z = true) by (rewrite (proj2 (proj2 Hv)); reflexivity).
  revert Hn. unfold applied. by destruct (schema_migrations d').
Qed.

(** ** Failing runs *)

Lemma exec_script_applied l : stays (fun d d' => schema_migrations d' = schema_migrations d) (exec_script l).
Proof.
  apply stays_mfor; [split; [done|intros x y z H1 H2; congruence]|]. intros _ st. apply stays_exec.
  { split; [done|intros x y z H1 H2; congruence]. }
  intros d d' H. destruct st; simpl in H; repeat case_match; try done; by injection H as <-.
Qed.

Lemma apply_migration_ok_inv now m d d' : apply_migration now m d = (Ok tt, d') ->
  applied d (Version m) = false /\ forall v, applied d' v = (Z.eqb (Version m) v || applied d v).
Proof.
  intros H. apply tx_ok_inv in H. inv_ok H.
  match goal with H : exec_script _ d = (Ok _, ?s) |- _ =>
    pose proof (exec_script_applied (SQL m) d) as Hs; rewrite H in Hs; simpl in Hs; rename s into d1 end.
  unfold record_migration in H. destruct (applied d1 (Version m)) eqn:Ha; [done|]. injection H as <-.
  unfold applied in *. rewrite Hs in Ha. split; [done|]. intros v. simpl. rewrite Hs.
  destruct (Z.eqb_spec (Version m) v) as [<-|Hne]; [by rewrite lookup_insert_eq|by rewrite lookup_insert_ne].
Qed.

Lemma find_app_false {A} (P : A -> bool) l l' : (forall x, x ∈ l -> P x = false) -> List.find P (l ++ l')%list = List.find P l'.
Proof. intros H. induction l as [|x l IH]; [done|]. simpl. rewrite (H x) by (by left). apply IH. intros y Hy. apply H. by right. Qed.

(** The run in the middle: the migrations before are applied, of the ones
    after the set read at the start still says which are. *)
Lemma apply_pending_atomic clk done_ pre l : migrations = (pre ++ l)%list -> forall i d r d',
  (forall m, m ∈ pre -> applied d (Version m) = true) ->
  (forall m, m ∈ l -> done_ (Version m) = applied d (Version m)) ->
  apply_pending clk i done_ l d = (r, d') ->
  rtc db_step d d' /\ (r = Ok tt -> forall m, m ∈ migrations -> applied d' (Version m) = true) /\
  (forall e, r = Err e -> exists m now, List.find (fun m => negb (applied d' (Version m))) migrations = Some m /\
     apply_migration now m d' = (Err e, d')).
Proof.
  revert pre. induction l as [|m l IH]; intros pre Hall i d r d' Hpre Hl H; simpl in H.
  - injection H as <- <-. split; [apply rtc_refl|]. split; [|done]. intros _ m Hm. apply Hpre.
    rewrite Hall, app_nil_r in Hm. exact Hm.
  - assert (Hall' : migrations = ((pre ++ [m]) ++ l)%list) by (rewrite <- app_assoc; exact Hall).
    rewrite (Hl m) in H by (by left). destruct (applied d (Version m)) eqn:Em.
    + apply (IH (pre ++ [m])%list Hall' i d r d'); [|intros m' Hm'; apply Hl; by right|exact H].
      intros m' [Hm'|Hm']%elem_of_app; [by apply Hpre|]. apply list_elem_of_singleton in Hm' as ->. exact Em.
    + assert (Hfind : List.find (fun m => negb (applied d (Version m))) migrations = Some m).
      { rewrite Hall, find_app_false; [simpl; by rewrite Em|]. intros x Hx. by rewrite (Hpre x Hx). }
      unfold mbind, M_bind in H. destruct (apply_migration (clk i) m d) as [[[]|e] d1] eqn:Ea.
      * destruct (apply_migration_ok_inv _ _ _ _ Ea) as [_ Hap].
        destruct (IH (pre ++ [m])%list Hall' (S i) d1 r d') as [Hr Hrest]; [| |exact H|].
        -- intros m' [Hm'|Hm']%elem_of_app; rewrite Hap; [rewrite (Hpre m' Hm'); apply orb_true_r|].
           apply list_elem_of_singleton in Hm' as ->. by rewrite Z.eqb_refl.
        -- intros m' Hm'. rewrite Hap, (Hl m') by (by right). destruct (Z.eqb_spec (Version m) (Version m')) as [Ev|]; [|done].
           apply list_elem_of_lookup in Hm' as [j Hj].
           assert (H1 : migrations !! length pre = Some m) by (rewrite Hall, lookup_app_r, Nat.sub_diag by lia; done).
           assert (H2 : migrations !! (length pre + S j)%nat = Some m')
             by (rewrite Hall, lookup_app_r by lia; by replace (_ + S j - _)%nat with (S j) by lia).
           pose proof (versions_distinct _ _ _ _ H1 H2 Ev). lia.
        -- split; [|exact Hrest]. apply (rtc_l _ _ d1); [|exact Hr]. exact (step_commit d (clk i) m d1 Hfind Ea).
      * injection H as <- <-. pose proof (tx_err_inv _ _ _ _ Ea) as ->. split; [apply rtc_refl|]. split; [done|].
        intros e0 [= <-]. by exists m, (clk i).
Qed.

(** C29. Every run, whatever it returns and on whatever database, is a sequence
    of whole migrations in their order, each recorded with its effect: success
    means that all are recorded, and a failing one leaves nothing behind. *)
Theorem Migrate_atomic clk d r d' : Migrate clk d = (r, d') ->
  rtc db_step d d' /\ (r = Ok tt -> forall m, m ∈ migrations -> applied d' (Version m) = true) /\
  (forall e, r = Err e -> exists m now, List.find (fun m => negb (applied d' (Version m))) migrations = Some m /\
     apply_migration now m d' = (Err e, d')).
Proof.
  intros H. unfold Migrate in H. rewrite (bind_ok _ _ d tt (create_schema_migrations d)) in H by reflexivity.
  rewrite (bind_ok _ _ _ (applied (create_schema_migrations d)) (create_schema_migrations d)) in H by reflexivity.
  destruct (apply_pending_atomic clk (applied (create_schema_migrations d)) [] migrations eq_refl 0
    (create_schema_migrations d) r d') as [Hr Hrest]; [intros m Hm; by apply not_elem_of_nil in Hm|done|exact H|].
  split; [|exact Hrest]. apply (rtc_l _ _ (create_schema_migrations d)); [apply step_open|exact Hr].
Qed.

(** ** Concrete runs *)

(** A database an older server made, with a device in it. *)
Definition device_cells : list value :=
  [Text "d"; Text "u"; Text "laptop"; Text "OTHER"; Bytes []; Integer 1; Text "t"; Text "t"; Null].
Definition made_by (k : nat) : Database :=
  foldl (fun d m => (apply_migration 0 m d).2) (create_schema_migrations new_database) (take k migrations).

Lemma made_by_history k : k <= latest -> at_version k (made_by k) /\ rtc db_step new_database (made_by k).
Proof.
  induction k as [|k IH]; intros Hk.
  - split; [exact (open_version 0 _ new_database_version)|apply rtc_once, step_open].
  - destruct IH as [Hv Hr]; [lia|]. destruct (migrations !! k) as [m|] eqn:Em; [|apply lookup_ge_None in Em; unfold latest in *; lia].
    assert (E : made_by (S k) = (apply_migration 0 m (made_by k)).2)
      by (unfold made_by; by rewrite (take_S_r _ _ _ Em), foldl_app).
    destruct (apply_migration_ok k _ m 0 Hv Em) as (d1 & Hd1 & Hv1 & _). rewrite E, Hd1. split; [exact Hv1|].
    apply (rtc_r _ (made_by k)); [exact Hr|]. apply (step_commit _ 0 m); [by apply (find_pending k)|exact Hd1].
Qed.

Definition in_use : Database :=
  set_tables (alter (fun t => MkTable (columns t) (constraints t) [device_cells]) "devices" (tables (made_by 4))) (made_by 4).

Lemma in_use_history : rtc db_step new_database in_use.
Proof.
  apply (rtc_r _ (made_by 4)); [|apply step_use; vm_compute; split; reflexivity].
  apply made_by_history. unfold latest. simpl. lia.
Qed.

Lemma Migrate_any_history_witness : exists d', Migrate (fun _ => 0%Z) in_use = (Ok tt, d') /\
  Some (schema_of d') = schema_at latest /\ extends in_use d' /\ Migrate (fun _ => 0%Z) d' = (Ok tt, d').
Proof. exact (Migrate_any_history in_use (fun _ => 0%Z) (fun _ => 0%Z) in_use_history). Defined.

(** The device gets a column for its last synchronisation. *)
Example in_use_kept : from_option rows [] (tables (Migrate (fun _ => 0%Z) in_use).2 !! "devices") = [(device_cells ++ [Null])%list].
Proof. vm_compute. reflexivity. Qed.

(** A column that is already there stops the run before the fifth migration. *)
Definition patched : Database := (exec_script [AddColumn "devices" (Column "last_sync_at" TEXT [])] in_use).2.

Lemma Migrate_atomic_witness : exists m now,
  List.find (fun m => negb (applied (Migrate (fun _ => 0%Z) patched).2 (Version m))) migrations = Some m /\
  apply_migration now m (Migrate (fun _ => 0%Z) patched).2 =
    (Err (Internal "duplicate column name"), (Migrate (fun _ => 0%Z) patched).2).
Proof.
  apply (Migrate_atomic (fun _ => 0%Z) patched (Migrate (fun _ => 0%Z) patched).1 (Migrate (fun _ => 0%Z) patched).2
    (surjective_pairing _)). vm_compute. reflexivity.
Defined.
