(* ===== verification/FileSystem.v ===== *)
(** * The file system, as [os] and [path/filepath] show it

    Cleaned absolute paths are lists of names; a file system maps the paths
    that exist to what is there.  Operations fail where the state of the file
    system makes them fail; permissions, space and device errors are not
    modelled.  Used by the identity key and the backup, which work with whole
    trees; the services see their storage directory as [Schema.World] does. *)

From S2P Require Import Prelude GoText.
From Stdlib Require Import Ascii String.
Local Open Scope string_scope.

(** ** path/filepath on cleaned absolute paths *)

Abbreviation path := (list string).

(** [Clean] joined to a directory: empty and [.] elements vanish, [..] goes up. *)
Definition enter (p : path) (name : string) : path :=
  if String.eqb name "" || String.eqb name "." then p
  else if String.eqb name ".." then removelast p else (p ++ [name])%list.
(** [filepath.Join(p, s)]. *)
Definition Join (p : path) (s : string) : path := foldl enter p (Split s "/").
(** [filepath.Abs(s)] in the working directory [cwd]. *)
Definition Abs (cwd : path) (s : string) : path := if HasPrefix s "/" then Join [] s else Join cwd s.
(** [filepath.Dir(p)]. *)
Definition parent (p : path) : path := removelast p.

(** [filepath.Rel(base, target)]: up from what [base] has of its own, then down. *)
Fixpoint Rel (base target : path) : path :=
  match base, target with
  | b :: base', t :: target' => if String.eqb b t then Rel base' target' else (map (fun _ => "..") base ++ target)%list
  | _, _ => (map (fun _ => "..") base ++ target)%list
  end.

Definition proper_name (n : string) : bool := negb (String.eqb n "" || String.eqb n "." || String.eqb n "..").
(** A cleaned path. *)
Definition clean (p : path) : bool := forallb proper_name p.

Lemma removelast_forallb {A} (P : A -> bool) l : forallb P l = true -> forallb P (removelast l) = true.
Proof.
  induction l as [|x l IH]; [done|]. simpl. intros [Hx Hl]%andb_prop. destruct l as [|y l]; [done|].
  simpl. rewrite Hx. by apply IH.
Qed.

Lemma enter_clean p n : clean p = true -> clean (enter p n) = true.
Proof.
  intros Hp. unfold enter. destruct (String.eqb n "" || String.eqb n ".") eqn:E1; [done|].
  destruct (String.eqb n "..") eqn:E2; [by apply removelast_forallb|].
  unfold clean. rewrite forallb_app. unfold clean in Hp. rewrite Hp. simpl. unfold proper_name. by rewrite E1, E2.
Qed.

Lemma Join_clean p s : clean p = true -> clean (Join p s) = true.
Proof. unfold Join. generalize (Split s "/"). intros l. revert p. induction l as [|n l IH]; intros p Hp; [done|]. by apply IH, enter_clean. Qed.

Lemma Abs_clean cwd s : clean cwd = true -> clean (Abs cwd s) = true.
Proof. intros Hc. unfold Abs. case_match; by apply Join_clean. Qed.

(** Names are only appended. *)
Lemma Join_proper p s l : Split s "/" = l -> forallb proper_name l = true -> Join p s = (p ++ l)%list.
Proof.
  unfold Join. intros -> Hl. revert p. induction l as [|n l IH]; intros p; simpl; [by rewrite app_nil_r|].
  simpl in Hl. apply andb_prop in Hl as [Hn Hl]. unfold proper_name in Hn. apply negb_true_iff, orb_false_iff in Hn as [E1 E2].
  unfold enter at 2. rewrite E1, E2, (IH Hl). by rewrite <- app_assoc.
Qed.

Lemma Rel_below p l : Rel p (p ++ l)%list = l.
Proof. induction p as [|x p IH]; [done|]. simpl. by rewrite String.eqb_refl. Qed.

(** ** The file system *)

Inductive entry : Type :=
| Dir
| File (data : list byte)
| Special.        (* a symbolic link, socket or device *)

#[global] Instance entry_eq_dec : EqDecision entry.
Proof. solve_decision. Defined.

Abbreviation FS := (gmap (list string) entry).

Definition ErrNotDir : error := Internal "not a directory".
Definition ErrExist : error := Internal "file exists".
Definition ErrNotExist : error := Internal "file does not exist".

(** What is at [p] below [q]: every directory on the way must be one. *)
Fixpoint walk (fs : FS) (q p : path) : result (option entry) :=
  match p with
  | [] => Ok (match q with [] => Some Dir | _ => fs !! q end)
  | n :: p' =>
      match q with
      | [] => walk fs [n] p'
      | _ => match fs !! q with
             | Some Dir => walk fs (q ++ [n]) p'
             | Some _ => Err ErrNotDir
             | None => Ok None
             end
      end
  end%list.

(** [os.Lstat]; [os.Stat] where the code only asks whether something is there. *)
Definition Lstat (fs : FS) (p : path) : result (option entry) := walk fs [] p.

Definition is_dir (fs : FS) (p : path) : bool := match Lstat fs p with Ok (Some Dir) => true | _ => false end.

(** [os.ReadFile]; also [os.Open] and reading to the end. *)
Definition ReadFile (p : path) : M FS (list byte) := query (fun fs =>
  match Lstat fs p with
  | Ok (Some (File data)) => Ok data
  | Ok (Some _) => Err (Internal "not a file")
  | Ok None => Err ErrNotExist
  | Err e => Err e
  end).

(** [os.Mkdir]. *)
Definition Mkdir (p : path) : M FS unit := exec (fun fs =>
  match Lstat fs p with
  | Ok (Some _) => Err ErrExist
  | Ok None => if is_dir fs (parent p) then Ok (<[p := Dir]> fs) else Err ErrNotExist
  | Err e => Err e
  end).

(** [os.MkdirAll]: the missing directories on the way to [p], from the top. *)
Fixpoint mkdir_from (q p : path) : M FS unit :=
  match p with
  | [] => mret tt
  | n :: p' => let q' := (q ++ [n])%list in
      found ← query (fun fs => Lstat fs q');
      match found with
      | Some Dir => mkdir_from q' p'
      | Some _ => throw ErrNotDir
      | None => Mkdir q' ;; mkdir_from q' p'
      end
  end.
Definition MkdirAll (p : path) : M FS unit := mkdir_from [] p.

(** [os.OpenFile] with [O_CREATE|O_EXCL], then writing and closing. *)
Definition CreateFile (p : path) (data : list byte) : M FS unit := exec (fun fs =>
  match Lstat fs p with
  | Ok (Some _) => Err ErrExist
  | Ok None => if is_dir fs (parent p) then Ok (<[p := File data]> fs) else Err ErrNotExist
  | Err e => Err e
  end).

(** [os.WriteFile]: create or truncate. *)
Definition WriteFile (p : path) (data : list byte) : M FS unit := exec (fun fs =>
  match Lstat fs p with
  | Ok (Some (File _)) => Ok (<[p := File data]> fs)
  | Ok (Some _) => Err (Internal "not a file")
  | Ok None => if is_dir fs (parent p) then Ok (<[p := File data]> fs) else Err ErrNotExist
  | Err e => Err e
  end).

Definition below_path (p q : path) : bool := bool_decide (p `prefix_of` q).

(** [os.RemoveAll]: no error where nothing is there. *)
Definition remove_tree (p : path) (fs : FS) : FS := delete_rows (fun k _ => below_path p k) fs.
Definition RemoveAll (p : path) : M FS unit := modify (remove_tree p).

(** What is at and below [p], by the path from [p]. *)
Definition tree (p : path) (fs : FS) : FS :=
  map_fold (fun k e t => if below_path p k then <[drop (List.length p) k := e]> t else t) ∅ fs.
Definition graft (p : path) (t fs : FS) : FS := kmap (List.app p) t ∪ fs.

(** [os.Rename] of a directory: the target is absent, an empty directory, or
    the directory itself. *)
Definition Rename (old new : path) : M FS unit := exec (fun fs =>
  if negb (is_dir fs old) then Err ErrNotExist
  else if bool_decide (old = new) then Ok fs
  else if negb (is_dir fs (parent new)) then Err ErrNotExist
  else if below_path old new then Err (Internal "invalid argument")
  else match Lstat fs new with
       | Ok None => Ok (graft new (tree old fs) (remove_tree old fs))
       | Ok (Some Dir) => if Nat.eqb (size (tree new fs)) 1 then Ok (graft new (tree old fs) (remove_tree old (remove_tree new fs)))
                          else Err (Internal "directory not empty")
       | _ => Err ErrExist
       end).

(** [os.ReadDir]: the names in a directory and what they are, in name order;
    [None] where the directory is missing. *)
Definition children (p : path) (fs : FS) : list (string * entry) :=
  order_by (fun a b => text_le a.1 b.1)
    (omap (fun kv => match drop (List.length p) kv.1 with
                     | [n] => if below_path p kv.1 then Some (n, kv.2) else None
                     | _ => None
                     end) (map_to_list fs)).
Definition ReadDir (p : path) : M FS (option (list (string * entry))) := query (fun fs =>
  match Lstat fs p with
  | Ok (Some Dir) => Ok (Some (children p fs))
  | Ok (Some _) => Err ErrNotDir
  | Ok None => Ok None
  | Err e => Err e
  end).

(** [os.MkdirTemp(dir, pattern)]: the first of the generator's names that is free. *)
Fixpoint mkdir_temp (fuel : nat) (dir : path) (pattern : string) (rand : nat -> string) (i : nat) : M FS path :=
  match fuel with
  | O => throw ErrExist
  | S fuel' => let p := (dir ++ [(pattern ++ rand i)%string])%list in
      found ← query (fun fs => Lstat fs p);
      match found with
      | Some _ => mkdir_temp fuel' dir pattern rand (S i)
      | None => Mkdir p ;; mret p
      end
  end.
(** It gives up after ten thousand names. *)
Definition MkdirTemp (dir : path) (pattern : string) (rand : nat -> string) : M FS path :=
  mkdir_temp (Z.to_nat 10000) dir pattern rand 0.

(** [os.CreateTemp(dir, prefix*suffix)] with its content. *)
Fixpoint create_temp (fuel : nat) (dir : path) (prefix suffix : string) (rand : nat -> string) (data : list byte) (i : nat) : M FS path :=
  match fuel with
  | O => throw ErrExist
  | S fuel' => let p := (dir ++ [(prefix ++ rand i ++ suffix)%string])%list in
      found ← query (fun fs => Lstat fs p);
      match found with
      | Some _ => create_temp fuel' dir prefix suffix rand data (S i)
      | None => CreateFile p data ;; mret p
      end
  end.
Definition CreateTemp (dir : path) (prefix suffix : string) (rand : nat -> string) (data : list byte) : M FS path :=
  create_temp (Z.to_nat 10000) dir prefix suffix rand data 0.

(** [os.Rename] of a file, over a file or nothing. *)
Definition RenameFile (old new : path) : M FS unit := exec (fun fs =>
  match Lstat fs old with
  | Ok (Some (File data)) =>
      match Lstat fs new with
      | Ok (Some Dir) => Err ErrExist
      | Ok _ => if is_dir fs (parent new) then Ok (<[new := File data]> (delete old fs)) else Err ErrNotExist
      | Err e => Err e
      end
  | Ok _ => Err ErrNotExist
  | Err e => Err e
  end).

(** [defer os.Remove(p)] after [m]. *)
Definition finally_remove {A} (p : path) (m : M FS A) : M FS A := fun fs =>
  match m fs with (r, fs') => (r, delete p fs') end.
(** A directory that stays only if [m] succeeds. *)
Definition or_remove_all {A} (p : path) (m : M FS A) : M FS A := fun fs =>
  match m fs with (Ok a, fs') => (Ok a, fs') | (Err e, fs') => (Err e, remove_tree p fs') end.

(** Whether something is at [p]; an error other than its absence is one. *)
Definition Stat (p : path) : M FS bool := query (fun fs =>
  match Lstat fs p with Ok o => Ok (is_valid o) | Err e => Err e end).
