(* ===== verification/FileSystemLemmas.v ===== *)
(** * How the file system's operations change it

    Lookups through directories, what the creating operations add, and moving
    a tree. *)

From S2P Require Import Prelude GoText Schema FileSystem.
From Stdlib Require Import Ascii String.
Local Open Scope string_scope.
Local Open Scope list_scope.

(** ** Lookups *)

Lemma walk_snoc fs n p q : walk fs q (p ++ [n])%list =
  match walk fs q p with
  | Ok (Some Dir) => Ok (fs !! (q ++ p ++ [n])%list)
  | Ok (Some _) => Err ErrNotDir
  | Ok None => Ok None
  | Err e => Err e
  end.
Proof.
  revert q. induction p as [|m p IH]; intros q.
  - destruct q as [|a q]; simpl; [done|]. destruct (fs !! (a :: q)) as [[]|]; done.
  - simpl. destruct q as [|a q]; [apply IH|]. destruct (fs !! (a :: q)) as [[]|]; [|done..].
    rewrite IH. simpl. by rewrite <- app_assoc.
Qed.

Lemma Lstat_snoc fs p n : Lstat fs (p ++ [n])%list =
  match Lstat fs p with
  | Ok (Some Dir) => Ok (fs !! (p ++ [n])%list)
  | Ok (Some _) => Err ErrNotDir
  | Ok None => Ok None
  | Err e => Err e
  end.
Proof. apply walk_snoc. Qed.

Lemma is_dir_Lstat fs p : is_dir fs p = true <-> Lstat fs p = Ok (Some Dir).
Proof. unfold is_dir. destruct (Lstat fs p) as [[[]|]|]; naive_solver. Qed.

Lemma Lstat_in fs p n : is_dir fs p = true -> Lstat fs (p ++ [n])%list = Ok (fs !! (p ++ [n])%list).
Proof. intros H%is_dir_Lstat. by rewrite Lstat_snoc, H. Qed.

Lemma Lstat_Some_snoc fs p n e : Lstat fs (p ++ [n])%list = Ok (Some e) ->
  is_dir fs p = true /\ fs !! (p ++ [n])%list = Some e.
Proof.
  rewrite Lstat_snoc, is_dir_Lstat. destruct (Lstat fs p) as [[[]|]|]; try done. by intros [= ->].
Qed.

Lemma Lstat_mono fs fs' p e : fs ⊆ fs' -> Lstat fs p = Ok (Some e) -> Lstat fs' p = Ok (Some e).
Proof.
  intros Hs. revert e. induction p as [|n p IH] using rev_ind; intros e; [done|].
  intros [Hd%is_dir_Lstat Hl]%Lstat_Some_snoc. rewrite Lstat_snoc, (IH _ Hd). f_equal. by eapply lookup_weaken.
Qed.

Lemma is_dir_mono fs fs' p : fs ⊆ fs' -> is_dir fs p = true -> is_dir fs' p = true.
Proof. rewrite !is_dir_Lstat. apply Lstat_mono. Qed.

(** Every directory on the way to a directory is one. *)
Lemma is_dir_prefix fs p q : is_dir fs (p ++ q)%list = true -> is_dir fs p = true.
Proof.
  induction q as [|n q IH] using rev_ind; [by rewrite app_nil_r|].
  rewrite is_dir_Lstat, app_assoc. intros [H _]%Lstat_Some_snoc. by apply IH.
Qed.

Lemma is_dir_lookup fs p : is_dir fs p = true -> p = [] \/ fs !! p = Some Dir.
Proof.
  destruct p as [|n p] using rev_ind; [by left|]. rewrite is_dir_Lstat. intros [_ H]%Lstat_Some_snoc. by right.
Qed.

(** Two trees that are the same read the same. *)
Lemma Lstat_same fs fs' p p' r : is_dir fs p = true -> is_dir fs' p' = true ->
  (forall r, r <> [] -> fs !! (p ++ r)%list = fs' !! (p' ++ r)%list) -> Lstat fs (p ++ r)%list = Lstat fs' (p' ++ r)%list.
Proof.
  intros Hp Hp' Hr. induction r as [|n r IH] using rev_ind.
  - rewrite !app_nil_r. apply is_dir_Lstat in Hp, Hp'. by rewrite Hp, Hp'.
  - rewrite !app_assoc, !Lstat_snoc, IH, <- !app_assoc, Hr; [done|]. by destruct r.
Qed.

(** ** Well-formed file systems *)

(** What exists lies in a directory. *)
Definition fs_ok (fs : FS) : Prop := fs !! [] = None /\
  forall p n e, fs !! (p ++ [n])%list = Some e -> p = [] \/ fs !! p = Some Dir.

Lemma fs_ok_Lstat fs p : fs_ok fs -> (p = [] \/ is_Some (fs !! p)) -> Lstat fs p = Ok (match p with [] => Some Dir | _ => fs !! p end).
Proof.
  intros [H0 H]. induction p as [|n p IH] using rev_ind; intros Hp; [done|].
  destruct Hp as [Hp|[e He]]; [by destruct p|]. assert (Hn : is_dir fs p = true).
  { apply is_dir_Lstat. pose proof (H _ _ _ He) as Hd. rewrite IH by (destruct Hd as [|Hd]; [by left|right; by rewrite Hd]).
    destruct p; [done|]. by destruct Hd as [|Hd]; [|rewrite Hd]. }
  rewrite Lstat_in by done. by destruct (p ++ [n])%list eqn:E; [destruct p|].
Qed.

Lemma fs_ok_none_below fs p r : fs_ok fs -> p <> [] -> fs !! p = None -> fs !! (p ++ r)%list = None.
Proof.
  intros [_ H] Hp Hn. induction r as [|n r IH] using rev_ind; [by rewrite app_nil_r|].
  rewrite app_assoc. destruct (fs !! ((p ++ r) ++ [n])%list) as [e|] eqn:E; [|done].
  destruct (H _ _ _ E) as [E0|E0]; [by destruct p|congruence].
Qed.

Lemma fs_ok_insert fs p n e : fs_ok fs -> is_dir fs p = true -> fs !! (p ++ [n])%list = None ->
  fs_ok (<[(p ++ [n])%list := e]> fs).
Proof.
  intros Hok Hd Hn. pose proof Hok as [H0 H]. split; [rewrite lookup_insert_ne; [done|by destruct p]|].
  intros q m e'. destruct (decide ((p ++ [n])%list = (q ++ [m])%list)) as [E|Hne].
  - intros _. apply app_inj_tail in E as [<- _]. destruct (is_dir_lookup fs p Hd) as [|Hp]; [by left|right].
    rewrite lookup_insert_ne; [done|]. intros E. apply (f_equal List.length) in E. rewrite length_app in E. simpl in E. lia.
  - rewrite lookup_insert_ne by done. intros Hq. destruct (H _ _ _ Hq) as [|Hq']; [by left|right].
    rewrite lookup_insert_ne; [done|]. intros E. congruence.
Qed.

(** Where nothing is, the way there is free. *)
Lemma Lstat_file fs p q e : q <> [] -> Lstat fs p = Ok (Some e) -> e <> Dir -> exists err, Lstat fs (p ++ q) = Err err.
Proof.
  intros Hq He Hd. induction q as [|n q IH] using rev_ind; [done|]. rewrite app_assoc, Lstat_snoc. destruct q as [|m q].
  - rewrite app_nil_r, He. destruct e; [done|by eexists..].
  - destruct (IH) as [err ->]; [done|]. by eexists.
Qed.

Lemma Lstat_None_way fs p r n : fs_ok fs -> Lstat fs p = Ok None -> (r ++ [n]) `prefix_of` p ->
  fs !! (r ++ [n]) = None \/ fs !! (r ++ [n]) = Some Dir.
Proof.
  intros Hok Hp [q ->]. destruct (fs !! (r ++ [n])) as [e|] eqn:E; [|by left]. right.
  assert (He : Lstat fs (r ++ [n]) = Ok (Some e)).
  { rewrite fs_ok_Lstat by (done || (right; by eexists)). by destruct (r ++ [n]) eqn:Er; [destruct r|rewrite E]. }
  destruct (decide (e = Dir)) as [->|Hne]; [done|]. destruct q as [|m q]; [rewrite app_nil_r in Hp; congruence|].
  destruct (Lstat_file fs (r ++ [n]) (m :: q) e) as [err Herr]; [done..|congruence].
Qed.

(** ** What the creating operations add *)

Record grows (P : path -> Prop) (fs fs' : FS) : Prop := {
  grows_sub : fs ⊆ fs';
  grows_at : forall k, fs' !! k <> fs !! k -> P k;
  grows_ok : fs_ok fs -> fs_ok fs';
}.

#[export] Instance grows_preorder P : PreOrder (grows P).
Proof.
  split; [by split|]. intros a b c [S1 A1 O1] [S2 A2 O2]. split; [by etrans| |by auto].
  intros k Hk. destruct (decide (b !! k = a !! k)) as [E|Hne]; [|by apply A1]. apply A2. congruence.
Qed.

Lemma grows_weaken (P Q : path -> Prop) fs fs' : (forall k, fs !! k = None -> P k -> Q k) -> grows P fs fs' -> grows Q fs fs'.
Proof.
  intros HPQ [Hs Ha Ho]. split; [done| |done]. intros k Hk. apply HPQ; [|by apply Ha].
  destruct (fs !! k) as [e|] eqn:E; [|done]. destruct Hk. rewrite <- E. symmetry. rewrite E. symmetry. by eapply lookup_weaken.
Qed.

Lemma grows_insert fs p n e : is_dir fs p = true -> fs !! (p ++ [n])%list = None ->
  grows (eq (p ++ [n])%list) fs (<[(p ++ [n])%list := e]> fs).
Proof.
  intros Hd Hn. split; [by apply insert_subseteq| |intros Hok; by apply fs_ok_insert].
  intros k Hk. destruct (decide ((p ++ [n])%list = k)) as [|Hne]; [done|]. by rewrite lookup_insert_ne in Hk.
Qed.

Lemma parent_snoc p n : parent (p ++ [n])%list = p.
Proof. apply removelast_last. Qed.

Lemma path_snoc (p : path) : p <> [] -> exists q n, p = (q ++ [n])%list.
Proof. destruct p as [|n q] using rev_ind; [done|]. intros _. by exists q, n. Qed.

Lemma CreateFile_ok_inv p data fs fs' : CreateFile p data fs = (Ok tt, fs') ->
  exists q n, p = (q ++ [n])%list /\ is_dir fs q = true /\ fs !! p = None /\ fs' = <[p := File data]> fs.
Proof.
  unfold CreateFile. intros H%exec_ok_inv. destruct (Lstat fs p) as [[e|]|] eqn:El; [done| |done].
  destruct (is_dir fs (parent p)) eqn:Ed; [|done]. injection H as <-.
  destruct p as [|n q] using rev_ind; [done|]. clear IHq. rewrite parent_snoc in Ed. exists q, n.
  rewrite (Lstat_in fs q n Ed) in El. injection El as El. done.
Qed.

Lemma CreateFile_grows p data : stays (grows (eq p)) (CreateFile p data).
Proof.
  intros fs. destruct (CreateFile p data fs) as [[[]|e] fs'] eqn:E; simpl.
  - apply CreateFile_ok_inv in E as (q & n & -> & Hd & Hn & ->). by apply grows_insert.
  - unfold CreateFile, exec in E. case_match; [done|]. injection E as _ <-. reflexivity.
Qed.

Lemma CreateFile_new q n data fs : is_dir fs q = true -> fs !! (q ++ [n])%list = None ->
  CreateFile (q ++ [n])%list data fs = (Ok tt, <[(q ++ [n])%list := File data]> fs).
Proof. intros Hd Hn. unfold CreateFile, exec. by rewrite (Lstat_in fs q n Hd), Hn, parent_snoc, Hd. Qed.

Lemma Mkdir_ok_inv p fs fs' : Mkdir p fs = (Ok tt, fs') ->
  exists q n, p = (q ++ [n])%list /\ is_dir fs q = true /\ fs !! p = None /\ fs' = <[p := Dir]> fs.
Proof.
  unfold Mkdir. intros H%exec_ok_inv. destruct (Lstat fs p) as [[e|]|] eqn:El; [done| |done].
  destruct (is_dir fs (parent p)) eqn:Ed; [|done]. injection H as <-.
  destruct p as [|n q] using rev_ind; [done|]. clear IHq. rewrite parent_snoc in Ed. exists q, n.
  rewrite (Lstat_in fs q n Ed) in El. injection El as El. done.
Qed.

Lemma Mkdir_grows p : stays (grows (eq p)) (Mkdir p).
Proof.
  intros fs. destruct (Mkdir p fs) as [[[]|e] fs'] eqn:E; simpl.
  - apply Mkdir_ok_inv in E as (q & n & -> & Hd & Hn & ->). by apply grows_insert.
  - unfold Mkdir, exec in E. case_match; [done|]. injection E as _ <-. reflexivity.
Qed.

Lemma Mkdir_new q n fs : is_dir fs q = true -> fs !! (q ++ [n])%list = None ->
  Mkdir (q ++ [n])%list fs = (Ok tt, <[(q ++ [n])%list := Dir]> fs).
Proof. intros Hd Hn. unfold Mkdir, exec. by rewrite (Lstat_in fs q n Hd), Hn, parent_snoc, Hd. Qed.

Lemma mkdir_from_grows q p : stays (grows (fun k => k `prefix_of` q ++ p /\ k <> [])) (mkdir_from q p).
Proof.
  revert q. induction p as [|n p IH]; intros q; simpl; [apply stays_ret; exact _|].
  assert (Hrest : stays (grows (fun k => k `prefix_of` q ++ n :: p /\ k <> [])) (mkdir_from (q ++ [n]) p)).
  { specialize (IH (q ++ [n])%list). by rewrite <- app_assoc in IH. }
  apply stays_bind; [exact _|apply stays_query; exact _|]. intros [[]|]; [exact Hrest|apply stays_throw; exact _..|].
  apply stays_bind; [exact _| |done]. intros fs.
  eapply grows_weaken; [|apply Mkdir_grows]. intros k _ <-. split; [exists p; by rewrite <- app_assoc|by destruct q].
Qed.

Lemma MkdirAll_grows p : stays (grows (fun k => k `prefix_of` p /\ k <> [])) (MkdirAll p).
Proof. apply (mkdir_from_grows [] p). Qed.

Lemma mkdir_from_is_dir q p fs fs' : is_dir fs q = true -> mkdir_from q p fs = (Ok tt, fs') -> is_dir fs' (q ++ p)%list = true.
Proof.
  revert q fs. induction p as [|n p IH]; intros q fs Hq H; simpl in H; [injection H as <-; by rewrite app_nil_r|].
  apply bind_ok_inv in H as (found & s1 & Hf & H). apply query_ok_inv in Hf as [Hf ->].
  rewrite (Lstat_in _ _ n Hq) in Hf. injection Hf as <-.
  replace (q ++ n :: p)%list with ((q ++ [n]) ++ p)%list by by rewrite <- app_assoc.
  destruct (fs !! (q ++ [n])%list) as [[]|] eqn:E; [|done..|].
  - apply (IH _ fs); [|done]. apply is_dir_Lstat. by rewrite Lstat_in, E.
  - apply bind_ok_inv in H as ([] & s2 & Hm & H). apply Mkdir_ok_inv in Hm as (q' & m & E' & Hd & _ & ->).
    apply app_inj_tail in E' as [<- <-]. apply (IH _ _) in H; [done|]. apply is_dir_Lstat.
    rewrite Lstat_in; [by rewrite lookup_insert_eq|]. eapply is_dir_mono; [|exact Hq]. by apply insert_subseteq.
Qed.

Lemma MkdirAll_ok_inv p fs fs' : MkdirAll p fs = (Ok tt, fs') ->
  is_dir fs' p = true /\ grows (fun k => k `prefix_of` p /\ k <> []) fs fs'.
Proof.
  intros H. split; [by apply (mkdir_from_is_dir [] p fs)|]. pose proof (MkdirAll_grows p fs) as Hg. by rewrite H in Hg.
Qed.

(** Nothing but directories and room for them on the way. *)
Lemma mkdir_from_succeeds q p fs : is_dir fs q = true ->
  (forall r n, (r ++ [n]) `prefix_of` p -> fs !! (q ++ r ++ [n])%list = None \/ fs !! (q ++ r ++ [n])%list = Some Dir) ->
  exists fs', mkdir_from q p fs = (Ok tt, fs').
Proof.
  revert q fs. induction p as [|n p IH]; intros q fs Hq Hp; simpl; [by eexists|].
  rewrite (bind_ok _ _ fs (fs !! (q ++ [n])%list) fs) by (unfold query; by rewrite Lstat_in).
  assert (Hrest : forall fs1, is_dir fs1 (q ++ [n])%list = true ->
    (forall k, (List.length (q ++ [n]) < List.length k)%nat -> fs1 !! k = fs !! k) -> exists fs', mkdir_from (q ++ [n]) p fs1 = (Ok tt, fs')).
  { intros fs1 Hd Hsame. apply IH; [done|]. intros r m Hr. rewrite !Hsame by (rewrite !length_app; simpl; lia).
    rewrite <- !app_assoc. apply (Hp (n :: r) m). by apply prefix_cons. }
  destruct (Hp [] n) as [E|E]; [by exists p| |]; simpl in E; rewrite E.
  - rewrite (bind_ok _ _ fs tt (<[(q ++ [n])%list := Dir]> fs)) by by apply Mkdir_new. apply Hrest.
    + apply is_dir_Lstat. rewrite Lstat_in; [by rewrite lookup_insert_eq|]. eapply is_dir_mono; [|exact Hq]. by apply insert_subseteq.
    + intros k Hk. rewrite lookup_insert_ne; [done|]. intros <-. lia.
  - apply Hrest; [|done]. apply is_dir_Lstat. by rewrite Lstat_in, E.
Qed.

Lemma MkdirAll_succeeds p fs :
  (forall r n, (r ++ [n]) `prefix_of` p -> fs !! (r ++ [n])%list = None \/ fs !! (r ++ [n])%list = Some Dir) ->
  exists fs', MkdirAll p fs = (Ok tt, fs').
Proof. intros H. by apply (mkdir_from_succeeds [] p fs). Qed.

Lemma mkdir_from_dir q p fs : is_dir fs (q ++ p)%list = true -> mkdir_from q p fs = (Ok tt, fs).
Proof.
  revert q. induction p as [|n p IH]; intros q Hq; simpl; [done|].
  assert (Hn : is_dir fs (q ++ [n])%list = true) by (apply (is_dir_prefix fs _ p); by rewrite <- app_assoc).
  rewrite (bind_ok _ _ fs (Some Dir) fs) by (apply is_dir_Lstat in Hn; unfold query; by rewrite Hn).
  apply IH. by rewrite <- app_assoc.
Qed.
Lemma MkdirAll_dir p fs : is_dir fs p = true -> MkdirAll p fs = (Ok tt, fs).
Proof. apply (mkdir_from_dir [] p). Qed.

Lemma mkdir_from_new q p n fs : is_dir fs (q ++ p) = true -> fs !! ((q ++ p) ++ [n]) = None ->
  mkdir_from q (p ++ [n]) fs = (Ok tt, <[(q ++ p) ++ [n] := Dir]> fs).
Proof.
  revert q. induction p as [|m p IH]; intros q Hq Hn; simpl.
  - rewrite app_nil_r in *. rewrite (bind_ok _ _ fs None fs) by (unfold query; by rewrite Lstat_in, Hn).
    by rewrite (bind_ok _ _ fs tt _ (Mkdir_new _ _ _ Hq Hn)).
  - assert (E : q ++ m :: p = (q ++ [m]) ++ p) by by rewrite <- app_assoc. rewrite E in Hq, Hn |- *.
    rewrite (bind_ok _ _ fs (Some Dir) fs); [by apply IH|].
    apply is_dir_prefix, is_dir_Lstat in Hq. unfold query. by rewrite Hq.
Qed.
Lemma MkdirAll_new p n fs : is_dir fs p = true -> fs !! (p ++ [n]) = None ->
  MkdirAll (p ++ [n]) fs = (Ok tt, <[p ++ [n] := Dir]> fs).
Proof. apply (mkdir_from_new []). Qed.

(** ** Fresh names *)

Lemma mkdir_temp_outcome fuel dir pattern rand i fs r fs' : mkdir_temp fuel dir pattern rand i fs = (r, fs') ->
  (exists e, r = Err e /\ fs' = fs) \/
  exists p i, r = Ok p /\ p = (dir ++ [(pattern ++ rand i)%string])%list /\ is_dir fs dir = true /\ fs !! p = None /\ fs' = <[p := Dir]> fs.
Proof.
  revert i. induction fuel as [|fuel IH]; intros i; simpl; [intros [= <- <-]; left; by eexists|].
  set (p := (dir ++ [_])%list). unfold mbind at 1, M_bind, query. destruct (Lstat fs p) as [[e|]|e] eqn:El.
  - apply IH.
  - destruct (Mkdir p fs) as [[[]|e] fs1] eqn:Em; unfold mbind, M_bind; rewrite Em; intros [= <- <-].
    + right. apply Mkdir_ok_inv in Em as (q & n & Ep & Hd & Hn & ->). exists p, i. unfold p in Ep at 1.
      pose proof Ep as Ep'. apply app_inj_tail in Ep as [<- <-]. by split_and!.
    + left. exists e. split; [done|]. unfold Mkdir, exec in Em. case_match; [done|]. by injection Em as _ <-.
  - intros [= <- <-]. left. by eexists.
Qed.

Lemma MkdirTemp_outcome dir pattern rand fs r fs' : MkdirTemp dir pattern rand fs = (r, fs') ->
  (exists e, r = Err e /\ fs' = fs) \/
  exists p i, r = Ok p /\ p = (dir ++ [(pattern ++ rand i)%string])%list /\ is_dir fs dir = true /\ fs !! p = None /\ fs' = <[p := Dir]> fs.
Proof. apply mkdir_temp_outcome. Qed.

Lemma MkdirTemp_new dir pattern rand fs : is_dir fs dir = true -> fs !! (dir ++ [(pattern ++ rand 0%nat)%string]) = None ->
  MkdirTemp dir pattern rand fs = (Ok (dir ++ [(pattern ++ rand 0%nat)%string]), <[(dir ++ [(pattern ++ rand 0%nat)%string]) := Dir]> fs).
Proof.
  intros Hd Hn. unfold MkdirTemp. destruct (Z.to_nat 10000) as [|f] eqn:E; [lia|]. cbn [mkdir_temp].
  rewrite (bind_ok _ _ fs None fs) by (unfold query; by rewrite Lstat_in, Hn).
  by rewrite (bind_ok _ _ fs tt _ (Mkdir_new _ _ _ Hd Hn)).
Qed.

(** ** Inside one directory *)

(** From a state in which [s] is a directory, only paths below [s] appear, and
    [x] is not one of them. *)
Definition within (s x : path) (fs fs' : FS) : Prop :=
  is_dir fs s = true -> grows (fun k => (exists r, r <> [] /\ k = s ++ r) /\ k <> x) fs fs'.

#[export] Instance within_preorder s x : PreOrder (within s x).
Proof.
  split; [by intros fs _|]. intros a b c H1 H2 Hd. etrans; [by apply H1|]. apply H2.
  eapply is_dir_mono; [|exact Hd]. by apply H1.
Qed.

Lemma CreateFile_within s x r data : r <> [] -> s ++ r <> x -> stays (within s x) (CreateFile (s ++ r) data).
Proof. intros Hr Hx fs Hd. eapply grows_weaken; [|apply CreateFile_grows]. intros k _ <-. split; [by exists r|done]. Qed.

Lemma MkdirAll_within s x r : ~ x `prefix_of` (s ++ r) -> stays (within s x) (MkdirAll (s ++ r)).
Proof.
  intros Hx fs Hd. eapply grows_weaken; [|apply MkdirAll_grows]. intros k Hn [Hq Hk0]. split; [|by intros ->].
  assert (Hs : forall t, k ++ t <> s).
  { intros t <-. apply is_dir_prefix, is_dir_lookup in Hd as [|Hd]; [done|congruence]. }
  destruct (prefix_weak_total k s (s ++ r) Hq) as [[t Ht]|[t ->]]; [by exists r|by destruct (Hs t)|].
  exists t. split; [|done]. intros ->. by apply (Hs []); rewrite app_nil_r, app_nil_r.
Qed.

(** ** Moving a tree *)

Lemma lookup_remove_tree p fs k : remove_tree p fs !! k = if below_path p k then None else fs !! k.
Proof.
  apply option_eq. intros e. unfold remove_tree. rewrite lookup_delete_rows. destruct (below_path p k); (split; [by intros [? ?]|by intros]) || naive_solver.
Qed.

Lemma below_path_true p k : below_path p k = true <-> exists r, k = p ++ r.
Proof. unfold below_path. rewrite bool_decide_eq_true. done. Qed.
Lemma below_path_app p r : below_path p (p ++ r) = true.
Proof. apply below_path_true. by exists r. Qed.
Lemma below_path_refl p : below_path p p = true.
Proof. apply below_path_true. exists []. by rewrite app_nil_r. Qed.
Lemma below_path_false p k : below_path p k = false <-> forall r, k <> p ++ r.
Proof.
  split; [intros H r ->; by rewrite below_path_app in H|]. intros H. apply not_true_iff_false. intros [r Hr]%below_path_true.
  by apply (H r).
Qed.

Lemma lookup_tree p fs r : tree p fs !! r = fs !! (p ++ r).
Proof.
  revert r. unfold tree. apply (map_fold_weak_ind (fun (t m : FS) => forall r, t !! r = m !! (p ++ r))); [intros r; by rewrite !lookup_empty|].
  intros k e m t Hk IH r. destruct (below_path p k) eqn:E.
  - apply below_path_true in E as [r0 ->]. rewrite drop_app_length.
    destruct (decide (r0 = r)) as [->|Hne]; [by rewrite !lookup_insert_eq|].
    rewrite !lookup_insert_ne; [apply IH| |done]. intros E%app_inv_head. by destruct Hne.
  - rewrite below_path_false in E. rewrite lookup_insert_ne by apply E. done.
Qed.

Lemma lookup_graft p t fs k : graft p t fs !! k =
  match (if below_path p k then t !! drop (List.length p) k else None) with Some e => Some e | None => fs !! k end.
Proof.
  unfold graft. rewrite lookup_union. destruct (below_path p k) eqn:E.
  - apply below_path_true in E as [r ->]. rewrite drop_app_length, lookup_kmap by exact _. by destruct (t !! r), (fs !! (p ++ r)).
  - rewrite below_path_false in E. rewrite (proj2 (lookup_kmap_None (List.app p) t k)); [by destruct (fs !! k)|].
    intros r ->. by destruct (E r).
Qed.

(** Renaming a directory to a place where nothing is. *)
Lemma Rename_outcome old q n fs r fs' : fs_ok fs -> old = q ++ [n] \/ fs !! (q ++ [n]) = None ->
  Rename old (q ++ [n]) fs = (r, fs') ->
  (exists e, r = Err e /\ fs' = fs) \/
  r = Ok tt /\ is_dir fs old = true /\ is_dir fs q = true /\ (forall t, fs' !! (q ++ [n] ++ t) = fs !! (old ++ t)) /\
  (forall k, below_path (q ++ [n]) k = false -> fs' !! k = if below_path old k then None else fs !! k).
Proof.
  intros Hok Hn. unfold Rename, exec. rewrite parent_snoc.
  destruct (is_dir fs old) eqn:Eo; [|intros [= <- <-]; left; by eexists]. simpl.
  destruct (bool_decide_reflect (old = q ++ [n])) as [->|Hne].
  { intros [= <- <-]. right. split_and!; [done..|by apply is_dir_prefix in Eo|intros t; by rewrite <- app_assoc|].
    intros k Hk. by rewrite Hk. }
  destruct Hn as [|Hn]; [done|].
  destruct (is_dir fs q) eqn:Ep; [|intros [= <- <-]; left; by eexists].
  destruct (below_path old (q ++ [n])) eqn:Eb; [intros [= <- <-]; left; by eexists|]. simpl.
  rewrite (Lstat_in _ _ _ Ep), Hn. intros [= <- <-]. right. split_and!; [done..| |].
  - intros t. change (q ++ n :: t) with (q ++ [n] ++ t). rewrite app_assoc, lookup_graft, below_path_app, drop_app_length, lookup_tree.
    rewrite lookup_remove_tree, (fs_ok_none_below fs (q ++ [n]) t Hok) by (done || by destruct q).
    destruct (fs !! (old ++ t)); [done|]. by case_match.
  - intros k Hk. by rewrite lookup_graft, Hk, lookup_remove_tree.
Qed.

Lemma Rename_succeeds old q n fs : is_dir fs old = true -> is_dir fs q = true -> below_path old (q ++ [n]) = false ->
  fs !! (q ++ [n]) = None -> exists fs', Rename old (q ++ [n]) fs = (Ok tt, fs').
Proof.
  intros Ho Hq Hb Hn. unfold Rename, exec. rewrite parent_snoc, Ho, Hq, Hb, (Lstat_in _ _ _ Hq), Hn. simpl.
  destruct (bool_decide _); by eexists.
Qed.

(** ** Reading *)

(** The content of the file at [p]. *)
Definition file_at (fs : FS) (p : path) : option (list byte) :=
  match Lstat fs p with Ok (Some (File data)) => Some data | _ => None end.

Lemma file_at_mono fs fs' p data : fs ⊆ fs' -> file_at fs p = Some data -> file_at fs' p = Some data.
Proof.
  intros Hs. unfold file_at. destruct (Lstat fs p) as [[e|]|] eqn:E; [|done..]. by rewrite (Lstat_mono fs fs' p e Hs E).
Qed.

Lemma file_at_snoc fs p n data : file_at fs (p ++ [n]) = Some data <-> is_dir fs p = true /\ fs !! (p ++ [n]) = Some (File data).
Proof.
  unfold file_at. split.
  - destruct (Lstat fs (p ++ [n])) as [[[|d|]|]|] eqn:E; [done| |done..]. intros [= <-]. by apply Lstat_Some_snoc in E.
  - intros [Hd Hl]. by rewrite Lstat_in, Hl.
Qed.

Lemma file_at_lookup fs p data : file_at fs p = Some data -> fs !! p = Some (File data).
Proof.
  destruct p as [|n p _] using rev_ind; [done|]. by intros [_ H]%file_at_snoc.
Qed.

Lemma lookup_file_at fs p data : fs_ok fs -> fs !! p = Some (File data) -> file_at fs p = Some data.
Proof.
  intros Hok Hf. unfold file_at. rewrite fs_ok_Lstat by (done || (right; by eexists)). rewrite Hf.
  by destruct p; [destruct Hok; congruence|].
Qed.

Lemma file_at_insert fs q n data : is_dir fs q = true -> fs !! (q ++ [n]) = None -> file_at (<[q ++ [n] := File data]> fs) (q ++ [n]) = Some data.
Proof.
  intros Hq Hn. apply file_at_snoc. split; [|apply lookup_insert_eq]. eapply is_dir_mono; [|exact Hq]. by apply insert_subseteq.
Qed.

Lemma file_at_same fs fs' p p' r : is_dir fs p = true -> is_dir fs' p' = true ->
  (forall r, r <> [] -> fs !! (p ++ r) = fs' !! (p' ++ r)) -> file_at fs (p ++ r) = file_at fs' (p' ++ r).
Proof. intros Hd Hd' H. unfold file_at. by rewrite (Lstat_same fs fs' p p' r Hd Hd' H). Qed.

Lemma WriteFile_new q n data fs : is_dir fs q = true -> fs !! (q ++ [n]) = None ->
  WriteFile (q ++ [n]) data fs = (Ok tt, <[q ++ [n] := File data]> fs).
Proof. intros Hd Hn. unfold WriteFile, exec. by rewrite (Lstat_in fs q n Hd), Hn, parent_snoc, Hd. Qed.
