(* ===== verification/GoPath.v ===== *)
(** * Go's [path.Clean]

    Cleaning the text of a path, for the storage directory of the configuration
    and for the paths of requests; and that cleaning a relative path does not
    change the directory it names. *)

From S2P Require Import Prelude GoText FileSystem.
From Stdlib Require Import Ascii String.
Local Open Scope string_scope.
#[local] Arguments String.append !_ _ : simpl nomatch.

(** One element: [out] holds the cleaned ones so far. *)
Definition clean_step (rooted : bool) (out : list string) (e : string) : list string :=
  if String.eqb e "" || String.eqb e "." then out
  else if String.eqb e ".." then
    match last out with
    | Some l => if String.eqb l ".." then (out ++ [".."])%list else removelast out
    | None => if rooted then [] else [".."]
    end
  else (out ++ [e])%list.
Definition clean_elements (rooted : bool) (p : string) : list string := foldl (clean_step rooted) [] (Split p "/").
Definition IsAbs (p : string) : bool := HasPrefix p "/".
(** [strings.Join(l, "/")]. *)
Fixpoint slashed (l : list string) : string :=
  match l with [] => "" | [e] => e | e :: l' => (e ++ "/" ++ slashed l')%string end.
Definition Clean (p : string) : string :=
  let rooted := IsAbs p in
  match clean_elements rooted p with
  | [] => if rooted then "/" else "."
  | l => if rooted then ("/" ++ slashed l)%string else slashed l
  end.

(** [filepath.Join] on texts: empty elements are left out. *)
Definition JoinText (l : list string) : string :=
  match List.filter (fun e => negb (String.eqb e "")) l with [] => "" | l => Clean (slashed l) end.

Example Clean_examples : map Clean ["./data"; ""; "a//b/./c/.."; "../../x/../y"; "/../a/.."; "/a/b/"; "..a/b"]
  = ["data"; "."; "a/b"; "../../y"; "/"; "/a/b"; "..a/b"].
Proof. vm_compute. reflexivity. Qed.

Local Open Scope list_scope.

(** ** Cleaning a path *)

(** Elements cleaning keeps. *)
Definition kept (n : string) : Prop := n = ".." \/ proper_name n = true.

Lemma clean_step_kept rooted out e : Forall kept out -> Forall kept (clean_step rooted out e).
Proof.
  intros H. unfold clean_step. destruct (String.eqb e "" || String.eqb e ".") eqn:E1; [done|].
  destruct (String.eqb_spec e "..") as [->|E2].
  - destruct (last out) as [l|]; [|destruct rooted; [done|by constructor; [left|]]].
    destruct (String.eqb l ".."); [apply Forall_app; split; [done|by constructor; [left|]]|].
    destruct out as [|x out] using rev_ind; [done|]. rewrite removelast_last. by apply Forall_app in H as [? _].
  - apply Forall_app. split; [done|]. constructor; [|done]. right. unfold proper_name. rewrite E1. by apply String.eqb_neq in E2; rewrite E2.
Qed.

Lemma enter_proper p n : proper_name n = true -> enter p n = p ++ [n].
Proof. unfold proper_name, enter. intros [E1 E2]%negb_true_iff%orb_false_iff. by rewrite E1, E2. Qed.

(** Entering the cleaned elements is entering the elements. *)
Lemma enter_clean_step p out e : Forall kept out -> foldl enter p (clean_step false out e) = enter (foldl enter p out) e.
Proof.
  intros H. unfold clean_step. destruct (String.eqb e "" || String.eqb e ".") eqn:E1; [by unfold enter; rewrite E1|].
  destruct (String.eqb_spec e "..") as [->|E2]; [|by rewrite foldl_app].
  destruct out as [|l out _] using rev_ind; [done|]. rewrite last_snoc. apply Forall_app in H as [_ Hl].
  apply Forall_singleton in Hl as [->|Hl]; [by rewrite String.eqb_refl, (foldl_app _ (out ++ [".."]))|].
  assert (String.eqb l ".." = false) as -> by (unfold proper_name in Hl; by apply negb_true_iff, orb_false_iff in Hl as [_ ?]).
  rewrite removelast_last, foldl_app. simpl. rewrite (enter_proper _ l Hl). unfold enter. simpl. by rewrite removelast_last.
Qed.

Lemma enter_clean_elements p l out : Forall kept out ->
  foldl enter p (foldl (clean_step false) out l) = foldl enter (foldl enter p out) l /\ Forall kept (foldl (clean_step false) out l).
Proof.
  revert out. induction l as [|e l IH]; intros out H; [done|]. simpl. destruct (IH (clean_step false out e)) as [H1 H2]; [by apply clean_step_kept|].
  split; [|done]. by rewrite H1, enter_clean_step.
Qed.

(** Splitting leaves no separator; joining such pieces is undone by splitting. *)
Lemma Split_from_pieces s cur : no_char "/" cur = true -> Forall (fun e => no_char "/" e = true) (Split_from s "/" cur).
Proof.
  revert cur. induction s as [|c s IH]; intros cur H; simpl; [by constructor|].
  destruct (Ascii.eqb c "/") eqn:E; [constructor; [done|by apply IH]|]. apply IH. rewrite no_char_app, H. simpl. by rewrite E.
Qed.

Lemma Split_slashed l : l <> [] -> Forall (fun e => no_char "/" e = true) l -> Split (slashed l) "/" = l.
Proof.
  intros Hl. unfold Split. induction l as [|e l IH]; [done|]. intros [He H]%Forall_cons. destruct l as [|e' l].
  - simpl. by rewrite Split_from_no_char.
  - change (slashed (e :: e' :: l)) with (e ++ String "/" (slashed (e' :: l)))%string. rewrite Split_from_app by done.
    by rewrite IH.
Qed.

Lemma foldl_pieces l out : Forall (fun e => no_char "/" e = true) out -> Forall (fun e => no_char "/" e = true) l ->
  Forall (fun e => no_char "/" e = true) (foldl (clean_step false) out l).
Proof.
  intros Hout Hl. revert out Hout. induction Hl as [|e l He _ IH]; intros out Hout; [done|]. simpl. apply IH.
  unfold clean_step. destruct (_ || _); [done|]. destruct (String.eqb e "..").
  - destruct (last out) as [x|]; [|by constructor]. destruct (String.eqb x ".."); [apply Forall_app; split; [done|by constructor]|].
    destruct out as [|y out _] using rev_ind; [done|]. rewrite removelast_last. by apply Forall_app in Hout as [? _].
  - apply Forall_app. split; [done|by constructor].
Qed.

(** A cleaned relative path is a relative path to the same place. *)
Lemma Join_Clean p s : IsAbs s = false -> Join p (Clean s) = Join p s /\ IsAbs (Clean s) = false /\ Clean s <> "".
Proof.
  intros Hs. unfold Clean. rewrite Hs. unfold clean_elements.
  destruct (enter_clean_elements p (Split s "/") [] ltac:(constructor)) as [He Hk].
  pose proof (foldl_pieces (Split s "/") [] ltac:(constructor) (Split_from_pieces s "" eq_refl)) as Hp.
  unfold Join at 2. simpl in He. rewrite <- He. destruct (foldl (clean_step false) [] (Split s "/")) as [|e l] eqn:E; [done|].
  assert (Hj : Join p (slashed (e :: l)) = foldl enter p (e :: l)) by (unfold Join; by rewrite Split_slashed).
  split; [exact Hj|]. apply Forall_cons in Hk as [Hk _]. apply Forall_cons in Hp as [Hp _].
  assert (He' : exists c r, e = String c r /\ c <> "/"%char).
  { destruct e as [|c r]; [by destruct Hk|]. exists c, r. split; [done|]. intros ->. by rewrite andb_false_l in Hp || discriminate Hp. }
  destruct He' as (c & r & -> & Hc). assert (Hst : exists t, slashed (String c r :: l) = String c t) by (destruct l; by eexists).
  destruct Hst as [t ->]. split; [|done]. unfold IsAbs.
  change (Ascii.eqb "/" c && HasPrefix t "" = false). apply not_eq_sym, Ascii.eqb_neq in Hc. by rewrite Hc.
Qed.

Lemma Abs_Clean cwd s : IsAbs s = false -> Abs cwd (Clean s) = Abs cwd s.
Proof. intros Hs. destruct (Join_Clean cwd s Hs) as (Hj & Ha & _). unfold Abs. unfold IsAbs in *. by rewrite Hs, Ha. Qed.


(** ** Clean paths *)

Definition segment (e : string) : Prop := proper_name e = true /\ no_char "/" e = true.

Lemma clean_step_proper rooted out l : Forall segment l -> foldl (clean_step rooted) out l = out ++ l.
Proof.
  intros H. revert out. induction H as [|e l [He _] _ IH]; intros out; simpl; [by rewrite app_nil_r|].
  rewrite IH. unfold clean_step. unfold proper_name in He. apply negb_true_iff, orb_false_iff in He as [E1 E2].
  by rewrite E1, E2, <- app_assoc.
Qed.

Lemma Split_rooted l : l <> [] -> Forall segment l -> Split ("/" ++ slashed l) "/" = "" :: l.
Proof.
  intros Hl Hs. unfold Split. simpl. f_equal. apply Split_slashed; [done|]. eapply Forall_impl; [exact Hs|]. by intros e [].
Qed.

Lemma Clean_rooted l : l <> [] -> Forall segment l -> Clean ("/" ++ slashed l) = ("/" ++ slashed l)%string.
Proof.
  intros Hl Hs. assert (E : clean_elements true ("/" ++ slashed l) = l).
  { unfold clean_elements. rewrite Split_rooted by done. simpl. by rewrite clean_step_proper. }
  unfold Clean. assert (IsAbs ("/" ++ slashed l) = true) as -> by (apply HasPrefix_true; by eexists).
  rewrite E. by destruct l.
Qed.

(** ** Joining and cleaning texts *)

(** Cleaning a rooted path is entering its elements from the root. *)
Lemma clean_step_enter out e : forallb proper_name out = true -> clean_step true out e = enter out e.
Proof.
  intros Hout. unfold clean_step, enter. destruct (_ || _); [done|]. destruct (String.eqb e ".."); [|done].
  destruct out as [|x out _] using rev_ind; [done|]. rewrite last_snoc. rewrite forallb_app in Hout. apply andb_prop in Hout as [_ Hx].
  simpl in Hx. rewrite andb_true_r in Hx. unfold proper_name in Hx. apply negb_true_iff, orb_false_iff in Hx as [_ ->]. done.
Qed.

Lemma clean_elements_rooted s : clean_elements true s = Join [] s.
Proof.
  unfold clean_elements, Join. generalize (Split s "/"). assert (Hn : forallb proper_name [] = true) by done. revert Hn.
  generalize (@nil string). intros out Hout l. revert out Hout. induction l as [|e l IH]; intros out Hout; [done|]. simpl.
  rewrite clean_step_enter by done. apply IH. by apply (enter_clean out e).
Qed.

Lemma pieces_enter p l : Forall (fun e => no_char "/" e = true) p -> Forall (fun e => no_char "/" e = true) l ->
  Forall (fun e => no_char "/" e = true) (foldl enter p l).
Proof.
  intros Hp Hl. revert p Hp. induction Hl as [|e l He _ IH]; intros p Hp; [done|]. simpl. apply IH. unfold enter.
  destruct (_ || _); [done|]. destruct (String.eqb e ".."); [|by apply Forall_app; split; [|constructor]].
  destruct p as [|x p _] using rev_ind; [done|]. rewrite removelast_last. by apply Forall_app in Hp as [? _].
Qed.

Lemma Join_segments s : Forall segment (Join [] s).
Proof.
  pose proof (Join_clean [] s eq_refl) as Hc. unfold clean in Hc. rewrite forallb_forall in Hc.
  pose proof (pieces_enter [] (Split s "/") ltac:(constructor) (Split_from_pieces s "" eq_refl)) as Hp. fold (Join [] s) in Hp.
  rewrite Forall_forall in *. intros e He. split; [by apply Hc, list_elem_of_In|by apply Hp].
Qed.

(** The text of a cleaned absolute path, and the path back from it. *)
Definition path_text (p : path) : string := "/" ++ slashed p.

Lemma Abs_path_text cwd p : Forall segment p -> Abs cwd (path_text p) = p.
Proof.
  intros Hp. unfold Abs. rewrite (proj2 (HasPrefix_true (path_text p) "/")) by by exists (slashed p). unfold Join, path_text.
  destruct (decide (p = [])) as [->|Hne]; [done|].
  rewrite Split_rooted by done. cbn [foldl]. change (enter [] "") with (@nil string).
  assert (H : forall q, foldl enter q p = q ++ p); [|apply (H [])]. clear Hne.
  induction Hp as [|n p [Hn _] _ IH]; intros q; simpl; [by rewrite app_nil_r|]. rewrite IH, enter_proper by done. by rewrite <- app_assoc.
Qed.

(** Cleaning any path changes nothing about where it leads. *)
Lemma Abs_Clean_any cwd s : Abs cwd (Clean s) = Abs cwd s.
Proof.
  destruct (IsAbs s) eqn:Hs; [|by apply Abs_Clean]. unfold Clean. rewrite Hs, clean_elements_rooted.
  assert (E : (match Join [] s with [] => "/" | l => "/" ++ slashed l end)%string = path_text (Join [] s)) by by destruct (Join [] s).
  rewrite E, Abs_path_text by apply Join_segments. unfold Abs. unfold IsAbs in Hs. by rewrite Hs.
Qed.

Lemma Clean_nonempty s : Clean s <> "".
Proof.
  destruct (IsAbs s) eqn:Hs; [|by apply (Join_Clean [] s)]. unfold Clean. rewrite Hs. by destruct (clean_elements true s).
Qed.

Lemma Split_from_join s t cur : Split_from (s ++ String "/" t)%string "/" cur = Split_from s "/" cur ++ Split_from t "/" "".
Proof. revert cur. induction s as [|c s IH]; intros cur; simpl; [done|]. case_match; [by rewrite IH|by rewrite IH]. Qed.

Lemma Join_join p s t : Join p (s ++ String "/" t) = Join (Join p s) t.
Proof. unfold Join, Split. by rewrite Split_from_join, foldl_app. Qed.

Lemma Abs_join cwd s t : s <> "" -> Abs cwd (s ++ String "/" t) = Join (Abs cwd s) t.
Proof.
  intros Hs. unfold Abs. assert (HasPrefix (s ++ String "/" t) "/" = HasPrefix s "/") as -> by (destruct s as [|c s]; [done|]; destruct s; reflexivity).
  case_match; apply Join_join.
Qed.
