(* ===== verification/SqliteFile.v ===== *)
(** * Database files behind the driver

    The boundary to [modernc.org/sqlite]: a data source name, of which the
    driver takes a part as the name of a file, and the files SQLite keeps for
    one database, the image and beside it a rollback journal or a write-ahead
    log with its index.  Opening a database reads all of them and may write
    them: a journal a crash left is played back into the image and removed, a
    log is checkpointed, a missing file is created. *)

From S2P Require Import Prelude GoText Schema FileSystem FileSystemLemmas GoPath.
From Stdlib Require Import Ascii String.
Local Open Scope string_scope.

(** ** The files of a database *)

Record DatabaseFiles := MkDatabaseFiles {
  main_file : option entry;
  journal_file : option entry;
  wal_file : option entry;
  shm_file : option entry;
}.
(** A database that nobody uses and nobody left in a hurry. *)
Definition alone (image : list byte) : DatabaseFiles := MkDatabaseFiles (Some (File image)) None None None.

Definition beside (p : path) (suffix : string) : path := (parent p ++ [(default "" (last p) ++ suffix)%string])%list.
Definition sidecars : list string := ["-journal"; "-wal"; "-shm"].
Definition database_paths (p : path) : list path := p :: map (beside p) sidecars.

Definition database_files (p : path) (fs : FS) : DatabaseFiles :=
  MkDatabaseFiles (fs !! p) (fs !! beside p "-journal") (fs !! beside p "-wal") (fs !! beside p "-shm").

(** Only regular files are written, created and removed. *)
Definition replace_file (k : path) (new : option entry) (fs : FS) : FS :=
  match fs !! k, new with
  | (None | Some (File _)), Some (File data) => <[k := File data]> fs
  | (None | Some (File _)), None => delete k fs
  | _, _ => fs
  end.
Definition put_files (p : path) (f : DatabaseFiles) (fs : FS) : FS :=
  replace_file p (main_file f) (replace_file (beside p "-journal") (journal_file f)
    (replace_file (beside p "-wal") (wal_file f) (replace_file (beside p "-shm") (shm_file f) fs))).

(** ** The driver *)

(** [vacuum_into]: the image [VACUUM INTO] writes.  [dsn_file]: the file a data
    source name is for.  [query_files]: opening a database with the driver's
    defaults, checking it, reading its table of blobs and closing it: what was
    read, an error where there is no database, a check reports a fault or the
    table cannot be read, and the files afterwards. *)
Class Sqlite : Type := {
  vacuum_into : DB -> list byte;
  dsn_file : string -> string;
  query_files : DatabaseFiles -> result DB * DatabaseFiles;
}.

(** A name the driver takes as it is: no parameters, no URI, not in memory. *)
Definition plain_name (name : string) : bool :=
  no_char "?" name && negb (HasPrefix name "file:") && negb (String.eqb name "") && negb (String.eqb name ":memory:").

(** What the code relies on: a question mark ends the name of the file, and
    reading a database that has neither journal nor log leaves it as it is. *)
Class SqliteLaws (SQ : Sqlite) : Prop := {
  dsn_plain name : plain_name name = true -> dsn_file name = name;
  dsn_parameters name parameters : plain_name name = true -> dsn_file (name ++ "?" ++ parameters) = name;
  query_alone image : (query_files (alone image)).2 = alone image;
}.

(** The database an image holds. *)
Definition open_image {SQ : Sqlite} (image : list byte) : result DB := (query_files (alone image)).1.

(** [sql.Open], the queries, and [db.Close]. *)
Definition query_database {SQ : Sqlite} (cwd : path) (dsn : string) : M FS DB := fun fs =>
  let p := Abs cwd (dsn_file dsn) in
  if bool_decide (p = []) || negb (is_dir fs (parent p)) then (Err (Internal "unable to open database file"), fs)
  else let '(r, f) := query_files (database_files p fs) in (r, put_files p f fs).

(** ** [internal/database]: the name of the server's own database *)

Definition dataSourceName (path : string) : string :=
  path ++ "?_pragma=busy_timeout(5000)&_pragma=foreign_keys(1)&_pragma=journal_mode(WAL)&_txlock=immediate".
(** [database.Open]'s path below a storage directory. *)
Definition databaseText (storagePath : string) : string := JoinText [JoinText [storagePath; "database"]; "homebox.db"].

Local Open Scope list_scope.

Lemma Abs_databaseText cwd storagePath : Abs cwd (databaseText storagePath) = Join (Abs cwd storagePath) "database/homebox.db".
Proof.
  change "database/homebox.db" with ("database" ++ String "/" "homebox.db")%string. rewrite Join_join.
  unfold databaseText. set (dir := JoinText [storagePath; "database"]).
  assert (Hdir : dir <> "" /\ Abs cwd dir = Join (Abs cwd storagePath) "database").
  { unfold dir, JoinText. simpl. destruct (String.eqb_spec storagePath "") as [->|Hs]; simpl; [split; [done|]; unfold Abs; by simpl|].
    split; [apply Clean_nonempty|]. rewrite Abs_Clean_any. by apply (Abs_join cwd storagePath "database"). }
  destruct Hdir as [Hne <-]. unfold JoinText at 1. simpl. rewrite (proj2 (String.eqb_neq _ _) Hne). simpl. rewrite Abs_Clean_any.
  by apply (Abs_join cwd dir "homebox.db").
Qed.

(** ** Names without a question mark *)

(** Every cleaned path has proper names without slashes; these have no question
    mark either. *)
Definition plain_path (p : path) : bool := forallb (fun n => proper_name n && no_char "/" n && no_char "?" n) p.

Lemma plain_path_app p q : plain_path (p ++ q) = plain_path p && plain_path q.
Proof. apply forallb_app. Qed.

Lemma plain_path_segments p : plain_path p = true -> Forall segment p.
Proof.
  unfold plain_path. rewrite forallb_forall, Forall_forall. intros H n Hn. apply list_elem_of_In, H in Hn.
  apply andb_prop in Hn as [[H1 H2]%andb_prop _]. by split.
Qed.

(** What [os] draws for the names of temporary files and directories, which is
    decimal digits, holds neither. *)
Definition plain_names (rand : nat -> string) : Prop := forall i, no_char "/" (rand i) = true /\ no_char "?" (rand i) = true.

Lemma plain_temporary q (pattern : string) rand i : plain_names rand -> plain_path q = true -> plain_path [pattern] = true ->
  (2 < String.length pattern)%nat -> plain_path (q ++ [(pattern ++ rand i)%string]) = true.
Proof.
  intros Hr Hq Hp Hl. rewrite plain_path_app, Hq. destruct (Hr i) as [H1 H2].
  assert (Hn : proper_name (pattern ++ rand i)%string = true).
  { destruct pattern as [|a [|b [|c p]]]; simpl in Hl; [lia..|]. apply negb_true_iff, orb_false_iff.
    split; [apply orb_false_iff; split|]; by apply String.eqb_neq. }
  unfold plain_path in *. simpl in *. rewrite !andb_true_r in *. apply andb_prop in Hp as [[_ P1]%andb_prop P2].
  by rewrite Hn, !no_char_app, P1, P2, H1, H2.
Qed.

Lemma no_question_slashed p : Forall (fun n => no_char "?" n = true) p -> no_char "?" (slashed p) = true.
Proof.
  induction 1 as [|n p Hn _ IH]; [done|]. destruct p as [|n' p]; [exact Hn|].
  change (no_char "?" (n ++ String "/" (slashed (n' :: p)))%string = true). rewrite no_char_app, Hn. exact IH.
Qed.

Lemma plain_text p : plain_path p = true -> p <> [] -> plain_name (path_text p) = true.
Proof.
  intros Hp Hne. assert (Hq : no_char "?" (path_text p) = true).
  { unfold path_text. apply no_question_slashed. unfold plain_path in Hp. rewrite forallb_forall in Hp.
    apply Forall_forall. intros n Hn. apply list_elem_of_In, Hp in Hn. by apply andb_prop in Hn as [_ ?]. }
  unfold plain_name. rewrite Hq. reflexivity.
Qed.

Lemma plain_dsn {SQ : Sqlite} {SL : SqliteLaws SQ} cwd p : plain_path p = true -> p <> [] -> Abs cwd (dsn_file (path_text p)) = p.
Proof.
  intros Hp Hne. rewrite dsn_plain by by apply plain_text. by apply Abs_path_text, plain_path_segments.
Qed.

(** ** What opening changes *)

Definition regular_or_none (o : option entry) : Prop := forall e, o = Some e -> exists data, e = File data.

(** [fs'] is [fs] but for regular files of the database at [p]. *)
Definition rewrites (p : path) (fs fs' : FS) : Prop := forall k, fs' !! k = fs !! k \/
  k ∈ database_paths p /\ regular_or_none (fs !! k) /\ regular_or_none (fs' !! k).

Lemma rewrites_refl p fs : rewrites p fs fs.
Proof. intros k. by left. Qed.

Lemma rewrites_trans p a b c : rewrites p a b -> rewrites p b c -> rewrites p a c.
Proof.
  intros H1 H2 k. destruct (H1 k) as [E1|(Hk & R1 & R2)], (H2 k) as [E2|(Hk' & R3 & R4)].
  - left. congruence.
  - right. by rewrite <- E1.
  - right. by rewrite E2.
  - by right.
Qed.

Lemma replace_file_rewrites p k new fs : k ∈ database_paths p -> rewrites p fs (replace_file k new fs).
Proof.
  intros Hk j. unfold replace_file. destruct (decide (j = k)) as [->|Hne].
  - destruct (fs !! k) as [[|d|]|] eqn:E; [by left| |by left|]; destruct new as [[|data|]|]; try (left; congruence); right;
      rewrite ?lookup_insert_eq, ?lookup_delete_eq; (split; [done|split; intros e' [=]; subst; by eexists]).
  - left. destruct (fs !! k) as [[|d|]|]; [done| |done|]; destruct new as [[|data|]|]; try done;
      by rewrite ?lookup_insert_ne, ?lookup_delete_ne.
Qed.

Lemma put_files_rewrites p f fs : rewrites p fs (put_files p f fs).
Proof.
  unfold put_files. eapply rewrites_trans; [eapply rewrites_trans; [eapply rewrites_trans|]|]; apply replace_file_rewrites;
    unfold database_paths, sidecars; simpl; set_solver.
Qed.

Lemma replace_file_same k fs : replace_file k (fs !! k) fs = fs.
Proof. unfold replace_file. destruct (fs !! k) as [[|d|]|] eqn:E; [done|by apply insert_id|done|by apply delete_id]. Qed.

(** Nothing changes when the files stay as they are. *)
Lemma put_files_same p fs : put_files p (database_files p fs) fs = fs.
Proof. unfold put_files, database_files. cbn [main_file journal_file wal_file shm_file]. by rewrite !replace_file_same. Qed.

Section query.
Context {SQ : Sqlite} {SL : SqliteLaws SQ} (cwd : path).

Lemma query_database_rewrites p fs : plain_path p = true -> p <> [] -> rewrites p fs (query_database cwd (path_text p) fs).2.
Proof.
  intros Hp Hne. unfold query_database. rewrite plain_dsn by done. case_match; [apply rewrites_refl|].
  destruct (query_files _) as [r f]. apply put_files_rewrites.
Qed.

(** A database without sidecars is read as its image, and left alone. *)
Lemma query_database_alone p fs image : plain_path p = true -> p <> [] -> is_dir fs (parent p) = true ->
  database_files p fs = alone image -> query_database cwd (path_text p) fs = (open_image image, fs).
Proof.
  intros Hp Hne Hd Hf. unfold query_database. rewrite plain_dsn, bool_decide_eq_false_2, Hd, Hf by done. cbn [orb negb].
  unfold open_image. pose proof (query_alone image) as Ha. destruct (query_files (alone image)) as [r f]. cbn [fst snd] in *.
  subst f. by rewrite <- Hf, put_files_same.
Qed.
End query.

(** Directories stay, and so does everything that is not below a file. *)
Lemma rewrites_at p fs fs' k : rewrites p fs fs' -> k ∉ database_paths p -> fs' !! k = fs !! k.
Proof. intros H Hk. by destruct (H k) as [|[? _]]. Qed.

Lemma rewrites_dir p fs fs' k : rewrites p fs fs' -> fs' !! k = Some Dir <-> fs !! k = Some Dir.
Proof.
  intros H. destruct (H k) as [->|(_ & R1 & R2)]; [done|]. split; intros E; [apply R2 in E as [d [=]]|apply R1 in E as [d [=]]].
Qed.

Lemma rewrites_Lstat p fs fs' k : rewrites p fs fs' -> (forall j, j `prefix_of` k -> j ∉ database_paths p) -> Lstat fs' k = Lstat fs k.
Proof.
  intros H Hk. unfold Lstat. assert (Hw : forall r q, q ++ r = k -> walk fs' q r = walk fs q r); [|by apply Hw].
  induction r as [|n r IH]; intros q E; simpl.
  - destruct q; [done|]. by rewrite (rewrites_at p fs fs') by (try done; apply Hk; exists []; by rewrite app_nil_r, <- E, app_nil_r).
  - assert (Hq : forall x l, q = x :: l -> fs' !! q = fs !! q) by (intros x l _; apply (rewrites_at p); [done|]; apply Hk; exists (n :: r); done).
    destruct q as [|x q]; [by apply (IH [n])|]. rewrite (Hq x q eq_refl). destruct (fs !! (x :: q)) as [[| |]|]; try done.
    apply (IH ((x :: q) ++ [n])). by rewrite <- app_assoc.
Qed.

Lemma rewrites_is_dir p fs fs' k : rewrites p fs fs' -> is_dir fs' k = is_dir fs k.
Proof.
  intros H. induction k as [|n k IH] using rev_ind; [done|].
  assert (Hb : forall a b, rewrites p a b -> is_dir b k = is_dir a k -> is_dir a (k ++ [n]) = true -> is_dir b (k ++ [n]) = true).
  { intros a b Hab Hk Ha. apply is_dir_Lstat in Ha as Hl. apply Lstat_Some_snoc in Hl as [Hd Hl]. rewrite <- Hk in Hd.
    apply is_dir_Lstat. rewrite (Lstat_in _ _ _ Hd). by rewrite (proj2 (rewrites_dir p a b _ Hab) Hl). }
  assert (Hsym : rewrites p fs' fs).
  { intros j. destruct (H j) as [->|(? & ? & ?)]; [by left|by right]. }
  destruct (is_dir fs (k ++ [n])) eqn:E1, (is_dir fs' (k ++ [n])) eqn:E2; try done.
  - by rewrite (Hb fs fs') in E2.
  - by rewrite (Hb fs' fs) in E1.
Qed.

Lemma database_paths_in q n k : k ∈ database_paths (q ++ [n]) -> exists n', k = q ++ [n'].
Proof.
  unfold database_paths, beside. rewrite parent_snoc, last_snoc. simpl. rewrite !elem_of_cons, elem_of_nil.
  intros [->|[->|[->|[->|[]]]]]; by eexists.
Qed.

Lemma rewrites_ok q n fs fs' : fs_ok fs -> is_dir fs q = true -> rewrites (q ++ [n]) fs fs' -> fs_ok fs'.
Proof.
  intros [H0 H] Hq Hr. split.
  - rewrite (rewrites_at _ _ _ _ Hr); [done|]. intros [n' E]%database_paths_in. by destruct q.
  - intros p m e Hp. destruct (Hr (p ++ [m])) as [E|(Hk & _ & _)].
    + rewrite E in Hp. destruct (H _ _ _ Hp) as [|Hd]; [by left|right]. by apply (rewrites_dir _ _ _ _ Hr).
    + apply database_paths_in in Hk as [n' [-> _]%app_inj_tail]. destruct (is_dir_lookup fs q Hq) as [|Hd]; [by left|right].
      by apply (rewrites_dir _ _ _ _ Hr).
Qed.

Lemma rewrites_file_at p fs fs' k : rewrites p fs fs' -> k ∉ database_paths p -> file_at fs' k = file_at fs k.
Proof.
  intros H Hk. destruct k as [|n k _] using rev_ind; [done|]. apply option_eq. intros data. rewrite !file_at_snoc.
  by rewrite (rewrites_is_dir p fs fs' k H), (rewrites_at p fs fs' _ H Hk).
Qed.
