(* ===== verification/GoMux.v ===== *)
(** * Go's [http.ServeMux]

    Patterns such as [GET /api/v1/nodes/{id}], the tree lookup that prefers a
    literal segment to a wildcard, cleaning and redirecting paths, and the
    answers for paths without a pattern.  Paths are as the client sends them,
    percent-escapes included; hosts are not used, and CONNECT requests, whose
    paths are not cleaned, are left out. *)

From S2P Require Import Prelude GoText FileSystem GoPath.
From Stdlib Require Import Ascii String.
Local Open Scope string_scope.
Local Open Scope list_scope.

(** ** Patterns *)

Inductive seg : Type :=
| Lit (s : string)
| Wild              (* [{name}]: one segment *)
| Multi.            (* a trailing slash: all the rest *)

Definition parse_seg (s : string) : seg := if HasPrefix s "{" && HasSuffix s "}" then Wild else Lit s.
Fixpoint parse_segs (l : list string) : list seg :=
  match l with
  | [] => []
  | [s] => if String.eqb s "" then [Multi] else [parse_seg s]
  | s :: l' => parse_seg s :: parse_segs l'
  end.
(** The method, [""] for any, and the segments. *)
Definition parse_pattern (p : string) : string * list seg :=
  match Cut p " " with
  | Some (method, path) => (method, parse_segs (tail (Split path "/")))
  | None => ("", parse_segs (tail (Split p "/")))
  end.

(** ** Lookup *)

Section mux.
Context {A : Type}.

Definition first_some {B} (a b : option B) : option B := match a with Some _ => a | None => b end.

(** The patterns that go on after a literal or a wildcard segment. *)
Definition after_lit (s : string) (pats : list (list seg * A)) : list (list seg * A) :=
  omap (fun p => match p.1 with Lit t :: l => if String.eqb t s then Some (l, p.2) else None | _ => None end) pats.
Definition after_wild (pats : list (list seg * A)) : list (list seg * A) :=
  omap (fun p => match p.1 with Wild :: l => Some (l, p.2) | _ => None end) pats.
Definition at_end (pats : list (list seg * A)) : option A :=
  head (omap (fun p => match p.1 with [] => Some p.2 | _ => None end) pats).
Definition at_multi (pats : list (list seg * A)) : option A :=
  head (omap (fun p => match p.1 with [Multi] => Some p.2 | _ => None end) pats).

(** The pattern for a path, what its wildcards matched and whether it matched
    in full, not by a trailing slash with more after it.  A wildcard matches
    neither the end after a slash nor a segment that is an escaped slash. *)
Fixpoint match_path (pats : list (list seg * A)) (path : list string) : option (A * list string * bool) :=
  match path with
  | [] => a ← at_end pats; Some (a, [], true)
  | s :: rest =>
      first_some (match_path (after_lit s pats) rest)
        (first_some (if String.eqb s "" || String.eqb s "/" then None
                     else r ← match_path (after_wild pats) rest; Some (r.1.1, s :: r.1.2, r.2))
                    (a ← at_multi pats; Some (a, [], bool_decide (path = [""]))))
  end.

(** A pattern and its handler. *)
Abbreviation mux_entry := (string * A)%type.
Definition patterns (table : list mux_entry) (method : string) : list (list seg * A) :=
  omap (fun e => let '(m, l) := parse_pattern e.1 in if String.eqb m method then Some (l, e.2) else None) table.

Definition match_method (table : list mux_entry) (method : string) (path : list string) : option (A * list string * bool) :=
  first_some (match_path (patterns table method) path)
    (first_some (if String.eqb method "HEAD" then match_path (patterns table "GET") path else None)
                (match_path (patterns table "") path)).

(** ** Requests *)

(** [url.PathUnescape]; a segment with a bad escape is taken as it is. *)
Fixpoint unescape (s : string) : option string :=
  match s with
  | "" => Some ""
  | String c s' =>
      if Ascii.eqb c "%" then
        match s' with
        | String a (String b s'') =>
            match hex_digit_val a, hex_digit_val b, unescape s'' with
            | Some x, Some y, Some t => Some (String (byte_char (16 * x + y)) t)
            | _, _, _ => None
            end
        | _ => None
        end
      else t ← unescape s'; Some (String c t)
  end.
Definition pathUnescape (s : string) : string := default s (unescape s).

Definition cleanPath (p : string) : string :=
  if String.eqb p "" then "/"
  else let p := if HasPrefix p "/" then p else ("/" ++ p)%string in
       let np := Clean p in
       if HasSuffix p "/" && negb (String.eqb np "/") then (np ++ "/")%string else np.

Definition segments (p : string) : list string := map pathUnescape (tail (Split p "/")).

Inductive served : Type :=
| Serve (a : A) (values : list string)
| Redirect (to : string)
| MethodNotAllowed
| NotFound.

(** Some pattern of another method has this path. *)
Definition other_method (table : list mux_entry) (path : list string) : bool :=
  existsb (fun e => is_valid (match_path [((parse_pattern e.1).2, e.2)] path)) table.

Definition mux_dispatch (table : list mux_entry) (method escapedPath : string) : served :=
  let path := cleanPath escapedPath in
  let found := match_method table method (segments path) in
  let exact := match found with Some (_, _, e) => e | None => false end in
  let slash := (path ++ "/")%string in
  if negb exact && negb (HasSuffix path "/") &&
     match match_method table method (segments slash) with Some (_, _, e) => e | None => false end
  then Redirect slash
  else if negb (String.eqb path escapedPath) then Redirect path
  else match found with
       | Some (a, values, _) => Serve a values
       | None => if other_method table (segments path) || (negb (HasSuffix path "/") && other_method table (segments slash))
                 then MethodNotAllowed else NotFound
       end.
End mux.
Arguments served A : clear implicits.

Example mux_ex : let table := [("GET /api/{id}"%string, 1); ("GET /api/children"%string, 2); ("/h/"%string, 3); ("POST /api/{id}/x"%string, 4)] in
  map (fun mp => mux_dispatch table mp.1 mp.2)
    [("GET", "/api/children"); ("GET", "/api/a%20b"); ("HEAD", "/api/7"); ("POST", "/api/children/x"); ("POST", "/api/7"); ("PUT", "/h/q/r"); ("GET", "/h");
     ("GET", "//api/./7"); ("GET", "/api/"); ("GET", "/api/c%68ildren"); ("GET", "/x"); ("GET", "/api/%2F")]%string
  = [Serve 2 []; Serve 1 ["a b"]; Serve 1 ["7"]; Serve 4 ["children"]; MethodNotAllowed; Serve 3 []; Redirect "/h/"; Redirect "/api/7"; NotFound; Serve 2 []; NotFound; NotFound]%string.
Proof. vm_compute. reflexivity. Qed.

(** ** What a match says *)

Inductive fits : list seg -> list string -> list string -> Prop :=
| fits_nil : fits [] [] []
| fits_lit s l p vs : fits l p vs -> fits (Lit s :: l) (s :: p) vs
| fits_wild s l p vs : s <> "" -> fits l p vs -> fits (Wild :: l) (s :: p) (s :: vs)
| fits_multi s p : fits [Multi] (s :: p) [].

Section lemmas.
Context {A : Type}.
Implicit Types pats : list (list seg * A).

Lemma first_some_Some {B} (a b : option B) r : first_some a b = Some r -> a = Some r \/ b = Some r.
Proof. destruct a; [by left|by right]. Qed.

Lemma elem_of_after_lit s pats l a : (l, a) ∈ after_lit s pats -> (Lit s :: l, a) ∈ pats.
Proof.
  intros ([l' a'] & Hin & H)%list_elem_of_omap. simpl in H. destruct l' as [|[t| |] l']; [done| |done..].
  destruct (String.eqb_spec t s) as [->|]; [|done]. by injection H as -> ->.
Qed.
Lemma elem_of_after_wild pats l a : (l, a) ∈ after_wild pats -> (Wild :: l, a) ∈ pats.
Proof.
  intros ([l' a'] & Hin & H)%list_elem_of_omap. simpl in H. destruct l' as [|[t| |] l']; [done..| |done]. by injection H as -> ->.
Qed.
Lemma head_elem_of {B} (l : list B) x : head l = Some x -> x ∈ l.
Proof. destruct l; [done|]. intros [= ->]. by left. Qed.

Lemma match_path_sound pats path a vs e : match_path pats path = Some (a, vs, e) -> exists l, (l, a) ∈ pats /\ fits l path vs.
Proof.
  revert pats a vs e. induction path as [|s path IH]; intros pats a vs e H.
  - simpl in H. destruct (at_end pats) as [a'|] eqn:E; [|done]. injection H as -> <- _.
    apply head_elem_of, list_elem_of_omap in E as ([l' a'] & Hin & H). simpl in H. destruct l'; [|done]. injection H as ->.
    exists []. split; [done|constructor].
  - cbn [match_path] in H. apply first_some_Some in H as [H|H]; [|apply first_some_Some in H as [H|H]].
    + apply IH in H as (l & Hin%elem_of_after_lit & Hf). eexists. split; [exact Hin|by constructor].
    + destruct (String.eqb_spec s ""); [done|]. destruct (String.eqb_spec s "/"); [done|]. destruct (match_path (after_wild pats) path) as [[[a' vs'] e']|] eqn:E; [|done].
      injection H as -> <- _. apply IH in E as (l & Hin%elem_of_after_wild & Hf). eexists. split; [exact Hin|by constructor].
    + destruct (at_multi pats) as [a'|] eqn:E; [|done]. injection H as -> <- _.
      apply head_elem_of, list_elem_of_omap in E as ([l' a'] & Hin & H). simpl in H. destruct l' as [|[| |] [|]]; try done. injection H as ->.
      exists [Multi]. split; [done|constructor].
Qed.

Lemma elem_of_patterns (table : list (string * A)) m l a : (l, a) ∈ patterns table m -> exists p, (p, a) ∈ table /\ parse_pattern p = (m, l).
Proof.
  intros ([p a'] & Hin & H)%list_elem_of_omap. simpl in H. destruct (parse_pattern p) as [m' l'] eqn:E.
  destruct (String.eqb_spec m' m) as [->|]; [|done]. injection H as -> ->. by exists p.
Qed.

(** The methods a request's method stands for. *)
Definition answers (m method : string) : Prop := m = method \/ m = "GET" /\ method = "HEAD" \/ m = "".

Lemma match_method_sound (table : list (string * A)) method path a vs e : match_method table method path = Some (a, vs, e) ->
  exists p m l, (p, a) ∈ table /\ parse_pattern p = (m, l) /\ answers m method /\ fits l path vs.
Proof.
  unfold match_method. intros [H|[H|H]%first_some_Some]%first_some_Some.
  - apply match_path_sound in H as (l & (p & Hin & Hp)%elem_of_patterns & Hf). exists p, method, l. split_and!; [done..|by left|done].
  - destruct (String.eqb_spec method "HEAD"); [|done]. apply match_path_sound in H as (l & (p & Hin & Hp)%elem_of_patterns & Hf).
    exists p, "GET"%string, l. split_and!; [done..|by right; left|done].
  - apply match_path_sound in H as (l & (p & Hin & Hp)%elem_of_patterns & Hf). exists p, ""%string, l. split_and!; [done..|by right; right|done].
Qed.

Lemma mux_dispatch_sound (table : list (string * A)) method p a vs : mux_dispatch table method p = Serve a vs ->
  exists pat m l, (pat, a) ∈ table /\ parse_pattern pat = (m, l) /\ answers m method /\ fits l (segments p) vs.
Proof.
  unfold mux_dispatch. destruct (_ && _); [done|]. destruct (String.eqb_spec (cleanPath p) p) as [E|]; [|done]. simpl. rewrite E.
  destruct (match_method table method (segments p)) as [[[a' vs'] e]|] eqn:Em; [|by destruct (_ || _)].
  intros [= -> ->]. by eapply match_method_sound.
Qed.

(** ** Finding the pattern of a clean path *)

Lemma match_lit s pats path r : match_path (after_lit s pats) path = Some r -> match_path pats (s :: path) = Some r.
Proof. intros H. cbn [match_path]. by rewrite H. Qed.

Lemma match_wild s pats path a vs e : s <> "" -> s <> "/" -> after_lit s pats = [] -> match_path (after_wild pats) path = Some (a, vs, e) ->
  match_path pats (s :: path) = Some (a, s :: vs, e).
Proof.
  intros Hs Hs' Hl H. cbn [match_path]. rewrite Hl. assert (match_path (A := A) [] path = None) as ->.
  { clear. induction path as [|s path IH]; [done|]. cbn [match_path]. change (after_lit s []) with (@nil (list seg * A)).
    change (after_wild (@nil (list seg * A))) with (@nil (list seg * A)). rewrite IH. by destruct (String.eqb s "" || String.eqb s "/"). }
  apply String.eqb_neq in Hs, Hs'. simpl. by rewrite Hs, Hs', H.
Qed.

Lemma match_end pats a : at_end pats = Some a -> match_path pats [] = Some (a, [], true).
Proof. intros H. simpl. by rewrite H. Qed.

Lemma match_method_same (table : list (string * A)) method path r : match_path (patterns table method) path = Some r ->
  match_method table method path = Some r.
Proof. intros H. unfold match_method. by rewrite H. Qed.
End lemmas.

(** ** Clean paths stay as they are *)

Lemma unescape_plain s : no_char "%" s = true -> pathUnescape s = s.
Proof.
  intros H. unfold pathUnescape. assert (unescape s = Some s) as ->; [|done].
  induction s as [|c s IH]; [done|]. simpl in *. apply andb_prop in H as [Hc Hs]. rewrite (IH Hs). by destruct (Ascii.eqb c "%").
Qed.

Lemma slashed_no_slash_end l : l <> [] -> Forall segment l -> HasSuffix (slashed l) "/" = false.
Proof.
  intros Hl Hs. apply not_true_iff_false. intros [t Ht]%HasSuffix_split.
  pose proof (Split_slashed l Hl ltac:(eapply Forall_impl; [exact Hs|]; by intros e [])) as Hsp. rewrite Ht in Hsp.
  assert (Hlast : forall t cur, last (Split_from (t ++ "/") "/" cur) = Some ""%string).
  { clear. induction t as [|c t IH]; intros cur; [done|]. simpl. destruct (Ascii.eqb c "/"); [|apply IH].
    specialize (IH ""%string). destruct (Split_from (t ++ "/") "/" ""); [done|exact IH]. }
  unfold Split in Hsp. specialize (Hlast t ""%string). rewrite Hsp in Hlast.
  apply last_Some_elem_of in Hlast. rewrite Forall_forall in Hs. by destruct (Hs _ Hlast).
Qed.

Lemma cleanPath_clean l : l <> [] -> Forall segment l -> cleanPath ("/" ++ slashed l) = ("/" ++ slashed l)%string.
Proof.
  intros Hl Hs. unfold cleanPath. assert (HasPrefix ("/" ++ slashed l) "/" = true) as -> by (apply HasPrefix_true; by eexists).
  assert (HasSuffix ("/" ++ slashed l) "/" = false) as ->.
  { pose proof (slashed_no_slash_end l Hl Hs) as H. apply not_true_iff_false. intros [t Ht]%HasSuffix_split. apply not_true_iff_false in H. apply H.
    destruct t as [|c t].
    - exfalso. assert (slashed l = ""%string) as E by (by injection Ht). pose proof (Split_slashed l Hl ltac:(eapply Forall_impl; [exact Hs|]; by intros e [])) as Hsp.
      rewrite E in Hsp. change (Split "" "/") with [""%string] in Hsp. subst l. by apply Forall_singleton in Hs as [? _].
    - injection Ht as _ Ht. change ("" ++ slashed l)%string with (slashed l) in Ht. rewrite Ht. apply HasSuffix_app. }
  simpl andb. cbv iota. by apply Clean_rooted.
Qed.

Lemma segments_clean l : l <> [] -> Forall (fun e => segment e /\ no_char "%" e = true) l -> segments ("/" ++ slashed l) = l.
Proof.
  intros Hl Hs. unfold segments. rewrite Split_rooted; [|done|eapply Forall_impl; [exact Hs|]; by intros e []]. simpl.
  clear Hl. induction Hs as [|e l [_ He] _ IH]; [done|]. simpl. by rewrite IH, unescape_plain.
Qed.

Lemma mux_dispatch_clean {A} (table : list (string * A)) method l a vs : l <> [] -> Forall (fun e => segment e /\ no_char "%" e = true) l ->
  match_method table method l = Some (a, vs, true) -> mux_dispatch table method ("/" ++ slashed l) = Serve a vs.
Proof.
  intros Hl Hs Hm. assert (Hs' : Forall segment l) by (eapply Forall_impl; [exact Hs|]; by intros e []).
  unfold mux_dispatch. rewrite (cleanPath_clean l Hl Hs'), (segments_clean l Hl Hs), Hm. simpl andb. cbv iota. by rewrite String.eqb_refl.
Qed.
