(* ===== verification/HttpMux.v ===== *)
(** * Package internal/httpapi: from a request's line to its route

    The patterns [New] registers ([internal/httpapi/httpapi.go]), each with the
    [Route] its handler reads from the path values, the query and the body.
    Query values are [r.URL.Query().Get] and headers [r.Header.Get], [""] when absent.  A body is the
    bytes that arrived and whether reading then failed; [json.Decoder] is an
    instance of [JsonDecoder] per request type. *)

From S2P Require Import Prelude GoText FileSystem GoPath GoMux Uuid Uploads HttpApi HttpBodies GoServeContent HttpRoutes.
From Stdlib Require Import Ascii String.
Local Open Scope string_scope.
Local Open Scope list_scope.

(** ** What a request carries *)

Record Stream := MkStream { sent : list byte; failed : bool }.
Record Input := MkInput { in_query : string -> string; in_header : string -> string; in_body : Stream }.

(** [http.MaxBytesReader]: what can be read before the limit's error. *)
Definition MaxBytesReader (n : Z) (b : Stream) : Stream :=
  if (n <? Z.of_nat (List.length (sent b)))%Z then MkStream (take (Z.to_nat n) (sent b)) true else b.

Class JsonDecoder (A : Type) := Decode : Stream -> option A.

Definition maxRequestBodyBytes : Z := Z.shiftl 1 20.
Definition json {A} {D : JsonDecoder A} (i : Input) : option A := Decode (MaxBytesReader maxRequestBodyBytes (in_body i)).
(** The body of a chunk; one above the limit is refused whatever follows. *)
Definition chunk (i : Input) : option (list byte) :=
  if (MaxChunkCiphertextSize <? Z.of_nat (List.length (sent (in_body i))))%Z then Some (sent (in_body i))
  else if failed (in_body i) then None else Some (sent (in_body i)).

(** The headers [http.ServeContent] reads. *)
Definition conditions (i : Input) : Conditions :=
  MkConditions (in_header i "If-Match") (in_header i "If-None-Match") (in_header i "If-Range") (in_header i "Range").

(** ** The routes *)

Class JsonBodies := MkJsonBodies {
  #[global] json_login :: JsonDecoder loginRequest;
  #[global] json_refresh :: JsonDecoder refreshTokenRequest;
  #[global] json_recovery :: JsonDecoder recoveryBundleRequest;
  #[global] json_share :: JsonDecoder createShareRequest;
  #[global] json_envelopes :: JsonDecoder addShareEnvelopesRequest;
  #[global] json_folder_key :: JsonDecoder createFolderKeyRequest;
  #[global] json_rekey :: JsonDecoder rekeyRequest;
  #[global] json_envelope :: JsonDecoder uploadEnvelopeRequest;
  #[global] json_create :: JsonDecoder createNodeRequest;
  #[global] json_update :: JsonDecoder updateNodeRequest;
  #[global] json_delete :: JsonDecoder deleteOrRestoreRequest;
  #[global] json_upload :: JsonDecoder createUploadRequest;
  #[global] json_complete :: JsonDecoder completeUploadRequest;
}.

Section routes.
Context {J : JsonBodies}.

(** [r.PathValue] of the [n]-th wildcard. *)
Definition PathValue (n : nat) (values : list string) : string := nth n values "".

Definition open (f : Input -> OpenRoute) (values : list string) (i : Input) : Route := Open (f i).
Definition auth (f : Input -> ProtectedRoute) (values : list string) (i : Input) : Route := Protected (f i).
Definition auth_id (f : string -> Input -> ProtectedRoute) (values : list string) (i : Input) : Route :=
  Protected (f (PathValue 0 values) i).

Definition RouteReader : Type := list string -> Input -> Route.

Definition New : list (string * RouteReader) :=
  [("POST /api/v1/auth/login", open (fun i => PostLogin (json i)));
   ("POST /api/v1/auth/refresh", open (fun i => PostRefresh (json i)));
   ("POST /api/v1/auth/logout", open (fun i => PostLogout (json i)));
   ("GET /api/v1/users/me", auth (fun _ => GetUsersMe));
   ("GET /api/v1/users/me/recovery", auth (fun _ => GetRecovery));
   ("PUT /api/v1/users/me/recovery", auth (fun i => PutRecovery (json i)));
   ("GET /api/v1/users/{id}/share-devices", auth_id (fun id _ => GetShareDevices id));
   ("POST /api/v1/shares", auth (fun i => PostShares (json i)));
   ("GET /api/v1/shares/incoming", auth (fun _ => GetSharesIncoming));
   ("GET /api/v1/shares/outgoing", auth (fun _ => GetSharesOutgoing));
   ("DELETE /api/v1/shares/{id}", auth_id (fun id _ => DeleteShare id));
   ("POST /api/v1/shares/{id}/envelopes", auth_id (fun id i => PostShareEnvelopes id (json i)));
   ("GET /api/v1/folder-keys", auth (fun _ => GetFolderKeys));
   ("POST /api/v1/nodes/{id}/folder-keys", auth_id (fun id i => PostFolderKeys id (json i)));
   ("POST /api/v1/nodes/rekey", auth (fun i => PostRekey (json i)));
   ("GET /api/v1/devices", auth (fun _ => GetDevices));
   ("DELETE /api/v1/devices/{id}", auth_id (fun id _ => DeleteDevice id));
   ("POST /api/v1/devices/{id}/key-envelope", auth_id (fun id i => PostKeyEnvelope id (json i)));
   ("GET /api/v1/devices/{id}/key-envelope", auth_id (fun id _ => GetKeyEnvelope id));

   ("POST /api/v1/nodes", auth (fun i => PostNodes (json i)));
   ("GET /api/v1/nodes/children",
      auth (fun i => GetChildren (in_query i "parentId") (in_query i "limit") (in_query i "after") (in_query i "ownedOnly")));
   ("GET /api/v1/nodes/{id}", auth_id (fun id _ => GetNode id));
   ("PATCH /api/v1/nodes/{id}", auth_id (fun id i => PatchNode id (json i)));
   ("DELETE /api/v1/nodes/{id}", auth_id (fun id i => DeleteNode id (json i)));
   ("POST /api/v1/nodes/{id}/restore", auth_id (fun id i => PostRestore id (json i)));
   ("GET /api/v1/trash", auth (fun _ => GetTrash));
   ("DELETE /api/v1/trash/{id}", auth_id (fun id _ => DeleteTrash id));
   ("GET /api/v1/favorites", auth (fun _ => GetFavorites));
   ("PUT /api/v1/favorites/{id}", auth_id (fun id _ => PutFavorite id));
   ("DELETE /api/v1/favorites/{id}", auth_id (fun id _ => DeleteFavorite id));

   ("GET /api/v1/sync/changes", auth (fun i => GetSyncChanges (in_query i "after") (in_query i "pageSize")));

   ("POST /api/v1/uploads", auth (fun i => PostUploads (json i)));
   ("GET /api/v1/uploads/{id}", auth_id (fun id _ => GetUpload id));
   ("PUT /api/v1/uploads/{id}/chunks/{chunkNo}",
      fun values i => Protected (PutChunk (PathValue 0 values) (PathValue 1 values) (chunk i)));
   ("POST /api/v1/uploads/{id}/complete", auth_id (fun id i => PostComplete id (json i)));
   ("DELETE /api/v1/uploads/{id}", auth_id (fun id _ => DeleteUpload id));

   ("GET /api/v1/files/{id}/content", auth_id (fun id i => GetContent id (in_query i "versionId") (conditions i)));
   ("GET /api/v1/files/{id}/versions", auth_id (fun id _ => GetVersions id))].

(** ** Reference: how a client addresses a route *)

Definition method_path (r : Route) : string * list string :=
  match r with
  | Open (PostLogin _) => ("POST", ["auth"; "login"])
  | Open (PostRefresh _) => ("POST", ["auth"; "refresh"])
  | Open (PostLogout _) => ("POST", ["auth"; "logout"])
  | Protected p =>
    match p with
    | GetUsersMe => ("GET", ["users"; "me"])
    | GetRecovery => ("GET", ["users"; "me"; "recovery"])
    | PutRecovery _ => ("PUT", ["users"; "me"; "recovery"])
    | GetShareDevices id => ("GET", ["users"; id; "share-devices"])
    | PostShares _ => ("POST", ["shares"])
    | GetSharesIncoming => ("GET", ["shares"; "incoming"])
    | GetSharesOutgoing => ("GET", ["shares"; "outgoing"])
    | DeleteShare id => ("DELETE", ["shares"; id])
    | PostShareEnvelopes id _ => ("POST", ["shares"; id; "envelopes"])
    | GetFolderKeys => ("GET", ["folder-keys"])
    | PostFolderKeys id _ => ("POST", ["nodes"; id; "folder-keys"])
    | PostRekey _ => ("POST", ["nodes"; "rekey"])
    | GetDevices => ("GET", ["devices"])
    | DeleteDevice id => ("DELETE", ["devices"; id])
    | PostKeyEnvelope id _ => ("POST", ["devices"; id; "key-envelope"])
    | GetKeyEnvelope id => ("GET", ["devices"; id; "key-envelope"])
    | PostNodes _ => ("POST", ["nodes"])
    | GetChildren _ _ _ _ => ("GET", ["nodes"; "children"])
    | GetNode id => ("GET", ["nodes"; id])
    | PatchNode id _ => ("PATCH", ["nodes"; id])
    | DeleteNode id _ => ("DELETE", ["nodes"; id])
    | PostRestore id _ => ("POST", ["nodes"; id; "restore"])
    | GetTrash => ("GET", ["trash"])
    | DeleteTrash id => ("DELETE", ["trash"; id])
    | GetFavorites => ("GET", ["favorites"])
    | PutFavorite id => ("PUT", ["favorites"; id])
    | DeleteFavorite id => ("DELETE", ["favorites"; id])
    | GetSyncChanges _ _ => ("GET", ["sync"; "changes"])
    | PostUploads _ => ("POST", ["uploads"])
    | GetUpload id => ("GET", ["uploads"; id])
    | PutChunk id n _ => ("PUT", ["uploads"; id; "chunks"; n])
    | PostComplete id _ => ("POST", ["uploads"; id; "complete"])
    | DeleteUpload id => ("DELETE", ["uploads"; id])
    | GetContent id _ _ => ("GET", ["files"; id; "content"])
    | GetVersions id => ("GET", ["files"; id; "versions"])
    end
  end.
Definition route_method (r : Route) : string := (method_path r).1.
Definition route_segments (r : Route) : list string := "api" :: "v1" :: (method_path r).2.
Definition route_path (r : Route) : string := ("/" ++ slashed (route_segments r))%string.

(** The query, the headers and the body of the request are the route's. *)
Definition carries (i : Input) (r : Route) : Prop :=
  match r with
  | Open (PostLogin b) => json i = b
  | Open (PostRefresh b) => json i = b
  | Open (PostLogout b) => json i = b
  | Protected p =>
    match p with
    | PutRecovery b => json i = b
    | PostShares b => json i = b
    | PostShareEnvelopes _ b => json i = b
    | PostFolderKeys _ b => json i = b
    | PostRekey b => json i = b
    | PostKeyEnvelope _ b => json i = b
    | PostNodes b => json i = b
    | GetChildren parentId limit after ownedOnly =>
        in_query i "parentId" = parentId /\ in_query i "limit" = limit /\ in_query i "after" = after /\ in_query i "ownedOnly" = ownedOnly
    | PatchNode _ b => json i = b
    | DeleteNode _ b => json i = b
    | PostRestore _ b => json i = b
    | GetSyncChanges after pageSize => in_query i "after" = after /\ in_query i "pageSize" = pageSize
    | PostUploads b => json i = b
    | PutChunk _ _ b => chunk i = b
    | PostComplete _ b => json i = b
    | GetContent _ versionId c => in_query i "versionId" = versionId /\ conditions i = c
    | _ => True
    end
  end.

(** Hexadecimal digits and hyphens: identifiers and chunk numbers. *)
Definition id_value (s : string) : Prop := s <> "" /\ uuid_chars s = true.
Definition path_values (r : Route) : list string :=
  match r with
  | Open _ => []
  | Protected p =>
    match p with
    | GetShareDevices id | DeleteShare id | PostShareEnvelopes id _ | PostFolderKeys id _ | DeleteDevice id
    | PostKeyEnvelope id _ | GetKeyEnvelope id | GetNode id | PatchNode id _ | DeleteNode id _ | PostRestore id _
    | DeleteTrash id | PutFavorite id | DeleteFavorite id | GetUpload id | PostComplete id _ | DeleteUpload id
    | GetContent id _ _ | GetVersions id => [id]
    | PutChunk id n _ => [id; n]
    | _ => []
    end
  end.
End routes.
