(* ===== verification/HttpMuxCorrect.v ===== *)
(** * Package internal/httpapi: every route is reached, and only by its line

    The client's request line for a route is dispatched to the handler that
    reads back that route; handlers without [authenticated] answer the three
    session paths only. *)

From S2P Require Import Prelude GoText FileSystem GoPath GoMux Uuid Uploads HttpApi HttpBodies HttpRoutes HttpMux.
From Stdlib Require Import Ascii String.
Local Open Scope string_scope.
Local Open Scope list_scope.

#[local] Instance seg_eq_dec : EqDecision seg.
Proof. solve_decision. Defined.

(** ** Identifiers are wildcards *)

Section patterns.
Context {A : Type}.
Implicit Types pats : list (list seg * A).

Definition no_id (p : list seg * A) : bool := match p.1 with Lit t :: _ => negb (uuid_chars t) | _ => true end.

Lemma after_lit_id s pats : uuid_chars s = true -> forallb no_id pats = true -> after_lit s pats = [].
Proof.
  intros Hs. induction pats as [|[l a] pats IH]; [done|]. cbn [forallb]. intros [Hp H]%andb_prop. cbn [after_lit omap list_omap].
  fold (after_lit s pats). rewrite (IH H). destruct l as [|[t| |] l]; [done| |done..]. cbn [fst].
  destruct (String.eqb_spec t s) as [->|]; [|done]. cbn [no_id fst] in Hp. by rewrite Hs in Hp.
Qed.

Lemma match_id s pats path a vs e : id_value s -> forallb no_id pats = true ->
  match_path (after_wild pats) path = Some (a, vs, e) -> match_path pats (s :: path) = Some (a, s :: vs, e).
Proof. intros [Hne Hs] Hp. apply match_wild; [done| |by apply after_lit_id]. by intros ->. Qed.
End patterns.

Lemma id_segment s : id_value s -> segment s /\ no_char "%" s = true.
Proof.
  intros [Hne Hs]. split; [split|]; [|by apply uuid_chars_no_char..].
  assert (no_char "." s = true) as Hd by by apply uuid_chars_no_char.
  unfold proper_name. apply String.eqb_neq in Hne. rewrite Hne. 
  destruct (String.eqb_spec s ".") as [->|]; [done|]. by destruct (String.eqb_spec s "..") as [->|].
Qed.

Section routes.
Context {J : JsonBodies}.

Ltac each_value H := repeat (apply Forall_cons in H as [? H]).

Lemma route_segments_plain r : Forall id_value (path_values r) -> Forall (fun e => segment e /\ no_char "%" e = true) (route_segments r).
Proof.
  intros H. unfold route_segments. destruct r as [[]|[]]; cbn [path_values method_path snd] in H |- *; each_value H;
    repeat (apply Forall_cons; split; [first [apply id_segment; assumption|split; [split|]; vm_compute; reflexivity]|]); apply Forall_nil; exact I.
Qed.

(** Follow the pattern: literals by evaluation, an identifier by [match_id]. *)
Ltac follow := repeat match goal with
  | H : id_value ?s |- match_path _ (?s :: _) = _ => simple eapply (match_id s); [exact H|cbv -[json chunk]; reflexivity|]
  | |- match_path _ (_ :: _) = _ => simple eapply match_lit
  end.

Lemma route_matched r : Forall id_value (path_values r) ->
  exists read, match_method New (route_method r) (route_segments r) = Some (read, path_values r, true) /\
    forall i, carries i r -> read (path_values r) i = r.
Proof.
  intros H. unfold route_segments, route_method. destruct r as [[b|b|b]|p]; [..|destruct p];
    cbn [path_values method_path fst snd] in H |- *;
    each_value H.
  all: eexists; split; [apply match_method_same; follow; simple eapply match_end; cbv -[json chunk]; reflexivity|].
  all: intros i Hc; cbn [carries] in Hc; destruct_and?; subst; reflexivity.
Qed.

(** C17.  Addressing: for every route, whatever identifiers are in its path, the
    method and path of its request line pick one handler, which reads from the
    path values, the query and the body exactly that route. *)
Theorem route_roundtrip r : Forall id_value (path_values r) ->
  exists read values, mux_dispatch New (route_method r) (route_path r) = Serve read values /\
    forall i, carries i r -> read values i = r.
Proof.
  intros H. destruct (route_matched r H) as (read & Hm & Hr). exists read, (path_values r). split; [|exact Hr].
  by apply mux_dispatch_clean; [|apply route_segments_plain|].
Qed.

(** ** The open routes *)

Definition open_paths : list (list string) := [["auth"; "login"]; ["auth"; "refresh"]; ["auth"; "logout"]].
Definition is_open_line (m : string) (l : list seg) : bool :=
  String.eqb m "POST" && existsb (fun p => bool_decide (l = map Lit ("api" :: "v1" :: p))) open_paths.

(** Every pattern of another line is behind [authenticated]. *)
Definition reads_protected (read : RouteReader) : Prop := forall values i, exists p, read values i = Protected p.

Definition guarded (e : string * RouteReader) : Prop :=
  reads_protected e.2 \/ is_open_line (parse_pattern e.1).1 (parse_pattern e.1).2 = true.

Lemma New_guarded : Forall guarded New.
Proof.
  repeat (apply Forall_cons; split; [first [left; intros ??; eexists; reflexivity|right; vm_compute; reflexivity]|]).
  by apply Forall_nil.
Qed.

Lemma fits_lits l path vs : fits (map Lit l) path vs -> path = l.
Proof. revert path vs. induction l as [|s l IH]; simpl; inversion 1; subst; [done|]. f_equal. by eapply IH. Qed.

Lemma dispatch_open m p read values i o : mux_dispatch New m p = Serve read values -> read values i = Open o ->
  m = "POST" /\ exists q, q ∈ open_paths /\ segments p = "api" :: "v1" :: q.
Proof.
  intros (pat & m' & l & Hin & Hp & Hm & Hf)%mux_dispatch_sound Ho.
  pose proof New_guarded as Hg. rewrite Forall_forall in Hg. destruct (Hg _ Hin) as [Hpr|Hl].
  { destruct (Hpr values i) as [r Hr]. cbn [snd] in Hr. by rewrite Ho in Hr. }
  cbn [fst] in Hl. rewrite Hp in Hl. cbn [fst snd] in Hl. unfold is_open_line in Hl. apply andb_prop in Hl as [->%String.eqb_eq (q & Hq & ->%bool_decide_eq_true)%existsb_exists].
  split; [by destruct Hm as [<-|[[? _]|?]]|]. exists q. split; [by apply list_elem_of_In|]. by apply fits_lits in Hf.
Qed.
End routes.

(** ** A concrete deletion *)

Definition refuse {A : Type} : JsonDecoder A := fun _ => None.
(** A body that is its operation's identifier. *)
Definition bare_id : JsonDecoder deleteOrRestoreRequest := fun b =>
  if failed b then None else Some (MkDeleteOrRestoreRequest (string_of_list_byte (sent b)) 3).
Definition bare_bodies : JsonBodies :=
  MkJsonBodies refuse refuse refuse refuse refuse refuse refuse refuse refuse refuse bare_id refuse refuse.
Definition deletion : Route := Protected (DeleteNode "5e-07" (Some (MkDeleteOrRestoreRequest "op" 3))).

Lemma route_roundtrip_witness :
  exists read values,
    mux_dispatch (New (J := bare_bodies)) "DELETE" "/api/v1/nodes/5e-07" = Serve read values /\
    forall i, json (A := deleteOrRestoreRequest) (D := bare_id) i = Some (MkDeleteOrRestoreRequest "op" 3) -> read values i = deletion.
Proof. apply (route_roundtrip (J := bare_bodies) deletion). apply Forall_cons. split; [split; [discriminate|reflexivity]|by apply Forall_nil]. Defined.
