(* ===== verification/HttpServer.v ===== *)
(** * Package internal/httpserver

    Models [internal/httpserver/server.go]: the operational endpoints beside
    the API, the API behind [/api/], and the headers every answer carries; and
    [ServeHTTP] of the API's own multiplexer.  Headers are those this code,
    [http.Error] and [http.ServeContent] set or remove; a [HEAD] answer is that of [GET] without its body. *)

From stdpp Require Import countable.
From S2P Require Import Prelude GoText GoTime GoPath GoMux Uuid Schema Fixture Auth Session DeviceAuth HttpApi HttpBodies GoServeContent HttpAuth HttpVault HttpRoutes HttpCorrect HttpMux HttpMuxCorrect.
From Stdlib Require Import Ascii String.
Local Open Scope string_scope.
Local Open Scope list_scope.

(** ** Requests and answers *)

Record HttpRequest := MkHttpRequest {
  rq_Method : string;
  rq_EscapedPath : string;
  rq_Header_Authorization : string;
  rq_Remote : string;
  rq_Input : Input;
}.

Inductive Answer : Type :=
| Health (time : string)
| Metrics
| SecureTransportRequired
| Answered (r : Response Reply)
| Redirected (to : string)
| MuxError (code : Z).      (* 404 or 405, [http.Error] *)

Section handlers.
Context {U : UuidLib} {TP : TimeParser} {A2 : Argon2} {E : Ed25519} {J : JsonBodies}.
Context (api : API) (env : RequestEnv).

Abbreviation HttpHandler := (HttpRequest -> Server -> Answer * Server).

(** [mux.ServeHTTP]. *)
Definition mux_ServeHTTP {A} (table : list (string * A)) (serve : A -> list string -> HttpHandler) : HttpHandler := fun rq s =>
  match mux_dispatch table (rq_Method rq) (rq_EscapedPath rq) with
  | Serve h values => serve h values rq s
  | Redirect to => (Redirected to, s)
  | MethodNotAllowed => (MuxError 405, s)
  | NotFound => (MuxError 404, s)
  end.

(** The request as its route's handler reads it. *)
Definition as_route (rq : HttpRequest) (r : Route) : Request := MkRequest (rq_Header_Authorization rq) (rq_Remote rq) r.

Definition api_handler : HttpHandler :=
  mux_ServeHTTP HttpMux.New (fun read values rq s =>
    let '(r, s') := ServeHTTP api env (as_route rq (read values (rq_Input rq))) s in (Answered r, s')).

(** [clk] is the clock of this answer. *)
Definition health (clk : Z) : HttpHandler := fun _ s => (Health (Format clk), s).
Definition metrics : HttpHandler := fun _ s => (Metrics, s).
Definition secureTransportRequired : HttpHandler := fun _ s => (SecureTransportRequired, s).

Definition server_routes (clk : Z) (business : option HttpHandler) : list (string * HttpHandler) :=
  [("GET /health/live", health clk);
   ("GET /health/ready", health clk);
   ("GET /metrics", metrics);
   ("/api/", default secureTransportRequired business)].

(** ** Headers *)

Definition json_type : string := "application/json; charset=utf-8".

(** What the handlers do to the headers of the answer. *)
Definition api_headers (r : Response Reply) (h : Header) : Header :=
  let h := match response_body r with
           | NoBody => h
           | ErrorBody _ _ _ => <["Content-Type" := json_type]> h
           | Content (ReplyFile version served) =>
               served_headers served (<["Etag" := file_etag version]> (<["Content-Type" := "application/octet-stream"]> h))
           | Content _ => <["Content-Type" := json_type]> h
           end in
  match x_next_after r with Some next => <["X-Next-After" := next]> h | None => h end.

Definition answer_headers (a : Answer) (h : Header) : Header :=
  match a with
  | Health _ => <["Content-Type" := json_type]> h
  | Metrics => <["Content-Type" := "text/plain; version=0.0.4; charset=utf-8"]> h
  | SecureTransportRequired => <["Upgrade" := "homebox-secure/1"]> (<["Content-Type" := json_type]> h)
  | Answered r => api_headers r h
  | Redirected to => <["Location" := to]> h
  | MuxError _ => <["X-Content-Type-Options" := "nosniff"]> (<["Content-Type" := "text/plain; charset=utf-8"]> h)
  end.

Definition answer_status (a : Answer) : option Z :=
  match a with
  | Health _ | Metrics => Some 200%Z
  | SecureTransportRequired => Some 426%Z
  | Answered r => Some (status r)
  | Redirected _ => None
  | MuxError code => Some code
  end.

(** The headers are set first; a handler may replace or remove them. *)
Definition securityHeaders (next : HttpHandler) (rq : HttpRequest) (s : Server) : Answer * Header * Server :=
  let h := {["X-Content-Type-Options" := "nosniff"; "Cache-Control" := "no-store"]} in
  let '(a, s') := next rq s in (a, answer_headers a h, s').

Definition New (clk : Z) (business : option HttpHandler) : HttpRequest -> Server -> Answer * Header * Server :=
  securityHeaders (mux_ServeHTTP (server_routes clk business) (fun h _ => h)).

(** The server of [cmd/homebox]. *)
Definition homebox (clk : Z) : HttpRequest -> Server -> Answer * Header * Server := New clk (Some api_handler).

(** ** Correctness *)

(** The refusal of a range: an error text, with the headers of an error. *)
Definition range_refused (a : Answer) (h : Header) : Prop :=
  exists v e size, a = Answered (MkResponse 416 None (Content (ReplyFile v (Unsatisfiable e size)))) /\
    h !! "Cache-Control" = None /\ h !! "Etag" = None /\ h !! "Content-Type" = Some "text/plain; charset=utf-8".

(** Of the answers of a route only that of a download refuses a range. *)
Definition answers_range (range : string) (r : Response Reply) : Prop :=
  match response_body r with
  | Content (ReplyFile _ (Unsatisfiable _ _)) => range <> "" /\ status r = 416%Z /\ x_next_after r = None
  | _ => True
  end.
Definition ranged {A} (range : string) (m : H Reply A) : Prop :=
  forall s, match (m s).1 with inl r => answers_range range r | inr _ => True end.

Lemma ranged_bind {A B} range (m : H Reply A) (f : A -> H Reply B) : ranged range m -> (forall a, ranged range (f a)) -> ranged range (m ≫= f).
Proof.
  intros Hm Hf s. unfold mbind, H_bind. specialize (Hm s). destruct (m s) as [[r|a] s1]; [done|apply Hf].
Qed.
Lemma ranged_call_or {A} range (m : M HttpApi.Server A) fail : (forall e, ranged range (fail e)) -> ranged range (call_or fail m : H Reply A).
Proof. intros Hf s. unfold call_or. destruct (m s) as [[a|e] s1]; [done|apply Hf]. Qed.
Lemma ranged_internal {A} range op msg e : ranged range (writeInternalError env op msg e : H Reply A).
Proof. by intros s. Qed.
Lemma ranged_service_error {A} range e : ranged range (writeServiceError env e : H Reply A).
Proof. intros s. unfold writeServiceError. by destruct (sentinel e) as [[[code name] msg]|]. Qed.
Lemma ranged_call {A} range (m : M HttpApi.Server A) : ranged range (call env m : H Reply A).
Proof. apply ranged_call_or. intros e. apply ranged_service_error. Qed.
Lemma ranged_decode_list {A B} range (f : A -> H Reply B) l : (forall x, ranged range (f x)) -> ranged range (decode_list f l).
Proof.
  intros Hf. induction l as [|x l IH]; simpl; [by intros s|].
  apply ranged_bind; [apply Hf|intros y]. apply ranged_bind; [apply IH|by intros ys s].
Qed.
Lemma ranged_download v etag c content : ranged (A := Empty_set) (Range c)
  (respond (MkResponse (served_status (ServeContent etag (boundary env) c content)) None (Content (ReplyFile v (ServeContent etag (boundary env) c content))))).
Proof.
  intros s. cbn. set (sv := ServeContent _ _ _ _). unfold answers_range. cbn [response_body status x_next_after]. destruct sv eqn:Hsv; try done. by apply unsatisfiable_range in Hsv.
Qed.
End handlers.

Ltac solve_ranged :=
  repeat lazymatch goal with
  | |- ranged _ (mbind _ _) => apply ranged_bind; [|intros ?]
  | |- ranged _ (call _ _) => apply ranged_call
  | |- ranged _ (call_or _ _) => apply ranged_call_or; intros ?
  | |- ranged _ (writeInternalError _ _ _ _) => apply ranged_internal
  | |- ranged _ (writeServiceError _ _) => apply ranged_service_error
  | |- ranged _ (mret _) => by intros ?
  | |- ranged _ (let _ := _ in _) => cbv zeta
  | |- ranged _ (respond _) => first [apply ranged_download | by intros ?]
  | |- ranged _ (match _ with _ => _ end) => case_match
  | |- ranged _ (decode_list _ _) => apply ranged_decode_list; intros ?
  | |- ranged _ _ => progress unfold decodeJSON, field, pathUUID, pathDeviceID, pathInt, queryInt, queryInt64, badRequest, writeError, errorResponse,
      writeJSON, writeStatus, writeShares, decodeRekeyItem, decodeRekeyVersion, decodeShareEnvelope
  end.

Section correctness.
Context {U : UuidLib} {TP : TimeParser} {A2 : Argon2} {E : Ed25519} {J : JsonBodies}.
Context (api : API) (env : RequestEnv).

(** The [Range] header a route's handler looks at. *)
Definition route_range (r : Route) : string := match r with Protected (GetContent _ _ c) => Range c | _ => "" end.

Lemma route_ranged rq : ranged (route_range (rq_route rq)) (route_handler api env rq).
Proof.
  unfold route_handler. destruct (rq_route rq) as [[]|p]; cbn [open_handler]; [unfold login, refresh, logout; solve_ranged..|].
  unfold authenticated. case_match; [by intros ?|]. apply ranged_bind; [apply ranged_call|intros [u dev]].
  destruct p; cbn [protected_handler route_range].
  all: unfold getMe, getRecoveryBundle, putRecoveryBundle, listShareDevices, createShare, listIncomingShares,
    listOutgoingShares, revokeShare, addShareEnvelopes, listFolderKeys, createFolderKey, rekeyNodes, listDevices,
    revokeDevice, uploadKeyEnvelope, downloadKeyEnvelope, createNode, listChildren, getNode, updateNode, deleteNode,
    restoreNode, listTrash, purgeTrashEntry, listFavorites, addFavorite, removeFavorite, syncChanges, createUpload,
    getUpload, putUploadChunk, completeUpload, abortUpload, downloadFileContent, listFileVersions, decodeShareEnvelopes.
  all: solve_ranged.
Qed.

(** The answers anybody gets: of the operational endpoints, of the
    multiplexers, and the refusal of a protected route. *)
Definition public_answer (a : Answer) : Prop :=
  match a with
  | Health _ | Metrics | Redirected _ => True
  | SecureTransportRequired => False
  | MuxError code => (code = 404 \/ code = 405)%Z
  | Answered r => exists code name message, (code = 401 \/ code = 403)%Z /\ r = MkResponse code None (ErrorBody name message (requestID env))
  end.

(** The account and device the request's token names. *)
Definition sender (rq : HttpRequest) (d : DB) : option (string * string) := request_actor env (as_route rq (Protected GetUsersMe)) d.
Definition session_request (rq : HttpRequest) : Prop :=
  rq_Method rq = "POST" /\ exists p, p ∈ open_paths /\ segments (rq_EscapedPath rq) = "api" :: "v1" :: p.

Lemma api_handler_public rq s : sender rq (db (world s)) = None -> ~ session_request rq ->
  exists a, api_handler api env rq s = (a, s) /\ public_answer a.
Proof.
  intros Ha Hs. unfold api_handler, mux_ServeHTTP. destruct (mux_dispatch _ _ _) as [read values|to| |] eqn:Ed.
  - destruct (read values (rq_Input rq)) as [o|p] eqn:Er.
    { exfalso. apply Hs. by eapply dispatch_open. }
    unfold ServeHTTP, route_handler. cbn [rq_route as_route].
    destruct (unauthenticated env (as_route rq (Protected p)) (protected_handler api env p) s Ha) as (r & -> & code & name & message & Hc & ->).
    eexists. split; [reflexivity|]. by exists code, name, message.
  - by eexists.
  - eexists. split; [reflexivity|by right].
  - eexists. split; [reflexivity|by left].
Qed.

Lemma server_dispatch clk b m p h values : mux_dispatch (server_routes clk b) m p = Serve h values ->
  h = health clk \/ h = metrics \/ h = default secureTransportRequired b.
Proof.
  intros (pat & ? & ? & Hin & _)%mux_dispatch_sound. unfold server_routes in Hin. rewrite !elem_of_cons in Hin.
  destruct Hin as [[= _ ->]|[[= _ ->]|[[= _ ->]|[[= _ ->]|Hin]]]]; auto. by apply elem_of_nil in Hin.
Qed.

(** The range a route is asked for is the request's. *)
Definition reads_range (read : RouteReader) : Prop := forall values i, route_range (read values i) <> "" -> in_header i "Range" <> "".
Lemma New_reads_range : Forall (fun e => reads_range e.2) HttpMux.New.
Proof. repeat constructor; intros values i H; first [exact H | by destruct H]. Qed.

Lemma api_handler_range rq s v e size r s' : api_handler api env rq s = (Answered r, s') -> response_body r = Content (ReplyFile v (Unsatisfiable e size)) ->
  in_header (rq_Input rq) "Range" <> "" /\ r = MkResponse 416 None (Content (ReplyFile v (Unsatisfiable e size))).
Proof.
  unfold api_handler, mux_ServeHTTP. destruct (mux_dispatch _ _ _) as [read values|to| |] eqn:Ed; [|done..].
  apply mux_dispatch_sound in Ed as (pat & ? & ? & Hin & _). pose proof New_reads_range as Hr. rewrite Forall_forall in Hr.
  specialize (Hr _ Hin values (rq_Input rq)). cbn [snd] in Hr. unfold ServeHTTP.
  pose proof (route_ranged (as_route rq (read values (rq_Input rq))) s) as Hm. cbn [rq_route as_route] in Hm.
  destruct (route_handler _ _ _ s) as [[r0|[]] s0]. cbn [fst] in Hm. intros [= -> ->] Hb.
  unfold answers_range in Hm. rewrite Hb in Hm. destruct Hm as (H1 & H2 & H3). split; [by apply Hr|].
  destruct r as [c next b]. simpl in *. by subst.
Qed.

(** Everything but the refusal of a range keeps the two headers. *)
Lemma answer_headers_guard a h : h !! "X-Content-Type-Options" = Some "nosniff" -> h !! "Cache-Control" = Some "no-store" ->
  answer_headers a h !! "X-Content-Type-Options" = Some "nosniff" /\
  (answer_headers a h !! "Cache-Control" = Some "no-store" \/
   exists r v e size, a = Answered r /\ response_body r = Content (ReplyFile v (Unsatisfiable e size))).
Proof.
  intros Hn Hc. destruct a as [t| | |[c next b]|to|c]; cbn [answer_headers].
  4: { unfold api_headers. cbn [response_body x_next_after].
    set (g := match b with NoBody => h | _ => _ end).
    assert (Hg : g !! "X-Content-Type-Options" = Some "nosniff" /\ (g !! "Cache-Control" = Some "no-store" \/
      exists v e size, b = Content (ReplyFile v (Unsatisfiable e size)))).
    { unfold g. destruct b as [| |[]]; try (split; [|left]; by simplify_map_eq). destruct served; cbn [served_headers].
      all: try (split; [|left]; by simplify_map_eq). split; [by simplify_map_eq|right; eauto]. }
    destruct Hg as [H1 H2]. destruct next as [n|]; [rewrite !lookup_insert_ne by done|]; (split; [done|]);
      (destruct H2 as [H2|(v & e & size & ->)]; [by left|right; by eexists _, v, e, size]). }
  all: split; [|left]; by simplify_map_eq.
Qed.

(** C3.  Every answer of the server forbids content sniffing, and caching too,
    save one: the refusal (416) of a request's range, which carries an error
    text only and none of the headers of the content.  And a request that is
    not a login, refresh or logout and whose token names no active account and
    device changes nothing, not even the log, and gets the answer of an
    operational endpoint, a redirection, 404 or 405 for its line, or 401 or
    403 with an error. *)
Theorem server_guarded clk rq s a h s' : homebox api env clk rq s = (a, h, s') ->
  h !! "X-Content-Type-Options" = Some "nosniff" /\
  (h !! "Cache-Control" = Some "no-store" \/ in_header (rq_Input rq) "Range" <> "" /\ range_refused a h) /\
  (sender rq (db (world s)) = None -> ~ session_request rq ->
     s' = s /\ public_answer a /\ h !! "Cache-Control" = Some "no-store").
Proof.
  unfold homebox, New, securityHeaders. destruct (mux_ServeHTTP _ _ rq s) as [a' s1] eqn:Em. intros [= -> <- ->].
  destruct (answer_headers_guard a {["X-Content-Type-Options" := "nosniff"; "Cache-Control" := "no-store"]}) as [Hn Hc]; [by simplify_map_eq..|].
  unfold mux_ServeHTTP in Em. split; [exact Hn|].
  assert (Hguard : sender rq (db (world s)) = None -> ~ session_request rq -> s' = s /\ public_answer a).
  { intros Ha Hs. destruct (mux_dispatch _ _ _) as [hd values|to| |] eqn:Ed.
    + apply server_dispatch in Ed as [->|[->| ->]]; [by injection Em as <- <-..|].
      simpl in Em. destruct (api_handler_public rq s Ha Hs) as (a0 & Hr & Hp). rewrite Hr in Em. by injection Em as <- <-.
    + by injection Em as <- <-.
    + injection Em as <- <-. split; [done|by right].
    + injection Em as <- <-. split; [done|by left]. }
  split; [|intros Ha Hs; destruct (Hguard Ha Hs) as [-> Hp]; split_and!; [done..|];
    destruct Hc as [Hc|(r & v & e & size & -> & Hb)]; [exact Hc|destruct Hp as (c & nm & m & _ & ->); discriminate Hb]].
  destruct Hc as [Hc|(r & v & e & size & -> & Hb)]; [by left|right].
  assert (Hapi : api_handler api env rq s = (Answered r, s')).
  { destruct (mux_dispatch _ _ _) as [hd values|to| |] eqn:Ed; [|done..]. by apply server_dispatch in Ed as [->|[->| ->]]. }
  destruct (api_handler_range rq s v e size r s' Hapi Hb) as [Hr ->]. split; [exact Hr|]. exists v, e, size. split; [done|].
  cbn [answer_headers]. unfold api_headers. cbn [response_body x_next_after served_headers]. by simplify_map_eq.
Qed.
End correctness.
