(* ===== verification/ServerIdentity.v ===== *)
(** * internal/serveridentity: the key of the server's transport identity

    [LoadOrCreate] reads the key file or makes one.  The key pair itself and its
    encodings are [crypto/ecdsa] and [crypto/x509]: an interface. *)

From S2P Require Import Prelude GoText Sha256 Auth FileSystem.
From Stdlib Require Import Ascii String.
Local Open Scope string_scope.

(** [x509.ParseECPrivateKey], [x509.MarshalECPrivateKey], the public half of a
    key and the uncompressed point of a public key ([ECDH().Bytes()]), [None]
    where [ECDH] fails: for a point that is not on its curve or a curve
    [crypto/ecdh] does not have.  It has P-256, P-384 and P-521, so keys of all
    three have a point, whatever the error texts below say. *)
Class ECKeys : Type := {
  PrivateKey : Type;
  PublicKey : Type;
  public : PrivateKey -> PublicKey;
  ParseECPrivateKey : list byte -> option PrivateKey;
  MarshalECPrivateKey : PrivateKey -> option (list byte);
  public_point : PublicKey -> option (list byte);
}.

Class ECKeysLaws (K : ECKeys) : Prop := {
  parse_marshal : forall k der, MarshalECPrivateKey k = Some der -> ParseECPrivateKey der = Some k;
}.

Section identity.
Context {K : ECKeys}.

Record Identity := MkIdentity { privateKey : PrivateKey; fingerprint : string }.

Definition KeyPath (storagePath : path) : path := Join storagePath "keys/server_identity.key".

Definition FingerprintFromPublicKey (pub : PublicKey) : result string :=
  match public_point pub with
  | Some point => Ok (hex_EncodeToString (Sum256 point))
  | None => Err (Internal "not a valid P-256 point")
  end.

Definition newIdentity (k : PrivateKey) : result Identity :=
  fp ← FingerprintFromPublicKey (public k); Ok (MkIdentity k fp).

Definition writeKeyFile (rand : nat -> string) (p : path) (data : list byte) : M FS unit :=
  tempPath ← CreateTemp (parent p) ".server_identity-" ".tmp" rand data;
  finally_remove tempPath (
    found ← query (fun fs => match Lstat fs p with Ok (Some _) => Ok true | _ => Ok false end);
    throw_if found (Internal "a server identity key appeared concurrently; refusing to overwrite it") ;;
    RenameFile tempPath p).

(** [key] is the pair [ecdsa.GenerateKey] makes. *)
Definition LoadOrCreate (rand : nat -> string) (key : PrivateKey) (storagePath : path) : M FS Identity :=
  let keyPath := KeyPath storagePath in
  MkdirAll (parent keyPath) ;;
  encoded ← query (fun fs =>
    match (ReadFile keyPath fs).1 with
    | Ok data => Ok (Some data)
    | Err e => if bool_decide (e = ErrNotExist) then Ok None else Err e
    end);
  match encoded with
  | Some data =>
      match std_decode (string_of_list_byte data) ≫= ParseECPrivateKey with
      | Some k => lift (newIdentity k)
      | None => throw (Internal "server identity key is invalid")
      end
  | None =>
      match MarshalECPrivateKey key with
      | None => throw (Internal "encode server identity")
      | Some der => writeKeyFile rand keyPath (list_byte_of_string (std_encode der)) ;; lift (newIdentity key)
      end
  end.
End identity.
