(* ===== verification/Backup.v ===== *)
(** * internal/backup: backups and restores

    [Create] and [Restore], which work in a staging directory beside their
    target and rename it into place, with the manifest that names and hashes
    every file and the checks on both sides.

    The database is behind the driver ([SqliteFile]); the manifest's JSON text
    is an interface. *)

From S2P Require Import Prelude GoText GoTime Uuid Sha256 Schema FileSystem GoPath SqliteFile ServerIdentity.
From Stdlib Require Import Ascii String.
Local Open Scope string_scope.

Definition manifestName : string := "manifest.json".
Definition manifestVersion : Z := 1.

Record FileInfo := MkFileInfo {
  Path : string;
  Size : Z;
  SHA256 : string;
}.

Record Manifest := MkManifest {
  manifest_Version : Z;
  manifest_CreatedAt : Z;
  manifest_Files : list FileInfo;
}.

(** The text [json.MarshalIndent] makes of a manifest, and [json.Unmarshal]. *)
Class ManifestJSON : Type := {
  Marshal : Manifest -> list byte;
  Unmarshal : list byte -> option Manifest;
}.

(** The zero [time.Time], 1 January of the year 1. *)
Definition zero_time : Z := -62135596800 * Second.

(** ** Paths *)

Definition pathWithin (p parent : path) : bool :=
  match Rel parent p with
  | [] => false
  | [n] => negb (String.eqb n "..")
  | n :: _ => negb (String.eqb n "..")
  end.

Section backup.
Context {U : UuidLib} {K : ECKeys} {J : ManifestJSON} {SQ : Sqlite}.
(** The working directory, the clock, fresh names and a fresh key pair. *)
Context (cwd : path) (now : Z) (rand : nat -> string) (newkey : PrivateKey).

Definition distinctPaths (storagePath otherPath : string) (otherIsSource : bool) : result (path * path) :=
  let storage := Abs cwd storagePath in
  let other := Abs cwd otherPath in
  if bool_decide (storage = other) || pathWithin other storage || (otherIsSource && pathWithin storage other)
  then Err (Internal "backup and storage paths must not contain one another")
  else Ok (storage, other).

Definition safeBlobPath (p : string) : bool :=
  if negb (no_char "\" p) || negb (HasPrefix p "blobs/") || negb (Nat.eqb (Count p "/") 1) || negb (HasSuffix p ".hbxblob")
  then false
  else is_valid (uuid_parse (TrimSuffix (TrimPrefix p "blobs/") ".hbxblob")).

Definition safeManifestPath (p : string) : bool :=
  if String.eqb p "config.yaml" || String.eqb p "database/homebox.db" || String.eqb p "keys/server_identity.key" then true
  else safeBlobPath p.

(** ** Files *)

Definition info_of (manifestPath : string) (data : list byte) : FileInfo :=
  MkFileInfo manifestPath (Z.of_nat (List.length data)) (hex_EncodeToString (Sum256 data)).

(** A regular file's content. *)
Definition regular (p : path) : M FS (list byte) := query (fun fs =>
  match Lstat fs p with
  | Ok (Some (File data)) => Ok data
  | Ok (Some _) => Err (Internal "not a regular file")
  | Ok None => Err ErrNotExist
  | Err e => Err e
  end).

Definition hashRegularFile (p : path) : M FS FileInfo :=
  data ← regular p; mret (info_of "" data).

Definition copyRegularFile (source destination : path) (manifestPath : string) : M FS FileInfo :=
  data ← regular source;
  MkdirAll (parent destination) ;;
  CreateFile destination data ;;
  mret (info_of manifestPath data).

(** ** The manifest *)

Definition writeManifest (p : path) (m : Manifest) : M FS unit := WriteFile p (Marshal m ++ [x0a])%list.

Definition readManifest (p : path) : M FS Manifest :=
  encoded ← ReadFile p;
  match Unmarshal encoded with
  | None => throw (Internal "parse backup manifest")
  | Some m =>
      throw_if (negb (manifest_Version m =? manifestVersion)%Z || (manifest_CreatedAt m =? zero_time)%Z ||
                Nat.ltb (List.length (manifest_Files m)) 3)
               (Internal "backup manifest has an unsupported or incomplete format") ;;
      mret m
  end.

(** ** Checks *)

(** The rows of [blobs] against the files. *)
Definition verify_blob (storagePath : path) (row : blob_row) : M FS unit :=
  throw_if (negb (safeBlobPath (blob_storage_rel_path row))) (Internal "unsafe blob reference") ;;
  info ← hashRegularFile (Join storagePath (blob_storage_rel_path row));
  throw_if (negb (Size info =? blob_ciphertext_size row)%Z || negb (String.eqb (SHA256 info) (blob_ciphertext_sha256 row)))
           (Internal "referenced blob checksum mismatch").

Definition verifyStorage (storagePath : path) : M FS unit :=
  LoadOrCreate rand newkey storagePath ;;
  d ← query_database cwd (path_text (Join storagePath "database/homebox.db"));
  mfor (fun _ row => verify_blob storagePath row) 0 (map snd (map_to_list (blobs d))).

Fixpoint verify_files (root : path) (seen : list string) (l : list FileInfo) : M FS (list string) :=
  match l with
  | [] => mret seen
  | expected :: l' =>
      throw_if (negb (safeManifestPath (Path expected))) (Internal "unsafe manifest path") ;;
      throw_if (bool_decide (Path expected ∈ seen)) (Internal "duplicate manifest path") ;;
      info ← hashRegularFile (Join root (Path expected));
      throw_if (negb (Size info =? Size expected)%Z || negb (String.eqb (SHA256 info) (SHA256 expected)))
               (Internal "backup file checksum mismatch") ;;
      verify_files root (Path expected :: seen) l'
  end.

Definition verify (root : path) (m : Manifest) : M FS unit :=
  seen ← verify_files root [] (manifest_Files m);
  throw_if (negb (forallb (fun required => bool_decide (required ∈ seen))
              ["database/homebox.db"; "keys/server_identity.key"; "config.yaml"]))
           (Internal "backup manifest is missing a required file") ;;
  verifyStorage root.

(** ** Creating a backup *)

Fixpoint copy_blobs (storagePath staging : path) (l : list (string * entry)) : M FS (list FileInfo) :=
  match l with
  | [] => mret []
  | (name, e) :: l' =>
      if bool_decide (e = Dir) || negb (HasSuffix name ".hbxblob") then copy_blobs storagePath staging l'
      else
        let relativePath := "blobs/" ++ name in
        info ← copyRegularFile (Join storagePath relativePath) (Join staging relativePath) relativePath;
        rest ← copy_blobs storagePath staging l';
        mret (info :: rest)
  end.

(** The database, the key and the configuration, and the listing of the blobs. *)
Definition stage_head (d : DB) (storagePath configPath staging : path) : M FS (list FileInfo * list (string * entry)) :=
  MkdirAll (Join staging "database") ;;
  let databasePath := Join staging "database/homebox.db" in
  CreateFile databasePath (vacuum_into d) ;;
  databaseInfo ← hashRegularFile databasePath;
  keyInfo ← copyRegularFile (Join storagePath "keys/server_identity.key") (Join staging "keys/server_identity.key")
              "keys/server_identity.key";
  configInfo ← copyRegularFile configPath (Join staging "config.yaml") "config.yaml";
  blobs ← ReadDir (Join storagePath "blobs");
  mret ([MkFileInfo "database/homebox.db" (Size databaseInfo) (SHA256 databaseInfo); keyInfo; configInfo], default [] blobs).

(** The files of a backup and what the manifest says of them. *)
Definition stage_files (d : DB) (storagePath configPath staging : path) : M FS Manifest :=
  head ← stage_head d storagePath configPath staging;
  blobInfos ← copy_blobs storagePath staging head.2;
  mret (MkManifest manifestVersion now (head.1 ++ blobInfos)%list).

(** From the empty staging directory to the renamed backup. *)
Definition fill_backup (d : DB) (storagePath configPath destination staging : path) : M FS unit :=
  manifest ← stage_files d storagePath configPath staging;
  writeManifest (Join staging manifestName) manifest ;;
  verify staging manifest ;;
  Rename staging destination.

Definition Create (db : option DB) (storagePath configPath destination : string) : M FS unit :=
  match db with
  | None => throw (Internal "database is required")
  | Some d =>
      paths ← lift (distinctPaths storagePath destination false);
      let storage := paths.1 in let dest := paths.2 in
      throw_if (String.eqb configPath "") (Internal "configuration path is required") ;;
      key ← Stat (Join storage "keys/server_identity.key");
      throw_if (negb key) (Internal "read server identity key") ;;
      config ← Stat (Abs cwd configPath);
      throw_if (negb config) (Internal "read configuration") ;;
      exists_ ← Stat dest;
      throw_if exists_ (Internal "backup destination already exists") ;;
      MkdirAll (parent dest) ;;
      staging ← MkdirTemp (parent dest) ".homebox-backup-" rand;
      or_remove_all staging (fill_backup d storage (Abs cwd configPath) dest staging)
  end.

(** ** Restoring one *)

Fixpoint restore_files (source staging : path) (l : list FileInfo) : M FS unit :=
  match l with
  | [] => mret tt
  | file :: l' =>
      if String.eqb (Path file) "config.yaml" then restore_files source staging l'
      else copyRegularFile (Join source (Path file)) (Join staging (Path file)) (Path file) ;;
           restore_files source staging l'
  end.

Definition fill_storage (source storagePath staging : path) (m : Manifest) : M FS unit :=
  restore_files source staging (manifest_Files m) ;;
  verifyStorage staging ;;
  Rename staging storagePath.

Definition Restore (source storagePath : string) : M FS unit :=
  paths ← lift (distinctPaths storagePath source true);
  let storage := paths.1 in let src := paths.2 in
  exists_ ← Stat storage;
  throw_if exists_ (Internal "restore target already exists") ;;
  m ← readManifest (Join src manifestName);
  verify src m ;;
  MkdirAll (parent storage) ;;
  staging ← MkdirTemp (parent storage) ".homebox-restore-" rand;
  or_remove_all staging (fill_storage src storage staging m).
End backup.
