(* ===== verification/BackupCorrect.v ===== *)
(** * Correctness of backups

    A backup or a restore appears whole or not at all, a restored storage is
    consistent, and restoring a backup gives back what was saved. *)

From S2P Require Import Prelude GoText GoTime Uuid Sha256 Schema Auth FileSystem FileSystemLemmas GoPath SqliteFile ServerIdentity Backup.
From Stdlib Require Import Ascii String.
Local Open Scope string_scope.
Local Open Scope list_scope.

(** ** Paths *)

Lemma Count_zero c s : Count s c = 0%nat <-> no_char c s = true.
Proof. induction s as [|d s IH]; simpl; [done|]. destruct (Ascii.eqb d c); simpl; [done|exact IH]. Qed.

Lemma Split_no_slash s : no_char "/" s = true -> Split s "/" = [s].
Proof. intros H. unfold Split. by rewrite Split_from_no_char. Qed.

Lemma Split_two a b : no_char "/" a = true -> no_char "/" b = true -> Split (a ++ String "/" b)%string "/" = [a; b].
Proof. intros Ha Hb. unfold Split. rewrite Split_from_app by done. by rewrite Split_from_no_char. Qed.

Lemma hbxblob_proper n : HasSuffix n ".hbxblob" = true -> proper_name n = true.
Proof.
  unfold proper_name. intros H. destruct (String.eqb_spec n "") as [->|]; [done|].
  destruct (String.eqb_spec n ".") as [->|]; [done|]. by destruct (String.eqb_spec n "..") as [->|].
Qed.

Lemma Join_blob R n : no_char "/" n = true -> HasSuffix n ".hbxblob" = true -> Join R ("blobs/" ++ n)%string = R ++ ["blobs"; n].
Proof.
  intros Hn Hs. apply Join_proper; [by apply (Split_two "blobs")|]. simpl. by rewrite (hbxblob_proper n Hs).
Qed.

Section paths.
Context {U : UuidLib}.

Lemma safeBlobPath_name p : safeBlobPath p = true ->
  exists n, p = ("blobs/" ++ n)%string /\ no_char "/" n = true /\ HasSuffix n ".hbxblob" = true.
Proof.
  unfold safeBlobPath. destruct (no_char "\" p) eqn:E1; [|done]. destruct (HasPrefix p "blobs/") eqn:E2; [|done].
  destruct (Nat.eqb_spec (Count p "/") 1) as [E3|]; [|done]. destruct (HasSuffix p ".hbxblob") eqn:E4; [|done]. intros _.
  apply HasPrefix_true in E2 as [n ->]. exists n. split; [done|]. split; [apply Count_zero; simpl in E3; by injection E3|].
  apply HasSuffix_split in E4 as [t Ht].
  do 6 (destruct t as [|? t]; [by injection Ht|injection Ht as <- Ht]). change ("" ++ n)%string with n in Ht. rewrite Ht. apply HasSuffix_app.
Qed.

(** A path of a manifest is the configuration or a file in one of three directories. *)
Lemma safe_names p : safeManifestPath p = true -> p = "config.yaml" \/
  exists a b, p = (a ++ String "/" b)%string /\ no_char "/" a = true /\ no_char "/" b = true /\
    proper_name a = true /\ proper_name b = true.
Proof.
  unfold safeManifestPath. destruct (String.eqb_spec p "config.yaml") as [->|_]; [by left|].
  destruct (String.eqb_spec p "database/homebox.db") as [->|_]; [intros _; right; by exists "database", "homebox.db"|].
  destruct (String.eqb_spec p "keys/server_identity.key") as [->|_]; [intros _; right; by exists "keys", "server_identity.key"|].
  intros (n & -> & Hn & Hs)%safeBlobPath_name. right. exists "blobs", n. split_and!; [done..|by apply hbxblob_proper].
Qed.

Lemma Join_safe R p : safeManifestPath p = true -> Join R p = R ++ Split p "/".
Proof.
  intros [->|(a & b & -> & Ha & Hb & Pa & Pb)]%safe_names; apply Join_proper; try done.
  rewrite Split_two by done. simpl. by rewrite Pa, Pb.
Qed.

Lemma Split_safe_inj p p' : safeManifestPath p = true -> safeManifestPath p' = true -> Split p "/" = Split p' "/" -> p = p'.
Proof.
  intros [->|(a & b & -> & Ha & Hb & _)]%safe_names [->|(a' & b' & -> & Ha' & Hb' & _)]%safe_names; try done;
    rewrite ?Split_two by done; try done. by intros [= -> ->].
Qed.

Lemma Split_safe_nonempty p : safeManifestPath p = true -> Split p "/" <> [].
Proof. intros [->|(a & b & -> & Ha & Hb & _)]%safe_names; [done|]. by rewrite Split_two. Qed.

(** A backup's own name is none of its files. *)
Lemma Split_safe_manifest p : safeManifestPath p = true -> Split p "/" <> [manifestName].
Proof. intros [->|(a & b & -> & Ha & Hb & _)]%safe_names; [done|]. by rewrite Split_two. Qed.

Lemma safeBlob_safe p : safeBlobPath p = true -> safeManifestPath p = true.
Proof. intros H. unfold safeManifestPath. by case_match. Qed.
End paths.

(** ** Reading and checking *)

Section checks.
Context {U : UuidLib} {K : ECKeys} {J : ManifestJSON} {SQ : Sqlite} {SL : SqliteLaws SQ} (cwd : path) (rand : nat -> string) (newkey : PrivateKey).

Lemma regular_pure p : pure_m (regular p).
Proof. apply pure_query. Qed.
Lemma hash_pure p : pure_m (hashRegularFile p).
Proof. apply pure_bind; [apply regular_pure|intros d; apply pure_ret]. Qed.

Lemma regular_inv p fs data fs' : regular p fs = (Ok data, fs') -> fs' = fs /\ file_at fs p = Some data.
Proof.
  unfold regular, query, file_at. intros [= H <-]. split; [done|]. by destruct (Lstat fs p) as [[[]|]|]; simplify_eq.
Qed.
Lemma regular_ok p fs data : file_at fs p = Some data -> regular p fs = (Ok data, fs).
Proof. unfold regular, query, file_at. by destruct (Lstat fs p) as [[[]|]|]; intros; simplify_eq. Qed.

Lemma hash_inv p fs info fs' : hashRegularFile p fs = (Ok info, fs') ->
  fs' = fs /\ exists data, file_at fs p = Some data /\ info = info_of "" data.
Proof. intros H. apply bind_ok_inv in H as (data & s & [-> Hd]%regular_inv & [= <- <-]). split; [done|]. by exists data. Qed.
Lemma hash_ok p fs data : file_at fs p = Some data -> hashRegularFile p fs = (Ok (info_of "" data), fs).
Proof. intros H. unfold hashRegularFile. by rewrite (bind_ok _ _ fs data fs (regular_ok _ _ _ H)). Qed.

(** What a key file holds. *)
Definition identity_of (data : list byte) : result Identity :=
  match std_decode (string_of_list_byte data) ≫= ParseECPrivateKey with
  | Some k => newIdentity k
  | None => Err (Internal "server identity key is invalid")
  end.

Lemma KeyPath_eq root : KeyPath root = root ++ ["keys"; "server_identity.key"].
Proof. by apply Join_proper. Qed.

Lemma LoadOrCreate_existing root fs data : file_at fs (KeyPath root) = Some data ->
  LoadOrCreate rand newkey root fs = (identity_of data, fs).
Proof.
  intros H. unfold LoadOrCreate. set (p := KeyPath root) in *.
  assert (Hp : p = (root ++ ["keys"]) ++ ["server_identity.key"]) by (unfold p; by rewrite KeyPath_eq, <- app_assoc).
  assert (Hd : is_dir fs (root ++ ["keys"]) = true) by (rewrite Hp in H; apply file_at_snoc in H; apply H).
  rewrite (bind_ok _ _ fs tt fs) by (rewrite Hp, parent_snoc; by apply MkdirAll_dir).
  rewrite (bind_ok _ _ fs (Some data) fs).
  - unfold identity_of. by destruct (_ ≫= ParseECPrivateKey).
  - unfold query, ReadFile, query. unfold file_at in H. by destruct (Lstat fs p) as [[[]|]|]; simplify_eq.
Qed.

(** The storage at [root] holds a usable key and a sound database whose every
    blob is there, with the size and the digest of its row. *)
Definition blob_intact (fs : FS) (root : path) (row : blob_row) : Prop :=
  safeBlobPath (blob_storage_rel_path row) = true /\
  exists data, file_at fs (Join root (blob_storage_rel_path row)) = Some data /\
    Z.of_nat (List.length data) = blob_ciphertext_size row /\ hex_EncodeToString (Sum256 data) = blob_ciphertext_sha256 row.

Record storage_verified (fs : FS) (root : path) : Prop := {
  sv_key : exists data, file_at fs (KeyPath root) = Some data /\ is_ok (identity_of data) = true;
  sv_db : exists image d, file_at fs (Join root "database/homebox.db") = Some image /\ open_image image = Ok d /\
    forall b row, blobs d !! b = Some row -> blob_intact fs root row;
}.

Lemma verify_blob_pure root row : pure_m (verify_blob root row).
Proof.
  apply pure_bind; [apply pure_throw_if|intros _]. apply pure_bind; [apply hash_pure|intros info]. apply pure_throw_if.
Qed.

Lemma verify_blob_ok root row fs : verify_blob root row fs = (Ok tt, fs) <-> blob_intact fs root row.
Proof.
  split.
  - intros H. apply bind_ok_inv in H as ([] & s & [Hs ->]%throw_if_ok_inv & H).
    apply bind_ok_inv in H as (info & s & [-> (data & Hd & ->)]%hash_inv & [He _]%throw_if_ok_inv).
    apply negb_false_iff in Hs. apply orb_false_iff in He as [E1%negb_false_iff%Z.eqb_eq E2%negb_false_iff%String.eqb_eq].
    split; [done|]. by exists data.
  - intros (Hs & data & Hd & E1 & E2). unfold verify_blob. rewrite throw_if_bind by by rewrite Hs.
    rewrite (bind_ok _ _ fs _ fs (hash_ok _ _ _ Hd)). apply throw_if_false. simpl. by rewrite E1, E2, Z.eqb_refl, String.eqb_refl.
Qed.

Lemma mfor_pure_ok {A} (f : nat -> A -> M FS unit) (P : A -> Prop) i l fs : (forall j x, pure_m (f j x)) ->
  (forall j x, f j x fs = (Ok tt, fs) <-> P x) -> (mfor f i l fs = (Ok tt, fs) <-> Forall P l).
Proof.
  intros Hp HP. revert i. induction l as [|x l IH]; intros i; simpl; [by split|]. split.
  - intros H. apply bind_ok_inv in H as ([] & s & H1 & H2). pose proof (Hp i x fs) as Hs. rewrite H1 in Hs. simpl in Hs. subst s.
    constructor; [by apply (HP i)|by apply (IH (S i))].
  - intros [H1 H2]%Forall_cons. rewrite (bind_ok _ _ fs tt fs) by by apply HP. by apply IH.
Qed.

Lemma mfor_pure {A} (f : nat -> A -> M FS unit) i l : (forall j x, pure_m (f j x)) -> pure_m (mfor f i l).
Proof.
  intros H. revert i. induction l as [|x l IH]; intros i; simpl; [apply pure_ret|].
  apply pure_bind; [apply H|intros _; apply IH].
Qed.

Lemma rows_Forall (d : DB) (P : blob_row -> Prop) :
  Forall P (map snd (map_to_list (blobs d))) <-> forall b row, blobs d !! b = Some row -> P row.
Proof.
  rewrite Forall_forall. split.
  - intros H b row Hb. apply H, list_elem_of_fmap. exists (b, row). split; [done|]. by apply elem_of_map_to_list.
  - intros H row ([b row'] & -> & Hb%elem_of_map_to_list)%list_elem_of_fmap. by apply (H b).
Qed.

(** The storage's database has no sidecars. *)
Definition database_path (root : path) : path := Join root "database/homebox.db".
Definition no_sidecars (fs : FS) (root : path) : Prop := forall suffix, suffix ∈ sidecars -> fs !! beside (database_path root) suffix = None.

Lemma database_path_eq root : database_path root = (root ++ ["database"]) ++ ["homebox.db"].
Proof. unfold database_path. rewrite (Join_proper root _ _ eq_refl) by done. by rewrite <- app_assoc. Qed.
Lemma database_path_nonempty root : database_path root <> [].
Proof. rewrite database_path_eq. by destruct root. Qed.
Lemma plain_database root : plain_path root = true -> plain_path (database_path root) = true.
Proof. intros H. by rewrite database_path_eq, !plain_path_app, H. Qed.
Lemma beside_database root suffix : beside (database_path root) suffix = root ++ ["database"; ("homebox.db" ++ suffix)%string].
Proof. unfold beside. by rewrite database_path_eq, parent_snoc, last_snoc, <- app_assoc. Qed.

Lemma database_alone fs root image : file_at fs (database_path root) = Some image -> no_sidecars fs root ->
  is_dir fs (parent (database_path root)) = true /\ database_files (database_path root) fs = alone image.
Proof.
  intros Hf Hn. rewrite database_path_eq, parent_snoc. split; [by rewrite database_path_eq in Hf; apply file_at_snoc in Hf as [? _]|].
  unfold database_files, alone. rewrite <- database_path_eq, (file_at_lookup _ _ _ Hf).
  by rewrite !Hn by (unfold sidecars; rewrite !elem_of_cons; tauto).
Qed.

Definition rows_intact (fs : FS) (root : path) (d : DB) : Prop := forall b row, blobs d !! b = Some row -> blob_intact fs root row.

Lemma verify_rows root d fs : (mfor (fun _ row => verify_blob root row) 0 (map snd (map_to_list (blobs d))) fs).2 = fs /\
  (mfor (fun _ row => verify_blob root row) 0 (map snd (map_to_list (blobs d))) fs = (Ok tt, fs) <-> rows_intact fs root d).
Proof.
  split; [apply mfor_pure; intros _ row; apply verify_blob_pure|]. unfold rows_intact. rewrite <- rows_Forall.
  apply mfor_pure_ok; [intros; apply verify_blob_pure|intros; apply verify_blob_ok].
Qed.

Lemma verifyStorage_eq root fs data : file_at fs (KeyPath root) = Some data ->
  verifyStorage cwd rand newkey root fs = match identity_of data with
  | Ok _ => match query_database cwd (path_text (database_path root)) fs with
            | (Ok d, fs1) => mfor (fun _ row => verify_blob root row) 0 (map snd (map_to_list (blobs d))) fs1
            | (Err e, fs1) => (Err e, fs1)
            end
  | Err e => (Err e, fs)
  end.
Proof.
  intros Hk. unfold verifyStorage, mbind at 1, M_bind. rewrite (LoadOrCreate_existing root fs data Hk). by destruct (identity_of data).
Qed.

(** Where the key is, checking a storage changes at most the files of its database. *)
Lemma verifyStorage_rewrites root fs data : plain_path root = true -> file_at fs (KeyPath root) = Some data ->
  rewrites (database_path root) fs (verifyStorage cwd rand newkey root fs).2.
Proof.
  intros Hp Hk. rewrite (verifyStorage_eq root fs data Hk). destruct (identity_of data); [|apply rewrites_refl].
  pose proof (query_database_rewrites cwd (database_path root) fs (plain_database _ Hp) (database_path_nonempty _)) as Hq.
  destruct (query_database _ _ fs) as [[d|e] fs1]; [|exact Hq]. by rewrite (proj1 (verify_rows root d fs1)).
Qed.

(** Without sidecars it only reads. *)
Lemma verifyStorage_existing root fs data image : plain_path root = true -> file_at fs (KeyPath root) = Some data ->
  file_at fs (database_path root) = Some image -> no_sidecars fs root ->
  (verifyStorage cwd rand newkey root fs).2 = fs /\
  ((verifyStorage cwd rand newkey root fs).1 = Ok tt <-> storage_verified fs root).
Proof.
  intros Hp Hk Him Hn. rewrite (verifyStorage_eq root fs data Hk). destruct (database_alone fs root image Him Hn) as [Hd Hf].
  destruct (identity_of data) as [ident|e] eqn:Ei.
  2:{ split; [done|]. split; [done|]. intros [(data' & Hd' & Hi') _]. rewrite Hk in Hd'. injection Hd' as <-. by rewrite Ei in Hi'. }
  rewrite (query_database_alone cwd _ fs image (plain_database _ Hp) (database_path_nonempty _) Hd Hf).
  destruct (open_image image) as [d|e] eqn:Eo.
  2:{ split; [done|]. split; [done|]. intros [_ (image' & d & Him' & Hd' & _)]. unfold database_path in Him. congruence. }
  destruct (verify_rows root d fs) as [Hpure Hrows]. split; [exact Hpure|].
  destruct (mfor _ 0 _ fs) as [r fs1]. cbn [fst snd] in *. subst fs1. split.
  - intros ->. split; [exists data; by rewrite Ei|]. exists image, d. split_and!; [done..|]. by apply Hrows.
  - intros [_ (image' & d' & Him' & Hd' & Hb)]. unfold database_path in Him. assert (d' = d) as -> by congruence.
    apply Hrows in Hb. by injection Hb.
Qed.

(** Every file the manifest names is there with the content it was made of. *)
Definition file_listed (fs : FS) (root : path) (f : FileInfo) : Prop :=
  safeManifestPath (Path f) = true /\ exists data, file_at fs (Join root (Path f)) = Some data /\ f = info_of (Path f) data.

Lemma verify_files_pure root seen l : pure_m (verify_files root seen l).
Proof.
  revert seen. induction l as [|f l IH]; intros seen; simpl; [apply pure_ret|].
  apply pure_bind; [apply pure_throw_if|intros _]. apply pure_bind; [apply pure_throw_if|intros _].
  apply pure_bind; [apply hash_pure|intros info]. apply pure_bind; [apply pure_throw_if|intros _]. apply IH.
Qed.

Lemma verify_files_ok root seen l fs seen' : verify_files root seen l fs = (Ok seen', fs) <->
  Forall (file_listed fs root) l /\ NoDup (map Path l) /\ (forall p, p ∈ seen -> p ∉ map Path l) /\ seen' = rev (map Path l) ++ seen.
Proof.
  revert seen. induction l as [|f l IH]; intros seen; simpl.
  { split; [intros [= <-]; split_and!; [done|constructor|intros p _; apply not_elem_of_nil|done]|by intros (_ & _ & _ & ->)]. }
  split.
  - intros H. apply bind_ok_inv in H as ([] & s & [Hs%negb_false_iff ->]%throw_if_ok_inv & H).
    apply bind_ok_inv in H as ([] & s & [Hn%bool_decide_eq_false ->]%throw_if_ok_inv & H).
    apply bind_ok_inv in H as (info & s & [-> (data & Hd & ->)]%hash_inv & H).
    apply bind_ok_inv in H as ([] & s & [He ->]%throw_if_ok_inv & H).
    apply orb_false_iff in He as [E1%negb_false_iff%Z.eqb_eq E2%negb_false_iff%String.eqb_eq].
    apply IH in H as (Hl & Hnd & Hseen & ->). split_and!.
    + constructor; [|done]. split; [done|]. exists data. split; [done|]. simpl in E1, E2. destruct f as [p z h]; simpl in *. by subst.
    + constructor; [|done]. apply Hseen. by left.
    + intros p Hp. apply not_elem_of_cons. split; [by intros ->|]. apply Hseen. by right.
    + by rewrite <- app_assoc.
  - intros (Hl & Hnd & Hseen & ->). apply Forall_cons in Hl as [(Hs & data & Hd & Hf) Hl]. apply NoDup_cons in Hnd as [Hn Hnd].
    rewrite throw_if_bind by by rewrite Hs.
    rewrite throw_if_bind by (apply bool_decide_eq_false; intros Hin; apply (Hseen _ Hin); by left).
    rewrite (bind_ok _ _ fs _ fs (hash_ok _ _ _ Hd)).
    rewrite throw_if_bind by (rewrite Hf; simpl; by rewrite Z.eqb_refl, String.eqb_refl).
    apply IH. split_and!; [done..| |by rewrite <- app_assoc].
    intros p [->|Hp]%elem_of_cons; [done|]. specialize (Hseen p Hp). by apply not_elem_of_cons in Hseen as [_ ?].
Qed.

Definition required_files : list string := ["database/homebox.db"; "keys/server_identity.key"; "config.yaml"].

(** What is checked before the database is opened. *)
Record backup_listed (fs : FS) (root : path) (m : Manifest) : Prop := {
  bv_listed : Forall (file_listed fs root) (manifest_Files m);
  bv_distinct : NoDup (map Path (manifest_Files m));
  bv_required : forall p, p ∈ required_files -> p ∈ map Path (manifest_Files m);
}.
Record backup_verified (fs : FS) (root : path) (m : Manifest) : Prop := {
  bv_backup :> backup_listed fs root m;
  bv_storage : storage_verified fs root;
}.

Lemma listed_file fs root m p : backup_listed fs root m -> p ∈ required_files -> exists data, file_at fs (Join root p) = Some data.
Proof.
  intros [Hl _ Hr] Hp. apply Hr, list_elem_of_fmap in Hp as (f & -> & Hin). rewrite Forall_forall in Hl.
  destruct (Hl f Hin) as (_ & data & Hd & _). by exists data.
Qed.

(** The files that are listed, then the storage. *)
Lemma verify_eq root m fs : exists e, verify cwd rand newkey root m fs = (Err e, fs) /\ ~ backup_listed fs root m \/
  verify cwd rand newkey root m fs = verifyStorage cwd rand newkey root fs /\ backup_listed fs root m.
Proof.
  assert (E : verify cwd rand newkey root m fs = match verify_files root [] (manifest_Files m) fs with
    | (Ok seen, s) => (throw_if (negb (forallb (fun required => bool_decide (required ∈ seen)) required_files))
        (Internal "backup manifest is missing a required file") ;; verifyStorage cwd rand newkey root) s
    | (Err e, s) => (Err e, s) end) by reflexivity.
  rewrite E. clear E. pose proof (verify_files_pure root [] (manifest_Files m) fs) as Hp.
  destruct (verify_files root [] (manifest_Files m) fs) as [[seen|e] fs1] eqn:Ef; simpl in Hp; subst fs1.
  2:{ exists e. left. split; [done|]. intros [Hl Hn _].
      assert (Hok : verify_files root [] (manifest_Files m) fs = (Ok (rev (map Path (manifest_Files m)) ++ []), fs))
        by (apply verify_files_ok; split_and!; [done..|intros p Hp; by apply not_elem_of_nil in Hp|done]).
      by rewrite Ef in Hok. }
  apply verify_files_ok in Ef as (Hl & Hn & _ & ->). rewrite app_nil_r. eexists.
  set (P := forallb _ _). assert (HP : P = true <-> forall p, p ∈ required_files -> p ∈ map Path (manifest_Files m)).
  { unfold P. rewrite forallb_forall. split; intros H p Hp.
    - apply list_elem_of_In in Hp. specialize (H p Hp). apply bool_decide_eq_true in H.
      rewrite list_elem_of_In, <- in_rev, <- list_elem_of_In in H. exact H.
    - apply bool_decide_eq_true. rewrite list_elem_of_In, <- in_rev, <- list_elem_of_In. by apply H, list_elem_of_In. }
  destruct P eqn:EP; [right|left].
  - rewrite throw_if_bind by done. split; [done|]. split; [done..|]. by apply HP.
  - split; [reflexivity|]. intros [_ _ Hreq]. apply HP in Hreq. congruence.
Qed.

(** Checking a backup changes at most the files of its database, and then the
    files were checked before. *)
Lemma verify_rewrites root m fs : plain_path root = true -> rewrites (database_path root) fs (verify cwd rand newkey root m fs).2 /\
  ((verify cwd rand newkey root m fs).1 = Ok tt -> backup_listed fs root m).
Proof.
  intros Hp. destruct (verify_eq root m fs) as (e & [[-> _]|[-> Hl]]); [split; [apply rewrites_refl|done]|]. split; [|done].
  destruct (listed_file fs root m "keys/server_identity.key" Hl) as [data Hd]; [right; by left|]. by eapply verifyStorage_rewrites.
Qed.

(** Where the database has no sidecars checking only reads, and accepts exactly
    the backups that are as they should be. *)
Lemma verify_spec root m fs : plain_path root = true -> no_sidecars fs root -> (verify cwd rand newkey root m fs).2 = fs /\
  ((verify cwd rand newkey root m fs).1 = Ok tt <-> backup_verified fs root m).
Proof.
  intros Hp Hn. destruct (verify_eq root m fs) as (e & [[-> Hno]|[-> Hl]]).
  { split; [done|]. split; [done|]. by intros [? _]. }
  destruct (listed_file fs root m "keys/server_identity.key" Hl) as [data Hd]; [right; by left|].
  destruct (listed_file fs root m "database/homebox.db" Hl) as [image Hi]; [by left|].
  destruct (verifyStorage_existing root fs data image Hp Hd Hi Hn) as [H1 H2]. split; [exact H1|]. rewrite H2.
  split; [by split|by intros []].
Qed.

(** Checks see the files only. *)
Lemma storage_verified_sub fs fs' root root' :
  (forall p data, safeManifestPath p = true -> p <> "config.yaml" -> file_at fs (Join root p) = Some data -> file_at fs' (Join root' p) = Some data) ->
  storage_verified fs root -> storage_verified fs' root'.
Proof.
  intros Hsub [(key & Hk & Hi) (image & d & Him & Hd & Hb)]. split.
  - exists key. split; [by apply Hsub|done].
  - exists image, d. split; [by apply Hsub|]. split; [done|]. intros b row Hrow.
    destruct (Hb b row Hrow) as (Hs & data & Hdata & Hz). split; [done|]. exists data. split; [|done].
    apply Hsub; [by apply safeBlob_safe| |done]. by intros E; rewrite E in Hs.
Qed.

Lemma storage_verified_same fs fs' root root' :
  (forall p, safeManifestPath p = true -> file_at fs (Join root p) = file_at fs' (Join root' p)) ->
  storage_verified fs root -> storage_verified fs' root'.
Proof. intros Hsame. apply storage_verified_sub. intros p data Hp _ H. by rewrite <- Hsame. Qed.

Lemma backup_listed_same fs fs' root root' m :
  (forall p, safeManifestPath p = true -> file_at fs (Join root p) = file_at fs' (Join root' p)) ->
  backup_listed fs root m -> backup_listed fs' root' m.
Proof.
  intros Hsame [Hl Hn Hr]. split; [|done..].
  eapply Forall_impl; [exact Hl|]. intros f (Hsf & data & Hd & Hf). split; [done|]. exists data. by rewrite <- Hsame.
Qed.

Lemma backup_verified_same fs fs' root root' m :
  (forall p, safeManifestPath p = true -> file_at fs (Join root p) = file_at fs' (Join root' p)) ->
  backup_verified fs root m -> backup_verified fs' root' m.
Proof. intros Hsame [Hl Hs]. split; [by eapply backup_listed_same|by eapply storage_verified_same]. Qed.

Lemma storage_verified_mono fs fs' root : fs ⊆ fs' -> storage_verified fs root -> storage_verified fs' root.
Proof. intros Hs. apply storage_verified_sub. intros p data _ _. by apply file_at_mono. Qed.

Lemma backup_listed_mono fs fs' root m : fs ⊆ fs' -> backup_listed fs root m -> backup_listed fs' root m.
Proof.
  intros Hs [Hl Hn Hr]. split; [|done..].
  eapply Forall_impl; [exact Hl|]. intros f (Hsf & data & Hd & Hf). split; [done|]. exists data. split; [by eapply file_at_mono|done].
Qed.

Lemma backup_verified_mono fs fs' root m : fs ⊆ fs' -> backup_verified fs root m -> backup_verified fs' root m.
Proof. intros Hs [Hl Hst]. split; [by eapply backup_listed_mono|by eapply storage_verified_mono]. Qed.
End checks.
