(* ===== verification/BackupStages.v ===== *)
(** * Filling a staging directory

    What copying adds below the staging directory, for a backup and for a
    restore. *)

From S2P Require Import Prelude GoText GoTime Uuid Sha256 Schema FileSystem FileSystemLemmas GoPath SqliteFile ServerIdentity Backup BackupCorrect.
From Stdlib Require Import Ascii String.
Local Open Scope string_scope.
Local Open Scope list_scope.

(** Everything new is a directory or at one of [l]. *)
Definition adds_files (l : list path) (fs fs' : FS) : Prop :=
  forall j e, fs' !! j = Some e -> fs !! j = Some e \/ e = Dir \/ j ∈ l.

Lemma adds_files_refl fs : adds_files [] fs fs.
Proof. intros j e. by left. Qed.
Lemma adds_files_trans l l' a b c : adds_files l a b -> adds_files l' b c -> adds_files (l ++ l') a c.
Proof.
  intros H1 H2 j e [Hj|[Hj|Hj]]%H2; [apply H1 in Hj as [Hj|[Hj|Hj]]; [by left|by right; left|]|by right; left|];
    right; right; apply elem_of_app; [by left|by right].
Qed.
Lemma adds_files_file l fs fs' j data : adds_files l fs fs' -> fs' !! j = Some (File data) -> fs !! j = Some (File data) \/ j ∈ l.
Proof. intros H Hj. apply H in Hj as [Hj|[Hj|Hj]]; [by left|done|by right]. Qed.

#[export] Instance adds_files_preorder : PreOrder (adds_files []).
Proof. split; [exact adds_files_refl|]. intros a b c. apply (adds_files_trans [] []). Qed.

Lemma mkdir_from_files q p : stays (adds_files []) (mkdir_from q p).
Proof.
  revert q. induction p as [|n p IH]; intros q; simpl; [apply stays_ret; exact _|].
  apply stays_bind; [exact _|apply stays_query; exact _|]. intros [[]|]; [apply IH|apply stays_throw; exact _..|].
  apply stays_bind; [exact _| |intros _; apply IH]. intros fs.
  destruct (Mkdir (q ++ [n]) fs) as [[[]|e] fs1] eqn:E; simpl.
  - apply Mkdir_ok_inv in E as (q' & m & _ & _ & _ & ->). intros j e [[_ <-]|[_ Hj]]%lookup_insert_Some; [by right; left|by left].
  - unfold Mkdir, exec in E. case_match; [done|]. injection E as _ <-. apply adds_files_refl.
Qed.

Lemma MkdirAll_files p : stays (adds_files []) (MkdirAll p).
Proof. apply mkdir_from_files. Qed.

Lemma elem_of_listing p fs n e : (n, e) ∈ children p fs <-> fs !! (p ++ [n]) = Some e.
Proof.
  unfold children. rewrite order_by_perm. rewrite list_elem_of_omap. split.
  - intros ([k e'] & Hk%elem_of_map_to_list & H). simpl in H. destruct (drop (List.length p) k) as [|m [|? ?]] eqn:E; [done| |done].
    destruct (below_path p k) eqn:Eb; [|done]. apply below_path_true in Eb as [r ->]. rewrite drop_app_length in E. injection H as <- <-.
    by subst r.
  - intros H. exists (p ++ [n], e). rewrite elem_of_map_to_list. simpl. rewrite drop_app_length, below_path_app. done.
Qed.

Section stages.
Context {U : UuidLib} {K : ECKeys} {J : ManifestJSON} {SQ : Sqlite} (now : Z) (rand : nat -> string) (newkey : PrivateKey).

(** ** One file *)

Lemma copy_within s x src q n mp : s ++ q ++ [n] <> x -> ~ x `prefix_of` s ++ q ->
  stays (within s x) (copyRegularFile src (s ++ q ++ [n]) mp).
Proof.
  intros Hx Hp. apply stays_bind; [exact _|apply stays_pure; [exact _|apply regular_pure]|intros data].
  apply stays_bind; [exact _| |intros _]; [rewrite app_assoc, parent_snoc; by apply MkdirAll_within|].
  apply stays_bind; [exact _| |intros _; apply stays_ret; exact _]. apply CreateFile_within; [by destruct q|done].
Qed.

Lemma copy_ok_inv src q n mp fs info fs' : copyRegularFile src (q ++ [n]) mp fs = (Ok info, fs') ->
  exists data, file_at fs src = Some data /\ info = info_of mp data /\ fs ⊆ fs' /\
    file_at fs' (q ++ [n]) = Some data /\ adds_files [q ++ [n]] fs fs' /\
    grows (fun k => k `prefix_of` q \/ k = q ++ [n]) fs fs'.
Proof.
  intros H. apply bind_ok_inv in H as (data & s1 & [-> Hd]%regular_inv & H).
  apply bind_ok_inv in H as ([] & s2 & Hm & H). apply bind_ok_inv in H as ([] & s3 & Hc & [= <- <-]).
  rewrite parent_snoc in Hm. pose proof (MkdirAll_files q fs) as Hf. rewrite Hm in Hf. simpl in Hf.
  apply MkdirAll_ok_inv in Hm as [Hdir Hg]. pose proof (grows_sub _ _ _ Hg) as Hsub.
  pose proof (CreateFile_grows (q ++ [n]) data s2) as Hg2. rewrite Hc in Hg2. simpl in Hg2.
  apply CreateFile_ok_inv in Hc as (q' & n' & E & _ & Hn & ->). exists data. split_and!; [done..| | | |].
  - etrans; [exact Hsub|]. by apply insert_subseteq.
  - apply file_at_snoc. split; [|by rewrite lookup_insert_eq]. eapply is_dir_mono; [|exact Hdir]. by apply insert_subseteq.
  - apply (adds_files_trans [] _ fs s2); [done|].
    intros j e' [[<- _]|[_ Hj]]%lookup_insert_Some; [right; right; by left|by left].
  - etrans; [eapply grows_weaken; [|exact Hg]; intros k _ [? _]; by left|].
    eapply grows_weaken; [|exact Hg2]. intros k _ <-. by right.
Qed.

Lemma copy_succeeds src s q n mp fs data : file_at fs src = Some data -> is_dir fs s = true ->
  (q = [] \/ exists a, q = [a] /\ (fs !! (s ++ [a]) = None \/ fs !! (s ++ [a]) = Some Dir)) ->
  fs !! (s ++ q ++ [n]) = None -> exists info fs', copyRegularFile src (s ++ q ++ [n]) mp fs = (Ok info, fs').
Proof.
  intros Hd Hs Hq Hn. unfold copyRegularFile. rewrite (bind_ok _ _ fs data fs (regular_ok _ _ _ Hd)).
  rewrite app_assoc in Hn |- *. rewrite parent_snoc.
  assert (Hm : exists fs1, MkdirAll (s ++ q) fs = (Ok tt, fs1) /\ fs1 !! ((s ++ q) ++ [n]) = None).
  { destruct Hq as [->|(a & -> & Ha)].
    - exists fs. rewrite app_nil_r in *. split; [by apply MkdirAll_dir|done].
    - destruct Ha as [Ha|Ha].
      + exists (<[s ++ [a] := Dir]> fs). split; [by apply MkdirAll_new|]. rewrite lookup_insert_ne; [done|].
        intros E. apply (f_equal List.length) in E. rewrite !length_app in E. simpl in E. lia.
      + exists fs. split; [|done]. apply MkdirAll_dir, is_dir_Lstat. by rewrite Lstat_in, Ha. }
  destruct Hm as (fs1 & Hm & Hn1). rewrite (bind_ok _ _ fs tt fs1 Hm). apply MkdirAll_ok_inv in Hm as [Hdir _].
  rewrite (bind_ok _ _ fs1 tt _ (CreateFile_new _ _ _ _ Hdir Hn1)). by eexists _, _.
Qed.
(** ** The files of a backup *)

(** What a manifest says of named contents. *)
Definition infos (entries : list (string * list byte)) : list FileInfo := map (fun e => info_of e.1 e.2) entries.

(** The entries are in the tree at [s], and were copied out of [fs]. *)
Record staged (s : path) (entries : list (string * list byte)) (fs fs' : FS) : Prop := {
  staged_sub : fs ⊆ fs';
  staged_at : Forall (fun e => file_at fs' (Join s e.1) = Some e.2) entries;
  staged_only : adds_files (map (fun e => Join s e.1) entries) fs fs';
}.

Lemma staged_nil s fs : staged s [] fs fs.
Proof. split; [done|constructor|apply adds_files_refl]. Qed.

Lemma staged_app s l l' a b c : staged s l a b -> staged s l' b c -> staged s (l ++ l') a c.
Proof.
  intros [S1 A1 O1] [S2 A2 O2]. split; [by etrans| |rewrite map_app; by eapply adds_files_trans].
  apply Forall_app. split; [|done]. eapply Forall_impl; [exact A1|]. intros e. by apply file_at_mono.
Qed.

Lemma copy_staged s p src mp fs info fs' q n : Join s p = q ++ [n] -> mp = p ->
  copyRegularFile src (Join s p) mp fs = (Ok info, fs') ->
  exists data, file_at fs src = Some data /\ info = info_of p data /\ staged s [(p, data)] fs fs'.
Proof.
  intros E -> H. rewrite E in H. apply copy_ok_inv in H as (data & Hd & -> & Hsub & Hat & Hnew & _). exists data.
  split; [done|]. split; [done|]. split; [done| |by simpl; rewrite E]. constructor; [by simpl; rewrite E|constructor].
Qed.

Definition is_blob (ne : string * entry) : bool := negb (bool_decide (ne.2 = Dir)) && HasSuffix ne.1 ".hbxblob".

Lemma copy_blobs_within s x storage l : (forall n, s ++ ["blobs"; n] <> x) -> ~ x `prefix_of` s ++ ["blobs"] ->
  Forall (fun ne => no_char "/" ne.1 = true) l -> stays (within s x) (copy_blobs storage s l).
Proof.
  intros Hx Hp Hl. induction Hl as [|[n e] l Hn _ IH]; simpl; [apply stays_ret; exact _|].
  destruct (bool_decide (e = Dir)); [exact IH|]. destruct (HasSuffix n ".hbxblob") eqn:Es; [|exact IH]. simpl.
  apply stays_bind; [exact _| |intros info; apply stays_bind; [exact _|exact IH|intros rest; apply stays_ret; exact _]].
  rewrite (Join_blob s n Hn Es). apply (copy_within s x _ ["blobs"] n); [apply Hx|exact Hp].
Qed.

Lemma copy_blobs_ok_inv s storage l fs fis fs' : Forall (fun ne => no_char "/" ne.1 = true) l ->
  copy_blobs storage s l fs = (Ok fis, fs') ->
  exists entries, fis = infos entries /\ staged s entries fs fs' /\
    forall n data, file_at fs (storage ++ ["blobs"; n]) = Some data -> is_blob (n, File data) = true ->
      (n, File data) ∈ l -> (("blobs/" ++ n)%string, data) ∈ entries.
Proof.
  intros Hl. revert fs fis. induction Hl as [|[n e] l Hn _ IH]; intros fs fis H; simpl in H.
  { injection H as <- <-. exists []. split; [done|]. split; [apply staged_nil|]. intros n data _ _ Hin. by apply not_elem_of_nil in Hin. }
  assert (Hskip : is_blob (n, e) = false -> copy_blobs storage s l fs = (Ok fis, fs') ->
    exists entries, fis = infos entries /\ staged s entries fs fs' /\
    forall m data, file_at fs (storage ++ ["blobs"; m]) = Some data -> is_blob (m, File data) = true ->
      (m, File data) ∈ (n, e) :: l -> (("blobs/" ++ m)%string, data) ∈ entries).
  { intros Hb H'. apply IH in H' as (entries & -> & Hst & Hall). exists entries. split; [done|]. split; [done|].
    intros m data Hm Hmb [[= -> <-]|Hin]%elem_of_cons; [congruence|by apply Hall]. }
  unfold is_blob in Hskip. simpl in Hskip. destruct (bool_decide (e = Dir)); [by apply Hskip|].
  destruct (HasSuffix n ".hbxblob") eqn:Es; [|by apply Hskip]. clear Hskip. simpl in H.
  apply bind_ok_inv in H as (info & fs1 & H1 & H). apply bind_ok_inv in H as (rest & fs2 & H2 & [= <- <-]).
  rewrite (Join_blob storage n Hn Es) in H1.
  apply (copy_staged s ("blobs/" ++ n)%string _ _ _ _ _ (s ++ ["blobs"]) n) in H1 as (data & Hd & -> & Hst1);
    [|rewrite Join_blob, <- app_assoc by done; done|done].
  apply IH in H2 as (entries & -> & Hst2 & Hall). exists ((("blobs/" ++ n)%string, data) :: entries).
  split; [done|]. split; [by eapply (staged_app s [_])|].
  intros m data' Hm Hmb [[= <- <-]|Hin]%elem_of_cons; [rewrite Hd in Hm; injection Hm as <-; by left|right].
  apply Hall; [|done..]. eapply file_at_mono; [|exact Hm]. apply Hst1.
Qed.

(** The name of a directory entry has no slash in it. *)
Definition names_ok (storage : path) (fs : FS) : Prop := forall n e,
  fs !! (storage ++ ["blobs"; n]) = Some e -> no_char "/" n = true.

Lemma within_same s x fs fs' k : is_dir fs s = true -> within s x fs fs' -> below_path s k = false -> fs' !! k = fs !! k.
Proof.
  intros Hd Hw Hk. destruct (decide (fs' !! k = fs !! k)) as [|Hne]; [done|].
  apply (grows_at _ _ _ (Hw Hd)) in Hne as [(r & _ & ->) _]. by rewrite below_path_app in Hk.
Qed.

(** Names in a backup that no copy goes to: the manifest's, and those beside the
    database. *)
Definition free (s x : path) : Prop := x = s ++ [manifestName] \/
  exists suffix, suffix ∈ sidecars /\ x = s ++ ["database"; ("homebox.db" ++ suffix)%string].

Lemma free_file s x a l : free s x -> a <> manifestName -> (a = "database" -> l = ["homebox.db"]) -> s ++ a :: l <> x.
Proof.
  intros [->|(suffix & Hs & ->)] Ha Hl E%app_inv_head; [by injection E|]. injection E as -> ->. specialize (Hl eq_refl). injection Hl as Hl.
  unfold sidecars in Hs. rewrite !elem_of_cons, elem_of_nil in Hs. by destruct Hs as [->|[->|[->|[]]]].
Qed.

Lemma free_dir s x l : free s x -> (forall a, l = [a] -> a <> manifestName) -> (List.length l <= 1)%nat -> ~ x `prefix_of` s ++ l.
Proof.
  intros [->|(suffix & Hs & ->)] Ha Hl [t Ht]; rewrite <- app_assoc in Ht; apply app_inv_head in Ht; subst l; simpl in Hl.
  - destruct t; [by eapply Ha|simpl in Hl; lia].
  - lia.
Qed.

Lemma stage_head_within s x d storage config : free s x -> stays (within s x) (stage_head d storage config s).
Proof.
  intros Hx. unfold stage_head.
  assert (E1 : Join s "database" = s ++ ["database"]) by by apply Join_proper.
  assert (E2 : Join s "database/homebox.db" = s ++ ["database"; "homebox.db"]) by by apply Join_proper.
  assert (E3 : Join s "keys/server_identity.key" = s ++ ["keys"] ++ ["server_identity.key"]) by by apply Join_proper.
  assert (E4 : Join s "config.yaml" = s ++ [] ++ ["config.yaml"]) by by apply Join_proper.
  rewrite E1, E2, E3, E4.
  assert (Hd : forall a, a <> manifestName -> ~ x `prefix_of` s ++ [a]) by (intros a Ha; apply free_dir; [done|by intros ? [= <-]|done]).
  apply stays_bind; [exact _|apply MkdirAll_within; by apply Hd|intros _].
  apply stays_bind; [exact _|apply CreateFile_within; [done|by apply free_file]|intros _].
  apply stays_bind; [exact _|apply stays_pure; [exact _|apply hash_pure]|intros i1].
  apply stays_bind; [exact _|apply copy_within; [by apply free_file|by apply Hd]|intros i2].
  apply stays_bind; [exact _|apply copy_within; [by apply free_file|apply free_dir; [done|done|simpl; lia]]|intros i3].
  apply stays_bind; [exact _|apply stays_query; exact _|intros b; apply stays_ret; exact _].
Qed.

Lemma ReadDir_inv p fs o fs' : ReadDir p fs = (Ok o, fs') -> fs' = fs /\
  forall n e, (n, e) ∈ default [] o -> fs !! (p ++ [n]) = Some e.
Proof.
  unfold ReadDir, query. intros [= H <-]. split; [done|]. intros n e.
  destruct (Lstat fs p) as [[[]|]|]; simplify_eq; simpl; [apply elem_of_listing|]. intros Hin. by apply not_elem_of_nil in Hin.
Qed.

Lemma ReadDir_lists p fs o fs' : ReadDir p fs = (Ok o, fs') -> is_dir fs p = true ->
  forall n e, fs !! (p ++ [n]) = Some e -> (n, e) ∈ default [] o.
Proof.
  unfold ReadDir, query. intros [= H <-] Hd%is_dir_Lstat n e Hn. rewrite Hd in H. injection H as <-. by apply elem_of_listing.
Qed.

Lemma stage_head_ok_inv s d storage config fs files l fs' : stage_head d storage config s fs = (Ok (files, l), fs') ->
  exists key cfg, let entries := [("database/homebox.db", vacuum_into d); ("keys/server_identity.key", key); ("config.yaml", cfg)] in
    files = infos entries /\ staged s entries fs fs' /\
    file_at fs' (KeyPath storage) = Some key /\ file_at fs' config = Some cfg /\
    exists o, ReadDir (Join storage "blobs") fs' = (Ok o, fs') /\ l = default [] o.
Proof.
  intros H. apply bind_ok_inv in H as ([] & fs1 & H1 & H). apply bind_ok_inv in H as ([] & fs2 & H2 & H).
  apply bind_ok_inv in H as (i1 & s3 & [-> (img & Himg & ->)]%hash_inv & H).
  apply bind_ok_inv in H as (i2 & fs3 & H3 & H). apply bind_ok_inv in H as (i3 & fs4 & H4 & H).
  apply bind_ok_inv in H as (o & s5 & H5 & [= <- <- <-]).
  pose proof (MkdirAll_files (Join s "database") fs) as Hf. rewrite H1 in Hf. simpl in Hf.
  apply MkdirAll_ok_inv in H1 as [Hdir [Hsub1 _ _]].
  assert (E2 : Join s "database/homebox.db" = Join s "database" ++ ["homebox.db"])
    by (rewrite !(Join_proper s _ _ eq_refl) by done; by rewrite <- app_assoc).
  assert (Hst1 : staged s [("database/homebox.db", vacuum_into d)] fs fs2 /\ img = vacuum_into d).
  { rewrite E2 in H2, Himg. apply CreateFile_ok_inv in H2 as (q & n & Eq & Hq & Hn & ->).
    apply app_inj_tail in Eq as [<- <-]. apply file_at_snoc in Himg as [Hdir2 Himg]. rewrite lookup_insert_eq in Himg.
    injection Himg as <-. split; [|done]. split.
    - etrans; [exact Hsub1|]. by apply insert_subseteq.
    - constructor; [|constructor]. simpl. rewrite E2. apply file_at_snoc. by rewrite lookup_insert_eq.
    - simpl. rewrite E2. apply (adds_files_trans [] _ fs fs1); [done|].
      intros j e [[<- _]|[_ Hj]]%lookup_insert_Some; [right; right; by left|by left]. }
  destruct Hst1 as [Hst1 ->].
  apply (copy_staged s "keys/server_identity.key" _ _ _ _ _ (s ++ ["keys"]) "server_identity.key") in H3 as (key & Hk & -> & Hst2);
    [|rewrite (Join_proper s _ _ eq_refl) by done; by rewrite <- app_assoc|done].
  apply (copy_staged s "config.yaml" _ _ _ _ _ s "config.yaml") in H4 as (cfg & Hc & -> & Hst3);
    [|by rewrite (Join_proper s _ _ eq_refl)|done].
  pose proof (proj1 (ReadDir_inv _ _ _ _ H5)) as ->. exists key, cfg. split; [done|].
  split; [|split; [|split; [|by exists o]]].
  - apply (staged_app s [_] _ fs fs2 fs4 Hst1). by apply (staged_app s [_] _ fs2 fs3 fs4).
  - eapply file_at_mono; [|exact Hk]. etrans; [apply Hst2|apply Hst3].
  - eapply file_at_mono; [|exact Hc]. apply Hst3.
Qed.

Lemma Join_blobs R : Join R "blobs" = R ++ ["blobs"].
Proof. by apply Join_proper. Qed.

(** The listing holds the storage's own names. *)
Lemma listed_names s d storage config fs head fs' : is_dir fs s = true -> names_ok storage fs ->
  (forall r, below_path s (storage ++ r) = false) -> stage_head d storage config s fs = (Ok head, fs') ->
  Forall (fun ne => no_char "/" ne.1 = true) head.2.
Proof.
  intros Hd Hnames Hdisj H. pose proof (stage_head_within s _ d storage config (or_introl eq_refl) fs) as Hw. rewrite H in Hw. simpl in Hw.
  destruct head as [files l]. apply stage_head_ok_inv in H as (key & cfg & _ & _ & _ & _ & o & Hr & ->).
  apply Forall_forall. intros [n e] Hin. apply ReadDir_inv in Hr as [_ Hr]. apply Hr in Hin.
  rewrite Join_blobs, <- app_assoc in Hin. simpl in Hin.
  rewrite (within_same s _ fs fs' _ Hd Hw (Hdisj ["blobs"; n])) in Hin. by apply (Hnames n e).
Qed.

Lemma stage_files_grows s x d storage config fs : free s x -> is_dir fs s = true -> names_ok storage fs ->
  (forall r, below_path s (storage ++ r) = false) -> within s x fs (stage_files now d storage config s fs).2.
Proof.
  intros Hx Hd Hnames Hdisj. unfold stage_files, mbind at 1, M_bind. pose proof (stage_head_within s x d storage config Hx fs) as Hw.
  destruct (stage_head d storage config s fs) as [[head|e] fs1] eqn:E; [|exact Hw]. simpl in Hw.
  etrans; [exact Hw|]. pose proof (listed_names s d storage config fs head fs1 Hd Hnames Hdisj E) as Hl.
  apply (stays_bind (within s x) (copy_blobs storage s head.2)); [|intros is'; apply stays_ret; exact _].
  apply copy_blobs_within; [| |exact Hl].
  - intros n. by apply free_file.
  - apply free_dir; [done|by intros ? [= <-]|done].
Qed.

Lemma stage_files_ok_inv s d storage config fs m fs' : is_dir fs s = true -> fs_ok fs -> names_ok storage fs ->
  (forall r, below_path s (storage ++ r) = false) -> stage_files now d storage config s fs = (Ok m, fs') ->
  exists entries, m = MkManifest manifestVersion now (infos entries) /\ staged s entries fs fs' /\
    ("database/homebox.db", vacuum_into d) ∈ entries /\
    (exists key, ("keys/server_identity.key", key) ∈ entries /\ file_at fs' (KeyPath storage) = Some key) /\
    (exists cfg, ("config.yaml", cfg) ∈ entries /\ file_at fs' config = Some cfg) /\
    (forall n data, HasSuffix n ".hbxblob" = true -> file_at fs (storage ++ ["blobs"; n]) = Some data ->
       (("blobs/" ++ n)%string, data) ∈ entries).
Proof.
  intros Hd Hok Hnames Hdisj H. apply bind_ok_inv in H as (head & fs1 & Hh & H).
  apply bind_ok_inv in H as (bis & fs2 & Hb & [= <- <-]).
  pose proof (listed_names s d storage config fs head fs1 Hd Hnames Hdisj Hh) as Hl.
  destruct head as [files l]. simpl in Hl, Hb. apply stage_head_ok_inv in Hh as (key & cfg & -> & Hst1 & Hk & Hc & o & Hr & ->).
  apply copy_blobs_ok_inv in Hb as (entries & -> & Hst2 & Hall); [|exact Hl].
  eexists (_ ++ entries). split; [unfold infos; by rewrite map_app|]. split; [by eapply staged_app|].
  split; [apply elem_of_app; left; by left|].
  pose proof (staged_sub _ _ _ _ Hst2) as Hsub2. pose proof (staged_sub _ _ _ _ Hst1) as Hsub1.
  split; [exists key; split; [apply elem_of_app; left; right; by left|by eapply file_at_mono]|].
  split; [exists cfg; split; [apply elem_of_app; left; do 2 right; by left|by eapply file_at_mono]|].
  intros n data Hs Hn. apply elem_of_app. right.
  assert (Hn1 : file_at fs1 (storage ++ ["blobs"; n]) = Some data) by by eapply file_at_mono.
  apply Hall; [done|unfold is_blob; simpl; by rewrite Hs|].
  change [("blobs" : string); n] with ([("blobs" : string)] ++ [n]) in Hn1. rewrite app_assoc in Hn1.
  apply file_at_snoc in Hn1 as [Hdir Hn1]. apply (ReadDir_lists _ _ _ _ Hr); rewrite Join_blobs; done.
Qed.
End stages.
