(* ===== verification/BackupRoundtrip.v ===== *)
(** * Backups and restores, whole

    [Create] and [Restore] from the outside: what they leave on failure, what
    a backup holds, and that restoring it gives the storage back. *)

From S2P Require Import Prelude GoText GoTime Uuid Sha256 Schema FileSystem FileSystemLemmas GoPath SqliteFile ServerIdentity Backup BackupCorrect BackupStages.
From Stdlib Require Import Ascii String.
Local Open Scope string_scope.
Local Open Scope list_scope.

(** ** Paths that do not contain one another *)

Lemma pathWithin_below p r : clean (p ++ r) = true -> r <> [] -> pathWithin (p ++ r) p = true.
Proof.
  intros Hc Hr. unfold pathWithin. rewrite Rel_below. destruct r as [|n r]; [done|].
  unfold clean in Hc. rewrite forallb_app in Hc. apply andb_prop in Hc as [_ Hc]. simpl in Hc.
  apply andb_prop in Hc as [Hn _]. unfold proper_name in Hn. apply negb_true_iff in Hn.
  destruct (String.eqb n ".."); [by rewrite orb_true_r in Hn|]. by destruct r.
Qed.

(** A sibling of a path outside [storage] is outside it too. *)
Lemma staging_outside storage q n m fs : clean (q ++ [n]) = true -> fs_ok fs ->
  (storage = [] \/ is_Some (fs !! storage)) -> fs !! (q ++ [m]) = None -> storage <> q ++ [n] -> pathWithin (q ++ [n]) storage = false ->
  forall r, below_path (q ++ [m]) (storage ++ r) = false.
Proof.
  intros Hc Hok Hst Hm Hne Hw r. apply below_path_false. intros t E.
  destruct (prefix_weak_total storage (q ++ [m]) (storage ++ r)) as [[u Hu]|[u Hu]]; [by exists r|by exists t| |].
  - destruct u as [|x u] using rev_ind.
    + rewrite app_nil_r in Hu. destruct Hst as [->|[e He]]; [by destruct q|congruence].
    + rewrite app_assoc in Hu. apply app_inj_tail in Hu as [-> _]. rewrite <- app_assoc in Hw, Hc.
      rewrite pathWithin_below in Hw; [done|done|by destruct u].
  - destruct Hst as [->|[e He]]; [by destruct q|].
    rewrite Hu in He. rewrite (fs_ok_none_below fs (q ++ [m]) u Hok) in He; [done|by destruct q|done].
Qed.

(** ** Undoing a staging directory *)

Lemma remove_staging s fs fs1 : fs_ok fs -> s <> [] -> fs !! s = None ->
  grows (fun k => below_path s k = true) (<[s := Dir]> fs) fs1 -> remove_tree s fs1 = fs.
Proof.
  intros Hok Hs Hn [_ Hat _]. apply map_eq. intros k. rewrite lookup_remove_tree. destruct (below_path s k) eqn:E.
  - apply below_path_true in E as [r ->]. symmetry. by apply fs_ok_none_below.
  - destruct (decide (fs1 !! k = <[s := Dir]> fs !! k)) as [->|Hne]; [|apply Hat in Hne; congruence].
    apply lookup_insert_ne. intros ->. by rewrite below_path_refl in E.
Qed.

Lemma within_below s x fs fs' : is_dir fs s = true -> within s x fs fs' -> grows (fun k => below_path s k = true) fs fs'.
Proof. intros Hd Hw. eapply grows_weaken; [|by apply Hw]. intros k _ [(r & _ & ->) _]. apply below_path_app. Qed.

(** Only missing parents of [dest] are new. *)
Abbreviation only_parents dest := (grows (fun k => k `prefix_of` parent dest /\ k <> [])).

Section roundtrip.
Context {U : UuidLib} {K : ECKeys} {J : ManifestJSON} {SQ : Sqlite} {SL : SqliteLaws SQ}.

(** ** Filling and renaming *)

(** A directory moved to [new]: [fs'] is [fs] with the tree at [old] there. *)
Record moved (old new : path) (fs fs' : FS) : Prop := {
  moved_tree : forall t, fs' !! (new ++ t) = fs !! (old ++ t);
  moved_rest : forall k, below_path new k = false -> fs' !! k = if below_path old k then None else fs !! k;
}.

(** What [Create] has in its staging directory before the rename. *)
Record filled (now : Z) (d : DB) (storage config s : path) (m : Manifest) (fs fs' : FS) : Prop := {
  filled_grows : grows (fun k => below_path s k = true) fs fs';
  filled_manifest : file_at fs' (s ++ [manifestName]) = Some (Marshal m ++ [x0a]);
  filled_verified : backup_verified fs' s m;
  filled_alone : no_sidecars fs' s;
  filled_entries : exists entries, m = MkManifest manifestVersion now (infos entries) /\
    Forall (fun e => file_at fs' (Join s e.1) = Some e.2) entries /\
    (forall p data, safeManifestPath p = true -> file_at fs' (Join s p) = Some data -> p ∈ map fst entries) /\
    ("database/homebox.db", vacuum_into d) ∈ entries /\
    (exists key, ("keys/server_identity.key", key) ∈ entries /\ file_at fs' (KeyPath storage) = Some key) /\
    (exists cfg, ("config.yaml", cfg) ∈ entries /\ file_at fs' config = Some cfg) /\
    (forall n data, HasSuffix n ".hbxblob" = true -> file_at fs (storage ++ ["blobs"; n]) = Some data ->
       (("blobs/" ++ n)%string, data) ∈ entries);
}.

Lemma fill_backup_outcome cwd now rand newkey d storage config q n s fs r fs' : plain_path s = true -> is_dir fs s = true -> fs_ok fs -> names_ok storage fs ->
  (forall r, below_path s (storage ++ r) = false) -> (forall t, t <> [] -> fs !! (s ++ t) = None) ->
  s = q ++ [n] \/ fs !! (q ++ [n]) = None /\ below_path s (q ++ [n]) = false ->
  fill_backup cwd now rand newkey d storage config (q ++ [n]) s fs = (r, fs') ->
  (exists e, r = Err e /\ grows (fun k => below_path s k = true) fs fs') \/
  r = Ok tt /\ exists m fs1, filled now d storage config s m fs fs1 /\ is_dir fs1 q = true /\ moved s (q ++ [n]) fs1 fs'.
Proof.
  intros Hps Hd Hok Hnames Hdisj Hfresh Hdest. unfold fill_backup, mbind at 1, M_bind.
  pose proof (stage_files_grows now s _ d storage config fs (or_introl eq_refl) Hd Hnames Hdisj) as Hw.
  assert (Hfree : forall x, free s x -> (stage_files now d storage config s fs).2 !! x = None).
  { intros x Hx. pose proof (stage_files_grows now s x d storage config fs Hx Hd Hnames Hdisj Hd) as Hwx.
    destruct (decide ((stage_files now d storage config s fs).2 !! x = fs !! x)) as [->|Hne];
      [destruct Hx as [->|(? & _ & ->)]; by apply Hfresh|by apply (grows_at _ _ _ Hwx) in Hne as [_ Hne]]. }
  destruct (stage_files now d storage config s fs) as [[m|e] fs1] eqn:Es; simpl in Hw;
    [|intros [= <- <-]; left; exists e; split; [done|by eapply within_below]].
  cbn [snd] in Hfree. assert (Hx : fs1 !! (s ++ [manifestName]) = None) by (apply Hfree; by left).
  assert (Hd1 : is_dir fs1 s = true) by (eapply is_dir_mono; [|exact Hd]; by apply Hw).
  set (fs2 := <[s ++ [manifestName] := File (Marshal m ++ [x0a])]> fs1).
  assert (Hwrite : writeManifest (Join s manifestName) m fs1 = (Ok tt, fs2)).
  { unfold writeManifest. rewrite (Join_proper s manifestName [manifestName]) by done. by apply WriteFile_new. }
  assert (Hg2 : grows (fun k => below_path s k = true) fs fs2).
  { etrans; [by eapply within_below|]. eapply grows_weaken; [|by apply grows_insert]. intros k _ <-. apply below_path_app. }
  assert (Halone : no_sidecars fs2 s).
  { intros suffix Hsuf. rewrite beside_database. unfold fs2. rewrite lookup_insert_ne by (by intros E%app_inv_head).
    apply Hfree. right. by exists suffix. }
  rewrite (bind_ok _ _ fs1 tt fs2 Hwrite). destruct (verify_spec cwd rand newkey s m fs2 Hps Halone) as [Hpure Hver].
  unfold mbind, M_bind. destruct (verify cwd rand newkey s m fs2) as [[[]|e] fs3] eqn:Ev; simpl in Hpure; subst fs3;
    [|intros [= <- <-]; left; by exists e].
  assert (Hdest2 : s = q ++ [n] \/ fs2 !! (q ++ [n]) = None).
  { destruct Hdest as [|[Hdest Hbelow]]; [by left|right].
    destruct (decide (fs2 !! (q ++ [n]) = fs !! (q ++ [n]))) as [->|Hne]; [done|]. apply (grows_at _ _ _ Hg2) in Hne. congruence. }
  intros [(e & -> & ->)|(-> & _ & Hq & Ht & Hk)]%Rename_outcome; [left; by exists e| |by apply Hg2|done].
  right. split; [done|]. exists m, fs2. split; [|split; [done|split; [intros t; by rewrite <- app_assoc|done]]].
  apply stage_files_ok_inv in Es as (entries & -> & Hst & Hdb & (key & Hke & Hk1) & (cfg & Hce & Hc1) & Hb); [|done..].
  pose proof (grows_sub _ _ _ (grows_insert fs1 s manifestName (File (Marshal (MkManifest manifestVersion now (infos entries)) ++ [x0a])) Hd1 Hx)) as Hs12.
  fold fs2 in Hs12. split; [done| |by apply Hver|done|].
  - apply file_at_snoc. split; [by eapply is_dir_mono|]. unfold fs2. by rewrite lookup_insert_eq.
  - exists entries. split; [done|]. split_and!; [| |done| | |done].
    + eapply Forall_impl; [apply Hst|]. intros e. by apply file_at_mono.
    + intros p data Hp Hf. assert (Hne : Join s p <> s ++ [manifestName]).
      { rewrite (Join_safe s p Hp). intros E%app_inv_head. by apply (Split_safe_manifest p Hp). }
      apply file_at_lookup in Hf. unfold fs2 in Hf. rewrite lookup_insert_ne in Hf by done.
      apply (adds_files_file _ _ _ _ _ (staged_only _ _ _ _ Hst)) in Hf as [Hf|Hin].
      * rewrite (Join_safe s p Hp) in Hf. rewrite Hfresh in Hf; [done|by apply Split_safe_nonempty].
      * apply list_elem_of_fmap in Hin as (e & E & He). apply list_elem_of_fmap. exists e. split; [|done].
        pose proof (bv_listed _ _ _ (proj1 Hver eq_refl)) as Hl. rewrite Forall_forall in Hl.
        destruct (Hl (info_of e.1 e.2)) as [Hse _]; [apply list_elem_of_fmap; by exists e|]. simpl in Hse.
        rewrite (Join_safe s p Hp), (Join_safe s e.1 Hse) in E. apply app_inv_head in E. by apply Split_safe_inj in E.
    + exists key. split; [done|]. by eapply file_at_mono.
    + exists cfg. split; [done|]. by eapply file_at_mono.
Qed.

Lemma or_remove_all_inv {A} (s : path) (m : M FS A) (fs : FS) r fs' : or_remove_all s m fs = (r, fs') ->
  exists fs1, m fs = (r, fs1) /\ fs' = match r with Ok _ => fs1 | Err _ => remove_tree s fs1 end.
Proof. unfold or_remove_all. destruct (m fs) as [[a|e] fs1]; intros [= <- <-]; by exists fs1. Qed.

Lemma distinctPaths_ok cwd sp op src p q : distinctPaths cwd sp op src = Ok (p, q) ->
  p = Abs cwd sp /\ q = Abs cwd op /\ p <> q /\ pathWithin q p = false /\ (src = true -> pathWithin p q = false).
Proof.
  unfold distinctPaths. destruct (bool_decide_reflect (Abs cwd sp = Abs cwd op)) as [|Hne]; [done|].
  destruct (pathWithin (Abs cwd op) (Abs cwd sp)) eqn:E; [done|]. destruct src; simpl.
  - destruct (pathWithin (Abs cwd sp) (Abs cwd op)) eqn:E2; [done|]. by intros [= <- <-].
  - by intros [= <- <-].
Qed.

Lemma Stat_inv p fs b fs' : Stat p fs = (Ok b, fs') -> fs' = fs /\
  if b then exists e, Lstat fs p = Ok (Some e) else Lstat fs p = Ok None.
Proof.
  unfold Stat, query. intros [= H <-]. split; [done|]. destruct (Lstat fs p) as [[e|]|]; simplify_eq; simpl; [by eexists|done].
Qed.

Lemma Lstat_lookup fs p e : Lstat fs p = Ok (Some e) -> p = [] \/ fs !! p = Some e.
Proof. destruct p as [|n p _] using rev_ind; [by left|]. intros [_ H]%Lstat_Some_snoc. by right. Qed.

Lemma Lstat_None_lookup fs p : fs_ok fs -> Lstat fs p = Ok None -> p <> [] /\ fs !! p = None.
Proof.
  intros Hok H. split; [by intros ->|]. destruct (fs !! p) as [e|] eqn:E; [|done].
  rewrite (fs_ok_Lstat fs p Hok) in H by (right; by eexists). destruct p; [done|congruence].
Qed.

Lemma file_at_from fs fs' p e data : fs ⊆ fs' -> Lstat fs p = Ok (Some e) -> file_at fs' p = Some data -> file_at fs p = Some data.
Proof. intros Hs He. unfold file_at. by rewrite (Lstat_mono _ _ _ _ Hs He), He. Qed.

(** What a backup at [root] holds of a storage and its database. *)
Record saved (d : DB) (fs : FS) (storage : path) (fs' : FS) (root : path) : Prop := {
  saved_image : file_at fs' (Join root "database/homebox.db") = Some (vacuum_into d);
  saved_key : exists key, file_at fs (KeyPath storage) = Some key /\ file_at fs' (KeyPath root) = Some key;
  saved_blobs : forall n data, HasSuffix n ".hbxblob" = true -> file_at fs (storage ++ ["blobs"; n]) = Some data ->
    safeManifestPath ("blobs/" ++ n)%string = true /\ file_at fs' (Join root ("blobs/" ++ n)%string) = Some data;
}.

(** The backup at [root] can be restored: its manifest lists and hashes what is
    there, what the storage is made of is listed, and its database has no
    sidecars. *)
Definition whole (fs : FS) (root : path) (m : Manifest) : Prop :=
  file_at fs (root ++ [manifestName]) = Some (Marshal m ++ [x0a]) /\ backup_verified fs root m /\
  (forall p data, safeManifestPath p = true -> file_at fs (Join root p) = Some data -> p ∈ map Path (manifest_Files m)) /\
  manifest_Version m = manifestVersion.
Definition restorable (fs : FS) (root : path) (m : Manifest) : Prop := whole fs root m /\ no_sidecars fs root.

Lemma moved_files s q n fs fs' p : fs_ok fs -> is_dir fs s = true -> s <> [] -> is_dir fs' q = true -> moved s (q ++ [n]) fs fs' ->
  file_at fs' ((q ++ [n]) ++ p) = file_at fs (s ++ p).
Proof.
  intros Hok Hs Hs0 Hq [Ht _]. apply file_at_same; [|done|intros r _; apply Ht].
  apply is_dir_Lstat. rewrite (Lstat_in _ _ _ Hq). rewrite <- (app_nil_r (q ++ [n])), Ht, app_nil_r.
  by destruct (is_dir_lookup fs s Hs) as [| ->].
Qed.

(** A guard that fails leaves everything as it is. *)
Lemma pure_bind_inv {A B : Type} (m : M FS A) (f : A -> M FS B) (fs : FS) r fs' : pure_m m -> (m ≫= f) fs = (r, fs') ->
  (exists e, r = Err e /\ fs' = fs) \/ exists a, m fs = (Ok a, fs) /\ f a fs = (r, fs').
Proof.
  intros Hm. unfold mbind, M_bind. specialize (Hm fs). destruct (m fs) as [[a|e] fs1]; simpl in Hm; subst fs1.
  - intros H. right. by exists a.
  - intros [= <- <-]. left. by exists e.
Qed.

Lemma moved_ok s q n fs fs' : fs_ok fs -> s <> [] -> is_dir fs' q = true -> moved s (q ++ [n]) fs fs' -> fs_ok fs'.
Proof.
  intros Hok Hs Hq [Ht Hk]. pose proof Hok as [H0 H]. split.
  - rewrite Hk by (apply below_path_false; intros r; by destruct q). by case_match.
  - intros p m e Hp. destruct (below_path (q ++ [n]) (p ++ [m])) eqn:Eb.
    + apply below_path_true in Eb as [t Et]. destruct t as [|m' t _] using rev_ind.
      * rewrite app_nil_r in Et. apply app_inj_tail in Et as [-> _]. by apply is_dir_lookup.
      * rewrite app_assoc in Et. apply app_inj_tail in Et as [-> ->]. rewrite <- app_assoc, Ht, app_assoc in Hp.
        right. rewrite Ht. destruct (H _ _ _ Hp) as [E|]; [by destruct s|done].
    + rewrite (Hk _ Eb) in Hp. destruct (below_path s (p ++ [m])) eqn:Es; [done|].
      destruct (H _ _ _ Hp) as [|Hd]; [by left|right]. rewrite Hk.
      * destruct (below_path s p) eqn:Es2; [|done]. apply below_path_true in Es2 as [t ->].
        rewrite <- app_assoc, below_path_app in Es. done.
      * apply below_path_false. intros t ->. by rewrite <- app_assoc, below_path_app in Eb.
Qed.

Section renamed.
Context (q : path) (n t : string) (fs fs0 fs1 fs' : FS).
Let s : path := q ++ [t].
Let dest : path := q ++ [n].
Hypothesis Hok : fs_ok fs.
Hypothesis Hg0 : grows (fun k => k `prefix_of` q /\ k <> []) fs fs0.
Hypothesis Hfresh : fs0 !! s = None.
Hypothesis Hq : is_dir fs0 q = true.
Hypothesis Hdest : fs0 !! dest = None.
Hypothesis Hgf : grows (fun k => below_path s k = true) (<[s := Dir]> fs0) fs1.
Hypothesis Hmv : moved s dest fs1 fs'.

Lemma renamed_ok0 : fs_ok fs0.
Proof. by apply (grows_ok _ _ _ Hg0). Qed.
Lemma renamed_ok1 : fs_ok fs1.
Proof. apply Hgf. apply fs_ok_insert; [apply renamed_ok0|done|done]. Qed.
Lemma renamed_01 k : below_path s k = false -> fs1 !! k = fs0 !! k.
Proof.
  intros Hk. destruct (decide (fs1 !! k = <[s := Dir]> fs0 !! k)) as [->|Hne].
  - apply lookup_insert_ne. intros <-. by rewrite below_path_refl in Hk.
  - apply (grows_at _ _ _ Hgf) in Hne. congruence.
Qed.
Lemma renamed_none r : fs0 !! (s ++ r) = None /\ fs0 !! (dest ++ r) = None.
Proof. split; apply fs_ok_none_below; (apply renamed_ok0 || done || by destruct q). Qed.

Lemma renamed_sub : fs ⊆ fs'.
Proof.
  apply map_subseteq_spec. intros k e Hk. pose proof (lookup_weaken _ _ _ _ Hk (grows_sub _ _ _ Hg0)) as Hk0.
  rewrite (moved_rest _ _ _ _ Hmv).
  - assert (Hb : below_path s k = false) by (apply below_path_false; intros r ->; by rewrite (proj1 (renamed_none r)) in Hk0).
    by rewrite Hb, renamed_01.
  - apply below_path_false. intros r ->. by rewrite (proj2 (renamed_none r)) in Hk0.
Qed.

Lemma renamed_q : is_dir fs' q = true.
Proof.
  assert (H : fs0 ⊆ fs').
  { apply map_subseteq_spec. intros k e Hk0. rewrite (moved_rest _ _ _ _ Hmv).
    - assert (Hb : below_path s k = false) by (apply below_path_false; intros r ->; by rewrite (proj1 (renamed_none r)) in Hk0).
      by rewrite Hb, renamed_01.
    - apply below_path_false. intros r ->. by rewrite (proj2 (renamed_none r)) in Hk0. }
  by eapply is_dir_mono.
Qed.

Lemma renamed_grows : grows (fun k => k `prefix_of` dest \/ dest `prefix_of` k) fs fs'.
Proof.
  split; [apply renamed_sub| |].
  - intros k Hk. destruct (below_path dest k) eqn:Eb; [right; by apply below_path_true in Eb|left].
    rewrite (moved_rest _ _ _ _ Hmv _ Eb) in Hk. destruct (below_path s k) eqn:Es.
    + apply below_path_true in Es as [r ->]. destruct Hk. symmetry.
      destruct (fs !! (s ++ r)) as [e|] eqn:E; [|done]. apply (lookup_weaken _ fs0) in E; [|apply Hg0].
      by rewrite (proj1 (renamed_none r)) in E.
    + rewrite (renamed_01 _ Es) in Hk. apply (grows_at _ _ _ Hg0) in Hk as [Hk _]. etrans; [exact Hk|]. by exists [n].
  - intros _. apply (moved_ok s q n fs1); [apply renamed_ok1|by unfold s; destruct q|apply renamed_q|exact Hmv].
Qed.

Lemma renamed_dir : is_dir fs1 s = true.
Proof.
  apply is_dir_Lstat. eapply Lstat_mono; [apply Hgf|]. unfold s.
  rewrite Lstat_in; [by rewrite lookup_insert_eq|]. eapply is_dir_mono; [|exact Hq]. by apply insert_subseteq.
Qed.

Lemma renamed_files p : file_at fs' (dest ++ p) = file_at fs1 (s ++ p).
Proof. apply moved_files; [apply renamed_ok1|apply renamed_dir|by unfold s; destruct q|apply renamed_q|exact Hmv]. Qed.

Lemma renamed_join p : safeManifestPath p = true -> file_at fs' (Join dest p) = file_at fs1 (Join s p).
Proof. intros Hp. rewrite !(Join_safe _ _ Hp). apply renamed_files. Qed.

Lemma renamed_saved now d storage config m e0 : Lstat fs (KeyPath storage) = Ok (Some e0) ->
  filled now d storage config s m (<[s := Dir]> fs0) fs1 -> saved d fs storage fs' dest.
Proof.
  intros Hkey Hf.
  pose proof (filled_entries _ _ _ _ _ _ _ _ Hf) as (entries & Hm & Hat & Hall & Hdb & (key & Hke & Hk1) & _ & Hb).
  rewrite Forall_forall in Hat. assert (Hsub1 : fs ⊆ fs1).
  { etrans; [apply Hg0|]. etrans; [|apply Hgf]. by apply insert_subseteq. }
  split.
  - rewrite renamed_join by done. apply (Hat _ Hdb).
  - exists key. split; [by apply (file_at_from fs fs1 _ e0)|]. unfold KeyPath. rewrite renamed_join by done. apply (Hat _ Hke).
  - intros name data Hs Hfile.
    assert (Hin : (("blobs/" ++ name)%string, data) ∈ entries).
    { apply Hb; [done|]. eapply file_at_mono; [|exact Hfile]. etrans; [apply Hg0|]. by apply insert_subseteq. }
    pose proof (filled_verified _ _ _ _ _ _ _ _ Hf) as [[Hl _ _] _]. rewrite Hm, Forall_forall in Hl.
    destruct (Hl (info_of ("blobs/" ++ name)%string data)) as [Hsafe _].
    { apply list_elem_of_fmap. by exists (("blobs/" ++ name)%string, data). }
    split; [exact Hsafe|]. rewrite renamed_join; [by apply (Hat _ Hin)|exact Hsafe].
Qed.

Lemma renamed_restorable now d storage config m :
  filled now d storage config s m (<[s := Dir]> fs0) fs1 -> restorable fs' dest m.
Proof.
  intros Hf.
  pose proof (filled_entries _ _ _ _ _ _ _ _ Hf) as (entries & Hm & _ & Hall & _).
  assert (Hn : no_sidecars fs' dest).
  { intros suffix Hsuf. pose proof (filled_alone _ _ _ _ _ _ _ _ Hf suffix Hsuf) as Hn.
    rewrite beside_database in *. by rewrite (moved_tree _ _ _ _ Hmv). }
  split; [|exact Hn]. split; [rewrite renamed_files; apply (filled_manifest _ _ _ _ _ _ _ _ Hf)|]. split; [|split].
  - eapply backup_verified_same; [|apply (filled_verified _ _ _ _ _ _ _ _ Hf)]. intros p Hp. by rewrite renamed_join.
  - intros p data Hp Hfile. rewrite renamed_join in Hfile by done. apply (Hall p data Hp) in Hfile.
    rewrite Hm. simpl. unfold infos. rewrite map_map. exact Hfile.
  - by rewrite Hm.
Qed.
End renamed.

(** ** Creating a backup *)

Lemma names_ok_staging storage q n t fs fs0 : names_ok storage fs -> clean (q ++ [n]) = true ->
  grows (fun k => k `prefix_of` q /\ k <> []) fs fs0 -> pathWithin (q ++ [n]) storage = false ->
  (forall r, below_path (q ++ [t]) (storage ++ r) = false) -> names_ok storage (<[q ++ [t] := Dir]> fs0).
Proof.
  intros Hnames Hc Hg Hw Hdisj m e [[E _]|[_ Hk]]%lookup_insert_Some.
  - specialize (Hdisj ["blobs"; m]). by rewrite <- E, below_path_refl in Hdisj.
  - destruct (decide (fs0 !! (storage ++ ["blobs"; m]) = fs !! (storage ++ ["blobs"; m]))) as [E|Hne].
    + apply (Hnames m e). congruence.
    + apply (grows_at _ _ _ Hg) in Hne as [[u Hu] _]. rewrite Hu, <- !app_assoc in Hw, Hc.
      rewrite pathWithin_below in Hw; [done|done|done].
Qed.

(** A backup that was made: nothing there before has changed, the destination
    is new, holds what was to be saved and can be restored. *)
Record created (now : Z) (d : DB) (storage dest : path) (fs fs' : FS) : Prop := {
  created_new : Lstat fs dest = Ok None;
  created_grows : grows (fun k => k `prefix_of` dest \/ dest `prefix_of` k) fs fs';
  created_saved : saved d fs storage fs' dest;
  created_manifest : exists m, manifest_CreatedAt m = now /\ restorable fs' dest m;
}.

Lemma Create_creates cwd now rand newkey d sp cp dp fs r fs' : clean cwd = true -> plain_names rand -> plain_path (Abs cwd dp) = true ->
  fs_ok fs -> names_ok (Abs cwd sp) fs -> Create cwd now rand newkey (Some d) sp cp dp fs = (r, fs') ->
  (exists e, r = Err e /\ only_parents (Abs cwd dp) fs fs') \/
  r = Ok tt /\ created now d (Abs cwd sp) (Abs cwd dp) fs fs'.
Proof.
  intros Hcwd Hrand Hplain Hok Hnames H. set (dest := Abs cwd dp) in *.
  assert (Hquit : forall e, r = Err e -> fs' = fs -> exists e, r = Err e /\ only_parents dest fs fs')
    by (intros e -> ->; exists e; split; [done|reflexivity]).
  unfold Create in H. apply pure_bind_inv in H as [(e & ? & ?)|(ps & Hp & H)]; [left; by eapply Hquit| |apply pure_lift].
  apply lift_ok_inv in Hp as [Hp _]. destruct ps as [storage dest']. simpl in H.
  apply distinctPaths_ok in Hp as (-> & -> & Hne & Hw & _). fold dest in H, Hne, Hw.
  apply pure_bind_inv in H as [(e & ? & ?)|(? & _ & H)]; [left; by eapply Hquit| |apply pure_throw_if].
  apply pure_bind_inv in H as [(e & ? & ?)|(b1 & Hkey & H)]; [left; by eapply Hquit| |apply pure_query].
  apply pure_bind_inv in H as [(e & ? & ?)|(? & Hb1 & H)]; [left; by eapply Hquit| |apply pure_throw_if].
  apply throw_if_ok_inv in Hb1 as [Hb1%negb_false_iff _]. subst b1. apply Stat_inv in Hkey as [_ [e0 Hkey]].
  change (Lstat fs (KeyPath (Abs cwd sp)) = Ok (Some e0)) in Hkey.
  apply pure_bind_inv in H as [(e & ? & ?)|(b2 & _ & H)]; [left; by eapply Hquit| |apply pure_query].
  apply pure_bind_inv in H as [(e & ? & ?)|(? & _ & H)]; [left; by eapply Hquit| |apply pure_throw_if].
  apply pure_bind_inv in H as [(e & ? & ?)|(b3 & Hd & H)]; [left; by eapply Hquit| |apply pure_query].
  apply pure_bind_inv in H as [(e & ? & ?)|(? & Hb3 & H)]; [left; by eapply Hquit| |apply pure_throw_if].
  apply throw_if_ok_inv in Hb3 as [Hb3 _]. subst b3. apply Stat_inv in Hd as [_ Hd].
  destruct (Lstat_None_lookup _ _ Hok Hd) as [Hdn Hdl]. destruct (path_snoc dest Hdn) as (q & n & Eq).
  assert (Hclean : clean (q ++ [n]) = true) by (rewrite <- Eq; by apply Abs_clean).
  unfold mbind at 1, M_bind in H. pose proof (MkdirAll_grows (parent dest) fs) as Hg.
  destruct (MkdirAll (parent dest) fs) as [[[]|e] fs0] eqn:Em; simpl in Hg; [|injection H as <- <-; left; by exists e].
  unfold mbind, M_bind in H. destruct (MkdirTemp _ _ _ fs0) as [rt fs1] eqn:Et.
  apply MkdirTemp_outcome in Et as [(e & -> & ->)|(st & i & -> & -> & Hq & Hfresh & ->)]; [injection H as <- <-; left; by exists e|].
  rewrite Eq, parent_snoc in *. rewrite plain_path_app in Hplain. apply andb_prop in Hplain as [Hplain _].
  pose proof (plain_temporary q ".homebox-backup-" rand i Hrand Hplain eq_refl ltac:(simpl; lia)) as Hps.
  set (t := (".homebox-backup-" ++ rand i)%string) in *. pose proof (grows_ok _ _ _ Hg Hok) as Hok0.
  assert (Hst : Abs cwd sp = [] \/ is_Some (fs0 !! Abs cwd sp)).
  { rewrite KeyPath_eq in Hkey. change ["keys"; "server_identity.key"] with (["keys"] ++ ["server_identity.key"]) in Hkey.
    rewrite app_assoc in Hkey. apply Lstat_Some_snoc in Hkey as [Hkd _]. apply is_dir_prefix, is_dir_lookup in Hkd as [|Hkd]; [by left|right].
    exists Dir. eapply lookup_weaken; [exact Hkd|apply Hg]. }
  pose proof (staging_outside (Abs cwd sp) q n t fs0 Hclean Hok0 Hst Hfresh Hne Hw) as Hdisj.
  assert (Hdest0 : fs0 !! (q ++ [n]) = None).
  { destruct (decide (fs0 !! (q ++ [n]) = fs !! (q ++ [n]))) as [->|Hx]; [done|].
    apply (grows_at _ _ _ Hg) in Hx as [[u Hu] _]. apply (f_equal List.length) in Hu. rewrite !length_app in Hu. simpl in Hu. lia. }
  assert (Hds : is_dir (<[q ++ [t] := Dir]> fs0) (q ++ [t]) = true).
  { apply is_dir_Lstat. rewrite Lstat_in; [by rewrite lookup_insert_eq|]. eapply is_dir_mono; [|exact Hq]. by apply insert_subseteq. }
  assert (Hsn : q ++ [t] <> []) by by destruct q.
  apply or_remove_all_inv in H as (fs2 & H & ->). apply fill_backup_outcome in H as [(e & -> & Hg2)|(-> & m & fs3 & Hf & _ & Hmv)].
  - left. exists e. split; [done|]. rewrite (remove_staging (q ++ [t]) fs0 fs2 Hok0 Hsn Hfresh Hg2). exact Hg.
  - pose proof (filled_grows _ _ _ _ _ _ _ _ Hf) as Hgf.
    right. split; [done|]. split; [exact Hd|eapply renamed_grows with (t := t); eassumption|eapply renamed_saved with (t := t) (fs0 := fs0); eassumption|].
    exists m. split; [|eapply renamed_restorable with (fs := fs) (t := t); eassumption].
    destruct (filled_entries _ _ _ _ _ _ _ _ Hf) as (entries & -> & _). done.
  - exact Hps.
  - exact Hds.
  - by apply fs_ok_insert.
  - by eapply names_ok_staging.
  - exact Hdisj.
  - intros u Hu. rewrite lookup_insert_ne; [apply fs_ok_none_below; done|]. intros E. rewrite <- (app_nil_r (q ++ [t])) in E at 1.
    apply app_inv_head in E. by subst u.
  - destruct (decide (t = n)) as [->|Htn]; [by left|right]. split.
    + rewrite lookup_insert_ne; [done|]. intros E%app_inv_head. congruence.
    + apply below_path_false. intros u E. rewrite <- app_assoc in E. apply app_inv_head in E. simpl in E. congruence.
Qed.

(** C26. A backup appears whole or not at all, wherever its path has no question
    mark in it, which the SQLite driver would take for the end of the name.  On
    failure nothing is left but missing parents of the destination; on success
    nothing that was there has changed, the destination is new and holds the
    image of the database, the server's key and every blob file of the storage,
    and its manifest lists what is there with sizes and digests that have been
    checked. *)
Theorem Create_all_or_nothing cwd now rand newkey db sp cp dp fs r fs' : clean cwd = true -> plain_names rand ->
  plain_path (Abs cwd dp) = true -> fs_ok fs -> names_ok (Abs cwd sp) fs ->
  Create cwd now rand newkey db sp cp dp fs = (r, fs') ->
  let dest := Abs cwd dp in
  (exists e, r = Err e /\ only_parents dest fs fs') \/
  r = Ok tt /\ Lstat fs dest = Ok None /\ grows (fun k => k `prefix_of` dest \/ dest `prefix_of` k) fs fs' /\
  exists d m, db = Some d /\ saved d fs (Abs cwd sp) fs' dest /\ manifest_CreatedAt m = now /\ restorable fs' dest m.
Proof.
  intros Hcwd Hrand Hplain Hok Hnames H dest. destruct db as [d|]; [|injection H as <- <-; left; by eexists].
  apply Create_creates in H as [H|[-> [Hn Hg Hs (m & Hm & Hr)]]]; [by left| |done..]. right. split_and!; [done..|]. by exists d, m.
Qed.
End roundtrip.
