(* ===== verification/BackupRestore.v ===== *)
(** * Restoring a backup

    A restored storage appears whole or not at all and has been checked, and
    restoring a backup that [Create] made always gives back what it holds. *)

From S2P Require Import Prelude GoText GoTime Uuid Sha256 Schema FileSystem FileSystemLemmas GoPath SqliteFile ServerIdentity Backup BackupCorrect BackupStages BackupRoundtrip.
From Stdlib Require Import Ascii String.
Local Open Scope string_scope.
Local Open Scope list_scope.

Section restore.
Context {U : UuidLib} {K : ECKeys} {J : ManifestJSON} {SQ : Sqlite} {SL : SqliteLaws SQ}.

(** The files of a manifest that belong to the storage. *)
Definition restored (p : string) : bool := negb (String.eqb p "config.yaml").

Lemma safe_split p : safeManifestPath p = true -> restored p = true ->
  exists a b, Split p "/" = [a; b] /\ forall R, Join R p = R ++ [a] ++ [b].
Proof.
  intros Hs Hr. destruct (safe_names p Hs) as [->|(a & b & -> & Ha & Hb & _)]; [done|].
  exists a, b. split; [by apply Split_two|]. intros R. rewrite Join_safe by done. by rewrite Split_two.
Qed.

(** No copy goes to the manifest's name or beside the database. *)
Lemma safe_dir p a b : safeManifestPath p = true -> Split p "/" = [a; b] -> a <> manifestName /\ (a = "database" -> b = "homebox.db").
Proof.
  unfold safeManifestPath. destruct (String.eqb_spec p "config.yaml") as [->|_]; [done|].
  destruct (String.eqb_spec p "database/homebox.db") as [->|_]; [by intros _ [= <- <-]|].
  destruct (String.eqb_spec p "keys/server_identity.key") as [->|_]; [by intros _ [= <- <-]|].
  intros (n & -> & Hn & _)%safeBlobPath_name. change ("blobs/" ++ n)%string with ("blobs" ++ String "/" n)%string. rewrite Split_two by done. by intros [= <- <-].
Qed.

Lemma restore_files_within s x src l : free s x -> Forall (fun f => safeManifestPath (Path f) = true) l ->
  stays (within s x) (restore_files src s l).
Proof.
  intros Hx. induction 1 as [|f l Hs _ IH]; simpl; [apply stays_ret; exact _|].
  destruct (String.eqb (Path f) "config.yaml") eqn:E; [exact IH|]. apply stays_bind; [exact _| |intros _; exact IH].
  destruct (safe_split (Path f) Hs) as (a & b & Hab & Hj); [by unfold restored; rewrite E|]. rewrite (Hj s).
  destruct (safe_dir _ _ _ Hs Hab) as [Hm Hd].
  apply copy_within; [apply free_file; [done..|intros ->; by rewrite Hd]|apply free_dir; [done|by intros ? [= <-]|done]].
Qed.

Lemma restore_files_ok_inv s src l fs fs' : Forall (fun f => safeManifestPath (Path f) = true) l ->
  restore_files src s l fs = (Ok tt, fs') ->
  exists entries, map fst entries = List.filter restored (map Path l) /\ staged s entries fs fs' /\
    Forall (fun e => file_at fs' (Join src e.1) = Some e.2) entries.
Proof.
  intros Hl. revert fs. induction Hl as [|f l Hs _ IH]; intros fs H; simpl in H.
  { injection H as <-. exists []. split; [done|]. split; [apply staged_nil|constructor]. }
  simpl. unfold restored at 1. destruct (String.eqb (Path f) "config.yaml") eqn:E; simpl; [by apply IH|].
  apply bind_ok_inv in H as (info & fs1 & H1 & H).
  destruct (safe_split (Path f) Hs) as (a & b & _ & Hj); [by unfold restored; rewrite E|].
  apply (copy_staged s (Path f) _ _ _ _ _ (s ++ [a]) b) in H1 as (data & Hd & _ & Hst1); [|by rewrite (Hj s), app_assoc|done].
  apply IH in H as (entries & Hm & Hst2 & Hsrc). exists ((Path f, data) :: entries). simpl. rewrite Hm. split; [done|].
  pose proof (staged_sub _ _ _ _ Hst1) as Hs1. pose proof (staged_sub _ _ _ _ Hst2) as Hs2.
  split; [by eapply (staged_app s [_])|]. constructor; [|done]. eapply file_at_mono; [exact Hs2|]. by eapply file_at_mono.
Qed.

(** ** Restoring, whatever the backup *)

Lemma storage_moved s q n fs fs' : fs_ok fs -> is_dir fs s = true -> s <> [] -> is_dir fs' q = true -> moved s (q ++ [n]) fs fs' ->
  storage_verified fs s -> storage_verified fs' (q ++ [n]).
Proof.
  intros Hok Hs Hs0 Hq Hmv. apply storage_verified_same. intros p Hp. rewrite !(Join_safe _ _ Hp). symmetry. by eapply moved_files.
Qed.

(** What a restore has in its staging directory before the rename. *)
Record refilled (src s : path) (m : Manifest) (fs fs' : FS) : Prop := {
  refilled_grows : grows (fun k => below_path s k = true) fs fs';
  refilled_verified : storage_verified fs' s;
  refilled_files : forall f, f ∈ manifest_Files m -> restored (Path f) = true ->
    exists data, file_at fs' (Join src (Path f)) = Some data /\ file_at fs' (Join s (Path f)) = Some data;
}.

(** Nothing beside the staging directory's database to come. *)
Definition clear_sidecars (s : path) (fs : FS) : Prop := forall x, free s x -> fs !! x = None.

Lemma clear_new s fs : s <> [] -> fs_ok fs -> fs !! s = None -> clear_sidecars s (<[s := Dir]> fs).
Proof.
  intros Hs Hok Hn x Hx. assert (exists u, u <> [] /\ x = s ++ u) as (u & Hu & ->) by (destruct Hx as [->|(? & _ & ->)]; eexists; (split; [|reflexivity]); done).
  rewrite lookup_insert_ne; [by apply fs_ok_none_below|]. intros E. rewrite <- (app_nil_r s) in E at 1. apply app_inv_head in E. by subst u.
Qed.

Lemma restored_alone_staging src s m fs fs1 : is_dir fs s = true -> clear_sidecars s fs ->
  Forall (fun f => safeManifestPath (Path f) = true) (manifest_Files m) ->
  restore_files src s (manifest_Files m) fs = (Ok tt, fs1) -> no_sidecars fs1 s.
Proof.
  intros Hd Hc Hsafe H suffix Hsuf. rewrite beside_database. set (x := s ++ _).
  assert (Hx : free s x) by (right; by exists suffix). pose proof (restore_files_within s x src _ Hx Hsafe fs Hd) as Hw.
  rewrite H in Hw. simpl in Hw. destruct (decide (fs1 !! x = fs !! x)) as [->|Hne]; [by apply Hc|].
  by apply (grows_at _ _ _ Hw) in Hne as [_ Hne].
Qed.

Lemma refill_ok cwd rand newkey src s m fs0 fs fs1 : plain_path s = true -> is_dir fs s = true -> clear_sidecars s fs -> backup_listed fs0 src m ->
  restore_files src s (manifest_Files m) fs = (Ok tt, fs1) ->
  grows (fun k => below_path s k = true) fs fs1 /\ (verifyStorage cwd rand newkey s fs1).2 = fs1 /\
  ((verifyStorage cwd rand newkey s fs1).1 = Ok tt <-> storage_verified fs1 s) /\
  ((verifyStorage cwd rand newkey s fs1).1 = Ok tt -> refilled src s m fs fs1).
Proof.
  intros Hp Hd Hc Hv H. assert (Hsafe : Forall (fun f => safeManifestPath (Path f) = true) (manifest_Files m))
    by (eapply Forall_impl; [apply Hv|]; by intros f []).
  pose proof (restored_alone_staging src s m fs fs1 Hd Hc Hsafe H) as Halone.
  pose proof (restore_files_within s _ src _ (or_introl eq_refl) Hsafe fs) as Hw. rewrite H in Hw. simpl in Hw.
  assert (Hg : grows (fun k => below_path s k = true) fs fs1) by by eapply within_below.
  apply restore_files_ok_inv in H as (entries & Hm & Hst & Hsrc); [|done]. split; [done|].
  assert (Hin : forall p, p ∈ map Path (manifest_Files m) -> restored p = true -> exists data, (p, data) ∈ entries).
  { intros p Hpm Hr. assert (Hp' : p ∈ map fst entries) by (rewrite Hm, list_elem_of_In, filter_In, <- list_elem_of_In; done).
    apply list_elem_of_fmap in Hp' as ([p' data] & -> & He). by exists data. }
  assert (Hat : forall p data, (p, data) ∈ entries -> file_at fs1 (Join s p) = Some data /\ file_at fs1 (Join src p) = Some data).
  { intros p data He. pose proof (staged_at _ _ _ _ Hst) as Ha. rewrite Forall_forall in Ha, Hsrc. split; [apply (Ha _ He)|apply (Hsrc _ He)]. }
  destruct (Hin "keys/server_identity.key") as [key Hkey]; [apply Hv; right; by left|done|].
  destruct (Hin "database/homebox.db") as [image Himage]; [apply Hv; by left|done|].
  destruct (verifyStorage_existing cwd rand newkey s fs1 key image Hp) as [H1 H2]; [apply (Hat _ _ Hkey)|apply (Hat _ _ Himage)|exact Halone|].
  split; [done|]. split; [done|].
  intros Hok. split; [done|by apply H2|]. intros f Hf Hr. destruct (Hin (Path f)) as [data He]; [|done|].
  - apply list_elem_of_fmap. by exists f.
  - exists data. split; apply (Hat _ _ He).
Qed.

Lemma fill_storage_outcome cwd rand newkey src s q n m fs0 fs r fs' : plain_path s = true -> is_dir fs s = true -> clear_sidecars s fs ->
  fs_ok fs -> backup_listed fs0 src m ->
  s = q ++ [n] \/ fs !! (q ++ [n]) = None /\ below_path s (q ++ [n]) = false ->
  fill_storage cwd rand newkey src (q ++ [n]) s m fs = (r, fs') ->
  (exists e, r = Err e /\ grows (fun k => below_path s k = true) fs fs') \/
  r = Ok tt /\ exists fs1, refilled src s m fs fs1 /\ is_dir fs1 q = true /\ moved s (q ++ [n]) fs1 fs'.
Proof.
  intros Hp Hd Hc Hok Hv Hdest. unfold fill_storage, mbind at 1, M_bind.
  assert (Hsafe : Forall (fun f => safeManifestPath (Path f) = true) (manifest_Files m))
    by (eapply Forall_impl; [apply Hv|]; by intros f []).
  pose proof (restore_files_within s _ src _ (or_introl eq_refl) Hsafe fs) as Hw.
  destruct (restore_files src s (manifest_Files m) fs) as [[[]|e] fs1] eqn:Er; simpl in Hw;
    [|intros [= <- <-]; left; exists e; split; [done|by eapply within_below]].
  destruct (refill_ok cwd rand newkey src s m fs0 fs fs1 Hp Hd Hc Hv Er) as (Hg & Hpure & _ & Href).
  unfold mbind, M_bind. destruct (verifyStorage cwd rand newkey s fs1) as [[[]|e] fs2]; simpl in Hpure; subst fs2;
    [|intros [= <- <-]; left; by exists e].
  assert (Hdest1 : s = q ++ [n] \/ fs1 !! (q ++ [n]) = None).
  { destruct Hdest as [|[Hdest Hbelow]]; [by left|right].
    destruct (decide (fs1 !! (q ++ [n]) = fs !! (q ++ [n]))) as [->|Hne]; [done|]. apply (grows_at _ _ _ Hg) in Hne. congruence. }
  intros [(e & -> & ->)|(-> & _ & Hq & Ht & Hk)]%Rename_outcome; [left; by exists e| |by apply Hg|done].
  right. split; [done|]. exists fs1. split; [by apply Href|]. split; [done|]. split; [intros t; by rewrite <- app_assoc|done].
Qed.

Lemma readManifest_pure p : pure_m (readManifest p).
Proof.
  apply pure_bind; [apply pure_query|intros data]. destruct (Unmarshal data); [|done].
  apply pure_bind; [apply pure_throw_if|intros _; apply pure_ret].
Qed.

Lemma readManifest_inv p fs m fs' : readManifest p fs = (Ok m, fs') ->
  exists data, file_at fs p = Some data /\ Unmarshal data = Some m.
Proof.
  intros H. apply bind_ok_inv in H as (data & s & Hr & H). unfold ReadFile in Hr. apply query_ok_inv in Hr as [Hr ->].
  exists data. split; [unfold file_at; by destruct (Lstat fs p) as [[[]|]|]; simplify_eq|].
  destruct (Unmarshal data); [|done]. apply bind_ok_inv in H as ([] & s & _ & [= <- _]). done.
Qed.

Lemma Join_manifest R : Join R manifestName = R ++ [manifestName].
Proof. by apply Join_proper. Qed.

(** [fsv] is the disk after the backup at [src] was checked: opening its database
    may have rewritten its files, where a crash had left sidecars. *)
Definition checked (src : path) (fs fsv : FS) : Prop := rewrites (database_path src) fs fsv /\ (no_sidecars fs src -> fsv = fs).

(** A storage that was restored from the manifest [m] of the backup at [src]. *)
Record restored_to (src target : path) (m : Manifest) (fs fsv fs' : FS) : Prop := {
  restored_new : Lstat fs target = Ok None;
  restored_checked : checked src fs fsv;
  restored_grows : grows (fun k => k `prefix_of` target \/ target `prefix_of` k) fsv fs';
  restored_sound : storage_verified fs' target;
  restored_manifest : exists data, file_at fs (src ++ [manifestName]) = Some data /\ Unmarshal data = Some m;
  restored_backup : backup_listed fs src m;
  restored_files : forall f, f ∈ manifest_Files m -> restored (Path f) = true ->
    exists content, file_at fsv (Join src (Path f)) = Some content /\ file_at fs' (Join target (Path f)) = Some content /\
      (Path f <> "database/homebox.db" \/ no_sidecars fs src -> f = info_of (Path f) content);
}.

Lemma checked_refl src fs : checked src fs fs.
Proof. split; [apply rewrites_refl|done]. Qed.

Lemma verify_checked cwd rand newkey src m fs : plain_path src = true -> checked src fs (verify cwd rand newkey src m fs).2.
Proof. intros Hp. split; [by apply verify_rewrites|]. intros Hn. by apply verify_spec. Qed.

(** The backup's other files are what they were. *)
Lemma checked_file src fs fsv p : checked src fs fsv -> safeManifestPath p = true -> p <> "database/homebox.db" ->
  file_at fsv (Join src p) = file_at fs (Join src p).
Proof.
  intros [Hr _] Hs Hp. apply (rewrites_file_at (database_path src)); [done|]. rewrite (Join_safe _ _ Hs). intros Hin.
  assert (Hin' : src ++ Split p "/" = database_path src \/ exists suffix, suffix ∈ sidecars /\ src ++ Split p "/" = beside (database_path src) suffix).
  { unfold database_paths in Hin. apply elem_of_cons in Hin as [|Hin]; [by left|right].
    apply list_elem_of_fmap in Hin as (suffix & E & Hsuf). by exists suffix. }
  destruct Hin' as [E|(suffix & Hsuf & E)].
  - unfold database_path in E. rewrite (Join_safe _ "database/homebox.db" eq_refl) in E. apply app_inv_head in E. by apply Split_safe_inj in E.
  - rewrite beside_database in E. apply app_inv_head in E. apply safe_dir in E as E'; [|done]. destruct E' as [_ E'].
    specialize (E' eq_refl). unfold sidecars in Hsuf. rewrite !elem_of_cons, elem_of_nil in Hsuf. by destruct Hsuf as [->|[->|[->|[]]]].
Qed.

Lemma checked_ok src m fs fsv : fs_ok fs -> backup_listed fs src m -> checked src fs fsv -> fs_ok fsv.
Proof.
  intros Hok Hl [Hr _]. destruct (listed_file fs src m "database/homebox.db" Hl) as [image Hi]; [by left|].
  change (file_at fs (database_path src) = Some image) in Hi. rewrite database_path_eq in *. apply file_at_snoc in Hi as [Hd _].
  by eapply rewrites_ok.
Qed.

(** A target outside the backup is as free as it was. *)
Lemma checked_target src target fs fsv : checked src fs fsv -> clean target = true -> target <> src -> pathWithin target src = false ->
  Lstat fsv target = Lstat fs target.
Proof.
  intros [Hr _] Hc Hne Hw. eapply rewrites_Lstat; [exact Hr|]. intros j [u ->] Hj. rewrite database_path_eq in Hj.
  apply database_paths_in in Hj as [n ->]. rewrite <- !app_assoc in Hw, Hc. simpl in Hw, Hc. by rewrite pathWithin_below in Hw.
Qed.

(** What was copied into the staging directory was there before it was made. *)
Lemma copied_from q t p b fs fsv fs0 fs3 dp content content' : let s := q ++ [t] in rewrites dp fs fsv ->
  grows (fun k => k `prefix_of` q /\ k <> []) fsv fs0 -> fs_ok fs0 -> fs0 !! s = None -> is_dir fs0 q = true ->
  grows (fun k => below_path s k = true) (<[s := Dir]> fs0) fs3 ->
  file_at fs (p ++ [b]) = Some content' -> file_at fs3 (p ++ [b]) = Some content -> file_at fsv (p ++ [b]) = Some content.
Proof.
  intros s Hr Hg Hok0 Hfresh Hq Hgf [Hdp _]%file_at_snoc [_ H3]%file_at_snoc. rewrite <- (rewrites_is_dir _ _ _ p Hr) in Hdp.
  assert (Hsn : s <> []) by (unfold s; by destruct q).
  assert (Hb : below_path s (p ++ [b]) = false).
  { apply below_path_false. intros u E. destruct u as [|x u _] using rev_ind.
    - rewrite app_nil_r in E. rewrite E in H3. assert (fs3 !! s = Some Dir) as E3; [|congruence].
      eapply lookup_weaken; [|apply Hgf]. by rewrite lookup_insert_eq.
    - rewrite app_assoc in E. apply app_inj_tail in E as [-> _]. destruct (is_dir_lookup fsv _ Hdp) as [E|E]; [by destruct s|].
      apply (lookup_weaken _ fs0) in E; [|apply Hg]. by rewrite fs_ok_none_below in E. }
  rewrite (renamed_01 q t fs0 fs3 Hgf _ Hb) in H3. apply file_at_snoc. split; [exact Hdp|].
  destruct (decide (fs0 !! (p ++ [b]) = fsv !! (p ++ [b]))) as [<-|Hne]; [exact H3|].
  apply (grows_at _ _ _ Hg) in Hne as [[u ->] Hk]. apply is_dir_prefix, is_dir_lookup in Hq as [|Hq]; [done|congruence].
Qed.

Lemma restore_done src q n t m data fs fsv fs0 fs3 fs2 : let s := q ++ [t] in let target := q ++ [n] in
  Lstat fs target = Ok None -> checked src fs fsv -> backup_listed fs src m -> file_at fs (src ++ [manifestName]) = Some data -> Unmarshal data = Some m ->
  fs_ok fsv -> grows (fun k => k `prefix_of` q /\ k <> []) fsv fs0 -> fs_ok fs0 -> fs0 !! s = None -> is_dir fs0 q = true -> fs0 !! target = None ->
  is_dir (<[s := Dir]> fs0) s = true -> refilled src s m (<[s := Dir]> fs0) fs3 -> is_dir fs3 q = true -> moved s target fs3 fs2 ->
  restored_to src target m fs fsv fs2.
Proof.
  intros s target Hd Hcheck Hver Hdata Hm Hokv Hg Hok0 Hfresh Hq Hdest0 Hds Hf Hq3 Hmv.
  assert (Hsn : s <> []) by (unfold s; by destruct q).
  assert (Hsub : fsv ⊆ <[s := Dir]> fs0) by (etrans; [apply Hg|by apply insert_subseteq]).
  pose proof (refilled_grows _ _ _ _ _ Hf) as Hgf.
  pose proof (renamed_q q n t fsv fs0 fs3 fs2 Hokv Hg Hfresh Hq Hdest0 Hgf Hmv) as Hq2.
  assert (Hok3 : fs_ok fs3) by (apply Hgf, fs_ok_insert; done). assert (Hd3 : is_dir fs3 s = true) by (eapply is_dir_mono; [apply Hgf|done]).
  split; [exact Hd|exact Hcheck|by eapply (renamed_grows q n t fsv fs0 fs3 fs2)| |by exists data|done|].
  { eapply storage_moved; [..|apply Hf]; eassumption. }
  intros f Hin Hr. destruct (refilled_files _ _ _ _ _ Hf f Hin Hr) as (content & Hc1 & Hc2).
  pose proof (bv_listed _ _ _ Hver) as Hl. rewrite Forall_forall in Hl. destruct (Hl f Hin) as (Hs & content' & Hc' & Hfi).
  destruct (safe_split (Path f) Hs Hr) as (a & b & _ & Hj). rewrite (Hj src), app_assoc in Hc', Hc1.
  assert (Hcv : file_at fsv ((src ++ [a]) ++ [b]) = Some content) by (eapply (copied_from q t); [apply Hcheck|eassumption..]).
  exists content. rewrite (Hj src), app_assoc. split; [exact Hcv|]. split.
  - rewrite (Join_safe s _ Hs) in Hc2. unfold target. rewrite (Join_safe (q ++ [n]) _ Hs), (moved_files s q n fs3 fs2) by done. exact Hc2.
  - intros Hor. assert (file_at fsv ((src ++ [a]) ++ [b]) = Some content') as E; [|congruence]. destruct Hor as [Hp|Hn].
    + rewrite <- app_assoc, <- (Hj src) in Hc' |- *. by rewrite (checked_file src fs fsv).
    + destruct Hcheck as [_ Hsame]. by rewrite (Hsame Hn).
Qed.

Lemma Restore_restores cwd rand newkey sp tp fs r fs' : clean cwd = true -> plain_names rand ->
  plain_path (Abs cwd sp) = true -> plain_path (Abs cwd tp) = true -> fs_ok fs ->
  Restore cwd rand newkey sp tp fs = (r, fs') ->
  (exists e fsv, r = Err e /\ checked (Abs cwd sp) fs fsv /\ only_parents (Abs cwd tp) fsv fs') \/
  r = Ok tt /\ exists m fsv, restored_to (Abs cwd sp) (Abs cwd tp) m fs fsv fs'.
Proof.
  intros Hcwd Hrand Hps Hpt Hok H. set (src := Abs cwd sp) in *. set (target := Abs cwd tp) in *.
  assert (Hquit : forall e fsv, r = Err e -> checked src fs fsv -> fs' = fsv ->
    exists e fsv, r = Err e /\ checked src fs fsv /\ only_parents target fsv fs')
    by (intros e fsv -> Hc ->; exists e, fsv; split_and!; [done..|reflexivity]).
  unfold Restore in H. apply pure_bind_inv in H as [(e & ? & ?)|(ps & Hp & H)]; [left; eapply (Hquit _ fs); [eassumption|apply checked_refl|assumption]| |apply pure_lift].
  apply lift_ok_inv in Hp as [Hp _]. destruct ps as [storage src']. simpl in H.
  apply distinctPaths_ok in Hp as (-> & -> & Hne & _ & Hw). fold src target in H, Hne, Hw. specialize (Hw eq_refl).
  apply pure_bind_inv in H as [(e & ? & ?)|(b & Hd & H)]; [left; eapply (Hquit _ fs); [eassumption|apply checked_refl|assumption]| |apply pure_query].
  apply pure_bind_inv in H as [(e & ? & ?)|(? & Hb & H)]; [left; eapply (Hquit _ fs); [eassumption|apply checked_refl|assumption]| |apply pure_throw_if].
  apply throw_if_ok_inv in Hb as [Hb _]. subst b. apply Stat_inv in Hd as [_ Hd].
  apply pure_bind_inv in H as [(e & ? & ?)|(m & Hm & H)]; [left; eapply (Hquit _ fs); [eassumption|apply checked_refl|assumption]| |apply readManifest_pure].
  apply readManifest_inv in Hm as (data & Hdata & Hm). rewrite Join_manifest in Hdata.
  pose proof (verify_checked cwd rand newkey src m fs Hps) as Hcheck. destruct (verify_rewrites cwd rand newkey src m fs Hps) as [_ Hver].
  unfold mbind at 1, M_bind in H. destruct (verify cwd rand newkey src m fs) as [[[]|e] fsv]; simpl in Hcheck, Hver;
    [|injection H as <- <-; left; by eapply Hquit]. specialize (Hver eq_refl).
  pose proof (checked_ok src m fs fsv Hok Hver Hcheck) as Hokv.
  assert (Hcl : clean target = true) by by apply Abs_clean.
  assert (Hdv : Lstat fsv target = Ok None) by by rewrite (checked_target src target fs fsv).
  destruct (Lstat_None_lookup _ _ Hokv Hdv) as [Hdn Hdl]. destruct (path_snoc target Hdn) as (q & n & Eq).
  unfold mbind at 1, M_bind in H. pose proof (MkdirAll_grows (parent target) fsv) as Hg.
  destruct (MkdirAll (parent target) fsv) as [[[]|e] fs0] eqn:Em; simpl in Hg; [|injection H as <- <-; left; by exists e, fsv].
  unfold mbind, M_bind in H. destruct (MkdirTemp _ _ _ fs0) as [rt fs1] eqn:Et.
  apply MkdirTemp_outcome in Et as [(e & -> & ->)|(st & i & -> & -> & Hq & Hfresh & ->)]; [injection H as <- <-; left; by exists e, fsv|].
  rewrite Eq, parent_snoc in *. pose proof (grows_ok _ _ _ Hg Hokv) as Hok0.
  rewrite plain_path_app in Hpt. apply andb_prop in Hpt as [Hpt _].
  pose proof (plain_temporary q ".homebox-restore-" rand i Hrand Hpt eq_refl ltac:(simpl; lia)) as Hpst.
  set (t := (".homebox-restore-" ++ rand i)%string) in *.
  assert (Hdest0 : fs0 !! (q ++ [n]) = None).
  { destruct (decide (fs0 !! (q ++ [n]) = fsv !! (q ++ [n]))) as [->|Hx]; [done|].
    apply (grows_at _ _ _ Hg) in Hx as [[u Hu] _]. apply (f_equal List.length) in Hu. rewrite !length_app in Hu. simpl in Hu. lia. }
  set (s := q ++ [t]) in *. assert (Hds : is_dir (<[s := Dir]> fs0) s = true).
  { apply is_dir_Lstat. unfold s. rewrite Lstat_in; [by rewrite lookup_insert_eq|]. eapply is_dir_mono; [|exact Hq]. by apply insert_subseteq. }
  assert (Hsn : s <> []) by (unfold s; by destruct q).
  pose proof (clear_new s fs0 Hsn Hok0 Hfresh) as Hclear.
  apply or_remove_all_inv in H as (fs2 & H & ->). apply (fill_storage_outcome _ _ _ _ _ _ _ _ fs) in H as [(e & -> & Hg2)|(-> & fs3 & Hf & Hq3 & Hmv)].
  - left. exists e, fsv. split; [done|]. split; [done|]. rewrite (remove_staging s fs0 fs2 Hok0 Hsn Hfresh Hg2). exact Hg.
  - right. split; [done|]. exists m, fsv. by eapply (restore_done src q n t m data fs fsv fs0 fs3 fs2).
  - exact Hpst.
  - exact Hds.
  - exact Hclear.
  - by apply fs_ok_insert.
  - exact Hver.
  - destruct (decide (t = n)) as [->|Htn]; [by left|right]. split.
    + rewrite lookup_insert_ne; [done|]. intros E%app_inv_head. congruence.
    + apply below_path_false. intros u E. unfold s in E. rewrite <- app_assoc in E. apply app_inv_head in E. simpl in E. congruence.
Qed.


(** ** Restoring what [Create] made *)

(** Room in the staging directory: nothing but directories at its top, and
    nothing where the files go. *)
Record room (s : path) (l : list FileInfo) (fs : FS) : Prop := {
  room_dir : is_dir fs s = true;
  room_top : forall a, fs !! (s ++ [a]) = None \/ fs !! (s ++ [a]) = Some Dir;
  room_files : forall f, f ∈ l -> restored (Path f) = true -> fs !! (Join s (Path f)) = None;
}.

Lemma restore_files_succeeds src s l fs : Forall (file_listed fs src) l -> NoDup (map Path l) -> room s l fs ->
  exists fs', restore_files src s l fs = (Ok tt, fs').
Proof.
  revert fs. induction l as [|f l IH]; intros fs Hl Hnd Hroom; simpl; [by eexists|].
  apply Forall_cons in Hl as [(Hs & data & Hd & _) Hl]. apply NoDup_cons in Hnd as [Hn Hnd]. destruct Hroom as [Hdir Htop Hfiles].
  destruct (String.eqb (Path f) "config.yaml") eqn:E.
  { apply IH; [done..|]. split; [done..|]. intros g Hg. apply Hfiles. by right. }
  assert (Hr : restored (Path f) = true) by (unfold restored; by rewrite E).
  destruct (safe_split (Path f) Hs Hr) as (a & b & Hab & Hj).
  destruct (copy_succeeds (Join src (Path f)) s [a] b (Path f) fs data Hd Hdir) as (info & fs1 & Hcopy).
  { right. exists a. split; [done|apply Htop]. }
  { rewrite <- Hj. apply Hfiles; [by left|done]. }
  rewrite (Hj s). rewrite (bind_ok _ _ fs info fs1 Hcopy). rewrite app_assoc in Hcopy. apply copy_ok_inv in Hcopy as (data' & _ & _ & Hsub & _ & Hnew & Hat).
  rewrite <- app_assoc in Hnew.
  apply IH; [|done|split].
  - eapply Forall_impl; [exact Hl|]. intros g (Hg & dg & Hdg & Hi). split; [done|]. exists dg. split; [by eapply file_at_mono|done].
  - by eapply is_dir_mono.
  - intros c. destruct (fs1 !! (s ++ [c])) as [e|] eqn:Ec; [right|by left].
    apply Hnew in Ec as [Ec|[->|Ec]]; [|done|].
    + destruct (Htop c) as [Hc|Hc]; congruence.
    + apply list_elem_of_singleton in Ec. by apply app_inv_head in Ec.
  - intros g Hg Hrg. assert (Hsg : safeManifestPath (Path g) = true) by (rewrite Forall_forall in Hl; by destruct (Hl g Hg)).
    assert (Hfg : fs !! (Join s (Path g)) = None) by (apply Hfiles; [by right|done]).
    destruct (decide (fs1 !! (Join s (Path g)) = fs !! (Join s (Path g)))) as [->|Hne]; [done|exfalso].
    destruct (safe_split (Path g) Hsg Hrg) as (a' & b' & Hab' & Hj'). rewrite (Hj' s) in Hne.
    apply (grows_at _ _ _ Hat) in Hne as [[t Ht]|Heq].
    + apply (f_equal List.length) in Ht. rewrite !length_app in Ht. simpl in Ht. lia.
    + rewrite <- app_assoc in Heq. apply app_inv_head in Heq. injection Heq as -> ->.
      apply Hn. rewrite (Split_safe_inj (Path f) (Path g)) by (done || congruence). apply list_elem_of_fmap. by exists g.
Qed.

(** From a backup with everything listed, the staging directory becomes a sound storage. *)
Lemma refill_succeeds cwd rand newkey src s m fs : plain_path s = true -> clear_sidecars s fs -> whole fs src m -> room s (manifest_Files m) fs ->
  exists fs', restore_files src s (manifest_Files m) fs = (Ok tt, fs') /\ verifyStorage cwd rand newkey s fs' = (Ok tt, fs') /\
    is_dir fs' s = true /\ grows (fun k => below_path s k = true) fs fs'.
Proof.
  intros Hps Hclear (_ & Hv & Hall & _) Hroom. destruct (restore_files_succeeds src s (manifest_Files m) fs) as [fs1 H1]; [apply Hv..|done|].
  exists fs1. split; [done|].
  destruct (refill_ok cwd rand newkey src s m fs fs fs1) as (Hg & Hpure & Hver & _); [done|apply Hroom|done|apply Hv|done|].
  apply restore_files_ok_inv in H1 as (entries & Hm & Hst & Hsrc); [|eapply Forall_impl; [apply Hv|]; by intros f []].
  assert (Hsub : forall p data, safeManifestPath p = true -> p <> "config.yaml" -> file_at fs (Join src p) = Some data ->
    file_at fs1 (Join s p) = Some data).
  { intros p data Hp Hc Hf. assert (Hin : p ∈ map fst entries).
    { rewrite Hm, list_elem_of_In, filter_In, <- list_elem_of_In. split; [by eapply Hall|]. unfold restored. by destruct (String.eqb_spec p "config.yaml"). }
    apply list_elem_of_fmap in Hin as ([p' data'] & -> & Hin). pose proof (staged_at _ _ _ _ Hst) as Ha.
    rewrite Forall_forall in Ha, Hsrc. specialize (Ha _ Hin). specialize (Hsrc _ Hin). simpl in *.
    apply (file_at_mono fs fs1) in Hf; [congruence|]. by apply (grows_sub _ _ _ Hg). }
  assert (Hs : storage_verified fs1 s) by (eapply storage_verified_sub; [exact Hsub|apply Hv]).
  split; [|split; [eapply is_dir_mono; [by apply Hg|apply Hroom]|done]].
  rewrite (surjective_pairing (verifyStorage cwd rand newkey s fs1)), Hpure. f_equal. by apply Hver.
Qed.

Lemma fill_storage_succeeds cwd rand newkey src q n t m fs : let s := q ++ [t] in
  plain_path s = true -> clear_sidecars s fs -> whole fs src m -> room s (manifest_Files m) fs -> is_dir fs q = true -> t = n \/ fs !! (q ++ [n]) = None ->
  exists fs', fill_storage cwd rand newkey src (q ++ [n]) s m fs = (Ok tt, fs').
Proof.
  intros s Hps Hc Hr Hroom Hq Hdest. destruct (refill_succeeds cwd rand newkey src s m fs Hps Hc Hr Hroom) as (fs1 & H1 & H2 & Hd & Hg).
  unfold fill_storage. rewrite (bind_ok _ _ fs tt fs1 H1), (bind_ok _ _ fs1 tt fs1 H2).
  destruct (decide (t = n)) as [<-|Htn].
  - exists fs1. unfold Rename, exec. fold s. rewrite Hd. simpl. by rewrite bool_decide_eq_true_2.
  - assert (Hb : below_path s (q ++ [n]) = false).
    { apply below_path_false. intros u E. unfold s in E. rewrite <- app_assoc in E. apply app_inv_head in E. simpl in E. congruence. }
    destruct Hdest as [|Hdest]; [done|]. apply Rename_succeeds; [done|by eapply is_dir_mono; [apply Hg|]|done|].
    destruct (decide (fs1 !! (q ++ [n]) = fs !! (q ++ [n]))) as [->|Hne]; [done|]. apply (grows_at _ _ _ Hg) in Hne. congruence.
Qed.

(** New directories make no difference to a backup. *)
Lemma whole_dirs fs fs' src m : fs_ok fs -> fs ⊆ fs' -> adds_files [] fs fs' -> whole fs src m -> whole fs' src m.
Proof.
  intros Hok Hs Ha (Hm & Hv & Hall & Hver). split; [by eapply file_at_mono|]. split; [by eapply backup_verified_mono|]. split; [|done].
  intros p data Hp Hf. apply (Hall p data Hp). apply file_at_lookup in Hf.
  apply (adds_files_file _ _ _ _ _ Ha) in Hf as [Hf|Hf]; [|by apply not_elem_of_nil in Hf].
  by apply lookup_file_at.
Qed.

(** The tree at [p] is at [p'] of another file system. *)
Definition same_tree (fs fs' : FS) (p p' : path) : Prop :=
  is_dir fs' p' = true /\ forall r, r <> [] -> fs' !! (p' ++ r) = fs !! (p ++ r).

Lemma restorable_same fs fs' p p' m : same_tree fs fs' p p' -> restorable fs p m -> restorable fs' p' m.
Proof.
  intros [Hd Ht] [(Hm & Hv & Hall & Hver) Hn]. assert (Hp : is_dir fs p = true) by by apply file_at_snoc in Hm as [? _].
  assert (Hsame : forall r, file_at fs (p ++ r) = file_at fs' (p' ++ r)) by (intros r; apply file_at_same; [done..|intros r' Hr; by rewrite Ht]).
  assert (Hj : forall f, safeManifestPath f = true -> file_at fs (Join p f) = file_at fs' (Join p' f))
    by (intros f Hf; by rewrite !(Join_safe _ _ Hf)).
  split; [|intros suffix Hsuf; specialize (Hn suffix Hsuf); rewrite beside_database in *; by rewrite Ht].
  split; [by rewrite <- Hsame|]. split; [by eapply backup_verified_same|]. split; [|done].
  intros f data Hf Hfile. apply (Hall f data Hf). by rewrite (Hj f Hf).
Qed.

Lemma read_manifest_ok p m fs : file_at fs p = Some (Marshal m ++ [x0a]) -> Unmarshal (Marshal m ++ [x0a]) = Some m ->
  manifest_Version m = manifestVersion -> manifest_CreatedAt m <> zero_time -> (3 <= List.length (manifest_Files m))%nat ->
  readManifest p fs = (Ok m, fs).
Proof.
  intros Hf Hu Hv Hc Hn. unfold readManifest. rewrite (bind_ok _ _ fs (Marshal m ++ [x0a]) fs).
  - rewrite Hu. rewrite throw_if_bind; [done|]. rewrite Hv, Z.eqb_refl. apply Z.eqb_neq in Hc. rewrite Hc. simpl. apply Nat.ltb_ge. exact Hn.
  - unfold ReadFile, query. unfold file_at in Hf. by destruct (Lstat fs p) as [[[]|]|]; simplify_eq.
Qed.

(** The three files every backup has. *)
Lemma enough_files fs src m : backup_verified fs src m -> (3 <= List.length (manifest_Files m))%nat.
Proof.
  intros [[_ _ Hr] _]. rewrite <- (length_map Path).
  apply (submseteq_length required_files), NoDup_submseteq; [|exact Hr]. apply (bool_decide_unpack _). by vm_compute.
Qed.

Lemma room_new s l fs : s <> [] -> fs_ok fs -> fs !! s = None -> is_dir (<[s := Dir]> fs) s = true ->
  Forall (fun f => safeManifestPath (Path f) = true) l -> room s l (<[s := Dir]> fs).
Proof.
  intros Hs Hok Hn Hd Hl. assert (Hnew : forall r, r <> [] -> <[s := Dir]> fs !! (s ++ r) = None).
  { intros r Hr. rewrite lookup_insert_ne; [by apply fs_ok_none_below|]. intros E. apply (f_equal List.length) in E.
    rewrite length_app in E. destruct r; [done|]. simpl in E. lia. }
  split; [done| |].
  - intros a. left. by apply Hnew.
  - intros f Hf _. rewrite Forall_forall in Hl. rewrite Join_safe by auto. apply Hnew, Split_safe_nonempty. by apply Hl.
Qed.

Lemma Restore_succeeds cwd rand newkey sp tp m fs : plain_names rand -> plain_path (Abs cwd sp) = true -> plain_path (Abs cwd tp) = true -> fs_ok fs ->
  distinctPaths cwd tp sp true = Ok (Abs cwd tp, Abs cwd sp) -> restorable fs (Abs cwd sp) m ->
  Unmarshal (Marshal m ++ [x0a]) = Some m -> manifest_CreatedAt m <> zero_time ->
  Lstat fs (Abs cwd tp) = Ok None -> fs !! (parent (Abs cwd tp) ++ [(".homebox-restore-" ++ rand 0%nat)%string]) = None ->
  exists fs', Restore cwd rand newkey sp tp fs = (Ok tt, fs').
Proof.
  intros Hrand Hps Hpt Hok Hpaths Hr Hu Hc Hl Hfree. destruct Hr as [Hr Halone]. set (src := Abs cwd sp) in *. set (target := Abs cwd tp) in *.
  unfold Restore. rewrite Hpaths. rewrite (bind_ok _ _ fs (target, src) fs eq_refl). cbn [fst snd].
  rewrite (bind_ok _ _ fs false fs) by (unfold Stat, query; by rewrite Hl). rewrite throw_if_bind by done.
  rewrite (bind_ok _ _ fs m fs).
  2:{ rewrite Join_manifest. apply read_manifest_ok; [apply Hr|done|apply Hr|done|eapply enough_files, Hr]. }
  rewrite (bind_ok _ _ fs tt fs).
  2:{ destruct (verify_spec cwd rand newkey src m fs Hps Halone) as [Hp Hv]. rewrite (surjective_pairing (verify cwd rand newkey src m fs)), Hp. f_equal. by apply Hv, Hr. }
  destruct (Lstat_None_lookup _ _ Hok Hl) as [Hne Hnone]. destruct (path_snoc target Hne) as (q & n & Eq). rewrite Eq, parent_snoc in *.
  destruct (MkdirAll_succeeds q fs) as [fs0 Hm]; [intros r a Hpre; eapply (Lstat_None_way _ (q ++ [n])); [done..|by apply prefix_app_r]|].
  rewrite (bind_ok _ _ fs tt fs0 Hm). pose proof (MkdirAll_files q fs) as Hfiles. rewrite Hm in Hfiles. simpl in Hfiles.
  apply MkdirAll_ok_inv in Hm as [Hdir Hg].
  assert (Hkeep : forall a, fs !! (q ++ [a]) = None -> fs0 !! (q ++ [a]) = None).
  { intros a Ha. destruct (decide (fs0 !! (q ++ [a]) = fs !! (q ++ [a]))) as [->|Hx]; [done|].
    apply (grows_at _ _ _ Hg) in Hx as [[u Hx] _]. apply (f_equal List.length) in Hx. rewrite !length_app in Hx. simpl in Hx. lia. }
  rewrite (bind_ok _ _ fs0 _ _ (MkdirTemp_new q ".homebox-restore-" rand fs0 Hdir (Hkeep _ Hfree))).
  set (t := (".homebox-restore-" ++ rand 0%nat)%string) in *. pose proof (Hkeep _ Hfree) as Hfree0. pose proof (Hkeep _ Hnone) as Hnone0.
  assert (Hs1 : fs0 ⊆ <[q ++ [t] := Dir]> fs0) by by apply insert_subseteq.
  rewrite plain_path_app in Hpt. apply andb_prop in Hpt as [Hpt _]. pose proof (grows_ok _ _ _ Hg Hok) as Hok0.
  destruct (fill_storage_succeeds cwd rand newkey src q n t m (<[q ++ [t] := Dir]> fs0)) as [fs' Hf].
  - apply (plain_temporary q ".homebox-restore-"); [done..|simpl; lia].
  - by apply clear_new; [destruct q|..].
  - apply (whole_dirs fs); [done|etrans; [apply Hg|done]| |done]. etrans; [exact Hfiles|].
    intros j e [[_ <-]|[_ Hj]]%lookup_insert_Some; [by right; left|by left].
  - apply room_new; [by destruct q|apply (grows_ok _ _ _ Hg Hok)|done| |].
    { apply is_dir_Lstat. rewrite Lstat_in; [by rewrite lookup_insert_eq|by eapply is_dir_mono]. }
    eapply Forall_impl; [apply Hr|]. by intros f [].
  - by eapply is_dir_mono.
  - destruct (decide (t = n)) as [|Htn]; [by left|right]. rewrite lookup_insert_ne; [done|]. intros E%app_inv_head. congruence.
  - exists fs'. unfold or_remove_all. by rewrite Hf.
Qed.

Lemma saved_moved d fs storage fs1 fs2 dest target : saved d fs storage fs1 dest ->
  (forall p data, safeManifestPath p = true -> p <> "config.yaml" -> file_at fs1 (Join dest p) = Some data -> file_at fs2 (Join target p) = Some data) ->
  saved d fs storage fs2 target.
Proof.
  intros [Hi (key & Hk & Hk') Hb] Hsub. split.
  - by apply Hsub.
  - exists key. split; [done|]. by apply Hsub.
  - intros n data Hs Hf. destruct (Hb n data Hs Hf) as [Hsafe Hd]. split; [done|]. by apply Hsub.
Qed.

(** C25. What [Create] saved, [Restore] gives back: take a backup of a storage,
    lose everything else, move the backup's directory anywhere, change the rest
    of the disk as you like; as long as the target is free, and neither it nor
    the two places of the backup have a question mark in their paths, the
    restore succeeds, and the new storage holds the image of the database the
    backup was taken of, the server's key and every blob file, checked against
    the database's rows. *)
Theorem backup_roundtrip cwd now rand newkey d sp cp dp fs fs1 cwd' rand' newkey' sp' tp fs2 :
  clean cwd = true -> plain_names rand -> plain_path (Abs cwd dp) = true ->
  fs_ok fs -> names_ok (Abs cwd sp) fs -> Create cwd now rand newkey (Some d) sp cp dp fs = (Ok tt, fs1) ->
  (forall m, manifest_CreatedAt m = now -> backup_verified fs1 (Abs cwd dp) m -> Unmarshal (Marshal m ++ [x0a]) = Some m) -> now <> zero_time ->
  clean cwd' = true -> plain_names rand' -> plain_path (Abs cwd' sp') = true -> plain_path (Abs cwd' tp) = true ->
  fs_ok fs2 -> same_tree fs1 fs2 (Abs cwd dp) (Abs cwd' sp') ->
  is_ok (distinctPaths cwd' tp sp' true) = true -> Lstat fs2 (Abs cwd' tp) = Ok None ->
  fs2 !! (parent (Abs cwd' tp) ++ [(".homebox-restore-" ++ rand' 0%nat)%string]) = None ->
  exists fs3, Restore cwd' rand' newkey' sp' tp fs2 = (Ok tt, fs3) /\
    saved d fs (Abs cwd sp) fs3 (Abs cwd' tp) /\ storage_verified fs3 (Abs cwd' tp) /\ fs2 ⊆ fs3.
Proof.
  intros Hcwd Hrand Hdp Hok Hnames Hcreate Hjson Hnow Hcwd' Hrand' Hsp Htp Hok2 Hsame Hpaths Hfree Htmp.
  apply Create_creates in Hcreate as [(e & [=] & _)|[_ [_ _ Hsaved (m & Hm & Hr)]]]; [|done..].
  destruct (distinctPaths cwd' tp sp' true) as [[target src]|] eqn:Ep; [|done]. pose proof Ep as Ep'.
  apply distinctPaths_ok in Ep' as (-> & -> & _). pose proof (restorable_same _ _ _ _ _ Hsame Hr) as Hr2.
  specialize (Hjson m Hm (proj1 (proj2 (proj1 Hr)))).
  destruct (Restore_succeeds cwd' rand' newkey' sp' tp m fs2) as [fs3 H3]; [done..|by rewrite Hm|done|done|]. exists fs3. split; [done|].
  pose proof H3 as Hout. apply Restore_restores in Hout as [(e & fsv & [=] & _)|[_ (m' & fsv & Hto)]]; [|done..].
  assert (m' = m) as ->.
  { destruct (restored_manifest _ _ _ _ _ _ Hto) as (data & Hd & Hu). destruct Hr2 as [[Hd' _] _]. rewrite Hd in Hd'. injection Hd' as ->.
    rewrite Hjson in Hu. by injection Hu. }
  assert (fsv = fs2) as -> by (apply (restored_checked _ _ _ _ _ _ Hto), Hr2).
  split; [|split; [apply Hto|apply (grows_sub _ _ _ (restored_grows _ _ _ _ _ _ Hto))]].
  assert (Hd1 : is_dir fs1 (Abs cwd dp) = true) by (destruct Hr as [[Hr _] _]; by apply file_at_snoc in Hr as [? _]).
  apply (saved_moved _ _ _ fs1 _ (Abs cwd dp)); [done|].
  intros p data Hp Hc Hf. assert (Hin : p ∈ map Path (manifest_Files m)) by (destruct Hr as [(_ & _ & Hall & _) _]; by eapply Hall).
  apply list_elem_of_fmap in Hin as (f & -> & Hin). destruct (restored_files _ _ _ _ _ _ Hto f Hin) as (content & Hsrc & Htgt & _).
  { unfold restored. by destruct (String.eqb_spec (Path f) "config.yaml"). }
  rewrite Htgt, <- Hsrc, <- Hf, !(Join_safe _ _ Hp). symmetry. apply file_at_same; [done|apply Hsame|]. intros r Hr'. symmetry. by apply Hsame.
Qed.
End restore.
