(* ===== verification/ServerIdentityCorrect.v ===== *)
(** * Correctness of the server's identity

    The key file is written whole and once: whoever opens the storage later
    gets the identity the first one got. *)

From S2P Require Import Prelude GoText Sha256 Auth AuthCorrect FileSystem FileSystemLemmas ServerIdentity Backup BackupCorrect.
From Stdlib Require Import Ascii String.
Local Open Scope string_scope.
Local Open Scope list_scope.

Lemma create_temp_outcome fuel dir prefix suffix rand data i fs r fs' : create_temp fuel dir prefix suffix rand data i fs = (r, fs') ->
  (exists e, r = Err e /\ fs' = fs) \/
  exists n, r = Ok (dir ++ [n]) /\ is_dir fs dir = true /\ fs !! (dir ++ [n]) = None /\ fs' = <[dir ++ [n] := File data]> fs.
Proof.
  revert i. induction fuel as [|fuel IH]; intros i; simpl; [intros [= <- <-]; left; by eexists|].
  set (p := dir ++ [_]). unfold mbind at 1, M_bind, query. destruct (Lstat fs p) as [[e|]|e] eqn:El.
  - apply IH.
  - destruct (CreateFile p data fs) as [[[]|e] fs1] eqn:Em; unfold mbind, M_bind; rewrite Em; intros [= <- <-].
    + right. apply CreateFile_ok_inv in Em as (q & n & Ep & Hd & Hn & ->). unfold p in Ep at 1.
      apply app_inj_tail in Ep as [<- _]. by eexists.
    + left. exists e. split; [done|]. unfold CreateFile, exec in Em. case_match; [done|]. by injection Em as _ <-.
  - intros [= <- <-]. left. by eexists.
Qed.

(** A file is put in place whole, over nothing, and no temporary one stays. *)
Lemma writeKeyFile_outcome rand q n data fs r fs' : is_dir fs q = true -> fs !! (q ++ [n]) = None ->
  writeKeyFile rand (q ++ [n]) data fs = (r, fs') ->
  (exists e, r = Err e /\ fs' = fs) \/ r = Ok tt /\ fs' = <[q ++ [n] := File data]> fs.
Proof.
  intros Hq Hn. unfold writeKeyFile. rewrite parent_snoc. unfold mbind at 1, M_bind.
  destruct (CreateTemp q _ _ rand data fs) as [rt fs1] eqn:Et.
  apply create_temp_outcome in Et as [(e & -> & ->)|(t & -> & _ & Ht & ->)]; [intros [= <- <-]; left; by eexists|].
  set (fs1 := <[q ++ [t] := File data]> fs). assert (Hs : fs ⊆ fs1) by by apply insert_subseteq.
  assert (Hq1 : is_dir fs1 q = true) by by eapply is_dir_mono.
  assert (Hback : delete (q ++ [t]) fs1 = fs) by by apply delete_insert_id.
  unfold finally_remove. destruct (decide (t = n)) as [->|Hne].
  - (* the name the generator gave is the key's own *)
    unfold mbind at 1, M_bind, query. rewrite (Lstat_in fs1 q n Hq1). unfold fs1 at 1. rewrite lookup_insert_eq.
    intros [= <- <-]. left. eexists. split; [done|exact Hback].
  - assert (Hn1 : fs1 !! (q ++ [n]) = None) by (unfold fs1; rewrite lookup_insert_ne; [done|]; intros E%app_inv_head; congruence).
    unfold mbind at 1, M_bind, query. rewrite (Lstat_in fs1 q n Hq1), Hn1. unfold mbind, M_bind, throw_if, RenameFile, exec.
    rewrite (Lstat_in fs1 q n Hq1), Hn1, (Lstat_in fs1 q t Hq1). unfold fs1 at 1. rewrite lookup_insert_eq, parent_snoc, Hback.
    rewrite Hq1. intros [= <- <-]. right. split; [done|].
    rewrite delete_insert_ne by (intros E%app_inv_head; congruence). f_equal. by apply delete_id.
Qed.

Section identity.
Context {K : ECKeys}.

(** Reading back what was written. *)
Lemma identity_of_written `{!ECKeysLaws K} key der : MarshalECPrivateKey key = Some der ->
  identity_of (list_byte_of_string (std_encode der)) = newIdentity key.
Proof.
  intros H. unfold identity_of. rewrite string_of_list_byte_of_string, std_decode_encode. simpl. by rewrite (parse_marshal _ _ H).
Qed.

Lemma KeyPath_snoc root : KeyPath root = parent (KeyPath root) ++ ["server_identity.key"].
Proof.
  rewrite KeyPath_eq. change ["keys"; "server_identity.key"] with (["keys"] ++ ["server_identity.key"]). by rewrite app_assoc, parent_snoc.
Qed.

(** What [LoadOrCreate] does where no key file is. *)
Lemma LoadOrCreate_missing rand key root fs r fs' : fs_ok fs -> file_at fs (KeyPath root) = None ->
  LoadOrCreate rand key root fs = (r, fs') ->
  exists fs0, grows (fun k => k `prefix_of` parent (KeyPath root) /\ k <> []) fs fs0 /\
    ((exists e, r = Err e /\ fs' = fs0) \/
     exists der, MarshalECPrivateKey key = Some der /\ r = newIdentity key /\ is_dir fs0 (parent (KeyPath root)) = true /\
       fs0 !! KeyPath root = None /\ fs' = <[KeyPath root := File (list_byte_of_string (std_encode der))]> fs0).
Proof.
  intros Hok Hnone H. unfold LoadOrCreate in H. pose proof (KeyPath_snoc root) as Hp. set (kp := KeyPath root) in *. set (q := parent kp) in *.
  unfold mbind at 1, M_bind in H. pose proof (MkdirAll_grows q fs) as Hg.
  destruct (MkdirAll q fs) as [[[]|e] fs0] eqn:Em; simpl in Hg; exists fs0; (split; [exact Hg|]);
    [|injection H as <- <-; left; by eexists].
  apply MkdirAll_ok_inv in Em as [Hdir _]. unfold mbind at 1, M_bind, query, ReadFile, query in H. simpl in H.
  rewrite Hp, (Lstat_in _ _ _ Hdir), <- Hp in H. destruct (fs0 !! kp) as [[|data|]|] eqn:Ek.
  - rewrite bool_decide_eq_false_2 in H by done. injection H as <- <-. left. by eexists.
  - exfalso. destruct (decide (fs0 !! kp = fs !! kp)) as [E|Hne].
    + rewrite E in Ek. by rewrite (lookup_file_at _ _ _ Hok Ek) in Hnone.
    + apply (grows_at _ _ _ Hg) in Hne as [[u Hu] _]. rewrite Hp in Hu at 1. apply (f_equal List.length) in Hu.
      rewrite !length_app in Hu. simpl in Hu. lia.
  - rewrite bool_decide_eq_false_2 in H by done. injection H as <- <-. left. by eexists.
  - rewrite bool_decide_eq_true_2 in H by done. destruct (MarshalECPrivateKey key) as [der|] eqn:Eder; [|injection H as <- <-; left; by eexists].
    unfold mbind, M_bind in H. destruct (writeKeyFile rand kp _ fs0) as [rw fs1] eqn:Ew. rewrite Hp in Ew, Ek.
    apply writeKeyFile_outcome in Ew as [(e & -> & ->)|[-> ->]]; [injection H as <- <-; left; by eexists| |done..].
    injection H as <- <-. right. exists der. rewrite <- Hp in *. done.
Qed.

(** C30. The identity is made once.  Where the storage has a key file, opening
    it changes nothing on the disk; where it has none, the one new file is the
    key, whole, and no temporary file stays; and when an identity was returned,
    everyone who opens the storage later, with whatever fresh key and names and
    whatever else changed on the disk, gets the same identity and leaves the
    disk alone, so that the fingerprint clients pinned stays valid. *)
Theorem LoadOrCreate_stable `{!ECKeysLaws K} rand key root fs r fs' : fs_ok fs -> LoadOrCreate rand key root fs = (r, fs') ->
  fs ⊆ fs' /\
  (forall k, fs' !! k <> fs !! k -> k = KeyPath root \/ k `prefix_of` parent (KeyPath root)) /\
  (forall data, file_at fs (KeyPath root) = Some data -> fs' = fs) /\
  forall ident, r = Ok ident -> exists data, file_at fs' (KeyPath root) = Some data /\
    forall fs2 rand2 key2, file_at fs2 (KeyPath root) = Some data -> LoadOrCreate rand2 key2 root fs2 = (Ok ident, fs2).
Proof.
  intros Hok H. destruct (file_at fs (KeyPath root)) as [data|] eqn:Ek.
  { rewrite (LoadOrCreate_existing rand key root fs data Ek) in H. injection H as <- <-. split_and!; [done..|].
    intros ident Hi. exists data. split; [done|]. intros fs2 rand2 key2 H2. by rewrite (LoadOrCreate_existing _ _ _ _ _ H2), Hi. }
  apply LoadOrCreate_missing in H as (fs0 & Hg & [(e & -> & ->)|(der & Hder & -> & Hdir & Hn & ->)]); [| |done..].
  - split_and!; [apply Hg|intros k Hk; right; by apply (grows_at _ _ _ Hg)|done..].
  - split_and!; [| |done|].
    + etrans; [apply Hg|by apply insert_subseteq].
    + intros k Hk. destruct (decide (k = KeyPath root)) as [|Hne]; [by left|right]. rewrite lookup_insert_ne in Hk by done.
      by apply (grows_at _ _ _ Hg).
    + intros ident Hi. eexists. split.
      * pose proof (file_at_insert fs0 (parent (KeyPath root)) "server_identity.key" (list_byte_of_string (std_encode der)) Hdir) as Hf.
        rewrite <- KeyPath_snoc in Hf. by apply Hf.
      * intros fs2 rand2 key2 H2. by rewrite (LoadOrCreate_existing _ _ _ _ _ H2), (identity_of_written _ _ Hder), Hi.
Qed.
End identity.
