(* ===== verification/BackupRuns.v ===== *)
(** * A backup, a disaster and a restore

    The file operations on a small storage with one blob, with a concrete key
    format, database image and manifest text, and the theorems about them there. *)

From stdpp Require Import countable.
From S2P Require Import Prelude GoText GoTime Uuid Sha256 Schema Fixture Auth FileSystem FileSystemLemmas GoPath SqliteFile ServerIdentity Backup BackupCorrect BackupStages BackupRoundtrip BackupRestore ServerIdentityCorrect.
From Stdlib Require Import Ascii String.
Local Open Scope string_scope.
Local Open Scope list_scope.

(** Keys are their own encoding. *)
#[local] Instance RawKeys : ECKeys :=
  {| PrivateKey := list byte; PublicKey := list byte; public k := k; ParseECPrivateKey := Some; MarshalECPrivateKey := Some; public_point := Some |}.
#[local] Instance RawKeysLaws : ECKeysLaws RawKeys.
Proof. split. by intros k der [= ->]. Qed.

(** The database of the example: one committed blob. *)
Definition content : list byte := [x68; x62; x78].
Definition one_blob : DB := upd_blobs (fun _ => {[ id1 := Blob 3 ("blobs/" ++ id1 ++ ".hbxblob")%string (hex_EncodeToString (Sum256 content)) 1 1 t0 ]}) empty_db.
(** Images that start with an S hold it; a missing file is created empty, and a
    journal holds the image to go back to. *)
Definition read_image (data : list byte) : result DB :=
  match data with
  | [] => Err (Internal "no such table: blobs")
  | x53 :: _ => Ok one_blob
  | _ => Err (Internal "file is not a database")
  end.
Definition played_back (f : DatabaseFiles) : DatabaseFiles :=
  match main_file f, journal_file f with
  | None, _ => MkDatabaseFiles (Some (File [])) (journal_file f) (wal_file f) (shm_file f)
  | Some (File _), Some (File original) => MkDatabaseFiles (Some (File original)) None (wal_file f) (shm_file f)
  | _, _ => f
  end.
(** A question mark after the first byte ends the name. *)
Definition cut_name (dsn : string) : string :=
  match Cut dsn "?" with Some (String c name, _) => String c name | _ => dsn end.
#[local] Instance OneImage : Sqlite :=
  {| vacuum_into _ := [x53]; dsn_file := cut_name;
     query_files f := let f := played_back f in
       (match main_file f with Some (File data) => read_image data | _ => Err (Internal "unable to open database file") end, f) |}.

Lemma Cut_none s c : no_char c s = true -> Cut s c = None.
Proof. induction s as [|d s IH]; [done|]. simpl. intros [Hd%negb_true_iff Hs]%andb_prop. by rewrite Hd, IH. Qed.
#[local] Instance OneImageLaws : SqliteLaws OneImage.
Proof.
  split; [| |done].
  - intros name [[[Hq _]%andb_prop _]%andb_prop _]%andb_prop. simpl. unfold cut_name. by rewrite Cut_none.
  - intros name parameters [[[Hq _]%andb_prop Hne]%andb_prop _]%andb_prop. simpl. unfold cut_name.
    change (name ++ "?" ++ parameters)%string with (name ++ String "?" parameters)%string. rewrite Cut_app by done. by destruct name.
Qed.

(** A manifest's text: the bits of its code. *)
Definition manifest_fields (m : Manifest) : Z * Z * list (string * Z * string) :=
  (manifest_Version m, manifest_CreatedAt m, map (fun f => (Path f, Size f, SHA256 f)) (manifest_Files m)).
Definition manifest_of (t : Z * Z * list (string * Z * string)) : Manifest :=
  MkManifest t.1.1 t.1.2 (map (fun f => MkFileInfo f.1.1 f.1.2 f.2) t.2).
Fixpoint bits (p : positive) : list byte :=
  match p with xH => [] | xO p => x30 :: bits p | xI p => x31 :: bits p end.
Fixpoint of_bits (l : list byte) : positive :=
  match l with x30 :: l => xO (of_bits l) | x31 :: l => xI (of_bits l) | _ => xH end.
#[local] Instance BitText : ManifestJSON :=
  {| Marshal m := bits (encode (manifest_fields m)); Unmarshal l := manifest_of <$> decode (of_bits l) |}.

Lemma of_bits_bits p : of_bits (bits p ++ [x0a]) = p.
Proof. induction p as [p IH|p IH|]; simpl; congruence. Qed.
Lemma Unmarshal_Marshal m : Unmarshal (Marshal m ++ [x0a]) = Some m.
Proof.
  simpl. rewrite of_bits_bits, decode_encode. simpl. destruct m as [v c l]. unfold manifest_of. simpl. do 2 f_equal.
  induction l as [|[p z h] l IH]; [done|]. simpl. by rewrite IH.
Qed.

(** The server's disk: the storage is [data] in the working directory [/srv]. *)
Definition cwd : path := ["srv"].
Definition key : list byte := [x01; x02; x03].
Definition disk : FS :=
  <[["srv"] := Dir]> (<[["srv"; "data"] := Dir]> (<[["srv"; "data"; "keys"] := Dir]> (<[["srv"; "data"; "blobs"] := Dir]>
  (<[["srv"; "data"; "keys"; "server_identity.key"] := File (list_byte_of_string (std_encode key))]>
  (<[["srv"; "data"; "blobs"; (id1 ++ ".hbxblob")%string] := File content]>
  {[ ["srv"; "homebox.yaml"] := File [x79] ]}))))).
Definition suffixes (i : nat) : string := string_of_list_byte (repeat x61 i).

Lemma suffixes_plain : plain_names suffixes.
Proof.
  intros i. unfold suffixes. split; induction i as [|i IH]; try done; cbn [repeat string_of_list_byte]; exact IH.
Qed.

Definition backup_run : result unit * FS := Create cwd noon suffixes key (Some one_blob) "data" "homebox.yaml" "bk/one" disk.
(** What is left of the backup on another machine. *)
Definition rescued : FS := graft ["usb"] (tree ["srv"; "bk"; "one"] backup_run.2) {[ ["usb"] := Dir ]}.

(** Well-formedness, decided. *)
Definition fs_okb (fs : FS) : bool :=
  bool_decide (fs !! [] = None) &&
  forallb (fun kv => match removelast kv.1 with [] => true | p => bool_decide (fs !! p = Some Dir) end) (map_to_list fs).
Lemma fs_okb_ok fs : fs_okb fs = true -> fs_ok fs.
Proof.
  intros [H0%bool_decide_eq_true H]%andb_prop. split; [done|]. intros p n e Hp. rewrite forallb_forall in H.
  specialize (H (p ++ [n], e)). simpl in H. rewrite removelast_last in H.
  destruct p as [|a p]; [by left|right]. eapply bool_decide_eq_true, H. apply list_elem_of_In. by apply elem_of_map_to_list.
Qed.

Definition names_okb (storage : path) (fs : FS) : bool :=
  forallb (fun kv => match List.rev kv.1 with n :: _ => no_char "/" n | [] => true end) (map_to_list fs).
Lemma names_okb_ok storage fs : names_okb storage fs = true -> names_ok storage fs.
Proof.
  unfold names_okb. rewrite forallb_forall. intros H n e He. specialize (H (storage ++ ["blobs"; n], e)). simpl in H.
  change ["blobs"; n] with (["blobs"] ++ [n]) in H. rewrite app_assoc, rev_app_distr in H. apply H.
  apply list_elem_of_In, elem_of_map_to_list. by rewrite <- app_assoc.
Qed.

Example backup_run_ok : backup_run.1 = Ok tt.
Proof. vm_compute. reflexivity. Qed.

(** ** The theorems on this run *)

Lemma disk_ok : fs_ok disk.
Proof. apply fs_okb_ok. vm_compute. reflexivity. Qed.
Lemma disk_names : names_ok (Abs cwd "data") disk.
Proof. apply names_okb_ok. vm_compute. reflexivity. Qed.
Lemma rescued_ok : fs_ok rescued.
Proof. apply fs_okb_ok. vm_compute. reflexivity. Qed.
Lemma backup_run_eq : Create cwd noon suffixes key (Some one_blob) "data" "homebox.yaml" "bk/one" disk = (Ok tt, backup_run.2).
Proof. rewrite <- backup_run_ok. apply surjective_pairing. Qed.
Lemma rescued_tree : same_tree backup_run.2 rescued (Abs cwd "bk/one") (Abs [] "usb").
Proof.
  split; [vm_compute; reflexivity|]. intros r Hr.
  change (rescued !! (["usb"] ++ r) = backup_run.2 !! (["srv"; "bk"; "one"] ++ r)). unfold rescued.
  rewrite lookup_graft, below_path_app, drop_app_length, lookup_tree.
  destruct (backup_run.2 !! _); [done|]. by apply lookup_singleton_ne; destruct r.
Qed.

Lemma Create_all_or_nothing_witness : names_ok (Abs cwd "data") disk /\
  exists d m, Some one_blob = Some d /\ saved d disk (Abs cwd "data") backup_run.2 (Abs cwd "bk/one") /\
    manifest_CreatedAt m = noon /\ restorable backup_run.2 (Abs cwd "bk/one") m.
Proof.
  split; [exact disk_names|].
  destruct (Create_all_or_nothing (K := RawKeys) cwd noon suffixes key (Some one_blob) "data" "homebox.yaml" "bk/one" disk (Ok tt) backup_run.2) as [(e & [=] & _)|(_ & _ & _ & H)];
    [vm_compute; reflexivity|exact suffixes_plain|vm_compute; reflexivity|exact disk_ok|exact disk_names|exact backup_run_eq|exact H].
Defined.



(** The server's disk is lost but for the backup, which was copied to [/usb]. *)
Lemma backup_roundtrip_witness : Lstat rescued (Abs [] "/srv/data") = Ok None /\
  exists fs3, Restore [] suffixes [x09] "usb" "/srv/data" rescued = (Ok tt, fs3) /\
    saved one_blob disk (Abs cwd "data") fs3 (Abs [] "/srv/data") /\ storage_verified fs3 (Abs [] "/srv/data") /\ rescued ⊆ fs3.
Proof.
  split; [vm_compute; reflexivity|].
  apply (backup_roundtrip (K := RawKeys) cwd noon suffixes key one_blob "data" "homebox.yaml" "bk/one" disk backup_run.2);
    [reflexivity|exact suffixes_plain|vm_compute; reflexivity|exact disk_ok|exact disk_names|exact backup_run_eq
    |intros m _ _; apply Unmarshal_Marshal|discriminate|reflexivity|exact suffixes_plain|vm_compute; reflexivity|vm_compute; reflexivity
    |exact rescued_ok|exact rescued_tree|vm_compute; reflexivity..].
Defined.

(** ** Where the driver and the code disagree on the file *)

(** A question mark in the path: the check of the new backup opens another file,
    which SQLite creates; the backup fails and the file stays. *)
Definition asked_run : result unit * FS := Create cwd noon suffixes key (Some one_blob) "data" "homebox.yaml" "bk?old/one" disk.
Example question_mark_backup : asked_run.1 = Err (Internal "no such table: blobs") /\
  asked_run.2 !! ["srv"; "bk?old"; "one"] = None /\ asked_run.2 !! ["srv"; "bk"] = Some (File []).
Proof. vm_compute. done. Qed.

(** A journal beside the backup's database, which the manifest does not name: the
    check of the backup hashes one image and leaves another, and that one is restored. *)
Definition journaled : FS := <[["usb"; "database"; "homebox.db-journal"] := File [x53; x00]]> rescued.
Definition journaled_run : result unit * FS := Restore [] suffixes [x09] "usb" "/srv/data" journaled.
Example journal_restored : journaled_run.1 = Ok tt /\
  journaled !! ["usb"; "database"; "homebox.db"] = Some (File [x53]) /\
  journaled_run.2 !! ["usb"; "database"; "homebox.db"] = Some (File [x53; x00]) /\
  journaled_run.2 !! ["srv"; "data"; "database"; "homebox.db"] = Some (File [x53; x00]).
Proof. vm_compute. done. Qed.

(** The first start of a server and the next one. *)
Definition started : result Identity * FS := LoadOrCreate suffixes key ["srv"; "new"] disk.
Lemma LoadOrCreate_stable_witness : is_ok started.1 = true /\
  exists ident data, started.1 = Ok ident /\ file_at started.2 (KeyPath ["srv"; "new"]) = Some data /\
    LoadOrCreate suffixes [x09] ["srv"; "new"] started.2 = (Ok ident, started.2).
Proof.
  split; [vm_compute; reflexivity|].
  destruct (LoadOrCreate_stable (K := RawKeys) suffixes key ["srv"; "new"] disk started.1 started.2) as (_ & _ & _ & H);
    [exact disk_ok|apply surjective_pairing|].
  destruct started.1 as [ident|e] eqn:E; [|exfalso; revert E; vm_compute; discriminate].
  destruct (H ident eq_refl) as (data & Hd & Hlater). exists ident, data. split; [reflexivity|]. split; [exact Hd|].
  apply Hlater. exact Hd.
Defined.
