(* ===== verification/Config.v ===== *)
(** * Package internal/config

    Models [internal/config/config.go]: the configuration with its defaults,
    loading it from a file, the checks of [Validate], and the values the server
    derives from it.  The YAML decoder is a third-party package and an
    interface: it is given the defaults and overwrites what the file sets. *)

From S2P Require Import Prelude GoText GoTime GoDuration GoNet FileSystem GoPath.
From Stdlib Require Import Ascii String.
Local Open Scope string_scope.
Local Open Scope Z_scope.

Definition defaultMaxPlaintextSize : Z := 500 * 1024 * 1024.
Definition defaultChunkPlaintextSize : Z := 4 * 1024 * 1024.
Definition defaultMaxCiphertextSize : Z := defaultMaxPlaintextSize + defaultMaxPlaintextSize / defaultChunkPlaintextSize * 16.

(** ** Data: a record per section; [int] and [int64] are [Z] *)

Record TLSSection := MkTLS { TLS_Enabled : bool; CertFile : string; KeyFile : string }.
Record ServerSection := MkServer { Host : string; Port : Z; ReadTimeout : string; TLS : TLSSection }.
Record StorageSection := MkStorage { StoragePath : string; CiphertextOnly : bool }.
Record LimitsSection := MkLimits {
  MaxUsers : Z; MaxPlaintextFileSize : Z; UploadChunkPlaintextSize : Z; MaxCiphertextFileSize : Z;
}.
Record EncryptionSection := MkEncryption {
  Encryption_Enabled : bool; RequiredForHTTP : bool; Protocol : string; SessionMaxAge : string;
}.
Record E2EESection := MkE2EE { E2EE_Required : bool; ServerDecryptionEnabled : bool; ProtocolVersion : Z }.
Record SyncSection := MkSync { PageSize : Z; MaxPageSize : Z }.
Record MaintenanceSection := MkMaintenance {
  OrphanBlobGraceHours : Z; TrashRetentionDays : Z; IntervalHours : Z; MaxFileVersions : Z; VersionRetentionDays : Z;
}.
Record Config := MkConfig {
  Server : ServerSection;
  Storage : StorageSection;
  Limits : LimitsSection;
  ApplicationEncryption : EncryptionSection;
  E2EE : E2EESection;
  AbandonedAfterHours : Z;
  Sync : SyncSection;
  Maintenance : MaintenanceSection;
}.

Definition Defaults : Config := {|
  Server := MkServer "0.0.0.0" 8787 "2m" (MkTLS false "" "");
  Storage := MkStorage "./data" true;
  Limits := MkLimits 5 defaultMaxPlaintextSize defaultChunkPlaintextSize defaultMaxCiphertextSize;
  ApplicationEncryption := MkEncryption true true "tls1.3-ecdsa-p256-cert-pinning" "15m";
  E2EE := MkE2EE true false 1;
  AbandonedAfterHours := 24;
  Sync := MkSync 500 2000;
  Maintenance := MkMaintenance 168 3 1 10 30;
|}.

(** ** Validate *)

Definition check (bad : bool) (message : string) : result unit := if bad then Err (Internal message) else Ok tt.

(** [d, err := time.ParseDuration(s)] where the code asks for a positive one. *)
Definition positive_duration (s : string) : bool := match ParseDuration s with Ok d => 0 <? d | Err _ => false end.

Definition Validate (c : Config) : result unit :=
  let server := Server c in let limits := Limits c in let m := Maintenance c in
  check (negb (ParseIP (Host server)) && negb (String.eqb (Host server) "localhost") && negb (String.eqb (Host server) ""))
    "server.host must be an IP address or localhost" ;;
  check ((Port server <? 1) || (65535 <? Port server)) "server.port must be between 1 and 65535" ;;
  check (negb (positive_duration (ReadTimeout server))) "server.read_timeout must be a positive duration" ;;
  check (String.eqb (StoragePath (Storage c)) "" || negb (CiphertextOnly (Storage c)))
    "storage.ciphertext_only must be true and storage.path must be set" ;;
  check ((MaxUsers limits <? 1) || (5 <? MaxUsers limits)) "limits.max_users must be between 1 and 5" ;;
  check ((MaxPlaintextFileSize limits <=? 0) || (defaultMaxPlaintextSize <? MaxPlaintextFileSize limits))
    "limits.max_plaintext_file_size_bytes is out of range" ;;
  check ((UploadChunkPlaintextSize limits <=? 0) || (MaxPlaintextFileSize limits <? UploadChunkPlaintextSize limits))
    "limits.upload_chunk_plaintext_size_bytes must be positive and no larger than the file limit" ;;
  check ((MaxCiphertextFileSize limits <? MaxPlaintextFileSize limits) || (defaultMaxCiphertextSize <? MaxCiphertextFileSize limits))
    "limits.max_ciphertext_file_size_bytes is out of range" ;;
  check (ServerDecryptionEnabled (E2EE c) || negb (E2EE_Required (E2EE c)) || negb (ProtocolVersion (E2EE c) =? 1))
    "E2EE is mandatory, version 1, and server-side decryption is forbidden" ;;
  check (negb (Encryption_Enabled (ApplicationEncryption c)) || negb (RequiredForHTTP (ApplicationEncryption c)))
    "application encryption is mandatory for HTTP" ;;
  (sessionMaxAge ← ParseDuration (SessionMaxAge (ApplicationEncryption c));
   check (sessionMaxAge <=? 0) "security.application_encryption.session_max_age must be a positive duration") ;;
  check (TLS_Enabled (TLS server) && (String.eqb (CertFile (TLS server)) "" || String.eqb (KeyFile (TLS server)) ""))
    "TLS certificate and key files are required when TLS is enabled" ;;
  check (AbandonedAfterHours c <? 1) "uploads.abandoned_after_hours must be positive" ;;
  check ((PageSize (Sync c) <? 1) || (MaxPageSize (Sync c) <? PageSize (Sync c)))
    "sync.page_size must be positive and no larger than sync.max_page_size" ;;
  check (OrphanBlobGraceHours m <? 1) "maintenance.orphan_blob_grace_hours must be positive" ;;
  check (TrashRetentionDays m <? 1) "maintenance.trash_retention_days must be positive" ;;
  check (IntervalHours m <? 1) "maintenance.interval_hours must be positive" ;;
  check (MaxFileVersions m <? 1) "maintenance.max_file_versions must be positive" ;;
  check (VersionRetentionDays m <? 1) "maintenance.version_retention_days must be positive".

Example Defaults_valid : Validate Defaults = Ok tt.
Proof. vm_compute. reflexivity. Qed.

(** ** Load *)

Class Yaml : Type := { yaml_Unmarshal : list byte -> Config -> result Config }.

Definition set_StoragePath (p : string) (c : Config) : Config :=
  MkConfig (Server c) (MkStorage p (CiphertextOnly (Storage c))) (Limits c) (ApplicationEncryption c) (E2EE c)
    (AbandonedAfterHours c) (Sync c) (Maintenance c).

Section load.
Context {Y : Yaml} (cwd : path).

(** The file's content, decoded over the defaults, with its path cleaned. *)
Definition decode (encoded : list byte) : result Config :=
  c ← yaml_Unmarshal encoded Defaults;
  Ok (if negb (IsAbs (StoragePath (Storage c))) then set_StoragePath (Clean (StoragePath (Storage c))) c else c).

Definition Load (p : string) : M FS Config :=
  if String.eqb p "" then lift (Validate Defaults ;; Ok Defaults)
  else
    encoded ← ReadFile (Abs cwd p);
    c ← lift (decode encoded);
    lift (Validate c) ;; mret c.
End load.

(** ** What the server derives *)

Definition Address (c : Config) : string := JoinHostPort (Host (Server c)) (FormatInt (Port (Server c))).

(** [d, _ := time.ParseDuration(s)]: zero with an error. *)
Definition duration_or_zero (s : string) : Z := match ParseDuration s with Ok d => d | Err _ => 0 end.
Definition HTTPReadTimeout (c : Config) : Z := duration_or_zero (ReadTimeout (Server c)).
Definition AccessTokenTTL (c : Config) : Z := duration_or_zero (SessionMaxAge (ApplicationEncryption c)).
