(* ===== verification/ConfigCorrect.v ===== *)
(** * Correctness of the configuration

    What a loaded configuration guarantees to the services, and that cleaning
    the storage path does not change the directory it names. *)

From S2P Require Import Prelude GoText GoTime GoDuration GoNet FileSystem FileSystemLemmas GoPath Config.
From Stdlib Require Import Ascii String.
Local Open Scope string_scope.
Local Open Scope Z_scope.
Local Open Scope list_scope.

(** ** Validate *)

Lemma check_ok_inv b m (u : unit) : check b m = Ok u -> b = false.
Proof. unfold check. by destruct b. Qed.
Lemma check_bind {A} b m (k : result A) : (check b m ;; k) = if b then Err (Internal m) else k.
Proof. by destruct b. Qed.

(** What [Validate] has checked, field by field. *)
Record validated (c : Config) : Prop := {
  run_host : ParseIP (Host (Server c)) = true \/ Host (Server c) = "localhost" \/ Host (Server c) = "";
  run_port : 1 <= Port (Server c) <= 65535;
  run_read_timeout : exists d, ParseDuration (ReadTimeout (Server c)) = Ok d /\ 0 < d;
  run_storage : StoragePath (Storage c) <> "" /\ CiphertextOnly (Storage c) = true;
  run_users : 1 <= MaxUsers (Limits c) <= 5;
  run_sizes : 0 < UploadChunkPlaintextSize (Limits c) <= MaxPlaintextFileSize (Limits c) /\
    MaxPlaintextFileSize (Limits c) <= defaultMaxPlaintextSize /\
    MaxPlaintextFileSize (Limits c) <= MaxCiphertextFileSize (Limits c) <= defaultMaxCiphertextSize;
  run_e2ee : E2EE_Required (E2EE c) = true /\ ServerDecryptionEnabled (E2EE c) = false /\ ProtocolVersion (E2EE c) = 1;
  run_encryption : Encryption_Enabled (ApplicationEncryption c) = true /\ RequiredForHTTP (ApplicationEncryption c) = true;
  run_session : exists d, ParseDuration (SessionMaxAge (ApplicationEncryption c)) = Ok d /\ 0 < d;
  run_tls : TLS_Enabled (TLS (Server c)) = true -> CertFile (TLS (Server c)) <> "" /\ KeyFile (TLS (Server c)) <> "";
  run_uploads : 1 <= AbandonedAfterHours c;
  run_pages : 1 <= PageSize (Sync c) <= MaxPageSize (Sync c);
  run_maintenance : 1 <= OrphanBlobGraceHours (Maintenance c) /\ 1 <= TrashRetentionDays (Maintenance c) /\
    1 <= IntervalHours (Maintenance c) /\ 1 <= MaxFileVersions (Maintenance c) /\ 1 <= VersionRetentionDays (Maintenance c);
}.

Lemma positive_duration_true s : positive_duration s = true <-> exists d, ParseDuration s = Ok d /\ 0 < d.
Proof.
  unfold positive_duration. destruct (ParseDuration s) as [d|e]; split; try done.
  - intros H. exists d. split; [done|lia].
  - intros (d' & [= ->] & H). lia.
  - by intros (d' & [=] & _).
Qed.

Lemma session_check {A} s m (k : result A) : ((d ← ParseDuration s; check (d <=? 0) m) ;; k) =
  match ParseDuration s with Err e => Err e | Ok d => if d <=? 0 then Err (Internal m) else k end.
Proof. destruct (ParseDuration s) as [d|e]; [|done]. apply check_bind. Qed.

Lemma Validate_spec c : Validate c = Ok tt <-> validated c.
Proof.
  unfold Validate. rewrite !check_bind, session_check. unfold check. split.
  - intros H. repeat (case_match; try discriminate H; try discriminate).
    repeat match goal with H : _ || _ = false |- _ => apply orb_false_iff in H as [? ?] | H : negb _ = false |- _ => apply negb_false_iff in H end.
    repeat match goal with H : String.eqb _ _ = false |- _ => apply String.eqb_neq in H end.
    split; try lia; try done.
    + match goal with H : negb (ParseIP _) && _ && _ = false |- _ => apply andb_false_iff in H as [[H|H]%andb_false_iff|H]; apply negb_false_iff in H end;
        [by left|right; left; by apply String.eqb_eq|right; right; by apply String.eqb_eq].
    + by apply positive_duration_true.
    + split_and!; [done|done|lia].
    + eexists. split; [eassumption|lia].
    + intros Ht. match goal with H : _ && _ = false |- _ => rewrite Ht in H; apply orb_false_iff in H as [?%String.eqb_neq ?%String.eqb_neq]; done end.
  - intros [Hh Hp Ht [Hs1 Hs2] Hu (Hz1 & Hz2 & Hz3) (He1 & He2 & He3) [Ha1 Ha2] (d & Hd & Hd0) Htls Hup Hpg (Hm1 & Hm2 & Hm3 & Hm4 & Hm5)].
    apply positive_duration_true in Ht. apply String.eqb_neq in Hs1. rewrite Ht, Hs1, Hs2, He1, He2, He3, Ha1, Ha2, Hd. simpl.
    assert (negb (ParseIP (Host (Server c))) && negb (String.eqb (Host (Server c)) "localhost") && negb (String.eqb (Host (Server c)) "") = false) as ->
      by (destruct Hh as [->|[->| ->]]; [done..|by rewrite andb_false_r]).
    assert (TLS_Enabled (TLS (Server c)) && (String.eqb (CertFile (TLS (Server c))) "" || String.eqb (KeyFile (TLS (Server c))) "") = false) as ->.
    { destruct (TLS_Enabled (TLS (Server c))); [|done]. destruct Htls as [H1%String.eqb_neq H2%String.eqb_neq]; [done|]. by rewrite H1, H2. }
    repeat match goal with |- (if ?b then Err _ else _) = _ => replace b with false by lia end. done.
Qed.

Lemma duration_range s d : ParseDuration s = Ok d -> 0 < d -> 0 < duration_or_zero s <= max_int64.
Proof. intros Hd H0. unfold duration_or_zero. rewrite Hd. pose proof (proj2 (ParseDuration_total s) d Hd). lia. Qed.

(** Hosts that need no lookup. *)
Definition literal_host (host : string) : Prop := ParseIP host = true \/ host = "localhost" \/ host = "".

Lemma Address_split c : literal_host (Host (Server c)) -> SplitHostPort (Address c) = Some (Host (Server c), FormatInt (Port (Server c))).
Proof.
  intros Hh. assert (H : no_char "[" (Host (Server c)) = true /\ no_char "]" (Host (Server c)) = true).
  { destruct Hh as [Hh%ParseIP_chars|[->| ->]]; [|done..]. split; (eapply no_char_forall; [exact Hh|done]). }
  apply SplitHostPort_Join; [apply H..| | |]; (apply no_char_FormatInt; done).
Qed.

(** ** Load *)

Section load.
Context {Y : Yaml}.

Lemma decode_ok_inv cwd data c : decode data = Ok c ->
  exists c0, yaml_Unmarshal data Defaults = Ok c0 /\ c = set_StoragePath (StoragePath (Storage c)) c0 /\
    Abs cwd (StoragePath (Storage c)) = Abs cwd (StoragePath (Storage c0)).
Proof.
  unfold decode. destruct (yaml_Unmarshal data Defaults) as [c0|] eqn:E; [|done]. simpl. intros [= <-]. exists c0. split; [done|].
  destruct (IsAbs (StoragePath (Storage c0))) eqn:Ea; simpl; [|by rewrite (Abs_Clean _ _ Ea)].
  split; [|done]. destruct c0 as [? [] ? ? ? ? ? ?]. done.
Qed.

(** C38. A configuration that loads is one [Validate] accepts: the
    defaults where no file is named, and otherwise what the file says over the
    defaults, with the storage path cleaned, which names the same directory.
    Loading changes nothing. *)
Theorem Load_correct cwd p fs c fs' : Load cwd p fs = (Ok c, fs') ->
  fs' = fs /\ Validate c = Ok tt /\
  (p = "" /\ c = Defaults \/
   exists data c0, file_at fs (Abs cwd p) = Some data /\ yaml_Unmarshal data Defaults = Ok c0 /\
     c = set_StoragePath (StoragePath (Storage c)) c0 /\ Abs cwd (StoragePath (Storage c)) = Abs cwd (StoragePath (Storage c0))).
Proof.
  unfold Load. destruct (String.eqb_spec p "") as [->|Hp].
  - intros [H ->]%lift_ok_inv. assert (c = Defaults) as -> by (destruct (Validate Defaults); [by injection H|done]).
    split; [done|]. split; [apply Defaults_valid|by left].
  - intros H. apply bind_ok_inv in H as (data & s & Hr & H). unfold ReadFile in Hr. apply query_ok_inv in Hr as [Hr ->].
    apply bind_ok_inv in H as (c1 & s & [Hd ->]%lift_ok_inv & H). apply bind_ok_inv in H as ([] & s & [Hv ->]%lift_ok_inv & [= <- <-]).
    split; [done|]. split; [done|]. right. apply (decode_ok_inv cwd) in Hd as (c0 & Hu & Hc & Ha). exists data, c0.
    split; [|done]. unfold file_at. by destruct (Lstat fs (Abs cwd p)) as [[[]|]|]; simplify_eq.
Qed.

(** Loading never changes the disk. *)
Lemma Load_keeps dir p fs r fs' : Load dir p fs = (r, fs') -> fs' = fs.
Proof.
  intros H. assert (Hp : pure_m (Load dir p)).
  { unfold Load. case_match; [apply pure_lift|]. repeat (apply pure_bind; [first [apply pure_query|apply pure_lift]|intros ?]). apply pure_ret. }
  specialize (Hp fs). by rewrite H in Hp.
Qed.

(** An empty [storage.path] passes the check that asks for one: it was cleaned
    to the working directory before. *)
Lemma Load_empty_path cwd p data c0 fs : p <> "" -> file_at fs (Abs cwd p) = Some data -> yaml_Unmarshal data Defaults = Ok c0 ->
  StoragePath (Storage c0) = "" -> Validate (set_StoragePath "." c0) = Ok tt ->
  Load cwd p fs = (Ok (set_StoragePath "." c0), fs).
Proof.
  intros Hp Hf Hy Hs Hv. unfold Load. apply String.eqb_neq in Hp. rewrite Hp.
  rewrite (bind_ok _ _ fs data fs) by (unfold ReadFile, query; unfold file_at in Hf; by destruct (Lstat fs (Abs cwd p)) as [[[]|]|]; simplify_eq).
  unfold decode. rewrite Hy. simpl. rewrite Hs. change (Clean "") with ".". rewrite (bind_ok _ _ fs (set_StoragePath "." c0) fs eq_refl).
  by rewrite Hv.
Qed.
End load.

(** The configuration file of the example sets the host. *)
#[local] Instance HostOnly : Yaml := {| yaml_Unmarshal data c :=
  Ok (MkConfig (MkServer (string_of_list_byte data) (Port (Server c)) (ReadTimeout (Server c)) (TLS (Server c)))
    (Storage c) (Limits c) (ApplicationEncryption c) (E2EE c) (AbandonedAfterHours c) (Sync c) (Maintenance c)) |}.
Definition etc : FS := <[["etc"] := Dir]> {[ ["etc"; "homebox.yaml"] := File (list_byte_of_string "::1") ]}.

Lemma Load_correct_witness : exists c, Load ["etc"] "homebox.yaml" etc = (Ok c, etc) /\ Validate c = Ok tt /\ Address c = "[::1]:8787".
Proof.
  set (c := match (Load ["etc"] "homebox.yaml" etc).1 with Ok c => c | Err _ => Defaults end).
  assert (E1 : (Load ["etc"] "homebox.yaml" etc).1 = Ok c) by (vm_compute; reflexivity).
  assert (E : Load ["etc"] "homebox.yaml" etc = (Ok c, etc)).
  { clearbody c. destruct (Load ["etc"] "homebox.yaml" etc) as [x fs'] eqn:Ex. cbn [fst] in E1. rewrite E1 in Ex |- *. by rewrite (Load_keeps _ _ _ _ _ Ex). }
  exists c. split; [exact E|]. destruct (Load_correct ["etc"] "homebox.yaml" etc c etc E) as (_ & H & _).
  split; [exact H|vm_compute; reflexivity].
Defined.
