(* ===== verification/SecureTransport.v ===== *)
(** * Package internal/securetransport

    Models [internal/securetransport/transport.go]: the self-signed certificate
    of the server's identity, the operator's certificate, and the client
    configuration that pins a fingerprint.  Making and parsing certificates is
    [crypto/x509] and [crypto/tls]: an interface. *)

From S2P Require Import Prelude GoText GoTime Uuid Sha256 Auth FileSystem ServerIdentity.
From Stdlib Require Import Ascii String.
Local Open Scope string_scope.

(** ** encoding/hex *)

Fixpoint hex_DecodeString (s : string) : option (list byte) :=
  match s with
  | "" => Some []
  | String a (String b s') =>
      match hex_digit_val a, hex_digit_val b, hex_DecodeString s' with
      | Some x, Some y, Some l => Some (Z_byte (16 * x + y) :: l)
      | _, _, _ => None
      end
  | String _ "" => None
  end.

(** [new(big.Int).SetBytes]: big-endian. *)
Definition be_Z (l : list byte) : Z := foldl (fun a b => a * 256 + byte_Z b)%Z 0%Z l.

(** ** Certificates *)

(** The public key of a certificate. *)
Inductive CertKey {K : ECKeys} : Type :=
| ECDSA (pub : PublicKey)
| OtherAlgorithm.
Arguments CertKey K : clear implicits.
Arguments ECDSA {K} pub.
Arguments OtherAlgorithm {K}.

(** What the code chooses of a certificate; the key usage, the constraints and
    the signature algorithm are fixed. *)
Record template := MkTemplate {
  SerialNumber : Z;
  CommonName : string;
  NotBefore : Z;
  NotAfter : Z;
}.

(** A certificate chain with the private key of its first certificate, [None]
    where that is no EC key. *)
Record Certificate {K : ECKeys} := MkCertificate { chain : list (list byte); certificate_key : option PrivateKey }.
Arguments Certificate K : clear implicits.
Arguments MkCertificate {K} chain certificate_key.
Arguments chain {K} _.
Arguments certificate_key {K} _.

Class X509 (K : ECKeys) : Type := {
  CreateCertificate : template -> PublicKey -> PrivateKey -> option (list byte);
  ParseCertificate : list byte -> option (CertKey K);
  (** [tls.X509KeyPair] on the contents of the two files. *)
  X509KeyPair : list byte -> list byte -> option (Certificate K);
}.

(** A certificate carries the key it was made for; a key pair has a
    certificate. *)
Class X509Laws {K : ECKeys} (X : X509 K) : Prop := {
  parse_created : forall t pub k der, CreateCertificate t pub k = Some der -> ParseCertificate der = Some (ECDSA pub);
  key_pair_leaf : forall cert key c, X509KeyPair cert key = Some c -> chain c <> [];
}.

Section transport.
Context {K : ECKeys} {X : X509 K}.

Definition VersionTLS13 : Z := 0x0304.

Record TLSConfig := MkTLSConfig {
  MinVersion : Z;
  Certificates : list (Certificate K);
  InsecureSkipVerify : bool;
  VerifyPeerCertificate : option (list (list byte) -> result unit);
}.
Definition server_config (cert : Certificate K) : TLSConfig := MkTLSConfig VersionTLS13 [cert] false None.

(** 1 January 2024 and 2124. *)
Definition certificateNotBefore : Z := 1704067200 * Second.
Definition certificateNotAfter : Z := 4859740800 * Second.

Definition selfSignedCertificate (identity : Identity) : result (Certificate K) :=
  match hex_DecodeString (fingerprint identity) with
  | None => Err (Internal "decode identity fingerprint")
  | Some digest =>
      let t := MkTemplate (be_Z (take 8 digest)) "homebox-server-identity" certificateNotBefore certificateNotAfter in
      match CreateCertificate t (public (privateKey identity)) (privateKey identity) with
      | None => Err (Internal "create self-signed identity certificate")
      | Some der => Ok (MkCertificate [der] (Some (privateKey identity)))
      end
  end.

Definition BuildTLSConfig (identity : Identity) : result TLSConfig :=
  cert ← selfSignedCertificate identity; Ok (server_config cert).

(** The check of a pinned client: the leaf's key must have the fingerprint. *)
Definition verify_pinned (want : string) (rawCerts : list (list byte)) : result unit :=
  match rawCerts with
  | [] => Err (Internal "server presented no certificate")
  | der :: _ =>
      match ParseCertificate der with
      | None => Err (Internal "parse server certificate")
      | Some OtherAlgorithm => Err (Internal "server certificate is not a recognized P-256 identity certificate")
      | Some (ECDSA pub) =>
          got ← FingerprintFromPublicKey pub;
          if negb (String.eqb got want)
          then Err (Internal "SERVER_IDENTITY_CHANGED: server fingerprint does not match the pinned value") else Ok tt
      end
  end.

Definition PinnedClientConfig (fp : string) : result TLSConfig :=
  let want := ToLower (TrimSpace fp) in
  if negb (Nat.eqb (String.length want) 64) then Err (Internal "invalid pinned server fingerprint")
  else match hex_DecodeString want with
       | None => Err (Internal "invalid pinned server fingerprint")
       | Some _ => Ok (MkTLSConfig VersionTLS13 [] true (Some (verify_pinned want)))
       end.

(** [tls.LoadX509KeyPair] reads the certificate file, then the key file. *)
Definition LoadX509KeyPair (cwd : path) (certFile keyFile : string) : M FS (Certificate K) :=
  cert ← ReadFile (Abs cwd certFile);
  key ← ReadFile (Abs cwd keyFile);
  match X509KeyPair cert key with
  | Some c => mret c
  | None => throw (Internal "load operator TLS certificate")
  end.

Definition LoadOperatorTLSConfig (cwd : path) (certFile keyFile : string) : M FS (TLSConfig * string) :=
  cert ← LoadX509KeyPair cwd certFile keyFile;
  match chain cert with
  | [] => throw (Internal "index out of range")
  | der :: _ =>
      match ParseCertificate der with
      | None => throw (Internal "parse operator TLS certificate")
      | Some OtherAlgorithm => throw (Internal "operator TLS certificate must use an ECDSA P-256 key: clients pin a P-256 public key")
      | Some (ECDSA pub) =>
          fp ← lift (FingerprintFromPublicKey pub);
          mret (server_config cert, fp)
      end
  end.
End transport.
