(* ===== verification/SecureTransportCorrect.v ===== *)
(** * Correctness of the pinned transport

    A pinned client accepts exactly the certificates whose key has the pinned
    fingerprint, and the fingerprint a server reports pins what it serves. *)

From S2P Require Import Prelude GoText GoTime Uuid Sha256 Auth FileSystem ServerIdentity SecureTransport.
From Stdlib Require Import Ascii String.
Local Open Scope string_scope.
#[local] Arguments String.append !_ _ : simpl nomatch.

(** ** Fingerprints are what clients may type *)

Definition hex_lower (c : ascii) : bool := is_valid (hex_digit_val c) && Ascii.eqb (lower c) c.


Lemma byte_cases (P : byte -> bool) : forallb (fun n => match Byte.of_N (N.of_nat n) with Some b => P b | None => true end) (seq 0 256) = true ->
  forall b, P b = true.
Proof.
  intros H b. rewrite forallb_forall in H. specialize (H (N.to_nat (Byte.to_N b))). rewrite N2Nat.id, Byte.of_to_N in H. apply H.
  apply in_seq. pose proof (Byte.to_N_bounded b). lia.
Qed.

Lemma hex_byte b : hex_lower (hex_hi b) = true /\ hex_lower (hex_lo b) = true /\
  exists h l, hex_digit_val (hex_hi b) = Some h /\ hex_digit_val (hex_lo b) = Some l /\ Z_byte (16 * h + l) = b.
Proof.
  set (P := fun b => hex_lower (hex_hi b) && hex_lower (hex_lo b) &&
    match hex_digit_val (hex_hi b), hex_digit_val (hex_lo b) with Some h, Some l => Byte.eqb (Z_byte (16 * h + l)) b | _, _ => false end).
  assert (H : P b = true) by (apply byte_cases; vm_compute; reflexivity). unfold P in H. clear P.
  apply andb_prop in H as [[H1 H2]%andb_prop H3]. split; [done|]. split; [done|].
  destruct (hex_digit_val (hex_hi b)) as [h|], (hex_digit_val (hex_lo b)) as [l|]; [|done..].
  exists h, l. split_and!; [done..|]. by apply Byte.byte_dec_bl.
Qed.

Lemma hex_Encode_lower l : string_forall hex_lower (hex_EncodeToString l) = true.
Proof. induction l as [|b l IH]; [done|]. destruct (hex_byte b) as (H1 & H2 & _). simpl. by rewrite H1, H2, IH. Qed.

Lemma hex_Decode_Encode l : hex_DecodeString (hex_EncodeToString l) = Some l.
Proof. induction l as [|b l IH]; [done|]. destruct (hex_byte b) as (_ & _ & h & l' & H1 & H2 & H3). simpl. by rewrite H1, H2, IH, H3. Qed.

Lemma ToLower_lower s : string_forall hex_lower s = true -> ToLower s = s.
Proof.
  induction s as [|c s IH]; [done|]. simpl. intros [[_ Hc%Ascii.eqb_eq]%andb_prop Hs]%andb_prop.
  change (ToLower (String c s)) with (String (lower c) (ToLower s)). by rewrite Hc, IH.
Qed.

(** No white space is made of hexadecimal digits. *)
Lemma spaces_not_hex p : p ∈ spaces -> string_forall hex_lower p = false.
Proof.
  intros H. assert (Ha : forallb (fun p => negb (string_forall hex_lower p)) spaces = true) by (vm_compute; reflexivity).
  rewrite forallb_forall in Ha. apply list_elem_of_In, Ha in H. by apply negb_true_iff.
Qed.

Lemma first_match_None test s l : (forall p, p ∈ l -> test s p = false) -> first_match test s l = None.
Proof.
  induction l as [|p l IH]; intros H; [done|]. simpl. rewrite (H p) by left. apply IH. intros q Hq. apply H. by right.
Qed.

Lemma trim_hex n s : string_forall hex_lower s = true -> trim_left n s = s /\ trim_right n s = s.
Proof.
  intros Hs. assert (H : forall test, (forall p, test s p = true -> string_forall hex_lower p = true) -> first_match test s spaces = None).
  { intros test Ht. apply first_match_None. intros p Hp. apply spaces_not_hex in Hp. destruct (test s p) eqn:E; [|done]. apply Ht in E. congruence. }
  split; (destruct n; [done|]); cbn [trim_left trim_right]; rewrite H; try done; intros p Hp.
  - apply HasPrefix_true in Hp as [t ->]. rewrite string_forall_app in Hs. by apply andb_prop in Hs as [? _].
  - apply HasSuffix_split in Hp as [t ->]. rewrite string_forall_app in Hs. by apply andb_prop in Hs as [_ ?].
Qed.

Lemma TrimSpace_hex s : string_forall hex_lower s = true -> TrimSpace s = s.
Proof. intros Hs. unfold TrimSpace. destruct (trim_hex (String.length s) s Hs) as [-> ->]. done. Qed.

Lemma hex_Encode_inj a b : hex_EncodeToString a = hex_EncodeToString b -> a = b.
Proof. intros H. apply (f_equal hex_DecodeString) in H. rewrite !hex_Decode_Encode in H. by injection H. Qed.

Lemma lower_idem c : lower (lower c) = lower c.
Proof. destruct c as [[] [] [] [] [] [] [] []]; reflexivity. Qed.
Lemma lower_hex_digit c x : hex_digit_val (lower c) = Some x -> (0 <= x < 16)%Z /\ hex_digit (Z.to_N x) = lower c.
Proof. destruct c as [[] [] [] [] [] [] [] []]; vm_compute; try discriminate; intros [= <-]; repeat split; discriminate. Qed.

Lemma byte_of_digits x y : (0 <= x < 16)%Z -> (0 <= y < 16)%Z ->
  hex_hi (Z_byte (16 * x + y)) = hex_digit (Z.to_N x) /\ hex_lo (Z_byte (16 * x + y)) = hex_digit (Z.to_N y).
Proof.
  intros Hx Hy. assert (H : forallb (fun x => forallb (fun y => Ascii.eqb (hex_hi (Z_byte (16 * Z.of_nat x + Z.of_nat y))) (hex_digit (N.of_nat x)) &&
    Ascii.eqb (hex_lo (Z_byte (16 * Z.of_nat x + Z.of_nat y))) (hex_digit (N.of_nat y))) (seq 0 16)) (seq 0 16) = true) by (vm_compute; reflexivity).
  rewrite forallb_forall in H. specialize (H (Z.to_nat x) ltac:(apply in_seq; lia)). rewrite forallb_forall in H.
  specialize (H (Z.to_nat y) ltac:(apply in_seq; lia)). rewrite !Z2Nat.id in H by lia.
  replace (N.of_nat (Z.to_nat x)) with (Z.to_N x) in H by lia. replace (N.of_nat (Z.to_nat y)) with (Z.to_N y) in H by lia.
  apply andb_prop in H as [?%Ascii.eqb_eq ?%Ascii.eqb_eq]. done.
Qed.

(** In lower case a text has one spelling. *)
Lemma hex_Encode_Decode l s : hex_DecodeString (ToLower s) = Some l -> ToLower s = hex_EncodeToString l.
Proof.
  revert s. induction l as [|b l IH]; intros [|c [|c' s]].
  - done.
  - done.
  - change (ToLower (String c (String c' s))) with (String (lower c) (String (lower c') (ToLower s))). cbn [hex_DecodeString].
    by destruct (hex_digit_val (lower c)), (hex_digit_val (lower c')), (hex_DecodeString (ToLower s)).
  - done.
  - done.
  - change (ToLower (String c (String c' s))) with (String (lower c) (String (lower c') (ToLower s))). cbn [hex_DecodeString].
    destruct (hex_digit_val (lower c)) as [x|] eqn:Ex; [|done]. destruct (hex_digit_val (lower c')) as [y|] eqn:Ey; [|done].
    destruct (hex_DecodeString (ToLower s)) as [l'|] eqn:Es; [|done]. intros [= <- <-].
    apply lower_hex_digit in Ex as [Hx Ex], Ey as [Hy Ey]. destruct (byte_of_digits x y Hx Hy) as [H1 H2].
    cbn [hex_EncodeToString]. by rewrite H1, H2, Ex, Ey, (IH s Es).
Qed.

(** ** Pinning *)

Section transport.
Context {K : ECKeys} {X : X509 K}.

Lemma Fingerprint_ok_inv pub fp : FingerprintFromPublicKey pub = Ok fp <->
  exists point, public_point pub = Some point /\ fp = hex_EncodeToString (Sum256 point).
Proof.
  unfold FingerprintFromPublicKey. destruct (public_point pub) as [point|]; split; try done.
  - intros [= <-]. by exists point.
  - by intros (p & [= ->] & ->).
  - by intros (p & [=] & _).
Qed.

Lemma verify_pinned_spec want raw : verify_pinned want raw = Ok tt <->
  exists der rest pub, raw = der :: rest /\ ParseCertificate der = Some (ECDSA pub) /\ FingerprintFromPublicKey pub = Ok want.
Proof.
  unfold verify_pinned. split.
  - destruct raw as [|der rest]; [done|]. destruct (ParseCertificate der) as [[pub|]|] eqn:Ep; [|done..].
    destruct (FingerprintFromPublicKey pub) as [got|] eqn:Ef; [|done]. simpl. destruct (String.eqb_spec got want) as [->|]; [|done].
    intros _. by exists der, rest, pub.
  - intros (der & rest & pub & -> & -> & ->). simpl. by rewrite String.eqb_refl.
Qed.

(** What a user types that names the fingerprint [fp]: any case, and white
    space around it. *)
Definition spells (typed fp : string) : Prop := ToLower (TrimSpace typed) = fp.

Lemma Fingerprint_hex pub fp : FingerprintFromPublicKey pub = Ok fp -> exists l, List.length l = 32%nat /\ fp = hex_EncodeToString l.
Proof. intros (point & _ & ->)%Fingerprint_ok_inv. eexists. split; [apply Sum256_length|done]. Qed.

Lemma spells_itself pub fp : FingerprintFromPublicKey pub = Ok fp -> spells fp fp.
Proof.
  intros (l & _ & ->)%Fingerprint_hex. unfold spells. by rewrite TrimSpace_hex, ToLower_lower by apply hex_Encode_lower.
Qed.

Lemma PinnedClientConfig_ok typed pub fp : FingerprintFromPublicKey pub = Ok fp -> spells typed fp ->
  PinnedClientConfig typed = Ok (MkTLSConfig VersionTLS13 [] true (Some (verify_pinned fp))).
Proof.
  intros (l & Hl & ->)%Fingerprint_hex Hs. unfold PinnedClientConfig. rewrite Hs.
  by rewrite hex_EncodeToString_length, Hl, hex_Decode_Encode.
Qed.

(** The text is a fingerprint: 32 bytes in hexadecimal, in any case and with
    white space around it. *)
Definition is_fingerprint (typed : string) : Prop := exists digest, List.length digest = 32%nat /\ spells typed (hex_EncodeToString digest).

Lemma PinnedClientConfig_cases typed :
  (is_fingerprint typed /\ PinnedClientConfig typed = Ok (MkTLSConfig VersionTLS13 [] true (Some (verify_pinned (ToLower (TrimSpace typed)))))) \/
  (~ is_fingerprint typed /\ PinnedClientConfig typed = Err (Internal "invalid pinned server fingerprint")).
Proof.
  unfold PinnedClientConfig. destruct (Nat.eqb_spec (String.length (ToLower (TrimSpace typed))) 64) as [Hl|Hl].
  - destruct (hex_DecodeString (ToLower (TrimSpace typed))) as [digest|] eqn:Ed; [left|right].
    + split; [|done]. exists digest. apply hex_Encode_Decode in Ed. split; [|done].
      rewrite Ed, hex_EncodeToString_length in Hl. lia.
    + split; [|done]. intros (digest & _ & Hs). unfold spells in Hs. by rewrite Hs, hex_Decode_Encode in Ed.
  - right. split; [|done]. intros (digest & Hd & Hs). apply Hl. unfold spells in Hs. rewrite Hs, hex_EncodeToString_length. lia.
Qed.

(** C40. A client configuration is made of a text exactly when it spells 32
    bytes in hexadecimal, in any case and with white space around it, and every
    other text is refused before any connection.  The client then speaks TLS 1.3
    and, with no other check of the certificate, accepts a server exactly when
    the certificate it presents first has an ECDSA key whose uncompressed point
    hashes to those bytes. *)
Theorem PinnedClientConfig_correct typed :
  match PinnedClientConfig typed with
  | Ok cfg => is_fingerprint typed /\ MinVersion cfg = VersionTLS13 /\ InsecureSkipVerify cfg = true /\
      exists verify, VerifyPeerCertificate cfg = Some verify /\
      forall raw, verify raw = Ok tt <->
        exists der rest pub point, raw = der :: rest /\ ParseCertificate der = Some (ECDSA pub) /\ public_point pub = Some point /\
          spells typed (hex_EncodeToString (Sum256 point))
  | Err e => ~ is_fingerprint typed /\ e = Internal "invalid pinned server fingerprint"
  end.
Proof.
  destruct (PinnedClientConfig_cases typed) as [[Hf ->]|[Hf ->]]; [|done]. cbn [MinVersion InsecureSkipVerify VerifyPeerCertificate].
  split_and!; [done..|]. eexists. split; [done|]. intros raw. rewrite verify_pinned_spec. split.
  - intros (der & rest & pub & -> & Hp & (point & Hpt & Hw)%Fingerprint_ok_inv). by exists der, rest, pub, point.
  - intros (der & rest & pub & point & -> & Hp & Hpt & Hs). exists der, rest, pub. split_and!; [done..|].
    apply Fingerprint_ok_inv. by exists point.
Qed.

(** ** What a server serves *)

Lemma selfSigned_ok_inv `{!X509Laws X} identity cert : selfSignedCertificate identity = Ok cert ->
  exists der, chain cert = [der] /\ certificate_key cert = Some (privateKey identity) /\
    ParseCertificate der = Some (ECDSA (public (privateKey identity))).
Proof.
  unfold selfSignedCertificate. destruct (hex_DecodeString _) as [digest|]; [|done].
  destruct (CreateCertificate _ _ _) as [der|] eqn:E; [|done]. intros [= <-]. exists der. split_and!; [done..|]. by eapply parse_created.
Qed.

Lemma newIdentity_ok_inv k ident : newIdentity k = Ok ident ->
  privateKey ident = k /\ FingerprintFromPublicKey (public k) = Ok (fingerprint ident).
Proof. unfold newIdentity. destruct (FingerprintFromPublicKey (public k)) as [fp|]; [|done]. simpl. by intros [= <-]. Qed.

Lemma LoadX509_ok_inv `{!X509Laws X} cwd cf kf fs cert fs' : LoadX509KeyPair cwd cf kf fs = (Ok cert, fs') -> fs' = fs /\ chain cert <> [].
Proof.
  intros H. apply bind_ok_inv in H as (c & s & Hc & H). unfold ReadFile in Hc. apply query_ok_inv in Hc as [_ ->].
  apply bind_ok_inv in H as (k & s & Hk & H). unfold ReadFile in Hk. apply query_ok_inv in Hk as [_ ->].
  destruct (X509KeyPair c k) as [cert'|] eqn:E; [|done]. injection H as <- <-. split; [done|]. by eapply key_pair_leaf.
Qed.

Lemma LoadOperator_ok_inv `{!X509Laws X} cwd cf kf fs cfg fp fs' : LoadOperatorTLSConfig cwd cf kf fs = (Ok (cfg, fp), fs') ->
  fs' = fs /\ exists cert der rest pub, cfg = server_config cert /\ chain cert = der :: rest /\
    ParseCertificate der = Some (ECDSA pub) /\ FingerprintFromPublicKey pub = Ok fp.
Proof.
  intros H. apply bind_ok_inv in H as (cert & s & [-> Hne]%LoadX509_ok_inv & H).
  destruct (chain cert) as [|der rest] eqn:Ec; [done|]. destruct (ParseCertificate der) as [[pub|]|] eqn:Ep; [|done..].
  apply bind_ok_inv in H as (fp' & s & [Hf ->]%lift_ok_inv & [= <- <- <-]). split; [done|]. by exists cert, der, rest, pub.
Qed.
End transport.
