(* ===== verification/Main.v ===== *)
(** * The command line (cmd/homebox)

    Models [cmd/homebox/main.go]: the commands, with what each prints, and the
    start of [server] up to the running services.  A command runs on the disk;
    [fatal] and the exits of [flag] end it at any point.  The bytes of the
    database file, with the write-ahead log beside it counted in, are SQLite's:
    [DatabaseFile] reads a database from them and writes one back.  Which file
    that is, the driver reads from the data source name.  The services see the storage directory as
    [Schema.World]. *)

From S2P Require Import Prelude GoText GoTime GoNet GoFlag Uuid Schema FileSystem GoPath SqliteFile ServerIdentity Backup Auth Sync Uploads Maintenance Config SecureTransport HttpApi HttpMux.
From Stdlib Require Import Ascii String.
Local Open Scope string_scope.

(** ** What a command runs with *)

Record Machine {K : ECKeys} := MkMachine {
  cwd : path;
  clk : nat -> Z;
  temp_name : nat -> string;
  fresh_key : PrivateKey;
  newid : nat -> string;
  salt : list byte;
  stdin : Stream;
}.
Arguments Machine K : clear implicits.
Arguments MkMachine {K} cwd clk temp_name fresh_key newid salt stdin.
Arguments cwd {K} _.
Arguments clk {K} _ _.
Arguments temp_name {K} _ _.
Arguments fresh_key {K} _.
Arguments newid {K} _ _.
Arguments salt {K} _.
Arguments stdin {K} _.

(** [load_database]: [database.Open] on the bytes of a database file, [None]
    where there is no file yet; [store_database]: its bytes after the process
    has used it, from the bytes before. *)
Class DatabaseFile : Type := {
  load_database : option (list byte) -> result DB;
  store_database : option (list byte) -> DB -> list byte;
}.

Inductive Output : Type :=
| BackupCreated (destination : string)
| BackupRestored (storage : string)
| MaintenanceComplete (r : Maintenance.Result)
| PrintedFingerprint (fp : string)
| AdminCreated (username id : string)
| FamilyUserCreated (username id : string)
| NewIdentityNote (keyPath : path)
| OperatorKeyNote.

(** How a command ends before its last line: [fatal] with status 1, or the
    exits of [flag.ExitOnError]. *)
Inductive Exit : Type :=
| Fatal (what : string) (cause : option error)
| UsageExit (code : Z).

Definition C (A : Type) : Type := FS -> (Exit + A) * FS.
#[global] Instance C_ret : MRet C := fun _ a fs => (inr a, fs).
#[global] Instance C_bind : MBind C := fun _ _ f m fs =>
  match m fs with (inr a, fs') => f a fs' | (inl e, fs') => (inl e, fs') end.

Definition exit_with {A} (e : Exit) : C A := fun fs => (inl e, fs).
Definition fatal {A} (what : string) (cause : option error) : C A := exit_with (Fatal what cause).
Definition fatal_if (b : bool) (what : string) : C unit := if b then fatal what None else mret tt.
(** A call whose error is fatal. *)
Definition or_fatal {A} (what : string) (m : M FS A) : C A := fun fs =>
  match m fs with (Ok a, fs') => (inr a, fs') | (Err e, fs') => (inl (Fatal what (Some e)), fs') end.
(** Reading the disk without failing. *)
Definition look {A} (q : FS -> A) : C A := fun fs => (inr (q fs), fs).

Definition parse_flags (flags : FlagSet) (args : list string) : C (FlagSet * list string) :=
  match Parse flags args with
  | Parsed fs rest => mret (fs, rest)
  | HelpWanted => exit_with (UsageExit 0)
  | BadFlags => exit_with (UsageExit 2)
  end.

(** ** Policies and passwords *)

(** [time.Duration(n) * time.Hour], on 64 bits. *)
Definition hours (n : Z) : Z := wrap64 (n * Hour).
Definition days (n : Z) : Z := wrap64 (wrap64 (n * 24) * Hour).

Definition maintenancePolicy (c : Config) : Policy :=
  let m := Config.Maintenance c in
  MkPolicy (hours (OrphanBlobGraceHours m)) (days (TrashRetentionDays m)) (Config.MaxFileVersions m) (days (VersionRetentionDays m)).

(** [io.LimitReader] and [io.ReadAll]: a failure after the limit is not seen. *)
Definition LimitRead (n : Z) (input : Stream) : result (list byte) :=
  if (n <=? Z.of_nat (List.length (sent input)))%Z then Ok (take (Z.to_nat n) (sent input))
  else if failed input then Err (Internal "read error") else Ok (sent input).

Definition newline : string := String "010" "".
Definition carriage_return : string := String "013" "".
Definition readPassword (input : Stream) : result string :=
  password ← LimitRead 1025 input;
  Ok (TrimSuffix (TrimSuffix (string_of_list_byte password) newline) carriage_return).

Definition set_Server (f : Config.ServerSection -> Config.ServerSection) (c : Config) : Config :=
  MkConfig (f (Config.Server c)) (Storage c) (Limits c) (ApplicationEncryption c) (E2EE c) (AbandonedAfterHours c) (Config.Sync c)
    (Config.Maintenance c).

Section commands.
Context {U : UuidLib} {TP : TimeParser} {A2 : Argon2} {K : ECKeys} {X : X509 K} {Y : Yaml} {J : ManifestJSON} {SQ : Sqlite} {DF : DatabaseFile}.
Context (m : Machine K).

(** ** Opening the database *)

(** Where the commands look for the database, and the file the driver takes from
    the name [database.Open] gives it. *)
Definition databasePath (storagePath : string) : path := Join (Abs (cwd m) storagePath) "database/homebox.db".
Definition databaseFile (storagePath : string) : path := Abs (cwd m) (dsn_file (dataSourceName (databaseText storagePath))).

(** [database.Open]: a new file holds the migrated, empty database. *)
Definition open_database (storagePath : string) : M FS DB :=
  FileSystem.MkdirAll (Join (Abs (cwd m) storagePath) "database") ;;
  inside ← query (fun fs => Ok (is_dir fs (parent (databaseFile storagePath))));
  throw_if (negb inside) (Internal "unable to open database file") ;;
  old ← query (fun fs => match (ReadFile (databaseFile storagePath) fs).1 with
                         | Ok data => Ok (Some data)
                         | Err e => if bool_decide (e = ErrNotExist) then Ok None else Err e
                         end);
  d ← lift (load_database old);
  exec (fun fs => Ok (<[databaseFile storagePath := File (store_database old d)]> fs)) ;;
  mret d.

(** ** The storage directory as the services see it *)

(** A path below [blobs] or [temp], relative to the storage directory. *)
Definition below (root p : path) : option path :=
  if bool_decide (root = take (List.length root) p) then
    match drop (List.length root) p with
    | n :: rest => if (String.eqb n "blobs" || String.eqb n "temp") && negb (bool_decide (rest = [])) then Some (n :: rest) else None
    | [] => None
    end
  else None.

Definition world_at (root : path) (d : DB) (fs : FS) : World :=
  MkWorld d
    (list_to_map (omap (fun e => match e.2, below root e.1 with File data, Some p => Some (slashed p, data) | _, _ => None end) (map_to_list fs)))
    (list_to_set (omap (fun e => match e.2, below root e.1 with Dir, Some p => Some (slashed p) | _, _ => None end) (map_to_list fs))).

(** The files and directories of the services, and everything else. *)
Definition disk_of (root : path) (w : World) (fs : FS) : FS :=
  let at_root (p : string) : path := (root ++ Split p "/")%list in
  list_to_map (map (fun f => (at_root f.1, File f.2)) (map_to_list (files w)) ++ map (fun p => (at_root p, Dir)) (elements (dirs w)))%list
  ∪ filter (fun e => below root e.1 = None \/ e.2 = Special) fs.

(** What a service call does to the database is in its file. *)
Definition write_database (storagePath : string) (d : DB) : M FS unit := exec (fun fs =>
  let old := match fs !! databaseFile storagePath with Some (File data) => Some data | _ => None end in
  Ok (<[databaseFile storagePath := File (store_database old d)]> fs)).

Definition on_disk {A} (storagePath : string) (d : DB) (call : M DB A) : M FS A :=
  let '(r, d') := call d in write_database storagePath d' ;; lift r.

(** A call on the database and the files. *)
Definition on_storage {A} (storagePath : string) (w : World) (call : M World A) : M FS A :=
  let '(r, w') := call w in
  exec (fun fs => Ok (disk_of (Abs (cwd m) storagePath) w' fs)) ;;
  write_database storagePath (db w') ;;
  lift r.

(** [os.Stat] whose error is fatal, a missing file included. *)
Definition must_exist (p : path) : C unit :=
  found ← or_fatal "inspect storage" (Stat p);
  if found : bool then mret tt else fatal "inspect storage" (Some ErrNotExist).

Definition load_config (flags : FlagSet) : C Config := or_fatal "load config" (Load (cwd m) (string_flag "config" flags)).

(** ** backup and restore *)

Definition config_flag : FlagSet := [("config", FString "config.yaml")].

Definition createBackup (args : list string) : C (list Output) :=
  parsed ← parse_flags config_flag args;
  let flags := parsed.1 in
  fatal_if (negb (Nat.eqb (List.length parsed.2) 1)) "usage: homebox backup [--config config.yaml] <new-backup-directory>" ;;
  let destination := nth 0 parsed.2 "" in
  c ← load_config flags;
  let storagePath := StoragePath (Storage c) in
  must_exist (databasePath storagePath) ;;
  must_exist (KeyPath (Abs (cwd m) storagePath)) ;;
  d ← or_fatal "open database" (open_database storagePath);
  or_fatal "create backup" (Backup.Create (cwd m) (clk m 0) (temp_name m) (fresh_key m) (Some d) storagePath (string_flag "config" flags) destination) ;;
  mret [BackupCreated destination].

Definition restoreBackup (args : list string) : C (list Output) :=
  parsed ← parse_flags config_flag args;
  fatal_if (negb (Nat.eqb (List.length parsed.2) 1)) "usage: homebox restore [--config config.yaml] <backup-directory>" ;;
  c ← load_config parsed.1;
  or_fatal "restore backup" (Backup.Restore (cwd m) (temp_name m) (fresh_key m) (nth 0 parsed.2 "") (StoragePath (Storage c))) ;;
  mret [BackupRestored (StoragePath (Storage c))].

(** ** Accounts *)

Definition user_flags : FlagSet := [("config", FString "config.yaml"); ("username", FString ""); ("password-stdin", FBool false)].

(** [bootstrap-admin] and [create-user] differ in the call and the words. *)
Definition account_command (usage failure : string) (create : Config -> string -> string -> M DB User) (args : list string) : C User :=
  parsed ← parse_flags user_flags args;
  let flags := parsed.1 in
  let username := string_flag "username" flags in
  fatal_if (String.eqb username "" || negb (bool_flag "password-stdin" flags)) usage ;;
  c ← load_config flags;
  password ← or_fatal "read password" (lift (readPassword (stdin m)));
  let storagePath := StoragePath (Storage c) in
  d ← or_fatal "open database" (open_database storagePath);
  or_fatal failure (on_disk storagePath d (create c username password)).

Definition bootstrapAdmin (args : list string) : C (list Output) :=
  user ← account_command "bootstrap-admin requires --username and --password-stdin" "bootstrap admin"
    (fun _ => BootstrapAdmin (clk m) (newid m) (salt m)) args;
  mret [AdminCreated (Username user) (User_ID user)].

Definition createUser (args : list string) : C (list Output) :=
  user ← account_command "create-user requires --username and --password-stdin" "create user"
    (fun c => CreateUser (clk m) (newid m) (salt m) (Config.MaxUsers (Limits c))) args;
  mret [FamilyUserCreated (Username user) (User_ID user)].

(** ** The identity and the TLS configuration *)

Definition serverTLSConfig (c : Config) (identity : Identity) : M FS (TLSConfig * string) :=
  let tls := TLS (Config.Server c) in
  if TLS_Enabled tls then LoadOperatorTLSConfig (cwd m) (CertFile tls) (KeyFile tls)
  else
    tlsConfig ← lift (BuildTLSConfig identity);
    mret (tlsConfig, ServerIdentity.fingerprint identity).

Definition LoadIdentity (storagePath : string) : M FS Identity := LoadOrCreate (temp_name m) (fresh_key m) (Abs (cwd m) storagePath).

Definition fingerprint (args : list string) : C (list Output) :=
  parsed ← parse_flags config_flag args;
  c ← load_config parsed.1;
  let tls := TLS (Config.Server c) in
  if TLS_Enabled tls then
    operator ← or_fatal "load operator TLS certificate" (LoadOperatorTLSConfig (cwd m) (CertFile tls) (KeyFile tls));
    mret [OperatorKeyNote; PrintedFingerprint operator.2]
  else
    let keyPath := KeyPath (Abs (cwd m) (StoragePath (Storage c))) in
    missing ← look (fun fs => match Lstat fs keyPath with Ok None => true | _ => false end);
    identity ← or_fatal "load server identity" (LoadIdentity (StoragePath (Storage c)));
    mret ((if missing : bool then [NewIdentityNote keyPath] else []) ++ [PrintedFingerprint (ServerIdentity.fingerprint identity)])%list.

(** ** maintenance *)

Definition runMaintenance (args : list string) : C (list Output) :=
  parsed ← parse_flags config_flag args;
  fatal_if (negb (Nat.eqb (List.length parsed.2) 0)) "usage: homebox maintenance [--config config.yaml]" ;;
  c ← load_config parsed.1;
  let storagePath := StoragePath (Storage c) in
  must_exist (databasePath storagePath) ;;
  d ← or_fatal "open database" (open_database storagePath);
  policy ← or_fatal "initialize maintenance" (lift (Maintenance.New storagePath (maintenancePolicy c)));
  w ← look (world_at (Abs (cwd m) storagePath) d);
  result ← or_fatal "run maintenance" (on_storage storagePath w (Maintenance.Run policy (clk m)));
  mret [MaintenanceComplete result].

(** ** server *)

Definition server_flags : FlagSet :=
  [("config", FString "config.yaml"); ("host", FString ""); ("port", FInt 0); ("tls", FString "")].

Definition set_Host (v : string) (c : Config) : Config := set_Server (fun s => Config.MkServer v (Port s) (ReadTimeout s) (TLS s)) c.
Definition set_Port (v : Z) (c : Config) : Config := set_Server (fun s => Config.MkServer (Host s) v (ReadTimeout s) (TLS s)) c.
Definition set_TLS_Enabled (v : bool) (c : Config) : Config :=
  set_Server (fun s => Config.MkServer (Host s) (Port s) (ReadTimeout s) (MkTLS v (CertFile (TLS s)) (KeyFile (TLS s)))) c.

Definition override (flags : FlagSet) (c : Config) : C Config :=
  let c := if String.eqb (string_flag "host" flags) "" then c else set_Host (string_flag "host" flags) c in
  let c := if (int_flag "port" flags =? 0)%Z then c else set_Port (int_flag "port" flags) c in
  c ← (if String.eqb (string_flag "tls" flags) "" then mret c
       else match ParseBool (string_flag "tls" flags) with
            | Some value => mret (set_TLS_Enabled value c)
            | None => fatal "parse --tls" (Some (Internal "invalid syntax"))
            end : C Config);
  or_fatal "validate server overrides" (lift (Validate c)) ;;
  mret c.

(** [uploads.New]. *)
Definition uploads_New (storagePath : string) (maxCiphertextSize abandonedAfter : Z) : M FS Uploads.Service :=
  throw_if ((maxCiphertextSize <=? 0)%Z || (abandonedAfter <=? 0)%Z) (Internal "invalid upload service limits") ;;
  FileSystem.MkdirAll (Join (Abs (cwd m) storagePath) "blobs") ;;
  FileSystem.MkdirAll (Join (Abs (cwd m) storagePath) "temp/uploads") ;;
  mret (Uploads.New maxCiphertextSize abandonedAfter).

(** What [serve] hands to the listener and to the maintenance loop; the
    limiters of the sessions start empty. *)
Record Running := MkRunning {
  address : string;
  tls : TLSConfig;
  served : string;             (* the logged fingerprint *)
  readTimeout : Z;
  services : API;
  policy : Policy;
  interval : Z;
  start : HttpApi.Server;
}.

(** [serve]: its configuration, then up to listening.  [dummy] is the hash [auth] compares with where
    there is no account. *)
Definition serve_config (args : list string) : C Config :=
  parsed ← parse_flags server_flags args;
  c ← load_config parsed.1;
  override parsed.1 c.

Definition serve (dummy : string) (args : list string) : C Running :=
  c ← serve_config args;
  let storagePath := StoragePath (Storage c) in
  d ← or_fatal "open database" (open_database storagePath);
  identity ← or_fatal "load server identity" (LoadIdentity storagePath);
  secure ← or_fatal "build secure transport" (serverTLSConfig c identity);
  uploads ← or_fatal "initialize upload storage" (uploads_New storagePath (MaxCiphertextFileSize (Limits c)) (hours (AbandonedAfterHours c)));
  policy ← or_fatal "initialize automatic maintenance" (lift (Maintenance.New storagePath (maintenancePolicy c)));
  w ← look (world_at (Abs (cwd m) storagePath) d);
  mret (MkRunning (Address c) secure.1 secure.2 (HTTPReadTimeout c)
          (MkAPI (AccessTokenTTL c) dummy (Sync.New (PageSize (Config.Sync c)) (MaxPageSize (Config.Sync c))) uploads)
          policy (hours (IntervalHours (Config.Maintenance c))) (HttpApi.MkServer w ∅ ∅ ∅ [])).

(** ** main *)

Inductive Outcome : Type :=
| Ended (out : list Output)
| Serving (r : Running).

Definition ends (command : C (list Output)) : C Outcome := out ← command; mret (Ended out).

Definition main (dummy : string) (args : list string) : C Outcome :=
  match args with
  | [] => fatal "usage: homebox <server|fingerprint|bootstrap-admin|create-user|backup|restore|maintenance> [options]" None
  | command :: rest =>
      if String.eqb command "server" then r ← serve dummy rest; mret (Serving r)
      else if String.eqb command "fingerprint" then ends (fingerprint rest)
      else if String.eqb command "bootstrap-admin" then ends (bootstrapAdmin rest)
      else if String.eqb command "create-user" then ends (createUser rest)
      else if String.eqb command "backup" then ends (createBackup rest)
      else if String.eqb command "restore" then ends (restoreBackup rest)
      else if String.eqb command "maintenance" then ends (runMaintenance rest)
      else fatal ("unknown command " ++ command) None
  end.
End commands.
