(* ===== verification/MainCorrect.v ===== *)
(** * Correctness of the command line

    The policies the configuration asks for, passwords read from standard
    input, and the fingerprint an operator hands to the clients. *)

From stdpp Require Import countable.
From S2P Require Import Prelude GoText GoTime GoDuration GoNet GoFlag Uuid Sha256 Schema FileSystem FileSystemLemmas GoPath ServerIdentity Backup BackupCorrect ServerIdentityCorrect Auth Sync Uploads Maintenance Config ConfigCorrect SecureTransport SecureTransportCorrect HttpApi HttpMux Main.
From Stdlib Require Import Ascii String.
Local Open Scope string_scope.
Local Open Scope list_scope.

(** ** Durations *)

Lemma wrap64_exact z : wrap64 z = z <-> (min_int64 <= z <= max_int64)%Z.
Proof.
  unfold wrap64, min_int64, max_int64. split; [|intros; rewrite Z.mod_small by lia; lia].
  intros H. pose proof (Z.mod_pos_bound (z + 9223372036854775808) 18446744073709551616). lia.
Qed.

Definition max_hours : Z := 2562047.
Definition max_days : Z := 106751.

Lemma hours_exact n : (0 < n)%Z -> hours n = (n * Hour)%Z <-> (n <= max_hours)%Z.
Proof. intros Hn. unfold hours. rewrite wrap64_exact. unfold Hour, Minute, Second, min_int64, max_int64, max_hours. lia. Qed.

Lemma days_exact n : (0 < n)%Z -> days n = (n * 24 * Hour)%Z <-> (n <= max_days)%Z.
Proof.
  intros Hn. unfold days. split.
  - intros H. assert (Hr : wrap64 (n * 24 * Hour) = (n * 24 * Hour)%Z).
    { apply wrap64_exact. rewrite <- H. pose proof (wrap64_exact (wrap64 (wrap64 (n * 24) * Hour))) as [Hw _]. apply Hw.
      unfold wrap64. set (k := ((n * 24 + _) mod _ - _)%Z). pose proof (Z.mod_pos_bound (k * Hour + 9223372036854775808) 18446744073709551616).
      rewrite Z.mod_small by lia. lia. }
    apply wrap64_exact in Hr. unfold Hour, Minute, Second, min_int64, max_int64, max_days in *. lia.
  - intros Hd. assert (wrap64 (n * 24) = (n * 24)%Z) as -> by (apply wrap64_exact; unfold max_days, min_int64, max_int64 in *; lia).
    apply wrap64_exact. unfold Hour, Minute, Second, min_int64, max_int64, max_days in *. lia.
Qed.

Definition fits (c : Config) : Prop :=
  let m := Config.Maintenance c in
  (OrphanBlobGraceHours m <= max_hours /\ TrashRetentionDays m <= max_days /\ VersionRetentionDays m <= max_days /\
   IntervalHours m <= max_hours /\ AbandonedAfterHours c <= max_hours)%Z.

(** C39. The durations of a valid configuration.  Each one the services get is
    the one written, in nanoseconds, exactly up to 2562047 hours or 106751 days,
    and a different one above; and where all of them fit, the maintenance and
    upload services accept them and the maintenance ticker has a positive
    interval. *)
Theorem policy_exact c : Validate c = Ok tt ->
  let p := maintenancePolicy c in let m := Config.Maintenance c in
  (OrphanBlobGrace p = (OrphanBlobGraceHours m * Hour)%Z <-> (OrphanBlobGraceHours m <= max_hours)%Z) /\
  (TrashRetention p = (TrashRetentionDays m * 24 * Hour)%Z <-> (TrashRetentionDays m <= max_days)%Z) /\
  (VersionRetention p = (VersionRetentionDays m * 24 * Hour)%Z <-> (VersionRetentionDays m <= max_days)%Z) /\
  (hours (IntervalHours m) = (IntervalHours m * Hour)%Z <-> (IntervalHours m <= max_hours)%Z) /\
  (hours (AbandonedAfterHours c) = (AbandonedAfterHours c * Hour)%Z <-> (AbandonedAfterHours c <= max_hours)%Z) /\
  (fits c -> Maintenance.New (StoragePath (Storage c)) p = Ok p /\ (0 < hours (IntervalHours m))%Z /\
     ((MaxCiphertextFileSize (Limits c) <=? 0) || (hours (AbandonedAfterHours c) <=? 0) = false)%Z).
Proof.
  intros H%Validate_spec. destruct H as [_ _ _ [Hpath _] _ Hsizes _ _ _ _ Hup _ (H1 & H2 & H3 & H4 & H5)]. cbv zeta.
  split_and!; [apply hours_exact; lia|apply days_exact; lia|apply days_exact; lia|apply hours_exact; lia|apply hours_exact; lia|].
  intros (B1 & B2 & B3 & B4 & B5). unfold Maintenance.New, maintenancePolicy. cbn [OrphanBlobGrace TrashRetention VersionRetention Maintenance.MaxFileVersions].
  apply String.eqb_neq in Hpath. rewrite Hpath.
  pose proof (proj2 (hours_exact (OrphanBlobGraceHours (Config.Maintenance c)) ltac:(lia)) B1) as ->. pose proof (proj2 (days_exact (TrashRetentionDays (Config.Maintenance c)) ltac:(lia)) B2) as ->.
  pose proof (proj2 (days_exact (VersionRetentionDays (Config.Maintenance c)) ltac:(lia)) B3) as ->. pose proof (proj2 (hours_exact (IntervalHours (Config.Maintenance c)) ltac:(lia)) B4) as ->.
  pose proof (proj2 (hours_exact (AbandonedAfterHours c) ltac:(lia)) B5) as ->.
  assert (Hpos : forall n k, (1 <= n)%Z -> (0 < k)%Z -> (0 < n * k)%Z) by (intros; apply Z.mul_pos_pos; lia).
  assert (Hh : (0 < Hour)%Z) by done.
  pose proof (Hpos _ _ H1 Hh). pose proof (Hpos _ _ (Z.le_trans _ _ _ H2 (Z.le_refl _)) (eq_refl : 0 < 24)%Z) as Ht.
  pose proof (Hpos _ _ H5 (eq_refl : 0 < 24)%Z) as Hv. pose proof (Z.mul_pos_pos _ _ Ht Hh). pose proof (Z.mul_pos_pos _ _ Hv Hh).
  pose proof (Hpos _ _ H3 Hh). pose proof (Hpos _ _ Hup Hh).
  split_and!; [|done|apply orb_false_iff; split; lia].
  replace (_ || _ || _ || _) with false; [done|]. symmetry. repeat (apply orb_false_iff; split); lia.
Qed.

Lemma policy_exact_witness : Validate Defaults = Ok tt /\ OrphanBlobGrace (maintenancePolicy Defaults) = (168 * Hour)%Z /\
  Maintenance.New "./data" (maintenancePolicy Defaults) = Ok (maintenancePolicy Defaults).
Proof.
  destruct (policy_exact Defaults Defaults_valid) as (H1 & _ & _ & _ & _ & H6). split; [exact Defaults_valid|]. split.
  - apply H1. vm_compute. discriminate.
  - apply H6. repeat split; vm_compute; discriminate.
Defined.

(** A valid configuration asks to keep unreferenced blobs for 2{^51}+1 hours;
    the policy keeps them for one. *)
Definition long_grace : Config :=
  let m := Config.Maintenance Defaults in
  MkConfig (Config.Server Defaults) (Storage Defaults) (Limits Defaults) (ApplicationEncryption Defaults) (E2EE Defaults) (AbandonedAfterHours Defaults)
    (Config.Sync Defaults) (MkMaintenance (2 ^ 51 + 1) (TrashRetentionDays m) (IntervalHours m) (Config.MaxFileVersions m) (VersionRetentionDays m)).
Example long_grace_wraps : Validate long_grace = Ok tt /\ OrphanBlobGrace (maintenancePolicy long_grace) = Hour.
Proof. split; vm_compute; reflexivity. Qed.

(** ** What a validated configuration is good for *)

(** [net.Listen] on the address: the configured host, which needs no lookup, and
    a port of its own. *)
Definition listenable (c : Config) : Prop := exists port n, SplitHostPort (Address c) = Some (Host (Config.Server c), port) /\
  literal_host (Host (Config.Server c)) /\ ParseInt64 port = Ok n /\ (1 <= n <= 65535)%Z.

(** What [serve] hands to the listener, the services and the maintenance loop is
    something they can work with, on a disk with the directories of uploads: [time.NewTicker] panics unless its interval is
    positive. *)
Record startable {K : ECKeys} (m : Machine K) (fs : FS) (c : Config) : Prop := {
  st_listens : listenable c;
  st_read_timeout : (0 < HTTPReadTimeout c <= max_int64)%Z;
  st_sessions : (0 < AccessTokenTTL c <= max_int64)%Z;
  st_pages : let s := Sync.New (PageSize (Config.Sync c)) (MaxPageSize (Config.Sync c)) in
    Sync.page_size s 0 = PageSize (Config.Sync c) /\ forall asked, (1 <= Sync.page_size s asked <= MaxPageSize (Config.Sync c))%Z;
  st_uploads : let size := MaxCiphertextFileSize (Limits c) in let after := hours (AbandonedAfterHours c) in
    uploads_New m (StoragePath (Storage c)) size after fs = (Ok (Uploads.New size after), fs);
  st_maintenance : Maintenance.New (StoragePath (Storage c)) (maintenancePolicy c) = Ok (maintenancePolicy c);
  st_ticker : (0 < hours (IntervalHours (Config.Maintenance c)))%Z;
}.

(** What the vault promises of every deployment, whether or not a service asks. *)
Record promised (c : Config) : Prop := {
  pr_ciphertext : CiphertextOnly (Storage c) = true;
  pr_users : (1 <= MaxUsers (Limits c) <= 5)%Z;
  pr_sizes : (0 < UploadChunkPlaintextSize (Limits c) <= MaxPlaintextFileSize (Limits c))%Z /\
    (MaxPlaintextFileSize (Limits c) <= defaultMaxPlaintextSize)%Z /\
    (MaxPlaintextFileSize (Limits c) <= MaxCiphertextFileSize (Limits c) <= defaultMaxCiphertextSize)%Z;
  pr_e2ee : E2EE_Required (E2EE c) = true /\ ServerDecryptionEnabled (E2EE c) = false /\ ProtocolVersion (E2EE c) = 1%Z;
  pr_encryption : Encryption_Enabled (ApplicationEncryption c) = true /\ RequiredForHTTP (ApplicationEncryption c) = true;
  pr_tls : TLS_Enabled (TLS (Config.Server c)) = true -> CertFile (TLS (Config.Server c)) <> "" /\ KeyFile (TLS (Config.Server c)) <> "";
}.

(** The port is an [int], and the durations of hours and days are exact. *)
Definition representable (c : Config) : Prop :=
  let m := Config.Maintenance c in
  (min_int64 <= Port (Config.Server c) <= max_int64 /\
   - max_hours <= OrphanBlobGraceHours m <= max_hours /\ - max_days <= TrashRetentionDays m <= max_days /\
   - max_days <= VersionRetentionDays m <= max_days /\ - max_hours <= IntervalHours m <= max_hours /\
   - max_hours <= AbandonedAfterHours c <= max_hours)%Z.

Lemma hours_positive n : (- max_hours <= n <= max_hours)%Z -> (0 < hours n <-> 1 <= n)%Z.
Proof.
  intros Hn. unfold hours. rewrite (proj2 (wrap64_exact _)) by (unfold Hour, Minute, Second, min_int64, max_int64, max_hours in *; lia).
  unfold Hour, Minute, Second. lia.
Qed.
Lemma days_positive n : (- max_days <= n <= max_days)%Z -> (0 < days n <-> 1 <= n)%Z.
Proof.
  intros Hn. unfold days. rewrite (proj2 (wrap64_exact (n * 24))) by (unfold min_int64, max_int64, max_days in *; lia).
  rewrite (proj2 (wrap64_exact _)) by (unfold Hour, Minute, Second, min_int64, max_int64, max_days in *; lia).
  unfold Hour, Minute, Second. lia.
Qed.

Lemma uploads_New_accepts {K : ECKeys} (m : Machine K) sp size after fs :
  is_dir fs (Join (Abs (cwd m) sp) "blobs") = true -> is_dir fs (Join (Abs (cwd m) sp) "temp/uploads") = true ->
  uploads_New m sp size after fs = (Ok (Uploads.New size after), fs) <-> (0 < size /\ 0 < after)%Z.
Proof.
  intros Hb Ht. unfold uploads_New. destruct ((size <=? 0)%Z || (after <=? 0)%Z) eqn:E.
  - split; [done|]. intros []. apply orb_true_iff in E. lia.
  - rewrite throw_if_bind by done. apply orb_false_iff in E as [? ?].
    rewrite (bind_ok _ _ fs tt fs (MkdirAll_dir _ _ Hb)), (bind_ok _ _ fs tt fs (MkdirAll_dir _ _ Ht)). split; [lia|done].
Qed.

Lemma Maintenance_New_accepts sp p : Maintenance.New sp p = Ok p <->
  sp <> "" /\ (0 < OrphanBlobGrace p /\ 0 < TrashRetention p /\ 1 <= Maintenance.MaxFileVersions p /\ 0 < VersionRetention p)%Z.
Proof.
  unfold Maintenance.New. destruct (String.eqb_spec sp "") as [->|Hne]; [split; [done|by intros [? _]]|].
  destruct (_ || _) eqn:E.
  - split; [done|]. intros [_ ?]. rewrite !orb_true_iff in E. lia.
  - rewrite !orb_false_iff in E. split; [intros _; split; [done|lia]|done].
Qed.

Lemma positive_duration_or_zero s : (0 < duration_or_zero s)%Z <-> exists d, ParseDuration s = Ok d /\ (0 < d)%Z.
Proof.
  unfold duration_or_zero. destruct (ParseDuration s) as [d|e]; split.
  - intros H. by exists d.
  - by intros (d' & [= ->] & H).
  - lia.
  - by intros (d' & [=] & _).
Qed.

(** Pages of the change feed. *)
Lemma pages_accepted d m : (Sync.page_size (Sync.New d m) 0 = d /\ forall asked, 1 <= Sync.page_size (Sync.New d m) asked <= m)%Z <-> (1 <= d <= m)%Z.
Proof.
  unfold Sync.page_size. cbn [defaultSize maxSize]. split.
  - intros [H0 H]. specialize (H 0%Z). cbn in H0, H. destruct (m <? d)%Z eqn:E; lia.
  - intros Hd. split; [cbn; destruct (m <? d)%Z eqn:E; lia|]. intros asked. destruct (asked <=? 0)%Z eqn:E1; destruct (m <? _)%Z eqn:E2; lia.
Qed.

Section startable.
Context {K : ECKeys} (m : Machine K) (fs : FS) (c : Config).
Hypothesis Hblobs : is_dir fs (Join (Abs (cwd m) (StoragePath (Storage c))) "blobs") = true.
Hypothesis Huploads : is_dir fs (Join (Abs (cwd m) (StoragePath (Storage c))) "temp/uploads") = true.

Lemma validated_startable : representable c -> validated c -> startable m fs c.
Proof.
  intros (Rp & R1 & R2 & R3 & R4 & R5) [Hh Hp Ht [Hpath _] Hu Hsizes _ _ Hs _ Hup Hpg (H1 & H2 & H3 & H4 & H5)]. split.
  - exists (FormatInt (Port (Config.Server c))), (Port (Config.Server c)). split; [by apply Address_split|]. split; [done|].
    split; [by apply ParseInt64_FormatInt|done].
  - destruct Ht as (d & Hd & H0). by apply (duration_range _ d).
  - destruct Hs as (d & Hd & H0). by apply (duration_range _ d).
  - by apply pages_accepted.
  - apply uploads_New_accepts; [done..|]. split; [lia|by apply hours_positive].
  - apply Maintenance_New_accepts. cbn [maintenancePolicy OrphanBlobGrace TrashRetention VersionRetention Maintenance.MaxFileVersions].
    split; [done|]. split_and!; [by apply hours_positive|by apply days_positive|done|by apply days_positive].
  - by apply hours_positive.
Qed.

Lemma validated_promised : validated c -> promised c.
Proof. intros [_ _ _ [_ Hc] Hu Hsizes He Ha _ Htls _ _ _]. by split. Qed.

Lemma startable_validated : representable c -> startable m fs c -> promised c -> validated c.
Proof.
  intros (Rp & R1 & R2 & R3 & R4 & R5) [(port & n & Hsplit & Hh & Hn & Hn2) [Ht _] [Hs _] Hpg Hup Hm Htick] [Pc Pu Psz Pe Pa Ptls].
  assert (Hport : n = Port (Config.Server c)).
  { rewrite (Address_split c Hh) in Hsplit. injection Hsplit as <-. rewrite ParseInt64_FormatInt in Hn by done. by injection Hn. }
  apply uploads_New_accepts in Hup as [_ Hup]; [|done..].
  apply Maintenance_New_accepts in Hm as (Hpath & M1 & M2 & M3 & M4).
  cbn [maintenancePolicy OrphanBlobGrace TrashRetention VersionRetention Maintenance.MaxFileVersions] in M1, M2, M3, M4.
  split; try done.
  - by rewrite <- Hport.
  - by apply positive_duration_or_zero.
  - by apply positive_duration_or_zero.
  - by apply hours_positive.
  - by apply pages_accepted.
  - split_and!; [by apply hours_positive|by apply days_positive|by apply hours_positive|done|by apply days_positive].
Qed.
End startable.

(** C37. What [Validate] is for.  Where the hours and days it is given can be
    turned into durations without wrapping around, it accepts exactly the
    configurations with which the server starts and runs, the listener getting
    the configured host and port, the services their limits and policies and
    the maintenance loop a positive interval, and which keep the vault's own
    promises. *)
Theorem Validate_startable (K : ECKeys) (m : Machine K) fs c : representable c ->
  is_dir fs (Join (Abs (cwd m) (StoragePath (Storage c))) "blobs") = true ->
  is_dir fs (Join (Abs (cwd m) (StoragePath (Storage c))) "temp/uploads") = true ->
  (Validate c = Ok tt <-> startable m fs c /\ promised c).
Proof.
  intros Hr Hb Hu. rewrite Validate_spec. split.
  - intros Hv. split; [by apply validated_startable|by apply validated_promised].
  - intros [Hs Hp]. by apply (startable_validated m fs).
Qed.

(** Beyond that it accepts an interval that wraps below zero. *)
Definition long_interval : Config :=
  let m := Config.Maintenance Defaults in
  MkConfig (Config.Server Defaults) (Storage Defaults) (Limits Defaults) (ApplicationEncryption Defaults) (E2EE Defaults) (AbandonedAfterHours Defaults)
    (Config.Sync Defaults) (MkMaintenance (OrphanBlobGraceHours m) (TrashRetentionDays m) 2562048 (Config.MaxFileVersions m) (VersionRetentionDays m)).
Example long_interval_panics : Validate long_interval = Ok tt /\ (hours (IntervalHours (Config.Maintenance long_interval)) < 0)%Z.
Proof. split; vm_compute; reflexivity. Qed.

(** ** Passwords *)

Lemma TrimSuffix_other c s : no_char c s = true -> TrimSuffix s (String c "") = s.
Proof.
  intros H. unfold TrimSuffix. destruct (HasSuffix s (String c "")) eqn:E; [|done]. apply HasSuffix_split in E as [t ->].
  rewrite no_char_app in H. apply andb_prop in H as [_ H]. simpl in H. by rewrite Ascii.eqb_refl in H.
Qed.

Lemma LimitRead_within n data : (Z.of_nat (List.length data) <= n)%Z -> LimitRead n (MkStream data false) = Ok data.
Proof.
  intros H. unfold LimitRead. cbn [sent failed]. destruct (n <=? _)%Z eqn:E; [|done]. rewrite take_ge by lia. done.
Qed.

Lemma list_byte_of_string_cons c s : list_byte_of_string (String c s) = byte_of_ascii c :: list_byte_of_string s.
Proof. done. Qed.
Lemma list_byte_of_string_app a b : list_byte_of_string (a ++ b) = list_byte_of_string a ++ list_byte_of_string b.
Proof. induction a as [|c a IH]; [done|]. change (String c a ++ b)%string with (String c (a ++ b)). by rewrite !list_byte_of_string_cons, IH. Qed.
Lemma length_list_byte_of_string s : List.length (list_byte_of_string s) = String.length s.
Proof. induction s as [|c s IH]; [done|]. rewrite list_byte_of_string_cons. simpl. by rewrite IH. Qed.
Lemma no_char_take c n s : no_char c s = true -> no_char c (string_take n s) = true.
Proof.
  revert n. induction s as [|c' s IH]; intros [|n]; [done..|]. simpl. intros [Hc Hs]%andb_prop. by rewrite Hc, IH.
Qed.
Lemma length_take n s : (n <= String.length s)%nat -> String.length (string_take n s) = n.
Proof. revert n. induction s as [|c s IH]; intros [|n] H; simpl in *; [done|lia|done|]. by rewrite IH by lia. Qed.
Lemma take_list_byte n s : take n (list_byte_of_string s) = list_byte_of_string (string_take n s).
Proof. revert n. induction s as [|c s IH]; intros [|n]; [done..|]. simpl string_take. rewrite !list_byte_of_string_cons. simpl. by rewrite IH. Qed.

(** A password of one line, ended in any of the usual ways. *)
Definition line_end (e : string) : Prop := e = "" \/ e = newline \/ e = (carriage_return ++ newline)%string.

(** What is read is trimmed when it fits, and its first 1025 bytes otherwise. *)
Lemma readPassword_eq s : readPassword (MkStream (list_byte_of_string s) false) =
  Ok (TrimSuffix (TrimSuffix (if (String.length s <=? 1025)%nat then s else string_take 1025 s) newline) carriage_return).
Proof.
  unfold readPassword. destruct (String.length s <=? 1025)%nat eqn:E.
  - rewrite LimitRead_within by (rewrite length_list_byte_of_string; apply Nat.leb_le in E; lia). simpl. by rewrite string_of_list_byte_of_string.
  - unfold LimitRead. cbn [sent]. rewrite length_list_byte_of_string. apply Nat.leb_gt in E.
    replace (1025 <=? Z.of_nat (String.length s))%Z with true by lia. rewrite take_list_byte. simpl. by rewrite string_of_list_byte_of_string.
Qed.

Lemma trim_plain s : no_char "010" s = true -> no_char "013" s = true -> TrimSuffix (TrimSuffix s newline) carriage_return = s.
Proof. intros H1 H2. unfold newline, carriage_return. by rewrite (TrimSuffix_other "010"), (TrimSuffix_other "013"). Qed.

Lemma take_app_le n a b : (n <= String.length a)%nat -> string_take n (a ++ b) = string_take n a.
Proof.
  revert n. induction a as [|c a IH]; intros [|n] H; [done|simpl in H; lia|done|]. simpl in H.
  change (string_take (S n) (String c a ++ b)) with (String c (string_take n (a ++ b))). by rewrite IH by lia.
Qed.

(** A password of up to 1024 bytes without line breaks is read back from its
    line; of a longer one so much is read that it is refused. *)
Lemma readPassword_line password e : no_char "010" password = true -> no_char "013" password = true -> line_end e ->
  let read := readPassword (MkStream (list_byte_of_string (password ++ e)) false) in
  if (String.length password <=? 1024)%nat then read = Ok password
  else exists p, read = Ok p /\ is_ok (validatePassword p) = false.
Proof.
  intros Hn Hr He. cbv zeta. rewrite readPassword_eq, string_length_app.
  destruct (String.length password <=? 1024)%nat eqn:El.
  - apply Nat.leb_le in El. f_equal. destruct He as [-> | [-> | ->]].
    + rewrite string_app_nil_r. replace (_ <=? 1025)%nat with true by (symmetry; apply Nat.leb_le; simpl; lia). by apply trim_plain.
    + replace (_ <=? 1025)%nat with true by (symmetry; apply Nat.leb_le; simpl; lia). rewrite TrimSuffix_app. by apply (TrimSuffix_other "013").
    + rewrite string_app_assoc. destruct (_ <=? 1025)%nat eqn:E2; [by rewrite !TrimSuffix_app|].
      assert (E3 : String.length password = 1024%nat) by (apply Nat.leb_gt in E2; simpl in E2; lia).
      rewrite (take_app_le 1025 (password ++ carriage_return)%string) by (rewrite string_length_app; simpl; lia).
      assert (string_take 1025 (password ++ carriage_return) = (password ++ carriage_return)%string) as ->.
      { replace 1025%nat with (String.length (password ++ carriage_return)) by (rewrite string_length_app; simpl; lia).
        rewrite <- (string_app_nil_r (password ++ carriage_return)) at 2. by rewrite string_take_app. }
      rewrite (TrimSuffix_other "010") by (rewrite no_char_app, Hn; done). apply TrimSuffix_app.
  - apply Nat.leb_gt in El. exists (string_take 1025 password). split.
    + f_equal. assert ((if (String.length password + String.length e <=? 1025)%nat then (password ++ e)%string else string_take 1025 (password ++ e)) = string_take 1025 password) as ->.
      { destruct (_ <=? 1025)%nat eqn:E2; [|by apply take_app_le]. apply Nat.leb_le in E2.
        assert (e = "") as -> by (destruct e; [done|simpl in E2; lia]). rewrite string_app_nil_r.
        replace 1025%nat with (String.length password) by (simpl in E2; lia). rewrite <- (string_app_nil_r password) at 3. by rewrite string_take_app. }
      apply trim_plain; by apply no_char_take.
    + unfold validatePassword. rewrite length_take by lia. done.
Qed.

(** A line break as byte 1025 ends a password of any length: what follows is
    neither read nor refused. *)
Fixpoint repeat_char (n : nat) (c : ascii) : string := match n with O => "" | S n' => String c (repeat_char n' c) end.
Example readPassword_cut : let first := repeat_char 1024 "a" in
  readPassword (MkStream (list_byte_of_string (first ++ newline ++ "the rest of the password")) false) = Ok first /\
  is_ok (validatePassword first) = true.
Proof. split; vm_compute; reflexivity. Qed.
