(* ===== verification/MainIdentity.v ===== *)
(** * What the operator hands out and what the server serves

    The fingerprint [homebox fingerprint] prints pins every later [homebox
    server] with the same keys, in both TLS modes. *)


From S2P Require Import Prelude GoText GoTime GoNet GoFlag Uuid Sha256 Schema FileSystem FileSystemLemmas GoPath SqliteFile ServerIdentity Backup BackupCorrect ServerIdentityCorrect Auth Sync Uploads Maintenance Config ConfigCorrect SecureTransport SecureTransportCorrect HttpApi HttpMux Main.
From Stdlib Require Import Ascii String.
Local Open Scope string_scope.
Local Open Scope list_scope.

(** ** Commands that reached a point *)

Lemma C_bind_inr {A B : Type} (m : C A) (f : A -> C B) fs b fs' : (m ≫= f) fs = (inr b, fs') -> exists a fs1, m fs = (inr a, fs1) /\ f a fs1 = (inr b, fs').
Proof. unfold mbind, C_bind. destruct (m fs) as [[e|a] fs1]; [done|]. by exists a, fs1. Qed.
Lemma or_fatal_inr {A : Type} (what : string) (m : M FS A) (fs : FS) (a : A) (fs' : FS) : or_fatal what m fs = (inr a, fs') -> m fs = (Ok a, fs').
Proof. unfold or_fatal. destruct (m fs) as [[b|e] fs1]; [|done]. by intros [= -> ->]. Qed.
Lemma fatal_if_inr b (what : string) fs u fs' : fatal_if b what fs = (inr u, fs') -> b = false /\ fs' = fs.
Proof. destruct b; [done|]. by intros [= _ <-]. Qed.
Lemma parse_flags_inr flags args fs p fs' : parse_flags flags args fs = (inr p, fs') -> fs' = fs.
Proof. unfold parse_flags. destruct (Parse flags args); [|done..]. by intros [= _ <-]. Qed.

(** ** Reading files *)

Lemma ReadFile_ok p fs data fs' : ReadFile p fs = (Ok data, fs') <-> file_at fs p = Some data /\ fs' = fs.
Proof.
  unfold ReadFile, query, file_at. split.
  - destruct (Lstat fs p) as [[[|d|]|]|e]; intros [= -> <-]; done.
  - intros [H ->]. by destruct (Lstat fs p) as [[[|d|]|]|e]; simplify_eq.
Qed.

(** Writing one file does not change another. *)
Lemma walk_insert fs k v q p data : fs !! k <> Some Dir -> q ++ p <> k ->
  walk fs q p = Ok (Some (File data)) -> walk (<[k := File v]> fs) q p = Ok (Some (File data)).
Proof.
  intros Hk. revert q. induction p as [|n p IH]; intros q Hq; simpl.
  - destruct q as [|x q]; [done|]. rewrite app_nil_r in Hq. by rewrite lookup_insert_ne.
  - destruct q as [|x q]; [by apply (IH [n])|].
    destruct (decide (k = x :: q)) as [->|Hne].
    + destruct (fs !! (x :: q)) as [[| |]|]; done.
    + rewrite lookup_insert_ne by done. destruct (fs !! (x :: q)) as [[| |]|]; [|done..]. apply IH. by rewrite <- app_assoc.
Qed.

Lemma file_at_other fs k v p data : fs !! k <> Some Dir -> p <> k -> file_at fs p = Some data -> file_at (<[k := File v]> fs) p = Some data.
Proof.
  unfold file_at, Lstat. intros Hk Hp H. destruct (walk fs [] p) as [[[|d|]|]|e] eqn:E; simplify_eq. by rewrite (walk_insert fs k v [] p data).
Qed.

Section identity.
Context {U : UuidLib} {TP : TimeParser} {A2 : Argon2} {K : ECKeys} {X : X509 K} {Y : Yaml} {J : ManifestJSON} {SQ : Sqlite} {DF : DatabaseFile}.

Lemma databasePath_snoc (m : Machine K) sp : databasePath m sp = (Abs (cwd m) sp ++ ["database"]) ++ ["homebox.db"].
Proof. unfold databasePath. rewrite (Join_proper _ _ ["database"; "homebox.db"]) by done. by rewrite <- app_assoc. Qed.

(** Without a question mark in the name, the file is the one the commands look for. *)
Lemma databaseFile_plain `{!SqliteLaws SQ} (m : Machine K) sp : plain_name (databaseText sp) = true -> databaseFile m sp = databasePath m sp.
Proof.
  intros Hp. unfold databaseFile, dataSourceName.
  change (databaseText sp ++ "?_pragma=busy_timeout(5000)&_pragma=foreign_keys(1)&_pragma=journal_mode(WAL)&_txlock=immediate")%string
    with (databaseText sp ++ "?" ++ "_pragma=busy_timeout(5000)&_pragma=foreign_keys(1)&_pragma=journal_mode(WAL)&_txlock=immediate")%string.
  rewrite dsn_parameters by done. apply Abs_databaseText.
Qed.

(** Opening adds directories and then writes the file. *)
Lemma open_database_inv (m : Machine K) sp fs d fs' : open_database m sp fs = (Ok d, fs') -> let p := databaseFile m sp in
  exists fs1 old q n, p = q ++ [n] /\ grows (fun k => k `prefix_of` Abs (cwd m) sp ++ ["database"] /\ k <> []) fs fs1 /\
    is_dir fs1 (Abs (cwd m) sp ++ ["database"]) = true /\ is_dir fs1 q = true /\
    fs1 !! p = File <$> old /\ load_database old = Ok d /\ fs' = <[p := File (store_database old d)]> fs1.
Proof.
  intros H p. unfold open_database in H. fold p in H. apply bind_ok_inv in H as ([] & fs1 & Hm & H).
  pose proof (MkdirAll_grows (Join (Abs (cwd m) sp) "database") fs) as Hg. rewrite Hm in Hg. simpl in Hg. apply MkdirAll_ok_inv in Hm as [Hdb _].
  rewrite (Join_proper _ _ ["database"]) in Hg, Hdb by done.
  apply bind_ok_inv in H as (inside & s & [[= Hi] ->]%query_ok_inv & H). apply bind_ok_inv in H as ([] & s & [Hin%negb_false_iff ->]%throw_if_ok_inv & H).
  apply bind_ok_inv in H as (old & s & [Hold ->]%query_ok_inv & H). apply bind_ok_inv in H as (d' & s & [Hl ->]%lift_ok_inv & H).
  apply bind_ok_inv in H as ([] & s & [= <-] & [= -> <-]). rewrite <- Hi in Hin.
  unfold ReadFile, query in Hold. simpl in Hold. destruct p as [|n q _] using rev_ind; [vm_compute in Hold; discriminate Hold|].
  rewrite parent_snoc in Hin. exists fs1, old, q, n. split; [done|]. split; [exact Hg|]. split; [exact Hdb|]. split; [exact Hin|]. split; [|done].
  rewrite (Lstat_in _ _ _ Hin) in Hold.
  destruct (fs1 !! (q ++ [n])) as [[|data|]|]; vm_compute in Hold; first [discriminate Hold | by injection Hold as <-].
Qed.

(** Opening the database keeps every other file. *)
Lemma open_database_keeps (m : Machine K) sp fs d fs' p data : open_database m sp fs = (Ok d, fs') -> p <> databaseFile m sp ->
  file_at fs p = Some data -> file_at fs' p = Some data.
Proof.
  intros H Hp Hf. apply open_database_inv in H as (fs1 & old & q & n & _ & Hg & _ & _ & Hold & _ & ->).
  apply file_at_other; [|done|by eapply file_at_mono; [apply (grows_sub _ _ _ Hg)|]]. rewrite Hold. by destruct old.
Qed.

(** ** The identity and its certificate *)

Lemma identity_of_ok_inv data ident : identity_of data = Ok ident ->
  FingerprintFromPublicKey (public (privateKey ident)) = Ok (ServerIdentity.fingerprint ident).
Proof.
  unfold identity_of. destruct (_ ≫= ParseECPrivateKey) as [k|]; [|done]. by intros [-> Hf]%newIdentity_ok_inv.
Qed.

(** The files that hold the key the clients pin. *)
Definition identity_files (m : Machine K) (c : Config) : list path :=
  let tls := TLS (Config.Server c) in
  if TLS_Enabled tls then [Abs (cwd m) (CertFile tls); Abs (cwd m) (KeyFile tls)] else [KeyPath (Abs (cwd m) (StoragePath (Storage c)))].
Definition same_files (l : list path) (fs fs' : FS) : Prop := forall p data, p ∈ l -> file_at fs p = Some data -> file_at fs' p = Some data.

(** A client that was given [fp], however it is typed, accepts what [cfg] serves. *)
Definition pinned_by (cfg : TLSConfig) (fp : string) : Prop := MinVersion cfg = VersionTLS13 /\
  exists cert, Certificates cfg = [cert] /\ forall typed, spells typed fp ->
    exists client verify, PinnedClientConfig typed = Ok client /\ VerifyPeerCertificate client = Some verify /\ verify (chain cert) = Ok tt.

Lemma pinned_by_leaf cert der rest pub fp : chain cert = der :: rest -> ParseCertificate der = Some (ECDSA pub) ->
  FingerprintFromPublicKey pub = Ok fp -> pinned_by (server_config cert) fp.
Proof.
  intros Hc Hp Hf. split; [done|]. exists cert. split; [done|]. intros typed Hs. eexists _, _. split; [by eapply PinnedClientConfig_ok|].
  split; [done|]. apply verify_pinned_spec. by exists der, rest, pub.
Qed.

Lemma LoadOperator_same (m : Machine K) cf kf fs fs' r : same_files [Abs (cwd m) cf; Abs (cwd m) kf] fs fs' ->
  LoadOperatorTLSConfig (cwd m) cf kf fs = (Ok r, fs) -> LoadOperatorTLSConfig (cwd m) cf kf fs' = (Ok r, fs').
Proof.
  intros Hs H. unfold LoadOperatorTLSConfig, LoadX509KeyPair in *. apply bind_ok_inv in H as (cert & s & H1 & H).
  apply bind_ok_inv in H1 as (data & s1 & [Hd ->]%ReadFile_ok & H1). apply bind_ok_inv in H1 as (key & s1 & [Hk ->]%ReadFile_ok & H1).
  rewrite (bind_ok _ _ fs' cert fs').
  - destruct (X509KeyPair data key) as [c|]; [|done]. injection H1 as -> ->. destruct (chain cert) as [|der rest]; [done|].
    destruct (ParseCertificate der) as [[pub|]|]; [|done..]. unfold lift, mbind, M_bind in *. destruct (FingerprintFromPublicKey pub); [|done]. by injection H as <-.
  - rewrite (bind_ok _ _ fs' data fs') by (apply ReadFile_ok; split; [apply Hs; [set_solver|done]|done]).
    rewrite (bind_ok _ _ fs' key fs') by (apply ReadFile_ok; split; [apply Hs; [set_solver|done]|done]).
    destruct (X509KeyPair data key); [|done]. by injection H1 as -> _.
Qed.

(** An identity that was returned is the one in the key file. *)
Lemma LoadOrCreate_kept `{!ECKeysLaws K} rand key root fs ident fs' : fs_ok fs -> LoadOrCreate rand key root fs = (Ok ident, fs') ->
  exists data, file_at fs' (KeyPath root) = Some data /\ identity_of data = Ok ident.
Proof.
  intros Hok H. destruct (file_at fs (KeyPath root)) as [data|] eqn:Ek.
  { rewrite (LoadOrCreate_existing rand key root fs data Ek) in H. injection H as Hi <-. by exists data. }
  apply LoadOrCreate_missing in H as (fs0 & Hg & [(e & [=] & _)|(der & Hder & Hi & Hdir & Hn & ->)]); [|done..].
  eexists. split; [|by rewrite (identity_of_written _ _ Hder)].
  pose proof (file_at_insert fs0 (parent (KeyPath root)) "server_identity.key" (list_byte_of_string (std_encode der)) Hdir) as Hf.
  rewrite <- KeyPath_snoc in Hf. by apply Hf.
Qed.

(** Making the key keeps every file. *)
Lemma LoadOrCreate_sub rand key root fs r fs' : LoadOrCreate rand key root fs = (r, fs') -> fs ⊆ fs'.
Proof.
  intros H. unfold LoadOrCreate in H. pose proof (KeyPath_snoc root) as Hp. set (kp := KeyPath root) in *. set (q := parent kp) in *.
  unfold mbind at 1, M_bind in H. pose proof (MkdirAll_grows q fs) as Hg.
  destruct (FileSystem.MkdirAll q fs) as [[[]|e] fs0] eqn:Em; simpl in Hg; [|injection H as _ <-; apply Hg].
  etrans; [apply Hg|]. apply MkdirAll_ok_inv in Em as [Hdir _].
  unfold mbind at 1, M_bind, query, ReadFile, query in H. simpl in H. rewrite Hp, (Lstat_in _ _ _ Hdir), <- Hp in H.
  destruct (fs0 !! kp) as [[|data|]|] eqn:Ek; cbn [bool_decide] in H.
  - rewrite bool_decide_eq_false_2 in H by done. by injection H as _ <-.
  - destruct (_ ≫= ParseECPrivateKey); by injection H as _ <-.
  - rewrite bool_decide_eq_false_2 in H by done. by injection H as _ <-.
  - rewrite bool_decide_eq_true_2 in H by done. destruct (MarshalECPrivateKey key) as [der|]; [|by injection H as _ <-].
    unfold mbind, M_bind in H. destruct (writeKeyFile rand kp _ fs0) as [rw fs1] eqn:Ew. rewrite Hp in Ew, Ek.
    apply writeKeyFile_outcome in Ew as [(e & -> & ->)|[-> ->]]; [by injection H as _ <-|injection H as _ <-; by apply insert_subseteq|done..].
Qed.

Lemma Build_pinned `{!X509Laws X} ident cfg : BuildTLSConfig ident = Ok cfg ->
  FingerprintFromPublicKey (public (privateKey ident)) = Ok (ServerIdentity.fingerprint ident) -> pinned_by cfg (ServerIdentity.fingerprint ident).
Proof.
  unfold BuildTLSConfig. intros (cert & (der & Hc & _ & Hp)%selfSigned_ok_inv & [= <-])%rbind_ok_inv Hf. by eapply pinned_by_leaf.
Qed.

Lemma serverTLSConfig_pinned `{!X509Laws X} (m : Machine K) c ident fs cfg fp fs' : serverTLSConfig m c ident fs = (Ok (cfg, fp), fs') ->
  FingerprintFromPublicKey (public (privateKey ident)) = Ok (ServerIdentity.fingerprint ident) -> pinned_by cfg fp.
Proof.
  unfold serverTLSConfig. destruct (TLS_Enabled _); intros H Hf.
  - apply LoadOperator_ok_inv in H as (_ & cert & der & rest & pub & -> & Hc & Hp & Hfp). by eapply pinned_by_leaf.
  - apply bind_ok_inv in H as (cfg' & s & [Hb _]%lift_ok_inv & [= <- <- _]). by apply Build_pinned.
Qed.

(** ** The configuration of a command *)

(** The configuration a command with the single flag [--config] reads. *)
Definition command_config (m : Machine K) (args : list string) : C Config :=
  parsed ← parse_flags config_flag args; load_config m parsed.1.

Lemma load_config_inr (m : Machine K) flags fs c fs' : load_config m flags fs = (inr c, fs') -> fs' = fs.
Proof. unfold load_config. intros H%or_fatal_inr. by apply Load_keeps in H. Qed.
Lemma command_config_inr (m : Machine K) args fs c fs' : command_config m args fs = (inr c, fs') -> fs' = fs.
Proof. unfold command_config. intros (p & s1 & ->%parse_flags_inr & ->%load_config_inr)%C_bind_inr. done. Qed.
Lemma override_inr flags c fs c' fs' : override flags c fs = (inr c', fs') -> fs' = fs.
Proof.
  unfold override. cbv zeta. intros (c1 & fs1 & H1 & H)%C_bind_inr.
  assert (fs1 = fs) as -> by (destruct (String.eqb (string_flag "tls" flags) ""); [by injection H1|destruct (ParseBool _); [by injection H1|done]]).
  apply C_bind_inr in H as ([] & fs2 & [_ ->]%or_fatal_inr%lift_ok_inv & [= _ <-]). done.
Qed.
Lemma serve_config_inr (m : Machine K) args fs c fs' : serve_config m args fs = (inr c, fs') -> fs' = fs.
Proof.
  unfold serve_config. intros (p & s1 & ->%parse_flags_inr & (c0 & s2 & ->%load_config_inr & ->%override_inr)%C_bind_inr)%C_bind_inr. done.
Qed.

(** C18. What the operator hands out.  Let [homebox fingerprint] print [fp].
    Whenever [homebox server] starts later, with the same storage and TLS
    settings and the same key files, whatever else is on the command line, in
    the configuration or on the disk, it logs [fp] and serves one certificate
    over TLS 1.3 that a client pinning [fp], typed in any case and with any
    white space around it, accepts. *)
Theorem fingerprint_pins `{!ECKeysLaws K} `{!X509Laws X} m args fs c out fs1 fp m2 dummy args2 fs2 c2 r fs3 :
  fs_ok fs -> command_config m args fs = (inr c, fs) -> fingerprint m args fs = (inr out, fs1) -> PrintedFingerprint fp ∈ out ->
  cwd m2 = cwd m -> serve_config m2 args2 fs2 = (inr c2, fs2) ->
  TLS (Config.Server c2) = TLS (Config.Server c) -> StoragePath (Storage c2) = StoragePath (Storage c) ->
  databaseFile m2 (StoragePath (Storage c)) ∉ identity_files m c -> same_files (identity_files m c) fs1 fs2 ->
  serve m2 dummy args2 fs2 = (inr r, fs3) ->
  served r = fp /\ pinned_by (tls r) fp.
Proof.
  intros Hok Hc Hf Hout Hcwd Hc2 Htls Hsp Hdb Hsame Hs.
  unfold serve in Hs. apply C_bind_inr in Hs as (c' & s & Hcc & Hs). rewrite Hc2 in Hcc. injection Hcc as <- <-. rewrite Hsp in Hs.
  apply C_bind_inr in Hs as (d & sd & Hd%or_fatal_inr & Hs). apply C_bind_inr in Hs as (ident & si & Hi%or_fatal_inr & Hs).
  apply C_bind_inr in Hs as ([cfg fp2] & ss & Ht%or_fatal_inr & Hs).
  apply C_bind_inr in Hs as (us & su & _ & Hs). apply C_bind_inr in Hs as (pol & sp & _ & Hs). apply C_bind_inr in Hs as (w & sw & _ & [= <- _]).
  simpl.
  unfold fingerprint in Hf. unfold command_config in Hc. apply C_bind_inr in Hf as (parsed & s1 & Hp & Hf). unfold mbind, C_bind in Hc. rewrite Hp in Hc.
  apply parse_flags_inr in Hp as ->. apply C_bind_inr in Hf as (c' & s2 & Hl & Hf). rewrite Hc in Hl. injection Hl as <- <-.
  unfold serverTLSConfig in Ht. rewrite Htls in Ht. unfold identity_files in Hdb, Hsame. destruct (TLS_Enabled (TLS (Config.Server c))) eqn:Et.
  - apply C_bind_inr in Hf as ([cfg1 fp1] & s3 & Hop%or_fatal_inr & [= <- <-]).
    assert (fp1 = fp) as -> by set_solver. pose proof Hop as Hop'. apply LoadOperator_ok_inv in Hop' as [-> _].
    assert (Hs3 : same_files [Abs (cwd m2) (CertFile (TLS (Config.Server c))); Abs (cwd m2) (KeyFile (TLS (Config.Server c)))] fs si).
    { rewrite Hcwd. intros p data Hin Hpd. eapply file_at_mono; [by eapply LoadOrCreate_sub|]. eapply open_database_keeps; [exact Hd| |by apply Hsame].
      intros ->. by apply Hdb. }
    rewrite <- Hcwd in Hop. rewrite (LoadOperator_same m2 _ _ _ _ _ Hs3 Hop) in Ht. injection Ht as -> <- <-. split; [done|].
    apply LoadOperator_ok_inv in Hop as (_ & cert & der & rest & pub & -> & Hch & Hpc & Hfp). by eapply pinned_by_leaf.
  - apply C_bind_inr in Hf as (missing & s3 & [= _ <-] & Hf). apply C_bind_inr in Hf as (ident1 & s4 & Hi1%or_fatal_inr & [= <- <-]).
    assert (fp = ServerIdentity.fingerprint ident1) as -> by (destruct missing; set_solver).
    apply (LoadOrCreate_kept _ _ _ _ _ _ Hok) in Hi1 as (data & Hdata & Hid).
    assert (Hd1 : file_at sd (KeyPath (Abs (cwd m2) (StoragePath (Storage c)))) = Some data).
    { rewrite Hcwd. eapply open_database_keeps; [exact Hd|intros E; rewrite <- E in Hdb; set_solver|]. apply Hsame; [set_solver|done]. }
    unfold LoadIdentity in Hi. rewrite (LoadOrCreate_existing _ _ _ _ _ Hd1), Hid in Hi. injection Hi as <- <-.
    apply bind_ok_inv in Ht as (cfg' & s5 & [Hb _]%lift_ok_inv & [= <- <- _]). split; [done|].
    apply Build_pinned; [done|]. by eapply identity_of_ok_inv.
Qed.
End identity.
