(* ===== verification/MainAccounts.v ===== *)
(** * Accounts created from the command line

    What [bootstrap-admin] and [create-user] leave in the database file, and
    the password that opens the account. *)

From stdpp Require Import countable.
From S2P Require Import Prelude GoText GoTime GoNet GoFlag Uuid Sha256 Schema FileSystem FileSystemLemmas GoPath SqliteFile ServerIdentity Backup Auth AuthCorrect Sync Uploads Maintenance Config ConfigCorrect SecureTransport HttpApi HttpMux Main MainCorrect MainIdentity.
From Stdlib Require Import Ascii String.
Local Open Scope string_scope.
Local Open Scope list_scope.

(** The bytes of a file, where there is one. *)
Definition bytes_at (fs : FS) (p : path) : option (list byte) := match fs !! p with Some (File data) => Some data | _ => None end.

Section accounts.
Context {U : UuidLib} {TP : TimeParser} {A2 : Argon2} {AL : Argon2Laws A2} {K : ECKeys} {X : X509 K} {Y : Yaml} {J : ManifestJSON} {SQ : Sqlite} {DF : DatabaseFile}.

Lemma open_database_ok_inv (m : Machine K) sp fs d fs' : open_database m sp fs = (Ok d, fs') ->
  let p := databaseFile m sp in
  load_database (bytes_at fs p) = Ok d /\ fs' !! p = Some (File (store_database (bytes_at fs p) d)).
Proof.
  intros H. cbv zeta. apply open_database_inv in H as (fs1 & old & q & n & Ep & Hg & Hdb & Hq & Hold & Hl & ->).
  assert (old = bytes_at fs (databaseFile m sp)) as <-; [|by rewrite lookup_insert_eq].
  destruct (decide (fs1 !! databaseFile m sp = fs !! databaseFile m sp)) as [E|Hne].
  - unfold bytes_at. rewrite <- E, Hold. by destruct old.
  - apply (grows_at _ _ _ Hg) in Hne as [[u Hu] Hne]. rewrite Hu in Hdb. apply is_dir_prefix, is_dir_lookup in Hdb as [|Hdb]; [done|].
    rewrite Hold in Hdb. by destruct old.
Qed.

Lemma on_disk_ok_inv {A} (m : Machine K) sp d (call : M DB A) fs a fs' : on_disk m sp d call fs = (Ok a, fs') ->
  exists d', call d = (Ok a, d') /\ fs' !! databaseFile m sp = Some (File (store_database (bytes_at fs (databaseFile m sp)) d')).
Proof.
  unfold on_disk. destruct (call d) as [r d'] eqn:Ec. intros H. apply bind_ok_inv in H as ([] & s & [= <-] & [-> ->]%lift_ok_inv).
  exists d'. split; [done|]. by rewrite lookup_insert_eq.
Qed.

(** ** The row of an account *)

Definition opens (row : user_row) (password : string) : Prop :=
  user_status row = "ACTIVE" /\ VerifyPassword (user_password_hash row) password = true.

Lemma insert_account_ok_inv role id username norm salt password now d d' :
  insert_account role id username norm (HashPassword salt password) now d = Ok d' ->
  users d !! id = None /\ exists row, d' = upd_users <[id := row]> d /\ user_username row = username /\ user_role row = role /\ opens row password.
Proof.
  unfold insert_account, insert_users. intros (_ & [Hf%fresh_key_true _]%andb_prop & _ & ->)%constrained_ok_inv. split; [done|].
  eexists. split; [done|]. split_and!; try done. split; [done|]. cbn [user_password_hash]. rewrite VerifyPassword_HashPassword. by apply bool_decide_eq_true.
Qed.

(** One new account, which the password opens. *)
Definition adds_account (role password : string) (d : DB) (user : User) (d' : DB) : Prop :=
  is_ok (validatePassword password) = true /\ users d !! User_ID user = None /\
  exists row, d' = upd_users <[User_ID user := row]> d /\ user_username row = Username user /\ user_role row = role /\ opens row password.

Lemma BootstrapAdmin_ok_inv clk newid salt username password d user d' :
  BootstrapAdmin clk newid salt username password d = (Ok user, d') -> users d = ∅ /\ adds_account "ADMIN" password d user d'.
Proof.
  unfold BootstrapAdmin. intros H. apply bind_ok_inv in H as (names & s & [_ ->]%lift_ok_inv & H).
  apply bind_ok_inv in H as ([] & s & [Hp ->]%lift_ok_inv & H). apply tx_ok_inv in H.
  apply bind_ok_inv in H as (count & s & [[= <-] ->]%query_ok_inv & H). apply bind_ok_inv in H as ([] & s & [Hc ->]%throw_if_ok_inv & H).
  apply bind_ok_inv in H as ([] & s & Hi%exec_ok_inv & [= <- <-]).
  apply negb_false_iff, Nat.eqb_eq, map_size_empty_inv in Hc. apply insert_account_ok_inv in Hi as [Hn Hrow]. split; [done|].
  split; [by rewrite Hp|]. by split.
Qed.

Lemma CreateUser_ok_inv clk newid salt maxUsers username password d user d' :
  CreateUser clk newid salt maxUsers username password d = (Ok user, d') ->
  active_admins d <> 0 /\ (Z.of_nat (size (users d)) < maxUsers)%Z /\ adds_account "USER" password d user d'.
Proof.
  unfold CreateUser. intros H. apply bind_ok_inv in H as (names & s & [_ ->]%lift_ok_inv & H).
  apply bind_ok_inv in H as ([] & s & [Hp ->]%lift_ok_inv & H). apply tx_ok_inv in H.
  apply bind_ok_inv in H as (count & s & [[= <-] ->]%query_ok_inv & H). apply bind_ok_inv in H as (admins & s & [[= <-] ->]%query_ok_inv & H).
  apply bind_ok_inv in H as ([] & s & [Ha ->]%throw_if_ok_inv & H). apply bind_ok_inv in H as ([] & s & [Hc ->]%throw_if_ok_inv & H).
  apply bind_ok_inv in H as ([] & s & Hi%exec_ok_inv & [= <- <-]). apply insert_account_ok_inv in Hi as [Hn Hrow].
  split; [by apply Nat.eqb_neq|]. split; [lia|]. split; [by rewrite Hp|]. by split.
Qed.

(** ** The commands *)

(** Standard input: one line, ended in any of the usual ways. *)
Definition typed (m : Machine K) (password : string) : Prop := exists e, line_end e /\
  stdin m = MkStream (list_byte_of_string (password ++ e)) false /\ no_char "010" password = true /\ no_char "013" password = true.

Lemma typed_read (m : Machine K) password read : typed m password -> readPassword (stdin m) = Ok read ->
  is_ok (validatePassword read) = true -> read = password.
Proof.
  intros (e & He & Hs & Hn & Hr) Hread Hok. pose proof (readPassword_line password e Hn Hr He) as H. cbv zeta in H. rewrite <- Hs, Hread in H.
  destruct (String.length password <=? 1024)%nat; [by injection H|]. destruct H as (p & [= <-] & Hbad). by rewrite Hok in Hbad.
Qed.

Lemma account_command_inr (m : Machine K) usage failure create args fs user fs' :
  account_command m usage failure create args fs = (inr user, fs') ->
  exists flags rest c read d d', Parse user_flags args = Parsed flags rest /\ Load (cwd m) (string_flag "config" flags) fs = (Ok c, fs) /\
    readPassword (stdin m) = Ok read /\
    let p := databaseFile m (StoragePath (Storage c)) in
    load_database (bytes_at fs p) = Ok d /\ create c (string_flag "username" flags) read d = (Ok user, d') /\
    fs' !! p = Some (File (store_database (Some (store_database (bytes_at fs p) d)) d')).
Proof.
  unfold account_command. intros (parsed & s & Hp & H)%C_bind_inr. unfold parse_flags in Hp.
  destruct (Parse user_flags args) as [flags rest| |] eqn:Ep; [|done..]. injection Hp as <- <-. cbn [fst] in H.
  apply C_bind_inr in H as ([] & s & [_ ->]%fatal_if_inr & H). apply C_bind_inr in H as (c & s & Hc & H).
  pose proof (load_config_inr _ _ _ _ _ Hc) as ->. apply or_fatal_inr in Hc.
  apply C_bind_inr in H as (read & s & [Hr ->]%or_fatal_inr%lift_ok_inv & H). apply C_bind_inr in H as (d & s & Hd%or_fatal_inr & H).
  apply or_fatal_inr, on_disk_ok_inv in H as (d' & Hcall & Hf). apply open_database_ok_inv in Hd as [Hl Hs].
  exists flags, rest, c, read, d, d'. unfold bytes_at in Hf at 1. rewrite Hs in Hf. done.
Qed.

(** C19. Accounts from the command line.  When [bootstrap-admin] or
    [create-user] succeeds with a password typed on one line of standard input,
    however the line ends, the database file of the configured storage (the one
    the commands look for, unless its name has a question mark in it) holds
    what it held and one new account, active, with the printed name and
    identifier, which that text opens; the first account is an
    administrator, and the later ones come within the user limit and after an
    active administrator. *)
Theorem account_created `{!SqliteLaws SQ} m args fs out fs' password : typed m password ->
  bootstrapAdmin m args fs = (inr out, fs') \/ createUser m args fs = (inr out, fs') ->
  exists flags rest c d user d', Parse user_flags args = Parsed flags rest /\ Load (cwd m) (string_flag "config" flags) fs = (Ok c, fs) /\
    let p := databaseFile m (StoragePath (Storage c)) in
    (plain_name (databaseText (StoragePath (Storage c))) = true -> p = databasePath m (StoragePath (Storage c))) /\
    load_database (bytes_at fs p) = Ok d /\ fs' !! p = Some (File (store_database (Some (store_database (bytes_at fs p) d)) d')) /\
    (out = [AdminCreated (Username user) (User_ID user)] /\ users d = ∅ /\ adds_account "ADMIN" password d user d' \/
     out = [FamilyUserCreated (Username user) (User_ID user)] /\ active_admins d <> 0 /\
       (Z.of_nat (size (users d)) < Config.MaxUsers (Limits c))%Z /\ adds_account "USER" password d user d').
Proof.
  intros Ht [H|H]; apply C_bind_inr in H as (user & s & Hu & [= <- <-]);
    apply account_command_inr in Hu as (flags & rest & c & read & d & d' & Hp & Hc & Hr & Hd & Hcall & Hf);
    exists flags, rest, c, d, user, d'; cbv zeta; (split; [done|split; [done|split; [apply databaseFile_plain|split; [done|split; [done|]]]]]).
  - apply BootstrapAdmin_ok_inv in Hcall as [He Ha]. pose proof (typed_read _ _ _ Ht Hr (proj1 Ha)) as ->. by left.
  - apply CreateUser_ok_inv in Hcall as (Hadm & Hmax & Ha). pose proof (typed_read _ _ _ Ht Hr (proj1 Ha)) as ->. by right.
Qed.
End accounts.
