(* ===== verification/MainRuns.v ===== *)
(** * The commands on a small disk

    An operator asks for the fingerprint, creates the first account and starts
    the server, with concrete keys, certificates and file formats. *)

From stdpp Require Import countable.
From S2P Require Import Prelude GoText GoTime GoNet GoFlag Uuid Sha256 Schema Fixture FileSystem FileSystemLemmas GoPath SqliteFile ServerIdentity Backup BackupCorrect BackupRuns Auth AuthCorrect Session SessionCorrect Sync Uploads Maintenance Config ConfigCorrect SecureTransport SecureTransportCorrect HttpApi HttpMux Main MainCorrect MainIdentity MainAccounts.
From Stdlib Require Import Ascii String.
Local Open Scope string_scope.
Local Open Scope list_scope.

#[local] Existing Instances RawKeys RawKeysLaws OneImage OneImageLaws BitText.

(** A certificate is its key; the operator's files are the certificate and the key. *)
#[local] Instance RawCertificates : X509 RawKeys :=
  {| CreateCertificate _ pub _ := Some pub; ParseCertificate der := Some (ECDSA (K := RawKeys) der);
     X509KeyPair cert key := match cert with [] => None | _ => Some (MkCertificate [cert] (Some key)) end |}.
#[local] Instance RawCertificatesLaws : X509Laws RawCertificates.
Proof. split; simpl; [by intros t pub k der [= ->]|]. intros [|b l] key c; [done|]. by intros [= <-]. Qed.

(** A configuration file is the storage path. *)
#[local] Instance PathYaml : Yaml := {| yaml_Unmarshal data c := Ok (set_StoragePath (string_of_list_byte data) c) |}.
#[local] Instance OneDatabase : DatabaseFile := {| load_database _ := Ok empty_db; store_database _ _ := [x53] |}.

Definition machine (t : Z) : Machine RawKeys := MkMachine ["srv"] (ticking t) suffixes key (fresh_ids id4 id5) [x01] (MkStream [] false).
Definition fresh_disk : FS := <[["srv"] := Dir]> {[ ["srv"; "config.yaml"] := File (list_byte_of_string "data") ]}.

Definition finger_run := fingerprint (machine noon) [] fresh_disk.
Definition key_fingerprint : string := hex_EncodeToString (Sum256 key).
(** Later there is another file on the disk and another port on the command line. *)
Definition later_disk : FS := <[["srv"; "notes"] := File [x21]]> finger_run.2.
Definition served_config : Config := set_Port 9000 (set_StoragePath "data" Defaults).
Definition serve_run := serve (machine (noon + Hour)) "" ["--port=9000"] later_disk.

Lemma finger_run_eq : finger_run = (inr [NewIdentityNote ["srv"; "data"; "keys"; "server_identity.key"]; PrintedFingerprint key_fingerprint], finger_run.2).
Proof. apply injective_projections; [vm_compute; reflexivity|reflexivity]. Qed.
Lemma finger_config : command_config (machine noon) [] fresh_disk = (inr (set_StoragePath "data" Defaults), fresh_disk).
Proof.
  assert (E : (command_config (machine noon) [] fresh_disk).1 = inr (set_StoragePath "data" Defaults)) by (vm_compute; reflexivity).
  destruct (command_config (machine noon) [] fresh_disk) as [x fs'] eqn:Ex. cbn [fst] in E. rewrite E in Ex |- *. by rewrite (command_config_inr _ _ _ _ _ Ex).
Qed.
Lemma serve_run_config : serve_config (machine (noon + Hour)) ["--port=9000"] later_disk = (inr served_config, later_disk).
Proof.
  assert (E : (serve_config (machine (noon + Hour)) ["--port=9000"] later_disk).1 = inr (served_config)) by (vm_compute; reflexivity).
  destruct (serve_config (machine (noon + Hour)) ["--port=9000"] later_disk) as [x fs'] eqn:Ex. cbn [fst] in E. rewrite E in Ex |- *. by rewrite (serve_config_inr _ _ _ _ _ Ex).
Qed.
Lemma serve_run_starts : match serve_run.1 with inr _ => true | inl _ => false end = true.
Proof. vm_compute. reflexivity. Qed.
Lemma fresh_disk_ok : fs_ok fresh_disk.
Proof. apply fs_okb_ok. vm_compute. reflexivity. Qed.
Lemma later_files : same_files (identity_files (machine noon) (set_StoragePath "data" Defaults)) finger_run.2 later_disk.
Proof.
  intros p data Hin. assert (p = ["srv"; "data"; "keys"; "server_identity.key"]) as -> by by apply list_elem_of_singleton in Hin.
  assert (file_at finger_run.2 ["srv"; "data"; "keys"; "server_identity.key"] = file_at later_disk ["srv"; "data"; "keys"; "server_identity.key"]) as ->;
    [vm_compute; reflexivity|done].
Qed.

Lemma fingerprint_pins_witness : exists r fs3, serve_run = (inr r, fs3) /\ served r = key_fingerprint /\ pinned_by (tls r) key_fingerprint.
Proof.
  pose proof serve_run_starts as Hs. destruct serve_run as [[e|r] fs3] eqn:Er; [discriminate Hs|]. exists r, fs3. split; [reflexivity|].
  apply (fingerprint_pins (machine noon) [] fresh_disk (set_StoragePath "data" Defaults) _ finger_run.2 key_fingerprint (machine (noon + Hour)) "" ["--port=9000"]
    later_disk served_config r fs3 fresh_disk_ok finger_config finger_run_eq).
  - right. left.
  - reflexivity.
  - exact serve_run_config.
  - reflexivity.
  - reflexivity.
  - intros Hin. apply list_elem_of_singleton in Hin. discriminate Hin.
  - exact later_files.
  - exact Er.
Defined.

(** The default configuration on a disk that was used before. *)
Definition used_disk : FS := list_to_map (map (fun p => (p, Dir)) [["srv"]; ["srv"; "data"]; ["srv"; "data"; "blobs"]; ["srv"; "data"; "temp"]; ["srv"; "data"; "temp"; "uploads"]]).

Lemma Validate_startable_witness : startable (machine noon) used_disk Defaults /\ promised Defaults.
Proof.
  apply (Validate_startable RawKeys (machine noon) used_disk Defaults); [|vm_compute; reflexivity|vm_compute; reflexivity|exact Defaults_valid].
  unfold representable. repeat split; vm_compute; discriminate.
Defined.

(** Alice is created first, with a password from a Windows line. *)
Definition alice_password : string := "four random words".
Definition console : Machine RawKeys :=
  MkMachine ["srv"] (ticking noon) suffixes key (fresh_ids id4 id5) [x01] (MkStream (list_byte_of_string (alice_password ++ carriage_return ++ newline)) false).
Definition bootstrap_run := bootstrapAdmin console ["--username"; "Alice"; "--password-stdin"] fresh_disk.

Lemma bootstrap_run_eq : bootstrap_run = (inr [AdminCreated "Alice" id4], bootstrap_run.2).
Proof. apply injective_projections; [vm_compute; reflexivity|reflexivity]. Qed.
Lemma alice_typed : typed console alice_password.
Proof. exists (carriage_return ++ newline)%string. split; [by right; right|]. split_and!; reflexivity. Qed.

Lemma alice_storage c flags rest : Parse user_flags ["--username"; "Alice"; "--password-stdin"] = Parsed flags rest ->
  Load (cwd console) (string_flag "config" flags) fresh_disk = (Ok c, fresh_disk) -> StoragePath (Storage c) = "data".
Proof.
  intros Hp Hc. assert (E : match Parse user_flags ["--username"; "Alice"; "--password-stdin"] with
    | Parsed flags _ => match (Load (cwd console) (string_flag "config" flags) fresh_disk).1 with Ok c => StoragePath (Storage c) | Err _ => "" end
    | _ => "" end = "data") by (vm_compute; reflexivity).
  rewrite Hp, Hc in E. exact E.
Qed.

Lemma account_created_witness : exists user d', adds_account "ADMIN" alice_password empty_db user d' /\
  bootstrap_run.2 !! ["srv"; "data"; "database"; "homebox.db"] = Some (File (store_database (Some (store_database None empty_db)) d')).
Proof.
  destruct (account_created console ["--username"; "Alice"; "--password-stdin"] fresh_disk _ bootstrap_run.2 alice_password alice_typed
    (or_introl bootstrap_run_eq)) as (flags & rest & c & d & user & d' & Hp & Hc & H).
  cbv zeta in H. destruct H as (Hplain & Hd & Hf & [(_ & _ & Ha)|(Hout & _)]); [|discriminate Hout].
  injection Hd as <-. exists user, d'. split; [exact Ha|].
  pose proof (alice_storage c flags rest Hp Hc) as Hsp.
  rewrite Hsp in Hplain, Hf. rewrite Hplain in Hf by reflexivity. exact Hf.
Defined.
