(* ===== verification/ServerRun.v ===== *)
(** * The running server (cmd/homebox, serve)

    [serve] after its start, as a transition system: the listener answers
    requests, the maintenance loop runs beside it, and a signal or a listener
    error ends both.  Requests and maintenance passes act one after another,
    in any order. *)

From S2P Require Import Prelude GoText GoTime GoPath GoMux Uuid Schema Fixture Auth Session Nodes NodesSpec NodesCorrect Uploads UploadsStorage UploadsCorrect Maintenance MaintenanceCorrect DeviceAuth HttpApi HttpBodies HttpAuth HttpVault HttpRoutes HttpCorrect HttpSafety HttpMux HttpServer SecureTransport ServerIdentity Main.
From Stdlib Require Import Ascii String.
Local Open Scope string_scope.
Local Open Scope list_scope.

(** ** The process *)

Inductive Phase := Accepting | ShuttingDown | Stopped.
(** [runAutomaticMaintenance]: its first run, waiting for ticks, returned. *)
Inductive Loop := Starting | Ticking | Returned.

Record Process := MkProcess { phase : Phase; loop : Loop; srv : HttpApi.Server }.

Section process.
Context {U : UuidLib} {TP : TimeParser} {A2 : Argon2} {E : Ed25519} {J : JsonBodies} {K : ECKeys} {X : X509 K}.
Context (r : Running).

(** [run] of the loop: a failed pass is logged. *)
Definition automatic_run (clk : nat -> Z) (s : HttpApi.Server) : HttpApi.Server :=
  let '(res, w) := Maintenance.Run (policy r) clk (world s) in
  match res with
  | Ok _ => set_world w s
  | Err e => add_log ("Automatic maintenance failed", "", e) (set_world w s)
  end.

(** The loop after its first run: [time.NewTicker] panics, and ends the
    process, unless the interval is positive. *)
Definition after_first_run (p : Process) (s : HttpApi.Server) : Process :=
  if (0 <? interval r)%Z then MkProcess (phase p) Ticking s else MkProcess Stopped Returned s.

Inductive process_step : Process -> Process -> Prop :=
(** A request; while shutting down, one that had begun. *)
| step_request p env clk rq : phase p <> Stopped -> validUUID (call_newid env 1 0) = true ->
    process_step p (MkProcess (phase p) (loop p) (homebox (services r) env clk rq (srv p)).2)
| step_first_run p clk : phase p <> Stopped -> loop p = Starting -> process_step p (after_first_run p (automatic_run clk (srv p)))
| step_tick p clk : phase p = Accepting -> loop p = Ticking -> process_step p (MkProcess Accepting Ticking (automatic_run clk (srv p)))
(** SIGINT or SIGTERM; then the loop returns, and the server when it has. *)
| step_signal p : phase p = Accepting -> process_step p (MkProcess ShuttingDown (loop p) (srv p))
| step_return p : phase p = ShuttingDown -> loop p = Ticking -> process_step p (MkProcess ShuttingDown Returned (srv p))
| step_stop p : phase p = ShuttingDown -> loop p = Returned -> process_step p (MkProcess Stopped Returned (srv p))
(** The listener fails: [stop], waiting for the loop, [fatal]. *)
| step_listener p : phase p = Accepting -> process_step p (MkProcess Stopped Returned (srv p)).

Definition started : Process := MkProcess Accepting Starting (start r).

(** ** One request keeps the storage sound *)

Context {UL : UuidLaws U}.

Definition same_stored (d d' : DB) : Prop :=
  upload_sessions d' = upload_sessions d /\ upload_chunks d' = upload_chunks d /\ blobs d' = blobs d.
#[local] Instance same_stored_preorder : PreOrder same_stored.
Proof. split; [done|]. intros a b c (?&?&?) (?&?&?). split_and!; congruence. Qed.

Lemma storage_ok_same w d : same_stored (db w) d -> storage_ok w -> storage_ok (set_db d w).
Proof.
  intros (Es & Ec & Eb) [S1 S2 S3]. split; simpl.
  - rewrite Es. apply S1.
  - rewrite Ec. intros u n c Hc. destruct (S2 _ _ _ Hc) as (row & Hr & Hrest). exists row. simpl. by rewrite Es.
  - rewrite Eb. apply S3.
Qed.

Lemma recordChange_stored clk i u k op : stays same_stored (recordChange clk i u k op).
Proof. intros d. unfold recordChange, exec_sync, insert_sync_changes. by destruct (sync_sequence d =? max_int64)%Z. Qed.
Lemma recordProcessed_stored clk i op u dev t k rev : stays same_stored (recordProcessed clk i op u dev t k rev).
Proof.
  apply stays_exec; [exact _|]. intros d d' H. unfold insert_processed_operations in H. by apply constrained_ok_inv in H as (_ & _ & _ & ->).
Qed.
Lemma update_node_stored k f : stays same_stored (exec (update_node k f)).
Proof. apply stays_exec; [exact _|]. intros d d' H. unfold update_node in H. repeat case_match; try done; by injection H as <-. Qed.

Lemma handle_stored clk q : stays same_stored (NodesSpec.handle clk q).
Proof.
  destruct q as [i|i|u dev k op rev|u dev k op|i]; cbn [NodesSpec.handle];
    unfold Nodes.Create, Nodes.createTx, Nodes.Update, Nodes.updateTx, Nodes.Delete, Nodes.deleteTx, Nodes.Restore, Nodes.restoreTx, Nodes.Rekey;
    solve_stays; try first [apply recordChange_stored | apply recordProcessed_stored | apply update_node_stored].
  - apply stays_exec; [exact _|]. intros d d' Hi. unfold insert_nodes in Hi. by apply constrained_ok_inv in Hi as (_ & _ & _ & ->).
  - apply stays_mfor; [exact _|]. intros j x. unfold rekeyItem. solve_stays; [|apply recordChange_stored|apply update_node_stored].
    apply stays_mfor; [exact _|]. intros _ v. solve_stays. intros d. unfold rewrapVersion. by repeat case_match.
  - apply stays_pure; [exact _|apply pure_mmap_query].
Qed.

Lemma same_vault_stored d d' : same_vault d d' -> same_stored d d'.
Proof. by intros (_ & _ & _ & Es & Ec & Eb). Qed.

Lemma purge_sound clk u n w : sound w -> sound (PurgeTrashEntry clk u n w).2.
Proof.
  unfold PurgeTrashEntry. unfold mbind at 1, M_bind, db_query, query. destruct (nodes (db w) !! n) as [row|]; [|done].
  destruct (negb _); [done|]. destruct (node_deleted_at row) as [t|]; [|done]. intros Hw. unfold mbind, M_bind.
  destruct (purgeSubtree_step n t (clk 0) w Hw) as [Hs _]. by destruct (purgeSubtree n t (clk 0) w) as [[[]|] w1].
Qed.

Lemma service_call_storage api env u dev w w' : validUUID (call_newid env 1 0) = true -> service_call api env u dev w w' ->
  sound w -> storage_ok w'.
Proof.
  intros Hid [[Hs ->]|[(q & _ & ->)|[(q & _ & ->)|[n ->]]]]%service_call_quiet Hw; [| | |].
  - apply storage_ok_same; [by apply same_vault_stored|apply Hw].
  - pose proof (handle_stored (call_clk env 1) q (db w)) as Hs. unfold on_db. destruct (NodesSpec.handle _ q (db w)) as [res d].
    apply storage_ok_same; [done|apply Hw].
  - destruct (upload_handle _ _ _ q w) as [res w'] eqn:Eh. eapply upload_handle_storage; [exact Hid|apply Hw|exact Eh].
  - by apply purge_sound.
Qed.

Lemma world_eq w w' : files w' = files w -> dirs w' = dirs w -> w' = set_db (db w') w.
Proof. destruct w, w'. simpl. by intros -> ->. Qed.

Lemma request_sound api env rq s res s' : validUUID (call_newid env 1 0) = true -> ServeHTTP api env rq s = (res, s') ->
  sound (world s) -> sound (world s').
Proof.
  intros Hid H Hs. split; [|by eapply request_keeps_vault; [apply Hs|exact H]]. destruct (rq_route rq) as [o|p] eqn:Er.
  - destruct (open_effect api env rq o s res s' Er H) as [(Hw & _)|[q Hq]]; [rewrite Hw; apply Hs|].
    pose proof (session_call_vault _ _ _ _ _ Hq) as Hv. destruct Hq as (_ & Hf & Hd).
    rewrite (world_eq _ _ Hf Hd).
    apply storage_ok_same; [by apply same_vault_stored|apply Hs].
  - destruct (protected_effect api env rq p s res s' Er H) as [(Hw & _)|(u & dev & _ & Hc & _)]; [rewrite Hw; apply Hs|].
    by eapply service_call_storage.
Qed.

Lemma homebox_sound api env clk rq s : validUUID (call_newid env 1 0) = true -> sound (world s) ->
  sound (world (homebox api env clk rq s).2).
Proof.
  intros Hid Hs. unfold homebox, HttpServer.New, securityHeaders.
  unfold mux_ServeHTTP at 1. destruct (mux_dispatch _ _ _) as [h vs|to| |] eqn:Ed; [|exact Hs..].
  apply server_dispatch in Ed as [->|[->| ->]]; [exact Hs..|]. simpl. unfold api_handler, mux_ServeHTTP.
  destruct (mux_dispatch _ _ _) as [read values|to| |]; [|exact Hs..].
  destruct (ServeHTTP api env _ s) as [res s'] eqn:Ex. by eapply request_sound.
Qed.

Lemma automatic_run_sound clk s : sound (world s) -> sound (world (automatic_run clk s)).
Proof.
  intros Hs. unfold automatic_run. destruct (Run_step (policy r) clk (world s) Hs) as [Hr _].
  destruct (Maintenance.Run (policy r) clk (world s)) as [[res|e] w]; exact Hr.
Qed.

(** ** Every state the server can reach *)

Record run_ok (p : Process) : Prop := {
  ro_sound : sound (world (srv p));
  ro_ticks : loop p = Ticking -> (0 < interval r)%Z;
}.

Lemma step_ok p q : process_step p q -> run_ok p -> run_ok q.
Proof.
  intros Hstep [Hs Ht]. destruct Hstep as [p env clk rq _ Hid|p clk _ _|p clk _ Hl|p _|p _ _|p _ _|p _]; (split; [|try done]); simpl.
  - by apply homebox_sound.
  - unfold after_first_run. case_match; by apply automatic_run_sound.
  - unfold after_first_run. destruct (0 <? interval r)%Z eqn:Ei; [|done]. intros _. lia.
  - by apply automatic_run_sound.
  - intros _. by apply Ht.
  - exact Hs.
  - exact Hs.
  - exact Hs.
  - exact Hs.
Qed.

(** The whole server, over its whole run.  Let it start on a sound storage:
    a forest of same-account directories whose revisions the feed has reached,
    and for every blob and received chunk its file with the recorded size and
    hash.  Then whatever requests come, from whomever, and however maintenance
    passes, failures and the shutdown fall between them, the storage is sound
    in every state the process passes through and in the one it leaves behind;
    and the maintenance loop waits for ticks only with a positive interval. *)
Theorem server_sound p : sound (world (start r)) -> rtc process_step started p -> run_ok p.
Proof.
  intros Hs Hr. assert (H0 : run_ok started) by by split. revert H0.
  induction Hr as [p|p q p' Hpq _ IH]; [done|]. intros Hp. apply IH. by eapply step_ok.
Qed.
End process.
