(* ===== verification/HttpRuns.v ===== *)
(** * The server on concrete requests

    Bob logs in, renames a folder Alice shares with him, and tries what he may
    not do, in requests to the API and then over the wire, where a run of the
    whole server ends with a maintenance pass and a shutdown; the theorems about
    requests applied to these runs. *)

From stdpp Require Import countable.
From S2P Require Import Prelude GoText GoTime Uuid Schema Fixture Access Nodes NodesSpec NodesCorrect Sync Limiter Uploads UploadsStorage UploadsCorrect Auth AuthCorrect Session SessionCorrect Maintenance MaintenanceCorrect DeviceAuth Provisioning Recovery IdentityCorrect HttpApi HttpBodies HttpAuth HttpVault HttpRoutes HttpCorrect HttpSafety HttpSession GoPath GoMux HttpMux HttpMuxCorrect HttpServer BackupRuns SecureTransport Main MainRuns ServerRun.
From Stdlib Require Import Ascii String.
Local Open Scope string_scope.
Local Open Scope list_scope.

#[local] Existing Instances HashSignature RawKeys RawCertificates.

(** ** Requests to the API *)

Definition http_api : API := MkAPI day "" (Sync.New 100 500) (Uploads.New 1000000 (48 * Hour)).
Definition at_time (t : Z) : RequestEnv :=
  MkRequestEnv (fun _ => ticking t) (fun _ => fresh_ids id4 id5) (fun _ => tokens x0a) map_to_list op3 (fun _ => None) (fun _ => None) "part".
Definition http_server : Server :=
  MkServer (MkWorld (upd_users <[bob := bob_account]> family_keyed) ∅ ∅) ∅ ∅ ∅ [].

Definition login_body : loginRequest :=
  MkLoginRequest " bob" bob_password (MkDeviceRegistrationBody phone "phone" "ANDROID" "AQ==" 1).
Abbreviation serve t rq s := (ServeHTTP http_api (at_time t) rq s).

Definition login_rq : HttpRoutes.Request := HttpRoutes.MkRequest "" "10.0.0.7:50000" (Open (PostLogin (Some login_body))).
Definition after_login : Server := (serve noon login_rq http_server).2.

Definition bob_bearer : string := "Bearer " ++ randomToken (tokens x0a 0).
Definition as_bob (p : ProtectedRoute) : HttpRoutes.Request := HttpRoutes.MkRequest bob_bearer "10.0.0.7:50001" (Protected p).
Definition rename : ProtectedRoute := PatchNode id2 (Some (MkUpdateNodeRequest op2 2 (Some "Bw==") 1 id1 false None)).

Definition later : Z := noon + Minute.

(** What the endpoints answer. *)
Example statuses :
  status (serve noon login_rq http_server).1 = 200%Z /\
  status (serve later (as_bob rename) after_login).1 = 200%Z /\
  (serve later (as_bob rename) http_server).1 = errorResponse (at_time later) 401 "AUTH_TOKEN_EXPIRED" "token is invalid, expired, or revoked" /\
  status (serve later (as_bob (DeleteNode id1 (Some (MkDeleteOrRestoreRequest op2 1)))) after_login).1 = 403%Z /\
  status (serve later (as_bob (GetNode "ID1")) after_login).1 = 400%Z.
Proof. vm_compute. split_and!; reflexivity. Qed.

Definition session_of (r : Response Reply) : option sessionResponse :=
  match response_body r with Content (ReplySession x) => Some x | _ => None end.

Lemma session_of_Some r x : session_of r = Some x -> status r = 200%Z -> x_next_after r = None ->
  r = MkResponse 200 None (Content (ReplySession x)).
Proof.
  destruct r as [code next [| |c]]; unfold session_of; simpl; try done. destruct c; try done. by intros [= ->] -> ->.
Qed.

Lemma login_session_works_witness : exists x,
  serve noon login_rq http_server = (MkResponse 200 None (Content (ReplySession x)), (serve noon login_rq http_server).2) /\
  request_actor (at_time later) (HttpRoutes.MkRequest ("Bearer " ++ sr_AccessToken x) "10.0.0.9:1" (Protected rename))
    (db (world (serve noon login_rq http_server).2)) = Some (sr_User_ID x, sr_Device_ID x).
Proof.
  assert (Hx : is_valid (session_of (serve noon login_rq http_server).1) = true) by (vm_compute; reflexivity).
  pose proof (session_of_Some (serve noon login_rq http_server).1) as Hof.
  destruct (session_of (serve noon login_rq http_server).1) as [x|]; [|discriminate Hx]. exists x.
  assert (H1 : status (serve noon login_rq http_server).1 = 200%Z) by (vm_compute; reflexivity).
  assert (H2 : x_next_after (serve noon login_rq http_server).1 = None) by (vm_compute; reflexivity).
  specialize (Hof x eq_refl H1 H2). clear Hx H1 H2.
  pose proof (surjective_pairing (serve noon login_rq http_server)) as Hs. rewrite Hof in Hs.
  split; [exact Hs|].
  assert (Hr : call_rand (at_time noon) 1 0 <> []) by discriminate.
  assert (Hy : four_digit_year (call_clk (at_time noon) 1 0 + HttpApi.accessTokenTTL http_api))
    by (unfold four_digit_year; vm_compute; split; [discriminate|reflexivity]).
  assert (Hlt : (call_clk (at_time later) 0 0 < call_clk (at_time noon) 1 0 + HttpApi.accessTokenTTL http_api)%Z) by (vm_compute; reflexivity).
  unfold login_rq in Hs |- *.
  exact (login_session_works http_api (at_time noon) _ _ _ _ _ _ Hs Hr Hy (at_time later) "10.0.0.9:1" rename Hlt).
Defined.

(** The rename is Bob's, through the share above the folder. *)
Lemma request_changes_authorized_witness : exists u dev,
  request_actor (at_time later) (as_bob rename) (db (world after_login)) = Some (u, dev) /\
  request_may_change u (db (world after_login)) (db (world (serve later (as_bob rename) after_login).2)) id2.
Proof.
  assert (Hf : forest (nodes (db (world after_login)))) by (apply forestb_sound; vm_compute; reflexivity).
  assert (Hk : nodes (db (world (serve later (as_bob rename) after_login).2)) !! id2 <> nodes (db (world after_login)) !! id2)
    by (vm_compute; discriminate).
  apply (request_changes_authorized http_api (at_time later) (as_bob rename) after_login _ _ id2 Hf (surjective_pairing _) Hk).
Defined.

Lemma ServeHTTP_refines_witness : let s' := (serve later (as_bob rename) after_login).2 in
  quiet_step after_login s' \/
  (exists p u dev, Protected rename = Protected p /\ request_actor (at_time later) (as_bob rename) (db (world after_login)) = Some (u, dev) /\
     service_call http_api (at_time later) u dev (world after_login) (world s') /\ quiet_step after_login (set_world (world after_login) s')) \/
  (exists o q, Protected rename = Open o /\ session_call http_api (at_time later) q after_login s').
Proof. exact (ServeHTTP_refines http_api (at_time later) (as_bob rename) after_login _ _ (surjective_pairing _)). Defined.

Lemma protected_needs_token_witness : exists code name message, (code = 401 \/ code = 403)%Z /\
  serve later (as_bob rename) http_server = (MkResponse code None (ErrorBody name message op3), http_server).
Proof.
  apply (protected_needs_token http_api (at_time later) (as_bob rename) rename http_server); [reflexivity|vm_compute; reflexivity].
Defined.

Lemma internal_errors_logged_witness :
  failure_ok (at_time later) (serve later (as_bob rename) after_login).1 (log after_login) (log (serve later (as_bob rename) after_login).2).
Proof. exact (internal_errors_logged http_api (at_time later) (as_bob rename) after_login _ _ (surjective_pairing _)). Defined.

Lemma request_keeps_vault_witness : vault_ok (db (world (serve later (as_bob rename) after_login).2)).
Proof.
  assert (Hv : vault_ok (db (world after_login))) by (apply vault_okb_sound; vm_compute; reflexivity).
  apply (request_keeps_vault http_api (at_time later) (as_bob rename) after_login _ _ Hv (surjective_pairing _)).
Defined.

(** ** Requests over the wire *)

(** Updates rename the fixture's folder; deletions name their operation. *)
Definition rename_json : JsonDecoder updateNodeRequest := fun _ => Some (MkUpdateNodeRequest op2 2 (Some "Bw==") 1 id1 false None).
#[local] Instance wire : JsonBodies :=
  MkJsonBodies refuse refuse refuse refuse refuse refuse refuse refuse refuse rename_json bare_id refuse refuse.

Definition line (method path : string) : HttpRequest :=
  MkHttpRequest method path "" "10.0.0.8:4000" (MkInput (fun _ => "") (fun _ => "") (MkStream [] false)).
Definition with_token (rq : HttpRequest) : HttpRequest :=
  MkHttpRequest (rq_Method rq) (rq_EscapedPath rq) bob_bearer (rq_Remote rq) (rq_Input rq).
Definition on_wire (rq : HttpRequest) (s : HttpApi.Server) := homebox http_api (at_time later) later rq s.
Definition wire_status (rq : HttpRequest) (s : HttpApi.Server) : option Z := answer_status (on_wire rq s).1.1.
Definition node_path (id : string) : string := ("/api/v1/nodes/" ++ id)%string.

Example wire_statuses :
  map (fun rq => wire_status rq http_server)
    [line "GET" "/health/live"; line "POST" "/health/live"; line "GET" "/api/v2"; line "GET" "/api/v1//trash"; line "PATCH" (node_path id2);
     line "GET" "/api/v1/trash"; line "POST" "/api/v1/auth/login"]
  = [Some 200; Some 405; Some 404; None; Some 401; Some 401; Some 400]%Z.
Proof. vm_compute. reflexivity. Qed.

(** The same line with Bob's token does what his request to the API does. *)
Example wire_rename : wire_status (with_token (line "PATCH" (node_path id2))) after_login = Some 200%Z /\
  (on_wire (with_token (line "PATCH" (node_path id2))) after_login).2 = (ServeHTTP http_api (at_time later) (as_bob rename) after_login).2.
Proof. split; vm_compute; reflexivity. Qed.

Lemma no_sender : sender (at_time later) (line "PATCH" (node_path id2)) (db (world after_login)) = None.
Proof. vm_compute. reflexivity. Qed.
Lemma no_session : ~ session_request (line "PATCH" (node_path id2)).
Proof. by intros [? _]. Qed.

Lemma server_guarded_witness : let r := on_wire (line "PATCH" (node_path id2)) after_login in
  r.1.2 !! "X-Content-Type-Options" = Some "nosniff" /\ r.2 = after_login /\ public_answer (at_time later) r.1.1 /\
  r.1.2 !! "Cache-Control" = Some "no-store".
Proof.
  intros r. destruct r as [[a h] s'] eqn:Er.
  destruct (server_guarded http_api (at_time later) later (line "PATCH" (node_path id2)) after_login a h s' Er) as (H1 & _ & H3).
  destruct (H3 no_sender no_session) as (H4 & H5 & H6). repeat split; [exact H1|exact H4|exact H5|exact H6].
Defined.

(** ** A run of the whole server *)

Definition run_policy : Policy := MkPolicy (168 * Hour) (3 * 24 * Hour) 10 (30 * 24 * Hour).
Definition running : Running := MkRunning "[::1]:8787" (MkTLSConfig VersionTLS13 [] false None) "" 0 http_api run_policy Hour after_login.

Definition renamed : HttpApi.Server := (on_wire (with_token (line "PATCH" (node_path id2))) after_login).2.
Definition maintained : HttpApi.Server := automatic_run running (ticking (later + Hour)) renamed.
Definition final : Process := MkProcess Stopped Returned maintained.

Lemma no_files_storage (w : World) : upload_sessions (db w) = ∅ -> upload_chunks (db w) = ∅ -> blobs (db w) = ∅ -> storage_ok w.
Proof. intros E1 E2 E3. split; [rewrite E1|rewrite E2|rewrite E3]; intros *; by rewrite lookup_empty. Qed.

Lemma after_login_sound : sound (world after_login).
Proof.
  split; [apply no_files_storage; vm_compute; reflexivity|]. apply vault_okb_sound. vm_compute. reflexivity.
Qed.

Lemma run_of_the_server : rtc (process_step running) (started running) final.
Proof.
  eapply rtc_l; [apply (step_request running (started running) (at_time later) later (with_token (line "PATCH" (node_path id2)))); [discriminate|vm_compute; reflexivity]|].
  eapply rtc_l; [apply (step_first_run running _ (ticking (later + Hour))); [discriminate|reflexivity]|].
  change (after_first_run running ?p ?s) with (MkProcess Accepting Ticking maintained).
  eapply rtc_l; [apply step_signal; reflexivity|]. eapply rtc_l; [apply step_return; reflexivity|]. eapply rtc_l; [apply step_stop; reflexivity|].
  apply rtc_refl.
Qed.

Lemma server_sound_witness : sound (world maintained).
Proof. apply (ro_sound _ _ (server_sound running final after_login_sound run_of_the_server)). Defined.
