(* ===== verification/Typing.v ===== *)
(** * The typing of the database

    What [internal/database/migrations.go] declares, as an invariant of whole
    databases: the columns with a fixed set of values (CHECK), the unique
    columns (UNIQUE) and the references (REFERENCES).  The statements of the
    program keep it, each by the constraints SQLite checks or because it
    leaves the constrained columns alone. *)

From S2P Require Import Prelude Schema Session Nodes Sharing Uploads Maintenance.
Local Open Scope string_scope.

(** ** Rows *)

Definition rows {K V} `{Countable K} (P : K -> V -> bool) (m : gmap K V) : Prop := forall k v, m !! k = Some v -> P k v = true.
Definition unique {K V W} `{Countable K} (f : V -> W) (m : gmap K V) : Prop :=
  forall k1 k2 v1 v2, m !! k1 = Some v1 -> m !! k2 = Some v2 -> f v1 = f v2 -> k1 = k2.

Section rows.
Context {K V : Type} `{Countable K}.
Implicit Types (P : K -> V -> bool) (m : gmap K V).

Lemma rows_empty P : rows P ∅.
Proof. intros k v. by rewrite lookup_empty. Qed.
Lemma rows_mono P Q m : (forall k v, P k v = true -> Q k v = true) -> rows P m -> rows Q m.
Proof. unfold rows. eauto. Qed.
Lemma rows_sub P m m' : (forall k v, m' !! k = Some v -> m !! k = Some v) -> rows P m -> rows P m'.
Proof. unfold rows. eauto. Qed.
Lemma rows_insert P m k v : P k v = true -> rows P m -> rows P (<[k := v]> m).
Proof. intros Hv Hm j w [[<- <-]|[_ Hj]]%lookup_insert_Some; [done|by apply Hm]. Qed.
Lemma rows_delete P Q m : rows P m -> rows P (delete_rows Q m).
Proof. apply rows_sub. by intros k v [Hk _]%lookup_delete_rows. Qed.
Lemma update_rows_Some Q f m k v : update_rows Q f m !! k = Some v -> exists w, m !! k = Some w /\ v = (if Q k w then f w else w).
Proof. rewrite lookup_update_rows. intros (w & Hw & ->)%fmap_Some. by exists w. Qed.
Lemma rows_update P Q f m : (forall k v, P k v = true -> P k (f v) = true) -> rows P m -> rows P (update_rows Q f m).
Proof. intros Hf Hm k v Hk. apply update_rows_Some in Hk as (v0 & Hv0%Hm & ->). case_match; auto. Qed.

Lemma unique_empty {W} (f : V -> W) : unique f (∅ : gmap K V).
Proof. intros k1 k2 v1 v2. by rewrite lookup_empty. Qed.
Lemma unique_sub {W} (f : V -> W) m m' : (forall k v, m' !! k = Some v -> m !! k = Some v) -> unique f m -> unique f m'.
Proof. unfold unique. eauto. Qed.
Lemma unique_insert {W} (f : V -> W) m k v : (forall j w, m !! j = Some w -> f w <> f v) -> unique f m -> unique f (<[k := v]> m).
Proof.
  intros Hv Hm k1 k2 v1 v2 [[<- <-]|[_ H1]]%lookup_insert_Some [[<- <-]|[_ H2]]%lookup_insert_Some Hf; [done| | |by eapply Hm].
  - by destruct (Hv _ _ H2).
  - by destruct (Hv _ _ H1).
Qed.
Lemma unique_update {W} (f : V -> W) Q g m : (forall v, f (g v) = f v) -> unique f m -> unique f (update_rows Q g m).
Proof.
  intros Hg Hm k1 k2 v1 v2 (w1 & H1 & ->)%update_rows_Some (w2 & H2 & ->)%update_rows_Some Hf.
  apply (Hm _ _ _ _ H1 H2). revert Hf. repeat case_match; by rewrite ?Hg.
Qed.

Lemma has_spec m k : has m k = true <-> is_Some (m !! k).
Proof. unfold has. destruct (m !! k); simpl; split; [by eexists|done|done|by intros []]. Qed.
Lemma has_insert_same m k v : has (<[k := v]> m) k = true.
Proof. apply has_spec. rewrite lookup_insert_eq. by eexists. Qed.
Lemma has_put m k j v w : m !! j = Some w -> has (<[j := v]> m) k = has m k.
Proof.
  intros Hj. unfold has. destruct (decide (j = k)) as [->|Hne]; [by rewrite lookup_insert_eq, Hj|by rewrite lookup_insert_ne].
Qed.
Lemma has_delete (P : K -> V -> bool) m k : has m k = true -> (forall v, m !! k = Some v -> P k v = false) -> has (delete_rows P m) k = true.
Proof. rewrite !has_spec. intros [v Hv] HP. exists v. apply lookup_delete_rows. split; [done|]. by apply HP. Qed.
End rows.

Lemma has_opt_insert {V} (m : gmap string V) k j v : has_opt m k = true -> has_opt (<[j := v]> m) k = true.
Proof. destruct k; [apply has_insert|done]. Qed.

#[local] Arguments one_of : simpl never.
Create HintDb rows.
Create HintDb typing.
#[export] Hint Resolve has_insert has_opt_insert has_insert_same : rows.

(** ** The tables *)

Definition user_typed (r : user_row) : bool := one_of ["ADMIN"; "USER"] (user_role r) && one_of ["ACTIVE"; "DISABLED"] (user_status r).
Definition device_typed (d : DB) (r : device_row) : bool :=
  one_of ["WINDOWS"; "ANDROID"; "OTHER"] (device_platform r) && has (users d) (device_user_id r).
Definition envelope_typed (d : DB) (r : envelope_row) : bool :=
  has (users d) (env_target_user_id r) && has_opt (devices d) (env_target_device_id r).
Definition node_typed (d : DB) (r : node_row) : bool :=
  one_of ["FILE"; "DIRECTORY"] (node_type r) && has (users d) (node_owner_id r) && has_opt (nodes d) (node_parent_id r).
Definition version_typed (d : DB) (r : file_version_row) : bool :=
  has (nodes d) (fv_node_id r) && has (blobs d) (fv_blob_id r) && has (devices d) (fv_created_by_device_id r).
Definition session_typed (d : DB) (r : upload_session_row) : bool :=
  one_of upload_statuses (us_status r) && has (users d) (us_user_id r) && has (devices d) (us_device_id r) && has_opt (nodes d) (us_target_node_id r).
Definition share_typed (d : DB) (r : share_row) : bool :=
  one_of ["READ"; "READ_WRITE"] (share_permission r) && has (nodes d) (share_node_id r) && has (users d) (share_owner_user_id r)
  && has (users d) (share_target_user_id r) && has (users d) (share_created_by r).
Definition share_envelope_key (e : share_envelope_row) : string * string * Z := (se_share_id e, se_target_device_id e, se_key_version e).

Record schema_ok (d : DB) : Prop := {
  users_ok : rows (fun _ => user_typed) (users d);
  users_unique : unique user_username_norm (users d);
  devices_ok : rows (fun _ => device_typed d) (devices d);
  refresh_ok : rows (fun _ r => has (users d) (rt_user_id r) && has (devices d) (rt_device_id r)) (refresh_tokens d);
  access_ok : rows (fun _ r => has (users d) (at_user_id r) && has (devices d) (at_device_id r)) (access_tokens d);
  access_unique : unique at_token_hash (access_tokens d);
  envelopes_ok : rows (fun _ => envelope_typed d) (vault_key_envelopes d);
  nodes_ok : rows (fun _ => node_typed d) (nodes d);
  blobs_unique : unique blob_storage_rel_path (blobs d);
  versions_ok : rows (fun _ => version_typed d) (file_versions d);
  operations_ok : rows (fun _ r => has (users d) (op_user_id r) && has (devices d) (op_device_id r)) (processed_operations d);
  sessions_ok : rows (fun _ => session_typed d) (upload_sessions d);
  chunks_ok : rows (fun k _ => has (upload_sessions d) k.1) (upload_chunks d);
  shares_ok : rows (fun _ => share_typed d) (shares d);
  share_envelopes_ok : rows (fun _ e => has (shares d) (se_share_id e) && has (devices d) (se_target_device_id e)) (share_device_envelopes d);
  share_envelopes_unique : unique share_envelope_key (share_device_envelopes d);
  favorites_ok : rows (fun k _ => has (users d) k.1 && has (nodes d) k.2) (favorites d);
  candidates_ok : rows (fun k _ => has (blobs d) k) (gc_blob_candidates d);
  bundles_ok : rows (fun u r => has (users d) u && has (devices d) (rb_updated_by_device_id r)) (recovery_bundles d);
  folder_keys_ok : rows (fun _ r => has (users d) (fk_owner_user_id r) && has (devices d) (fk_created_by_device_id r)) (folder_keys d);
}.

Lemma empty_db_ok : schema_ok empty_db.
Proof. split; first [apply rows_empty | apply unique_empty]. Qed.

(** Rows that stay keep their references where the referred tables only grow. *)
Ltac still :=
  first
  [ done
  | eapply rows_mono; [|eassumption]; intros ? ?;
    unfold device_typed, envelope_typed, node_typed, version_typed, session_typed, share_typed; simpl;
    rewrite ?andb_true_iff; intuition (auto 2 with rows nocore)
  | idtac ].
Ltac row_in := apply rows_insert; [unfold user_typed, device_typed, envelope_typed, node_typed, version_typed, session_typed, share_typed|].
Ltac typed_insert H := destruct H; split; simpl; try row_in; still.

(** ** INSERT *)

Ltac inv_insert Hi H :=
  apply constrained_ok_inv in Hi as (Hc & Hu & Hf & ->); destruct H; split; simpl; try row_in; still;
  try (unfold user_typed, device_typed, envelope_typed, node_typed, version_typed, session_typed, share_typed; simpl;
       rewrite ?andb_true_iff in *; intuition (auto 2 with rows nocore); fail).

Lemma not_exists_row {K V} `{Countable K} (P : K -> V -> bool) (m : gmap K V) j w :
  negb (exists_row P m) = true -> m !! j = Some w -> P j w = false.
Proof. intros Hn%negb_true_iff. by apply exists_row_false. Qed.

Lemma insert_users_typed id r d d' : insert_users id r d = Ok d' -> schema_ok d -> schema_ok d'.
Proof.
  intros Hi H. inv_insert Hi H. apply unique_insert; [|done]. apply andb_prop in Hu as [_ Hu].
  intros j w Hj. apply (not_exists_row _ _ _ _ Hu) in Hj. by apply String.eqb_neq in Hj.
Qed.
Lemma insert_devices_typed id r d d' : insert_devices id r d = Ok d' -> schema_ok d -> schema_ok d'.
Proof. intros Hi H. inv_insert Hi H. Qed.
Lemma insert_refresh_tokens_typed id r d d' : insert_refresh_tokens id r d = Ok d' -> schema_ok d -> schema_ok d'.
Proof. intros Hi H. inv_insert Hi H. Qed.
Lemma insert_access_tokens_typed id r d d' : insert_access_tokens id r d = Ok d' -> schema_ok d -> schema_ok d'.
Proof.
  intros Hi H. inv_insert Hi H. apply unique_insert; [|done]. apply andb_prop in Hu as [_ Hu].
  intros j w Hj. apply (not_exists_row _ _ _ _ Hu) in Hj. by apply bool_decide_eq_false in Hj.
Qed.
Lemma insert_vault_key_envelopes_typed id r d d' : insert_vault_key_envelopes id r d = Ok d' -> schema_ok d -> schema_ok d'.
Proof. intros Hi H. inv_insert Hi H. Qed.
Lemma insert_nodes_typed id r d d' : insert_nodes id r d = Ok d' -> schema_ok d -> schema_ok d'.
Proof.
  intros Hi H. inv_insert Hi H. unfold node_typed; simpl. apply andb_prop in Hf as [-> Hf]. rewrite Hc. simpl.
  apply orb_prop in Hf as [Hf|Hf%bool_decide_eq_true]; [by apply has_opt_insert|]. rewrite Hf. apply has_insert_same.
Qed.
Lemma insert_blobs_typed id r d d' : insert_blobs id r d = Ok d' -> schema_ok d -> schema_ok d'.
Proof.
  intros Hi H. inv_insert Hi H. apply unique_insert; [|done]. apply andb_prop in Hu as [_ Hu].
  intros j w Hj. apply (not_exists_row _ _ _ _ Hu) in Hj. by apply String.eqb_neq in Hj.
Qed.
Lemma insert_file_versions_typed id r d d' : insert_file_versions id r d = Ok d' -> schema_ok d -> schema_ok d'.
Proof. intros Hi H. inv_insert Hi H. Qed.
Lemma insert_processed_operations_typed id r d d' : insert_processed_operations id r d = Ok d' -> schema_ok d -> schema_ok d'.
Proof. intros Hi H. inv_insert Hi H. Qed.
Lemma insert_upload_sessions_typed id r d d' : insert_upload_sessions id r d = Ok d' -> schema_ok d -> schema_ok d'.
Proof. intros Hi H. inv_insert Hi H. Qed.
Lemma insert_shares_typed id r d d' : insert_shares id r d = Ok d' -> schema_ok d -> schema_ok d'.
Proof. intros Hi H. inv_insert Hi H. Qed.
Lemma insert_folder_keys_typed f n r d d' : insert_folder_keys f n r d = Ok d' -> schema_ok d -> schema_ok d'.
Proof. intros Hi H. inv_insert Hi H. Qed.

(** [ON CONFLICT .. DO NOTHING] and [DO UPDATE]. *)
Lemma insert_upload_chunks_typed u n r d d' : insert_upload_chunks u n r d = Ok d' -> schema_ok d -> schema_ok d'.
Proof.
  unfold insert_upload_chunks. case_match; [by intros [= <-]|]. destruct (has (upload_sessions d) u) eqn:Hf; [|done].
  intros [= <-] Hok. by typed_insert Hok.
Qed.
Lemma insert_share_device_envelopes_typed id r d d' : insert_share_device_envelopes id r d = Ok d' -> schema_ok d -> schema_ok d'.
Proof.
  unfold insert_share_device_envelopes. destruct (exists_row _ _) eqn:He; [by intros [= <-]|]. intros Hi Hok. inv_insert Hi Hok.
  apply unique_insert; [|done]. intros j w Hj. apply exists_row_false with (k := j) (v := w) in He; [|done].
  unfold share_envelope_key. intros [= E1 E2 E3]. by rewrite E1, E2, E3, !String.eqb_refl, Z.eqb_refl in He.
Qed.
Lemma insert_favorites_typed u n t d d' : insert_favorites u n t d = Ok d' -> schema_ok d -> schema_ok d'.
Proof.
  unfold insert_favorites. case_match; [by intros [= <-]|]. destruct (has (users d) u && has (nodes d) n) eqn:Hf; [|done].
  intros [= <-] Hok. by typed_insert Hok.
Qed.
Lemma upsert_recovery_bundles_typed u r d d' : upsert_recovery_bundles u r d = Ok d' -> schema_ok d -> schema_ok d'.
Proof.
  unfold upsert_recovery_bundles. destruct (has (users d) u && has (devices d) (rb_updated_by_device_id r)) eqn:Hf; [|done].
  intros [= <-] Hok. by typed_insert Hok.
Qed.
Lemma append_change_typed scope n op payload t d : schema_ok d -> schema_ok (append_change scope n op payload t d).
Proof. intros Hok. by destruct Hok; split. Qed.

(** ** UPDATE *)

Lemma update_device_typed id f d :
  (forall r, device_user_id (f r) = device_user_id r /\ device_platform (f r) = device_platform r) -> schema_ok d -> schema_ok (update_device id f d).
Proof.
  intros Hr Hok. unfold update_device. destruct (devices d !! id) as [r|] eqn:Er; [|done]. destruct (Hr r) as [E1 E2].
  pose proof (devices_ok _ Hok _ _ Er) as Hd. unfold device_typed in Hd. typed_insert Hok.
  unfold device_typed; simpl. by rewrite E1, E2.
Qed.
Lemma update_node_typed id f d d' : update_node id f d = Ok d' ->
  (forall r, node_owner_id (f r) = node_owner_id r /\ node_type (f r) = node_type r) -> schema_ok d -> schema_ok d'.
Proof.
  intros Hi Hr Hok. unfold update_node in Hi. destruct (nodes d !! id) as [r|] eqn:Er; [|by injection Hi as <-]. destruct (Hr r) as [E1 E2].
  destruct (has_opt _ _) eqn:Hp; [|done]. injection Hi as <-.
  pose proof (nodes_ok _ Hok _ _ Er) as Hn. unfold node_typed in Hn. apply andb_prop in Hn as [Hn _]. typed_insert Hok.
  unfold node_typed; simpl. rewrite E1, E2, Hn. by apply has_opt_insert.
Qed.
Lemma publish_node_typed id expected f d d' : publish_node id expected f d = Ok d' ->
  (forall r, node_owner_id (f r) = node_owner_id r /\ node_type (f r) = node_type r /\ node_parent_id (f r) = node_parent_id r) ->
  schema_ok d -> schema_ok d'.
Proof.
  intros Hi Hr Hok. unfold publish_node in Hi. destruct (nodes d !! id) as [r|] eqn:Er; [|done]. destruct (Hr r) as (E1 & E2 & E3).
  destruct (_ =? _)%Z; [|done]. injection Hi as <-.
  pose proof (nodes_ok _ Hok _ _ Er) as Hn. unfold node_typed in Hn. apply andb_prop in Hn as [Hn Hp]. typed_insert Hok.
  unfold node_typed; simpl. rewrite E1, E2, E3, Hn. by apply has_opt_insert.
Qed.
Lemma update_session_typed id f d :
  (forall r, us_user_id (f r) = us_user_id r /\ us_device_id (f r) = us_device_id r /\ us_target_node_id (f r) = us_target_node_id r
     /\ one_of upload_statuses (us_status (f r)) = true) -> schema_ok d -> schema_ok (update_session id f d).
Proof.
  intros Hr Hok. unfold update_session. destruct (upload_sessions d !! id) as [r|] eqn:Er; [|done]. destruct (Hr r) as (E1 & E2 & E3 & E4).
  pose proof (sessions_ok _ Hok _ _ Er) as Hs. unfold session_typed in Hs. typed_insert Hok.
  unfold session_typed; simpl. rewrite E1, E2, E3, E4. rewrite !andb_true_iff in *. intuition.
Qed.
Lemma revoke_share_typed id now r d : shares d !! id = Some r -> schema_ok d -> schema_ok (upd_shares <[id := revoke_share now r]> d).
Proof.
  intros Er Hok. pose proof (shares_ok _ Hok _ _ Er) as Hs. by typed_insert Hok.
Qed.
Lemma rewrapVersion_typed n v d : schema_ok d -> schema_ok (rewrapVersion n v d).2.
Proof.
  intros Hok. unfold rewrapVersion. destruct (file_versions d !! rv_ID v) as [f|] eqn:Ef; [|done]. case_match; [|done].
  pose proof (versions_ok _ Hok _ _ Ef) as Hf. by typed_insert Hok.
Qed.

(** ** UPDATE and DELETE of the rows a condition selects *)

(** In a table nothing refers to. *)
Ltac typed_leaf Hok :=
  intros Hok; destruct Hok; split; simpl;
  first [done | by apply rows_delete | by eapply unique_sub; [|eassumption]; intros ? ? [? _]%lookup_delete_rows | idtac].

Lemma delete_refresh_typed P d : schema_ok d -> schema_ok (upd_refresh_tokens (delete_rows P) d).
Proof. typed_leaf Hok. Qed.
Lemma delete_access_typed P d : schema_ok d -> schema_ok (upd_access_tokens (delete_rows P) d).
Proof. typed_leaf Hok. Qed.
Lemma delete_operations_typed P d : schema_ok d -> schema_ok (upd_processed_operations (delete_rows P) d).
Proof. typed_leaf Hok. Qed.
Lemma delete_favorites_typed P d : schema_ok d -> schema_ok (upd_favorites (delete_rows P) d).
Proof. typed_leaf Hok. Qed.
Lemma delete_folder_keys_typed P d : schema_ok d -> schema_ok (upd_folder_keys (delete_rows P) d).
Proof. typed_leaf Hok. Qed.
Lemma delete_share_envelopes_typed P d : schema_ok d -> schema_ok (upd_share_device_envelopes (delete_rows P) d).
Proof. typed_leaf Hok. Qed.
Lemma delete_chunks_typed P d : schema_ok d -> schema_ok (upd_upload_chunks (delete_rows P) d).
Proof. typed_leaf Hok. Qed.
Lemma delete_versions_typed P d : schema_ok d -> schema_ok (upd_file_versions (delete_rows P) d).
Proof. typed_leaf Hok. Qed.
Lemma delete_candidates_typed P d : schema_ok d -> schema_ok (upd_gc_blob_candidates (delete_rows P) d).
Proof. typed_leaf Hok. Qed.
Lemma orphan_files_typed f d : schema_ok d -> schema_ok (upd_gc_orphan_blob_files f d).
Proof. typed_leaf Hok. Qed.

Lemma update_refresh_typed P now next d : schema_ok d -> schema_ok (upd_refresh_tokens (update_rows P (retire now next)) d).
Proof. typed_leaf Hok. by apply rows_update. Qed.
Lemma update_access_typed P t d : schema_ok d -> schema_ok (upd_access_tokens (update_rows P (expire_at t)) d).
Proof. typed_leaf Hok; [by apply rows_update|by apply unique_update]. Qed.
Lemma revoke_envelopes_typed P now d : schema_ok d -> schema_ok (upd_share_device_envelopes (update_rows P (revoke_envelope now)) d).
Proof. typed_leaf Hok; [by apply rows_update|by apply unique_update]. Qed.

(** ** DELETE in the tables others refer to *)

(** The rows of a child table keep their reference: the foreign key was checked. *)
Lemma keeps_reference {K V} `{Countable K} (P : K -> V -> bool) (m : gmap K V) k : has m k = true ->
  match m !! k with Some r => P k r | None => false end = false -> has (delete_rows P m) k = true.
Proof. intros Hm HP. apply has_delete; [done|]. intros v Hv. by rewrite Hv in HP. Qed.

Lemma delete_upload_sessions_typed P d d' : delete_upload_sessions P d = Ok d' -> schema_ok d -> schema_ok d'.
Proof.
  unfold delete_upload_sessions. destruct (exists_row _ _) eqn:He; [done|]. intros [= <-]. typed_leaf Hok.
  intros k v Hk. apply keeps_reference; [by eapply chunks_ok0|]. by eapply exists_row_false in He.
Qed.
Lemma delete_shares_typed P d d' : delete_shares P d = Ok d' -> schema_ok d -> schema_ok d'.
Proof.
  unfold delete_shares. destruct (exists_row _ _) eqn:He; [done|]. intros [= <-]. typed_leaf Hok.
  intros k v Hk. pose proof (share_envelopes_ok0 _ _ Hk) as [Hs ->]%andb_prop. rewrite andb_true_r.
  apply keeps_reference; [done|]. by eapply exists_row_false in He.
Qed.
Lemma delete_blobs_typed P d d' : delete_blobs P d = Ok d' -> schema_ok d -> schema_ok d'.
Proof.
  unfold delete_blobs. destruct (_ || _) eqn:He; [done|]. apply orb_false_iff in He as [Hv Hc]. intros [= <-]. typed_leaf Hok.
  - intros k v Hk. pose proof (versions_ok0 _ _ Hk) as [[Hn Hb]%andb_prop Hd]%andb_prop. unfold version_typed; simpl. rewrite Hn, Hd, andb_true_r.
    apply keeps_reference; [done|]. by eapply exists_row_false in Hv.
  - intros k v Hk. apply keeps_reference; [by eapply candidates_ok0|]. by eapply exists_row_false in Hc.
Qed.

Lemma refers_false (gone : string -> bool) (d : DB) k : gone k && has (nodes d) k = false -> has (nodes d) k = true ->
  has (delete_rows (fun n _ => gone n) (nodes d)) k = true.
Proof. intros Hg Hh. rewrite Hh, andb_true_r in Hg. by apply has_delete. Qed.

Lemma delete_nodes_typed gone d d' : delete_nodes gone d = Ok d' -> schema_ok d -> schema_ok d'.
Proof.
  unfold delete_nodes. destruct (_ || _) eqn:He; [done|]. rewrite !orb_false_iff in He. destruct He as [[[[Hp Hv] Hu] Hs] Hf].
  intros [= <-]. typed_leaf Hok; intros k r Hk.
  - apply lookup_delete_rows in Hk as [Hk Hg]. pose proof (nodes_ok0 _ _ Hk) as [Hn Hr]%andb_prop. unfold node_typed; simpl. rewrite Hn. simpl.
    eapply exists_row_false in Hp; [|exact Hk]. rewrite Hg in Hp. destruct (node_parent_id r); [by apply refers_false|done].
  - pose proof (versions_ok0 _ _ Hk) as [[Hn Hb]%andb_prop Hd]%andb_prop. unfold version_typed; simpl. rewrite Hb, Hd, !andb_true_r.
    eapply exists_row_false in Hv; [|exact Hk]. by apply refers_false.
  - pose proof (sessions_ok0 _ _ Hk) as [Hn Hr]%andb_prop. unfold session_typed; simpl. rewrite Hn. simpl.
    eapply exists_row_false in Hu; [|exact Hk]. destruct (us_target_node_id r); [by apply refers_false|done].
  - pose proof (shares_ok0 _ _ Hk) as Hn. unfold share_typed in Hn. rewrite !andb_true_iff in Hn. destruct Hn as [[[[H1 H2] H3] H4] H5].
    unfold share_typed; simpl. rewrite H1, H3, H4, H5, !andb_true_r. simpl. eapply exists_row_false in Hs; [|exact Hk]. by apply refers_false.
  - pose proof (favorites_ok0 _ _ Hk) as [-> Hn]%andb_prop. simpl. eapply exists_row_false in Hf; [|exact Hk]. by apply refers_false.
Qed.

(** The marks of the garbage collector. *)
Lemma mark_blobs_typed now d : schema_ok d -> schema_ok (mark_blobs now d).
Proof.
  unfold mark_blobs. typed_leaf Hok. intros k t Hk. apply lookup_union_Some_raw in Hk as [Hk|[_ Hk]]; [by eapply candidates_ok0|].
  apply lookup_fmap_Some in Hk as (b & _ & [Hb _]%map_lookup_filter_Some). apply has_spec. by exists b.
Qed.

#[export] Hint Resolve insert_users_typed insert_devices_typed insert_refresh_tokens_typed insert_access_tokens_typed
  insert_vault_key_envelopes_typed insert_nodes_typed insert_blobs_typed insert_file_versions_typed insert_processed_operations_typed
  insert_upload_sessions_typed insert_shares_typed insert_folder_keys_typed insert_upload_chunks_typed
  insert_share_device_envelopes_typed insert_favorites_typed upsert_recovery_bundles_typed append_change_typed
  update_device_typed update_node_typed publish_node_typed update_session_typed rewrapVersion_typed
  delete_refresh_typed delete_access_typed delete_operations_typed delete_favorites_typed delete_folder_keys_typed
  delete_share_envelopes_typed delete_chunks_typed delete_versions_typed delete_candidates_typed orphan_files_typed
  update_refresh_typed update_access_typed revoke_envelopes_typed delete_upload_sessions_typed delete_shares_typed delete_blobs_typed
  delete_nodes_typed mark_blobs_typed : typing.
(** The columns a change of a row leaves alone. *)
#[export] Hint Extern 1 (forall r : device_row, _ /\ _) => intros ?; split_and!; reflexivity : typing.
#[export] Hint Extern 1 (forall r : upload_session_row, _ /\ _) => intros ?; split_and!; reflexivity : typing.
#[export] Hint Extern 1 (forall r : node_row, _ /\ _) => intros ?; repeat case_match; split_and!; reflexivity : typing.
