(* ===== verification/TypingOps.v ===== *)
(** * Every operation keeps the database well typed

    The calls of the services, each by its statements ([Typing]), and the
    version a file shows: a row of its own file, which stays while the file
    does. *)

From S2P Require Import Prelude GoText GoTime Uuid Schema Access Auth Session SessionCorrect Nodes NodesSpec NodesCorrect Favorites Sharing SharingCorrect Uploads UploadsStorage Maintenance MaintenancePurge DeviceAuth Provisioning Recovery Typing.
From Stdlib Require Import String.
Local Open Scope string_scope.

(** ** The version a file shows *)

Definition current_ok (d : DB) : Prop := forall k r v, nodes d !! k = Some r -> node_current_version_id r = Some v ->
  exists f, file_versions d !! v = Some f /\ fv_node_id f = k.

(** No version goes or changes its file, and no file shows another one. *)
Record same_current (d d' : DB) : Prop := {
  sc_versions : forall v f, file_versions d !! v = Some f -> exists f', file_versions d' !! v = Some f' /\ fv_node_id f' = fv_node_id f;
  sc_nodes : forall k r', nodes d' !! k = Some r' -> node_current_version_id r' = None \/
    exists r, nodes d !! k = Some r /\ node_current_version_id r = node_current_version_id r';
}.

#[export] Instance same_current_preorder : PreOrder same_current.
Proof.
  split; [intros d; split; eauto|]. intros a b c [V1 N1] [V2 N2]. split.
  - intros v f Hf. destruct (V1 _ _ Hf) as (g & Hg & E1). destruct (V2 _ _ Hg) as (h & Hh & E2). exists h. split; [done|congruence].
  - intros k r Hr. destruct (N2 _ _ Hr) as [|(s & Hs & E)]; [by left|]. rewrite <- E.
    destruct (N1 _ _ Hs) as [|(t & Ht & E')]; [by left|]. right. eauto.
Qed.

Lemma same_current_eq d d' : nodes d' = nodes d -> file_versions d' = file_versions d -> same_current d d'.
Proof. intros En Ef. split; rewrite ?En, ?Ef; eauto. Qed.

Lemma current_ok_same d d' : same_current d d' -> current_ok d -> current_ok d'.
Proof.
  intros [V N] Hp k r v Hr Hv. destruct (N _ _ Hr) as [Hn|(s & Hs & E)]; [congruence|].
  destruct (Hp k s v Hs) as (f & Hf & Ek); [congruence|]. destruct (V _ _ Hf) as (g & Hg & Eg). exists g. split; [done|congruence].
Qed.

(** ** Statements *)

Definition keeps (d d' : DB) : Prop := schema_ok d -> schema_ok d'.
#[export] Instance keeps_preorder : PreOrder keeps.
Proof. split; unfold keeps; repeat intros ?; auto. Qed.

Definition steady (d d' : DB) : Prop := keeps d d' /\ same_current d d'.
#[export] Instance steady_preorder : PreOrder steady.
Proof. split; [done|]. intros a b c [] []. split; by etrans. Qed.

Lemma constrained_current check table un cols fk d d0 d' :
  constrained check table un cols fk d = Ok d' -> same_current d0 d -> same_current d0 d'.
Proof. by intros (_ & _ & _ & ->)%constrained_ok_inv. Qed.

(** A statement on a table other than [nodes] and [file_versions]. *)
Ltac other_tables :=
  lazymatch goal with
  | |- same_current _ (update_device _ _ _) => unfold update_device; case_match; by apply same_current_eq
  | |- same_current _ (update_session _ _ _) => unfold update_session; case_match; by apply same_current_eq
  | _ => by apply same_current_eq
  end.
Ltac inserted Hi :=
  unfold insert_account, insert_users, insert_devices, insert_refresh_tokens, insert_access_tokens, insert_vault_key_envelopes, insert_upload_sessions,
    insert_upload_chunks, insert_shares, insert_share_device_envelopes, insert_favorites, insert_folder_keys, insert_processed_operations,
    upsert_recovery_bundles in Hi; repeat case_match; try done;
  first [by injection Hi as <- | by injection Hi as <-; apply same_current_eq
        | apply (constrained_current _ _ _ _ _ _ _ _ Hi); by apply same_current_eq].
Ltac steady_statement :=
  solve [ apply stays_modify; intros ?; split; [intros ?; eauto 3 with typing nocore|other_tables]
        | first [apply stays_exec | apply stays_exec_unique]; [exact _|]; intros ? ? ?; split; [intros ?; eauto 3 with typing nocore|match goal with Hi : _ = Ok _ |- _ => inserted Hi end] ].

Ltac keeps_statement :=
  solve [ apply stays_modify; intros ? ?; eauto 3 with typing nocore | apply stays_exec; [exact _|]; intros ? ? ? ?; eauto 3 with typing nocore ].

Lemma exec_sync_steady scope n op payload t : stays steady (exec_sync scope n op payload t).
Proof.
  intros d. unfold exec_sync, insert_sync_changes. destruct (_ =? _)%Z; [done|]. split; [intros ?; by apply append_change_typed|by apply same_current_eq].
Qed.

(** ** Accounts and sessions *)

Section sessions.
Context {TP : TimeParser} {A2 : Argon2} (clk : nat -> Z) (newid : nat -> string) (rand : nat -> list byte) (ttl : Z).

Lemma BootstrapAdmin_steady salt username password : stays steady (BootstrapAdmin clk newid salt username password).
Proof. unfold BootstrapAdmin, insert_account. solve_stays; steady_statement. Qed.
Lemma CreateUser_steady salt maxUsers username password : stays steady (CreateUser clk newid salt maxUsers username password).
Proof. unfold CreateUser, insert_account. solve_stays; steady_statement. Qed.

Lemma upsertDevice_steady now u reg : stays steady (upsertDevice now u reg).
Proof. unfold upsertDevice. solve_stays; steady_statement. Qed.
Lemma issueTokens_steady now user dev : stays steady (issueTokens newid rand ttl now user dev).
Proof. unfold issueTokens. solve_stays; steady_statement. Qed.
Lemma loginTx_steady now uid user hash reg : stays steady (loginTx newid rand ttl now uid user hash reg).
Proof. unfold loginTx. solve_stays; [apply upsertDevice_steady|apply issueTokens_steady]. Qed.
Lemma Refresh_steady tok : stays steady (Refresh clk newid rand ttl tok).
Proof. unfold Refresh, refreshTx, revokeDeviceTokens. solve_stays; first [apply issueTokens_steady | steady_statement]. Qed.
Lemma Logout_steady tok : stays steady (Logout clk tok).
Proof. unfold Logout. solve_stays; steady_statement. Qed.
Lemma RecordSync_steady u dev : stays steady (RecordSync clk u dev).
Proof. unfold RecordSync. solve_stays; steady_statement. Qed.
Lemma RevokeDevice_steady u dev : stays steady (RevokeDevice clk u dev).
Proof. unfold RevokeDevice. solve_stays; steady_statement. Qed.
End sessions.

(** ** Sharing, keys and favorites *)

Section services.
Context {U : UuidLib} {TP : TimeParser} {E : Ed25519} (clk : nat -> Z) (newid : nat -> string).

Lemma Add_steady u k : stays steady (Favorites.Add clk u k).
Proof. unfold Favorites.Add. solve_stays; steady_statement. Qed.
Lemma Remove_steady u k : stays steady (Favorites.Remove u k).
Proof. unfold Favorites.Remove. solve_stays; steady_statement. Qed.
Lemma UploadAuthenticated_steady vid u dev kv ct key ver c : stays steady (UploadAuthenticated clk newid vid u dev kv ct key ver c).
Proof. unfold UploadAuthenticated. solve_stays; steady_statement. Qed.
Lemma Put_steady u dev b key sig : stays steady (Recovery.Put clk u dev b key sig).
Proof. unfold Recovery.Put. solve_stays; steady_statement. Qed.
Lemma CreateFolderKey_steady u dev f v e : stays steady (CreateFolderKey clk u dev f v e).
Proof. unfold CreateFolderKey, folderKeyTx. solve_stays; steady_statement. Qed.

Lemma insertEnvelopes_steady sid envs i now : stays steady (insertEnvelopes newid sid envs i now).
Proof. unfold insertEnvelopes. apply stays_mfor; [exact _|]. intros j x. steady_statement. Qed.

Lemma Revoke_steady o dev sid : stays steady (Revoke clk o dev sid).
Proof.
  intros d. destruct (Revoke clk o dev sid d) as [r d'] eqn:H.
  apply Revoke_outcome in H as [[-> _]|(_ & _ & s & [Hs _]%own_share_some & _ & ->)]; [done|]. split; [|by apply same_current_eq].
  intros Hok. unfold revoked. simpl. by apply revoke_envelopes_typed, revoke_share_typed.
Qed.

Lemma share_handle_steady q : stays steady (share_handle clk newid q).
Proof.
  destruct q; cbn [share_handle]; unfold CreateGrant, grantTx, AddEnvelopes; solve_stays;
    first [apply insertEnvelopes_steady | apply Revoke_steady | steady_statement].
Qed.

(** ** Nodes *)

Lemma update_node_steady k f :
  (forall r, node_owner_id (f r) = node_owner_id r /\ node_type (f r) = node_type r /\ node_current_version_id (f r) = node_current_version_id r) ->
  stays steady (exec (update_node k f)).
Proof.
  intros Hf. apply stays_exec; [exact _|]. intros d d' Hu. split; [intros Hd; eapply update_node_typed; [done| |done]; intros r; destruct (Hf r) as (? & ? & _); done|].
  unfold update_node in Hu. destruct (nodes d !! k) as [r|] eqn:Er; [|by injection Hu as <-]. destruct (has_opt _ _); [|done]. injection Hu as <-.
  split; simpl; [eauto|]. intros j r' [[<- <-]|[_ Hj]]%lookup_insert_Some; right; [|eauto]. exists r. split; [done|]. symmetry. apply Hf.
Qed.

Lemma insert_nodes_steady k r : node_current_version_id r = None -> stays steady (exec (insert_nodes k r)).
Proof.
  intros Hr. apply stays_exec; [exact _|]. intros d d' Hi. split; [intros ?; by eapply insert_nodes_typed|].
  apply constrained_ok_inv in Hi as (_ & _ & _ & ->). split; simpl; [eauto|].
  intros j r' [[<- <-]|[_ Hj]]%lookup_insert_Some; [by left|right; eauto].
Qed.

Lemma rewrapVersion_steady n v : stays steady (rewrapVersion n v).
Proof.
  intros d. split; [intros Hd; by apply rewrapVersion_typed|]. unfold rewrapVersion.
  destruct (file_versions d !! rv_ID v) as [f|] eqn:Ef; [|done]. case_match; [|done]. split; simpl; [|eauto].
  intros w g Hg. destruct (decide (rv_ID v = w)) as [<-|Hne]; [|rewrite lookup_insert_ne by done; eauto].
  rewrite lookup_insert_eq. simplify_eq. by eexists.
Qed.

Lemma handle_steady q : stays steady (NodesSpec.handle clk q).
Proof.
  destruct q as [i|i|u dev k op rev|u dev k op|i]; cbn [NodesSpec.handle];
    unfold Nodes.Create, Nodes.createTx, Nodes.Update, Nodes.updateTx, Nodes.Delete, Nodes.deleteTx, Nodes.Restore, Nodes.restoreTx, Nodes.Rekey,
      recordProcessed, recordChange;
    solve_stays; try first [apply exec_sync_steady | steady_statement | by apply insert_nodes_steady
      | apply update_node_steady; intros ?; repeat case_match; by split_and!].
  - apply stays_mfor; [exact _|]. intros j x. unfold rekeyItem, recordChange. solve_stays; [|apply exec_sync_steady|by apply update_node_steady].
    apply stays_mfor; [exact _|]. intros _ v. solve_stays. apply rewrapVersion_steady.
  - apply stays_pure; [exact _|apply pure_mmap_query].
Qed.
End services.

(** ** On the machine *)

Definition in_world (R : relation DB) : relation World := fun w w' => R (db w) (db w').
#[export] Instance in_world_preorder R `{!PreOrder R} : PreOrder (in_world R).
Proof. split; unfold in_world; [intros w; reflexivity|]. intros a b c ? ?. by etrans. Qed.

Section world.
Context (R : relation DB) `{!PreOrder R}.

Lemma on_db_stays {A} (m : M DB A) : stays R m -> stays (in_world R) (on_db m).
Proof. intros Hm w. specialize (Hm (db w)). unfold on_db, in_world. by destruct (m (db w)). Qed.
Lemma stays_same_db {A} (m : M World A) : (forall w, db (m w).2 = db w) -> stays (in_world R) m.
Proof. intros Hm w. unfold in_world. rewrite Hm. reflexivity. Qed.
Lemma stays_db_query {A} (q : DB -> result A) : stays (in_world R) (db_query q).
Proof. by apply stays_same_db. Qed.
Lemma stays_tx_world {A} (m : M World A) : stays (in_world R) m -> stays (in_world R) (tx_world m).
Proof. intros Hm w. specialize (Hm w). unfold tx_world. destruct (m w) as [[a|e] w']; [done|]. unfold in_world. reflexivity. Qed.
End world.

Ltac solve_world :=
  repeat first
  [ progress solve_stays
  | apply stays_db_query; exact _
  | apply stays_tx_world; [exact _|]
  | apply on_db_stays; [exact _..|]
  | apply stays_mcount; [exact _|intros ?]
  | apply stays_same_db; [exact _|]; intros ?; done ].

(** ** Uploads *)

Section uploads.
Context {U : UuidLib} {TP : TimeParser} (s : Uploads.Service) (clk : nat -> Z) (newid : nat -> string).

Lemma writeAtomic_db dir path data w : db (writeAtomic dir path data w).2 = db w.
Proof. unfold writeAtomic. by case_match. Qed.

Lemma upload_steady q : match q with UComplete _ _ => True | _ => stays (in_world steady) (upload_handle s clk newid q) end.
Proof.
  destruct q; cbn [upload_handle]; [| | | |done]; unfold Uploads.Create, createTx, PutChunk, Uploads.Get, Abort_, Uploads.MkdirAll, RemoveAll; solve_world;
    first [steady_statement | apply stays_same_db; [exact _|]; intros ?; apply writeAtomic_db].
Qed.

Lemma completeTx_keeps u i ss expected total sha : stays keeps (completeTx clk u i ss expected total sha).
Proof.
  unfold completeTx. solve_stays;
    first [ by intros d; apply (exec_sync_steady _ _ _ _ _ d) | keeps_statement ].
Qed.

Lemma Complete_keeps u i : stays (in_world keeps) (Complete s clk u i).
Proof.
  unfold Complete, assembleCiphertext. solve_world.
  - apply stays_same_db; [exact _|]. intros w. unfold createBlobFile. by case_match.
  - apply stays_same_db; [exact _|]. intros w. unfold writeChunks. by case_match.
  - intros w. unfold commitUpload. pose proof (on_db_stays keeps _ (stays_tx keeps _ (completeTx_keeps u i d z0 z a0)) w) as Hk.
    by destruct (on_db _ w) as [[[[] r]|e] w'].
Qed.

Lemma update_session_vault u f d : nodes (update_session u f d) = nodes d /\ file_versions (update_session u f d) = file_versions d.
Proof. unfold update_session. by case_match. Qed.

Lemma completed_current u i ss expected node total sha d : may_complete u i ss expected node d ->
  current_ok d -> current_ok (completed clk u i ss node total sha d).
Proof.
  intros [_ _ Hn _ _ _ Hv _] Hp k r v. unfold completed. rewrite (proj1 (update_session_vault _ _ _)), (proj2 (update_session_vault _ _ _)). simpl.
  intros [[<- <-]|[Hne Hk]]%lookup_insert_Some Hc.
  - injection Hc as <-. rewrite lookup_insert_eq. eauto.
  - destruct (Hp _ _ _ Hk Hc) as (g & Hg & E). exists g. split; [|done]. rewrite lookup_insert_ne; [done|congruence].
Qed.

Lemma Complete_current u i w : current_ok (db w) -> current_ok (db (Complete s clk u i w).2).
Proof.
  intros Hp. destruct (Complete s clk u i w) as [r w'] eqn:H.
  apply Complete_outcome in H as [[-> _]|(ss & ex & ch & tot & _ & _ & [(Hd & _)|(data & node & _ & Hm & _ & ->)])]; simpl; [done|by rewrite Hd|].
  by eapply completed_current.
Qed.

Lemma upload_handle_typed q w : let w' := (upload_handle s clk newid q w).2 in
  (schema_ok (db w) -> schema_ok (db w')) /\ (current_ok (db w) -> current_ok (db w')).
Proof.
  pose proof (upload_steady q) as Hq. destruct q; try (split; [apply (proj1 (Hq w))|by apply current_ok_same, Hq]).
  destruct (upload_handle s clk newid _ w) as [r w'] eqn:H. apply then_ret_inv in H as [r' H]. simpl.
  split; [pose proof (Complete_keeps upload i w)|pose proof (Complete_current upload i w)] ; by rewrite H in *.
Qed.
End uploads.
