(* ===== verification/TypingRun.v ===== *)
(** * The well-formed vault, over its whole life

    The soundness of the storage, the typing of the database and the version
    every file shows, as one invariant: it holds in the empty vault, and the
    account commands, the maintenance passes and the runs of the server keep
    it.  What a file shows can then be downloaded, intact. *)

From S2P Require Import Prelude GoText GoTime GoPath GoMux Uuid Sha256 Schema Access Auth Session SessionCorrect Nodes NodesSpec NodesCorrect Sharing SharingCorrect Uploads UploadsStorage Maintenance MaintenancePurge MaintenanceCorrect DeviceAuth HttpApi HttpBodies HttpAuth HttpVault HttpRoutes HttpCorrect HttpSafety HttpMux HttpServer SecureTransport ServerIdentity Main ServerRun Typing TypingOps.
From Stdlib Require Import String.
Local Open Scope string_scope.

Section formed.
Context {U : UuidLib}.

Record well_formed (w : World) : Prop := {
  wf_sound : sound w;
  wf_schema : schema_ok (db w);
  wf_current : current_ok (db w);
}.
Definition formed (w w' : World) : Prop := well_formed w -> well_formed w'.
#[export] Instance formed_preorder : PreOrder formed.
Proof. split; unfold formed; repeat intros ?; auto. Qed.
End formed.

(** ** Maintenance *)

Section maintenance.
Context {U : UuidLib} {UL : UuidLaws U} {TP : TimeParser} (p : Policy).

Lemma formed_steady cutoff {A} (m : M World A) : stays (gc_step cutoff) m -> stays (in_world steady) m -> stays formed m.
Proof.
  intros Hg Hs w [Hw Ht Hp]. destruct (Hs w) as [Hk Hc]. split; [by destruct (Hg w Hw)|by apply Hk|by eapply current_ok_same].
Qed.

Lemma count_delete_steady {K V} `{Countable K} (P : K -> V -> bool) get upd :
  (forall d, schema_ok d -> schema_ok (upd (delete_rows P) d)) ->
  (forall d, nodes (upd (delete_rows P) d) = nodes d /\ file_versions (upd (delete_rows P) d) = file_versions d) ->
  stays steady (count_delete P get upd).
Proof. intros Hk Hc d. split; [intros Hd; by apply Hk|apply same_current_eq; apply (Hc d)]. Qed.

Lemma cleanupExpired_steady now : stays steady (cleanupExpired now).
Proof. unfold cleanupExpired. solve_stays; (apply count_delete_steady; [intros ? ?; eauto 3 with typing nocore|done]). Qed.

Lemma expire_session_steady at_ id : stays steady (expire_session at_ id).
Proof.
  intros d. unfold expire_session. repeat case_match; try done. split; [intros ?; eauto 3 with typing nocore|].
  apply same_current_eq; apply update_session_vault.
Qed.

Lemma deleted_sessions_current P d d' : delete_upload_sessions P d = Ok d' -> same_current d d'.
Proof. unfold delete_upload_sessions. case_match; [done|]. intros [= <-]. by apply same_current_eq. Qed.

Lemma cleanup_upload_steady at_ id : stays (in_world steady) (cleanup_upload at_ id).
Proof.
  unfold cleanup_upload, delete_expired_session, RemoveAll. solve_world; first [apply expire_session_steady | steady_statement | idtac].
  apply stays_exec; [exact _|]. intros d d' Hd. split; [intros ?; by eapply delete_upload_sessions_typed|by eapply deleted_sessions_current].
Qed.

Lemma delete_blob_steady id : stays steady (delete_blob id).
Proof.
  unfold delete_blob. apply stays_tx; [exact _|]. intros d. cbv zeta. set (d1 := upd_gc_blob_candidates _ d).
  assert (H1 : steady d d1) by (split; [intros ?; by apply delete_candidates_typed|by apply same_current_eq]).
  destruct (delete_blobs _ d1) as [d2|e] eqn:Ed; [|exact H1]. etrans; [exact H1|]. split; [intros ?; by eapply delete_blobs_typed|].
  unfold delete_blobs in Ed. destruct (_ || _) in Ed; [done|]. injection Ed as <-. by apply same_current_eq.
Qed.

Lemma collectUnreferencedBlobs_steady now : stays (in_world steady) (collectUnreferencedBlobs p now).
Proof.
  unfold collectUnreferencedBlobs, collect_blob. solve_world; first [apply delete_blob_steady | steady_statement].
Qed.

Lemma mark_files_steady now paths : stays steady (mark_files now paths).
Proof.
  induction paths as [|path paths IH]; cbn [mark_files]; solve_stays; [|exact IH]. unfold mark_file. apply stays_modify. intros d.
  repeat case_match; try done; (split; [intros ?; by apply orphan_files_typed|by apply same_current_eq]).
Qed.

Lemma collectOrphanBlobFiles_steady now : stays (in_world steady) (collectOrphanBlobFiles p now).
Proof.
  unfold collectOrphanBlobFiles, collect_file. solve_world; first [apply mark_files_steady | steady_statement].
Qed.

(** *** A purge *)

Lemma record_purges_steady at_ rows : stays steady (record_purges at_ rows).
Proof. induction rows as [|[owner k] rows IH]; cbn [record_purges]; solve_stays; [apply exec_sync_steady|exact IH]. Qed.

Lemma remove_uploads_same ids : stays (in_world keeps) (remove_uploads ids).
Proof. induction ids as [|k ids IH]; cbn [remove_uploads]; unfold RemoveAll; solve_world. exact IH. Qed.

Lemma purgeSubtree_keeps id cutoff now : stays (in_world keeps) (purgeSubtree id cutoff now).
Proof.
  unfold purgeSubtree, delete_dependents. cbv zeta. solve_world; try first [keeps_statement | apply remove_uploads_same].
  intros d. apply record_purges_steady.
Qed.

Lemma PurgeTrashEntry_keeps clk u n : stays (in_world keeps) (PurgeTrashEntry clk u n).
Proof.
  unfold PurgeTrashEntry. apply stays_bind; [exact _|apply stays_db_query; exact _|intros t]. cbv zeta.
  apply stays_bind; [exact _|apply purgeSubtree_keeps|intros b]. solve_stays.
Qed.

Lemma purged_current ids now d : current_ok d -> current_ok (purged_db ids now d).
Proof.
  intros Hp k r v [Hk Hout]%lookup_delete_rows Hv. destruct (Hp k r v Hk Hv) as (f & Hf & Ef). exists f. split; [|done].
  apply lookup_delete_rows. split; [exact Hf|]. by rewrite Ef.
Qed.

Lemma purgeSubtree_formed id cutoff now : stays formed (purgeSubtree id cutoff now).
Proof.
  intros w [Hw Ht Hp]. pose proof (purgeSubtree_step id cutoff now w Hw) as [Hs _]. pose proof (purgeSubtree_keeps id cutoff now w Ht) as Hk.
  split; [done|done|]. destruct (purgeSubtree id cutoff now w) as [r w'] eqn:H.
  apply purgeSubtree_outcome in H as [(e & _ & ->)|(ups & _ & _ & Hd & _)]; simpl; [done|rewrite Hd; by apply purged_current|].
  apply Hw.
Qed.

(** *** A pass *)

Lemma pruned_current now d : current_ok d -> current_ok (pruneFileVersions p now d).2.
Proof.
  intros Hp k r v Hk Hv. destruct (Hp k r v Hk Hv) as (f & Hf & Ef). exists f. split; [|done]. apply lookup_delete_rows. split; [done|].
  unfold prunable, superseded. simpl in Hk. by rewrite Ef, Hk, Hv, String.eqb_refl.
Qed.

Lemma Run_formed clk : stays formed (Maintenance.Run p clk).
Proof.
  unfold Maintenance.Run, cleanupExpiredTrash. cbv zeta. set (c := Format (clk 0 - TrashRetention p)).
  apply stays_bind; [exact _| |intros e].
  { apply (formed_steady c); [apply cleanupExpired_step|apply on_db_stays, cleanupExpired_steady; exact _]. }
  apply stays_bind; [exact _| |intros u].
  { apply (formed_steady c); [apply cleanupExpiredUploads_step|]. unfold cleanupExpiredUploads. solve_world. apply cleanup_upload_steady. }
  apply stays_bind; [exact _| |intros t].
  { apply stays_bind; [exact _|apply stays_query; exact _|intros rows]. apply stays_mcount; [exact _|intros k]. apply purgeSubtree_formed. }
  apply stays_bind; [exact _| |intros v].
  { intros w [Hw Ht Hp]. split; [by destruct (pruneFileVersions_step p c (clk 0) w Hw)|by apply delete_versions_typed|by apply pruned_current]. }
  apply stays_bind; [exact _| |intros b].
  { apply (formed_steady c); [apply collectUnreferencedBlobs_step|apply collectUnreferencedBlobs_steady]. }
  apply stays_bind; [exact _| |intros f].
  { apply (formed_steady c); [apply collectOrphanBlobFiles_step|apply collectOrphanBlobFiles_steady]. }
  solve_stays.
Qed.
End maintenance.

(** ** Requests *)

Definition well_typed (d d' : DB) : Prop := (schema_ok d -> schema_ok d') /\ (current_ok d -> current_ok d').
Lemma steady_typed d d' : steady d d' -> well_typed d d'.
Proof. intros [Hk Hc]. split; [exact Hk|by apply current_ok_same]. Qed.

Section requests.
Context {U : UuidLib} {UL : UuidLaws U} {TP : TimeParser} {A2 : Argon2} {E : Ed25519} {J : JsonBodies} (api : API).

Lemma on_db_typed {A} (m : M DB A) w : stays steady m -> well_typed (db w) (db (on_db m w).2).
Proof. intros Hm. specialize (Hm (db w)). unfold on_db. destruct (m (db w)). by apply steady_typed. Qed.

Lemma PurgeTrashEntry_typed clk u n w : sound w -> well_typed (db w) (db (PurgeTrashEntry clk u n w).2).
Proof.
  intros Hw. split.
  - apply (PurgeTrashEntry_keeps clk u n w).
  - destruct (purge_call_outcome clk u n w) as [->|(r & t & _ & _ & _ & -> & _)]; [apply Hw|done|apply purged_current].
Qed.

Lemma service_call_typed env u dev w w' : service_call api env u dev w w' -> sound w -> well_typed (db w) (db w').
Proof.
  intros [q w0 _ _|q w0 _|q w0 _|f v e w0|n w0|n w0|n w0|vid t v ct key kv c w0|b key sig w0|w0|t w0] Hw;
    first [by apply PurgeTrashEntry_typed | apply upload_handle_typed | apply on_db_typed];
    first [apply handle_steady | apply share_handle_steady | apply CreateFolderKey_steady | apply Add_steady | apply Remove_steady
          | apply UploadAuthenticated_steady | apply Put_steady | apply RecordSync_steady | apply RevokeDevice_steady].
Qed.

Lemma session_call_typed env q s s' : session_call api env q s s' -> well_typed (db (world s)) (db (world s')).
Proof.
  intros [Hv _]. apply steady_typed. change (steady (auth_db (auth_view s)) (auth_db (auth_view s'))). rewrite Hv.
  destruct q; cbn [auth_handle]; rewrite ?then_ret_stays.
  - apply (Login_stays_of _ _ _ _ _ _ steady). intros. apply loginTx_steady.
  - apply (in_db_stays steady), Refresh_steady.
  - apply (in_db_stays steady), Logout_steady.
  - apply (in_db_stays steady), RecordSync_steady.
  - apply (in_db_stays steady), RevokeDevice_steady.
Qed.

Lemma request_typed env rq s r s' : ServeHTTP api env rq s = (r, s') -> sound (world s) -> well_typed (db (world s)) (db (world s')).
Proof.
  intros H Hs. destruct (rq_route rq) as [o|p] eqn:Er.
  - destruct (open_effect api env rq o s r s' Er H) as [(Hw & _)|[q Hq]]; [by rewrite Hw|by eapply session_call_typed].
  - destruct (protected_effect api env rq p s r s' Er H) as [(Hw & _)|(u & dev & _ & Hc & _)]; [by rewrite Hw|by eapply service_call_typed].
Qed.

Lemma request_formed env rq s r s' : validUUID (call_newid env 1 0) = true -> ServeHTTP api env rq s = (r, s') ->
  well_formed (world s) -> well_formed (world s').
Proof.
  intros Hid H [Hs Ht Hp]. destruct (request_typed env rq s r s' H Hs) as [Hk Hc]. split; [by eapply request_sound|auto..].
Qed.

Lemma homebox_formed env clk rq s : validUUID (call_newid env 1 0) = true -> well_formed (world s) ->
  well_formed (world (homebox api env clk rq s).2).
Proof.
  intros Hid Hs. unfold homebox, HttpServer.New, securityHeaders.
  unfold mux_ServeHTTP at 1. destruct (mux_dispatch _ _ _) as [h vs|to| |] eqn:Ed; [|exact Hs..].
  apply server_dispatch in Ed as [->|[->| ->]]; [exact Hs..|]. simpl. unfold api_handler, mux_ServeHTTP.
  destruct (mux_dispatch _ _ _) as [read values|to| |]; [|exact Hs..].
  destruct (ServeHTTP api env _ s) as [res s'] eqn:Ex. by eapply request_formed.
Qed.
End requests.

(** ** The life of a vault *)

Section life.
Context {U : UuidLib} {UL : UuidLaws U} {TP : TimeParser} {A2 : Argon2} {E : Ed25519} {J : JsonBodies} {K : ECKeys} {X : X509 K}.

Lemma automatic_run_formed (r : Running) clk s : well_formed (world s) -> well_formed (world (automatic_run r clk s)).
Proof.
  intros Hs. unfold automatic_run. pose proof (Run_formed (policy r) clk (world s) Hs) as Hr.
  by destruct (Maintenance.Run (policy r) clk (world s)) as [[res|e] w].
Qed.

Lemma process_formed (r : Running) p q : process_step r p q -> well_formed (world (srv p)) -> well_formed (world (srv q)).
Proof.
  intros [p0 env clk rq _ Hid|p0 clk _ _|p0 clk _ _|p0 _|p0 _ _|p0 _ _|p0 _] Hp; try exact Hp; simpl.
  - by apply homebox_formed.
  - unfold after_first_run. case_match; by apply automatic_run_formed.
  - by apply automatic_run_formed.
Qed.

Definition new_vault : World := MkWorld empty_db ∅ ∅.

(** The commands that write a vault: the accounts, a maintenance pass, and a
    run of the server, up to any point of it. *)
Inductive life_step : World -> World -> Prop :=
| life_admin clk newid salt username password w :
    life_step w (on_db (BootstrapAdmin clk newid salt username password) w).2
| life_user clk newid salt maxUsers username password w :
    life_step w (on_db (CreateUser clk newid salt maxUsers username password) w).2
| life_maintenance p clk w : life_step w (Maintenance.Run p clk w).2
| life_server r p : rtc (process_step r) (started r) p -> life_step (world (start r)) (world (srv p)).

Lemma new_vault_formed : well_formed new_vault.
Proof.
  split; [split|apply empty_db_ok|by intros k r v Hk; simpl in Hk; rewrite lookup_empty in Hk].
  - split; intros *; simpl; by rewrite lookup_empty.
  - by apply vault_okb_sound.
Qed.

Lemma accounts_only (m : M DB User) : stays steady m -> stays same_vault m -> stays formed (on_db m).
Proof.
  intros Hm Hv w [[Hs Hf] Ht Hp]. specialize (Hm (db w)). specialize (Hv (db w)). unfold on_db.
  destruct (m (db w)) as [r d]. simpl in *. apply steady_typed in Hm as [Hk Hc]. split; [split|auto..].
  - apply storage_ok_same; [by apply same_vault_stored|done].
  - by eapply vault_ok_same_vault.
Qed.

Lemma insert_account_vault role id username norm hash now : stays same_vault (exec (insert_account role id username norm hash now)).
Proof. apply stays_exec; [exact _|]. intros d d' Hi. by apply (constrained_vault _ _ _ _ _ _ _ _ Hi). Qed.

Lemma life_step_formed w w' : life_step w w' -> well_formed w -> well_formed w'.
Proof.
  intros [clk newid salt username password w0|clk newid salt maxUsers username password w0|p clk w0|r p Hr].
  - apply accounts_only; [apply BootstrapAdmin_steady|]. unfold BootstrapAdmin. solve_stays. apply insert_account_vault.
  - apply accounts_only; [apply CreateUser_steady|]. unfold CreateUser. solve_stays. apply insert_account_vault.
  - apply Run_formed.
  - change (well_formed (world (srv (started r))) -> well_formed (world (srv p))).
    induction Hr as [|p1 p2 p3 H12 _ IH]; [done|]. intros H1. by eapply IH, process_formed.
Qed.

(** The ciphertext a file shows: its current version names it, and it is
    there, of the recorded size and hash. *)
Definition downloadable (w : World) (k v : string) : Prop := exists f b data,
  file_versions (db w) !! v = Some f /\ fv_node_id f = k /\ blobs (db w) !! fv_blob_id f = Some b /\
  OpenNodeBlob k v (db w) = Ok (blob_storage_rel_path b, blob_ciphertext_size b) /\
  files w !! blob_storage_rel_path b = Some data /\ Z.of_nat (List.length data) = blob_ciphertext_size b /\
  hex_EncodeToString (Sum256 data) = blob_ciphertext_sha256 b.

Lemma version_downloadable w k v f : well_formed w -> file_versions (db w) !! v = Some f -> fv_node_id f = k -> downloadable w k v.
Proof.
  intros [[Hs _] Ht _] Hf Ef. pose proof (versions_ok _ Ht _ _ Hf) as [[_ [b Hb]%has_spec]%andb_prop _]%andb_prop.
  destruct (st_blobs _ Hs _ _ Hb) as (_ & Hpath & data & Hd & Hl & Hh). exists f, b, data. rewrite Hpath. split_and!; try done.
  unfold OpenNodeBlob. by rewrite Hf, Ef, String.eqb_refl, Hb, Hpath.
Qed.

Lemma current_downloadable w k r v : well_formed w -> nodes (db w) !! k = Some r -> node_current_version_id r = Some v -> downloadable w k v.
Proof. intros Hw Hk Hv. destruct (wf_current _ Hw k r v Hk Hv) as (f & Hf & Ef). by eapply version_downloadable. Qed.

Lemma life_formed w : rtc life_step new_vault w -> well_formed w.
Proof.
  intros Hl. pose proof new_vault_formed as H0. induction Hl as [|w1 w2 w3 H12 _ IH]; [done|]. by eapply IH, life_step_formed.
Qed.

(** C2. The typing of the stored state, over the whole life of a vault.  In
    every vault the program builds from an empty one, by creating accounts, by
    maintenance passes and by runs of the server stopped at any point, whatever
    was requested and whatever failed: every enumerated column holds one of its
    values, every unique column is unique and every reference has its row; the
    parent links, revisions, feed and storage tree are sound; and the version
    each file shows is a version of that file, whose ciphertext is in the
    storage with the recorded size and SHA-256 hash. *)
Theorem vault_well_formed w : rtc life_step new_vault w ->
  well_formed w /\ forall k r v, nodes (db w) !! k = Some r -> node_current_version_id r = Some v -> downloadable w k v.
Proof.
  intros Hl. pose proof (life_formed w Hl) as Hw. split; [done|]. intros k r v. by apply current_downloadable.
Qed.
End life.
