(* ===== verification/Downloads.v ===== *)
(** * Downloads in a well-formed vault

    [GET /api/v1/files/{id}/content]: what may be read is served, intact and in
    the ranges the request asks for; of the internal errors of the handler those
    for ciphertext that is missing or damaged do not occur. *)

From S2P Require Import Prelude GoText GoTime Uuid Sha256 Schema Access Auth Session Nodes NodesSpec Uploads UploadsStorage Maintenance MaintenanceCorrect DeviceAuth HttpApi HttpBodies GoServeContent HttpVault HttpRoutes HttpCorrect Typing TypingOps TypingRun.
From Stdlib Require Import String.
Local Open Scope string_scope.

Section downloads.
Context {U : UuidLib} {TP : TimeParser} {A2 : Argon2} {E : Ed25519} (api : API) (env : RequestEnv).

(** The version a request names: [versionId], or the current one. *)
Definition asked_version (versionId current : string) : option string :=
  if String.eqb versionId "" then Some current else if canonicalUUID versionId then Some versionId else None.

(** What the bytes of a version must be. *)
Definition intact (d : DB) (id v : string) (content : list byte) : Prop := exists f b,
  file_versions d !! v = Some f /\ fv_node_id f = id /\ blobs d !! fv_blob_id f = Some b /\
  Z.of_nat (List.length content) = blob_ciphertext_size b /\ hex_EncodeToString (Sum256 content) = blob_ciphertext_sha256 b.

Lemma current_of_get u id d node v : Nodes.Get u id d = Ok node -> Nodes.CurrentVersionID node = Some v ->
  exists r, nodes d !! id = Some r /\ node_current_version_id r = Some v.
Proof.
  unfold Nodes.Get. destruct (nodes d !! id) as [r|]; [|done]. intros (n & Hn & H)%rbind_ok_inv Hv. exists r. split; [done|].
  assert (n = node) as ->.
  { destruct (negb _) in H; [|by injection H]. destruct (Node_IsDeleted n); [done|]. apply rbind_ok_inv in H as (g & _ & H).
    destruct g; [by injection H|done]. }
  unfold scanNode, scanNodeWithCreatedAt in Hn. inv_ok Hn. subst. inv_ok H0. by subst.
Qed.

(** What the system reports when the file at [path] cannot be opened. *)
Definition open_fault (path : string) : option string :=
  match open_fails env path with Some what => Some what | None => stat_fails env path end.

(** C10. In a well-formed vault downloads work.  A client with a valid token
    asks for the content of a live file its account may read, of the current
    version or of a version the file has.  The content is stored intact, of the
    recorded size and SHA-256 hash, and nothing changes in the vault.  Unless
    the system fails to open the file, which is logged and answered with a
    fixed 500, the answer is what the request's conditions and ranges ask for:
    200 with all of the content for a plain request, 206 with the rest of it
    for one that resumes at a byte within it, and whatever part is sent is the
    content at the place the answer names. *)
Theorem download_served rq s u dev id versionId c node current v :
  well_formed (world s) -> rq_route rq = Protected (GetContent id versionId c) ->
  request_actor env rq (db (world s)) = Some (u, dev) -> canonicalUUID id = true ->
  Nodes.Get u id (db (world s)) = Ok node -> Nodes.CurrentVersionID node = Some current ->
  Nodes.NodeType node = "FILE" -> Nodes.Node_IsDeleted node = false ->
  asked_version versionId current = Some v ->
  (versionId <> "" -> exists f, file_versions (db (world s)) !! v = Some f /\ fv_node_id f = id) ->
  exists path content, Uploads.OpenNodeBlob id v (db (world s)) = Ok (path, Z.of_nat (List.length content)) /\
    intact (db (world s)) id v content /\
    match open_fault path with
    | Some what => ServeHTTP api env rq s =
        (errorResponse env 500 "INTERNAL_ERROR" "failed to open stored ciphertext", add_log ("download ciphertext", requestID env, Internal what) s)
    | None => exists sv, ServeHTTP api env rq s = (MkResponse (served_status sv) None (Content (ReplyFile v sv)), s) /\
        sv = ServeContent (file_etag v) (boundary env) c content /\
        (c = unconditional -> sv = Whole content) /\
        (forall n, (0 <= n < Z.of_nat (List.length content))%Z -> (Z.of_nat (List.length content) <= max_int64)%Z -> c = resume_from n ->
           sv = Partial (MkRange n (Z.of_nat (List.length content) - n)) (Z.of_nat (List.length content)) (drop (Z.to_nat n) content)) /\
        (forall r part, (r, part) ∈ served_parts sv ->
           within (Z.of_nat (List.length content)) r /\ part = slice r content /\ Z.of_nat (List.length part) = GoServeContent.length r)
    end.
Proof.
  intros Hw Hr Ha Hid Hg Hc Ht Hdel Hv Hown.
  assert (Hd : downloadable (world s) id v).
  { unfold asked_version in Hv. destruct (String.eqb_spec versionId "") as [->|Hne].
    - injection Hv as <-. destruct (current_of_get _ _ _ _ _ Hg Hc) as (r & Hk & Hcur). by eapply current_downloadable.
    - destruct (Hown Hne) as (f & Hf & Ef). by eapply version_downloadable. }
  destruct Hd as (f & b & data & Hf & Ef & Hb & Ho & Hfile & Hl & Hh). exists (blob_storage_rel_path b), data.
  assert (Hrun : ServeHTTP api env rq s = match open_fault (blob_storage_rel_path b) with
    | Some what => (errorResponse env 500 "INTERNAL_ERROR" "failed to open stored ciphertext", add_log ("download ciphertext", requestID env, Internal what) s)
    | None => let sv := ServeContent (file_etag v) (boundary env) c data in (MkResponse (served_status sv) None (Content (ReplyFile v sv)), s)
    end).
  { unfold ServeHTTP, route_handler. rewrite Hr, (authenticated_as env _ _ _ _ _ Ha). cbn [protected_handler].
    unfold downloadFileContent, pathUUID, mbind, H_bind, mret, H_ret, call, call_or, reading, openFile, open_fault. rewrite Hid. simpl. rewrite Hg. simpl.
    rewrite Hc, Ht, Hdel. simpl. unfold asked_version in Hv. destruct (String.eqb versionId ""); [injection Hv as ->|destruct (canonicalUUID versionId); [injection Hv as ->|done]];
      simpl; rewrite Ho; simpl; (destruct (open_fails env (blob_storage_rel_path b)) as [what|]; [reflexivity|]); rewrite Hfile; simpl;
      (destruct (stat_fails env (blob_storage_rel_path b)) as [what|]; [reflexivity|]); rewrite (proj2 (Z.eqb_eq _ _) Hl); reflexivity. }
  rewrite Hrun. split; [by rewrite Ho, Hl|]. split; [by exists f, b|].
  destruct (open_fault (blob_storage_rel_path b)) as [what|]; [done|]. eexists. split; [reflexivity|]. split; [reflexivity|]. split_and!.
  - intros ->. apply serve_unconditional.
  - intros n Hn Hm ->. by apply serve_resume.
  - intros r part. apply served_parts_correct.
Qed.
End downloads.
