(* ===== verification/TypingRuns.v ===== *)
(** * A vault from its first command to its first file

    Alice's account, her login, a file, its upload in two chunks, and a
    maintenance pass at the next start: the life of a vault, over the wire. *)

From stdpp Require Import countable.
From S2P Require Import Prelude GoText GoTime GoPath GoMux Uuid Sha256 Schema Fixture Auth AuthCorrect Session SessionCorrect Nodes NodesCorrect Sync Uploads UploadsStorage Maintenance MaintenanceCorrect DeviceAuth IdentityCorrect HttpApi HttpBodies GoServeContent HttpAuth HttpVault HttpRoutes HttpCorrect HttpMux HttpMuxCorrect HttpServer SecureTransport BackupRuns MainRuns Main ServerRun Typing TypingOps TypingRun Downloads.
From Stdlib Require Import Ascii String.
Local Open Scope string_scope.
Local Open Scope list_scope.

#[local] Existing Instances HashSignature RawKeys RawCertificates.

Definition alice_password : string := "correct horse battery".
Definition founded : World := (on_db (BootstrapAdmin (ticking noon) (fun _ => alice) [x05] "Alice" alice_password) new_vault).2.

(** What the bodies of the requests decode to. *)
Definition the {A : Type} (a : A) : JsonDecoder A := fun _ => Some a.
#[local] Instance alice_bodies : JsonBodies :=
  MkJsonBodies (the (MkLoginRequest "alice" alice_password (MkDeviceRegistrationBody laptop "laptop" "WINDOWS" "AQ==" 1)))
    refuse refuse refuse refuse refuse refuse refuse
    (the (MkCreateNodeRequest id3 op1 None "FILE" "Bw==" 1 "")) refuse refuse
    (the (MkCreateUploadRequest id3 id1 id2 (Some 1%Z) 2 2 1 "CQ==" "Cg==" "Cw=="))
    (the (MkCompleteUploadRequest op2 alice 1 (Some 1%Z) "")).

Definition first_api : API := MkAPI day "" (Sync.New 100 500) (Uploads.New 1000000 (48 * Hour)).
Definition first_policy : Policy := MkPolicy (168 * Hour) (3 * 24 * Hour) 10 (30 * 24 * Hour).
Definition at_minute (n : Z) : RequestEnv :=
  MkRequestEnv (fun _ => ticking (noon + n * Minute)) (fun _ => fresh_ids id4 id5) (fun _ => tokens x0a) map_to_list op3 (fun _ => None) (fun _ => None) "part".
Definition first_run : Running :=
  MkRunning "[::1]:8787" (MkTLSConfig VersionTLS13 [] false None) "" 0 first_api first_policy Hour (HttpApi.MkServer founded ∅ ∅ ∅ []).

Definition alice_bearer : string := "Bearer " ++ randomToken (tokens x0a 0).
Definition send (method path : string) (body : list byte) : HttpRequest :=
  MkHttpRequest method ("/api/v1" ++ path)%string alice_bearer "10.0.0.8:4000" (MkInput (fun _ => "") (fun _ => "") (MkStream body false)).
Definition upload_path (rest : string) : string := ("/uploads/" ++ id4 ++ rest)%string.
Definition first_requests : list HttpRequest :=
  [send "POST" "/auth/login" []; send "POST" "/nodes" []; send "POST" "/uploads" [];
   send "PUT" (upload_path "/chunks/0") [x01; x02]; send "PUT" (upload_path "/chunks/1") [x03];
   send "POST" (upload_path "/complete") []].

Definition answer (n : Z) (rq : HttpRequest) (s : HttpApi.Server) := homebox first_api (at_minute n) (noon + n * Minute) rq s.
(** The requests one by one, a minute apart. *)
Fixpoint after_requests (n : Z) (rqs : list HttpRequest) (s : HttpApi.Server) : HttpApi.Server :=
  match rqs with [] => s | rq :: rest => after_requests (n + 1) rest (answer n rq s).2 end.
Fixpoint answers (n : Z) (rqs : list HttpRequest) (s : HttpApi.Server) : list (option Z) :=
  match rqs with [] => [] | rq :: rest => answer_status (answer n rq s).1.1 :: answers (n + 1) rest (answer n rq s).2 end.

Example first_answers : answers 0 first_requests (start first_run) = [Some 200; Some 201; Some 201; Some 204; Some 204; Some 200]%Z.
Proof. vm_compute. reflexivity. Qed.

Lemma requests_run n rqs s :
  rtc (process_step first_run) (MkProcess Accepting Starting s) (MkProcess Accepting Starting (after_requests n rqs s)).
Proof.
  revert n s. induction rqs as [|rq rqs IH]; intros n s; [apply rtc_refl|]. cbn [after_requests]. eapply rtc_l; [|apply IH].
  apply (step_request first_run (MkProcess Accepting Starting s)); [done|]. vm_compute. reflexivity.
Qed.

Definition with_file : World := world (after_requests 0 first_requests (start first_run)).
Definition kept : World := (Maintenance.Run first_policy (ticking (noon + 30 * day)) with_file).2.

Lemma first_life : rtc life_step new_vault kept.
Proof.
  eapply rtc_l; [apply life_admin with (clk := ticking noon) (newid := fun _ => alice) (salt := [x05]) (username := "Alice") (password := alice_password)|].
  eapply rtc_l; [apply (life_server first_run (MkProcess Accepting Starting (after_requests 0 first_requests (start first_run)))); apply requests_run|].
  apply rtc_once, life_maintenance.
Qed.

Lemma shows_version : (nodes (db kept) !! id3) ≫= node_current_version_id = Some id1.
Proof. vm_compute. reflexivity. Qed.

Lemma vault_well_formed_witness : well_formed kept /\ downloadable kept id3 id1.
Proof.
  destruct (vault_well_formed kept first_life) as [Hw Hd]. split; [exact Hw|].
  pose proof shows_version as Hs. destruct (nodes (db kept) !! id3) as [r|] eqn:Er; [|discriminate Hs].
  exact (Hd id3 r id1 Er Hs).
Defined.

(** Alice reads the file back. *)
Definition uploaded : HttpApi.Server := after_requests 0 first_requests (start first_run).
Definition read_back (c : Conditions) : HttpRoutes.Request := HttpRoutes.MkRequest alice_bearer "10.0.0.8:4001" (Protected (GetContent id3 "" c)).

Lemma uploaded_formed : well_formed (world uploaded).
Proof.
  apply life_formed.
  eapply rtc_l; [apply life_admin with (clk := ticking noon) (newid := fun _ => alice) (salt := [x05]) (username := "Alice") (password := alice_password)|].
  apply rtc_once, (life_server first_run (MkProcess Accepting Starting uploaded)), requests_run.
Qed.

(** A plain download, one resumed at the second byte, and one while the system
    is out of file descriptors. *)
Definition starved : RequestEnv :=
  MkRequestEnv (fun _ => ticking (noon + 9 * Minute)) (fun _ => fresh_ids id4 id5) (fun _ => tokens x0a) map_to_list op3
    (fun _ => Some "too many open files") (fun _ => None) "part".

Lemma shows_node : exists node, Nodes.Get alice id3 (db (world uploaded)) = Ok node /\ Nodes.CurrentVersionID node = Some id1 /\
  Nodes.NodeType node = "FILE" /\ Nodes.Node_IsDeleted node = false.
Proof. eexists; vm_compute; split_and!; reflexivity. Qed.

Lemma shows_size path n : Uploads.OpenNodeBlob id3 id1 (db (world uploaded)) = Ok (path, n) -> n = 3%Z.
Proof.
  intros H. assert (E : match Uploads.OpenNodeBlob id3 id1 (db (world uploaded)) with Ok r => r.2 | Err _ => 0%Z end = 3%Z)
    by (vm_compute; reflexivity). by rewrite H in E.
Qed.

Lemma download_served_witness :
  (exists content, intact (db (world uploaded)) id3 id1 content /\
     ServeHTTP first_api (at_minute 9) (read_back unconditional) uploaded = (MkResponse 200 None (Content (ReplyFile id1 (Whole content))), uploaded)) /\
  (exists content, intact (db (world uploaded)) id3 id1 content /\
     ServeHTTP first_api (at_minute 9) (read_back (resume_from 1)) uploaded =
       (MkResponse 206 None (Content (ReplyFile id1 (Partial (MkRange 1 2) 3 (drop 1 content)))), uploaded)) /\
  status (ServeHTTP first_api starved (read_back unconditional) uploaded).1 = 500%Z.
Proof.
  destruct shows_node as (node & Hg & Hc & Ht & Hd).
  assert (Hno : "" <> "" -> exists f, file_versions (db (world uploaded)) !! id1 = Some f /\ fv_node_id f = id3) by (intros Hne; by destruct Hne).
  assert (Ha : forall c, request_actor (at_minute 9) (read_back c) (db (world uploaded)) = Some (alice, laptop)) by (intros c; vm_compute; reflexivity).
  assert (Hb : request_actor starved (read_back unconditional) (db (world uploaded)) = Some (alice, laptop)) by (vm_compute; reflexivity).
  assert (Hid : canonicalUUID id3 = true) by (vm_compute; reflexivity).
  split_and!.
  - destruct (download_served first_api (at_minute 9) (read_back unconditional) uploaded alice laptop id3 "" unconditional node id1 id1
      uploaded_formed eq_refl (Ha _) Hid Hg Hc Ht Hd eq_refl Hno) as (path & content & _ & Hi & sv & Hs & _ & Hw & _).
    exists content. split; [exact Hi|]. rewrite Hs, (Hw eq_refl). reflexivity.
  - destruct (download_served first_api (at_minute 9) (read_back (resume_from 1)) uploaded alice laptop id3 "" (resume_from 1) node id1 id1
      uploaded_formed eq_refl (Ha _) Hid Hg Hc Ht Hd eq_refl Hno) as (path & content & Ho & Hi & sv & Hs & _ & _ & Hp & _).
    exists content. split; [exact Hi|]. pose proof (shows_size _ _ Ho) as Hl.
    rewrite Hs, (Hp 1%Z ltac:(rewrite Hl; lia) ltac:(rewrite Hl; done) eq_refl), Hl. reflexivity.
  - destruct (download_served first_api starved (read_back unconditional) uploaded alice laptop id3 "" unconditional node id1 id1
      uploaded_formed eq_refl Hb Hid Hg Hc Ht Hd eq_refl Hno) as (path & content & _ & _ & Hf).
    change (open_fault starved path) with (Some "too many open files") in Hf. rewrite Hf. reflexivity.
Defined.

(** A range behind the end of the file: 416, without [Cache-Control] and [Etag]. *)
Definition beyond : HttpRequest :=
  MkHttpRequest "GET" ("/api/v1/files/" ++ id3 ++ "/content")%string alice_bearer "10.0.0.8:4002"
    (MkInput (fun _ => "") (fun h => if String.eqb h "Range" then "bytes=3-" else "") (MkStream [] false)).
Example range_refusal_cacheable : let r := (answer 9 beyond uploaded).1 in
  answer_status r.1 = Some 416%Z /\ r.2 !! "Cache-Control" = None /\ r.2 !! "Content-Range" = Some "bytes */3".
Proof. vm_compute. split_and!; reflexivity. Qed.
